(* ===== verification/_CoqProject ===== *)
-Q . S2P
Prelude.v
Bytes.v
CMonad.v
Log.v
Wire.v
ByteIO.v
Mailbox.v
DoeEmu.v
DoeSpec.v
EmuSpec.v
ThinServer.v
DaemonDoe.v
IoTree.v
RelayCode.v
RelaySpec.v
Link.v
DaemonClient.v
PipeServer.v
PciRegs.v
PciSpace.v
Byteorder.v
Inet.v
RemoteRc.v
RcServer.v
Boot.v
DeadEmu.v
Netlink.v
NetlinkSpec.v
NlClient.v
NlStart.v
NlFaults.v
NlHeaders.v
SysHeaders.v
Host.v
Relays.v
Sessions.v
NlSession.v
RelayProps.v
EmuProps.v
WireProps.v
ServerProps.v
NetlinkProps.v
HeaderProps.v
