(* ===== verification/Prelude.v ===== *)
(** * The remote root port

    ** The program

    A Linux kernel whose DOE (data object exchange) accesses are intercepted sends
    them to user space, from where they reach a device model running elsewhere. Five
    C programs make up the relay:

    - daemon-doe.c reads an access ([struct avery_pci_config_op], 16 bytes, from
      include/linux/avery_doe.h) from a character device, sends it over TCP and writes
      the answer back to the device;
    - daemon-doe-netlink.c does the same with a generic-netlink family instead of a
      character device: it asks the controller for the family's identifier, registers
      itself, and then serves requests;
    - thin-server.c accepts the TCP connection and turns every access into a
      [simics_transaction_t] (344 bytes) on a named pipe, and every reply on a second
      pipe into an answer;
    - doe-emu.c sits at the other end of the pipes and emulates the DOE mailbox: its
      four registers, DOE discovery and three SPDM requests;
    - remote-rc.c is a stand-alone replacement of the server that answers by itself.

    All but daemon-doe-netlink.c and remote-rc.c include the logger log.h.

    ** The development

    Each program is translated function by function into a computation [C S A]
    (CMonad.v): [S] is the program's globals, and the [world] holds what the kernel
    presents. The results of system calls are taken in order from [w_sched], so a
    theorem about every [w_sched] is a theorem about every error, short transfer and
    end of file. An access outside an array and a signed overflow are undefined
    behaviour ([UB]), a value that every safety theorem excludes. [wp m Q R] says that
    [m] returns in [Q] or halts in [R], and neither is undefined nor out of fuel.

    - Prelude.v: scopes, hint databases, machine integers, lists; Bytes.v: bytes and
      little-endian integers; CMonad.v: the effects and their rules.
    - Log.v: log.h. Wire.v: the two messages, the layout of a C struct and the class
      [CStruct] with its laws [CStructLaws], against which the transfer loops are
      proved. ByteIO.v: the loops [xrecv], [xsend], [xread], [xwrite] (thin-server.c),
      [pipe_read], [pipe_write] (doe-emu.c), [send_all], [recv_all] (daemon-doe.c).
    - Mailbox.v: the abstract mailbox and the protocol [respond], the specification.
      DoeEmu.v: doe-emu.c. DoeSpec.v: the invariant [doe_ok], the abstraction [absr]
      and the refinement of the register file. EmuSpec.v: the main loop against the
      abstract device.
    - ThinServer.v: thin-server.c. DaemonDoe.v: daemon-doe.c. RemoteRc.v: remote-rc.c.
      Netlink.v: daemon-doe-netlink.c; NetlinkSpec.v: its formats, parser and rounds.
    - Sessions.v, NlSession.v: the five programs from the first line of [main], and the
      datagrams the netlink daemon rejects or misreads.
    - IoTree.v: a program as a tree that stops at every system call, [interp] to run it,
      [pmove], one move of a process that runs it, and [booting], what a start-up leads
      to. RelayCode.v: the loop bodies of daemon-doe.c, thin-server.c and doe-emu.c as
      trees; Boot.v: what they and remote-rc.c do from the first line of [main] to the
      loop; both with the proofs that the trees are the programs.
    - Link.v: a client and a server on a TCP connection, what each promises to the other
      (the classes [ClientLaws] and [ServerLaws]), and the proof, from the promises alone,
      that they are safe and complete together; an executable scheduler. The programs are
      instances: DaemonClient.v (daemon-doe.c), NlClient.v and NlStart.v (the loop of
      daemon-doe-netlink.c, and the program from [main]) as clients, PipeServer.v (thin-server.c and doe-emu.c on their
      two pipes) and RcServer.v (remote-rc.c) as servers. RelaySpec.v: the sequential relay
      that PipeServer.v implements. Relays.v: the four systems of a client and a server.
      NlFaults.v: the netlink daemon when calls fail.
      DeadEmu.v: a server whose emulator has ended, with the kernel's rules for a pipe that
      the other process has left, by the flags of [open]. Host.v: register accesses by the
      host, on the emulator and through the whole relay, and the sequential device by the
      accesses of the kernel driver alone ([device_answers]).
    - PciRegs.v, PciSpace.v: include/linux/pci_regs.h. NlHeaders.v:
      include/linux/netlink.h, genetlink.h and asm-generic/socket.h. Byteorder.v:
      include/linux/swab.h, asm/swab.h and byteorder/little_endian.h. Inet.v:
      include/linux/in.h. SysHeaders.v: asm-generic/poll.h, fcntl.h, errno-base.h and
      errno.h.
    - RelayProps.v, EmuProps.v, WireProps.v, ServerProps.v, NetlinkProps.v and
      HeaderProps.v: the properties, each with a witness at a concrete input.

    ** What the theorems show

    - RelayProps.v: daemon-doe.c, thin-server.c and doe-emu.c start at [main] and run
      their own code. In every interleaving and every chunking of the streams, and with
      calls failing at any moment, no process has undefined behaviour and the kernel driver
      gets a prefix of the answers of the sequential device; when no call fails every run
      is bounded and ends with all the answers; these are those of the abstract mailbox,
      access by access. So a host that looks at STATUS and then makes any number of DOE
      exchanges gets exactly the data objects of the protocol, through either daemon. In
      every state at most one transaction is on the pipes and, without failures, one access
      on the connection. Safety and completeness also hold for daemon-doe.c with
      remote-rc.c and, without failing calls, for daemon-doe-netlink.c with either server;
      when calls do fail, its loop stays safe and responds at most once to a request. The
      sequential device is stated by the accesses themselves: which register, read or
      written, and the answer with status 0. The controller's reply may be any well-formed
      one, of any version (nlctrl answers with 2). An emulator that ends is not noticed,
      because thin-server.c opens both pipes with O_RDWR: the relay waits for ever.
    - EmuProps.v: doe-emu.c, from [main], is the abstract device and its register file the
      abstract mailbox; it keeps its types for any input; a host that follows the protocol
      gets exactly the data object that answers its request, an unanswerable request sets
      ERROR, and ABORT recovers; whatever arrives, the program leaves no array, overflows no [int] and
      ends in an orderly way. Discovery enumerates the protocol table, though not in the
      field that pci_regs.h names; a failed GO leaves an unread response, and an
      acknowledgement of nothing clears ERROR.
    - WireProps.v: the transfer loops move exactly the message, for every chunking; the
      two declarations of the transaction agree, and its memory image follows them.
    - ServerProps.v: sessions of thin-server.c (field by field: each transaction and each
      answer, error status included), daemon-doe.c and remote-rc.c from [main],
      their safety for every kernel and peer, what remote-rc.c does with a partial
      access, and that daemon-doe.c does not notice a device that hangs up.
    - NetlinkProps.v: from [main], every well-formed request is parsed, forwarded and
      answered, and datagrams with another command, whatever they carry, or
      without an access are rejected; the datagrams the daemon sends are well
      formed. The lengths inside a datagram are trusted: a zero-length attribute before
      the access makes the attribute loop run forever, and nothing else does; a short access is completed
      with stale bytes; an oversized attribute is followed outside the buffer. A dead
      server is answered for, and after one failed [recv] every later response carries the
      answer to the request before. An empty reply of the controller is not noticed.
    - HeaderProps.v: the field macros of pci_regs.h and the byte swaps of swab.h.

    ** Fuel and bounds

    Loops without a bound in the code take [fuel]. A round of a main loop uses at least
    one result of [w_sched], so any fuel above its length is never exhausted; the safety
    theorems assume just that. A transfer of [len] bytes needs at most [len] rounds,
    because each moves at least one byte; hence 688 results for a transaction and its
    reply and 720 for a round of the server (16 + 344 + 344 + 16). In the concurrent
    systems (Link.v) an access takes at most 64 transfers of a byte between client and
    server and three other moves that carry it on, with at most five moves of a process on
    its own (logging, [poll], taking the next round) around each: 402, besides the work of
    the server, which is 1 for remote-rc.c and 6 * 1378 for the transaction and its reply
    on the pipes; hence 403 and 402 + 6 * 1378 = 6 * 1445. Starting up adds 19 moves for
    daemon-doe.c, 29 for the netlink daemon, 45 for thin-server.c and doe-emu.c, 13 for
    remote-rc.c. The walk over the attributes of a datagram advances four bytes per round
    unless an attribute has length 0, so 1024 rounds are enough for the 4096 bytes of a
    request, and 2048 for the 8192 bytes of the controller's reply.

    ** What is not modelled

    - The kernel: the interception layer and the drivers are not in this repository.
      What they present (bytes on the device, datagrams, results of calls) is arbitrary.
      Delivery on TCP and on the pipes is reliable and in order. In the concurrent systems
      the device hands over and takes back whole accesses, and a write of at least one
      byte fails or takes at least one; the theorems on each program assume neither.
      Channels have no capacity, which the invariant on what is under way justifies.
      There too a start-up call succeeds or fails on its own: that [connect] needs the
      server to listen, and doe-emu.c the pipes that thin-server.c makes, is not stated,
      so that the systems have more runs than the kernel gives. On the netlink socket the
      controller replies once it is asked, and the driver sends requests, well formed and
      of at most 4096 bytes, once the daemon is registered.
    - The expansion of [printf] formats: an event keeps the format and its integer
      arguments.
    - Signals: a write to a closed connection is an error of the call, where the kernel
      would also raise [SIGPIPE]; only DeadEmu.v has the signal, for the pipes.
    - The run scripts, the build files and the remaining installed headers, which have
      no logic the programs use. *)
From Stdlib Require Export ZArith Lia.
From stdpp Require Export base gmap list strings numbers.

(** ** Scopes and hint databases *)

Declare Scope c_scope.
Delimit Scope c_scope with C.
Open Scope Z_scope.

Create HintDb bytes.
Create HintDb cint.
Create HintDb wp.
Create Rewrite HintDb bytes.
Create Rewrite HintDb cint.
Create Rewrite HintDb wp.

(** ** Machine integers: unsigned values are [Z] in range, with the wrap-around written out *)

Definition wrap8 (z : Z) : Z := z mod 2 ^ 8.
Definition wrap16 (z : Z) : Z := z mod 2 ^ 16.
Definition wrap32 (z : Z) : Z := z mod 2 ^ 32.
Definition wrap64 (z : Z) : Z := z mod 2 ^ 64.

(** Conversion to a signed 32-bit [int]: two's complement, as gcc defines it. *)
Definition swrap32 (z : Z) : Z :=
  let u := wrap32 z in if u <? 2 ^ 31 then u else u - 2 ^ 32.

Definition u8 (z : Z) : Prop := 0 <= z < 2 ^ 8.
Definition u16 (z : Z) : Prop := 0 <= z < 2 ^ 16.
Definition u32 (z : Z) : Prop := 0 <= z < 2 ^ 32.
Definition u64 (z : Z) : Prop := 0 <= z < 2 ^ 64.
Definition s32 (z : Z) : Prop := -(2 ^ 31) <= z < 2 ^ 31.

Definition INT_MAX : Z := 2147483647.

#[global] Instance u8_dec z : Decision (u8 z).
Proof. unfold u8; apply _. Defined.
#[global] Instance u32_dec z : Decision (u32 z).
Proof. unfold u32; apply _. Defined.

(** C truth values: [e] as a condition is [e <> 0]. *)
Definition truth (z : Z) : bool := negb (z =? 0).

Lemma truth_true z : truth z = true <-> z <> 0.
Proof. unfold truth. destruct (Z.eqb_spec z 0); naive_solver. Qed.

Lemma truth_false z : truth z = false <-> z = 0.
Proof. unfold truth. destruct (Z.eqb_spec z 0); naive_solver. Qed.

(** Powers of two as numerals, so that [lia] sees the bounds. *)
Ltac pow2 :=
  change (2 ^ 8) with 256 in *; change (2 ^ 16) with 65536 in *;
  change (2 ^ 31) with 2147483648 in *; change (2 ^ 32) with 4294967296 in *;
  change (2 ^ 64) with 18446744073709551616 in *.

Ltac cint :=
  unfold u8, u16, u32, u64, s32, swrap32, wrap8, wrap16, wrap32, wrap64, INT_MAX in *;
  cbv zeta in *;
  pow2; try lia.

Lemma wrap8_u8 z : u8 (wrap8 z).
Proof. unfold u8, wrap8. apply Z.mod_pos_bound. lia. Qed.
Lemma wrap16_u16 z : u16 (wrap16 z).
Proof. unfold u16, wrap16. apply Z.mod_pos_bound. lia. Qed.
Lemma wrap32_u32 z : u32 (wrap32 z).
Proof. unfold u32, wrap32. apply Z.mod_pos_bound. lia. Qed.
Lemma wrap8_id z : u8 z -> wrap8 z = z.
Proof. unfold u8, wrap8. apply Z.mod_small. Qed.
Lemma wrap16_id z : u16 z -> wrap16 z = z.
Proof. unfold u16, wrap16. apply Z.mod_small. Qed.
Lemma wrap32_id z : u32 z -> wrap32 z = z.
Proof. unfold u32, wrap32. apply Z.mod_small. Qed.
Lemma wrap64_id z : u64 z -> wrap64 z = z.
Proof. unfold u64, wrap64. apply Z.mod_small. Qed.

Lemma swrap32_id z : s32 z -> swrap32 z = z.
Proof.
  intros H. cint.
  destruct (Z.ltb_spec (z mod 4294967296) 2147483648);
    Z.div_mod_to_equations; lia.
Qed.

Lemma swrap32_s32 z : s32 (swrap32 z).
Proof.
  cint. pose proof (Z.mod_pos_bound z 4294967296 eq_refl).
  destruct (Z.ltb_spec (z mod 4294967296) 2147483648); lia.
Qed.

Lemma swrap32_wrap32 z : s32 z -> swrap32 (wrap32 z) = z.
Proof.
  intros H. rewrite <- (swrap32_id z H) at 2. unfold swrap32, wrap32.
  by rewrite Zmod_mod.
Qed.

#[export] Hint Resolve wrap8_u8 wrap16_u16 wrap32_u32 swrap32_s32 : cint.
#[export] Hint Rewrite wrap8_id wrap16_id wrap32_id wrap64_id using (cint; lia) : cint.

(** ** Lists *)

Section lists.
Context {A : Type}.
Implicit Types l k : list A.

(** The [n] cells of an array from index [off]. *)
Definition slice (off n : nat) l : list A := take n (drop off l).

(** Overwriting the cells from [off] on with [k]; the caller keeps [k] inside. *)
Definition splice (off : nat) k l : list A :=
  take off l ++ k ++ drop (off + length k) l.

Lemma length_splice off k l :
  (off + length k <= length l)%nat -> length (splice off k l) = length l.
Proof. intros H. unfold splice. rewrite !length_app, length_take, length_drop. lia. Qed.

Lemma length_slice off n l :
  (off + n <= length l)%nat -> length (slice off n l) = n.
Proof. intros H. unfold slice. rewrite length_take, length_drop. lia. Qed.

Lemma slice_splice_eq off k l :
  (off + length k <= length l)%nat -> slice off (length k) (splice off k l) = k.
Proof.
  intros H. unfold slice, splice.
  rewrite drop_app_length' by (rewrite length_take; lia).
  by rewrite take_app_length.
Qed.

Lemma splice_all k l : length k = length l -> splice 0 k l = k.
Proof. intros H. unfold splice. simpl. rewrite drop_ge by lia. by rewrite app_nil_r. Qed.

Lemma splice_nil off l : splice off [] l = l.
Proof. unfold splice. simpl. rewrite Nat.add_0_r. apply take_drop. Qed.

(** A store inside, or adjacent to the end of, an earlier one. *)
Lemma splice_merge o i j a b l :
  j = (o + i)%nat -> (i <= length a)%nat ->
  (o + length a <= length l)%nat -> (o + i + length b <= length l)%nat ->
  splice j b (splice o a l) = splice o (splice i b a) l.
Proof.
  intros -> Hi Ha Hb. unfold splice.
  rewrite (take_app_ge (take o l)), length_take_le by (rewrite ?length_take; lia).
  replace (o + i - o)%nat with i by lia.
  rewrite (take_app_le a) by lia. rewrite <- !app_assoc. do 3 f_equal.
  rewrite (drop_app_ge (take o l)), length_take_le by (rewrite ?length_take; lia).
  replace (o + i + length b - o)%nat with (i + length b)%nat by lia.
  destruct (decide (i + length b <= length a)%nat).
  - rewrite drop_app_le by lia. f_equal. f_equal.
    rewrite !length_app, length_take, length_drop. lia.
  - rewrite drop_app_ge by lia. rewrite (drop_ge a) by lia. rewrite drop_drop. simpl. f_equal.
    rewrite !length_app, length_take. simpl. lia.
Qed.

Lemma insert_splice (i : nat) x l : (i < length l)%nat -> <[i := x]> l = splice i [x] l.
Proof.
  intros H. unfold splice. simpl. rewrite Nat.add_1_r. by apply insert_take_drop.
Qed.

Lemma take_app_exact k l n : length k = n -> take n (k ++ l) = k.
Proof. intros <-. apply take_app_length. Qed.

Lemma drop_app_exact k l n : length k = n -> drop n (k ++ l) = l.
Proof. intros <-. apply drop_app_length. Qed.
End lists.

(** ** Proof automation shared by the components *)

(** Case analysis on every boolean comparison of [Z] in the goal. *)
Ltac zbool :=
  repeat match goal with
  | |- context [?a =? ?b] => destruct (Z.eqb_spec a b)
  | |- context [?a <? ?b] => destruct (Z.ltb_spec a b)
  | |- context [?a <=? ?b] => destruct (Z.leb_spec a b)
  end.

Ltac zbool_hyps :=
  repeat match goal with
  | H : context [?a =? ?b] |- _ => destruct (Z.eqb_spec a b)
  | H : context [?a <? ?b] |- _ => destruct (Z.ltb_spec a b)
  | H : context [?a <=? ?b] |- _ => destruct (Z.leb_spec a b)
  end.
