(* ===== verification/Bytes.v ===== *)
(** * Bytes, little-endian integers and byte-level stores

    The object representation the C code relies on when it casts a [uint32_t]
    array to [uint8_t *], copies an integer with [memcpy], or sends a struct over
    a socket: bytes are [Byte.byte], an [n]-byte integer is its little-endian byte
    list (the programs are built for x86-64, [-I./include] with [ARCH=x86]). *)
From Stdlib Require Import Strings.Byte.
From S2P Require Import Prelude.

Abbreviation byte := Byte.byte.

(** ** One byte *)

Definition byte_to_Z (b : byte) : Z := Z.of_N (Byte.to_N b).

(** The byte a C assignment to a [uint8_t] stores: the value modulo 256. *)
Definition byte_of_Z (z : Z) : byte :=
  default Byte.x00 (Byte.of_N (Z.to_N (wrap8 z))).

#[global] Instance byte_eq_dec : EqDecision byte := Byte.byte_eq_dec.

Lemma byte_to_Z_range b : u8 (byte_to_Z b).
Proof. pose proof (Byte.to_N_bounded b). unfold byte_to_Z. cint. Qed.

Lemma byte_to_of_Z z : byte_to_Z (byte_of_Z z) = wrap8 z.
Proof.
  pose proof (wrap8_u8 z) as Hr. unfold byte_of_Z, byte_to_Z.
  destruct (Byte.of_N _) as [b|] eqn:E; simpl.
  - apply Byte.to_of_N in E. rewrite E. apply Z2N.id. cint.
  - apply Byte.of_N_None_iff in E. cint.
Qed.

Lemma byte_to_Z_inj a b : byte_to_Z a = byte_to_Z b -> a = b.
Proof.
  unfold byte_to_Z. intros H%N2Z.inj.
  pose proof (Byte.of_to_N a). pose proof (Byte.of_to_N b). congruence.
Qed.

Lemma byte_of_to_Z b : byte_of_Z (byte_to_Z b) = b.
Proof. apply byte_to_Z_inj. rewrite byte_to_of_Z. apply wrap8_id, byte_to_Z_range. Qed.

Lemma byte_of_Z_wrap8 z : byte_of_Z (wrap8 z) = byte_of_Z z.
Proof. apply byte_to_Z_inj. rewrite !byte_to_of_Z. apply wrap8_id, wrap8_u8. Qed.

#[export] Hint Resolve byte_to_Z_range : cint bytes.
#[export] Hint Rewrite byte_to_of_Z byte_of_to_Z byte_of_Z_wrap8 : bytes.

(** ** Little-endian integers *)

Fixpoint le_encode (n : nat) (z : Z) : list byte :=
  match n with
  | O => []
  | S n => byte_of_Z z :: le_encode n (z / 256)
  end.

Fixpoint le_decode (bs : list byte) : Z :=
  match bs with
  | [] => 0
  | b :: bs => byte_to_Z b + 256 * le_decode bs
  end.

Lemma length_le_encode n z : length (le_encode n z) = n.
Proof. revert z; induction n; simpl; auto. Qed.

Lemma le_decode_bound bs : 0 <= le_decode bs < 256 ^ Z.of_nat (length bs).
Proof.
  induction bs as [|b bs IH]; [done|]. pose proof (byte_to_Z_range b).
  cbn [le_decode length]. rewrite Nat2Z.inj_succ, Z.pow_succ_r by lia. cint.
Qed.

Lemma le_decode_encode_mod n z : le_decode (le_encode n z) = z mod 256 ^ Z.of_nat n.
Proof.
  revert z; induction n as [|n IH]; intros z.
  { by rewrite Z.mod_1_r. }
  cbn [le_encode le_decode]. rewrite IH, byte_to_of_Z.
  rewrite Nat2Z.inj_succ, Z.pow_succ_r by lia.
  rewrite Z.rem_mul_r by (try apply Z.pow_pos_nonneg; lia). done.
Qed.

Lemma le_decode_encode n z :
  0 <= z < 256 ^ Z.of_nat n -> le_decode (le_encode n z) = z.
Proof. intros H. rewrite le_decode_encode_mod. by apply Z.mod_small. Qed.

Lemma le_encode_decode n bs : length bs = n -> le_encode n (le_decode bs) = bs.
Proof.
  intros <-. induction bs as [|b bs IH]; [done|].
  pose proof (byte_to_Z_range b) as Hb. cbn [length le_encode le_decode]. f_equal.
  - apply byte_to_Z_inj. rewrite byte_to_of_Z. unfold wrap8.
    change (2 ^ 8) with 256. rewrite Z.mul_comm, Z_mod_plus_full. apply Z.mod_small. cint.
  - rewrite Z.mul_comm, Z.div_add, Z.div_small, Z.add_0_l by cint. done.
Qed.

Lemma le_decode_inj bs cs :
  length bs = length cs -> le_decode bs = le_decode cs -> bs = cs.
Proof.
  intros Hl H. rewrite <- (le_encode_decode _ bs eq_refl), H, Hl.
  by apply le_encode_decode.
Qed.

#[export] Hint Rewrite length_le_encode : bytes.

(** Specialised forms for the widths of the C types. *)
Lemma le_decode_encode_u16 z : u16 z -> le_decode (le_encode 2 z) = z.
Proof. intros H. apply le_decode_encode. cint. Qed.
Lemma le_decode_encode_u32 z : u32 z -> le_decode (le_encode 4 z) = z.
Proof. intros H. apply le_decode_encode. cint. Qed.
Lemma le_decode_encode_u64 z : u64 z -> le_decode (le_encode 8 z) = z.
Proof. intros H. apply le_decode_encode. cint. Qed.
Lemma le_decode_u32 bs : length bs = 4%nat -> u32 (le_decode bs).
Proof. intros H. pose proof (le_decode_bound bs) as B. rewrite H in B. apply B. Qed.

(** ** A [uint32_t] array seen through a [uint8_t *]

    [peek_byte buf k] and [poke_byte buf k v] are the load and the store at byte
    offset [k] of an array of 32-bit words; [None] is an access outside the array. *)

Definition peek_byte (buf : list Z) (k : nat) : option Z :=
  d ← buf !! (k `div` 4)%nat;
  byte_to_Z <$> le_encode 4 d !! (k `mod` 4)%nat.

Definition poke_byte (buf : list Z) (k : nat) (v : Z) : option (list Z) :=
  d ← buf !! (k `div` 4)%nat;
  Some (<[(k `div` 4)%nat := le_decode (<[(k `mod` 4)%nat := byte_of_Z v]> (le_encode 4 d))]> buf).

(** The words a byte message fills, zero padded to a whole number of words. *)
Fixpoint pack_dwords (bs : list byte) : list Z :=
  match bs with
  | [] => []
  | b0 :: b1 :: b2 :: b3 :: bs => le_decode [b0; b1; b2; b3] :: pack_dwords bs
  | _ => [le_decode bs]
  end.

Lemma poke_byte_length buf k v buf' :
  poke_byte buf k v = Some buf' -> length buf' = length buf.
Proof.
  unfold poke_byte. destruct (buf !! _); simpl; [|done]. intros [= <-]. apply length_insert.
Qed.

Lemma poke_byte_some buf k v :
  (k < 4 * length buf)%nat -> is_Some (poke_byte buf k v).
Proof.
  intros H. unfold poke_byte.
  assert (k `div` 4 < length buf)%nat as [d ->]%lookup_lt_is_Some_2
    by (apply Nat.Div0.div_lt_upper_bound; lia).
  by eexists.
Qed.

Lemma poke_byte_u32 buf k v buf' :
  Forall u32 buf -> poke_byte buf k v = Some buf' -> Forall u32 buf'.
Proof.
  intros H. unfold poke_byte. destruct (buf !! _); simpl; [|done]. intros [= <-].
  apply Forall_insert; [done|]. apply le_decode_u32.
  by rewrite length_insert.
Qed.
