(* ===== verification/CMonad.v ===== *)
(** * The effects of the C programs

    The five programs are straight-line C over a handful of system calls. A
    computation of type [C S A] threads the program's own state [S] (its globals)
    and the [world] the kernel presents: the environment, the bytes waiting on each
    file descriptor, the datagrams waiting on the netlink socket, the bytes and
    datagrams written so far, the log stream of log.h, and [w_sched], the results the kernel will give to
    the coming system calls, in order. Quantifying over [w_sched] quantifies over
    every error, every short read and write, and every chunking of a stream.

    A computation ends in one of five ways ([outcome]): it returns; it halts, by
    [exit] or because a call never returns; it runs into undefined behaviour (an
    access outside an array, a signed overflow); or a loop of the model runs out of
    fuel, which the theorems exclude. *)
From S2P Require Import Prelude Bytes.

(** ** The world *)

Inductive event : Type :=
| EvCall (name : string) (args : list Z) (ret : Z)
| EvPath (name path : string) (args : list Z) (ret : Z)
| EvLog (fmt : string) (args : list Z) (to_file : bool)
| EvPrint (fmt : string) (args : list Z)
| EvPerror (msg : string).

Record world : Type := World {
  w_env   : string -> option string;
  w_sched : list Z;
  w_in    : gmap Z (list byte);
  w_out   : gmap Z (list byte);
  w_nlin  : list (list byte);
  w_nlout : list (list byte);
  w_logfp : Z;
  w_trace : list event;
}.

Definition set_sched (l : list Z) (w : world) : world :=
  World (w_env w) l (w_in w) (w_out w) (w_nlin w) (w_nlout w) (w_logfp w) (w_trace w).
Definition set_in (m : gmap Z (list byte)) (w : world) : world :=
  World (w_env w) (w_sched w) m (w_out w) (w_nlin w) (w_nlout w) (w_logfp w) (w_trace w).
Definition set_out (m : gmap Z (list byte)) (w : world) : world :=
  World (w_env w) (w_sched w) (w_in w) m (w_nlin w) (w_nlout w) (w_logfp w) (w_trace w).
Definition set_nlin (l : list (list byte)) (w : world) : world :=
  World (w_env w) (w_sched w) (w_in w) (w_out w) l (w_nlout w) (w_logfp w) (w_trace w).
Definition set_nlout (l : list (list byte)) (w : world) : world :=
  World (w_env w) (w_sched w) (w_in w) (w_out w) (w_nlin w) l (w_logfp w) (w_trace w).
Definition add_event (e : event) (w : world) : world :=
  World (w_env w) (w_sched w) (w_in w) (w_out w) (w_nlin w) (w_nlout w) (w_logfp w) (w_trace w ++ [e]).
Definition set_logfp (fp : Z) (w : world) : world :=
  World (w_env w) (w_sched w) (w_in w) (w_out w) (w_nlin w) (w_nlout w) fp (w_trace w).

(** The bytes waiting to be read from, and those written to, a descriptor. *)
Definition pending (fd : Z) (w : world) : list byte := default [] (w_in w !! fd).
Definition written (fd : Z) (w : world) : list byte := default [] (w_out w !! fd).

(** ** Descriptors *)

(** The access modes of [open], in the low bits of its flags (asm-generic/fcntl.h). *)
Definition O_ACCMODE : Z := 3.
Definition O_RDONLY  : Z := 0.
Definition O_WRONLY  : Z := 1.
Definition O_RDWR    : Z := 2.

Definition for_reading (flags : Z) : bool := negb (Z.land flags O_ACCMODE =? O_WRONLY).
Definition for_writing (flags : Z) : bool := negb (Z.land flags O_ACCMODE =? O_RDONLY).

(** What an event says of the descriptor [fd]: [open] gave it, with these flags, or
    [close] took it away. *)
Definition opening (fd : Z) (e : event) (o : option Z) : option Z :=
  match e with
  | EvPath name _ [flags] r => if String.eqb name "open" && (r =? fd) then Some flags else o
  | EvCall name [f] _ => if String.eqb name "close" && (f =? fd) then None else o
  | _ => o
  end.

(** The flags that a program's descriptor [fd] is open with. *)
Definition opened (fd : Z) (w : world) : option Z := foldl (fun o e => opening fd e o) None (w_trace w).

Lemma opened_event fd e w : opened fd (add_event e w) = opening fd e (opened fd w).
Proof. unfold opened. cbn [w_trace add_event]. by rewrite foldl_snoc. Qed.

(** A descriptor that is open, for access [acc]. *)
Definition open_for (acc : Z -> bool) (fd : Z) (w : world) : bool :=
  match opened fd w with Some flags => acc flags | None => false end.

(** ** Computations *)

Inductive halt : Type := Exited (code : Z) | Blocked.

Inductive outcome (S A : Type) : Type :=
| Ok (a : A) (s : S) (w : world)
| Halt (h : halt) (s : S) (w : world)
| UB
| NoFuel.
Arguments Ok {S A} _ _ _.
Arguments Halt {S A} _ _ _.
Arguments UB {S A}.
Arguments NoFuel {S A}.

Definition C (S A : Type) : Type := S -> world -> outcome S A.

#[global] Instance C_ret S : MRet (C S) := fun A a s w => Ok a s w.

#[global] Instance C_bind S : MBind (C S) := fun A B f m s w =>
  match m s w with
  | Ok a s' w' => f a s' w'
  | Halt h s' w' => Halt h s' w'
  | UB => UB
  | NoFuel => NoFuel
  end.

Section primitives.
Context {S : Type}.

Definition get : C S S := fun s w => Ok s s w.
Definition gets {A} (f : S -> A) : C S A := fun s w => Ok (f s) s w.
Definition modify (f : S -> S) : C S unit := fun s w => Ok tt (f s) w.
Definition undefined {A} : C S A := fun _ _ => UB.
Definition out_of_fuel {A} : C S A := fun _ _ => NoFuel.
Definition exit_ {A} (code : Z) : C S A := fun s w => Halt (Exited code) s w.
Definition block {A} : C S A := fun s w => Halt Blocked s w.
Definition modify_world (f : world -> world) : C S unit := fun s w => Ok tt s (f w).
Definition emit (e : event) : C S unit := modify_world (add_event e).

(** An array access: the element, or undefined behaviour outside the array. *)
Definition checked {A} (o : option A) : C S A :=
  match o with Some a => mret a | None => undefined end.

(** An [int] sum; signed overflow is undefined. *)
Definition int_add (a b : Z) : C S Z :=
  if (-(2 ^ 31) <=? a + b) && (a + b <=? INT_MAX) then mret (a + b) else undefined.

(** An array index of type [int]. *)
Definition array_get {A} (l : list A) (i : Z) : C S A :=
  if i <? 0 then undefined else checked (l !! Z.to_nat i).

Definition array_set {A} (l : list A) (i : Z) (v : A) : C S (list A) :=
  if (0 <=? i) && (i <? Z.of_nat (length l)) then mret (<[Z.to_nat i := v]> l) else undefined.

Definition printf (fmt : string) (args : list Z) : C S unit := emit (EvPrint fmt args).
Definition perror (msg : string) : C S unit := emit (EvPerror msg).
Definition getenv (name : string) : C S (option string) := fun s w => Ok (w_env w name) s w.

(** The kernel's next result; a call that never returns when there is none. *)
Definition next : C S Z := fun s w =>
  match w_sched w with
  | [] => Halt Blocked s w
  | c :: rest => Ok c s (set_sched rest w)
  end.

(** A call with no payload: [socket], [bind], [listen], [accept], ... *)
Definition sys (name : string) (args : list Z) : C S Z :=
  c ← next; emit (EvCall name args c);; mret c.

(** A call on a path, with its integer arguments: [open], [mkfifo], [fopen]. *)
Definition sys_path (name path : string) (args : list Z) : C S Z :=
  c ← next; emit (EvPath name path args c);; mret c.

(** [read] and stream [recv] of at most [len] bytes: a result [c <= 0] is an
    error or end of file; otherwise the kernel delivers between one byte and the
    smallest of [c], [len] and what is waiting, and blocks when nothing is. *)
Definition sys_read (fd : Z) (len : nat) : C S (Z * list byte) := fun s w =>
  match w_sched w with
  | [] => Halt Blocked s w
  | c :: rest =>
      if c <=? 0 then Ok (c, []) s (set_sched rest w)
      else match pending fd w with
           | [] => Halt Blocked s w
           | avail =>
               let n := Nat.min (Nat.min (Z.to_nat c) len) (length avail) in
               Ok (Z.of_nat n, take n avail) s
                  (set_in (<[fd := drop n avail]> (w_in w)) (set_sched rest w))
           end
  end.

(** [write] and stream [send]: an error, or a prefix of the buffer is accepted. *)
Definition sys_write (fd : Z) (bs : list byte) : C S Z := fun s w =>
  match w_sched w with
  | [] => Halt Blocked s w
  | c :: rest =>
      if c <=? 0 then Ok c s (set_sched rest w)
      else let n := Nat.min (Z.to_nat c) (length bs) in
           Ok (Z.of_nat n) s
              (set_out (<[fd := written fd w ++ take n bs]> (w_out w)) (set_sched rest w))
  end.

(** [recv] on the netlink socket: one datagram, cut to the buffer. *)
Definition sys_recv_msg (len : nat) : C S (Z * list byte) := fun s w =>
  match w_sched w with
  | [] => Halt Blocked s w
  | c :: rest =>
      if c <=? 0 then Ok (c, []) s (set_sched rest w)
      else match w_nlin w with
           | [] => Halt Blocked s w
           | m :: ms =>
               let bs := take len m in
               Ok (Z.of_nat (length bs), bs) s (set_nlin ms (set_sched rest w))
           end
  end.

(** [sendto] on the netlink socket: an error, or the whole datagram is queued. *)
Definition sys_sendto_msg (bs : list byte) : C S Z := fun s w =>
  match w_sched w with
  | [] => Halt Blocked s w
  | c :: rest =>
      if c <? 0 then Ok c s (set_sched rest w)
      else Ok (Z.of_nat (length bs)) s (set_nlout (w_nlout w ++ [bs]) (set_sched rest w))
  end.

(** [for (;;) body], with [body] returning whether the loop goes on. *)
Fixpoint forever (fuel : nat) (body : C S bool) : C S unit :=
  match fuel with
  | O => out_of_fuel
  | Datatypes.S fuel => go ← body; if go : bool then forever fuel body else mret tt
  end.
End primitives.

(** A computation on a component of the state. *)
Definition zoom {S T A} (pr : S -> T) (set : T -> S -> S) (m : C T A) : C S A := fun s w =>
  match m (pr s) w with
  | Ok a t w' => Ok a (set t s) w'
  | Halt h t w' => Halt h (set t s) w'
  | UB => UB
  | NoFuel => NoFuel
  end.

(** ** The program logic

    [wp m Q R s w]: run from [s] and [w], [m] has no undefined behaviour and enough
    fuel; if it returns, [Q] holds, and if it halts, [R] does. *)

Definition wp {S A} (m : C S A) (Q : A -> S -> world -> Prop)
    (R : halt -> S -> world -> Prop) (s : S) (w : world) : Prop :=
  match m s w with
  | Ok a s' w' => Q a s' w'
  | Halt h s' w' => R h s' w'
  | UB | NoFuel => False
  end.

(** No halting outcome: the computation returns. *)
Definition never : forall {S : Type}, halt -> S -> world -> Prop := fun _ _ _ _ => False.

(** Any halting outcome is acceptable: the postcondition of partial correctness. *)
Definition any_halt : forall {S : Type}, halt -> S -> world -> Prop := fun _ _ _ _ => True.

Section logic.
Context {S : Type}.
Implicit Types (s : S) (w : world).

Lemma wp_mono {A} (m : C S A) (Q Q' : A -> S -> world -> Prop) (R R' : halt -> S -> world -> Prop) s w :
  wp m Q R s w ->
  (forall a s' w', Q a s' w' -> Q' a s' w') ->
  (forall h s' w', R h s' w' -> R' h s' w') ->
  wp m Q' R' s w.
Proof. unfold wp. destruct (m s w); eauto. Qed.

Lemma wp_conj {A} (m : C S A) (Q Q' : A -> S -> world -> Prop) (R : halt -> S -> world -> Prop) s w :
  wp m Q R s w -> wp m Q' R s w -> wp m (fun a s' w' => Q a s' w' /\ Q' a s' w') R s w.
Proof. unfold wp. destruct (m s w); eauto. Qed.

Lemma wp_ret {A} (a : A) (Q : A -> S -> world -> Prop) R s w :
  Q a s w -> wp (mret a) Q R s w.
Proof. done. Qed.

Lemma wp_bind {A B} (m : C S A) (f : A -> C S B) Q R s w :
  wp m (fun a s' w' => wp (f a) Q R s' w') R s w -> wp (m ≫= f) Q R s w.
Proof. unfold wp, mbind, C_bind. destruct (m s w); eauto. Qed.

Lemma wp_bind_inv {A B} (m : C S A) (f : A -> C S B) Q R s w :
  wp (m ≫= f) Q R s w -> wp m (fun a s' w' => wp (f a) Q R s' w') R s w.
Proof. unfold wp, mbind, C_bind. destruct (m s w); eauto. Qed.

Lemma wp_get (Q : S -> S -> world -> Prop) R s w : Q s s w -> wp get Q R s w.
Proof. done. Qed.

Lemma wp_gets {A} (f : S -> A) (Q : A -> S -> world -> Prop) R s w :
  Q (f s) s w -> wp (gets f) Q R s w.
Proof. done. Qed.

Lemma wp_modify (f : S -> S) (Q : unit -> S -> world -> Prop) R s w :
  Q tt (f s) w -> wp (modify f) Q R s w.
Proof. done. Qed.

Lemma wp_int_add a b (Q : Z -> S -> world -> Prop) R s w :
  s32 (a + b) -> Q (a + b) s w -> wp (int_add a b) Q R s w.
Proof.
  intros H HQ. unfold int_add. cint.
  destruct (Z.leb_spec (-(2147483648)) (a + b)); [|lia].
  by destruct (Z.leb_spec (a + b) 2147483647); [|lia].
Qed.

Lemma wp_array_get {A} (l : list A) i a (Q : A -> S -> world -> Prop) R s w :
  0 <= i -> l !! Z.to_nat i = Some a -> Q a s w -> wp (array_get l i) Q R s w.
Proof. intros Hi Hl HQ. unfold array_get. destruct (Z.ltb_spec i 0); [lia|]. by rewrite Hl. Qed.

Lemma wp_array_set {A} (l : list A) i a (Q : list A -> S -> world -> Prop) R s w :
  0 <= i < Z.of_nat (length l) -> Q (<[Z.to_nat i := a]> l) s w -> wp (array_set l i a) Q R s w.
Proof.
  intros Hi HQ. unfold array_set.
  destruct (Z.leb_spec 0 i); [|lia]. by destruct (Z.ltb_spec i (Z.of_nat (length l))); [|lia].
Qed.

Lemma wp_emit e (Q : unit -> S -> world -> Prop) R s w :
  Q tt s (add_event e w) -> wp (emit e) Q R s w.
Proof. done. Qed.

Lemma wp_checked {A} (o : option A) (a : A) (Q : A -> S -> world -> Prop) R s w :
  o = Some a -> Q a s w -> wp (checked o) Q R s w.
Proof. by intros ->. Qed.

Lemma wp_next (Q : Z -> S -> world -> Prop) (R : halt -> S -> world -> Prop) s w :
  (w_sched w = [] -> R Blocked s w) ->
  (forall c rest, w_sched w = c :: rest -> Q c s (set_sched rest w)) ->
  wp next Q R s w.
Proof. intros H1 H2. unfold wp, next. destruct (w_sched w) eqn:E; eauto. Qed.

(** A call whose result may be anything, or may never come. *)
Lemma wp_next_any (Q : Z -> S -> world -> Prop) (R : halt -> S -> world -> Prop) s w :
  R Blocked s w ->
  (forall c w', (length (w_sched w') < length (w_sched w))%nat -> Q c s w') ->
  wp next Q R s w.
Proof.
  intros H1 H2. unfold wp, next. destruct (w_sched w) eqn:E; [done|].
  apply H2. cbn. lia.
Qed.

Lemma wp_sys_any name args (Q : Z -> S -> world -> Prop) (R : halt -> S -> world -> Prop) s w :
  R Blocked s w ->
  (forall c w', (length (w_sched w') < length (w_sched w))%nat -> Q c s w') ->
  wp (sys name args) Q R s w.
Proof.
  intros H1 H2. apply wp_bind, wp_next_any; [done|]. intros c w' Hl.
  apply wp_bind, wp_emit, wp_ret. by apply H2.
Qed.

Lemma wp_sys_path_any name path args (Q : Z -> S -> world -> Prop) (R : halt -> S -> world -> Prop) s w :
  R Blocked s w ->
  (forall c w', (length (w_sched w') < length (w_sched w))%nat -> Q c s w') ->
  wp (sys_path name path args) Q R s w.
Proof.
  intros H1 H2. apply wp_bind, wp_next_any; [done|]. intros c w' Hl.
  apply wp_bind, wp_emit, wp_ret. by apply H2.
Qed.

Lemma wp_getenv name (Q : option string -> S -> world -> Prop) R s w :
  Q (w_env w name) s w -> wp (getenv name) Q R s w.
Proof. done. Qed.

(** An invariant of the body is an invariant of [for (;;)], and with a measure
    that every further round decreases the loop has enough fuel. *)
Lemma wp_forever (I : S -> world -> Prop) (measure : world -> nat)
    (body : C S bool) (Q : unit -> S -> world -> Prop) (R : halt -> S -> world -> Prop) :
  (forall s w, I s w ->
     wp body (fun go s' w' =>
                if go : bool then I s' w' /\ (measure w' < measure w)%nat else Q tt s' w')
             R s w) ->
  forall fuel s w, I s w -> (measure w < fuel)%nat -> wp (forever fuel body) Q R s w.
Proof.
  intros Hbody fuel. induction fuel as [|fuel IH]; intros s w HI Hm; [lia|].
  cbn [forever]. apply wp_bind. eapply wp_mono; [by apply Hbody|..]; [|done].
  intros [] s' w'; [|done]. intros [HI' Hm']. apply IH; [done|lia].
Qed.

Lemma wp_zoom {T A} (pr : S -> T) (set : T -> S -> S) (m : C T A) Q R s w :
  wp m (fun a t w' => Q a (set t s) w') (fun h t w' => R h (set t s) w') (pr s) w ->
  wp (zoom pr set m) Q R s w.
Proof. unfold wp, zoom. destruct (m (pr s) w); eauto. Qed.
End logic.

(** The halting outcomes of a program whose every failure is reported: [exit(1)],
    or a call that does not return. *)
Definition orderly {S} (h : halt) (s : S) (w : world) : Prop := h = Exited 1 \/ h = Blocked.

(** One step of a proof that a program is safe whatever the kernel answers. *)
Ltac any_step :=
  lazymatch goal with
  | |- wp (mbind _ _) _ _ _ _ => apply wp_bind
  | |- wp get _ _ _ _ => apply wp_get
  | |- wp (gets _) _ _ _ _ => apply wp_gets
  | |- wp (modify _) _ _ _ _ => apply wp_modify
  | |- wp (mret _) _ _ _ _ => apply wp_ret
  | |- wp (exit_ _) _ _ _ _ => by left
  | |- wp (emit _) _ _ _ _ => apply wp_emit
  | |- wp (printf _ _) _ _ _ _ => apply wp_emit
  | |- wp (perror _) _ _ _ _ => apply wp_emit
  | |- wp (getenv _) _ _ _ _ => apply wp_getenv
  | |- wp (sys _ _) _ _ _ _ => apply wp_sys_any; [by right|intros ? ? ?]
  | |- wp (sys_path _ _ _) _ _ _ _ => apply wp_sys_path_any; [by right|intros ? ? ?]
  | |- wp next _ _ _ _ => apply wp_next_any; [by right|intros ? ? ?]
  | |- wp (if ?b then _ else _) _ _ _ _ => destruct b eqn:?; try congruence
  end; cbn beta iota zeta.

(** ** Schedules

    A world is [live m k] when at least [k] more results will come and every one of
    them is at least [m > 0]: the kernel makes progress, [m] bytes at a time.
    [used k w w'] bounds the results that a computation consumed. *)

Definition live (m : Z) (k : nat) (w : world) : Prop :=
  0 < m /\ Forall (fun c => m <= c) (w_sched w) /\ (k <= length (w_sched w))%nat.

Definition used (k : nat) (w w' : world) : Prop :=
  exists j, (j <= k)%nat /\ w_sched w' = drop j (w_sched w).

Lemma live_mono {m} j k w : (j <= k)%nat -> live m k w -> live m j w.
Proof. intros ? (? & ? & ?); split; [done|split; [done|lia]]. Qed.

Lemma live_used {m} j k w w' : live m (j + k) w -> used j w w' -> live m k w'.
Proof.
  intros (Hm & HF & Hl) (i & Hi & Hs). unfold live. rewrite Hs. split; [done|split].
  - by apply Forall_drop.
  - rewrite length_drop. lia.
Qed.

Lemma live_next {m} k w : live m (S k) w -> exists c rest, w_sched w = c :: rest /\ m <= c /\ 0 < c.
Proof.
  intros (Hm & HF & Hl). destruct (w_sched w) as [|c rest]; [simpl in Hl; lia|].
  exists c, rest. pose proof (Forall_inv HF) as Hc. simpl in Hc. split; [done|split; [done|lia]].
Qed.

Lemma used_refl k w : used k w w.
Proof. exists 0%nat. split; [lia|done]. Qed.

Lemma used_trans j k w w' w'' : used j w w' -> used k w' w'' -> used (j + k) w w''.
Proof.
  intros (i & Hi & Hs) (i' & Hi' & Hs'). exists (i + i')%nat. split; [lia|].
  by rewrite Hs', Hs, drop_drop.
Qed.

Lemma used_sched k w w' : w_sched w' = w_sched w -> used k w w'.
Proof. intros H. exists 0%nat. split; [lia|done]. Qed.

#[export] Hint Resolve used_refl used_sched : wp.

(** ** Equality of computations, and the laws of the monad *)

Definition ceq {S A} (m m' : C S A) : Prop := forall s w, m s w = m' s w.
Infix "≐" := ceq (at level 70).

#[global] Instance ceq_equiv {S A} : Equivalence (@ceq S A).
Proof.
  split; [by intros m s w|by intros m m' H s w|].
  intros m m' m'' H H' s w. by rewrite H, H'.
Qed.

Lemma ceq_bind {S A B} (m m' : C S A) (f f' : A -> C S B) :
  m ≐ m' -> (forall a, f a ≐ f' a) -> (m ≫= f) ≐ (m' ≫= f').
Proof.
  intros Hm Hf s w. unfold mbind, C_bind. rewrite Hm.
  destruct (m' s w) as [a s' w'| | |]; try done. apply Hf.
Qed.

#[global] Instance bind_proper {S A B} :
  Proper (pointwise_relation A ceq ==> ceq ==> ceq) (fun (f : A -> C S B) (m : C S A) => m ≫= f).
Proof. intros f f' Hf m m' Hm. by apply ceq_bind. Qed.

Lemma bind_assoc {S A B D} (m : C S A) (f : A -> C S B) (g : B -> C S D) :
  ((m ≫= f) ≫= g) ≐ (m ≫= fun a => f a ≫= g).
Proof. intros s w. unfold mbind, C_bind. by destruct (m s w). Qed.

Lemma bind_ret {S A} (m : C S A) : (m ≫= mret) ≐ m.
Proof. intros s w. unfold mbind, C_bind. by destruct (m s w). Qed.

Lemma ceq_wp {S A} (m m' : C S A) Q R s w : m ≐ m' -> wp m Q R s w -> wp m' Q R s w.
Proof. intros H. unfold wp. by rewrite H. Qed.

(** Peels the same computation off both sides. *)
Ltac same_step := apply ceq_bind; [reflexivity|intros ?]; cbn beta.
