(* ===== verification/Log.v ===== *)
(** * log.h: the logger each program includes

    [log_fp] is the file-static [FILE *] of log.h, kept in the world as [w_logfp]
    ([0] is [NULL]). A message goes to the standard output, and to the log file
    when one is open, after a prefix with the time of day, the file and the line.
    An event keeps the format and the integer arguments of a line; string arguments
    and the expansion of the format are not recorded. *)
From stdpp Require Import pretty.
From S2P Require Import Prelude Bytes CMonad.

Section log.
Context {S : Type}.

(** [if (path) log_fp = fopen(path, "w");] *)
Definition log_init (path : option string) : C S unit :=
  match path with
  | Some p => fp ← sys_path "fopen" p []; modify_world (set_logfp fp)
  | None => mret tt
  end.

(** [if (log_fp) { fclose(log_fp); log_fp = NULL; }] *)
Definition log_close : C S unit := modify_world (fun w =>
  if truth (w_logfp w) then set_logfp 0 (add_event (EvCall "fclose" [w_logfp w] 0) w) else w).

(** The message part of [log_msg]: the standard output always, the file if open. *)
Definition LOG (fmt : string) (args : list Z) : C S unit := modify_world (fun w =>
  add_event (EvLog fmt args (truth (w_logfp w))) w).

Lemma wp_LOG fmt args (Q : unit -> S -> world -> Prop) (R : halt -> S -> world -> Prop) s w :
  (forall e, Q tt s (add_event e w)) -> wp (LOG fmt args) Q R s w.
Proof. intros H. apply H. Qed.

Lemma wp_log_close (Q : unit -> S -> world -> Prop) R s w :
  (forall w', w_sched w' = w_sched w -> Q tt s w') -> wp log_close Q R s w.
Proof. intros H. apply H. by destruct (truth _). Qed.

Lemma wp_log_init path (Q : unit -> S -> world -> Prop) (R : halt -> S -> world -> Prop) s w :
  R Blocked s w ->
  (forall w', (length (w_sched w') <= length (w_sched w))%nat -> Q tt s w') ->
  wp (log_init path) Q R s w.
Proof.
  intros HR HQ. destruct path as [p|]; [|by apply HQ].
  apply wp_bind, wp_sys_path_any; [done|]. intros c w' Hl. apply HQ. cbn. lia.
Qed.
End log.

(** [any_step], through the logger too. *)
Ltac log_step :=
  lazymatch goal with
  | |- wp (LOG _ _) _ _ _ _ => apply wp_LOG; intros ?
  | |- wp log_close _ _ _ _ => apply wp_log_close; intros ? ?
  | |- wp (log_init _) _ _ _ _ => apply wp_log_init; [by right|intros ? ?]
  | |- _ => any_step
  end; cbn beta iota zeta.

(** ** The prefix [log_msg] prints *)

Definition pad_left (width : nat) (s : string) : string :=
  String.append (String.concat "" (replicate (width - String.length s) "0"%string)) s.

(** [snprintf(buf, size, ...)]: at most [size - 1] characters are kept. *)
Definition snprintf (size : nat) (s : string) : string := String.substring 0 (size - 1) s.

Definition log_prefix (tv_sec tv_nsec : Z) (file : string) (line : Z) : string :=
  snprintf 64
    (String.append "[" (String.append (pad_left 2 (pretty (Z.quot (Z.rem tv_sec 86400) 3600)))
    (String.append ":" (String.append (pad_left 2 (pretty (Z.quot (Z.rem tv_sec 3600) 60)))
    (String.append ":" (String.append (pad_left 2 (pretty (Z.rem tv_sec 60)))
    (String.append "." (String.append (pad_left 3 (pretty (Z.quot tv_nsec 1000000)))
    (String.append " " (String.append file
    (String.append ":" (String.append (pretty line) "] ")))))))))))).

Lemma snprintf_length size s : (String.length (snprintf size s) <= size - 1)%nat.
Proof.
  unfold snprintf. generalize (size - 1)%nat as n. intros n. revert n.
  induction s as [|a s IH]; intros [|n]; simpl; try lia. specialize (IH n). lia.
Qed.
