(* ===== verification/Wire.v ===== *)
(** * The two messages on the wire

    [avery_pci_config_op] (include/linux/avery_doe.h) travels between the kernel,
    the daemons and the server over TCP, the character device and netlink;
    [simics_transaction_t] travels over the named pipes between thin-server.c and
    doe-emu.c, each of which declares it. The programs send the raw bytes of the
    structs, so this file computes their layout, gives the memory image of each, with
    its fields where the layout has them, and reads the structs back. *)
From S2P Require Import Prelude Bytes.

(** ** The layout of a C struct

    A field is an array of [f_count] elements of [f_size] bytes; with natural
    alignment a field starts at the next multiple of its element size and the
    struct is padded to a multiple of its largest alignment; a packed struct has
    no padding. *)

Record field : Type := Field { f_name : string; f_size : nat; f_count : nat }.

#[global] Instance field_eq_dec : EqDecision field.
Proof. solve_decision. Defined.

Definition align_up (a n : nat) : nat := ((n + a - 1) / a * a)%nat.

Fixpoint layout_from (packed : bool) (off : nat) (fs : list field) : list (string * nat) * nat :=
  match fs with
  | [] => ([], off)
  | f :: fs =>
      let o := if packed then off else align_up (f_size f) off in
      let '(l, e) := layout_from packed (o + f_size f * f_count f) fs in
      ((f_name f, o) :: l, e)
  end.

Definition max_align (fs : list field) : nat := foldr (fun f => Nat.max (f_size f)) 1%nat fs.

Definition layout (packed : bool) (fs : list field) : list (string * nat) * nat :=
  let '(l, e) := layout_from packed 0 fs in
  (l, if packed then e else align_up (max_align fs) e).

Definition fields_of (n : nat) : list string -> list field := map (fun s => Field s n 1).

(** ** Structs as bytes: the interface the input/output code relies on *)

Class CStruct (A : Type) := {
  sizeof : nat;
  to_bytes : A -> list byte;
  of_bytes : list byte -> A;
  struct_ok : A -> Prop;
}.
Arguments sizeof A {_}.

Class CStructLaws (A : Type) `{CStruct A} := {
  length_to_bytes a : struct_ok a -> length (to_bytes a) = sizeof A;
  of_to_bytes a : struct_ok a -> of_bytes (to_bytes a) = a;
  of_bytes_ok bs : length bs = sizeof A -> struct_ok (of_bytes bs);
}.

(** ** Runs of integer fields *)

Fixpoint encode_ints (n : nat) (zs : list Z) : list byte :=
  match zs with
  | [] => []
  | z :: zs => le_encode n z ++ encode_ints n zs
  end.

Fixpoint decode_ints (n count : nat) (bs : list byte) : list Z :=
  match count with
  | O => []
  | S count => le_decode (take n bs) :: decode_ints n count (drop n bs)
  end.

Lemma length_encode_ints n zs : length (encode_ints n zs) = (n * length zs)%nat.
Proof.
  induction zs as [|z zs IH]; simpl; [lia|].
  rewrite length_app, length_le_encode, IH. lia.
Qed.

Lemma decode_encode_ints n count zs tl :
  length zs = count ->
  Forall (fun z => 0 <= z < 256 ^ Z.of_nat n) zs ->
  decode_ints n count (encode_ints n zs ++ tl) = zs.
Proof.
  intros <-. induction 1 as [|z zs Hz _ IH]; simpl; [done|].
  rewrite <- app_assoc, take_app_exact, drop_app_exact by apply length_le_encode.
  rewrite le_decode_encode by done. f_equal. apply IH.
Qed.

Lemma decode_ints_bound n count bs :
  (n * count <= length bs)%nat ->
  Forall (fun z => 0 <= z < 256 ^ Z.of_nat n) (decode_ints n count bs).
Proof.
  revert bs; induction count as [|count IH]; intros bs H; simpl; constructor.
  - pose proof (le_decode_bound (take n bs)) as B. by rewrite length_take_le in B by lia.
  - apply IH. rewrite length_drop. lia.
Qed.

(** ** [struct avery_pci_config_op] *)

Record avery_pci_config_op : Type := Op {
  op_type   : Z;
  op_offset : Z;
  op_value  : Z;
  op_status : Z;
}.

#[global] Instance op_eq_dec : EqDecision avery_pci_config_op.
Proof. solve_decision. Defined.

Definition set_op_value (v : Z) (op : avery_pci_config_op) : avery_pci_config_op :=
  Op (op_type op) (op_offset op) v (op_status op).
Definition set_op_status (v : Z) (op : avery_pci_config_op) : avery_pci_config_op :=
  Op (op_type op) (op_offset op) (op_value op) v.

Definition op_fields : list field := fields_of 4 ["type"; "offset"; "value"; "status"].

Definition op_to_bytes (op : avery_pci_config_op) : list byte :=
  encode_ints 4 [op_type op; op_offset op; op_value op; op_status op].

Definition op_of_bytes (bs : list byte) : avery_pci_config_op :=
  match decode_ints 4 4 bs with
  | [t; o; v; s] => Op t o v (swrap32 s)
  | _ => Op 0 0 0 0
  end.

Definition op_ok (op : avery_pci_config_op) : Prop :=
  u32 (op_type op) /\ u32 (op_offset op) /\ u32 (op_value op) /\ s32 (op_status op).

#[global] Instance op_struct : CStruct avery_pci_config_op := {|
  sizeof := 16; to_bytes := op_to_bytes; of_bytes := op_of_bytes; struct_ok := op_ok;
|}.

Lemma le_encode_wrap32 z : le_encode 4 (wrap32 z) = le_encode 4 z.
Proof.
  apply le_decode_inj; [by rewrite !length_le_encode|].
  rewrite !le_decode_encode_mod. change (256 ^ Z.of_nat 4) with (2 ^ 32).
  unfold wrap32. apply Zmod_mod.
Qed.

#[global] Instance op_laws : CStructLaws avery_pci_config_op.
Proof.
  split.
  - intros [t o v s] H. apply length_encode_ints.
  - intros [t o v s] (Ht & Ho & Hv & Hs). unfold of_bytes, to_bytes, op_struct, op_of_bytes.
    pose proof (decode_encode_ints 4 4 [t; o; v; wrap32 s] [] eq_refl) as D.
    rewrite app_nil_r in D. cbn [encode_ints length] in D. rewrite le_encode_wrap32 in D.
    unfold op_to_bytes. cbn [encode_ints op_type op_offset op_value op_status] in *.
    rewrite D.
    + by rewrite swrap32_wrap32.
    + pose proof (wrap32_u32 s). cint. repeat constructor; lia.
  - intros bs Hl. unfold struct_ok, of_bytes, op_struct, op_ok, op_of_bytes.
    pose proof (decode_ints_bound 4 4 bs) as B. rewrite Hl in B. specialize (B ltac:(simpl; lia)).
    cbn [decode_ints] in *. decompose_Forall_hyps.
    split; [done|split; [done|split; [done|apply swrap32_s32]]].
Qed.

(** ** [simics_transaction_t] *)

Definition MAX_PAYLOAD : nat := 256.

Record simics_transaction_t : Type := Simics {
  packet_number    : Z;
  packet_type      : Z;
  sim_type         : Z;
  bus_no           : Z;
  dev_no           : Z;
  fun_no           : Z;
  cfg_type         : Z;
  control_status   : Z;
  physical_address : Z;
  r0w1             : Z;
  data_size        : Z;
  data             : list byte;
  reg_value        : Z;
  fixed_first_size : Z;
  unaligned_value  : Z;
  fbe              : Z;
  fixed_last_size  : Z;
  lbe              : Z;
  cmp_status       : Z;
  response1        : Z;
  response2        : Z;
}.

(** The declaration in doe-emu.c. *)
Definition simics_fields_emu : list field :=
  fields_of 4 ["packet_number"; "packet_type"; "sim_type"; "bus_no"; "dev_no"; "fun_no";
               "cfg_type"; "control_status"] ++
  fields_of 8 ["physical_address"] ++
  fields_of 4 ["r0w1"; "data_size"] ++
  [Field "data" 1 MAX_PAYLOAD] ++
  fields_of 4 ["reg_value"; "fixed_first_size"; "unaligned_value"; "fbe"; "fixed_last_size";
               "lbe"; "cmp_status"; "response1"; "response2"].

(** The declaration in thin-server.c. *)
Definition simics_fields_thin : list field :=
  [Field "packet_number" 4 1; Field "packet_type" 4 1; Field "sim_type" 4 1;
   Field "bus_no" 4 1; Field "dev_no" 4 1; Field "fun_no" 4 1; Field "cfg_type" 4 1;
   Field "control_status" 4 1; Field "physical_address" 8 1; Field "r0w1" 4 1;
   Field "data_size" 4 1; Field "data" 1 256; Field "reg_value" 4 1;
   Field "fixed_first_size" 4 1; Field "unaligned_value" 4 1; Field "fbe" 4 1;
   Field "fixed_last_size" 4 1; Field "lbe" 4 1; Field "cmp_status" 4 1;
   Field "response1" 4 1; Field "response2" 4 1].

(** [memset(&t, 0, sizeof(t))] *)
Definition simics_zero : simics_transaction_t :=
  Simics 0 0 0 0 0 0 0 0 0 0 0 (replicate MAX_PAYLOAD Byte.x00) 0 0 0 0 0 0 0 0 0.

Definition simics_to_bytes (t : simics_transaction_t) : list byte :=
  encode_ints 4 [packet_number t; packet_type t; sim_type t; bus_no t; dev_no t; fun_no t;
                 cfg_type t; control_status t] ++
  le_encode 8 (physical_address t) ++
  encode_ints 4 [r0w1 t; data_size t] ++
  data t ++
  encode_ints 4 [reg_value t; fixed_first_size t; unaligned_value t; fbe t; fixed_last_size t;
                 lbe t; cmp_status t; response1 t; response2 t] ++
  replicate 4 Byte.x00.

Definition simics_of_bytes (bs : list byte) : simics_transaction_t :=
  let pa := le_decode (slice 32 8 bs) in
  let d := slice 48 MAX_PAYLOAD bs in
  match decode_ints 4 8 bs, decode_ints 4 2 (drop 40 bs), decode_ints 4 9 (drop 304 bs) with
  | [pn; pt; st; bn; dn; fn; ct; cs], [rw; ds], [rv; ffs; uv; fb; fls; lb; cmp; r1; r2] =>
      Simics pn pt st bn dn fn ct cs pa rw ds d rv ffs uv fb fls lb cmp r1 r2
  | _, _, _ => simics_zero
  end.

Definition simics_ok (t : simics_transaction_t) : Prop :=
  Forall u32 [packet_number t; packet_type t; sim_type t; bus_no t; dev_no t; fun_no t;
              cfg_type t; control_status t; r0w1 t; data_size t; reg_value t;
              fixed_first_size t; unaligned_value t; fbe t; fixed_last_size t; lbe t;
              cmp_status t; response1 t; response2 t] /\
  u64 (physical_address t) /\ length (data t) = MAX_PAYLOAD.

#[global] Instance simics_struct : CStruct simics_transaction_t := {|
  sizeof := 344; to_bytes := simics_to_bytes; of_bytes := simics_of_bytes; struct_ok := simics_ok;
|}.

Lemma slice_app_skip {A} (k l : list A) off n m :
  length k = m -> (m <= off)%nat -> slice off n (k ++ l) = slice (off - m) n l.
Proof. intros <- H. unfold slice. f_equal. by rewrite drop_app_ge. Qed.

Lemma slice_app_here {A} (k l : list A) n : length k = n -> slice 0 n (k ++ l) = k.
Proof. intros <-. unfold slice. rewrite drop_0. apply take_app_length. Qed.

Lemma drop_app_skip {A} (k l : list A) off m :
  length k = m -> (m <= off)%nat -> drop off (k ++ l) = drop (off - m) l.
Proof. intros <- H. by rewrite drop_app_ge. Qed.

Lemma length_simics_to_bytes t : length (data t) = MAX_PAYLOAD -> length (simics_to_bytes t) = 344%nat.
Proof.
  intros H. unfold simics_to_bytes.
  rewrite !length_app, !length_encode_ints, length_le_encode, length_replicate, H. done.
Qed.

Lemma simics_of_to_bytes t : simics_ok t -> simics_of_bytes (simics_to_bytes t) = t.
Proof.
  destruct t as [pn pt st bn dn fn ct cs pa rw ds d rv ffs uv fb fls lb cmp r1 r2].
  intros (H32 & H64 & Hd). unfold simics_of_bytes, simics_to_bytes; cbn -[encode_ints decode_ints slice MAX_PAYLOAD replicate le_encode] in *.
  set (A := encode_ints 4 [pn; pt; st; bn; dn; fn; ct; cs]).
  set (B := encode_ints 4 [rw; ds]). set (D := encode_ints 4 [rv; ffs; uv; fb; fls; lb; cmp; r1; r2]).
  assert (length A = 32%nat) as HA by apply length_encode_ints.
  assert (length B = 8%nat) as HB by apply length_encode_ints.
  assert (length (le_encode 8 pa) = 8%nat) as HP by apply length_le_encode.
  assert (slice 32 8 (A ++ le_encode 8 pa ++ B ++ d ++ D ++ replicate 4 Byte.x00) = le_encode 8 pa) as ->.
  { by rewrite (slice_app_skip _ _ _ _ _ HA), slice_app_here by lia. }
  assert (slice 48 MAX_PAYLOAD (A ++ le_encode 8 pa ++ B ++ d ++ D ++ replicate 4 Byte.x00) = d) as ->.
  { by rewrite (slice_app_skip _ _ _ _ _ HA), (slice_app_skip _ _ _ _ _ HP),
      (slice_app_skip _ _ _ _ _ HB), slice_app_here by lia. }
  assert (drop 40 (A ++ le_encode 8 pa ++ B ++ d ++ D ++ replicate 4 Byte.x00) = B ++ d ++ D ++ replicate 4 Byte.x00) as ->.
  { by rewrite (drop_app_skip _ _ _ _ HA), (drop_app_skip _ _ _ _ HP), drop_0 by lia. }
  assert (drop 304 (A ++ le_encode 8 pa ++ B ++ d ++ D ++ replicate 4 Byte.x00) = D ++ replicate 4 Byte.x00) as ->.
  { by rewrite (drop_app_skip _ _ _ _ HA), (drop_app_skip _ _ _ _ HP), (drop_app_skip _ _ _ _ HB),
      (drop_app_skip _ _ _ _ Hd), drop_0 by (unfold MAX_PAYLOAD; lia). }
  unfold A, B, D.
  rewrite (decode_encode_ints 4 8), (decode_encode_ints 4 2), (decode_encode_ints 4 9)
    by (try done; clear -H32; decompose_Forall_hyps; repeat constructor; cint).
  by rewrite le_decode_encode_u64.
Qed.

Lemma simics_of_bytes_ok bs : length bs = 344%nat -> simics_ok (simics_of_bytes bs).
Proof.
  intros Hl. unfold simics_of_bytes.
  pose proof (decode_ints_bound 4 8 bs ltac:(lia)) as B1.
  pose proof (decode_ints_bound 4 2 (drop 40 bs) ltac:(rewrite length_drop; lia)) as B2.
  pose proof (decode_ints_bound 4 9 (drop 304 bs) ltac:(rewrite length_drop; lia)) as B3.
  cbn [decode_ints] in *. decompose_Forall_hyps. split; [|split]; cbn -[slice MAX_PAYLOAD].
  - repeat constructor; cint.
  - pose proof (le_decode_bound (slice 32 8 bs)) as B. rewrite length_slice in B by lia. cint.
  - apply length_slice. unfold MAX_PAYLOAD. lia.
Qed.

Lemma encode_decode_ints n count bs :
  length bs = (n * count)%nat -> encode_ints n (decode_ints n count bs) = bs.
Proof.
  revert bs; induction count as [|count IH]; intros bs Hl; simpl.
  { by destruct bs; [|simpl in Hl; lia]. }
  rewrite le_encode_decode by (rewrite length_take; lia).
  rewrite IH by (rewrite length_drop; lia). apply take_drop.
Qed.

Lemma encode_ints_slice n zs i z tl :
  zs !! i = Some z -> slice (n * i) n (encode_ints n zs ++ tl) = le_encode n z.
Proof.
  revert i; induction zs as [|y zs IH]; intros [|i] Hi; simpl in *; try done.
  - injection Hi as ->. rewrite Nat.mul_0_r, <- app_assoc. apply slice_app_here, length_le_encode.
  - rewrite <- app_assoc. rewrite (slice_app_skip _ _ _ _ n) by (try apply length_le_encode; lia).
    replace (n * S i - n)%nat with (n * i)%nat by lia. by apply IH.
Qed.

(** The 32-bit fields, by the names of the declaration. *)
Definition simics_words (t : simics_transaction_t) : list (string * Z) :=
  [("packet_number", packet_number t); ("packet_type", packet_type t); ("sim_type", sim_type t);
   ("bus_no", bus_no t); ("dev_no", dev_no t); ("fun_no", fun_no t); ("cfg_type", cfg_type t);
   ("control_status", control_status t); ("r0w1", r0w1 t); ("data_size", data_size t);
   ("reg_value", reg_value t); ("fixed_first_size", fixed_first_size t);
   ("unaligned_value", unaligned_value t); ("fbe", fbe t); ("fixed_last_size", fixed_last_size t);
   ("lbe", lbe t); ("cmp_status", cmp_status t); ("response1", response1 t);
   ("response2", response2 t)]%string.

(** Where the layout puts a field. *)
Definition offset_of (name : string) (l : list (string * nat)) : option nat :=
  snd <$> head (filter (fun p => String.eqb (fst p) name = true) l).

(** The next word of the layout, at [off], the [i]th of those that [H] is about. *)
Ltac word_at off H i := constructor; [exists off; exact (conj eq_refl (H i _ _ eq_refl eq_refl))|].

(** The byte image puts every field where the layout of the declaration puts it. *)
Lemma simics_word_at t :
  simics_ok t ->
  Forall (fun p => exists off, offset_of (fst p) (fst (layout false simics_fields_emu)) = Some off /\
                     slice off 4 (simics_to_bytes t) = le_encode 4 (snd p)) (simics_words t).
Proof.
  intros (_ & _ & Hd). unfold simics_words.
  set (A := encode_ints 4 [packet_number t; packet_type t; sim_type t; bus_no t; dev_no t; fun_no t;
                 cfg_type t; control_status t]).
  assert (length A = 32%nat) as HA by apply length_encode_ints.
  assert (length (le_encode 8 (physical_address t)) = 8%nat) as HP by apply length_le_encode.
  assert (forall i z off, [packet_number t; packet_type t; sim_type t; bus_no t; dev_no t; fun_no t;
                 cfg_type t; control_status t] !! i = Some z -> off = (4 * i)%nat ->
    slice off 4 (simics_to_bytes t) = le_encode 4 z) as H1.
  { intros i z off Hi ->. by apply encode_ints_slice. }
  assert (forall i z off, [r0w1 t; data_size t] !! i = Some z -> off = (40 + 4 * i)%nat ->
    slice off 4 (simics_to_bytes t) = le_encode 4 z) as H2.
  { intros i z off Hi ->. unfold simics_to_bytes. fold A.
    rewrite (slice_app_skip _ _ _ _ _ HA), (slice_app_skip _ _ _ _ _ HP) by lia.
    replace (40 + 4 * i - 32 - 8)%nat with (4 * i)%nat by lia. by apply encode_ints_slice. }
  assert (forall i z off, [reg_value t; fixed_first_size t; unaligned_value t; fbe t; fixed_last_size t;
                 lbe t; cmp_status t; response1 t; response2 t] !! i = Some z -> off = (304 + 4 * i)%nat ->
    slice off 4 (simics_to_bytes t) = le_encode 4 z) as H3.
  { intros i z off Hi ->. unfold simics_to_bytes. fold A.
    rewrite (slice_app_skip _ _ _ _ _ HA), (slice_app_skip _ _ _ _ _ HP) by lia.
    rewrite (slice_app_skip (encode_ints 4 [r0w1 t; data_size t]) _ _ _ 8) by (try apply length_encode_ints; lia).
    rewrite (slice_app_skip _ _ _ _ _ Hd) by (unfold MAX_PAYLOAD; lia).
    replace (304 + 4 * i - 32 - 8 - 8 - MAX_PAYLOAD)%nat with (4 * i)%nat by (unfold MAX_PAYLOAD; lia).
    by apply encode_ints_slice. }
  word_at 0%nat H1 0%nat. word_at 4%nat H1 1%nat. word_at 8%nat H1 2%nat. word_at 12%nat H1 3%nat.
  word_at 16%nat H1 4%nat. word_at 20%nat H1 5%nat. word_at 24%nat H1 6%nat. word_at 28%nat H1 7%nat.
  word_at 40%nat H2 0%nat. word_at 44%nat H2 1%nat.
  word_at 304%nat H3 0%nat. word_at 308%nat H3 1%nat. word_at 312%nat H3 2%nat. word_at 316%nat H3 3%nat. word_at 320%nat H3 4%nat.
  word_at 324%nat H3 5%nat. word_at 328%nat H3 6%nat. word_at 332%nat H3 7%nat. word_at 336%nat H3 8%nat.
  constructor.
Qed.

Lemma simics_blocks_at t :
  simics_ok t ->
  slice 32 8 (simics_to_bytes t) = le_encode 8 (physical_address t) /\
  slice 48 MAX_PAYLOAD (simics_to_bytes t) = data t.
Proof.
  intros (_ & _ & Hd). unfold simics_to_bytes.
  rewrite !(slice_app_skip (encode_ints 4 [packet_number t; packet_type t; sim_type t; bus_no t; dev_no t;
    fun_no t; cfg_type t; control_status t]) _ _ _ 32) by (try apply length_encode_ints; lia).
  split; [by apply slice_app_here|].
  rewrite (slice_app_skip (le_encode 8 _) _ _ _ 8) by (try apply length_le_encode; lia).
  rewrite (slice_app_skip (encode_ints 4 [r0w1 t; data_size t]) _ _ _ 8) by (try apply length_encode_ints; lia).
  by apply slice_app_here.
Qed.

Lemma op_to_of_bytes bs : length bs = 16%nat -> op_to_bytes (op_of_bytes bs) = bs.
Proof.
  intros Hl. rewrite <- (encode_decode_ints 4 4 bs) at 2 by (rewrite Hl; lia).
  unfold op_of_bytes. cbn [decode_ints]. unfold op_to_bytes.
  cbn [op_type op_offset op_value op_status encode_ints]. do 3 f_equal.
  f_equal. rewrite <- (le_encode_wrap32 (swrap32 _)), <- (le_encode_wrap32 (le_decode _)).
  f_equal. unfold swrap32, wrap32.
  set (z := le_decode _). destruct (Z.ltb_spec (z mod 2 ^ 32) (2 ^ 31)).
  - apply Zmod_mod.
  - by rewrite Zminus_mod, Z_mod_same_full, Z.sub_0_r, !Zmod_mod.
Qed.

#[global] Instance simics_laws : CStructLaws simics_transaction_t.
Proof.
  split.
  - intros t (_ & _ & H). by apply length_simics_to_bytes.
  - apply simics_of_to_bytes.
  - apply simics_of_bytes_ok.
Qed.
