(* ===== verification/ByteIO.v ===== *)
(** * Moving whole messages over byte streams

    Each program has its own loop that repeats [read], [recv], [write] or [send]
    until a whole message has moved: [xrecv], [xsend], [xread], [xwrite]
    (thin-server.c), [pipe_read], [pipe_write] (doe-emu.c), [send_all], [recv_all]
    (daemon-doe.c). They differ in the call they make and the message they print
    when it fails. The loops are modelled once, [read_loop] and [write_loop], and
    instantiated; the theorems show that whatever way the kernel chunks the stream,
    exactly the message moves, and that every round makes progress. *)
From S2P Require Import Prelude Bytes CMonad Wire.

Section loops.
Context {S : Type}.

(** [while (len) { n = read(fd, p, len); if (n <= 0) { perror(msg); exit(1); }
     p += n; len -= n; }] with the bytes read so far in [acc]. *)
Fixpoint read_loop (msg : string) (fuel len : nat) (fd : Z) (acc : list byte) : C S (list byte) :=
  match len with
  | O => mret acc
  | _ =>
      match fuel with
      | O => out_of_fuel
      | Datatypes.S fuel =>
          '(n, bs) ← sys_read fd len;
          if n <=? 0 then perror msg;; exit_ 1
          else read_loop msg fuel (len - Z.to_nat n) fd (acc ++ bs)
      end
  end.

(** [while (len) { n = write(fd, p, len); if (n <= 0) { perror(msg); exit(1); }
     p += n; len -= n; }] with [bs] what is left at [p]. *)
Fixpoint write_loop (msg : string) (fuel : nat) (fd : Z) (bs : list byte) : C S unit :=
  match bs with
  | [] => mret tt
  | _ =>
      match fuel with
      | O => out_of_fuel
      | Datatypes.S fuel =>
          n ← sys_write fd bs;
          if n <=? 0 then perror msg;; exit_ 1
          else write_loop msg fuel fd (drop (Z.to_nat n) bs)
      end
  end.

(** Every round moves at least one byte, so [len] rounds are enough. *)
Definition read_all (msg : string) (fd : Z) (len : nat) : C S (list byte) :=
  read_loop msg len len fd [].
Definition write_all (msg : string) (fd : Z) (bs : list byte) : C S unit :=
  write_loop msg (length bs) fd bs.

(** thin-server.c *)
Definition xrecv (fd : Z) (len : nat) : C S (list byte) := read_all "recv" fd len.
Definition xsend (fd : Z) (bs : list byte) : C S unit := write_all "send" fd bs.
Definition xread (fd : Z) (len : nat) : C S (list byte) := read_all "read pipe" fd len.
Definition xwrite (fd : Z) (bs : list byte) : C S unit := write_all "write pipe" fd bs.

(** doe-emu.c *)
Definition pipe_read (fd : Z) (len : nat) : C S (list byte) := read_all "read" fd len.
Definition pipe_write (fd : Z) (bs : list byte) : C S unit := write_all "write" fd bs.

(** daemon-doe.c *)
Definition send_all (fd : Z) (bs : list byte) : C S unit := write_all "send" fd bs.
Definition recv_all (fd : Z) (len : nat) : C S (list byte) := read_all "recv" fd len.

(** ** What one call does *)

(** The effect on the world of reading [n] bytes of [fd], using up to [k] results. *)
Definition did_read (fd : Z) (n k : nat) (w w' : world) : Prop :=
  pending fd w' = drop n (pending fd w) /\
  (forall fd', fd' <> fd -> pending fd' w' = pending fd' w) /\
  w_out w' = w_out w /\ w_nlin w' = w_nlin w /\ w_nlout w' = w_nlout w /\
  w_env w' = w_env w /\ used k w w'.

(** The effect on the world of writing [bs] to [fd], using up to [k] results. *)
Definition did_write (fd : Z) (bs : list byte) (k : nat) (w w' : world) : Prop :=
  written fd w' = written fd w ++ bs /\
  (forall fd', fd' <> fd -> written fd' w' = written fd' w) /\
  w_in w' = w_in w /\ w_nlin w' = w_nlin w /\ w_nlout w' = w_nlout w /\
  w_env w' = w_env w /\ used k w w'.

Lemma did_read_refl fd w : did_read fd 0 0 w w.
Proof. unfold did_read. rewrite drop_0. eauto 10 with wp. Qed.

Lemma did_read_trans fd n m k j w w' w'' :
  did_read fd n k w w' -> did_read fd m j w' w'' -> did_read fd (n + m) (k + j) w w''.
Proof.
  intros (H1 & H2 & H3 & H4 & H5 & H6 & H7) (I1 & I2 & I3 & I4 & I5 & I6 & I7).
  repeat split; try congruence.
  - by rewrite I1, H1, drop_drop.
  - intros fd' Hne. by rewrite I2, H2.
  - by eapply used_trans.
Qed.

Lemma did_write_refl fd w : did_write fd [] 0 w w.
Proof. unfold did_write. rewrite app_nil_r. eauto 10 with wp. Qed.

Lemma did_write_trans fd bs cs k j w w' w'' :
  did_write fd bs k w w' -> did_write fd cs j w' w'' -> did_write fd (bs ++ cs) (k + j) w w''.
Proof.
  intros (H1 & H2 & H3 & H4 & H5 & H6 & H7) (I1 & I2 & I3 & I4 & I5 & I6 & I7).
  repeat split; try congruence.
  - by rewrite I1, H1, app_assoc.
  - intros fd' Hne. by rewrite I2, H2.
  - by eapply used_trans.
Qed.

Lemma used_next c rest w w' :
  w_sched w = c :: rest -> w_sched w' = rest -> used 1 w w'.
Proof. intros H1 H2. exists 1%nat. split; [lia|]. by rewrite H1, H2. Qed.

(** One positive result delivers between one byte and [len]. *)
Lemma sys_read_step fd len c rest (s : S) w :
  w_sched w = c :: rest -> 0 < c -> pending fd w <> [] -> (0 < len)%nat ->
  exists n w', sys_read fd len s w = Ok (Z.of_nat n, take n (pending fd w)) s w' /\
    (0 < n <= len)%nat /\ (n <= length (pending fd w))%nat /\ did_read fd n 1 w w'.
Proof.
  intros Hs Hc Hp Hl. unfold sys_read. rewrite Hs.
  destruct (Z.leb_spec c 0) as [?|_]; [lia|].
  destruct (pending fd w) as [|b bs] eqn:E; [done|].
  eexists _, _. split; [reflexivity|]. split; [cbn [length]; lia|]. split; [cbn [length]; lia|].
  unfold did_read, pending in *. cbn. rewrite E, lookup_insert_eq.
  repeat split; try done.
  - intros fd' Hne. by rewrite lookup_insert_ne.
  - by eapply used_next.
Qed.

Lemma sys_write_step fd bs c rest (s : S) w :
  w_sched w = c :: rest -> 0 < c -> bs <> [] ->
  exists n w', sys_write fd bs s w = Ok (Z.of_nat n) s w' /\
    (0 < n <= length bs)%nat /\ did_write fd (take n bs) 1 w w'.
Proof.
  intros Hs Hc Hb. unfold sys_write. rewrite Hs.
  destruct (Z.leb_spec c 0) as [?|_]; [lia|].
  eexists _, _. split; [reflexivity|]. split.
  { destruct bs; [done|]. cbn [length]; lia. }
  unfold did_write, written in *. cbn. rewrite lookup_insert_eq.
  repeat split; try done.
  - intros fd' Hne. by rewrite lookup_insert_ne.
  - by eapply used_next.
Qed.

(** ** A kernel that makes progress: the loops complete *)

Lemma read_loop_live {m} msg fd len : forall fuel acc (s : S) w,
  (len <= fuel)%nat -> live m len w -> (len <= length (pending fd w))%nat ->
  exists w', read_loop msg fuel len fd acc s w = Ok (acc ++ take len (pending fd w)) s w' /\
    did_read fd len len w w'.
Proof.
  induction len as [len IH] using (well_founded_induction Nat.lt_wf_0). intros fuel acc s w Hf HL Hp.
  destruct len as [|len']; [|destruct fuel as [|fuel]; [lia|]].
  { exists w. rewrite take_0, app_nil_r. split; [by destruct fuel|apply did_read_refl]. }
  destruct (live_next _ _ HL) as (c & rest & Hs & _ & Hc).
  destruct (sys_read_step fd (Datatypes.S len') c rest s w Hs Hc) as (n & w1 & E & Hn & Hn' & D);
    [intros E; rewrite E in Hp; simpl in Hp; lia|lia|].
  cbn [read_loop]. unfold mbind, C_bind. rewrite E.
  destruct (Z.leb_spec (Z.of_nat n) 0) as [?|_]; [lia|]. rewrite Nat2Z.id.
  pose proof D as (P1 & _ & _ & _ & _ & _ & U).
  destruct (IH (Datatypes.S len' - n)%nat ltac:(lia) fuel (acc ++ take n (pending fd w)) s w1)
    as (w2 & E2 & D2); [lia| |rewrite P1, length_drop; lia|].
  { eapply live_used; [|exact U]. eapply live_mono; [|exact HL]. lia. }
  exists w2. split.
  - rewrite E2, P1, <- app_assoc. do 2 f_equal.
    rewrite <- (take_drop n (take (Datatypes.S len') (pending fd w))).
    rewrite take_take, Nat.min_l by lia. f_equal. by rewrite skipn_firstn_comm.
  - destruct (did_read_trans _ _ _ _ _ _ _ _ D D2) as (I1 & I2 & I3 & I4 & I5 & I6 & I7).
    replace (n + (Datatypes.S len' - n))%nat with (Datatypes.S len') in I1 by lia.
    repeat split; try done. destruct I7 as (j & Hj & ?). exists j. split; [lia|done].
Qed.

Lemma write_loop_live {m} msg fd : forall fuel bs (s : S) w,
  (length bs <= fuel)%nat -> live m (length bs) w ->
  exists w', write_loop msg fuel fd bs s w = Ok tt s w' /\ did_write fd bs (length bs) w w'.
Proof.
  induction fuel as [|fuel IH]; intros bs s w Hf HL;
    (destruct bs as [|b bs']; [exists w; split; [done|apply did_write_refl]|]);
    [simpl in Hf; lia|].
  destruct (live_next _ _ HL) as (c & rest & Hs & _ & Hc).
  destruct (sys_write_step fd (b :: bs') c rest s w Hs Hc) as (n & w1 & E & Hn & D); [done|].
  cbn [write_loop]. unfold mbind, C_bind. rewrite E.
  destruct (Z.leb_spec (Z.of_nat n) 0) as [?|_]; [lia|]. rewrite Nat2Z.id.
  pose proof D as (_ & _ & _ & _ & _ & _ & U).
  destruct (IH (drop n (b :: bs')) s w1) as (w2 & E2 & D2); [rewrite length_drop; lia| |].
  { eapply live_used; [|exact U]. eapply live_mono; [|exact HL]. rewrite length_drop. simpl in *. lia. }
  exists w2. split; [done|].
  destruct (did_write_trans _ _ _ _ _ _ _ _ D D2) as (I1 & I2 & I3 & I4 & I5 & I6 & I7).
  rewrite take_drop in I1. repeat split; try done.
  destruct I7 as (j & Hj & ?). exists j. rewrite length_drop in Hj. split; [lia|done].
Qed.

Lemma read_all_live {m} msg fd len (s : S) w :
  live m len w -> (len <= length (pending fd w))%nat ->
  exists w', read_all msg fd len s w = Ok (take len (pending fd w)) s w' /\
    did_read fd len len w w'.
Proof. intros. by apply (read_loop_live (m := m) msg fd len len []). Qed.

Lemma write_all_live {m} msg fd bs (s : S) w :
  live m (length bs) w ->
  exists w', write_all msg fd bs s w = Ok tt s w' /\ did_write fd bs (length bs) w w'.
Proof. intros. by apply (write_loop_live (m := m) msg fd (length bs)). Qed.

(** ** Any kernel: the loops return the whole message, exit with 1, or wait *)

(** The halting outcomes of a transfer, with the program's state untouched. *)
Definition io_halt (s0 : S) (h : halt) (s : S) (w : world) : Prop :=
  s = s0 /\ (h = Exited 1 \/ h = Blocked).

Lemma wp_sys_read fd len (Q : Z * list byte -> S -> world -> Prop) (R : halt -> S -> world -> Prop) s w :
  (0 < len)%nat ->
  (forall c w', c <= 0 -> w_in w' = w_in w -> w_out w' = w_out w ->
     (length (w_sched w') < length (w_sched w))%nat -> Q (c, []) s w') ->
  (forall n w', (0 < n <= len)%nat -> (n <= length (pending fd w))%nat -> did_read fd n 1 w w' ->
     (length (w_sched w') < length (w_sched w))%nat ->
     Q (Z.of_nat n, take n (pending fd w)) s w') ->
  R Blocked s w ->
  wp (sys_read fd len) Q R s w.
Proof.
  intros Hl H0 H1 HR. destruct (w_sched w) as [|c rest] eqn:Hs.
  { unfold wp, sys_read. by rewrite Hs. }
  destruct (Z.leb_spec c 0) as [Hc|Hc].
  { unfold wp, sys_read. rewrite Hs. destruct (Z.leb_spec c 0); [|lia].
    apply H0; [done..|]. cbn. lia. }
  destruct (decide (pending fd w = [])) as [E|E].
  { unfold wp, sys_read. rewrite Hs, E. destruct (Z.leb_spec c 0); [lia|done]. }
  destruct (sys_read_step fd len c rest s w Hs Hc E Hl) as (n & w' & Er & Hn & Hn' & D).
  unfold wp. rewrite Er. apply H1; [done..|].
  unfold sys_read in Er. rewrite Hs in Er. destruct (Z.leb_spec c 0); [lia|].
  destruct (pending fd w); [done|]. simplify_eq. simpl. lia.
Qed.

Lemma wp_sys_write fd bs (Q : Z -> S -> world -> Prop) (R : halt -> S -> world -> Prop) s w :
  bs <> [] ->
  (forall c w', c <= 0 -> w_in w' = w_in w -> w_out w' = w_out w ->
     (length (w_sched w') < length (w_sched w))%nat -> Q c s w') ->
  (forall n w', (0 < n <= length bs)%nat -> did_write fd (take n bs) 1 w w' ->
     (length (w_sched w') < length (w_sched w))%nat -> Q (Z.of_nat n) s w') ->
  R Blocked s w ->
  wp (sys_write fd bs) Q R s w.
Proof.
  intros Hb H0 H1 HR. destruct (w_sched w) as [|c rest] eqn:Hs.
  { unfold wp, sys_write. by rewrite Hs. }
  destruct (Z.leb_spec c 0) as [Hc|Hc].
  { unfold wp, sys_write. rewrite Hs. destruct (Z.leb_spec c 0); [|lia].
    apply H0; [done..|]. cbn. lia. }
  destruct (sys_write_step fd bs c rest s w Hs Hc Hb) as (n & w' & Er & Hn & D).
  unfold wp. rewrite Er. apply H1; [done..|].
  unfold sys_write in Er. rewrite Hs in Er. destruct (Z.leb_spec c 0); [lia|].
  simplify_eq. simpl. lia.
Qed.

(** The schedule never grows, and a transfer of at least one byte shortens it. *)
Definition shrinks (len : nat) (w w' : world) : Prop :=
  (length (w_sched w') <= length (w_sched w))%nat /\
  ((0 < len)%nat -> (length (w_sched w') < length (w_sched w))%nat).

Lemma read_loop_any msg fd len : forall fuel acc (s : S) w,
  (len <= fuel)%nat ->
  wp (read_loop msg fuel len fd acc)
     (fun bs s' w' => s' = s /\ bs = acc ++ take len (pending fd w) /\
        (len <= length (pending fd w))%nat /\ did_read fd len len w w' /\ shrinks len w w')
     (io_halt s) s w.
Proof.
  induction len as [len IH] using (well_founded_induction Nat.lt_wf_0).
  intros fuel acc s w Hf.
  destruct len as [|len']; [|destruct fuel as [|fuel]; [lia|]].
  { destruct fuel; (apply wp_ret; rewrite take_0, app_nil_r; unfold shrinks;
      do 3 (split; [done || lia|]); split; [apply did_read_refl|lia]). }
  cbn [read_loop]. apply wp_bind. apply wp_sys_read; [lia| | |by split; auto].
  { intros c w' Hc _ _ _. destruct (Z.leb_spec c 0); [|lia]. by split; auto. }
  intros n w1 Hn Hn' D Hsh. destruct (Z.leb_spec (Z.of_nat n) 0) as [?|_]; [lia|].
  rewrite Nat2Z.id. eapply wp_mono; [apply (IH (Datatypes.S len' - n)%nat); lia| |done].
  cbn beta. intros bs s' w2 (-> & -> & Hp & D2 & Hsh2).
  pose proof D as (P1 & _). rewrite P1 in *. rewrite length_drop in Hp.
  split; [done|]. split; [|split; [lia|split]].
  - rewrite <- app_assoc. f_equal.
    rewrite <- (take_drop n (take (Datatypes.S len') (pending fd w))).
    rewrite take_take, Nat.min_l by lia. f_equal. by rewrite skipn_firstn_comm.
  - destruct (did_read_trans _ _ _ _ _ _ _ _ D D2) as (I1 & I2 & I3 & I4 & I5 & I6 & I7).
    replace (n + (Datatypes.S len' - n))%nat with (Datatypes.S len') in I1 by lia.
    repeat split; try done. destruct I7 as (j & Hj & ?). exists j. split; [lia|done].
  - unfold shrinks in *. lia.
Qed.

Lemma write_loop_any msg fd : forall fuel bs (s : S) w,
  (length bs <= fuel)%nat ->
  wp (write_loop msg fuel fd bs)
     (fun _ s' w' => s' = s /\ did_write fd bs (length bs) w w' /\ shrinks (length bs) w w')
     (io_halt s) s w.
Proof.
  induction fuel as [|fuel IH]; intros bs s w Hf;
    (destruct bs as [|b bs'];
      [apply wp_ret; unfold shrinks; split; [done|split; [apply did_write_refl|simpl; lia]]|]);
    [simpl in Hf; lia|].
  cbn [write_loop]. apply wp_bind. apply wp_sys_write; [done| | |by split; auto].
  { intros c w' Hc _ _ _. destruct (Z.leb_spec c 0); [|lia]. by split; auto. }
  intros n w1 Hn D Hsh. destruct (Z.leb_spec (Z.of_nat n) 0) as [?|_]; [lia|].
  rewrite Nat2Z.id. eapply wp_mono; [apply IH; rewrite length_drop; lia| |done].
  cbn beta. intros _ s' w2 (-> & D2 & Hsh2). split; [done|].
  destruct (did_write_trans _ _ _ _ _ _ _ _ D D2) as (I1 & I2 & I3 & I4 & I5 & I6 & I7).
  rewrite take_drop in I1. unfold shrinks in *.
  repeat split; try done; [|lia..].
  destruct I7 as (j & Hj & ?). exists j. rewrite length_drop in Hj. split; [lia|done].
Qed.

Lemma read_all_any msg fd len (s : S) w :
  wp (read_all msg fd len)
     (fun bs s' w' => s' = s /\ bs = take len (pending fd w) /\ length bs = len /\
        did_read fd len len w w' /\ shrinks len w w')
     (io_halt s) s w.
Proof.
  eapply wp_mono; [by apply read_loop_any| |done].
  cbn beta. intros bs s' w' (-> & -> & Hl & D & Hsh). simpl. by rewrite length_take_le.
Qed.

Lemma write_all_any msg fd bs (s : S) w :
  wp (write_all msg fd bs)
     (fun _ s' w' => s' = s /\ did_write fd bs (length bs) w w' /\ shrinks (length bs) w w')
     (io_halt s) s w.
Proof. by apply write_loop_any. Qed.
End loops.

(** ** Proof rules for whole messages

    Proved against the [CStruct] interface: with a kernel that makes progress,
    [live], a message that is waiting is read and a message is written; the
    descriptors not involved keep their contents. *)

Record io_read (fd : Z) (rest : list byte) (w w' : world) : Prop := {
  io_read_here : pending fd w' = rest;
  io_read_other fd' : fd' <> fd -> pending fd' w' = pending fd' w;
  io_read_out fd' : written fd' w' = written fd' w;
}.

Record io_write (fd : Z) (bs : list byte) (w w' : world) : Prop := {
  io_write_here : written fd w' = written fd w ++ bs;
  io_write_other fd' : fd' <> fd -> written fd' w' = written fd' w;
  io_write_in fd' : pending fd' w' = pending fd' w;
}.

Section message_rules.
Context {S A B : Type} `{CStructLaws A}.

Lemma wp_recv_struct {m} msg fd (a : A) rest j (k : list byte -> C S B) Q R s w :
  struct_ok a -> pending fd w = to_bytes a ++ rest -> live m (sizeof A + j) w ->
  (forall w', io_read fd rest w w' -> live m j w' -> wp (k (to_bytes a)) Q R s w') ->
  wp (read_all msg fd (sizeof A) ≫= k) Q R s w.
Proof.
  intros Ha Hp HL HQ. pose proof (length_to_bytes a Ha) as Hl.
  destruct (read_all_live (m := m) msg fd (sizeof A) s w) as (w' & E & D).
  { eapply live_mono; [|exact HL]. lia. }
  { rewrite Hp, length_app. lia. }
  apply wp_bind. unfold wp at 1. rewrite E, Hp, take_app_exact by done.
  destruct D as (D1 & D2 & D3 & _ & _ & _ & U). apply HQ; [|by eapply live_used].
  split; [by rewrite D1, Hp, drop_app_exact|done|].
  intros fd'. unfold written. by rewrite D3.
Qed.

Lemma wp_send_struct {m} msg fd (a : A) j (k : unit -> C S B) Q R s w :
  struct_ok a -> live m (sizeof A + j) w ->
  (forall w', io_write fd (to_bytes a) w w' -> live m j w' -> wp (k tt) Q R s w') ->
  wp (write_all msg fd (to_bytes a) ≫= k) Q R s w.
Proof.
  intros Ha HL HQ. pose proof (length_to_bytes a Ha) as Hl.
  destruct (write_all_live (m := m) msg fd (to_bytes a) s w) as (w' & E & D).
  { eapply live_mono; [|exact HL]. lia. }
  apply wp_bind. unfold wp at 1. rewrite E.
  destruct D as (D1 & D2 & D3 & _ & _ & _ & U). rewrite Hl in U.
  apply HQ; [|by eapply live_used].
  split; [done|done|]. intros fd'. unfold pending. by rewrite D3.
Qed.

(** A single [read] or [write] of a whole message, when results are that large. *)
Lemma wp_read_once {m} fd (a : A) rest j (Q : Z * list byte -> S -> world -> Prop) R s w :
  struct_ok a -> (0 < sizeof A)%nat -> Z.of_nat (sizeof A) <= m ->
  pending fd w = to_bytes a ++ rest -> live m (1 + j) w ->
  (forall w', io_read fd rest w w' -> live m j w' -> Q (Z.of_nat (sizeof A), to_bytes a) s w') ->
  wp (sys_read fd (sizeof A)) Q R s w.
Proof.
  intros Ha Hs0 Hm Hp HL HQ. pose proof (length_to_bytes a Ha) as Hl.
  destruct (live_next _ _ HL) as (c & rst & Hs & Hc & _).
  unfold wp, sys_read. rewrite Hs. destruct (Z.leb_spec c 0); [lia|]. rewrite Hp.
  destruct (to_bytes a ++ rest) as [|b0 bt] eqn:E.
  { apply (f_equal length) in E. rewrite length_app in E. simpl in E. lia. }
  rewrite <- E in *. replace (Nat.min _ _) with (sizeof A) by (rewrite length_app; lia).
  rewrite take_app_exact, drop_app_exact by done. apply HQ.
  - split; unfold pending, written; cbn; [by rewrite lookup_insert_eq| |done].
    intros fd' Hne. by rewrite lookup_insert_ne.
  - apply (live_used 1 j w); [exact HL|by eapply used_next].
Qed.

Lemma wp_write_once {m} fd (a : A) j (Q : Z -> S -> world -> Prop) R s w :
  struct_ok a -> (0 < sizeof A)%nat -> Z.of_nat (sizeof A) <= m -> live m (1 + j) w ->
  (forall w', io_write fd (to_bytes a) w w' -> live m j w' -> Q (Z.of_nat (sizeof A)) s w') ->
  wp (sys_write fd (to_bytes a)) Q R s w.
Proof.
  intros Ha Hs0 Hm HL HQ. pose proof (length_to_bytes a Ha) as Hl.
  destruct (live_next _ _ HL) as (c & rst & Hs & Hc & _).
  unfold wp, sys_write. rewrite Hs. destruct (Z.leb_spec c 0); [lia|].
  replace (Nat.min _ _) with (sizeof A) by lia. rewrite take_ge by lia. apply HQ.
  - split; unfold pending, written; cbn; [by rewrite lookup_insert_eq| |done].
    intros fd' Hne. by rewrite lookup_insert_ne.
  - apply (live_used 1 j w); [exact HL|by eapply used_next].
Qed.
End message_rules.

(** The results of other calls, in a live world. *)
Record io_none (w w' : world) : Prop := {
  io_none_in fd : pending fd w' = pending fd w;
  io_none_out fd : written fd w' = written fd w;
}.

Lemma wp_next_live {S m} j (Q : Z -> S -> world -> Prop) R s w :
  live m (1 + j) w ->
  (forall c w', m <= c -> io_none w w' -> live m j w' -> Q c s w') ->
  wp next Q R s w.
Proof.
  intros HL HQ. destruct (live_next _ _ HL) as (c & rst & Hs & Hc & _).
  unfold wp, next. rewrite Hs. apply HQ; [done|done|].
  apply (live_used 1 j w); [exact HL|by eapply used_next].
Qed.

Lemma wp_sys_live {S m} name args j (Q : Z -> S -> world -> Prop) R s w :
  live m (1 + j) w ->
  (forall c w', m <= c -> io_none w w' -> live m j w' -> Q c s w') ->
  wp (sys name args) Q R s w.
Proof.
  intros HL HQ. unfold sys. apply wp_bind. eapply wp_next_live; [exact HL|].
  intros c w' Hc [I1 I2] L. apply wp_bind, wp_emit, wp_ret. by apply HQ; [|split|].
Qed.

Lemma pending_event fd e w : pending fd (add_event e w) = pending fd w.
Proof. done. Qed.
Lemma written_event fd e w : written fd (add_event e w) = written fd w.
Proof. done. Qed.

Lemma pending_sched fd l w : pending fd (set_sched l w) = pending fd w.
Proof. done. Qed.
Lemma written_sched fd l w : written fd (set_sched l w) = written fd w.
Proof. done. Qed.

(** Rewrites what a descriptor holds back to the start of the round. *)
Ltac io :=
  repeat match goal with
  | |- context [pending _ (add_event _ _)] => rewrite pending_event
  | |- context [written _ (add_event _ _)] => rewrite written_event
  | |- context [pending _ (set_sched _ _)] => rewrite pending_sched
  | |- context [written _ (set_sched _ _)] => rewrite written_sched
  | H : io_none _ ?w |- context [pending ?f ?w] => rewrite (io_none_in _ _ H f)
  | H : io_none _ ?w |- context [written ?f ?w] => rewrite (io_none_out _ _ H f)
  | H : io_read ?fd _ _ ?w |- context [pending ?fd ?w] => rewrite (io_read_here _ _ _ _ H)
  | H : io_read _ _ _ ?w |- context [pending ?f ?w] => rewrite (io_read_other _ _ _ _ H f) by congruence
  | H : io_read _ _ _ ?w |- context [written ?f ?w] => rewrite (io_read_out _ _ _ _ H f)
  | H : io_write ?fd _ _ ?w |- context [written ?fd ?w] => rewrite (io_write_here _ _ _ _ H)
  | H : io_write _ _ _ ?w |- context [written ?f ?w] => rewrite (io_write_other _ _ _ _ H f) by congruence
  | H : io_write _ _ _ ?w |- context [pending ?f ?w] => rewrite (io_write_in _ _ _ _ H f)
  end.
