(* ===== verification/Mailbox.v ===== *)
(** * What a DOE mailbox promises: the abstract machine

    The specification that doe-emu.c implements, with no buffers, indices, bytes
    or logs: a mailbox is idle, holds a response, or has failed; the host appends
    words to a request, sets GO, and takes the words of the response one by one.
    [respond] is the protocol: the data object answering a request, if any. *)
From S2P Require Import Prelude Bytes.

(** ** Data objects *)

Definition vendor_id (hdr : Z) : Z := hdr mod 65536.
Definition object_type (hdr : Z) : Z := (hdr / 65536) mod 256.
Definition object_header (vid ty : Z) : Z := vid + 65536 * ty.

(** Header, length in words, payload. *)
Definition data_object (vid ty : Z) (payload : list Z) : list Z :=
  object_header vid ty :: 2 + Z.of_nat (length payload) :: payload.

Definition VID_PCISIG : Z := 1.
Definition VID_CXL : Z := 0x1E98.

(** ** Discovery *)

Definition supported : list (Z * Z) :=
  [(VID_PCISIG, 0); (VID_PCISIG, 1); (VID_PCISIG, 2); (VID_CXL, 2)].

(** Entry [i] of the list and the index of the next one, zero after the last. *)
Definition discovery_payload (i : Z) : list Z :=
  match supported !! Z.to_nat i with
  | Some (vid, ty) => [object_header vid ty; if i <? 3 then i + 1 else 0]
  | None => [0; 0]
  end.

(** ** SPDM *)

Inductive spdm_request : Type := GetVersion | GetCapabilities | NegotiateAlgorithms | Unsupported.

Definition spdm_classify (code : Z) : spdm_request :=
  if code =? 0x84 then GetVersion
  else if code =? 0xE1 then GetCapabilities
  else if code =? 0xE3 then NegotiateAlgorithms
  else Unsupported.

(** The response message, byte by byte; [ver] is the version byte of the request. *)
Definition spdm_message (ver : Z) (r : spdm_request) : list byte :=
  map byte_of_Z
    match r with
    | GetVersion => [0x10; 0x04; 0; 0; 0; 0; 2; 0; 0x00; 0x10; 0x00; 0x12]
    | GetCapabilities => [ver; 0x61; 0; 0; 0; 12; 0; 0; 0x2c; 0; 0; 0]
    | NegotiateAlgorithms =>
        [ver; 0x63; 0; 0; 36; 0; 1; 0; 2; 0; 0; 0; 1; 0; 0; 0] ++ replicate 20 0
    | Unsupported => [0x10; 0x7F; 0x07; 0]
    end.

(** ** The protocol *)

Definition respond (req : list Z) : option (list Z) :=
  match req with
  | hdr :: _ :: p :: _ =>
      if vendor_id hdr =? VID_PCISIG then
        if object_type hdr =? 0 then Some (data_object VID_PCISIG 0 (discovery_payload (p mod 256)))
        else if (object_type hdr =? 1) || (object_type hdr =? 2) then
          Some (data_object VID_PCISIG (object_type hdr)
                  (pack_dwords (spdm_message (p mod 256) (spdm_classify ((p / 256) mod 256)))))
        else None
      else None
  | _ => None
  end.

(** ** The machine *)

Inductive mb_state : Type := Idle | Ready | Failed.

#[global] Instance mb_state_eq_dec : EqDecision mb_state.
Proof. solve_decision. Defined.

Record mailbox : Type := Mailbox {
  mb_status : mb_state;
  mb_req    : list Z;
  mb_rsp    : list Z;
}.

Definition mb_capacity : nat := 68.

Definition mb_empty : mailbox := Mailbox Idle [] [].

(** GO: the response replaces an unread one; a failure leaves it. *)
Definition mb_go (m : mailbox) : mailbox :=
  match respond (mb_req m) with
  | Some rsp => Mailbox Ready [] rsp
  | None => Mailbox Failed [] (mb_rsp m)
  end.

(** A word for the request; words beyond the capacity are dropped. *)
Definition mb_push (v : Z) (m : mailbox) : mailbox :=
  if (length (mb_req m) <? mb_capacity)%nat
  then Mailbox (mb_status m) (mb_req m ++ [v]) (mb_rsp m) else m.

(** The host acknowledges a word; the mailbox is idle again after the last. *)
Definition mb_ack (m : mailbox) : mailbox :=
  match mb_rsp m with
  | _ :: (_ :: _) as rest => Mailbox (mb_status m) (mb_req m) rest
  | _ => Mailbox Idle (mb_req m) []
  end.

Definition status_bits (s : mb_state) : Z :=
  match s with Idle => 0 | Ready => 0x80000000 | Failed => 4 end.

Inductive mb_register : Type := RegCtrl | RegStatus | RegWrite | RegRead | RegOther.

Definition mb_decode (reg : Z) : mb_register :=
  if reg =? 0x08 then RegCtrl else if reg =? 0x0c then RegStatus
  else if reg =? 0x10 then RegWrite else if reg =? 0x14 then RegRead else RegOther.

Definition mb_read (reg : mb_register) (m : mailbox) : Z :=
  match reg with
  | RegStatus => status_bits (mb_status m)
  | RegRead => default 0xFFFFFFFF (head (mb_rsp m))
  | _ => 0
  end.

(** Bit 0 of the control register aborts, bit 31 starts, in that order. *)
Definition mb_write (reg : mb_register) (v : Z) (m : mailbox) : mailbox :=
  match reg with
  | RegCtrl =>
      let m := if Z.testbit v 0 then mb_empty else m in
      if Z.testbit v 31 then mb_go m else m
  | RegWrite => mb_push v m
  | RegRead => if v =? 0 then mb_ack m else m
  | _ => m
  end.

(** ** Host accesses in sequence *)

Inductive mb_access : Type := MbRead (reg : Z) | MbWrite (reg v : Z).

Definition mb_step (m : mailbox) (a : mb_access) : mailbox * Z :=
  match a with
  | MbRead reg => (m, mb_read (mb_decode reg) m)
  | MbWrite reg v => (mb_write (mb_decode reg) v m, 0)
  end.

Fixpoint mb_run (m : mailbox) (l : list mb_access) : mailbox * list Z :=
  match l with
  | [] => (m, [])
  | a :: l =>
      let '(m1, v) := mb_step m a in
      let '(m2, vs) := mb_run m1 l in
      (m2, v :: vs)
  end.

Lemma mb_run_app m l k :
  mb_run m (l ++ k) =
  (let '(m1, vs) := mb_run m l in let '(m2, vs') := mb_run m1 k in (m2, vs ++ vs')).
Proof.
  revert m; induction l as [|a l IH]; intros m; simpl.
  { by destruct (mb_run m k). }
  destruct (mb_step m a) as [m1 v]. rewrite IH.
  destruct (mb_run m1 l) as [m2 vs]. by destruct (mb_run m2 k).
Qed.

(** A whole exchange, as a host drives it: write the request, set GO, read STATUS,
    then read and acknowledge [n] words. *)
Definition send_request (req : list Z) : list mb_access :=
  map (MbWrite 0x10) req ++ [MbWrite 0x08 0x80000000; MbRead 0x0c].

Fixpoint read_response (n : nat) : list mb_access :=
  match n with
  | O => []
  | S n => MbRead 0x14 :: MbWrite 0x14 0 :: read_response n
  end.

Lemma mb_run_request req k m :
  (length (mb_req m) + length req <= mb_capacity)%nat ->
  mb_run m (map (MbWrite 0x10) req ++ k) =
  (let '(m2, vs) := mb_run (Mailbox (mb_status m) (mb_req m ++ req) (mb_rsp m)) k in
   (m2, replicate (length req) 0 ++ vs)).
Proof.
  revert m; induction req as [|v req IH]; intros m Hl; simpl in *.
  { rewrite app_nil_r. destruct m as [st rq rs]; simpl. by destruct (mb_run _ k). }
  change (mb_write (mb_decode 16) v m) with (mb_push v m). unfold mb_push.
  destruct (Nat.ltb_spec (length (mb_req m)) mb_capacity); [|lia].
  rewrite IH by (simpl; rewrite length_app; simpl; lia). simpl.
  rewrite <- app_assoc. simpl. by destruct (mb_run _ k).
Qed.

(** The values a host sees while it reads: each word, then the zero of the write. *)
Definition seen (rsp : list Z) : list Z := rsp ≫= (fun v => [v; 0]).

Lemma mb_run_response rsp st rq :
  rsp <> [] ->
  mb_run (Mailbox st rq rsp) (read_response (length rsp)) = (Mailbox Idle rq [], seen rsp).
Proof.
  revert st; induction rsp as [|v rsp IH]; intros st Hne; [done|].
  destruct rsp as [|u rsp]; [done|].
  change (read_response (length (v :: u :: rsp)))
    with (MbRead 0x14 :: MbWrite 0x14 0 :: read_response (length (u :: rsp))).
  cbn [mb_run mb_step].
  change (mb_write (mb_decode 20) 0 (Mailbox st rq (v :: u :: rsp))) with (Mailbox st rq (u :: rsp)).
  by rewrite IH.
Qed.

(** ** The answers of the protocol *)

Lemma respond_length req rsp :
  respond req = Some rsp -> (3 <= length rsp <= 11)%nat.
Proof.
  unfold respond. destruct req as [|h [|l [|p r]]]; try done.
  destruct (_ =? _); [|done]. destruct (_ =? 0).
  { intros [= <-]. unfold data_object, discovery_payload.
    destruct (_ !! _) as [[]|]; simpl; lia. }
  destruct (_ || _); [|done]. intros [= <-]. unfold data_object, spdm_message.
  destruct (spdm_classify _); simpl; lia.
Qed.

Lemma respond_nonempty req rsp : respond req = Some rsp -> rsp <> [].
Proof. intros H%respond_length ->. simpl in H. lia. Qed.
