(* ===== verification/DoeEmu.v ===== *)
(** * doe-emu.c: the emulated DOE mailbox

    The whole program: the global mailbox [doe], the protocol handlers, the
    register file, the named pipes and the main loop, function by function and with
    every branch, log line and array access of the source. Array accesses outside
    the 68-word buffers and signed overflow are undefined behaviour ([UB]). *)
From S2P Require Import Prelude Bytes CMonad Log Wire ByteIO.

(** ** Constants *)

Definition DOE_BUF_DWORDS : Z := 68.

(** Register offsets relative to the capability base. *)
Definition DOE_REG_CTRL   : Z := 0x08.
Definition DOE_REG_STATUS : Z := 0x0c.
Definition DOE_REG_WRITE  : Z := 0x10.
Definition DOE_REG_READ   : Z := 0x14.

(** Status bits. *)
Definition DOE_STATUS_BUSY              : Z := 0x00000001.
Definition DOE_STATUS_ERROR             : Z := 0x00000004.
Definition DOE_STATUS_DATA_OBJECT_READY : Z := 0x80000000.

(** Control bits. *)
Definition DOE_CTRL_ABORT : Z := 0x00000001.
Definition DOE_CTRL_GO    : Z := 0x80000000.

(** Data object protocols. *)
Definition DOE_VID_PCISIG            : Z := 0x0001.
Definition DOE_TYPE_DISC             : Z := 0x00.
Definition DOE_TYPE_CMA_SPDM         : Z := 0x01.
Definition DOE_TYPE_SECURED_CMA_SPDM : Z := 0x02.
Definition DOE_VID_CXL               : Z := 0x1E98.
Definition DOE_TYPE_CXL_TABLE_ACCESS : Z := 0x02.

(** SPDM request and response codes. *)
Definition SPDM_GET_VERSION : Z := 0x84.
Definition SPDM_GET_CAPS    : Z := 0xE1.
Definition SPDM_NEG_ALGOS   : Z := 0xE3.
Definition SPDM_RSP_VERSION : Z := 0x04.
Definition SPDM_RSP_CAPS    : Z := 0x61.
Definition SPDM_RSP_ALGOS   : Z := 0x63.
Definition SPDM_RSP_ERROR   : Z := 0x7F.
Definition SPDM_ERR_UNSUP   : Z := 0x07.

Definition SPDM_CAP_CERT     : Z := Z.shiftl 1 2.
Definition SPDM_CAP_CHAL     : Z := Z.shiftl 1 3.
Definition SPDM_CAP_MEAS     : Z := Z.shiftl 2 4.
Definition SPDM_ASYM_RSA2048 : Z := Z.shiftl 1 1.
Definition SPDM_HASH_SHA256  : Z := Z.shiftl 1 0.
Definition SPDM_MEAS_DMTF    : Z := Z.shiftl 1 0.

(** The protocols advertised by discovery: vendor and type. *)
Definition protocols : list (Z * Z) :=
  [(DOE_VID_PCISIG, DOE_TYPE_DISC);
   (DOE_VID_PCISIG, DOE_TYPE_CMA_SPDM);
   (DOE_VID_PCISIG, DOE_TYPE_SECURED_CMA_SPDM);
   (DOE_VID_CXL, DOE_TYPE_CXL_TABLE_ACCESS)].
Definition NUM_PROTOCOLS : Z := Z.of_nat (length protocols).

(** ** State *)

(** The global [doe]. *)
Record doe_t : Type := Doe {
  status       : Z;
  req_buf      : list Z;
  req_len      : Z;
  rsp_buf      : list Z;
  rsp_len      : Z;
  rsp_idx      : Z;
  cap_base     : Z;
  cap_detected : Z;
}.

Definition set_status (v : Z) (d : doe_t) : doe_t :=
  Doe v (req_buf d) (req_len d) (rsp_buf d) (rsp_len d) (rsp_idx d) (cap_base d) (cap_detected d).
Definition set_req_buf (v : list Z) (d : doe_t) : doe_t :=
  Doe (status d) v (req_len d) (rsp_buf d) (rsp_len d) (rsp_idx d) (cap_base d) (cap_detected d).
Definition set_req_len (v : Z) (d : doe_t) : doe_t :=
  Doe (status d) (req_buf d) v (rsp_buf d) (rsp_len d) (rsp_idx d) (cap_base d) (cap_detected d).
Definition set_rsp_buf (v : list Z) (d : doe_t) : doe_t :=
  Doe (status d) (req_buf d) (req_len d) v (rsp_len d) (rsp_idx d) (cap_base d) (cap_detected d).
Definition set_rsp_len (v : Z) (d : doe_t) : doe_t :=
  Doe (status d) (req_buf d) (req_len d) (rsp_buf d) v (rsp_idx d) (cap_base d) (cap_detected d).
Definition set_rsp_idx (v : Z) (d : doe_t) : doe_t :=
  Doe (status d) (req_buf d) (req_len d) (rsp_buf d) (rsp_len d) v (cap_base d) (cap_detected d).
Definition set_cap_base (v : Z) (d : doe_t) : doe_t :=
  Doe (status d) (req_buf d) (req_len d) (rsp_buf d) (rsp_len d) (rsp_idx d) v (cap_detected d).
Definition set_cap_detected (v : Z) (d : doe_t) : doe_t :=
  Doe (status d) (req_buf d) (req_len d) (rsp_buf d) (rsp_len d) (rsp_idx d) (cap_base d) v.

(** [memset(&doe, 0, sizeof(doe))] *)
Definition doe_zero : doe_t :=
  Doe 0 (replicate (Z.to_nat DOE_BUF_DWORDS) 0) 0 (replicate (Z.to_nat DOE_BUF_DWORDS) 0) 0 0 0 0.

(** The globals of the program. *)
Record emu : Type := Emu { doe : doe_t; req_fd : Z; rep_fd : Z }.

Definition set_doe (d : doe_t) (g : emu) : emu := Emu d (req_fd g) (rep_fd g).
Definition set_req_fd (fd : Z) (g : emu) : emu := Emu (doe g) fd (rep_fd g).
Definition set_rep_fd (fd : Z) (g : emu) : emu := Emu (doe g) (req_fd g) fd.

Definition emu_init : emu := Emu doe_zero (-1) (-1).

(** ** Memory accesses *)

(** [doe.rsp_buf[i] = v] *)
Definition rsp_set (i v : Z) : C doe_t unit :=
  d ← get; b ← array_set (rsp_buf d) i (wrap32 v); modify (set_rsp_buf b).

(** [rsp[k] = v], where [rsp] is [&doe.rsp_buf[2]] cast to a byte pointer. *)
Definition rsp_store (k v : Z) : C doe_t unit :=
  if k <? 0 then undefined
  else d ← get; b ← checked (poke_byte (rsp_buf d) (8 + Z.to_nat k) v); modify (set_rsp_buf b).

(** [memcpy(rsp + k, bs, n)]; also the store of a [uint16_t] through a cast pointer. *)
Fixpoint rsp_memcpy (k : Z) (bs : list byte) : C doe_t unit :=
  match bs with
  | [] => mret tt
  | b :: bs => rsp_store k (byte_to_Z b);; rsp_memcpy (k + 1) bs
  end.

(** ** Protocol handlers *)

Definition doe_handle_discovery : C doe_t unit :=
  d ← get;
  if req_len d <? 3 then modify (set_status DOE_STATUS_ERROR)
  else
    r ← array_get (req_buf d) 2;
    let index := Z.land r 0xFF in
    let next := if wrap32 (index + 1) <? NUM_PROTOCOLS then wrap32 (index + 1) else 0 in
    LOG "doe-emu: discovery index=%u" [index];;
    rsp_set 0 (Z.lor DOE_VID_PCISIG (Z.shiftl DOE_TYPE_DISC 16));;
    rsp_set 1 4;;
    (if index <? NUM_PROTOCOLS then
       p ← array_get protocols index;
       rsp_set 2 (Z.lor (fst p) (Z.shiftl (snd p) 16));;
       rsp_set 3 next;;
       LOG "doe-emu: → VID=0x%04x Type=0x%02x next=%u" [fst p; snd p; next]
     else
       rsp_set 2 0;;
       rsp_set 3 0;;
       LOG "doe-emu: → end of list" []);;
    modify (set_rsp_len 4);;
    modify (set_rsp_idx 0);;
    modify (set_status DOE_STATUS_DATA_OBJECT_READY).

(** [while (spdm_bytes & 3) rsp[spdm_bytes++] = 0;] -- at most three rounds. *)
Fixpoint spdm_pad (fuel : nat) (spdm_bytes : Z) : C doe_t Z :=
  if truth (Z.land spdm_bytes 3) then
    match fuel with
    | O => out_of_fuel
    | S fuel =>
        rsp_store spdm_bytes 0;;
        n ← int_add spdm_bytes 1;
        spdm_pad fuel n
    end
  else mret spdm_bytes.

Definition spdm_finish (doe_type spdm_bytes : Z) : C doe_t unit :=
  n ← spdm_pad 3 spdm_bytes;
  let dwords := Z.quot n 4 in
  rsp_set 0 (Z.lor DOE_VID_PCISIG (wrap32 (Z.shiftl doe_type 16)));;
  len ← int_add 2 dwords;
  rsp_set 1 len;;
  modify (set_rsp_len len);;
  modify (set_rsp_idx 0);;
  modify (set_status DOE_STATUS_DATA_OBJECT_READY).

Definition spdm_error (doe_type errcode : Z) : C doe_t unit :=
  rsp_store 0 0x10;; rsp_store 1 SPDM_RSP_ERROR;; rsp_store 2 errcode;; rsp_store 3 0;;
  spdm_finish doe_type 4;;
  LOG "doe-emu: SPDM error 0x%02x" [errcode].

Definition spdm_handle (doe_type : Z) : C doe_t unit :=
  d ← get;
  if req_len d <? 3 then modify (set_status DOE_STATUS_ERROR)
  else
    ver ← checked (peek_byte (req_buf d) 8);
    code ← checked (peek_byte (req_buf d) 9);
    LOG "doe-emu: SPDM ver=0x%02x code=0x%02x" [ver; code];;
    if code =? SPDM_GET_VERSION then
      rsp_store 0 0x10;; rsp_store 1 SPDM_RSP_VERSION;;
      rsp_store 2 0;; rsp_store 3 0;;
      rsp_store 4 0;; rsp_store 5 0;;
      rsp_store 6 2;; rsp_store 7 0;;
      rsp_memcpy 8 (le_encode 2 0x1000);;
      rsp_memcpy 10 (le_encode 2 0x1200);;
      spdm_finish doe_type 12;;
      LOG "doe-emu: SPDM → VERSION (1.0, 1.2)" []
    else if code =? SPDM_GET_CAPS then
      let flags := Z.lor (Z.lor SPDM_CAP_CERT SPDM_CAP_CHAL) SPDM_CAP_MEAS in
      rsp_store 0 ver;; rsp_store 1 SPDM_RSP_CAPS;;
      rsp_store 2 0;; rsp_store 3 0;;
      rsp_store 4 0;; rsp_store 5 12;;
      rsp_store 6 0;; rsp_store 7 0;;
      rsp_memcpy 8 (le_encode 4 flags);;
      spdm_finish doe_type 12;;
      LOG "doe-emu: SPDM → CAPABILITIES flags=0x%08x" [flags]
    else if code =? SPDM_NEG_ALGOS then
      let asym := SPDM_ASYM_RSA2048 in
      let hash := SPDM_HASH_SHA256 in
      let len := 36 in
      rsp_memcpy 0 (replicate 36 Byte.x00);;
      rsp_store 0 ver;; rsp_store 1 SPDM_RSP_ALGOS;;
      rsp_store 2 0;; rsp_store 3 0;;
      rsp_memcpy 4 (le_encode 2 len);;
      rsp_store 6 SPDM_MEAS_DMTF;;
      rsp_memcpy 8 (le_encode 4 asym);;
      rsp_memcpy 12 (le_encode 4 hash);;
      spdm_finish doe_type 36;;
      LOG "doe-emu: SPDM → ALGORITHMS asym=RSA2048 hash=SHA256" []
    else spdm_error doe_type SPDM_ERR_UNSUP.

Definition doe_process : C doe_t unit :=
  d ← get;
  if req_len d <? 2 then
    LOG "doe-emu: malformed request (len=%d)" [req_len d];;
    modify (set_status DOE_STATUS_ERROR)
  else
    r ← array_get (req_buf d) 0;
    let vid := Z.land r 0xFFFF in
    let type := Z.land (Z.shiftr r 16) 0xFF in
    LOG "doe-emu: processing VID=0x%04x Type=0x%02x" [vid; type];;
    if (vid =? DOE_VID_PCISIG) && (type =? DOE_TYPE_DISC) then doe_handle_discovery
    else if (vid =? DOE_VID_PCISIG) &&
            ((type =? DOE_TYPE_CMA_SPDM) || (type =? DOE_TYPE_SECURED_CMA_SPDM))
    then spdm_handle type
    else
      LOG "doe-emu: unsupported protocol" [];;
      modify (set_status DOE_STATUS_ERROR).

(** ** Register file *)

Definition reg_read (reg : Z) : C doe_t Z :=
  d ← get;
  if reg =? DOE_REG_STATUS then
    LOG "doe-emu: STATUS → 0x%08x" [status d];;
    mret (status d)
  else if reg =? DOE_REG_READ then
    if rsp_len d <=? rsp_idx d then
      LOG "doe-emu: READ overrun" [];;
      mret 0xFFFFFFFF
    else
      v ← array_get (rsp_buf d) (rsp_idx d);
      LOG "doe-emu: READ[%d] → 0x%08x" [rsp_idx d; v];;
      mret v
  else
    LOG "doe-emu: unhandled read reg=0x%02x" [reg];;
    mret 0.

Definition reg_write (reg val : Z) : C doe_t unit :=
  if reg =? DOE_REG_CTRL then
    LOG "doe-emu: CTRL ← 0x%08x" [val];;
    (if truth (Z.land val DOE_CTRL_ABORT) then
       LOG "doe-emu: ABORT" [];;
       modify (fun d => set_req_len 0 (set_rsp_len 0 (set_rsp_idx 0 d)));;
       modify (set_status 0)
     else mret tt);;
    (if truth (Z.land val DOE_CTRL_GO) then
       LOG "doe-emu: GO" [];;
       doe_process;;
       modify (set_req_len 0)
     else mret tt)
  else if reg =? DOE_REG_WRITE then
    d ← get;
    LOG "doe-emu: WRITE[%d] ← 0x%08x" [req_len d; val];;
    (if req_len d <? DOE_BUF_DWORDS then
       b ← array_set (req_buf d) (req_len d) val;
       n ← int_add (req_len d) 1;
       modify (set_req_buf b);;
       modify (set_req_len n)
     else mret tt)
  else if reg =? DOE_REG_READ then
    (if val =? 0 then
       d ← get;
       n ← int_add (rsp_idx d) 1;
       modify (set_rsp_idx n);;
       LOG "doe-emu: READ ack → %d/%d" [n; rsp_len d];;
       (if rsp_len d <=? n then
          modify (set_status 0);;
          modify (fun d => set_rsp_idx 0 (set_rsp_len 0 d));;
          LOG "doe-emu: response consumed" []
        else mret tt)
     else mret tt)
  else LOG "doe-emu: unhandled write reg=0x%02x val=0x%08x" [reg; val].

(** ** Named pipes and the main loop *)

Definition in_doe {A} : C doe_t A -> C emu A := zoom doe set_doe.

Definition open_pipes (path : string) : C emu Z :=
  let req := snprintf 1024 (String.append path "/request_server_pipe") in
  let rep := snprintf 1024 (String.append path "/reply_server_pipe") in
  fd ← sys_path "open" req [O_RDWR];
  modify (set_req_fd fd);;
  if fd <? 0 then perror "open request_server_pipe";; mret (-1)
  else
    fd' ← sys_path "open" rep [O_RDWR];
    modify (set_rep_fd fd');;
    if fd' <? 0 then perror "open reply_server_pipe";; mret (-1)
    else LOG "doe-emu: pipes opened (%s)" [];; mret 0.

(** The reply both branches of [run] prepare: all zero, the packet header echoed. *)
Definition reply_header (req : simics_transaction_t) : simics_transaction_t :=
  Simics (packet_number req) (packet_type req) (sim_type req) 0 0 0 0 0 0 (r0w1 req) 4
         (replicate MAX_PAYLOAD Byte.x00) 0 0 0 0 0 0 0 0 0.

Definition set_data (bs : list byte) (t : simics_transaction_t) : simics_transaction_t :=
  Simics (packet_number t) (packet_type t) (sim_type t) (bus_no t) (dev_no t) (fun_no t)
         (cfg_type t) (control_status t) (physical_address t) (r0w1 t) (data_size t) bs
         (reg_value t) (fixed_first_size t) (unaligned_value t) (fbe t) (fixed_last_size t)
         (lbe t) (cmp_status t) (response1 t) (response2 t).

(** The register access of one request, after capability detection. *)
Definition access (req : simics_transaction_t) (reg : Z) : C emu simics_transaction_t :=
  let rsp := reply_header req in
  if r0w1 req =? 0 then
    val ← in_doe (reg_read reg);
    mret (set_data (splice 0 (le_encode 4 val) (data rsp)) rsp)
  else
    let val := le_decode (take 4 (data req)) in
    in_doe (reg_write reg val);;
    mret rsp.

(** The body of [for (;;)] in [run] once the request [t] has been read; [false] is
    the [break]. *)
Definition handle (t : simics_transaction_t) : C emu bool :=
  g ← get;
  if truth (Z.land (control_status t) 0x1) then
    LOG "doe-emu: quit received" [];; mret false
  else
    let offset := wrap32 (physical_address t) in
    if negb (truth (cap_detected (doe g))) && (r0w1 t =? 1) then
      pipe_write (rep_fd g) (to_bytes (reply_header t));;
      mret true
    else
      (if truth (cap_detected (doe g)) then mret tt
       else
         in_doe (modify (fun d => set_cap_detected 1 (set_cap_base (wrap32 (offset - DOE_REG_STATUS)) d)));;
         LOG "doe-emu: cap_base=0x%x (auto-detected)" [wrap32 (offset - DOE_REG_STATUS)]);;
      d ← gets doe;
      rsp ← access t (wrap32 (offset - cap_base d));
      pipe_write (rep_fd g) (to_bytes rsp);;
      mret true.

(** One round of [for (;;)] in [run]. *)
Definition run_iter : C emu bool :=
  g ← get;
  bs ← pipe_read (req_fd g) (sizeof simics_transaction_t);
  handle (of_bytes bs).

Definition run (fuel : nat) : C emu unit := forever fuel run_iter.

Definition main (fuel : nat) : C emu Z :=
  lf ← getenv "CXL_LOG_FILE";
  log_init lf;;
  path ← getenv "CXL_RELAY_SERVER_PATH";
  match path with
  | None =>
      emit (EvPrint "doe-emu: %s not set" []);;
      log_close;; mret 1
  | Some path =>
      in_doe (modify (fun _ => doe_zero));;
      r ← open_pipes path;
      if r <? 0 then log_close;; mret 1
      else
        LOG "doe-emu: ready" [];;
        run fuel;;
        g ← get;
        sys "close" [req_fd g];;
        sys "close" [rep_fd g];;
        log_close;;
        mret 0
  end.
