(* ===== verification/DoeSpec.v ===== *)
(** * doe-emu.c implements the mailbox

    The well-formedness of the global [doe], the abstraction function to the
    machine of Mailbox.v, and the refinement: every register access of the
    emulator keeps the invariant, never leaves the buffers, returns what the
    abstract machine returns and moves to the state it moves to. *)
From S2P Require Import Prelude Bytes CMonad Log Wire ByteIO Mailbox DoeEmu.

(** ** The bytes behind the response buffer *)

Lemma length_decode_ints n count bs : length (decode_ints n count bs) = count.
Proof. revert bs; induction count; intros; simpl; auto. Qed.

Lemma decode_ints_app n k j a b :
  length a = (n * k)%nat -> decode_ints n (k + j) (a ++ b) = decode_ints n k a ++ decode_ints n j b.
Proof.
  revert a; induction k as [|k IH]; intros a Hl; simpl.
  { by destruct a; [|simpl in Hl; lia]. }
  rewrite take_app_le, drop_app_le by lia. f_equal. apply IH. rewrite length_drop. lia.
Qed.

Lemma take_decode_ints n k j bs :
  (k <= j)%nat -> take k (decode_ints n j bs) = decode_ints n k bs.
Proof.
  revert j bs; induction k as [|k IH]; intros [|j] bs Hl; simpl; try done; try lia.
  f_equal. apply IH. lia.
Qed.

Lemma decode_ints_take n k bs j :
  (n * k <= j)%nat -> decode_ints n k (take j bs) = decode_ints n k bs.
Proof.
  revert bs j; induction k as [|k IH]; intros bs j Hl; simpl; [done|].
  rewrite take_take, Nat.min_l by lia. f_equal.
  rewrite skipn_firstn_comm. apply IH. lia.
Qed.

Lemma decode_ints_pack k bs :
  length bs = (4 * k)%nat -> decode_ints 4 k bs = pack_dwords bs.
Proof.
  revert bs; induction k as [|k IH]; intros bs Hl.
  { by destruct bs. }
  destruct bs as [|b0 [|b1 [|b2 [|b3 bs]]]]; simpl in Hl; try lia.
  cbn [decode_ints pack_dwords take drop]. f_equal. apply IH. lia.
Qed.

Lemma decode_ints_lookup k bs i :
  (i < k)%nat -> decode_ints 4 k bs !! i = Some (le_decode (take 4 (drop (4 * i) bs))).
Proof.
  revert bs i; induction k as [|k IH]; intros bs [|i] Hi; simpl; try lia; [done|].
  rewrite IH by lia. rewrite drop_drop. do 4 f_equal. lia.
Qed.

(** A word store is a splice of its four bytes. *)
Lemma decode_ints_insert k bs i ws :
  (i < k)%nat -> length bs = (4 * k)%nat -> length ws = 4%nat ->
  <[i := le_decode ws]> (decode_ints 4 k bs) = decode_ints 4 k (splice (4 * i) ws bs).
Proof.
  intros Hi Hl Hw. replace k with (i + S (k - i - 1))%nat by lia. unfold splice.
  rewrite <- (take_drop (4 * i) bs) at 1.
  rewrite !decode_ints_app by (rewrite length_take; lia).
  rewrite insert_app_r_alt by (rewrite length_decode_ints; lia).
  rewrite length_decode_ints, Nat.sub_diag. f_equal.
  cbn [decode_ints]. rewrite (take_app_exact ws), (drop_app_exact ws) by done.
  rewrite drop_drop. simpl. by rewrite Hw.
Qed.

Lemma splice_word (bs : list byte) i j x :
  (j < 4)%nat -> (4 * i + 4 <= length bs)%nat ->
  splice (4 * i) (<[j := x]> (take 4 (drop (4 * i) bs))) bs = <[(4 * i + j)%nat := x]> bs.
Proof.
  intros Hj Hl. set (m := take 4 (drop (4 * i) bs)).
  assert (length m = 4%nat) as Hm by (unfold m; rewrite length_take, length_drop; lia).
  assert (splice (4 * i) m bs = bs) as Hbs.
  { unfold splice. rewrite Hm. unfold m. rewrite <- drop_drop, !take_drop. done. }
  clearbody m. rewrite (insert_splice (4 * i + j)) by lia. rewrite <- Hbs at 2.
  rewrite (splice_merge (4 * i) j) by (try done; simpl; lia).
  by rewrite <- insert_splice by lia.
Qed.

Lemma poke_byte_decode n bs k v :
  length bs = (4 * n)%nat -> (k < 4 * n)%nat ->
  poke_byte (decode_ints 4 n bs) k v = Some (decode_ints 4 n (splice k [byte_of_Z v] bs)).
Proof.
  intros Hl Hk. unfold poke_byte.
  pose proof (Nat.div_mod_eq k 4) as E. pose proof (Nat.mod_upper_bound k 4 ltac:(lia)) as B.
  set (i := (k / 4)%nat) in *. set (j := (k mod 4)%nat) in *.
  rewrite decode_ints_lookup by lia. cbn [mbind option_bind].
  rewrite le_encode_decode by (rewrite length_take, length_drop; lia). f_equal.
  rewrite decode_ints_insert by (rewrite ?length_insert, ?length_take, ?length_drop; lia).
  rewrite splice_word by lia. f_equal. rewrite insert_splice by lia. f_equal. lia.
Qed.

Lemma encode_ints_ok l : Forall u32 l -> decode_ints 4 (length l) (encode_ints 4 l) = l.
Proof.
  intros H. rewrite <- (app_nil_r (encode_ints 4 l)). apply decode_encode_ints; [done|].
  eapply Forall_impl; [|exact H]. intros z. cint.
Qed.

(** ** Rules for the stores

    [with_bytes d bs] is [d] with the response buffer that the bytes [bs] make up. *)

Definition with_bytes (d : doe_t) (bs : list byte) : doe_t :=
  set_rsp_buf (decode_ints 4 68 bs) d.

Lemma with_bytes_self d :
  length (rsp_buf d) = 68%nat -> Forall u32 (rsp_buf d) ->
  with_bytes d (encode_ints 4 (rsp_buf d)) = d.
Proof.
  intros Hl HF. unfold with_bytes. rewrite <- Hl, encode_ints_ok by done. by destruct d.
Qed.

Section rules.
Implicit Types (d : doe_t) (w : world) (bs : list byte).
Implicit Types (Q : unit -> doe_t -> world -> Prop) (R : halt -> doe_t -> world -> Prop).

Lemma wp_rsp_set Q R d w bs i v :
  0 <= i < 68 -> length bs = 272%nat ->
  Q tt (with_bytes d (splice (4 * Z.to_nat i) (le_encode 4 v) bs)) w ->
  wp (rsp_set i v) Q R (with_bytes d bs) w.
Proof.
  intros Hi Hl HQ. unfold rsp_set. apply wp_bind, wp_get, wp_bind, wp_array_set.
  { simpl. lia. }
  apply wp_modify. cbn [with_bytes set_rsp_buf rsp_buf].
  replace (wrap32 v) with (le_decode (le_encode 4 v)) by apply le_decode_encode_mod.
  rewrite decode_ints_insert by (rewrite ?length_le_encode; lia). exact HQ.
Qed.

Lemma wp_rsp_store Q R d w bs k v :
  0 <= k < 264 -> length bs = 272%nat ->
  Q tt (with_bytes d (splice (8 + Z.to_nat k) [byte_of_Z v] bs)) w ->
  wp (rsp_store k v) Q R (with_bytes d bs) w.
Proof.
  intros Hk Hl HQ. unfold rsp_store. destruct (Z.ltb_spec k 0); [lia|].
  apply wp_bind, wp_get, wp_bind. eapply wp_checked.
  { cbn [with_bytes set_rsp_buf rsp_buf]. apply poke_byte_decode; lia. }
  apply wp_modify. exact HQ.
Qed.

Lemma wp_rsp_memcpy Q R d w k cs : forall bs,
  0 <= k -> k + Z.of_nat (length cs) <= 264 -> length bs = 272%nat ->
  Q tt (with_bytes d (splice (8 + Z.to_nat k) cs bs)) w ->
  wp (rsp_memcpy k cs) Q R (with_bytes d bs) w.
Proof.
  revert k; induction cs as [|c cs IH]; intros k bs Hk Hle Hl HQ.
  { rewrite splice_nil in HQ. exact HQ. }
  cbn [rsp_memcpy length] in *. apply wp_bind, wp_rsp_store; [lia|done|].
  rewrite byte_of_to_Z. apply IH; [lia|lia|rewrite length_splice; simpl; lia|].
  rewrite (splice_merge (8 + Z.to_nat k) 1) by (simpl; lia).
  replace (splice 1 cs [c]) with (c :: cs); [exact HQ|].
  unfold splice. simpl. by rewrite drop_nil, app_nil_r.
Qed.
End rules.

(** Only log lines were added to the world. *)
Definition erase_trace (w : world) : world :=
  World (w_env w) (w_sched w) (w_in w) (w_out w) (w_nlin w) (w_nlout w) (w_logfp w) [].
Definition quiet (w w' : world) : Prop := erase_trace w' = erase_trace w.

Lemma quiet_refl w : quiet w w.
Proof. done. Qed.
Lemma quiet_event w e w' : quiet (add_event e w) w' -> quiet w w'.
Proof. done. Qed.
Lemma quiet_trans w w' w'' : quiet w w' -> quiet w' w'' -> quiet w w''.
Proof. unfold quiet. congruence. Qed.

(** ** Invariant and abstraction *)

Record doe_ok (d : doe_t) : Prop := {
  ok_req_buf : length (req_buf d) = 68%nat;
  ok_req_u32 : Forall u32 (req_buf d);
  ok_rsp_buf : length (rsp_buf d) = 68%nat;
  ok_rsp_u32 : Forall u32 (rsp_buf d);
  ok_req_len : 0 <= req_len d <= 68;
  ok_rsp_len : 0 <= rsp_len d <= 68;
  ok_rsp_idx : 0 <= rsp_idx d /\ (rsp_idx d < rsp_len d \/ rsp_idx d = 0 /\ rsp_len d = 0);
  ok_status  : (status d = 0 /\ rsp_len d = 0) \/
               (status d = DOE_STATUS_DATA_OBJECT_READY /\ 0 < rsp_len d) \/
               status d = DOE_STATUS_ERROR;
  ok_base    : u32 (cap_base d);
}.

Definition abs_status (st : Z) : mb_state :=
  if st =? 0 then Idle else if st =? DOE_STATUS_DATA_OBJECT_READY then Ready else Failed.

Definition request (d : doe_t) : list Z := take (Z.to_nat (req_len d)) (req_buf d).
Definition response (d : doe_t) : list Z :=
  drop (Z.to_nat (rsp_idx d)) (take (Z.to_nat (rsp_len d)) (rsp_buf d)).

Definition absr (d : doe_t) : mailbox :=
  Mailbox (abs_status (status d)) (request d) (response d).

(** A handler answered [d] with the data object [rsp]: the buffer holds it, the
    read index is at its start, nothing else but the status changed. *)
Definition answered (d d' : doe_t) (rsp : list Z) : Prop :=
  exists bs, length bs = 272%nat /\
    d' = set_status DOE_STATUS_DATA_OBJECT_READY
           (set_rsp_idx 0 (set_rsp_len (Z.of_nat (length rsp)) (with_bytes d bs))) /\
    decode_ints 4 (length rsp) bs = rsp.

Lemma answered_splice d d' bs X n rsp :
  length bs = 272%nat -> length X = (4 * n)%nat -> (n <= 68)%nat ->
  d' = set_status DOE_STATUS_DATA_OBJECT_READY
         (set_rsp_idx 0 (set_rsp_len (Z.of_nat n) (with_bytes d (splice 0 X bs)))) ->
  decode_ints 4 n X = rsp ->
  answered d d' rsp.
Proof.
  intros Hl HX Hn -> <-. exists (splice 0 X bs). rewrite length_decode_ints.
  split; [rewrite length_splice; lia|]. split; [done|].
  unfold splice. simpl. rewrite <- (decode_ints_take 4 n _ (4 * n)) by lia.
  by rewrite take_app_exact.
Qed.

(** The end of a handler: the bytes written are the data object. *)
Ltac answer n :=
  eapply (answered_splice _ _ _ _ n); [|..|reflexivity|]; [done|done|lia|reflexivity].

(** ** The handlers *)

(** Every handler runs on a buffer of which the bytes [X] from the start are known;
    stores extend or overwrite them. *)
Lemma wp_with_bytes {A} (m : C doe_t A) Q R d w :
  doe_ok d ->
  (forall a0 a1 a2 a3 a4 a5 a6 a7 bs, length bs = 272%nat ->
     wp m Q R (with_bytes d (splice 0 [a0; a1; a2; a3; a4; a5; a6; a7] bs)) w) ->
  wp m Q R d w.
Proof.
  intros Hok H. set (bs := encode_ints 4 (rsp_buf d)).
  assert (length bs = 272%nat) as Hbs.
  { unfold bs. by rewrite length_encode_ints, (ok_rsp_buf d Hok). }
  assert (with_bytes d bs = d) as E by (apply with_bytes_self; apply Hok).
  clearbody bs. do 8 (destruct bs as [|? bs]; [simpl in Hbs; lia|]).
  rewrite <- E. by refine (H _ _ _ _ _ _ _ _ (_ :: _ :: _ :: _ :: _ :: _ :: _ :: _ :: bs) _).
Qed.

Lemma with_bytes_req_len d bs : req_len (with_bytes d bs) = req_len d.
Proof. done. Qed.
Lemma with_bytes_req_buf d bs : req_buf (with_bytes d bs) = req_buf d.
Proof. done. Qed.

Section known.
Implicit Types (d : doe_t) (w : world) (bs X : list byte).
Implicit Types (Q : unit -> doe_t -> world -> Prop) (R : halt -> doe_t -> world -> Prop).

Lemma wp_known_set Q R d w bs X i v :
  0 <= i -> (4 * Z.to_nat i <= length X)%nat -> (length X <= 272)%nat -> i < 68 ->
  length bs = 272%nat ->
  Q tt (with_bytes d (splice 0 (splice (4 * Z.to_nat i) (le_encode 4 v) X) bs)) w ->
  wp (rsp_set i v) Q R (with_bytes d (splice 0 X bs)) w.
Proof.
  intros. apply wp_rsp_set; [lia|rewrite length_splice; lia|].
  by rewrite (splice_merge 0 (4 * Z.to_nat i)) by (rewrite ?length_le_encode; lia).
Qed.

Lemma wp_known_store Q R d w bs X k v :
  0 <= k -> (8 + Z.to_nat k <= length X)%nat -> (length X <= 272)%nat -> k < 264 ->
  length bs = 272%nat ->
  Q tt (with_bytes d (splice 0 (splice (8 + Z.to_nat k) [byte_of_Z v] X) bs)) w ->
  wp (rsp_store k v) Q R (with_bytes d (splice 0 X bs)) w.
Proof.
  intros. apply wp_rsp_store; [lia|rewrite length_splice; lia|].
  by rewrite (splice_merge 0 (8 + Z.to_nat k)) by (simpl; lia).
Qed.

Lemma wp_known_memcpy Q R d w bs X k cs :
  0 <= k -> (8 + Z.to_nat k <= length X)%nat -> (length X <= 272)%nat ->
  k + Z.of_nat (length cs) <= 264 -> length bs = 272%nat ->
  Q tt (with_bytes d (splice 0 (splice (8 + Z.to_nat k) cs X) bs)) w ->
  wp (rsp_memcpy k cs) Q R (with_bytes d (splice 0 X bs)) w.
Proof.
  intros. apply wp_rsp_memcpy; [lia|lia|rewrite length_splice; lia|].
  by rewrite (splice_merge 0 (8 + Z.to_nat k)) by (simpl; lia).
Qed.
End known.

(** One store of a handler, with the bytes known so far computed. *)
Ltac store :=
  apply wp_bind;
  lazymatch goal with
  | |- wp (rsp_store _ _) _ _ _ _ => apply wp_known_store
  | |- wp (rsp_memcpy _ _) _ _ _ _ => apply wp_known_memcpy
  | |- wp (rsp_set _ _) _ _ _ _ => apply wp_known_set
  end;
  [by cbn; lia..| ];
  lazymatch goal with
  | |- context [splice 0 ?X ?bs] =>
      let X' := eval cbv [splice take drop app Nat.add Nat.mul Z.to_nat Pos.to_nat Pos.iter_op
                          le_encode length replicate] in X in
      change (splice 0 X bs) with (splice 0 X' bs)
  end.

Lemma land_255 z : Z.land z 0xFF = z mod 256.
Proof. apply (Z.land_ones z 8). lia. Qed.
Lemma land_65535 z : Z.land z 0xFFFF = z mod 65536.
Proof. apply (Z.land_ones z 16). lia. Qed.
Lemma land_3 z : Z.land z 3 = z mod 4.
Proof. apply (Z.land_ones z 2). lia. Qed.

Lemma discovery_spec d w p :
  doe_ok d -> 3 <= req_len d -> req_buf d !! 2%nat = Some p ->
  wp doe_handle_discovery
     (fun _ d' w' => answered d d' (data_object VID_PCISIG 0 (discovery_payload (p mod 256))) /\ quiet w w')
     never d w.
Proof.
  intros Hok Hlen Hp. apply wp_with_bytes; [done|]. intros a0 a1 a2 a3 a4 a5 a6 a7 bs Hbs.
  unfold doe_handle_discovery. apply wp_bind, wp_get.
  rewrite with_bytes_req_len, with_bytes_req_buf.
  destruct (Z.ltb_spec (req_len d) 3); [lia|].
  apply wp_bind. eapply wp_array_get; [lia|exact Hp|].
  apply wp_bind, wp_LOG. intros e. rewrite land_255.
  assert (0 <= p mod 256 < 256) as Hi by (apply Z.mod_pos_bound; lia).
  set (i := p mod 256) in *. clearbody i.
  store. store. apply wp_bind.
  destruct (Z.ltb_spec i NUM_PROTOCOLS) as [Hlt|Hge]; change NUM_PROTOCOLS with 4 in *.
  - assert (i = 0 \/ i = 1 \/ i = 2 \/ i = 3) as Hcase by lia.
    destruct Hcase as [->|[->|[->| ->]]]; (apply wp_bind; eapply wp_array_get; [lia|done|]);
      store; store; apply wp_LOG; intros e'; do 2 apply wp_bind, wp_modify; apply wp_modify;
      (split; [answer 4%nat|done]).
  - store. store. apply wp_LOG; intros e'; do 2 apply wp_bind, wp_modify; apply wp_modify.
    split; [|done]. unfold discovery_payload.
    rewrite lookup_ge_None_2 by (simpl; lia). answer 4%nat.
Qed.

(** *** SPDM *)

Lemma wp_spdm_pad Q R d w bs X n fuel :
  0 <= n <= 264 -> length X = (8 + Z.to_nat n)%nat -> length bs = 272%nat ->
  (Z.to_nat ((- n) mod 4) <= fuel)%nat ->
  Q (n + (- n) mod 4)
    (with_bytes d (splice 0 (X ++ replicate (Z.to_nat ((- n) mod 4)) Byte.x00) bs)) w ->
  wp (spdm_pad fuel n) Q R (with_bytes d (splice 0 X bs)) w.
Proof.
  remember (Z.to_nat ((- n) mod 4)) as r eqn:Hr. revert n X fuel Hr.
  induction r as [|r IH]; intros n X fuel Hr Hn HX Hbs Hf HQ;
    pose proof (Z.mod_pos_bound (- n) 4 eq_refl) as B.
  - assert ((- n) mod 4 = 0) as E0 by lia. rewrite E0, Z.add_0_r in HQ. simpl in HQ.
    assert (n mod 4 = 0) as E1 by (Z.div_mod_to_equations; lia).
    destruct fuel; cbn [spdm_pad]; rewrite land_3, E1; simpl; apply wp_ret; by rewrite app_nil_r in HQ.
  - destruct fuel as [|fuel]; [lia|]. cbn [spdm_pad]. rewrite land_3.
    assert (n mod 4 <> 0) as E1 by (Z.div_mod_to_equations; lia).
    rewrite (proj2 (truth_true _) E1).
    assert (n < 264) by (Z.div_mod_to_equations; lia).
    assert ((- (n + 1)) mod 4 = (- n) mod 4 - 1) as E2 by (Z.div_mod_to_equations; lia).
    apply wp_bind, wp_known_store; [lia..|].
    apply wp_bind, wp_int_add; [cint|].
    assert (splice (8 + Z.to_nat n) [byte_of_Z 0] X = X ++ [Byte.x00]) as ->.
    { unfold splice. rewrite take_ge, drop_ge by (simpl; lia). done. }
    apply (IH (n + 1)); rewrite ?length_app; try (simpl; lia).
    rewrite E2, <- app_assoc. simpl.
    replace (n + 1 + ((- n) mod 4 - 1)) with (n + (- n) mod 4) by lia. exact HQ.
Qed.

(** [spdm_finish] on a message of any length that fits: zero padded to whole words,
    behind the header and the length. *)
Lemma wp_spdm_finish Q R d w bs A M ty n :
  length A = 8%nat -> Z.of_nat (length M) = n -> n <= 264 -> length bs = 272%nat ->
  0 <= ty < 256 ->
  (let k := (n + 3) / 4 in
   Q tt (set_status DOE_STATUS_DATA_OBJECT_READY (set_rsp_idx 0 (set_rsp_len (2 + k)
     (with_bytes d (splice 0 (le_encode 4 (object_header VID_PCISIG ty) ++ le_encode 4 (2 + k) ++
                              M ++ replicate (Z.to_nat ((- n) mod 4)) Byte.x00) bs))))) w) ->
  wp (spdm_finish ty n) Q R (with_bytes d (splice 0 (A ++ M) bs)) w.
Proof.
  intros HA HM Hn Hbs Hty HQ. cbn zeta in HQ. unfold spdm_finish.
  assert (n + (- n) mod 4 = 4 * ((n + 3) / 4)) as E by (Z.div_mod_to_equations; lia).
  pose proof (Z.mod_pos_bound (- n) 4 eq_refl) as B.
  assert (0 <= (n + 3) / 4 <= 66) as Bk by (Z.div_mod_to_equations; lia).
  set (Zs := replicate (Z.to_nat ((- n) mod 4)) Byte.x00) in *.
  assert (length Zs = Z.to_nat ((- n) mod 4)) as HZ by apply length_replicate.
  apply wp_bind, wp_spdm_pad; [lia|rewrite length_app; lia|done|lia|]. fold Zs.
  rewrite E. set (k := (n + 3) / 4) in *. clearbody k. clearbody Zs.
  assert (Z.quot (4 * k) 4 = k) as -> by (rewrite Z.mul_comm; apply Z.quot_mul; lia).
  assert (Z.lor DOE_VID_PCISIG (wrap32 (Z.shiftl ty 16)) = object_header VID_PCISIG ty) as ->.
  { rewrite Z.shiftl_mul_pow2 by lia. rewrite wrap32_id by cint.
    unfold object_header. change DOE_VID_PCISIG with 1. change VID_PCISIG with 1.
    pose proof (Z.add_lor_land 1 (ty * 2 ^ 16)) as EL.
    assert (Z.land 1 (ty * 2 ^ 16) = 0) as EA; [|lia].
    rewrite Z.land_comm. change 1 with (Z.ones 1) at 1. rewrite Z.land_ones by lia.
    change (2 ^ 1) with 2. change (2 ^ 16) with (32768 * 2).
    rewrite Z.mul_assoc. apply Z_mod_mult. }
  do 9 (destruct A as [|? A]; try (simpl in HA; lia)).
  apply wp_bind, wp_known_set; [lia|simpl; lia|rewrite !length_app; simpl; lia|lia|done|].
  apply wp_bind, wp_int_add; [cint|].
  apply wp_bind, wp_known_set; [lia|simpl; lia| |lia|done|].
  { unfold splice. simpl. rewrite !length_app. lia. }
  do 2 apply wp_bind, wp_modify. apply wp_modify. exact HQ.
Qed.

Lemma peek_byte_word buf d i j :
  buf !! i = Some d -> (j < 4)%nat ->
  peek_byte buf (4 * i + j) = byte_to_Z <$> le_encode 4 d !! j.
Proof.
  intros H Hj. unfold peek_byte.
  replace ((4 * i + j) `div` 4)%nat with i by (rewrite Nat.mul_comm, Nat.div_add_l, Nat.div_small; lia).
  replace ((4 * i + j) `mod` 4)%nat with j
    by (rewrite Nat.add_comm, Nat.mul_comm, Nat.Div0.mod_add, Nat.mod_small; lia).
  by rewrite H.
Qed.

(** The end of an SPDM handler, with [n] words in the data object. *)
Ltac finish n :=
  apply wp_bind;
  match goal with
  | |- context [splice 0 (?a0 :: ?a1 :: ?a2 :: ?a3 :: ?a4 :: ?a5 :: ?a6 :: ?a7 :: ?M) _] =>
      apply (wp_spdm_finish _ _ _ _ _ [a0; a1; a2; a3; a4; a5; a6; a7] M)
  end; [done|done|lia|done|lia|];
  cbn zeta; apply wp_LOG; intros ?; split; [|done];
  match goal with H : _ = 1 \/ _ = 2 |- _ => destruct H as [->| ->] end; answer n.

Lemma spdm_spec d w p ty :
  doe_ok d -> 3 <= req_len d -> req_buf d !! 2%nat = Some p -> ty = 1 \/ ty = 2 ->
  wp (spdm_handle ty)
     (fun _ d' w' => answered d d' (data_object VID_PCISIG ty
        (pack_dwords (spdm_message (p mod 256) (spdm_classify ((p / 256) mod 256))))) /\ quiet w w')
     never d w.
Proof.
  intros Hok Hlen Hp Hty. apply wp_with_bytes; [done|]. intros a0 a1 a2 a3 a4 a5 a6 a7 bs Hbs.
  unfold spdm_handle. apply wp_bind, wp_get.
  rewrite with_bytes_req_len, with_bytes_req_buf.
  destruct (Z.ltb_spec (req_len d) 3); [lia|].
  apply wp_bind. eapply wp_checked.
  { exact (peek_byte_word _ _ 2 0 Hp ltac:(lia)). }
  apply wp_bind. eapply wp_checked.
  { exact (peek_byte_word _ _ 2 1 Hp ltac:(lia)). }
  rewrite !byte_to_of_Z. apply wp_bind, wp_LOG. intros e. fold (wrap8 p).
  change (wrap8 (p / 256)) with ((p / 256) mod 256).
  unfold spdm_classify.
  change SPDM_GET_VERSION with 0x84. change SPDM_GET_CAPS with 0xE1. change SPDM_NEG_ALGOS with 0xE3.
  destruct (_ =? 0x84); [|destruct (_ =? 0xE1); [|destruct (_ =? 0xE3)]].
  - do 10 store. finish 5%nat.
  - do 9 store. finish 5%nat.
  - do 9 store. finish 11%nat.
  - unfold spdm_error. do 4 store. finish 3%nat.
Qed.

(** ** Processing a request *)

Lemma request_cases d :
  doe_ok d -> exists r0 r1 r2 rest, req_buf d = r0 :: r1 :: r2 :: rest /\ length rest = 65%nat.
Proof.
  intros Hok. pose proof (ok_req_buf d Hok) as Hl.
  destruct (req_buf d) as [|r0 [|r1 [|r2 rest]]]; simpl in Hl; try lia.
  exists r0, r1, r2, rest. split; [done|lia].
Qed.

Lemma respond_short l : (length l < 3)%nat -> respond l = None.
Proof. destruct l as [|? [|? [|? ?]]]; simpl; [done..|lia]. Qed.

Lemma respond_request d r0 r1 r2 rest :
  req_buf d = r0 :: r1 :: r2 :: rest -> 3 <= req_len d ->
  respond (request d) = respond (r0 :: r1 :: r2 :: take (Z.to_nat (req_len d) - 3) rest).
Proof.
  intros E H. unfold request. rewrite E.
  replace (Z.to_nat (req_len d)) with (S (S (S (Z.to_nat (req_len d) - 3)))) at 1 by lia. done.
Qed.

Lemma process_spec d w :
  doe_ok d ->
  wp doe_process
     (fun _ d' w' => quiet w w' /\
        match respond (request d) with
        | Some rsp => answered d d' rsp
        | None => d' = set_status DOE_STATUS_ERROR d
        end) never d w.
Proof.
  intros Hok. destruct (request_cases d Hok) as (r0 & r1 & r2 & rest & E & Hl).
  assert (req_len d < 3 -> respond (request d) = None) as Hshort.
  { intros H. apply respond_short. unfold request. rewrite length_take. lia. }
  unfold doe_process. apply wp_bind, wp_get. destruct (Z.ltb_spec (req_len d) 2).
  { apply wp_bind, wp_LOG. intros e. apply wp_modify. by rewrite Hshort by lia. }
  apply wp_bind. eapply wp_array_get; [lia|by rewrite E|].
  apply wp_bind, wp_LOG. intros e. rewrite land_65535, land_255, Z.shiftr_div_pow2 by lia.
  change (2 ^ 16) with 65536. change (r0 mod 65536) with (vendor_id r0).
  change ((r0 / 65536) mod 256) with (object_type r0).
  change DOE_VID_PCISIG with VID_PCISIG. change DOE_TYPE_DISC with 0.
  change DOE_TYPE_CMA_SPDM with 1. change DOE_TYPE_SECURED_CMA_SPDM with 2.
  destruct (Z.ltb_spec (req_len d) 3) as [H3|H3].
  - (* header and length only: every branch reports the error *)
    rewrite Hshort by done.
    destruct ((vendor_id r0 =? VID_PCISIG) && (object_type r0 =? 0)).
    { unfold doe_handle_discovery. apply wp_bind, wp_get.
      destruct (Z.ltb_spec (req_len d) 3); [|lia]. by apply wp_modify. }
    destruct ((vendor_id r0 =? VID_PCISIG) && ((object_type r0 =? 1) || (object_type r0 =? 2))).
    { unfold spdm_handle. apply wp_bind, wp_get.
      destruct (Z.ltb_spec (req_len d) 3); [|lia]. by apply wp_modify. }
    apply wp_bind, wp_LOG. intros e'. by apply wp_modify.
  - rewrite (respond_request d r0 r1 r2 rest E H3). unfold respond.
    assert (req_buf d !! 2%nat = Some r2) as E2 by (by rewrite E).
    destruct (vendor_id r0 =? VID_PCISIG); cbn [andb].
    2: { apply wp_bind, wp_LOG. intros e'. by apply wp_modify. }
    destruct (object_type r0 =? 0).
    { eapply wp_mono; [by apply discovery_spec|..]; [|done]. by intros _ d' w' [? ?]. }
    destruct (_ || _) eqn:Ety.
    { eapply wp_mono; [apply (spdm_spec d _ r2); [done..|]|..]; [|by intros _ d' w' [? ?]|done].
      apply orb_true_iff in Ety as [?%Z.eqb_eq|?%Z.eqb_eq]; auto. }
    apply wp_bind, wp_LOG. intros e'. by apply wp_modify.
Qed.

Lemma answered_ok d d' rsp :
  doe_ok d -> answered d d' rsp -> (0 < length rsp <= 68)%nat ->
  doe_ok d' /\ absr d' = Mailbox Ready (request d) rsp.
Proof.
  intros Hok (bs & Hbs & -> & Hd) Hl. split.
  - assert (Forall u32 (decode_ints 4 68 bs)) as HF.
    { eapply Forall_impl; [|apply decode_ints_bound; rewrite Hbs; lia]. intros z. cint. }
    pose proof (length_decode_ints 4 68 bs) as HL. unfold with_bytes.
    generalize dependent (decode_ints 4 68 bs). intros B HF HL.
    split; cbn; try apply Hok; try done; lia.
  - unfold absr, response. cbn [status rsp_idx rsp_len rsp_buf set_status set_rsp_idx set_rsp_len with_bytes set_rsp_buf].
    rewrite Nat2Z.id, drop_0, take_decode_ints, Hd by lia. done.
Qed.

(** *** Messages of any length *)

(** Zero bytes up to a whole word do not change the words. *)
Lemma pack_dwords_pad M :
  pack_dwords (M ++ replicate (Z.to_nat ((- Z.of_nat (length M)) mod 4)) Byte.x00) = pack_dwords M.
Proof.
  assert (forall n M, (length M <= n)%nat ->
    pack_dwords (M ++ replicate (Z.to_nat ((- Z.of_nat (length M)) mod 4)) Byte.x00) = pack_dwords M) as H;
    [|by eapply H].
  clear M. induction n as [|n IH]; intros l Hl; destruct l as [|b0 [|b1 [|b2 [|b3 l]]]]; simpl in Hl; try lia;
    try done.
  cbn [length]. replace ((- Z.of_nat (S (S (S (S (length l)))))) mod 4) with ((- Z.of_nat (length l)) mod 4).
  - cbn [app pack_dwords]. by rewrite IH by lia.
  - rewrite <- (Z_mod_plus_full (- Z.of_nat (S (S (S (S (length l)))))) 1 4). f_equal. lia.
Qed.

Lemma length_pack_dwords k bs : length bs = (4 * k)%nat -> length (pack_dwords bs) = k.
Proof. intros H. by rewrite <- (decode_ints_pack k bs H), length_decode_ints. Qed.

Lemma spdm_finish_spec d w M ty :
  doe_ok d -> u8 ty -> (length M <= 264)%nat ->
  slice 8 (length M) (encode_ints 4 (rsp_buf d)) = M ->
  wp (spdm_finish ty (Z.of_nat (length M)))
     (fun _ d' w' => answered d d' (data_object VID_PCISIG ty (pack_dwords M)) /\ w' = w) never d w.
Proof.
  intros Hok Hty HM Hs. set (bs := encode_ints 4 (rsp_buf d)) in *.
  assert (length bs = 272%nat) as Hbs by (unfold bs; by rewrite length_encode_ints, (ok_rsp_buf d Hok)).
  assert (splice 0 (take 8 bs ++ M) bs = bs) as E.
  { unfold splice. cbn [take app]. rewrite length_app, length_take, <- Hs at 1. unfold slice.
    rewrite <- app_assoc, Hbs. replace (0 + (8 `min` 272 + length M))%nat with (8 + length M)%nat by lia.
    by rewrite <- drop_drop, !take_drop. }
  rewrite <- (with_bytes_self d (ok_rsp_buf d Hok) (ok_rsp_u32 d Hok)). fold bs. rewrite <- E at 1.
  apply wp_spdm_finish; [rewrite length_take; lia|done|lia|done|exact Hty|]. cbn zeta.
  rewrite with_bytes_self by apply Hok. split; [|done].
  set (n := Z.of_nat (length M)). set (pad := replicate (Z.to_nat ((- n) mod 4)) Byte.x00).
  pose proof (Z.mod_pos_bound (- n) 4 eq_refl) as B.
  assert (length (M ++ pad) = 4 * Z.to_nat ((n + 3) / 4))%nat as Hlp.
  { rewrite length_app. unfold pad. rewrite length_replicate. unfold n in *. Z.div_mod_to_equations. lia. }
  assert (length (pack_dwords M) = Z.to_nat ((n + 3) / 4)) as Hlen.
  { rewrite <- pack_dwords_pad. fold n pad. by apply length_pack_dwords. }
  assert (0 <= (n + 3) / 4 <= 66) as Bk by (unfold n in *; Z.div_mod_to_equations; lia).
  eapply (answered_splice _ _ bs (le_encode 4 (object_header VID_PCISIG ty) ++ le_encode 4 (2 + (n + 3) / 4) ++ M ++ pad)
    (2 + Z.to_nat ((n + 3) / 4))); [done| |lia| |].
  { rewrite !(length_app (le_encode _ _)), !length_le_encode, Hlp. lia. }
  { by replace (Z.of_nat (2 + Z.to_nat ((n + 3) / 4))) with (2 + (n + 3) / 4) by lia. }
  cbn [Nat.add decode_ints]. rewrite !drop_app_exact, !take_app_exact by apply length_le_encode.
  rewrite decode_ints_pack by done. unfold pad, n. rewrite pack_dwords_pad. unfold data_object. rewrite Hlen, Z2Nat.id by apply Bk.
  unfold object_header, VID_PCISIG in *. by rewrite !le_decode_encode_u32 by (unfold n in *; cint).
Qed.

(** ** The register file refines the abstract machine *)

Lemma truth_testbit0 v : truth (Z.land v DOE_CTRL_ABORT) = Z.testbit v 0.
Proof.
  change DOE_CTRL_ABORT with (Z.ones 1). rewrite Z.land_ones by lia.
  rewrite Z.bit0_odd. change (2 ^ 1) with 2. rewrite Zmod_odd. by destruct (Z.odd v).
Qed.

Lemma truth_testbit31 v : truth (Z.land v DOE_CTRL_GO) = Z.testbit v 31.
Proof.
  change DOE_CTRL_GO with (2 ^ 31). unfold truth.
  destruct (Z.testbit v 31) eqn:E.
  - destruct (Z.eqb_spec (Z.land v (2 ^ 31)) 0) as [H|]; [|done].
    pose proof (f_equal (fun z => Z.testbit z 31) H) as H'. cbn beta in H'.
    rewrite Z.land_spec, E in H'. done.
  - replace (Z.land v (2 ^ 31)) with 0; [done|]. symmetry. apply Z.bits_inj'. intros i Hi.
    rewrite Z.land_spec, Z.bits_0, Z.pow2_bits_eqb by lia.
    destruct (Z.eqb_spec 31 i) as [<-|]; [by rewrite E|apply andb_false_r].
Qed.

Lemma abs_status_bits d : doe_ok d -> status_bits (abs_status (status d)) = status d.
Proof.
  intros Hok. unfold abs_status.
  destruct (ok_status d Hok) as [[-> _]|[[-> _]| ->]]; done.
Qed.

(** The fields no register access touches. *)
Definition same_cap (d d' : doe_t) : Prop :=
  cap_base d' = cap_base d /\ cap_detected d' = cap_detected d.

Lemma go_spec d w :
  doe_ok d ->
  wp (doe_process;; modify (set_req_len 0))
     (fun _ d' w' => doe_ok d' /\ absr d' = mb_go (absr d) /\ same_cap d d' /\ quiet w w') never d w.
Proof.
  intros Hok. apply wp_bind. eapply wp_mono; [by apply process_spec| |done].
  cbn beta. intros _ d' w' [Hq Hr]. apply wp_modify.
  unfold mb_go. cbn [absr mb_req mb_rsp]. destruct (respond (request d)) as [rsp|] eqn:E.
  - pose proof (respond_length _ _ E) as Hl.
    destruct (answered_ok d d' rsp Hok Hr ltac:(lia)) as [Hok' Ha].
    destruct Hr as (bs & Hbs & Hd' & Hd). split; [|split; [|split; [by rewrite Hd'|done]]].
    + destruct Hok'; split; cbn; try done; lia.
    + transitivity (Mailbox (mb_status (absr d')) [] (mb_rsp (absr d'))); [done|by rewrite Ha].
  - subst d'. split; [|split; [done|done]].
    destruct Hok; split; cbn; try done; auto; lia.
Qed.

Lemma abort_ok d : doe_ok d -> doe_ok (set_status 0 (set_req_len 0 (set_rsp_len 0 (set_rsp_idx 0 d)))).
Proof. intros []; split; cbn; try done; auto; lia. Qed.

Lemma abort_absr d : absr (set_status 0 (set_req_len 0 (set_rsp_len 0 (set_rsp_idx 0 d)))) = mb_empty.
Proof. done. Qed.

Lemma push_spec d w v :
  doe_ok d -> u32 v ->
  wp (if req_len d <? DOE_BUF_DWORDS then
        b ← array_set (req_buf d) (req_len d) v;
        n ← int_add (req_len d) 1;
        modify (set_req_buf b);;
        modify (set_req_len n)
      else mret tt)
     (fun _ d' w' => doe_ok d' /\ absr d' = mb_push v (absr d) /\ same_cap d d' /\ quiet w w') never d w.
Proof.
  intros Hok Hv. pose proof (ok_req_len d Hok) as Hn. pose proof (ok_req_buf d Hok) as Hl.
  unfold mb_push. cbn [absr mb_req mb_status mb_rsp].
  assert (length (request d) = Z.to_nat (req_len d)) as Hr.
  { unfold request. rewrite length_take. lia. }
  rewrite Hr. change DOE_BUF_DWORDS with 68. unfold mb_capacity.
  destruct (Z.ltb_spec (req_len d) 68) as [Hlt|Hge].
  - destruct (Nat.ltb_spec (Z.to_nat (req_len d)) 68); [|lia].
    apply wp_bind, wp_array_set; [lia|]. apply wp_bind, wp_int_add; [cint|].
    apply wp_bind, wp_modify, wp_modify. split; [|split; [|done]].
    + destruct Hok; split; cbn; rewrite ?length_insert; try done; [|lia].
      by apply Forall_insert.
    + unfold absr. f_equal. unfold request. cbn [req_len req_buf set_req_len set_req_buf].
      replace (Z.to_nat (req_len d + 1)) with (S (Z.to_nat (req_len d))) by lia.
      rewrite (take_S_r _ _ v) by (apply list_lookup_insert_eq; lia).
      by rewrite take_insert_ge by lia.
  - destruct (Nat.ltb_spec (Z.to_nat (req_len d)) 68); [lia|]. by apply wp_ret.
Qed.

Lemma response_cons d :
  doe_ok d -> rsp_idx d < rsp_len d ->
  exists v, rsp_buf d !! Z.to_nat (rsp_idx d) = Some v /\ u32 v /\
    response d = v :: drop (S (Z.to_nat (rsp_idx d))) (take (Z.to_nat (rsp_len d)) (rsp_buf d)).
Proof.
  intros Hok Hlt. pose proof (ok_rsp_idx d Hok). pose proof (ok_rsp_len d Hok). pose proof (ok_rsp_buf d Hok).
  destruct (lookup_lt_is_Some_2 (rsp_buf d) (Z.to_nat (rsp_idx d))) as [v Hv]; [lia|].
  exists v. split; [done|]. split.
  { exact (Forall_lookup_1 _ _ _ _ (ok_rsp_u32 d Hok) Hv). }
  unfold response. apply drop_S. by rewrite lookup_take_lt by lia.
Qed.

Lemma ack_spec d w :
  doe_ok d ->
  wp (n ← int_add (rsp_idx d) 1;
      modify (set_rsp_idx n);;
      LOG "doe-emu: READ ack → %d/%d" [n; rsp_len d];;
      (if rsp_len d <=? n then
         modify (set_status 0);;
         modify (fun d => set_rsp_idx 0 (set_rsp_len 0 d));;
         LOG "doe-emu: response consumed" []
       else mret tt))
     (fun _ d' w' => doe_ok d' /\ absr d' = mb_ack (absr d) /\ same_cap d d' /\ quiet w w') never d w.
Proof.
  intros Hok. pose proof (ok_rsp_idx d Hok) as Hi. pose proof (ok_rsp_len d Hok) as Hn.
  pose proof (ok_rsp_buf d Hok) as Hb.
  apply wp_bind, wp_int_add; [cint|]. apply wp_bind, wp_modify, wp_bind, wp_LOG. intros e.
  unfold mb_ack. cbn [absr mb_req mb_status mb_rsp].
  destruct (Z.leb_spec (rsp_len d) (rsp_idx d + 1)) as [Hle|Hgt].
  - do 2 apply wp_bind, wp_modify. apply wp_LOG. intros e'. split; [|split; [|done]].
    + destruct Hok; split; cbn; try done; auto; lia.
    + assert (length (response d) <= 1)%nat as Hr.
      { unfold response. rewrite length_drop, length_take. lia. }
      destruct (response d) as [|? [|? ?]]; simpl in Hr; [done|done|lia].
  - apply wp_ret. split; [|split; [|done]].
    + destruct Hok; split; cbn; try done; lia.
    + destruct (response_cons d Hok ltac:(lia)) as (v & _ & _ & ->).
      unfold absr, response. cbn [status rsp_idx rsp_len rsp_buf set_rsp_idx].
      replace (Z.to_nat (rsp_idx d + 1)) with (S (Z.to_nat (rsp_idx d))) by lia.
      set (tl := drop (S _) _). assert (length tl <> 0%nat) as Hne.
      { unfold tl. rewrite length_drop, length_take. lia. }
      by destruct tl.
Qed.

Lemma reg_write_spec reg v d w :
  doe_ok d -> u32 v ->
  wp (reg_write reg v)
     (fun _ d' w' => doe_ok d' /\ absr d' = mb_write (mb_decode reg) v (absr d) /\
        same_cap d d' /\ quiet w w') never d w.
Proof.
  intros Hok Hv. unfold reg_write, mb_decode.
  change DOE_REG_CTRL with 0x08. change DOE_REG_WRITE with 0x10. change DOE_REG_READ with 0x14.
  destruct (Z.eqb_spec reg 0x08) as [->|H8].
  { apply wp_bind, wp_LOG. intros e. rewrite truth_testbit0, truth_testbit31.
    cbn [mb_write]. apply wp_bind.
    destruct (Z.testbit v 0).
    - apply wp_bind, wp_LOG. intros e'. apply wp_bind, wp_modify, wp_modify.
      destruct (Z.testbit v 31).
      + apply wp_bind, wp_LOG. intros e''. rewrite <- (abort_absr d).
        eapply wp_mono; [by apply go_spec, abort_ok|..]; [|done].
        by intros _ d' w' (?&?&?&?).
      + apply wp_ret. rewrite <- (abort_absr d). split; [by apply abort_ok|done].
    - apply wp_ret. destruct (Z.testbit v 31); [|by apply wp_ret].
      apply wp_bind, wp_LOG. intros e''.
      eapply wp_mono; [by apply go_spec|..]; [|done]. by intros _ d' w' (?&?&?&?). }
  destruct (Z.eqb_spec reg 0x10) as [->|H10].
  { apply wp_bind, wp_get, wp_bind, wp_LOG. intros e.
    eapply wp_mono; [by apply push_spec|..]; [|done]. by intros _ d' w' (?&?&?&?). }
  destruct (Z.eqb_spec reg 0x14) as [->|H14].
  { cbn [mb_write Z.eqb Pos.eqb]. destruct (v =? 0); [|by apply wp_ret].
    apply wp_bind, wp_get. by apply ack_spec. }
  apply wp_LOG. intros e. by destruct (_ =? 12).
Qed.

Lemma reg_read_spec reg d w :
  doe_ok d ->
  wp (reg_read reg)
     (fun r d' w' => d' = d /\ r = mb_read (mb_decode reg) (absr d) /\ u32 r /\ quiet w w') never d w.
Proof.
  intros Hok. unfold reg_read, mb_decode. apply wp_bind, wp_get.
  change DOE_REG_STATUS with 0x0c. change DOE_REG_READ with 0x14.
  destruct (Z.eqb_spec reg 0x0c) as [->|H0c].
  { apply wp_bind, wp_LOG. intros e. apply wp_ret. cbn [mb_read Z.eqb Pos.eqb absr mb_status].
    rewrite abs_status_bits by done. split; [done|]. split; [done|]. split; [|done].
    destruct (ok_status d Hok) as [[-> _]|[[-> _]| ->]]; done. }
  destruct (Z.eqb_spec reg 0x14) as [->|H14].
  { cbn [mb_read Z.eqb Pos.eqb absr mb_rsp]. pose proof (ok_rsp_idx d Hok) as Hi.
    destruct (Z.leb_spec (rsp_len d) (rsp_idx d)) as [Hle|Hlt].
    - apply wp_bind, wp_LOG. intros e. apply wp_ret.
      unfold response. by rewrite drop_ge by (rewrite length_take; lia).
    - destruct (response_cons d Hok Hlt) as (v & Hv & Hu & ->).
      apply wp_bind. eapply wp_array_get; [lia|done|].
      apply wp_bind, wp_LOG. intros e. by apply wp_ret. }
  apply wp_bind, wp_LOG. intros e. apply wp_ret.
  destruct (Z.eqb_spec reg 8); [done|]. by destruct (_ =? 16).
Qed.
