(* ===== verification/EmuSpec.v ===== *)
(** * The emulator as a device on the pipes

    The main loop of doe-emu.c against an abstract device: a mailbox and the
    capability base, if it has been detected. One transaction in, one reply out;
    a whole run over a list of transactions; and, for any behaviour of the kernel,
    no undefined behaviour and an orderly end. *)
From S2P Require Import Prelude Bytes CMonad Log Wire ByteIO Mailbox DoeEmu DoeSpec.

(** ** The abstract device *)

Record device : Type := Device { dev_base : option Z; dev_mb : mailbox }.

Definition quit_bit (t : simics_transaction_t) : bool := Z.odd (control_status t).

Definition address (t : simics_transaction_t) : Z := physical_address t mod 2 ^ 32.
Definition word (t : simics_transaction_t) : Z := le_decode (take 4 (data t)).

(** The reply to a transaction: its header echoed, a word of data for a read. *)
Definition reply (t : simics_transaction_t) (v : Z) : simics_transaction_t :=
  Simics (packet_number t) (packet_type t) (sim_type t) 0 0 0 0 0 0 (r0w1 t) 4
         (le_encode 4 v ++ replicate 252 Byte.x00) 0 0 0 0 0 0 0 0 0.

Definition dev_access (base : Z) (m : mailbox) (t : simics_transaction_t) : device * simics_transaction_t :=
  let reg := mb_decode ((address t - base) mod 2 ^ 32) in
  if r0w1 t =? 0 then (Device (Some base) m, reply t (mb_read reg m))
  else (Device (Some base) (mb_write reg (word t) m), reply t 0).

(** The first transaction that is not a plain write fixes the base: it is taken to
    be a read of STATUS, 12 above the base. Plain writes before that are dropped. *)
Definition dev_step (d : device) (t : simics_transaction_t) : device * simics_transaction_t :=
  match dev_base d with
  | Some base => dev_access base (dev_mb d) t
  | None =>
      if r0w1 t =? 1 then (d, reply t 0)
      else dev_access ((address t - 12) mod 2 ^ 32) (dev_mb d) t
  end.

Fixpoint dev_run (d : device) (l : list simics_transaction_t) : device * list simics_transaction_t :=
  match l with
  | [] => (d, [])
  | t :: l =>
      let '(d1, r) := dev_step d t in
      let '(d2, rs) := dev_run d1 l in
      (d2, r :: rs)
  end.

Definition dev_init : device := Device None mb_empty.

(** ** Abstraction *)

Definition absd (d : doe_t) : device :=
  Device (if truth (cap_detected d) then Some (cap_base d) else None) (absr d).

Definition abse (g : emu) : device := absd (doe g).

Lemma doe_zero_ok : doe_ok doe_zero.
Proof. split; cbn; try done; try lia; auto; try (by repeat constructor). Qed.

Lemma quiet_sched w w' : quiet w w' -> w_sched w' = w_sched w.
Proof. intros H. exact (f_equal w_sched H). Qed.
Lemma quiet_in w w' : quiet w w' -> w_in w' = w_in w.
Proof. intros H. exact (f_equal w_in H). Qed.
Lemma quiet_out w w' : quiet w w' -> w_out w' = w_out w.
Proof. intros H. exact (f_equal w_out H). Qed.

(** ** One register access of the emulator *)

Lemma reply_header_reply t : reply_header t = reply t 0.
Proof. unfold reply_header, reply. f_equal. Qed.

Lemma reply_data t v :
  set_data (splice 0 (le_encode 4 v) (data (reply_header t))) (reply_header t) = reply t v.
Proof. unfold reply, set_data, reply_header, splice. cbn [data]. f_equal. Qed.

Lemma reply_ok t v : simics_ok t -> simics_ok (reply t v).
Proof.
  intros (H32 & _ & _). split; [|split]; cbn -[MAX_PAYLOAD le_encode replicate].
  - decompose_Forall_hyps. repeat constructor; cint.
  - done.
  - by rewrite length_app, length_le_encode.
Qed.

Lemma word_u32 t : simics_ok t -> u32 (word t).
Proof.
  intros (_ & _ & Hd). apply le_decode_u32. rewrite length_take, Hd. unfold MAX_PAYLOAD. lia.
Qed.

(** The detection step of [run]: the base the access uses, and the state after. *)
Definition detected (g : emu) (t : simics_transaction_t) : emu :=
  if truth (cap_detected (doe g)) then g
  else set_doe (set_cap_detected 1 (set_cap_base (wrap32 (address t - DOE_REG_STATUS)) (doe g))) g.

Lemma detected_ok g t : doe_ok (doe g) -> doe_ok (doe (detected g t)).
Proof.
  intros H. unfold detected. destruct (truth _); [done|].
  destruct H; split; cbn; try done. apply wrap32_u32.
Qed.

Definition same_fds (g g' : emu) : Prop := req_fd g' = req_fd g /\ rep_fd g' = rep_fd g.

Lemma access_spec g w t :
  doe_ok (doe g) -> truth (cap_detected (doe g)) = true -> simics_ok t ->
  wp (access t (wrap32 (address t - cap_base (doe g))))
     (fun rsp g' w' => doe_ok (doe g') /\ same_fds g g' /\ quiet w w' /\
        (abse g', rsp) = dev_access (cap_base (doe g)) (absr (doe g)) t) never g w.
Proof.
  intros Hok Hcap Ht. unfold access, dev_access.
  change (wrap32 (address t - cap_base (doe g))) with ((address t - cap_base (doe g)) mod 2 ^ 32).
  set (reg := (address t - cap_base (doe g)) mod 2 ^ 32).
  destruct (r0w1 t =? 0).
  - apply wp_bind, wp_zoom. eapply wp_mono; [by apply reg_read_spec|..]; [|done].
    cbn beta. intros r d' w' (-> & -> & _ & Hq). apply wp_ret. rewrite reply_data.
    split; [done|]. split; [done|]. split; [done|].
    unfold abse, absd. cbn [set_doe doe]. by rewrite Hcap.
  - apply wp_bind, wp_zoom.
    eapply wp_mono; [apply reg_write_spec; [done|by apply word_u32]|..]; [|done].
    cbn beta. intros _ d' w' (Hok' & Ha & [Hb Hc] & Hq). apply wp_ret.
    split; [done|]. split; [done|]. split; [done|].
    unfold abse, absd. cbn [set_doe doe]. rewrite Ha, Hb, Hc, Hcap. by rewrite reply_header_reply.
Qed.

(** ** One round of the main loop *)

Definition odd_land (z : Z) : truth (Z.land z 1) = Z.odd z.
Proof.
  change 1 with (Z.ones 1) at 1. rewrite Z.land_ones by lia. change (2 ^ 1) with 2.
  rewrite Zmod_odd. by destruct (Z.odd z).
Qed.

(** [handle] is a computation of its own, up to the write of the reply: the pipe and
    the reply, or the quit; then the write. *)
Definition handle_local (t : simics_transaction_t) : C emu (option (Z * simics_transaction_t)) :=
  g ← get;
  if truth (Z.land (control_status t) 0x1) then
    LOG "doe-emu: quit received" [];; mret None
  else
    let offset := wrap32 (physical_address t) in
    if negb (truth (cap_detected (doe g))) && (r0w1 t =? 1) then
      mret (Some (rep_fd g, reply_header t))
    else
      (if truth (cap_detected (doe g)) then mret tt
       else
         in_doe (modify (fun d => set_cap_detected 1 (set_cap_base (wrap32 (offset - DOE_REG_STATUS)) d)));;
         LOG "doe-emu: cap_base=0x%x (auto-detected)" [wrap32 (offset - DOE_REG_STATUS)]);;
      d ← gets doe;
      rsp ← access t (wrap32 (offset - cap_base d));
      mret (Some (rep_fd g, rsp)).

Lemma handle_split t :
  handle t ≐ (o ← handle_local t;
              match o with
              | Some (fd, rsp) => pipe_write fd (to_bytes rsp);; mret true
              | None => mret false
              end).
Proof.
  unfold handle_local, handle. rewrite bind_assoc. same_step.
  destruct (truth (Z.land (control_status t) 1)); [rewrite bind_assoc; same_step; reflexivity|].
  cbn zeta. destruct (negb _ && _); [reflexivity|].
  rewrite bind_assoc. same_step. rewrite bind_assoc. same_step. rewrite bind_assoc. same_step. reflexivity.
Qed.

Lemma handle_local_spec g w t :
  doe_ok (doe g) -> simics_ok t ->
  wp (handle_local t)
     (fun o g' w' => quiet w w' /\
        if quit_bit t then o = None /\ g' = g
        else exists rsp, o = Some (rep_fd g, rsp) /\ doe_ok (doe g') /\ same_fds g g' /\ simics_ok rsp /\
               (abse g', rsp) = dev_step (abse g) t) never g w.
Proof.
  intros Hok Ht. unfold handle_local. apply wp_bind, wp_get. rewrite odd_land.
  unfold quit_bit in *. destruct (Z.odd (control_status t)).
  { apply wp_bind, wp_LOG. intros e. by apply wp_ret. }
  cbn zeta. change (wrap32 (physical_address t)) with (address t).
  destruct (truth (cap_detected (doe g))) eqn:Hcap; cbn [negb andb].
  - apply wp_bind, wp_ret, wp_bind, wp_gets, wp_bind.
    eapply wp_mono; [by apply access_spec|..]; [|done].
    cbn beta. intros rsp g' w' (Hok' & Hfd & Hq & E). apply wp_ret.
    split; [done|]. exists rsp. repeat (split; [done|]). split.
    + assert (rsp = snd (dev_access (cap_base (doe g)) (absr (doe g)) t)) as -> by (by rewrite <- E).
      unfold dev_access. by destruct (_ =? 0); apply reply_ok.
    + unfold abse at 2, absd, dev_step. cbn [dev_base dev_mb]. by rewrite Hcap.
  - destruct (Z.eqb_spec (r0w1 t) 1) as [H1|H1].
    + apply wp_ret. split; [done|]. rewrite reply_header_reply. eexists. repeat (split; [done|]).
      split; [by apply reply_ok|].
      unfold abse, absd, dev_step. cbn [dev_base dev_mb]. rewrite Hcap, H1. done.
    + apply wp_bind, wp_bind, wp_zoom, wp_modify, wp_LOG. intros e.
      apply wp_bind, wp_gets, wp_bind.
      set (g1 := set_doe _ g).
      assert (doe_ok (doe g1)) as Hok1.
      { pose proof (detected_ok g t Hok) as Hd. unfold detected in Hd. by rewrite Hcap in Hd. }
      eapply wp_mono; [apply access_spec; [exact Hok1|done|exact Ht]|..]; [|done].
      cbn beta. intros rsp g' w' (Hok' & Hfd & Hq & E). apply wp_ret.
      split; [done|]. exists rsp. repeat (split; [done|]). split.
      * assert (rsp = snd (dev_access (cap_base (doe g1)) (absr (doe g1)) t)) as -> by (by rewrite <- E).
        unfold dev_access. by destruct (_ =? 0); apply reply_ok.
      * unfold abse at 2, absd, dev_step. cbn [dev_base dev_mb]. rewrite Hcap.
        destruct (Z.eqb_spec (r0w1 t) 1); [done|]. exact E.
Qed.

(** The common part of all the theorems about [handle]: what remains is the write. *)
Lemma wp_handle Q R g w t :
  doe_ok (doe g) -> simics_ok t ->
  (quit_bit t = true -> forall w', quiet w w' -> Q false g w') ->
  (quit_bit t = false -> forall g' w' rsp,
     doe_ok (doe g') -> same_fds g g' -> quiet w w' -> simics_ok rsp ->
     (abse g', rsp) = dev_step (abse g) t ->
     wp (pipe_write (rep_fd g) (to_bytes rsp);; mret true) Q R g' w') ->
  wp (handle t) Q R g w.
Proof.
  intros Hok Ht Hquit Hgo. eapply ceq_wp; [symmetry; apply handle_split|]. apply wp_bind.
  eapply wp_mono; [by apply handle_local_spec| |done]. cbn beta. intros o g' w' [Hq H].
  destruct (quit_bit t); [destruct H as [-> ->]; by apply Hquit|].
  destruct H as (rsp & -> & ? & ? & ? & ?). by apply Hgo.
Qed.

(** ** A kernel that makes progress *)

Lemma quiet_live {m} j w w' : quiet w w' -> live m j w -> live m j w'.
Proof. intros H. unfold live. by rewrite (quiet_sched _ _ H). Qed.
Lemma quiet_pending fd w w' : quiet w w' -> pending fd w' = pending fd w.
Proof. intros H. unfold pending. by rewrite (quiet_in _ _ H). Qed.
Lemma quiet_written fd w w' : quiet w w' -> written fd w' = written fd w.
Proof. intros H. unfold written. by rewrite (quiet_out _ _ H). Qed.

Lemma run_iter_live {m} g w t rest j :
  doe_ok (doe g) -> simics_ok t -> quit_bit t = false ->
  pending (req_fd g) w = to_bytes t ++ rest -> live m (688 + j) w ->
  wp run_iter
     (fun go g' w' => go = true /\ doe_ok (doe g') /\ same_fds g g' /\
        abse g' = fst (dev_step (abse g) t) /\
        written (rep_fd g) w' = written (rep_fd g) w ++ to_bytes (snd (dev_step (abse g) t)) /\
        pending (req_fd g) w' = rest /\ live m j w')
     never g w.
Proof.
  intros Hok Ht Hq Hp HL. unfold run_iter. apply wp_bind, wp_get.
  apply (wp_recv_struct (H := simics_struct) (m := m) _ _ t rest (344 + j)); [done..|]. intros w1 I1 L1.
  rewrite of_to_bytes by exact Ht. apply wp_handle; [done|done|by rewrite Hq|].
  intros _ g' w2 rsp Hok' Hfd Hqu Hr E.
  apply (wp_send_struct (H := simics_struct) (m := m) _ _ rsp j);
    [done|by apply (quiet_live (m := m) _ w1)|]. intros w3 I3 L3.
  apply wp_ret. rewrite <- E. cbn [fst snd].
  do 4 (split; [done|]). split; [|split; [|done]]; io.
  - by rewrite (quiet_written _ _ _ Hqu); io.
  - by rewrite (quiet_pending _ _ _ Hqu); io.
Qed.

Lemma run_iter_quit {m} g w t rest j :
  doe_ok (doe g) -> simics_ok t -> quit_bit t = true ->
  pending (req_fd g) w = to_bytes t ++ rest -> live m (344 + j) w ->
  wp run_iter
     (fun go g' w' => go = false /\ g' = g /\
        written (rep_fd g) w' = written (rep_fd g) w /\ pending (req_fd g) w' = rest /\ live m j w')
     never g w.
Proof.
  intros Hok Ht Hq Hp HL. unfold run_iter. apply wp_bind, wp_get.
  apply (wp_recv_struct (H := simics_struct) (m := m) _ _ t rest j); [done..|]. intros w1 I1 L1.
  rewrite of_to_bytes by exact Ht. apply wp_handle; [done|done| |by rewrite Hq].
  intros _ w2 Hqu. do 2 (split; [done|]).
  rewrite (quiet_written _ _ _ Hqu), (quiet_pending _ _ _ Hqu). io.
  do 2 (split; [done|]). by apply (quiet_live (m := m) _ w1).
Qed.

(** A whole session: the replies are those of the abstract device, in order. *)
Lemma run_live {m} l : forall fuel g w q rest j,
  doe_ok (doe g) -> Forall simics_ok l -> Forall (fun t => quit_bit t = false) l ->
  simics_ok q -> quit_bit q = true ->
  pending (req_fd g) w = concat (map to_bytes l) ++ to_bytes q ++ rest ->
  live m (688 * length l + 344 + j) w -> (length l < fuel)%nat ->
  wp (run fuel)
     (fun _ g' w' => doe_ok (doe g') /\ same_fds g g' /\ abse g' = fst (dev_run (abse g) l) /\
        written (rep_fd g) w' = written (rep_fd g) w ++ concat (map to_bytes (snd (dev_run (abse g) l))) /\
        pending (req_fd g) w' = rest /\ live m j w')
     never g w.
Proof.
  induction l as [|t l IH]; intros fuel g w q rest j Hok Hl Hnq Hq Hqq Hp HL Hf;
    (destruct fuel as [|fuel]; [simpl in Hf; lia|]); unfold run; cbn [forever]; apply wp_bind.
  - eapply wp_mono; [by apply (run_iter_quit (m := m) g w q rest j)|..]; [|done].
    cbn beta. intros go g' w' (-> & -> & Hw & Hr & L). apply wp_ret. cbn. by rewrite app_nil_r.
  - apply Forall_cons_1 in Hl as [Ht Hl]. apply Forall_cons_1 in Hnq as [Htq Hnq].
    cbn [map concat] in Hp. rewrite <- app_assoc in Hp.
    eapply wp_mono; [apply (run_iter_live (m := m) g w t _ (688 * length l + 344 + j) Hok Ht Htq Hp)|..]; [|..|done].
    { eapply live_mono; [|exact HL]. cbn [length]. lia. }
    cbn beta. intros go g1 w1 (-> & Hok1 & [F1 F2] & Ha & Hw & Hr & L1).
    eapply wp_mono; [apply (IH fuel g1 w1 q rest j); try done|..]; [..|done].
    { by rewrite F1. } { cbn [length] in Hf. lia. }
    cbn beta. intros _ g' w' (Hok' & [F1' F2'] & Ha' & Hw' & Hr' & L').
    rewrite F1, F2, Ha in *. cbn [dev_run]. destruct (dev_step (abse g) t) as [d1 r].
    cbn [fst snd] in *. destruct (dev_run d1 l) as [d2 rs]. cbn [fst snd map concat] in *.
    split; [done|]. split; [split; congruence|]. split; [done|]. split; [|done].
    by rewrite Hw', Hw, <- app_assoc.
Qed.

(** ** Any kernel *)

Lemma run_iter_any g w :
  doe_ok (doe g) ->
  wp run_iter
     (fun go g' w' => doe_ok (doe g') /\ same_fds g g' /\
        (length (w_sched w') < length (w_sched w))%nat)
     (fun h g' w' => doe_ok (doe g') /\ (h = Exited 1 \/ h = Blocked)) g w.
Proof.
  intros Hok. unfold run_iter. apply wp_bind, wp_get, wp_bind.
  eapply wp_mono; [apply read_all_any|..].
  2: { intros h g' w' [-> Hh]. done. }
  cbn beta. intros bs g' w1 (-> & _ & Hl & _ & Hsh). change (length bs = 344%nat) in Hl.
  unfold shrinks in Hsh. specialize (proj2 Hsh ltac:(cbn; lia)) as Hlt.
  apply wp_handle; [done|by apply simics_of_bytes_ok|..].
  - intros _ w' Hq. rewrite (quiet_sched _ _ Hq). done.
  - intros _ g' w' rsp Hok' Hfd Hq Hr E. apply wp_bind.
    eapply wp_mono; [apply write_all_any|..].
    2: { intros h g2 w2 [-> Hh]. done. }
    cbn beta. intros _ g2 w2 (-> & _ & [Hle _]). apply wp_ret.
    rewrite (quiet_sched _ _ Hq) in Hle. split; [done|]. split; [done|]. lia.
Qed.

Lemma run_any fuel g w :
  doe_ok (doe g) -> (length (w_sched w) < fuel)%nat ->
  wp (run fuel) (fun _ g' w' => doe_ok (doe g'))
     (fun h g' w' => doe_ok (doe g') /\ (h = Exited 1 \/ h = Blocked)) g w.
Proof.
  intros Hok Hf. unfold run.
  apply (wp_forever (fun g w => doe_ok (doe g)) (fun w => length (w_sched w))); [|done|done].
  clear. intros g w Hok. eapply wp_mono; [by apply run_iter_any|..]; [|done].
  cbn beta. intros [] g' w' (Hok' & _ & Hlt); done.
Qed.

Lemma emu_main_any fuel g w :
  (length (w_sched w) < fuel)%nat ->
  wp (main fuel) (fun r _ _ => r = 0 \/ r = 1) orderly g w.
Proof.
  intros Hf. unfold main, in_doe, open_pipes. repeat log_step.
  match goal with |- context [w_env ?v ?n] => destruct (w_env v n) as [path|] end;
    [|repeat log_step; by right].
  apply wp_bind, wp_zoom, wp_modify.
  repeat (lazymatch goal with |- wp (run _) _ _ _ _ => fail | _ => log_step end); try by right.
  all: eapply wp_mono; [apply run_any; [apply doe_zero_ok|cbn in *; lia]|..];
    [cbn beta; intros _ ? ? _; repeat log_step; by left|by intros h ? ? [_ Hh]].
Qed.
