(* ===== verification/ThinServer.v ===== *)
(** * thin-server.c: the bridge between the TCP socket and the named pipes

    The whole program: [open_pipes], the translation of one configuration access
    into a transaction and of its reply back ([serve_request], [serve_reply]), the
    loop [serve] and [main]. The transfer loops are those of ByteIO.v. *)
From S2P Require Import Prelude Bytes CMonad Log Wire ByteIO.

Definition SERVER_PORT : Z := 5555.

(** The op types of the kernel's interception layer. *)
Definition AVERY_OP_WRITE : Z := 0x10.
Definition AVERY_OP_READ  : Z := 0x14.

(** The globals [req_fd], [rep_fd] and [seq]. *)
Record thin : Type := Thin { t_req_fd : Z; t_rep_fd : Z; t_seq : Z }.

Definition set_t_req_fd (fd : Z) (g : thin) : thin := Thin fd (t_rep_fd g) (t_seq g).
Definition set_t_rep_fd (fd : Z) (g : thin) : thin := Thin (t_req_fd g) fd (t_seq g).
Definition set_t_seq (n : Z) (g : thin) : thin := Thin (t_req_fd g) (t_rep_fd g) n.

Definition thin_init : thin := Thin (-1) (-1) 0.

Definition open_pipes (path : string) : C thin Z :=
  let req := snprintf 1024 (String.append path "/request_server_pipe") in
  let rep := snprintf 1024 (String.append path "/reply_server_pipe") in
  sys_path "mkfifo" req [0x1ff];;
  sys_path "mkfifo" rep [0x1ff];;
  fd ← sys_path "open" req [O_RDWR];
  modify (set_t_req_fd fd);;
  if fd <? 0 then perror "open request_server_pipe";; mret (-1)
  else
    fd' ← sys_path "open" rep [O_RDWR];
    modify (set_t_rep_fd fd');;
    if fd' <? 0 then perror "open reply_server_pipe";; mret (-1)
    else LOG "thin-server: pipes opened: %s" [];; mret 0.

(** The transaction for an access: all zero but the fields the code sets. *)
Definition serve_request (seq : Z) (op : avery_pci_config_op) : simics_transaction_t :=
  Simics seq 1 1 0 0 0 0 0 (op_offset op)
         (if op_type op =? AVERY_OP_WRITE then 1 else 0) 4
         (splice 0 (le_encode 4 (op_value op)) (data simics_zero)) 0 0 0 0 0 0 0 0 0.

(** The access with the status and the data of the reply. *)
Definition serve_reply (op : avery_pci_config_op) (rsp : simics_transaction_t) : avery_pci_config_op :=
  set_op_value (le_decode (take 4 (data rsp))) (set_op_status (swrap32 (cmp_status rsp)) op).

(** One round of [while (1)] in [serve]; the loop has no [break]. *)
Definition serve_iter (client : Z) : C thin bool :=
  bs ← xrecv client (sizeof avery_pci_config_op);
  let op : avery_pci_config_op := of_bytes bs in
  LOG "REQ  type=%d offset=0x%x value=0x%x" [op_type op; op_offset op; op_value op];;
  modify (fun g => set_t_seq (wrap32 (t_seq g + 1)) g);;
  g ← get;
  let req := serve_request (t_seq g) op in
  xwrite (t_req_fd g) (to_bytes req);;
  rs ← xread (t_rep_fd g) (sizeof simics_transaction_t);
  let rsp : simics_transaction_t := of_bytes rs in
  let op := serve_reply op rsp in
  LOG "RSP  status=%d value=0x%x" [op_status op; op_value op];;
  xsend client (to_bytes op);;
  mret true.

Definition serve (fuel : nat) (client : Z) : C thin unit := forever fuel (serve_iter client).

Definition main (fuel : nat) : C thin Z :=
  lf ← getenv "CXL_LOG_FILE";
  log_init lf;;
  path ← getenv "CXL_RELAY_SERVER_PATH";
  match path with
  | None => emit (EvPrint "thin-server: %s not set" []);; log_close;; mret 1
  | Some pipe_path =>
      r ← open_pipes pipe_path;
      if r <? 0 then log_close;; mret 1
      else
        srv ← sys "socket" [2; 1; 0];
        sys "setsockopt" [srv; 1; 2; 1];;
        b ← sys "bind" [srv; SERVER_PORT];
        if b <? 0 then perror "bind";; mret 1
        else
          sys "listen" [srv; 1];;
          LOG "thin-server: listening on :%d" [SERVER_PORT];;
          client ← sys "accept" [srv];
          if client <? 0 then perror "accept";; mret 1
          else
            LOG "thin-server: daemon-doe connected" [];;
            serve fuel client;;
            g ← get;
            sys "close" [client];;
            sys "close" [srv];;
            sys "close" [t_req_fd g];;
            sys "close" [t_rep_fd g];;
            log_close;;
            mret 0
  end.

(** ** The translation *)

Lemma serve_request_ok seq op : u32 seq -> op_ok op -> simics_ok (serve_request seq op).
Proof.
  intros Hs (Ht & Ho & Hv & Hst). split; [|split]; cbn -[MAX_PAYLOAD le_encode replicate splice].
  - repeat constructor; try cint; destruct (_ =? _); cint.
  - cint.
  - by rewrite length_splice by (rewrite length_le_encode, length_replicate; unfold MAX_PAYLOAD; lia).
Qed.

Lemma serve_reply_ok op rsp : op_ok op -> simics_ok rsp -> op_ok (serve_reply op rsp).
Proof.
  intros (Ht & Ho & Hv & Hst) (_ & _ & Hd). split; [done|split; [done|split]].
  - apply le_decode_u32. rewrite length_take, Hd. unfold MAX_PAYLOAD. lia.
  - apply swrap32_s32.
Qed.

Lemma serve_request_word seq op :
  u32 (op_value op) -> le_decode (take 4 (data (serve_request seq op))) = op_value op.
Proof. intros H. by apply le_decode_encode_u32. Qed.

(** ** One round, when the kernel makes progress *)

Lemma serve_iter_live {m} client g w op ops rsp rsps j :
  op_ok op -> simics_ok rsp ->
  pending client w = to_bytes op ++ ops ->
  pending (t_rep_fd g) w = to_bytes rsp ++ rsps ->
  client <> t_rep_fd g -> client <> t_req_fd g ->
  live m (720 + j) w ->
  let seq := wrap32 (t_seq g + 1) in
  wp (serve_iter client)
     (fun go g' w' => go = true /\ g' = set_t_seq seq g /\
        written (t_req_fd g) w' = written (t_req_fd g) w ++ to_bytes (serve_request seq op) /\
        written client w' = written client w ++ to_bytes (serve_reply op rsp) /\
        pending client w' = ops /\ pending (t_rep_fd g) w' = rsps /\ live m j w')
     never g w.
Proof.
  intros Hop Hrsp Hpc Hpr Hne1 Hne2 HL seq.
  assert (u32 seq) as Hseq by apply wrap32_u32. unfold serve_iter.
  apply (wp_recv_struct (H := op_struct) (m := m) _ _ op ops (704 + j)); [done..|]. intros w1 I1 L1.
  rewrite of_to_bytes by exact Hop. cbn zeta. apply wp_bind, wp_LOG. intros e1.
  apply wp_bind, wp_modify, wp_bind, wp_get. fold seq. cbn [t_seq t_req_fd t_rep_fd set_t_seq].
  apply (wp_send_struct (H := simics_struct) (m := m) _ _ (serve_request seq op) (360 + j));
    [by apply serve_request_ok|done|]. intros w2 I2 L2.
  apply (wp_recv_struct (H := simics_struct) (m := m) _ _ rsp rsps (16 + j)); [done|by io|done|]. intros w3 I3 L3.
  rewrite of_to_bytes by exact Hrsp. cbn zeta. apply wp_bind, wp_LOG. intros e2.
  apply (wp_send_struct (H := op_struct) (m := m) _ _ (serve_reply op rsp) j);
    [by apply serve_reply_ok|done|]. intros w4 I4 L4.
  apply wp_ret. repeat (split; [by io|]). exact L4.
Qed.

(** ** Any kernel *)

Lemma serve_iter_any client g w :
  wp (serve_iter client)
     (fun go g' w' => go = true /\ (length (w_sched w') < length (w_sched w))%nat) orderly g w.
Proof.
  unfold serve_iter, xrecv, xwrite, xread, xsend. apply wp_bind.
  eapply wp_mono; [apply read_all_any| |by intros h s' w' [_ H]].
  cbn beta. intros bs s1 w1 (-> & _ & Hl & _ & [_ Hsh]). specialize (Hsh ltac:(cbn; lia)).
  repeat log_step. eapply wp_mono; [apply write_all_any| |by intros h s' w' [_ H]].
  cbn beta. intros _ s2 w2 (-> & _ & [Hsh2 _]). cbn in Hsh2. log_step.
  eapply wp_mono; [apply read_all_any| |by intros h s' w' [_ H]].
  cbn beta. intros rs s3 w3 (-> & _ & Hl3 & _ & [Hsh3 _]).
  repeat log_step. eapply wp_mono; [apply write_all_any| |by intros h s' w' [_ H]].
  cbn beta. intros _ s4 w4 (-> & _ & [Hsh4 _]). cbn in Hsh4. log_step. split; [done|lia].
Qed.

Lemma serve_any fuel client g w :
  (length (w_sched w) < fuel)%nat -> wp (serve fuel client) (fun _ _ _ => False) orderly g w.
Proof.
  intros Hf. apply (wp_forever (fun _ _ => True) (fun w => length (w_sched w))); [|done|done].
  clear. intros g w _. eapply wp_mono; [apply serve_iter_any| |done]. by intros [] g' w' [? ?].
Qed.

Lemma thin_main_any fuel g w :
  (length (w_sched w) < fuel)%nat -> wp (main fuel) (fun r _ _ => r = 1) orderly g w.
Proof.
  intros Hf. unfold main, open_pipes. repeat log_step.
  match goal with |- context [w_env ?v ?n] => destruct (w_env v n) as [path|] end;
    [|repeat log_step; done].
  repeat log_step; try done.
  all: eapply wp_mono; [apply serve_any; cbn in *; lia|..]; [done|done].
Qed.

(** ** A session *)

(** The transactions for a list of accesses: numbered from [seq + 1], modulo 2^32. *)
Fixpoint numbered (seq : Z) (ops : list avery_pci_config_op) : list simics_transaction_t :=
  match ops with
  | [] => []
  | op :: ops => serve_request (wrap32 (seq + 1)) op :: numbered (wrap32 (seq + 1)) ops
  end.

Lemma length_numbered ops : forall seq, length (numbered seq ops) = length ops.
Proof. induction ops as [|op ops IH]; intros seq; cbn [numbered length]; auto. Qed.

Lemma numbered_packet ops : forall seq i t,
  numbered seq ops !! i = Some t -> packet_number t = wrap32 (seq + 1 + Z.of_nat i).
Proof.
  induction ops as [|op ops IH]; intros seq i t Hi; [done|].
  destruct i as [|i]; cbn [numbered] in Hi.
  - injection Hi as <-. cbn. f_equal. lia.
  - apply IH in Hi as ->. unfold wrap32. rewrite <- Z.add_assoc, Zplus_mod_idemp_l. f_equal. lia.
Qed.

(** With nothing left to receive, the server waits. *)
Lemma serve_iter_waits client g w c sched :
  w_sched w = c :: sched -> 0 < c -> pending client w = [] ->
  serve_iter client g w = Halt Blocked g w.
Proof.
  intros Hs Hc Hp. unfold serve_iter, xrecv, read_all. cbn [read_loop sizeof op_struct].
  unfold mbind, C_bind, sys_read. rewrite Hs, Hp. by destruct (Z.leb_spec c 0); [lia|].
Qed.

Lemma serve_session {m} client ops : forall rsps fuel g w,
  Forall op_ok ops -> Forall simics_ok rsps -> length rsps = length ops ->
  pending client w = concat (map to_bytes ops) ->
  pending (t_rep_fd g) w = concat (map to_bytes rsps) ->
  client <> t_rep_fd g -> client <> t_req_fd g ->
  live m (720 * length ops + 1) w -> (length ops < fuel)%nat ->
  wp (serve fuel client) (fun _ _ _ => False)
     (fun h g' w' => h = Blocked /\
        written (t_req_fd g) w' = written (t_req_fd g) w ++ concat (map to_bytes (numbered (t_seq g) ops)) /\
        written client w' = written client w ++ concat (map to_bytes (zip_with serve_reply ops rsps)))
     g w.
Proof.
  induction ops as [|op ops IH]; intros rsps fuel g w Hops Hrsps Hlen Hpc Hpr Hn1 Hn2 HL Hf;
    (destruct fuel as [|fuel]; [simpl in Hf; lia|]); unfold serve; cbn [forever]; apply wp_bind.
  - destruct (live_next _ _ HL) as (c & sched & Hs & _ & Hc). unfold wp.
    rewrite (serve_iter_waits client g w c sched) by done. cbn. by rewrite !app_nil_r.
  - destruct rsps as [|rsp rsps]; [done|]. apply Forall_cons_1 in Hops as [Hop Hops].
    apply Forall_cons_1 in Hrsps as [Hrsp Hrsps]. cbn [map concat] in Hpc, Hpr.
    eapply (wp_mono _ _ _ never); [apply (serve_iter_live (m := m) client g w op _ rsp _ (720 * length ops + 1) Hop Hrsp Hpc Hpr Hn1 Hn2)|..]; [|..|done].
    { eapply live_mono; [|exact HL]. cbn [length]. lia. }
    cbn beta zeta. intros go g1 w1 (-> & -> & W1 & W2 & P1 & P2 & L1).
    eapply wp_mono; [apply (IH rsps fuel _ w1); try done|done|].
    { cbn [length] in Hlen. lia. } { cbn [length] in Hf. lia. }
    cbn beta. cbn [t_req_fd t_rep_fd t_seq set_t_seq]. intros h g' w' (-> & W1' & W2').
    split; [done|]. cbn [numbered map concat zip_with]. by rewrite W1', W2', W1, W2, <- !app_assoc.
Qed.
