(* ===== verification/DaemonDoe.v ===== *)
(** * daemon-doe.c: the character-device daemon

    Reads an access from the kernel's character device, sends it to the server,
    and writes the answer back. [op] is its 16 bytes of memory. The device itself
    is kernel code outside this repository: a read of it delivers what the kernel
    put there ([w_in] of the descriptor). *)
From S2P Require Import Prelude Bytes CMonad Log Wire ByteIO.

Definition DEV_PATH : string := "/dev/avery_doe_chardev0".
Definition SERVER_PORT : Z := 5555.
Definition POLLIN : Z := 1.

(** 127.0.0.1 as [inet_pton] stores it. *)
Definition SERVER_IP : Z := 0x0100007F.

Definition connect_remote {S} : C S Z :=
  sock ← sys "socket" [2; 1; 0];
  if sock <? 0 then perror "socket";; exit_ 1
  else
    p ← sys "inet_pton" [2; SERVER_IP];
    if p <=? 0 then perror "inet_pton";; exit_ 1
    else
      r ← sys "connect" [sock; SERVER_IP; SERVER_PORT];
      if r <? 0 then perror "connect";; exit_ 1
      else
        LOG "Connected to remote RC %s:%d" [SERVER_PORT];;
        mret sock.

(** [poll(&pfd, 1, -1)]: the result, and [pfd.revents] when it is not an error. *)
Definition sys_poll {S} (fd : Z) : C S (Z * Z) :=
  ret ← sys "poll" [fd; POLLIN; -1];
  if ret <? 0 then mret (ret, 0) else revents ← next; mret (ret, revents).

(** One round of [while (1)] in [main]; [false] is a [break]. *)
Definition daemon_iter (devfd sockfd : Z) : C (list byte) bool :=
  '(ret, revents) ← sys_poll devfd;
  if ret <? 0 then perror "poll";; mret false
  else if truth (Z.land revents POLLIN) then
    '(n, bs) ← sys_read devfd (sizeof avery_pci_config_op);
    if n <=? 0 then perror "read";; mret false
    else
      modify (splice 0 bs);;
      m ← get;
      let op : avery_pci_config_op := of_bytes m in
      LOG "REQ: type=%d offset=0x%x value=0x%x" [op_type op; op_offset op; op_value op];;
      send_all sockfd m;;
      m' ← recv_all sockfd (sizeof avery_pci_config_op);
      modify (fun _ => m');;
      let op : avery_pci_config_op := of_bytes m' in
      LOG "RESP: status=%d value=0x%x" [op_status op; op_value op];;
      k ← sys_write devfd m';
      if k <? 0 then perror "write";; mret false else mret true
  else mret true.

Definition main (fuel : nat) : C (list byte) Z :=
  lf ← getenv "CXL_LOG_FILE";
  log_init lf;;
  devfd ← sys_path "open" DEV_PATH [O_RDWR];
  if devfd <? 0 then perror "open char dev";; log_close;; mret 1
  else
    sockfd ← connect_remote;
    LOG "Daemon started" [];;
    forever fuel (daemon_iter devfd sockfd);;
    sys "close" [sockfd];;
    sys "close" [devfd];;
    log_close;;
    mret 0.

(** One round whose device read delivers the whole access: the access goes out to
    the server and its answer goes back to the device. [k] is what the kernel
    reports for the poll. *)
Lemma daemon_iter_live {m} devfd sockfd op req ans rest (mem : list byte) w p r j :
  op_ok op -> op_ok ans -> length mem = 16%nat -> devfd <> sockfd ->
  pending devfd w = to_bytes op ++ req ->
  pending sockfd w = to_bytes ans ++ rest ->
  16 <= m -> 0 <= p -> Z.land r POLLIN <> 0 -> live m (34 + j) w ->
  wp (daemon_iter devfd sockfd)
     (fun go mem' w' => go = true /\ mem' = to_bytes ans /\
        pending devfd w' = req /\ pending sockfd w' = rest /\
        written sockfd w' = written sockfd w ++ to_bytes op /\
        written devfd w' = written devfd w ++ to_bytes ans /\ live m j w')
     never mem (set_sched (p :: r :: w_sched w) w).
Proof.
  intros Hop Hans Hmem Hne Hpd Hps Hm Hp Hr HL.
  pose proof (length_to_bytes (CStructLaws := op_laws) op Hop) as Hl.
  assert (wp (sys_poll devfd) (fun pr mem' w' => pr = (p, r) /\ mem' = mem /\ io_none w w' /\ live m (34 + j) w')
    never mem (set_sched (p :: r :: w_sched w) w)) as Hpoll.
  { unfold sys_poll, sys. do 2 apply wp_bind. unfold wp at 1. cbn [next w_sched set_sched].
    apply wp_bind, wp_emit, wp_ret. destruct (Z.ltb_spec p 0); [lia|].
    apply wp_bind. unfold wp at 1. cbn [next w_sched set_sched add_event]. apply wp_ret.
    split; [done|split; [done|split; [by split|exact HL]]]. }
  unfold daemon_iter. apply wp_bind. eapply wp_mono; [exact Hpoll| |done].
  intros pr mem' w0 (-> & -> & I0 & L0). cbn -[of_bytes to_bytes wp sys_read].
  destruct (Z.ltb_spec p 0); [lia|]. rewrite (proj2 (truth_true _) Hr). apply wp_bind.
  apply (wp_read_once (H := op_struct) (m := m) _ op req (33 + j)); [done|cbn; lia|done|by io|done|].
  intros w1 I1 L1. cbn -[of_bytes to_bytes wp].
  apply wp_bind, wp_modify, wp_bind, wp_get.
  rewrite splice_all by (rewrite Hl; done). rewrite of_to_bytes by exact Hop.
  apply wp_bind, wp_LOG. intros e1.
  apply (wp_send_struct (H := op_struct) (m := m) _ _ op (17 + j)); [done|done|]. intros w2 I2 L2.
  apply (wp_recv_struct (H := op_struct) (m := m) _ _ ans rest (1 + j)); [done|by io|done|].
  intros w3 I3 L3. apply wp_bind, wp_modify. rewrite of_to_bytes by exact Hans. cbn zeta.
  apply wp_bind, wp_LOG. intros e2. apply wp_bind.
  apply (wp_write_once (H := op_struct) (m := m) _ ans j); [done|cbn; lia|done|done|].
  intros w4 I4 L4. cbn -[of_bytes to_bytes wp]. apply wp_ret.
  repeat (split; [by io|]). exact L4.
Qed.

(** ** Any kernel *)

Lemma daemon_iter_any devfd sockfd (mem : list byte) w :
  wp (daemon_iter devfd sockfd)
     (fun go mem' w' => (length (w_sched w') < length (w_sched w))%nat) orderly mem w.
Proof.
  unfold daemon_iter, sys_poll, send_all, recv_all. repeat log_step; try (cbn in *; lia).
  apply wp_sys_read; [cbn; lia|..|by right].
  { intros ? w0 Hc _ _ Hs. match goal with |- context [?c <=? 0] => destruct (Z.leb_spec c 0); [|lia] end.
    repeat log_step. cbn in *; lia. }
  intros n w1 Hn _ _ Hs1. destruct (Z.leb_spec (Z.of_nat n) 0); [lia|]. repeat log_step.
  eapply wp_mono; [apply write_all_any| |by intros h ? ? [_ Hh]].
  cbn beta. intros _ s2 w2 (-> & _ & [Hsh2 _]). cbn in Hsh2. log_step.
  eapply wp_mono; [apply read_all_any| |by intros h ? ? [_ Hh]].
  cbn beta. intros rs s3 w3 (-> & _ & Hl3 & _ & [Hsh3 _]).
  repeat log_step. apply wp_sys_write; [by intros ->|..|by right].
  - intros k w4 _ _ _ Hs4. cbn in Hs4. repeat log_step; cbn in *; lia.
  - intros k w4 _ _ Hs4. cbn in Hs4. repeat log_step; cbn in *; lia.
Qed.

Lemma daemon_main_any fuel (mem : list byte) w :
  (length (w_sched w) < fuel)%nat ->
  wp (main fuel) (fun r _ _ => r = 0 \/ r = 1) orderly mem w.
Proof.
  intros Hf. unfold main, connect_remote. repeat log_step; try by right.
  all: apply (wp_forever (fun _ _ => True) (fun w => length (w_sched w))); [|done|cbn in *; lia].
  all: intros mem' ? _; eapply wp_mono; [apply daemon_iter_any| |done];
    intros [] ? ? ?; [done|]; repeat log_step; by left.
Qed.
