(* ===== verification/IoTree.v ===== *)
(** * Programs as trees of system calls

    A computation of CMonad.v runs to its end in one world. To interleave programs,
    their system calls have to be visible one by one: a tree stops at every [read] and
    [write], at every [recv] and [sendto] of a datagram and at every other call, and
    computes on its own between two of them. [Ask r] is a call without a payload; [r] says
    what the kernel may answer: [Some true] for a success, [Some false] for a failure. It
    plays no part in [interp]. [interp]
    runs a tree as a computation; a program and its tree are the same when [interp]
    of the tree is the program. [pmove] is one move of a process that runs a tree in
    an endless loop. *)
From S2P Require Import Prelude Bytes CMonad Wire ByteIO.

(** ** Trees *)

Inductive io (S A : Type) : Type :=
| Ret (a : A)
| Read (fd : Z) (len : nat) (k : Z * list byte -> io S A)
| Write (fd : Z) (bs : list byte) (k : Z -> io S A)
| RecvMsg (len : nat) (k : Z * list byte -> io S A)
| SendMsg (bs : list byte) (k : Z -> io S A)
| Ask (r : Z -> option bool) (k : Z -> io S A)
| Local (B : Type) (m : C S B) (k : B -> io S A).
Arguments Ret {S A} _.
Arguments Read {S A} _ _ _.
Arguments Write {S A} _ _ _.
Arguments RecvMsg {S A} _ _.
Arguments SendMsg {S A} _ _.
Arguments Ask {S A} _ _.
Arguments Local {S A B} _ _.

Fixpoint interp {S A} (t : io S A) : C S A :=
  match t with
  | Ret a => mret a
  | Read fd len k => r ← sys_read fd len; interp (k r)
  | Write fd bs k => n ← sys_write fd bs; interp (k n)
  | RecvMsg len k => r ← sys_recv_msg len; interp (k r)
  | SendMsg bs k => n ← sys_sendto_msg bs; interp (k n)
  | Ask _ k => c ← next; interp (k c)
  | Local m k => b ← m; interp (k b)
  end.

Fixpoint tbind {S A B} (t : io S A) (f : A -> io S B) : io S B :=
  match t with
  | Ret a => f a
  | Read fd len k => Read fd len (fun r => tbind (k r) f)
  | Write fd bs k => Write fd bs (fun n => tbind (k n) f)
  | RecvMsg len k => RecvMsg len (fun r => tbind (k r) f)
  | SendMsg bs k => SendMsg bs (fun n => tbind (k n) f)
  | Ask r k => Ask r (fun c => tbind (k c) f)
  | Local m k => Local m (fun b => tbind (k b) f)
  end.

(** A tree built from another runs the one and then the other. *)
Lemma interp_tbind {S A B} (t : io S A) (f : A -> io S B) :
  interp (tbind t f) ≐ (interp t ≫= fun a => interp (f a)).
Proof.
  induction t as [a|fd len k IH|fd bs k IH|len k IH|bs k IH|r k IH|T m k IH]; cbn [tbind interp]; [done|..];
    rewrite bind_assoc; by apply ceq_bind.
Qed.

(** Trees are a monad, in which programs read as they do in C. *)
#[global] Instance io_ret S : MRet (io S) := fun A a => Ret a.
#[global] Instance io_bind S : MBind (io S) := fun A B f t => tbind t f.

Lemma interp_bind {S A B} (t : io S A) (f : A -> io S B) :
  interp (t ≫= f) ≐ (interp t ≫= fun a => interp (f a)).
Proof. apply interp_tbind. Qed.

(** ** Trees of the common pieces *)

Section pieces.
Context {S : Type}.

(** A computation without calls. *)
Definition lift {A} (m : C S A) : io S A := Local m (fun a => Ret a).

(** A call, recorded as the event [ev]. *)
Definition call (r : Z -> option bool) (ev : Z -> event) : io S Z :=
  Ask r (fun c => Local (emit (ev c)) (fun _ => Ret c)).

Lemma interp_lift {A} (m : C S A) : interp (lift m) ≐ m.
Proof. apply bind_ret. Qed.

Lemma interp_call r name args : interp (call r (EvCall name args)) ≐ sys name args.
Proof. done. Qed.

Lemma interp_call_path r name path args : interp (call r (EvPath name path args)) ≐ sys_path name path args.
Proof. done. Qed.

Definition exit_tree {A} (code : Z) : io S A := Local (exit_ code) (fun a => Ret a).

(** [perror(msg); exit(1);] *)
Definition die {A} (msg : string) : io S A := Local (perror msg) (fun _ => exit_tree 1).

Fixpoint read_tree (msg : string) (fuel len : nat) (fd : Z) (acc : list byte) : io S (list byte) :=
  match len with
  | O => Ret acc
  | _ =>
      match fuel with
      | O => Local out_of_fuel (fun a => Ret a)
      | Datatypes.S fuel =>
          Read fd len (fun '(n, bs) =>
            if n <=? 0 then die msg else read_tree msg fuel (len - Z.to_nat n) fd (acc ++ bs))
      end
  end.

Fixpoint write_tree (msg : string) (fuel : nat) (fd : Z) (bs : list byte) : io S unit :=
  match bs with
  | [] => Ret tt
  | _ =>
      match fuel with
      | O => Local out_of_fuel (fun a => Ret a)
      | Datatypes.S fuel =>
          Write fd bs (fun n =>
            if n <=? 0 then die msg else write_tree msg fuel fd (drop (Z.to_nat n) bs))
      end
  end.

Lemma interp_die {A} msg : interp (die (A := A) msg) ≐ (perror msg;; exit_ 1).
Proof. done. Qed.

Lemma interp_read_tree msg fuel : forall len fd acc,
  interp (read_tree msg fuel len fd acc) ≐ read_loop msg fuel len fd acc.
Proof.
  induction fuel as [|fuel IH]; intros [|len] fd acc; cbn [read_tree read_loop interp];
    [done|apply bind_ret|done|].
  apply ceq_bind; [done|]. intros [n bs]. destruct (n <=? 0); [done|apply IH].
Qed.

Lemma interp_write_tree msg fuel : forall fd bs,
  interp (write_tree msg fuel fd bs) ≐ write_loop msg fuel fd bs.
Proof.
  induction fuel as [|fuel IH]; intros fd [|b bs]; cbn [write_tree write_loop interp];
    [done|apply bind_ret|done|].
  apply ceq_bind; [done|]. intros n. destruct (n <=? 0); [done|apply IH].
Qed.
End pieces.

(** ** Processes

    A process runs the loop [for (;;) body]. What it does next is its own doing but for
    the result of a call, which the kernel chooses ([choice]). A call that fails, a read
    at the end of file and a failure of [Ask] are marked [Fail]. A write
    of at least one byte fails or takes at least one; a datagram is taken whole, and
    received whole or cut to the buffer. *)

(** What the kernel may answer: a given descriptor, or an error; a number that must not be
    negative, or must be positive; anything; a given number. *)
Definition gives (fd c : Z) : option bool :=
  if c <? 0 then Some false else if c =? fd then Some true else None.
Definition nonneg (c : Z) : option bool := Some (0 <=? c).
Definition positive (c : Z) : option bool := Some (0 <? c).
Definition always (c : Z) : option bool := Some true.
Definition exactly (v c : Z) : option bool := if c =? v then Some true else None.

Inductive choice : Type :=
| Go                          (* no call to answer *)
| Result (c : Z)              (* the result of a call without a payload, or an error *)
| Deliver (bs : list byte)    (* the bytes that a read gets, or the datagram *)
| Accept (n : nat).           (* the number of bytes that a write takes *)

Inductive label : Type :=
| Tau
| Fail
| In (fd : Z) (bs : list byte)
| Out (fd : Z) (bs : list byte)
| InMsg (m : list byte)
| OutMsg (m : list byte).

(** Moves that no other process sees; failures only where they are allowed. *)
Definition silent (faults : bool) (lab : label) : bool :=
  match lab with Tau => true | Fail => faults | _ => false end.

Inductive proc (S : Type) : Type :=
| Running (s : S) (w : world) (t : io S bool)
| Stopped                     (* left the loop, exited or waits forever *)
| Crashed.                    (* undefined behaviour *)
Arguments Running {S} _ _ _.
Arguments Stopped {S}.
Arguments Crashed {S}.

Section processes.
Context {S : Type} (body : io S bool).

Definition pmove (p : proc S) (ch : choice) : option (label * proc S) :=
  match p with
  | Running s w t =>
      match t, ch with
      | Ret true, Go => Some (Tau, Running s w body)
      | Ret false, Go => Some (Tau, Stopped)
      | Local m k, Go =>
          match m s w with
          | Ok b s' w' => Some (Tau, Running s' w' (k b))
          | Halt _ _ _ => Some (Tau, Stopped)
          | UB | NoFuel => Some (Tau, Crashed)
          end
      | Ask r k, Result c =>
          match r c with
          | Some good => Some (if good then Tau else Fail, Running s w (k c))
          | None => None
          end
      | Read fd len k, Deliver bs =>
          if (0 <? length bs)%nat && (length bs <=? len)%nat
          then Some (In fd bs, Running s w (k (Z.of_nat (length bs), bs))) else None
      | Read fd len k, Result c =>
          if c <=? 0 then Some (Fail, Running s w (k (c, []))) else None
      | Write fd bs k, Accept n =>
          if (0 <? n)%nat && (n <=? length bs)%nat
          then Some (Out fd (take n bs), Running s w (k (Z.of_nat n))) else None
      | Write fd bs k, Result c =>
          if c <? 0 then Some (Fail, Running s w (k c)) else None
      | RecvMsg len k, Deliver m =>
          if (0 <? length m)%nat
          then Some (InMsg m, Running s w (k (Z.of_nat (length (take len m)), take len m))) else None
      | RecvMsg len k, Result c =>
          if c <=? 0 then Some (Fail, Running s w (k (c, []))) else None
      | SendMsg m k, Accept n =>
          if (n =? length m)%nat then Some (OutMsg m, Running s w (k (Z.of_nat n))) else None
      | SendMsg m k, Result c =>
          if c <? 0 then Some (Fail, Running s w (k c)) else None
      | _, _ => None
      end
  | _ => None
  end.

(** A tree that only reports errors and ends the process, within [n] computations. *)
Fixpoint failing (n : nat) (t : io S bool) : Prop :=
  match t with
  | Ret b => b = false
  | Local m k =>
      forall s w, match m s w with
                  | Ok b _ _ => match n with O => False | Datatypes.S n => failing n (k b) end
                  | Halt _ _ _ => True
                  | UB | NoFuel => False
                  end
  | _ => False
  end.

Lemma failing_die {A} msg (f : A -> io S bool) : failing 1 (tbind (die msg) f).
Proof. done. Qed.

Lemma failing_perror n msg : failing (Datatypes.S n) (Local (perror msg) (fun _ => Ret false)).
Proof. by destruct n. Qed.

Lemma failing_move n s w t ch lab p :
  failing n t -> pmove (Running s w t) ch = Some (lab, p) ->
  lab = Tau /\ (p = Stopped \/ exists m s' w' t', n = Datatypes.S m /\ p = Running s' w' t' /\ failing m t').
Proof.
  destruct t as [[]|fd len k|fd bs k|len k|bs k|r k|B m k]; try by destruct n.
  - cbn. destruct ch; intros _ E; simplify_eq. auto.
  - intros Hf. cbn [pmove]. destruct ch; try done. destruct n as [|n]; cbn [failing] in Hf; specialize (Hf s w);
      destruct (m s w); try done; intros E; simplify_eq; auto. split; [done|right]. eauto 10.
Qed.

(** The same, for a class [P] of processes closed under it. *)
Lemma failing_sim n s w t ch lab p (P : proc S -> nat -> Prop) :
  failing n t -> pmove (Running s w t) ch = Some (lab, p) ->
  P Stopped 0%nat -> (forall m s w t, failing m t -> P (Running s w t) (Datatypes.S m)) ->
  lab = Tau /\ exists j, P p j /\ (j < Datatypes.S n)%nat.
Proof.
  intros Hf H P0 P1. destruct (failing_move _ _ _ _ _ _ _ Hf H) as [-> [->|(m & s' & w' & t' & -> & -> & Hf')]];
    (split; [done|]); [exists 0%nat|exists (Datatypes.S m)]; (split; [auto|lia]).
Qed.

(** ** Starting up

    [boots t n s K]: from globals [s], the tree [t] only makes calls without a payload, at
    most [n] moves in all, and ends in [K], with the moves it has left; it ends the process
    only when calls may fail ([faults]). The environment is [env]. *)
Section booting.
Variables (faults : bool) (env : string -> option string).

Fixpoint boots {A} (t : io S A) (n : nat) (s : S) (K : nat -> A -> S -> Prop) : Prop :=
  match t with
  | Ret a => K n a s
  | Local m k =>
      forall w, w_env w = env ->
        match m s w with
        | Ok b s' w' => w_env w' = env /\ match n with O => False | Datatypes.S n => boots (k b) n s' K end
        | Halt _ _ _ => faults = true
        | UB | NoFuel => False
        end
  | Ask r k =>
      (exists c, r c = Some true) /\
      forall c good, r c = Some good -> good = true \/ faults = true ->
        match n with O => False | Datatypes.S n => boots (k c) n s K end
  | _ => False
  end.

(** To the top of the loop, with globals that [Q] holds of. *)
Definition booting (Q : S -> Prop) (n : nat) (t : io S bool) (s : S) : Prop :=
  boots t n s (fun _ go s' => if go then Q s' else faults = true).

Lemma boots_bind {A B} (t : io S A) (f : A -> io S B) n s K :
  boots t n s (fun n' a s' => boots (f a) n' s' K) -> boots (t ≫= f) n s K.
Proof.
  change (t ≫= f) with (tbind t f).
  revert n s. induction t as [a|fd len k IH|fd bs k IH|len k IH|bs k IH|r k IH|T m k IH]; intros n s; cbn [tbind boots]; try done.
  - intros [H1 H2]. split; [done|]. intros c good Hr Hg. specialize (H2 c good Hr Hg). destruct n; [done|by apply IH].
  - intros H w Hw. specialize (H w Hw). destruct (m s w); try done. destruct H as [Hw' H]. split; [done|].
    destruct n; [done|by apply IH].
Qed.

(** A computation that neither stops nor changes the environment. *)
Lemma boots_lift {A} (m : C S A) n s K :
  (forall w, w_env w = env -> match m s w with Ok a s' w' => w_env w' = env /\ K n a s' | _ => False end) ->
  boots (lift m) (Datatypes.S n) s K.
Proof. intros H w Hw. specialize (H w Hw). by destruct (m s w). Qed.

Lemma boots_call r ev n s K :
  (exists c, r c = Some true) ->
  (forall c good, r c = Some good -> good = true \/ faults = true -> K n c s) ->
  boots (call r ev) (2 + n) s K.
Proof. intros Hc H. split; [done|]. intros c good Hr Hg w Hw. split; [done|]. by eapply H. Qed.

Lemma boots_die {A} msg n s (K : nat -> A -> S -> Prop) : faults = true -> boots (die msg) (Datatypes.S n) s K.
Proof. intros F w Hw. split; [done|]. by intros w' _. Qed.

(** A process that starts up and goes on with [f]. *)
Lemma boots_move {A} (t : io S A) (f : A -> io S bool) n s w K ch lab p :
  w_env w = env -> boots t n s K -> pmove (Running s w (tbind t f)) ch = Some (lab, p) ->
  (exists a, t = Ret a /\ K n a s) \/
  ((lab = Tau \/ lab = Fail) /\
   (silent faults lab = true ->
    (p = Stopped /\ faults = true) \/
    (exists m s' w' t', n = Datatypes.S m /\ p = Running s' w' (tbind t' f) /\ w_env w' = env /\ boots t' m s' K))).
Proof.
  intros Hw B H. destruct t as [a|fd len k|fd bs k|len k|bs k|r k|B' m k]; try done; [by left; exists a|right..].
  - destruct ch as [|c| |]; try done. cbn [pmove tbind] in H. destruct B as [_ B].
    destruct (r c) as [good|] eqn:E; [|done]. apply (inj Some), pair_eq in H as [<- <-].
    split; [destruct good; auto|]. intros Hs. specialize (B c good E ltac:(destruct good; auto)).
    destruct n as [|n]; [done|]. right. by exists n, s, w, (k c).
  - destruct ch; try done. cbn [pmove tbind] in H. specialize (B w Hw).
    destruct (m s w) as [b s' w'| | |]; try done; apply (inj Some), pair_eq in H as [<- <-]; (split; [by left|]); intros _;
      [destruct B as [Hw' B]|by left].
    destruct n as [|n]; [done|]. right. by exists n, s', w', (k b).
Qed.

Lemma booting_move Q n s w t ch lab p :
  w_env w = env -> booting Q n t s -> pmove (Running s w t) ch = Some (lab, p) ->
  (lab = Tau \/ lab = Fail) /\
  (silent faults lab = true ->
   (p = Running s w body /\ Q s) \/ (p = Stopped /\ faults = true) \/
   (exists m s' w' t', n = Datatypes.S m /\ p = Running s' w' t' /\ w_env w' = env /\ booting Q m t' s')).
Proof.
  intros Hw B H. destruct t as [[]|fd len k|fd bs k|len k|bs k|r k|B' m k]; try done.
  - destruct ch; try done. injection H as <- <-. split; [by left|]. intros _. by left.
  - destruct ch; try done. injection H as <- <-. split; [by left|]. intros _. by right; left.
  - destruct ch as [|c| |]; try done. cbn [pmove] in H. destruct B as [_ B].
    destruct (r c) as [good|] eqn:E; [|done]. apply (inj Some), pair_eq in H as [<- <-].
    split; [destruct good; auto|]. intros Hs. specialize (B c good E ltac:(destruct good; auto)).
    destruct n as [|n]; [done|]. right; right. by exists n, s, w, (k c).
  - destruct ch; try done. cbn [pmove] in H. specialize (B w Hw).
    destruct (m s w) as [b s' w'| | |]; try done; apply (inj Some), pair_eq in H as [<- <-]; (split; [by left|]); intros _;
      [destruct B as [Hw' B]|by right; left].
    destruct n as [|n]; [done|]. right; right. by exists n, s', w', (k b).
Qed.

(** The same, for a class [P] of processes that has the loop, at [c], and the start-ups. *)
Lemma booting_sim Q n s w t ch lab p (P : proc S -> nat -> Prop) c :
  w_env w = env -> booting Q n t s -> pmove (Running s w t) ch = Some (lab, p) ->
  (Q s -> P (Running s w body) c) -> (faults = true -> P Stopped 0%nat) ->
  (forall m s w t, w_env w = env -> booting Q m t s -> P (Running s w t) (Datatypes.S c + m)%nat) ->
  (lab = Tau /\ exists j, P p j /\ (j < Datatypes.S c + n)%nat) \/ (lab = Fail /\ (faults = true -> exists j, P p j)).
Proof.
  intros Hw B H P0 P1 P2. destruct (booting_move _ _ _ _ _ _ _ _ Hw B H) as [[->| ->] N]; [left|right]; (split; [done|]).
  - destruct (N eq_refl) as [[-> Hq]|[[-> F]|(m & s' & w' & t' & -> & -> & Hw' & B')]];
      eexists; (split; [by eauto|lia]).
  - intros F. destruct (N F) as [[-> Hq]|[[-> _]|(m & s' & w' & t' & -> & -> & Hw' & B')]]; eexists; by eauto.
Qed.
End booting.

Lemma booting_ready env Q n s w t :
  w_env w = env -> booting false env Q n t s -> exists ch p, pmove (Running s w t) ch = Some (Tau, p).
Proof.
  intros Hw B. destruct t as [[]|fd len k|fd bs k|len k|bs k|r k|B' m k]; try done.
  - exists Go. eexists. reflexivity.
  - destruct B as [[c Hc] _]. exists (Result c). cbn [pmove]. rewrite Hc. by eexists.
  - exists Go. cbn [pmove]. specialize (B w Hw). destruct (m s w) as [b s' w'| | |]; try done; by eexists.
Qed.

Lemma boots_ready {A} env (t : io S A) (f : A -> io S bool) n s w K :
  w_env w = env -> boots false env t n s K ->
  (exists a, t = Ret a /\ K n a s) \/ exists ch p, pmove (Running s w (tbind t f)) ch = Some (Tau, p).
Proof.
  intros Hw B. destruct t as [a|fd len k|fd bs k|len k|bs k|r k|B' m k]; try done; [by left; exists a|right..].
  - destruct B as [[c Hc] _]. exists (Result c). cbn [pmove tbind]. rewrite Hc. by eexists.
  - exists Go. cbn [pmove tbind]. specialize (B w Hw). destruct (m s w) as [b s' w'| | |]; try done; by eexists.
Qed.

(** ** Facts about the world that a process keeps

    [boot_ends t s w K]: whatever the kernel answers, the tree [t] only makes calls without a
    payload and ends in [K], if it ends. [keeps P t]: whatever happens, [t] keeps [P]. *)
Fixpoint boot_ends {A} (t : io S A) (s : S) (w : world) (K : A -> S -> world -> Prop) : Prop :=
  match t with
  | Ret a => K a s w
  | Ask r k => forall c good, r c = Some good -> boot_ends (k c) s w K
  | Local m k => match m s w with Ok b s' w' => boot_ends (k b) s' w' K | _ => True end
  | _ => False
  end.

Fixpoint keeps (P : world -> Prop) {A} (t : io S A) : Prop :=
  match t with
  | Ret _ => True
  | Read _ _ k | RecvMsg _ k => forall r, keeps P (k r)
  | Write _ _ k | SendMsg _ k | Ask _ k => forall n, keeps P (k n)
  | Local m k => forall s w, P w -> match m s w with Ok b _ w' => P w' /\ keeps P (k b) | _ => True end
  end.

Lemma boot_ends_bind {A B} (t : io S A) (f : A -> io S B) s w K :
  boot_ends t s w (fun a s' w' => boot_ends (f a) s' w' K) -> boot_ends (t ≫= f) s w K.
Proof.
  change (t ≫= f) with (tbind t f). revert s w.
  induction t as [a|fd len k IH|fd bs k IH|len k IH|bs k IH|r k IH|T m k IH]; intros s w; cbn [tbind boot_ends]; try done.
  - intros H c good Hr. by eapply IH, H.
  - intros H. destruct (m s w); try done. by apply IH.
Qed.

Lemma boot_ends_mono {A} (t : io S A) (K K' : A -> S -> world -> Prop) : forall s w,
  boot_ends t s w K -> (forall a s w, K a s w -> K' a s w) -> boot_ends t s w K'.
Proof.
  induction t as [a|fd len k IH|fd bs k IH|len k IH|bs k IH|r k IH|T m k IH]; intros s w H HK; cbn [boot_ends] in *; auto.
  - intros c good Hr. by eapply IH, HK; apply (H c good).
  - destruct (m s w); eauto.
Qed.

Lemma boot_ends_call r ev s w K :
  (forall c good, r c = Some good -> K c s (add_event (ev c) w)) -> boot_ends (call r ev) s w K.
Proof. intros H c good Hr. by apply (H c good). Qed.

Lemma keeps_tbind P {A B} (t : io S A) (f : A -> io S B) :
  keeps P t -> (forall a, keeps P (f a)) -> keeps P (tbind t f).
Proof.
  intros Ht Hf. induction t as [a|fd len k IH|fd bs k IH|len k IH|bs k IH|r k IH|T m k IH]; cbn [tbind keeps] in *; auto.
  intros s w Hw. specialize (Ht s w Hw). destruct (m s w); try done. destruct Ht. auto.
Qed.

(** What a process that starts up, and then goes round its loop, knows of its world. *)
Definition knows (P : world -> Prop) (p : proc S) : Prop :=
  match p with Running _ w t => P w /\ keeps P t | _ => True end.
Definition learns (P : world -> Prop) (p : proc S) : Prop :=
  match p with Running s w t => boot_ends t s w (fun go _ w' => go = true -> P w') | _ => False end.

Lemma knows_move P p ch lab p' :
  keeps P body -> knows P p -> pmove p ch = Some (lab, p') -> knows P p'.
Proof.
  intros Hb. destruct p as [s w t| |]; [|done..]. intros [Hw Ht] H.
  destruct t as [[]|fd len k|fd bs k|len k|bs k|r k|T m k]; destruct ch as [|c|ds|n]; try done;
    cbn [pmove keeps] in *.
  - by apply (inj Some), pair_eq in H as [<- <-].
  - by apply (inj Some), pair_eq in H as [<- <-].
  - destruct (_ <=? 0); [|done]. apply (inj Some), pair_eq in H as [<- <-]. by split.
  - destruct (_ && _); [|done]. apply (inj Some), pair_eq in H as [<- <-]. by split.
  - destruct (_ <? 0); [|done]. apply (inj Some), pair_eq in H as [<- <-]. by split.
  - destruct (_ && _); [|done]. apply (inj Some), pair_eq in H as [<- <-]. by split.
  - destruct (_ <=? 0); [|done]. apply (inj Some), pair_eq in H as [<- <-]. by split.
  - destruct (_ <? _)%nat; [|done]. apply (inj Some), pair_eq in H as [<- <-]. by split.
  - destruct (_ <? 0); [|done]. apply (inj Some), pair_eq in H as [<- <-]. by split.
  - destruct (_ =? _)%nat; [|done]. apply (inj Some), pair_eq in H as [<- <-]. by split.
  - destruct (r c); [|done]. apply (inj Some), pair_eq in H as [<- <-]. by split.
  - specialize (Ht s w Hw). destruct (m s w); apply (inj Some), pair_eq in H as [<- <-]; done.
Qed.

Lemma learns_move P p ch lab p' :
  keeps P body -> learns P p -> pmove p ch = Some (lab, p') -> learns P p' \/ knows P p'.
Proof.
  intros Hb. destruct p as [s w t| |]; [|done..]. intros Ht H.
  destruct t as [[]|fd len k|fd bs k|len k|bs k|r k|T m k]; try done; destruct ch as [|c|ds|n]; try done;
    cbn [pmove learns boot_ends] in *.
  - apply (inj Some), pair_eq in H as [<- <-]. right. split; [by apply Ht|done].
  - apply (inj Some), pair_eq in H as [<- <-]. by right.
  - destruct (r c) as [good|] eqn:E; [|done]. apply (inj Some), pair_eq in H as [<- <-]. left. by apply (Ht c good).
  - destruct (m s w); apply (inj Some), pair_eq in H as [<- <-]; [by left|by right..].
Qed.

(** One move of the process, whatever the kernel does. *)
Definition pstep (p p' : proc S) : Prop := exists ch lab, pmove p ch = Some (lab, p').

(** From a start-up that ends in [P], a process knows [P] whenever it reads or writes. *)
Lemma pstep_knows P p p' :
  keeps P body -> learns P p -> rtc pstep p p' -> learns P p' \/ knows P p'.
Proof.
  intros Hb Hp. remember p as p0 eqn:E. intros R. assert (learns P p0 \/ knows P p0) as Hi by auto. clear E Hp.
  induction R as [p0|p0 p1 p2 (ch & lab & St) _ IH]; [done|]. apply IH.
  destruct Hi as [Hi|Hi]; [by eapply learns_move|right; by eapply knows_move].
Qed.

(** ** Moves of the transfer loops *)

Lemma sending_move s w msg fuel fd out (cont : io S bool) ch lab p :
  out <> [] -> (length out <= fuel)%nat ->
  pmove (Running s w (tbind (write_tree msg fuel fd out) (fun _ => cont))) ch = Some (lab, p) ->
  (lab = Fail /\ exists t, p = Running s w t /\ failing 1 t) \/
  (exists n, (0 < n <= length out)%nat /\ lab = Out fd (take n out) /\
     p = Running s w (tbind (write_tree msg (pred fuel) fd (drop n out)) (fun _ => cont))).
Proof.
  intros Ho Hf. destruct out as [|b out]; [done|]. destruct fuel as [|fuel]; [cbn in Hf; lia|].
  cbn [write_tree tbind pmove pred]. destruct ch as [|c|bs|n]; try done.
  - destruct (Z.ltb_spec c 0); [|done]. intros E. simplify_eq. left. split; [done|].
    destruct (Z.leb_spec c 0); [|lia]. eexists. split; [done|apply failing_die].
  - destruct (_ && _)%nat eqn:E1; [|done]. apply andb_prop in E1 as [?%Nat.ltb_lt ?%Nat.leb_le].
    intros E. simplify_eq. right. exists n. split; [done|]. split; [done|].
    destruct (Z.leb_spec (Z.of_nat n) 0); [lia|]. by rewrite Nat2Z.id.
Qed.

Lemma sending_can s w msg fuel fd out (cont : io S bool) :
  out <> [] -> (length out <= fuel)%nat ->
  exists p, pmove (Running s w (tbind (write_tree msg fuel fd out) (fun _ => cont))) (Accept (length out)) =
            Some (Out fd out, p).
Proof.
  intros Ho Hf. destruct out as [|b out]; [done|]. destruct fuel as [|fuel]; [cbn in Hf; lia|].
  cbn [write_tree tbind pmove]. rewrite Nat.leb_refl, firstn_all. cbn. eauto.
Qed.

Lemma receiving_move s w msg fuel len fd acc (f : list byte -> io S bool) ch lab p :
  (0 < len <= fuel)%nat ->
  pmove (Running s w (tbind (read_tree msg fuel len fd acc) f)) ch = Some (lab, p) ->
  (lab = Fail /\ exists t, p = Running s w t /\ failing 1 t) \/
  (exists bs, (0 < length bs <= len)%nat /\ ch = Deliver bs /\ lab = In fd bs /\
     p = Running s w (tbind (read_tree msg (pred fuel) (len - length bs) fd (acc ++ bs)) f)).
Proof.
  intros Hf. destruct len as [|len]; [lia|]. destruct fuel as [|fuel]; [lia|].
  cbn [read_tree tbind pmove pred]. destruct ch as [|c|bs|n]; try done.
  - destruct (Z.leb_spec c 0); [|done]. intros E. simplify_eq. left. split; [done|].
    cbn. destruct (Z.leb_spec c 0); [|lia]. eexists. split; [done|apply failing_die].
  - destruct (_ && _)%nat eqn:E1; [|done]. apply andb_prop in E1 as [?%Nat.ltb_lt ?%Nat.leb_le].
    intros E. simplify_eq. right. exists bs. do 3 (split; [done|]).
    cbn beta iota. destruct (Z.leb_spec (Z.of_nat (length bs)) 0); [lia|]. by rewrite Nat2Z.id.
Qed.

Lemma receiving_can s w msg fuel len fd acc (f : list byte -> io S bool) bs :
  (0 < len <= fuel)%nat -> (0 < length bs <= len)%nat ->
  exists p, pmove (Running s w (tbind (read_tree msg fuel len fd acc) f)) (Deliver bs) = Some (In fd bs, p).
Proof.
  intros Hf Hb. destruct len as [|len]; [lia|]. destruct fuel as [|fuel]; [lia|].
  cbn [read_tree tbind pmove]. destruct (Nat.ltb_spec 0 (length bs)); [|lia].
  destruct (Nat.leb_spec (length bs) (Datatypes.S len)); [|lia]. eauto.
Qed.
End processes.

(** ** What a process is waiting for *)

(** The answer to the call a process is at, unless it is reading; the first success among
    [l] answers [Ask]. *)
Definition answer {S} (l : list Z) (p : proc S) : option choice :=
  match p with
  | Running _ _ (Ret _) | Running _ _ (Local _ _) => Some Go
  | Running _ _ (Ask r _) => Result <$> head (filter (fun c => r c = Some true) l)
  | Running _ _ (Write _ bs _) | Running _ _ (SendMsg bs _) => Some (Accept (length bs))
  | _ => None
  end.

(** The descriptor a process reads, and how much it wants. *)
Definition wants {S} (p : proc S) : option (Z * nat) :=
  match p with Running _ _ (Read fd len _) => Some (fd, len) | _ => None end.

(** A process that reads, or waits for a datagram. *)
Definition reading {S} (p : proc S) : bool :=
  match p with Running _ _ (Read _ _ _) | Running _ _ (RecvMsg _ _) => true | _ => false end.

(** A process on its own, its calls answered with the first success among [l]. *)
Fixpoint prun {S} (body : io S bool) (l : list Z) (n : nat) (p : proc S) : proc S :=
  match n with
  | O => p
  | Datatypes.S n =>
      match answer l p ≫= pmove body p with
      | Some (_, p') => prun body l n p'
      | None => p
      end
  end.

Lemma prun_sound {S} (body : io S bool) l n p : rtc (pstep body) p (prun body l n p).
Proof.
  revert p. induction n as [|n IH]; intros p; cbn [prun]; [done|].
  destruct (answer l p) as [ch|]; [|done]. cbn [mbind option_bind]. destruct (pmove body p ch) as [[lab p']|] eqn:E; [|done].
  eapply rtc_l; [by exists ch, lab|apply IH].
Qed.

(** A delivery to a reading process is seen as the read of its descriptor. *)
Lemma deliver_label {S} (body : io S bool) p fd len bs lab p' :
  wants p = Some (fd, len) -> pmove body p (Deliver bs) = Some (lab, p') -> lab = In fd bs.
Proof.
  destruct p as [s w [|fd' len' k| | | | |]| |]; try done. cbn. intros [= -> ->].
  destruct (_ && _); [|done]. by intros [= <- _].
Qed.

(** What a reading process does when no call fails: it gets something. *)
Lemma reading_gets {S} (body : io S bool) p ch lab p' :
  reading p = true -> pmove body p ch = Some (lab, p') ->
  match lab with Fail => True | In _ bs => bs <> [] | InMsg _ => True | _ => False end.
Proof.
  destruct p as [s w [|fd' len' k| |len' k| | |]| |]; try done; intros _; destruct ch as [|c|bs|n]; try done; cbn [pmove].
  - destruct (_ <=? 0); [|done]. by intros [= <- _].
  - destruct (Nat.ltb_spec 0 (length bs)) as [Hb|]; [|done]. destruct (_ <=? _)%nat; [|done].
    intros [= <- _]. destruct bs; [cbn in Hb; lia|done].
  - destruct (_ <=? 0); [|done]. by intros [= <- _].
  - destruct (_ <? _)%nat; [|done]. by intros [= <- _].
Qed.
