(* ===== verification/RelayCode.v ===== *)
(** * The three programs of the relay as trees

    One round of the main loop of daemon-doe.c, thin-server.c and doe-emu.c, with the
    system calls of the source in its order, and the proofs that each tree runs as the
    program does. The stages of a round have names, so that the position of a process
    can be named. *)
From S2P Require Import Prelude Bytes CMonad Log Wire ByteIO IoTree Mailbox DoeEmu DoeSpec EmuSpec ThinServer DaemonDoe.

(** ** daemon-doe.c *)

Section daemon.
Variables (devfd sockfd : Z).

(** The answer is written to the device. *)
Definition daemon_write (m' : list byte) : io (list byte) bool :=
  Write devfd m' (fun k => if k <? 0 then Local (perror "write") (fun _ => Ret false) else Ret true).

(** The answer has arrived. *)
Definition daemon_answered (m' : list byte) : io (list byte) bool :=
  Local (modify (fun _ => m');;
         let op : avery_pci_config_op := of_bytes m' in
         LOG "RESP: status=%d value=0x%x" [op_status op; op_value op])
        (fun _ => daemon_write m').

(** The access has been sent. *)
Definition daemon_sent : io (list byte) bool :=
  tbind (read_tree "recv" 16 16 sockfd []) daemon_answered.

Definition daemon_send (m : list byte) : io (list byte) bool :=
  tbind (write_tree "send" (length m) sockfd m) (fun _ => daemon_sent).

(** The device has been read. *)
Definition daemon_got : Z * list byte -> io (list byte) bool := fun '(n, bs) =>
  if n <=? 0 then Local (perror "read") (fun _ => Ret false)
  else Local (modify (splice 0 bs);;
              m ← get;
              let op : avery_pci_config_op := of_bytes m in
              LOG "REQ: type=%d offset=0x%x value=0x%x" [op_type op; op_offset op; op_value op];;
              mret m) daemon_send.

(** [poll] has returned. *)
Definition daemon_polled (revents : Z) : io (list byte) bool :=
  if truth (Z.land revents POLLIN) then Read devfd 16 daemon_got else Ret true.

Definition daemon_poll (ret : Z) : io (list byte) bool :=
  Local (emit (EvCall "poll" [devfd; POLLIN; -1] ret)) (fun _ =>
    if ret <? 0 then Local (perror "poll") (fun _ => Ret false)
    else Ask (fun revents => Some (truth (Z.land revents POLLIN))) daemon_polled).

Definition daemon_tree : io (list byte) bool := Ask nonneg daemon_poll.
End daemon.

(** ** thin-server.c *)

Section server.
Variable client : Z.

Definition server_answer (op : avery_pci_config_op) : io thin bool :=
  tbind (write_tree "send" (length (to_bytes op)) client (to_bytes op)) (fun _ => Ret true).

(** The reply has arrived on the pipe. *)
Definition server_replied (op : avery_pci_config_op) (rs : list byte) : io thin bool :=
  let op := serve_reply op (of_bytes rs) in
  Local (LOG "RSP  status=%d value=0x%x" [op_status op; op_value op]) (fun _ => server_answer op).

(** The transaction has been written. *)
Definition server_wait (op : avery_pci_config_op) (repfd : Z) : io thin bool :=
  tbind (read_tree "read pipe" 344 344 repfd []) (server_replied op).

Definition server_forward (op : avery_pci_config_op) (g : thin) : io thin bool :=
  let req := to_bytes (serve_request (t_seq g) op) in
  tbind (write_tree "write pipe" (length req) (t_req_fd g) req) (fun _ => server_wait op (t_rep_fd g)).

(** The access has arrived. *)
Definition server_asked (bs : list byte) : io thin bool :=
  let op : avery_pci_config_op := of_bytes bs in
  Local (LOG "REQ  type=%d offset=0x%x value=0x%x" [op_type op; op_offset op; op_value op];;
         modify (fun g => set_t_seq (wrap32 (t_seq g + 1)) g);;
         get) (server_forward op).

Definition server_tree : io thin bool := tbind (read_tree "recv" 16 16 client []) server_asked.
End server.

(** ** doe-emu.c *)

Definition emu_reply (o : option (Z * simics_transaction_t)) : io emu bool :=
  match o with
  | Some (fd, rsp) =>
      tbind (write_tree "write" (length (to_bytes rsp)) fd (to_bytes rsp)) (fun _ => Ret true)
  | None => Ret false
  end.

Definition emu_asked (bs : list byte) : io emu bool := Local (handle_local (of_bytes bs)) emu_reply.

Definition emu_wait (g : emu) : io emu bool := tbind (read_tree "read" 344 344 (req_fd g) []) emu_asked.

Definition emu_tree : io emu bool := Local get emu_wait.

(** ** The trees are the programs *)

Lemma interp_send {S} msg fd bs (t : io S bool) :
  interp (tbind (write_tree msg (length bs) fd bs) (fun _ => t)) ≐ (write_all msg fd bs;; interp t).
Proof. rewrite interp_tbind. apply ceq_bind; [apply interp_write_tree|done]. Qed.

Lemma interp_recv {S} msg fd len (f : list byte -> io S bool) :
  interp (tbind (read_tree msg len len fd []) f) ≐ (bs ← read_all msg fd len; interp (f bs)).
Proof. rewrite interp_tbind. apply ceq_bind; [apply interp_read_tree|done]. Qed.

Lemma server_tree_code client : interp (server_tree client) ≐ serve_iter client.
Proof.
  unfold server_tree, serve_iter, xrecv. rewrite interp_recv. same_step.
  unfold server_asked. cbn [interp]. rewrite !bind_assoc. same_step. rewrite bind_assoc. same_step. same_step.
  unfold server_forward, xwrite. rewrite interp_send. same_step.
  unfold server_wait, xread. rewrite interp_recv. same_step.
  unfold server_replied. cbn [interp]. same_step.
  unfold server_answer, xsend. rewrite interp_send. reflexivity.
Qed.

Lemma daemon_got_code devfd sockfd r :
  interp (daemon_got devfd sockfd r) ≐
  (let '(n, bs) := r in
   if n <=? 0 then perror "read";; mret false
   else
     modify (splice 0 bs);;
     m ← get;
     let op : avery_pci_config_op := of_bytes m in
     LOG "REQ: type=%d offset=0x%x value=0x%x" [op_type op; op_offset op; op_value op];;
     send_all sockfd m;;
     m' ← recv_all sockfd (sizeof avery_pci_config_op);
     modify (fun _ => m');;
     let op : avery_pci_config_op := of_bytes m' in
     LOG "RESP: status=%d value=0x%x" [op_status op; op_value op];;
     k ← sys_write devfd m';
     if k <? 0 then perror "write";; mret false else mret true).
Proof.
  destruct r as [n bs]. unfold daemon_got. destruct (n <=? 0); [reflexivity|]. cbn [interp].
  rewrite bind_assoc. same_step. rewrite bind_assoc. same_step. rewrite bind_assoc. same_step.
  unfold daemon_send, send_all. change (mret (M := C (list byte)) ?a ≫= ?f) with (f a).
  etransitivity; [apply (interp_send "send" sockfd)|]. same_step.
  unfold daemon_sent, recv_all. rewrite interp_recv. same_step.
  unfold daemon_answered. cbn [interp]. rewrite bind_assoc. same_step. same_step.
  unfold daemon_write. cbn [interp]. same_step. by destruct (_ <? 0).
Qed.

Lemma daemon_tree_code devfd sockfd : interp (daemon_tree devfd sockfd) ≐ daemon_iter devfd sockfd.
Proof.
  unfold daemon_tree, daemon_iter, sys_poll, sys. cbn [interp]. rewrite !bind_assoc. same_step.
  unfold daemon_poll. cbn [interp]. rewrite bind_assoc. same_step.
  destruct (a <? 0) eqn:Hlt; intros s w; cbn [interp].
  - unfold mbind, C_bind, mret, C_ret. cbn beta iota. by rewrite !Hlt.
  - unfold mbind at 2 3, C_bind at 2 3. cbn [mret C_ret]. rewrite Hlt.
    unfold mbind at 1 2, C_bind at 1 2. destruct (next s w) as [r s' w'| | |]; try done.
    cbn [mret C_ret]. rewrite Hlt. unfold daemon_polled. destruct (truth _); [|done]. cbn [interp].
    apply ceq_bind; [done|]. intros rd. apply daemon_got_code.
Qed.

Lemma emu_reply_code o :
  interp (emu_reply o) ≐
  match o with Some (fd, rsp) => pipe_write fd (to_bytes rsp);; mret true | None => mret false end.
Proof.
  destruct o as [[fd rsp]|]; [|reflexivity]. unfold emu_reply, pipe_write. rewrite interp_send. reflexivity.
Qed.

Lemma emu_tree_code : interp emu_tree ≐ run_iter.
Proof.
  unfold emu_tree, run_iter. cbn [interp]. same_step. unfold emu_wait, pipe_read.
  rewrite interp_recv. same_step. unfold emu_asked. cbn [interp].
  rewrite handle_split. same_step. apply emu_reply_code.
Qed.
