(* ===== verification/RelaySpec.v ===== *)
(** * The sequential relay

    What the kernel driver should see: each access, numbered, goes through the abstract
    device, and the reply becomes the answer. PipeServer.v compares the concurrent systems
    with this function; Host.v shows that its answers are those of the device as the
    kernel driver's accesses alone describe it ([device_answers]). *)
From S2P Require Import Prelude Bytes CMonad Wire Mailbox DoeEmu DoeSpec EmuSpec ThinServer.

Definition spec_step (st : device * Z) (op : avery_pci_config_op) : (device * Z) * avery_pci_config_op :=
  let sq := wrap32 (snd st + 1) in
  let '(d, r) := dev_step (fst st) (serve_request sq op) in
  ((d, sq), serve_reply op r).

Fixpoint spec_run (st : device * Z) (ops : list avery_pci_config_op) : list avery_pci_config_op :=
  match ops with
  | [] => []
  | op :: ops => let '(st', a) := spec_step st op in a :: spec_run st' ops
  end.
