(* ===== verification/Link.v ===== *)
(** * A client and a server on a connection

    Two programs of the relay ask: daemon-doe.c and daemon-doe-netlink.c. Two answer:
    thin-server.c, with doe-emu.c behind it, and remote-rc.c. Either asker may be
    connected to either answerer. This file states what an asker and an answerer promise
    to each other ([ClientLaws], [ServerLaws]) and proves from the promises alone that
    the two, run concurrently on a TCP connection, are safe and complete; the programs
    are instances (DaemonClient.v, NlClient.v, PipeServer.v, RcServer.v).

    A client takes requests from the kernel driver, sends each as one access (16 bytes)
    and hands back a reply made of the 16 bytes it receives. A server receives accesses
    and sends answers. Either moves bytes in chunks that the kernel chooses. *)
From S2P Require Import Prelude Bytes Wire.

(** ** Machines *)

Inductive cact (Q R : Type) : Type :=
| CQuiet                    (* a computation, or a call that moves no byte *)
| CTake (q : Q)             (* the next request of the kernel driver *)
| CGive (r : R)             (* a reply, to the kernel driver *)
| CSend (bs : list byte)    (* into the connection *)
| CRecv (bs : list byte).   (* from the connection *)
Arguments CQuiet {Q R}.
Arguments CTake {Q R} _.
Arguments CGive {Q R} _.
Arguments CSend {Q R} _.
Arguments CRecv {Q R} _.

(** [last]: the client is gone and nothing is left on the connection after [bs]. *)
Inductive sact : Type :=
| SQuiet
| SRecv (last : bool) (bs : list byte)
| SSend (bs : list byte).

Record client (K Q R : Type) : Type := MkClient {
  cl_move    : K -> cact Q R -> K -> Prop;
  cl_gone    : K -> bool;                            (* has left, its connection is closed *)
  cl_crashed : K -> Prop;                            (* undefined behaviour *)
  cl_ok      : Q -> Prop;                            (* the requests of the kernel driver *)
  cl_op      : Q -> avery_pci_config_op;             (* the access a request carries *)
  cl_reply   : Q -> avery_pci_config_op -> R;        (* its reply, given the answer *)
}.
Arguments MkClient {K Q R} _ _ _ _ _ _.
Arguments cl_move {K Q R} _ _ _ _.
Arguments cl_gone {K Q R} _ _.
Arguments cl_crashed {K Q R} _ _.
Arguments cl_ok {K Q R} _ _.
Arguments cl_op {K Q R} _ _.
Arguments cl_reply {K Q R} _ _ _.

Record server (S D : Type) : Type := MkServer {
  sv_move    : S -> sact -> S -> Prop;
  sv_crashed : S -> Prop;
  sv_answer  : D -> avery_pci_config_op -> D * avery_pci_config_op;   (* its specification *)
}.
Arguments MkServer {S D} _ _ _.
Arguments sv_move {S D} _ _ _ _.
Arguments sv_crashed {S D} _ _.
Arguments sv_answer {S D} _ _ _.

(** ** The connection *)

Record link (K S Q R : Type) : Type := Link {
  l_todo   : list Q;          (* requests the kernel driver will make *)
  l_done   : list R;          (* replies it has got *)
  l_client : K;
  l_up     : list byte;       (* client to server *)
  l_down   : list byte;       (* server to client *)
  l_server : S;
}.
Arguments Link {K S Q R} _ _ _ _ _ _.
Arguments l_todo {K S Q R} _.
Arguments l_done {K S Q R} _.
Arguments l_client {K S Q R} _.
Arguments l_up {K S Q R} _.
Arguments l_down {K S Q R} _.
Arguments l_server {K S Q R} _.

Definition is_nil {A} (l : list A) : bool := match l with [] => true | _ => false end.

Section link.
Context {K S Q R D : Type} (c : client K Q R) (v : server S D).

Inductive lstep : link K S Q R -> link K S Q R -> Prop :=
| LQuiet k' td dn k u dw s :
    cl_move c k CQuiet k' -> lstep (Link td dn k u dw s) (Link td dn k' u dw s)
| LTake q k' td dn k u dw s :
    cl_move c k (CTake q) k' -> lstep (Link (q :: td) dn k u dw s) (Link td dn k' u dw s)
| LGive r k' td dn k u dw s :
    cl_move c k (CGive r) k' -> lstep (Link td dn k u dw s) (Link td (dn ++ [r]) k' u dw s)
| LSend bs k' td dn k u dw s :
    cl_move c k (CSend bs) k' -> lstep (Link td dn k u dw s) (Link td dn k' (u ++ bs) dw s)
| LRecv bs k' td dn k u dw s :
    cl_move c k (CRecv bs) k' -> lstep (Link td dn k u (bs ++ dw) s) (Link td dn k' u dw s)
| LServe s' td dn k u dw s :
    sv_move v s SQuiet s' -> lstep (Link td dn k u dw s) (Link td dn k u dw s')
| LArrive bs s' td dn k u dw s :
    sv_move v s (SRecv (cl_gone c k && is_nil u) bs) s' ->
    lstep (Link td dn k (bs ++ u) dw s) (Link td dn k u dw s')
| LAnswer bs s' td dn k u dw s :
    sv_move v s (SSend bs) s' -> lstep (Link td dn k u dw s) (Link td dn k u (dw ++ bs) s').

(** What the kernel driver should get: the answers of the sequential server. *)
Fixpoint replies (d : D) (qs : list Q) : list R :=
  match qs with
  | [] => []
  | q :: qs => let '(d', a) := sv_answer v d (cl_op c q) in cl_reply c q a :: replies d' qs
  end.

(** The answers alone. *)
Fixpoint served (d : D) (ops : list avery_pci_config_op) : list avery_pci_config_op :=
  match ops with
  | [] => []
  | op :: ops => let '(d', a) := sv_answer v d op in a :: served d' ops
  end.

Lemma replies_served d qs : replies d qs = zip_with (cl_reply c) qs (served d (map (cl_op c) qs)).
Proof.
  revert d. induction qs as [|q qs IH]; intros d; [done|]. cbn [replies map served].
  destruct (sv_answer v d (cl_op c q)) as [d' a]. cbn [zip_with]. by rewrite IH.
Qed.
End link.

(** The step that was taken, its move as [M]; nothing comes from an empty channel. *)
Ltac lcases St :=
  inversion St as [k' ? ? ? ? ? ? M|q' k' ? ? ? ? ? ? M|r k' ? ? ? ? ? ? M|bs k' ? ? ? ? ? ? M
    |bs k' ? ? ? ? dw' ? M|s' ? ? ? ? ? ? M|bs s' ? ? ? u' ? ? M|bs s' ? ? ? ? ? ? M]; subst; clear St;
  try match goal with E : _ ++ _ = [] |- _ => apply app_eq_nil in E as [-> ->] end.

(** ** What a client promises

    [at_ k p j]: the client [k] is at position [p], and moves on its own at most [j]
    times more before it transfers bytes. [faults]: whether calls may fail. *)

Inductive cpos (Q : Type) : Type :=
| CWait                                          (* for a request *)
| CBusy (q : Q) (out acc : list byte).           (* has to send [out], has received [acc] *)
Arguments CWait {Q}.
Arguments CBusy {Q} _ _ _.

(** Moves for which a client needs nobody. *)
Definition cown {Q R} (a : cact Q R) : Prop :=
  match a with CQuiet | CGive _ | CSend _ => True | _ => False end.

Class ClientLaws {K Q R} (c : client K Q R) (faults : bool) (at_ : K -> cpos Q -> nat -> Prop) : Prop := {
  cl_request : forall q, cl_ok c q -> op_ok (cl_op c q);
  cl_quiet : forall k p j k', at_ k p j -> cl_move c k CQuiet k' ->
    exists j', at_ k' p j' /\ (faults = false -> (j' < j)%nat);
  cl_take : forall k p j q k', at_ k p j -> cl_move c k (CTake q) k' -> cl_ok c q ->
    p = CWait /\ exists j', at_ k' (CBusy q (to_bytes (cl_op c q)) []) j' /\ (j' <= j + 5)%nat;
  cl_send : forall k p j bs k', at_ k p j -> cl_move c k (CSend bs) k' ->
    exists q out n, p = CBusy q out [] /\ (0 < n <= length out)%nat /\ bs = take n out /\
      exists j', at_ k' (CBusy q (drop n out) []) j' /\ (j' <= j + 5)%nat;
  cl_recv : forall k p j bs k', at_ k p j -> cl_move c k (CRecv bs) k' ->
    exists q acc, p = CBusy q [] acc /\ (0 < length bs)%nat /\
      exists j', at_ k' (CBusy q [] (acc ++ bs)) j' /\ (j' <= j + 5)%nat;
  cl_give : forall k p j r k', at_ k p j -> cl_move c k (CGive r) k' ->
    exists q acc, p = CBusy q [] acc /\ length acc = 16%nat /\ r = cl_reply c q (of_bytes acc) /\
      exists j', at_ k' CWait j' /\ (j' <= j + 5)%nat;
  cl_left : forall k p j, at_ k p j -> cl_gone c k = true -> faults = true;
  cl_still : forall k a k', cl_gone c k = true -> cl_move c k a k' -> False;
  cl_sound : forall k p j, at_ k p j -> ~ cl_crashed c k;
  cl_ready : forall k p j, faults = false -> at_ k p j ->
    (exists a k', cown a /\ cl_move c k a k') \/
    (p = CWait /\ forall q, cl_ok c q -> exists k', cl_move c k (CTake q) k') \/
    (exists q acc, p = CBusy q [] acc /\ (length acc < 16)%nat /\
       forall bs, length (acc ++ bs) = 16%nat -> exists k', cl_move c k (CRecv bs) k');
}.

(** ** What a server promises

    [at_ s d out acc j]: the device behind it is in state [d], [out] of the last answer is
    still to be sent, [acc] of the next access has been received. Once an access is
    complete the server has [work] moves to answer it. A server whose client is gone only
    promises to stay defined ([any]). *)

Class ServerLaws {S D} (v : server S D) (faults : bool) (work : nat)
    (at_ : S -> D -> list byte -> list byte -> nat -> Prop) (any : S -> Prop) : Prop := {
  sv_quiet : forall s d out acc j s', at_ s d out acc j -> sv_move v s SQuiet s' ->
    (exists j', at_ s' d out acc j' /\ (faults = false -> (j' < j)%nat)) \/
    (out = [] /\ length acc = 16%nat /\
     exists d' a, sv_answer v d (of_bytes acc) = (d', a) /\ op_ok a /\
       exists j', at_ s' d' (to_bytes a) [] j' /\ (j' <= j + 5)%nat);
  sv_recv : forall s d out acc j bs s', at_ s d out acc j -> sv_move v s (SRecv false bs) s' ->
    out = [] /\ (0 < length bs)%nat /\
    exists j', at_ s' d [] (acc ++ bs) j' /\
      (j' <= j + (if decide (length (acc ++ bs) = 16%nat) then work else 5))%nat;
  sv_send : forall s d out acc j bs s', at_ s d out acc j -> sv_move v s (SSend bs) s' ->
    acc = [] /\ exists n, (0 < n <= length out)%nat /\ bs = take n out /\
      exists j', at_ s' d (drop n out) [] j' /\ (j' <= j + 5)%nat;
  sv_weaken : forall s d out acc j, at_ s d out acc j -> any s;
  sv_any : forall s a s', any s -> sv_move v s a s' -> any s';
  sv_sound : forall s, any s -> ~ sv_crashed v s;
  sv_ready : forall s d out acc j, faults = false -> at_ s d out acc j ->
    (exists s', sv_move v s SQuiet s') \/ (exists bs s', sv_move v s (SSend bs) s') \/
    (out = [] /\ (length acc < 16)%nat /\
     forall last bs, length (acc ++ bs) = 16%nat -> exists s', sv_move v s (SRecv last bs) s');
}.

(** ** A message under way

    On one hop, [acc ++ channel ++ out] is the message; [left] bounds the transfers. *)

Definition left (out chan : list byte) : nat := (2 * length out + length chan)%nat.

Lemma hop_send acc chan out n (msg : list byte) :
  (0 < n <= length out)%nat -> acc ++ chan ++ out = msg ->
  acc ++ (chan ++ take n out) ++ drop n out = msg /\
  (left (drop n out) (chan ++ take n out) < left out chan)%nat.
Proof.
  intros Hn <-. rewrite <- (app_assoc chan), take_drop. split; [done|].
  unfold left. rewrite length_app, length_take, length_drop. lia.
Qed.

Lemma hop_recv acc bs chan out (msg : list byte) :
  (0 < length bs)%nat -> acc ++ (bs ++ chan) ++ out = msg ->
  (acc ++ bs) ++ chan ++ out = msg /\ (left out chan < left out (bs ++ chan))%nat.
Proof.
  intros Hn <-. split; [by rewrite <- !app_assoc|]. unfold left. rewrite length_app. lia.
Qed.

(** A receiver that has the whole message has all of it. *)
Lemma hop_done {A} `{CStructLaws A} acc chan out (a : A) :
  struct_ok a -> acc ++ chan ++ out = to_bytes a -> length acc = sizeof A ->
  acc = to_bytes a /\ chan = [] /\ out = [].
Proof.
  intros Ha E Hl. pose proof (length_to_bytes a Ha) as Hla.
  assert (length (chan ++ out) = 0%nat) as Hz.
  { apply (f_equal length) in E. rewrite length_app in E. lia. }
  apply nil_length_inv, app_eq_nil in Hz as [-> ->]. by rewrite app_nil_r in E.
Qed.

Lemma hop_length {A} `{CStructLaws A} acc chan out (a : A) :
  struct_ok a -> acc ++ chan ++ out = to_bytes a ->
  (length acc + length chan + length out = sizeof A)%nat.
Proof. intros Ha E. rewrite <- (length_to_bytes a Ha), <- E, !length_app. lia. Qed.

Lemma op_bytes_length op : op_ok op -> length (to_bytes op) = 16%nat.
Proof. apply (length_to_bytes (CStructLaws := op_laws)). Qed.

(** ** The connection is correct *)

Section correct.
Context {K S Q R D : Type} {c : client K Q R} {v : server S D} {faults : bool} {work : nat}.
Context {cat : K -> cpos Q -> nat -> Prop} {sat : S -> D -> list byte -> list byte -> nat -> Prop} {any : S -> Prop}.
Context {HC : ClientLaws c faults cat} {HS : ServerLaws v faults work sat any}.

(** Moves for one request: 67 transfers and computations, and five moves between two of
    them, besides the work of the server. *)
Definition per_request (work : nat) : nat := (402 + work)%nat.

Section invariant.
Variable answers : list R.

Inductive linv : link K S Q R -> nat -> Prop :=
| IvIdle td dn k s d jc js :
    Forall (cl_ok c) td -> cat k CWait jc -> sat s d [] [] js -> dn ++ replies c v d td = answers ->
    linv (Link td dn k [] [] s) (per_request work * length td + jc + js)
| IvAsk td dn q k s d out u acc jc js :
    Forall (cl_ok c) td -> cl_ok c q -> cat k (CBusy q out []) jc -> sat s d [] acc js ->
    acc ++ u ++ out = to_bytes (cl_op c q) -> dn ++ replies c v d (q :: td) = answers ->
    linv (Link td dn k u [] s)
         (per_request work * length td + 6 * (left out u + 34) +
          (if decide (length acc = 16%nat) then 0 else work) + jc + js)
| IvAnswer td dn q a k s d out dw acc jc js :
    Forall (cl_ok c) td -> op_ok a -> cat k (CBusy q [] acc) jc -> sat s d out [] js ->
    acc ++ dw ++ out = to_bytes a -> dn ++ cl_reply c q a :: replies c v d td = answers ->
    linv (Link td dn k [] dw s) (per_request work * length td + 6 * (left out dw + 1) + jc + js)
| IvGone td dn k p jc u dw s :
    cat k p jc -> cl_gone c k = true -> any s -> dn `prefix_of` answers ->
    linv (Link td dn k u dw s) 0.

(** The step was made, and less is left to do. *)
Definition lnext (x : link K S Q R) (m : nat) : Prop :=
  exists m', linv x m' /\ (faults = false -> (m' < m)%nat).

(** The measure, with what holds only without failures. *)
Ltac less :=
  intros; repeat match goal with H : faults = false -> _, F : faults = false |- _ => specialize (H F) end; lia.

Lemma replies_cons d q td d' a :
  sv_answer v d (cl_op c q) = (d', a) -> replies c v d (q :: td) = cl_reply c q a :: replies c v d' td.
Proof. intros E. cbn [replies]. by rewrite E. Qed.

Lemma linv_idle td dn k s d jc js x' :
  Forall (cl_ok c) td -> cat k CWait jc -> sat s d [] [] js -> dn ++ replies c v d td = answers ->
  lstep c v (Link td dn k [] [] s) x' -> lnext x' (per_request work * length td + jc + js).
Proof.
  intros Hq C S' Ha St. lcases St.
  - destruct (cl_quiet _ _ _ _ C M) as (j & C' & Hj). eexists. split; [by eapply IvIdle|less].
  - apply Forall_cons_1 in Hq as [Hq Hqs]. rename q' into q. destruct (cl_take _ _ _ _ _ C M Hq) as (_ & j & C' & Hj).
    pose proof (op_bytes_length _ (cl_request _ Hq)) as Hl.
    eexists. split; [by eapply (IvAsk _ _ q _ _ _ _ [] [])|]. intros _. unfold left, per_request. cbn [length].
    rewrite Hl. destruct (decide _); lia.
  - by destruct (cl_give _ _ _ _ _ C M) as (? & ? & ? & _).
  - by destruct (cl_send _ _ _ _ _ C M) as (? & ? & ? & ? & _).
  - by destruct (cl_recv _ _ _ _ _ C M) as (? & ? & ? & _).
  - destruct (sv_quiet _ _ _ _ _ _ S' M) as [(j & S1 & Hj)|(_ & ? & _)]; [|done].
    eexists. split; [by eapply IvIdle|less].
  - destruct (cl_gone c k) eqn:G; cbn in M.
    + exists 0%nat. split; [|intros F; by rewrite (cl_left _ _ _ C G) in F].
      eapply IvGone; [done|done|eapply sv_any; [by eapply sv_weaken|done]|by eexists].
    + destruct (sv_recv _ _ _ _ _ _ _ S' M) as (_ & ? & _). cbn in *; lia.
  - destruct (sv_send _ _ _ _ _ _ _ S' M) as (_ & n & Hn & _). cbn in Hn; lia.
Qed.

Lemma linv_ask td dn q k s d out u acc jc js x' :
  Forall (cl_ok c) td -> cl_ok c q -> cat k (CBusy q out []) jc -> sat s d [] acc js ->
  acc ++ u ++ out = to_bytes (cl_op c q) -> dn ++ replies c v d (q :: td) = answers ->
  lstep c v (Link td dn k u [] s) x' ->
  lnext x' (per_request work * length td + 6 * (left out u + 34) +
            (if decide (length acc = 16%nat) then 0 else work) + jc + js).
Proof.
  intros Hqs Hq C S' Hm Ha St. pose proof (cl_request _ Hq) as Hop.
  lcases St.
  - destruct (cl_quiet _ _ _ _ C M) as (j & C' & Hj). eexists. split; [by eapply IvAsk|less].
  - apply Forall_cons_1 in Hqs as [Hq' _]. by destruct (cl_take _ _ _ _ _ C M Hq') as (? & _).
  - destruct (cl_give _ _ _ _ _ C M) as (? & ? & [= ? -> <-] & ? & _). done.
  - destruct (cl_send _ _ _ _ _ C M) as (? & ? & n & [= <- <-] & Hn & -> & j & C' & Hj).
    destruct (hop_send _ _ _ _ _ Hn Hm) as [Hm' Hlt]. eexists. split; [by eapply IvAsk|less].
  - destruct (cl_recv _ _ _ _ _ C M) as (? & ? & _ & ? & _). cbn in *; lia.
  - destruct (sv_quiet _ _ _ _ _ _ S' M) as [(j & S1 & Hj)|(_ & Hl & d' & a & E & Hoa & j & S1 & Hj)].
    + eexists. split; [by eapply IvAsk|less].
    + destruct (hop_done (H := op_struct) _ _ _ _ Hop Hm Hl) as (-> & -> & ->).
      rewrite of_to_bytes in E by exact Hop. rewrite (replies_cons _ _ _ _ _ E) in Ha.
      eexists. split; [by eapply (IvAnswer _ _ q a _ _ _ _ [] [])|]. intros _.
      unfold left. rewrite op_bytes_length by done. cbn [length]. destruct (decide _); lia.
  - destruct (cl_gone c k && is_nil u') eqn:G.
    + apply andb_prop in G as [G _]. exists 0%nat. split; [|intros F; by rewrite (cl_left _ _ _ C G) in F].
      eapply IvGone; [done|done|eapply sv_any; [by eapply sv_weaken|done]|by eexists].
    + destruct (sv_recv _ _ _ _ _ _ _ S' M) as (_ & Hb & j & S1 & Hj).
      destruct (hop_recv _ _ _ _ _ Hb Hm) as [Hm' Hlt]. eexists. split; [by eapply IvAsk|]. intros _.
      pose proof (hop_length (H := op_struct) _ _ _ _ Hop Hm') as Hlen. change (sizeof avery_pci_config_op) with 16%nat in Hlen.
      rewrite length_app in *. repeat destruct (decide _); lia.
  - destruct (sv_send _ _ _ _ _ _ _ S' M) as (_ & n & Hn & _). cbn in Hn; lia.
Qed.

Lemma linv_answer td dn q a k s d out dw acc jc js x' :
  Forall (cl_ok c) td -> op_ok a -> cat k (CBusy q [] acc) jc -> sat s d out [] js ->
  acc ++ dw ++ out = to_bytes a -> dn ++ cl_reply c q a :: replies c v d td = answers ->
  lstep c v (Link td dn k [] dw s) x' ->
  lnext x' (per_request work * length td + 6 * (left out dw + 1) + jc + js).
Proof.
  intros Hqs Hop C S' Hm Ha St.
  lcases St.
  - destruct (cl_quiet _ _ _ _ C M) as (j & C' & Hj). eexists. split; [by eapply IvAnswer|less].
  - apply Forall_cons_1 in Hqs as [Hq' _]. by destruct (cl_take _ _ _ _ _ C M Hq') as (? & _).
  - destruct (cl_give _ _ _ _ _ C M) as (? & ? & [= <- <-] & Hl & -> & j & C' & Hj).
    destruct (hop_done (H := op_struct) _ _ _ _ Hop Hm Hl) as (-> & -> & ->). rewrite of_to_bytes by exact Hop.
    eexists. split; [by eapply IvIdle; [..|rewrite <- app_assoc]|]. unfold left. cbn [length]. lia.
  - destruct (cl_send _ _ _ _ _ C M) as (? & ? & n & [= <- <- _] & Hn & _). cbn in Hn; lia.
  - destruct (cl_recv _ _ _ _ _ C M) as (? & ? & [= <- <-] & Hb & j & C' & Hj).
    destruct (hop_recv _ _ _ _ _ Hb Hm) as [Hm' Hlt]. eexists. split; [by eapply IvAnswer|less].
  - destruct (sv_quiet _ _ _ _ _ _ S' M) as [(j & S1 & Hj)|(_ & ? & _)]; [|done].
    eexists. split; [by eapply IvAnswer|less].
  - destruct (cl_gone c k) eqn:G; cbn in M.
    + exists 0%nat. split; [|intros F; by rewrite (cl_left _ _ _ C G) in F].
      eapply IvGone; [done|done|eapply sv_any; [by eapply sv_weaken|done]|by eexists].
    + destruct (sv_recv _ _ _ _ _ _ _ S' M) as (_ & ? & _). cbn in *; lia.
  - destruct (sv_send _ _ _ _ _ _ _ S' M) as (_ & n & Hn & -> & j & S1 & Hj).
    destruct (hop_send _ _ _ _ _ Hn Hm) as [Hm' Hlt]. eexists. split; [by eapply IvAnswer|less].
Qed.

Lemma linv_gone td dn k p jc u dw s x' :
  cat k p jc -> cl_gone c k = true -> any s -> dn `prefix_of` answers ->
  lstep c v (Link td dn k u dw s) x' -> lnext x' 0.
Proof.
  intros C G S' Hp St. exists 0%nat. split; [|intros F; by rewrite (cl_left _ _ _ C G) in F].
  inversion St; subst; try (exfalso; by eapply cl_still); (eapply IvGone; [done|done|by eapply sv_any|done]).
Qed.

Lemma linv_step x x' m : linv x m -> lstep c v x x' -> lnext x' m.
Proof. intros [] St; [by eapply linv_idle|by eapply linv_ask|by eapply linv_answer|by eapply linv_gone]. Qed.

Lemma linv_runs n x x' m :
  linv x m -> nsteps (lstep c v) n x x' ->
  exists m', linv x' m' /\ (faults = false -> (n + m' <= m)%nat).
Proof.
  intros I Hn. revert m I. induction Hn as [x|n x y z St _ IH]; intros m I; [by exists m|].
  destruct (linv_step _ _ _ I St) as (m1 & I1 & H1). destruct (IH _ I1) as (m2 & I2 & H2).
  exists m2. split; [done|]. intros F. specialize (H1 F). specialize (H2 F). lia.
Qed.

Lemma linv_sound x m :
  linv x m ->
  ~ cl_crashed c (l_client x) /\ ~ sv_crashed v (l_server x) /\ l_done x `prefix_of` answers.
Proof.
  intros [td dn k s d jc js _ C S' <-|td dn q k s d out u acc jc js _ _ C S' _ <-
    |td dn q a k s d out dw acc jc js _ _ C S' _ <-|td dn k p jc u dw s C _ S' Hp]; cbn [l_client l_server l_done];
    (split; [by eapply cl_sound|]); (split; [eapply sv_sound; first [done|by eapply sv_weaken]|]);
    try done; by eexists.
Qed.

(** Whatever fails, the server is in a state it accounts for. *)
Lemma linv_server x m : linv x m -> any (l_server x).
Proof. intros []; cbn [l_server]; first [done|by eapply sv_weaken]. Qed.

(** Without failures at most one message is on the connection, in one direction, and then
    the server does not have an access to work on. *)
Lemma linv_channels x m :
  faults = false -> linv x m ->
  (length (l_up x) + length (l_down x) <= 16)%nat /\ (l_up x = [] \/ l_down x = []) /\
  exists d out acc j, sat (l_server x) d out acc j /\ (l_up x <> [] \/ l_down x <> [] -> (length acc < 16)%nat).
Proof.
  intros F [td dn k s d jc js _ _ S' _|td dn q k s d out u acc jc js _ Hq _ S' Hm _
    |td dn q a k s d out dw acc jc js _ Ha _ S' Hm _|td dn k p jc u dw s C G _ _]; cbn [l_up l_down l_server].
  - split; [cbn; lia|]. split; [by left|]. exists d, [], [], js. split; [done|cbn; lia].
  - pose proof (hop_length (H := op_struct) _ _ _ _ (cl_request _ Hq) Hm) as Hl.
    change (sizeof avery_pci_config_op) with 16%nat in Hl. split; [cbn; lia|]. split; [by right|].
    exists d, [], acc, js. split; [done|]. intros [Hu|?]; [|done]. destruct u; [done|]. cbn in Hl. lia.
  - pose proof (hop_length (H := op_struct) _ _ _ _ Ha Hm) as Hl.
    change (sizeof avery_pci_config_op) with 16%nat in Hl. split; [cbn; lia|]. split; [by left|].
    exists d, out, [], js. split; [done|cbn; lia].
  - by rewrite (cl_left _ _ _ C G) in F.
Qed.

(** A connection at rest has nothing left to do. *)
Lemma linv_progress x m :
  faults = false -> linv x m -> (l_todo x = [] /\ l_done x = answers) \/ exists x', lstep c v x x'.
Proof.
  intros F I.
  assert (forall td dn k u dw s a k', cown a -> cl_move c k a k' -> exists x', lstep c v (Link td dn k u dw s) x') as Own.
  { intros td dn k u dw s [] k' Ho M; try done; eexists; [by eapply LQuiet|by eapply LGive|by eapply LSend]. }
  destruct I as [td dn k s d jc js Hq C S' Ha|td dn q k s d out u acc jc js Hqs Hq C S' Hm Ha
    |td dn q a k s d out dw acc jc js Hqs Hop C S' Hm Ha|td dn k p jc u dw s C G S' Hp];
    [| | |by rewrite (cl_left _ _ _ C G) in F];
    (destruct (cl_ready _ _ _ F C) as [(act & k' & Ho & M)|HK]; [right; by eapply Own|]);
    (destruct (sv_ready _ _ _ _ _ F S') as [[s' M]|[(bs & s' & M)|(Eo & Hl & HV)]];
      [right; eexists; by eapply LServe|right; eexists; by eapply LAnswer|]).
  - destruct td as [|q td]; [left; cbn in *; by rewrite app_nil_r in Ha|right].
    destruct HK as [(_ & HK)|(? & ? & ? & _)]; [|done].
    destruct (HK q (Forall_inv Hq)) as [k' M]. eexists. by eapply LTake.
  - destruct HK as [(? & _)|(? & ? & [= <- -> <-] & _)]; [done|]. right.
    pose proof (hop_length (H := op_struct) _ _ _ _ (cl_request _ Hq) Hm) as Hlen.
    change (sizeof avery_pci_config_op) with 16%nat in Hlen. cbn in Hlen.
    destruct (HV (cl_gone c k && is_nil (A := byte) []) u) as [s' M]; [rewrite length_app; lia|].
    eexists. rewrite <- (app_nil_r u). by eapply LArrive.
  - subst out. destruct HK as [(? & _)|(? & ? & [= <- <-] & Hl' & HK)]; [done|]. right.
    pose proof (hop_length (H := op_struct) _ _ _ _ Hop Hm) as Hlen.
    change (sizeof avery_pci_config_op) with 16%nat in Hlen. cbn in Hlen.
    destruct (HK dw) as [k' M]; [rewrite length_app; lia|]. eexists. rewrite <- (app_nil_r dw). by eapply LRecv.
Qed.
End invariant.

(** ** Runs *)

Definition link_init (qs : list Q) (k : K) (s : S) : link K S Q R := Link qs [] k [] [] s.

Context (qs : list Q) (k : K) (s : S) (d : D) (jc js : nat).
Hypotheses (Hqs : Forall (cl_ok c) qs) (Hk : cat k CWait jc) (Hs : sat s d [] [] js).

(** Whatever happens, nobody has undefined behaviour and the replies are right so far. *)
Lemma link_safe n x :
  nsteps (lstep c v) n (link_init qs k s) x ->
  ~ cl_crashed c (l_client x) /\ ~ sv_crashed v (l_server x) /\ l_done x `prefix_of` replies c v d qs.
Proof.
  intros Hn. destruct (linv_runs _ _ _ _ _ (IvIdle _ qs [] k s d jc js Hqs Hk Hs eq_refl) Hn) as (m & I & _).
  by eapply linv_sound.
Qed.

(** What is on the connection, and where the server is. *)
Lemma link_server n x : nsteps (lstep c v) n (link_init qs k s) x -> any (l_server x).
Proof.
  intros Hn. destruct (linv_runs _ _ _ _ _ (IvIdle _ qs [] k s d jc js Hqs Hk Hs eq_refl) Hn) as (m & I & _).
  by eapply linv_server.
Qed.

Lemma link_channels n x :
  faults = false -> nsteps (lstep c v) n (link_init qs k s) x ->
  (length (l_up x) + length (l_down x) <= 16)%nat /\ (l_up x = [] \/ l_down x = []) /\
  exists d out acc j, sat (l_server x) d out acc j /\ (l_up x <> [] \/ l_down x <> [] -> (length acc < 16)%nat).
Proof.
  intros F Hn. destruct (linv_runs _ _ _ _ _ (IvIdle _ qs [] k s d jc js Hqs Hk Hs eq_refl) Hn) as (m & I & _).
  by eapply linv_channels.
Qed.

(** Without failures every run is bounded, and one that cannot go on has every reply. *)
Lemma link_live n x :
  faults = false -> nsteps (lstep c v) n (link_init qs k s) x ->
  (n <= per_request work * length qs + jc + js)%nat /\
  (~ (exists x', lstep c v x x') -> l_done x = replies c v d qs).
Proof.
  intros F Hn. destruct (linv_runs _ _ _ _ _ (IvIdle _ qs [] k s d jc js Hqs Hk Hs eq_refl) Hn) as (m & I & Hb).
  specialize (Hb F). split; [lia|]. intros Stuck. by destruct (linv_progress _ _ _ F I) as [[_ ?]|?].
Qed.
End correct.

(** ** A scheduler

    One interleaving, executable: the server moves whenever it can, otherwise the client.
    [snext u s] and [cnext td dw k] choose the next move of a process, given what it may
    receive. *)

Class ClientRuns {K Q R} (c : client K Q R) (cnext : list Q -> list byte -> K -> option (cact Q R * K)) : Prop :=
  cnext_sound : forall td dw k a k', cnext td dw k = Some (a, k') ->
    cl_move c k a k' /\
    match a with
    | CTake q => exists td', td = q :: td'
    | CRecv bs => exists dw', dw = bs ++ dw'
    | _ => True
    end.

Class ServerRuns {S D} (v : server S D) (snext : list byte -> S -> option (sact * S)) : Prop :=
  snext_sound : forall u s a s', snext u s = Some (a, s') ->
    match a with
    | SRecv _ bs => (forall last, sv_move v s (SRecv last bs) s') /\ exists u', u = bs ++ u'
    | _ => sv_move v s a s'
    end.

(** Tests for a process that only waits to receive something. *)
Class ClientRests {K Q R} (c : client K Q R) (cidle : K -> bool) : Prop :=
  cidle_still : forall k a k', cidle k = true -> cl_move c k a k' ->
    match a with CTake _ => True | CRecv bs => bs <> [] | _ => False end.

Class ServerRests {S D} (v : server S D) (sidle : S -> bool) : Prop :=
  sidle_still : forall s a s', sidle s = true -> sv_move v s a s' ->
    match a with SRecv _ bs => bs <> [] | _ => False end.

Section schedule.
Context {K S Q R D : Type} {c : client K Q R} {v : server S D}.
Context (cnext : list Q -> list byte -> K -> option (cact Q R * K)) (snext : list byte -> S -> option (sact * S)).
Context (cidle : K -> bool) (sidle : S -> bool).

Definition lexec_step (x : link K S Q R) : option (link K S Q R) :=
  let '(Link td dn k u dw s) := x in
  match snext u s with
  | Some (SQuiet, s') => Some (Link td dn k u dw s')
  | Some (SRecv _ bs, s') => Some (Link td dn k (drop (length bs) u) dw s')
  | Some (SSend bs, s') => Some (Link td dn k u (dw ++ bs) s')
  | None =>
      match cnext td dw k with
      | Some (CQuiet, k') => Some (Link td dn k' u dw s)
      | Some (CTake _, k') => Some (Link (tail td) dn k' u dw s)
      | Some (CGive r, k') => Some (Link td (dn ++ [r]) k' u dw s)
      | Some (CSend bs, k') => Some (Link td dn k' (u ++ bs) dw s)
      | Some (CRecv bs, k') => Some (Link td dn k' u (drop (length bs) dw) s)
      | None => None
      end
  end.

Fixpoint lexec (n : nat) (x : link K S Q R) : link K S Q R :=
  match n with
  | O => x
  | Datatypes.S n => match lexec_step x with Some x' => lexec n x' | None => x end
  end.

Definition lidle (x : link K S Q R) : bool :=
  let '(Link td dn k u dw s) := x in
  is_nil td && is_nil u && is_nil dw && cidle k && sidle s.

Context {HCR : ClientRuns c cnext} {HSR : ServerRuns v snext} {HCI : ClientRests c cidle} {HSI : ServerRests v sidle}.

Lemma lexec_step_sound x x' : lexec_step x = Some x' -> lstep c v x x'.
Proof.
  destruct x as [td dn k u dw s]. cbn [lexec_step].
  destruct (snext u s) as [[[|last bs|bs] s']|] eqn:E; [| | |destruct (cnext td dw k) as [[a k']|] eqn:E'; [|done]].
  - intros [= <-]. eapply LServe. exact (snext_sound _ _ _ _ E).
  - intros [= <-]. destruct (snext_sound _ _ _ _ E) as (M & u' & ->). rewrite drop_app_length. by eapply LArrive.
  - intros [= <-]. eapply LAnswer. exact (snext_sound _ _ _ _ E).
  - destruct (cnext_sound _ _ _ _ _ E') as [M Ha]. destruct a as [|q|r|bs|bs]; intros [= <-].
    + by eapply LQuiet.
    + destruct Ha as [td' ->]. by eapply LTake.
    + by eapply LGive.
    + by eapply LSend.
    + destruct Ha as [dw' ->]. rewrite drop_app_length. by eapply LRecv.
Qed.

Lemma lexec_sound n x : exists j, nsteps (lstep c v) j x (lexec n x).
Proof.
  revert x. induction n as [|n IH]; intros x; cbn [lexec]; [exists 0%nat; constructor|].
  destruct (lexec_step x) as [x'|] eqn:E; [|exists 0%nat; constructor].
  destruct (IH x') as [j Hj]. exists (Datatypes.S j). eapply nsteps_l; [by apply lexec_step_sound|done].
Qed.

Lemma lidle_stuck x : lidle x = true -> ~ (exists x', lstep c v x x').
Proof.
  destruct x as [td dn k u dw s]. cbn [lidle]. intros H [x' St].
  apply andb_prop in H as [[[[Htd Hu]%andb_prop Hdw]%andb_prop Hk]%andb_prop Hs].
  destruct td; [|done]. destruct u; [|done]. destruct dw; [|done].
  lcases St;
    first [by apply (cidle_still _ _ _ Hk M)|by apply (sidle_still _ _ _ Hs M)].
Qed.
End schedule.
