(* ===== verification/DaemonClient.v ===== *)
(** * daemon-doe.c as a client

    The daemon, a process that runs its own code (RelayCode.v), keeps the promises of a
    client of Link.v: it reads an access from the character device, sends it whole,
    receives 16 bytes and writes them back. The device hands over and takes back whole
    accesses, as the driver does. *)
From S2P Require Import Prelude Bytes CMonad Log Wire ByteIO DaemonDoe IoTree RelayCode Link.

Section daemon.
(** The descriptors of the device and of the connection. *)
Variables (dev sock : Z).

#[local] Abbreviation tree := (daemon_tree dev sock).

Inductive daemon_moves (faults : bool) :
    proc (list byte) -> cact avery_pci_config_op avery_pci_config_op -> proc (list byte) -> Prop :=
| DmQuiet ch lab k k' :
    pmove tree k ch = Some (lab, k') -> silent faults lab = true -> daemon_moves faults k CQuiet k'
| DmTake op k k' :
    pmove tree k (Deliver (to_bytes op)) = Some (In dev (to_bytes op), k') -> daemon_moves faults k (CTake op) k'
| DmGive n bs k k' :
    pmove tree k (Accept n) = Some (Out dev bs, k') -> length bs = 16%nat ->
    daemon_moves faults k (CGive (of_bytes bs)) k'
| DmSend n bs k k' :
    pmove tree k (Accept n) = Some (Out sock bs, k') -> daemon_moves faults k (CSend bs) k'
| DmRecv bs k k' :
    pmove tree k (Deliver bs) = Some (In sock bs, k') -> daemon_moves faults k (CRecv bs) k'.

Definition stopped {S} (p : proc S) : bool := match p with Stopped => true | _ => false end.

Definition daemon_client (faults : bool) : client (proc (list byte)) avery_pci_config_op avery_pci_config_op :=
  MkClient (daemon_moves faults) stopped (fun k => k = Crashed) op_ok (fun op => op) (fun _ a => a).

(** ** Positions *)

Section positions.
Variable faults : bool.

Inductive daemon_at : proc (list byte) -> cpos avery_pci_config_op -> nat -> Prop :=
| DaStopped p : faults = true -> daemon_at Stopped p 0
| DaFail n s w t p : faults = true -> failing n t -> daemon_at (Running s w t) p (S n)
| DaBoot env n s w t : w_env w = env -> booting faults env (fun s => length s = 16%nat) n t s ->
    daemon_at (Running s w t) CWait (5 + n)
| DaTop s w : length s = 16%nat -> daemon_at (Running s w (Ret true)) CWait 5
| DaLoop s w : length s = 16%nat -> daemon_at (Running s w tree) CWait 4
| DaPoll s w c : length s = 16%nat -> (faults = true \/ 0 <= c) ->
    daemon_at (Running s w (daemon_poll dev sock c)) CWait 3
| DaAsk s w : length s = 16%nat ->
    daemon_at (Running s w (Ask (fun revents => Some (truth (Z.land revents POLLIN))) (daemon_polled dev sock))) CWait 2
| DaDev s w : length s = 16%nat -> daemon_at (Running s w (Read dev 16 (daemon_got dev sock))) CWait 1
| DaGot s w q bs : length s = 16%nat -> length bs = 16%nat ->
    daemon_at (Running s w (daemon_got dev sock (16, bs))) (CBusy q bs []) 1
| DaSend s w fuel q out : length s = 16%nat -> out <> [] -> (length out <= fuel)%nat ->
    daemon_at (Running s w (tbind (write_tree "send" fuel sock out) (fun _ => daemon_sent dev sock)))
              (CBusy q out []) 0
| DaRecv s w fuel q acc : length s = 16%nat -> (0 < 16 - length acc <= fuel)%nat ->
    daemon_at (Running s w (tbind (read_tree "recv" fuel (16 - length acc) sock acc) (daemon_answered dev)))
              (CBusy q [] acc) 0
| DaAnswered s w q acc : length acc = 16%nat ->
    daemon_at (Running s w (daemon_answered dev acc)) (CBusy q [] acc) 1
| DaWrite s w q acc : length s = 16%nat -> length acc = 16%nat ->
    daemon_at (Running s w (daemon_write dev acc)) (CBusy q [] acc) 0.

(** Where a move leads, by its label. *)
Definition daemon_moved (p : cpos avery_pci_config_op) (j : nat) (lab : label) (k' : proc (list byte)) : Prop :=
  match lab with
  | Tau => exists j', daemon_at k' p j' /\ (j' < j)%nat
  | Fail => faults = true -> exists j', daemon_at k' p j'
  | In fd bs =>
      (fd = dev /\ p = CWait /\ (length bs = 16%nat -> forall q, daemon_at k' (CBusy q bs []) 1)) \/
      (fd = sock /\ exists q acc, p = CBusy q [] acc /\ (0 < length bs)%nat /\
         exists j', daemon_at k' (CBusy q [] (acc ++ bs)) j' /\ (j' <= 1)%nat)
  | Out fd bs =>
      (fd = sock /\ exists q out n, p = CBusy q out [] /\ (0 < n <= length out)%nat /\ bs = take n out /\
         daemon_at k' (CBusy q (drop n out) []) 0) \/
      (fd = dev /\ exists q acc, p = CBusy q [] acc /\ length acc = 16%nat /\
         (length bs = 16%nat -> bs = acc /\ daemon_at k' CWait 5))
  | InMsg _ | OutMsg _ => False
  end.

Lemma daemon_sent_at s w fuel q out :
  length s = 16%nat -> (length out <= fuel)%nat ->
  daemon_at (Running s w (tbind (write_tree "send" fuel sock out) (fun _ => daemon_sent dev sock))) (CBusy q out []) 0.
Proof.
  intros Hs Hf. destruct out as [|b out]; [|by constructor].
  replace (tbind _ _) with (daemon_sent dev sock) by (by destruct fuel).
  apply (DaRecv s w 16 q []); [done|cbn; lia].
Qed.

Lemma daemon_received_at s w fuel q acc :
  length s = 16%nat -> (length acc <= 16)%nat -> (16 - length acc <= fuel)%nat ->
  exists j, daemon_at (Running s w (tbind (read_tree "recv" fuel (16 - length acc) sock acc) (daemon_answered dev)))
                      (CBusy q [] acc) j /\ (j <= 1)%nat.
Proof.
  intros Hs Ha Hf. destruct (decide (length acc = 16%nat)) as [E|E].
  - rewrite E, Nat.sub_diag. exists 1%nat. split; [|done].
    replace (tbind _ _) with (daemon_answered dev acc) by (by destruct fuel). by constructor.
  - exists 0%nat. split; [|lia]. apply DaRecv; [done|lia].
Qed.

Lemma daemon_dev_move s w ch lab k' :
  length s = 16%nat -> pmove tree (Running s w (Read dev 16 (daemon_got dev sock))) ch = Some (lab, k') ->
  daemon_moved CWait 1 lab k'.
Proof.
  intros Hs H. destruct ch as [|c|bs|]; try done; cbn [pmove] in H.
  - destruct (Z.leb_spec c 0); [|done]. injection H as <- <-. intros F.
    exists 2%nat. apply (DaFail 1); [done|]. cbn [daemon_got].
    destruct (Z.leb_spec c 0); [|lia]. apply failing_perror.
  - destruct (_ && _)%nat eqn:E1; [|done]. injection H as <- <-. left. do 2 (split; [done|]).
    intros Hb q. rewrite Hb. by constructor.
Qed.

Lemma daemon_at_move k p j ch lab k' :
  daemon_at k p j -> pmove tree k ch = Some (lab, k') -> daemon_moved p j lab k'.
Proof.
  intros D H. destruct D as [p F|n s w t p F Hf|env n s w t Hw Hb|s w Hs|s w Hs|s w c Hs Hc|s w Hs|s w Hs|s w q bs Hs Hb
    |s w fuel q out Hs Ho Hf|s w fuel q acc Hs Hf|s w q acc Ha|s w q acc Hs Ha].
  - done.
  - destruct (failing_sim _ _ _ _ _ _ _ _ (fun k j => daemon_at k p j) Hf H) as [-> N]; [by constructor..|exact N].
  - destruct (booting_sim _ _ _ _ _ _ _ _ _ _ _ (fun k j => daemon_at k CWait j) 4 Hw Hb H) as [[-> N]|[-> N]];
      [by constructor|by constructor|by intros; eapply DaBoot|exact N|exact N].
  - destruct ch; try done. injection H as <- <-. exists 4%nat. split; [by constructor|lia].
  - destruct ch as [|c| |]; try done. cbn [pmove nonneg daemon_tree] in H. injection H as <- <-. destruct (Z.leb_spec 0 c).
    + exists 3%nat. split; [|lia]. apply DaPoll; auto.
    + intros F. exists 3%nat. apply DaPoll; auto.
  - destruct ch; try done. unfold daemon_poll in H. cbn in H. injection H as <- <-.
    destruct (Z.ltb_spec c 0).
    + destruct Hc as [F|?]; [|lia]. exists 2%nat. split; [|lia].
      apply (DaFail 1); [done|apply failing_perror].
    + exists 2%nat. split; [by constructor|lia].
  - destruct ch as [|c| |]; try done. injection H as <- <-. unfold daemon_polled. destruct (truth _).
    + exists 1%nat. split; [by constructor|lia].
    + intros F. exists 5%nat. by constructor.
  - by eapply daemon_dev_move.
  - destruct ch; try done. cbn -[sizeof of_bytes splice] in H. injection H as <- <-.
    rewrite splice_all by lia. exists 0%nat. split; [|lia]. apply daemon_sent_at; [done|lia].
  - destruct (sending_move _ _ _ _ _ _ _ _ _ _ _ Ho Hf H) as [(-> & t & -> & Ht)|(n & Hn & -> & ->)].
    + intros F. exists 2%nat. by constructor.
    + left. split; [done|]. exists q, out, n. do 3 (split; [done|]).
      apply daemon_sent_at; [done|rewrite length_drop; lia].
  - destruct (receiving_move _ _ _ _ _ _ _ _ _ _ _ _ Hf H) as [(-> & t & -> & Ht)|(bs & Hn & -> & -> & ->)].
    + intros F. exists 2%nat. by constructor.
    + right. split; [done|]. exists q, acc. split; [done|]. split; [lia|].
      replace (16 - length acc - length bs)%nat with (16 - length (acc ++ bs))%nat by (rewrite length_app; lia).
      apply daemon_received_at; rewrite ?length_app; [done|lia..].
  - destruct ch; try done. cbn -[of_bytes] in H. injection H as <- <-.
    exists 0%nat. split; [by constructor|lia].
  - destruct ch as [|c| |n]; try done; unfold daemon_write in H; cbn [pmove] in H.
    + destruct (Z.ltb_spec c 0); [|done]. injection H as <- <-. intros F.
      exists 2%nat. apply (DaFail 1); [done|]. apply failing_perror.
    + destruct (_ && _)%nat eqn:E1; [|done]. injection H as <- <-. right. split; [done|].
      exists q, acc. do 2 (split; [done|]). rewrite length_take. intros Hn.
      destruct (Z.ltb_spec (Z.of_nat n) 0); [lia|].
      rewrite take_ge by lia. split; [done|by constructor].
Qed.
End positions.

(** Without failures, a daemon that cannot move is reading. *)
Lemma daemon_at_ready k p j :
  daemon_at false k p j ->
  (exists a k', cown a /\ daemon_moves false k a k') \/
  (p = CWait /\ forall q, op_ok q -> exists k', daemon_moves false k (CTake q) k') \/
  (exists q acc, p = CBusy q [] acc /\ (length acc < 16)%nat /\
     forall bs, length (acc ++ bs) = 16%nat -> exists k', daemon_moves false k (CRecv bs) k').
Proof.
  assert (forall k ch k', pmove tree k ch = Some (Tau, k') -> exists a k', cown a /\ daemon_moves false k a k') as Quiet.
  { intros k1 ch k' H. exists CQuiet, k'. split; [done|by eapply DmQuiet]. }
  intros D. destruct D as [p F|n s w t p F Hf|env n s w t Hw Hb|s w Hs|s w Hs|s w c Hs Hc|s w Hs|s w Hs|s w q bs Hs Hb
    |s w fuel q out Hs Ho Hf|s w fuel q acc Hs Hf|s w q acc Ha|s w q acc Hs Ha]; try done.
  - left. destruct (booting_ready tree _ _ _ _ _ _ Hw Hb) as (ch & k' & Hk). by eapply Quiet.
  - left. by apply (Quiet _ Go (Running s w tree)).
  - left. by eapply (Quiet _ (Result 1)).
  - left. by eapply (Quiet _ Go).
  - left. by eapply (Quiet _ (Result 1)).
  - right; left. split; [done|]. intros q Hq. eexists. eapply DmTake. cbn [pmove].
    by rewrite (op_bytes_length _ Hq).
  - left. by eapply (Quiet _ Go).
  - left. destruct (sending_can tree s w "send" fuel sock out (daemon_sent dev sock) Ho Hf) as [k' Hk].
    do 2 eexists. split; [|by eapply DmSend]. done.
  - right; right. exists q, acc. split; [done|]. split; [lia|]. intros bs Hb. rewrite length_app in Hb.
    destruct (receiving_can tree s w "recv" fuel (16 - length acc) sock acc (daemon_answered dev) bs) as [k' Hk];
      [lia|lia|]. eexists. by eapply DmRecv.
  - left. by eapply (Quiet _ Go).
  - left. do 2 eexists. split; [|eapply (DmGive false 16)].
    + done.
    + unfold daemon_write. cbn [pmove]. rewrite Ha. reflexivity.
    + rewrite length_take. lia.
Qed.

#[export] Instance daemon_laws faults : dev <> sock -> ClientLaws (daemon_client faults) faults (daemon_at faults).
Proof.
  intros Hne. split; cbn [cl_ok cl_op cl_reply cl_move cl_gone cl_crashed daemon_client]; [done|..].
  - intros k p j k' D M. inversion M as [ch lab ? ? H Hl| | | |]; subst.
    pose proof (daemon_at_move _ _ _ _ _ _ _ D H) as N. destruct lab; try done; cbn in Hl.
    + destruct N as (j' & D' & Hj). eauto.
    + destruct (N Hl) as (j' & D'). exists j'. split; [done|congruence].
  - intros k p j q k' D M Hq. inversion M as [|? ? ? H| | |]; subst.
    destruct (daemon_at_move _ _ _ _ _ _ _ D H) as [(_ & -> & N)|(? & _)]; [|done]. split; [done|].
    exists 1%nat. split; [apply N, op_bytes_length, Hq|lia].
  - intros k p j bs k' D M. inversion M as [| | |? ? ? ? H|]; subst.
    destruct (daemon_at_move _ _ _ _ _ _ _ D H) as [(_ & q & out & n' & -> & Hn & -> & D')|(? & _)]; [|done].
    exists q, out, n'. do 3 (split; [done|]). exists 0%nat. split; [done|lia].
  - intros k p j bs k' D M. inversion M as [| | | |? ? ? H]; subst.
    destruct (daemon_at_move _ _ _ _ _ _ _ D H) as [(? & _)|(_ & q & acc & -> & Hb & j' & D' & Hj)]; [done|].
    exists q, acc. do 2 (split; [done|]). exists j'. split; [done|lia].
  - intros k p j r k' D M. inversion M as [| |n bs ? ? H Hb| |]; subst.
    destruct (daemon_at_move _ _ _ _ _ _ _ D H) as [(? & _)|(_ & q & acc & -> & Ha & N)]; [done|].
    destruct (N Hb) as [-> D']. exists q, acc. do 3 (split; [done|]). exists 5%nat. split; [done|lia].
  - intros k p j D Hg. by destruct D.
  - intros k a k' Hg M. destruct k; try done. by inversion M.
  - intros k p j D ->. by inversion D.
  - intros k p j -> D. by eapply daemon_at_ready.
Qed.

(** At the top of its loop. *)
Definition daemon_start (mem : list byte) (w : world) : proc (list byte) := Running mem w tree.

Lemma daemon_start_at faults mem w : length mem = 16%nat -> daemon_at faults (daemon_start mem w) CWait 4.
Proof. by constructor. Qed.

(** ** Scheduling: on its own when it can, else it reads what there is *)

Definition daemon_next (td : list avery_pci_config_op) (dw : list byte) (k : proc (list byte)) :
    option (cact avery_pci_config_op avery_pci_config_op * proc (list byte)) :=
  match answer [1; dev; sock] k with
  | Some ch =>
      match pmove tree k ch, ch with
      | Some (Tau, k'), _ => Some (CQuiet, k')
      | Some (Out fd bs, k'), Accept _ =>
          if fd =? sock then Some (CSend bs, k')
          else if (fd =? dev) && (length bs =? 16)%nat then Some (CGive (of_bytes bs), k') else None
      | _, _ => None
      end
  | None =>
      match wants k with
      | Some (fd, len) =>
          if fd =? sock then
            match pmove tree k (Deliver (take len dw)) with
            | Some (_, k') => Some (CRecv (take len dw), k')
            | None => None
            end
          else match td with
          | op :: _ =>
              if fd =? dev then
                match pmove tree k (Deliver (to_bytes op)) with
                | Some (_, k') => Some (CTake op, k')
                | None => None
                end
              else None
          | [] => None
          end
      | None => None
      end
  end.

#[export] Instance daemon_runs faults : ClientRuns (daemon_client faults) daemon_next.
Proof.
  intros td dw k a k'. unfold daemon_next. cbn [cl_move daemon_client]. destruct (answer [1; dev; sock] k) as [ch|].
  - destruct (pmove tree k ch) as [[lab k1]|] eqn:E; [|done]. destruct lab as [| |fd bs|fd bs|m|m]; try done.
    + intros H. apply (inj Some), pair_eq in H as [<- <-]. split; [by eapply DmQuiet|done].
    + destruct ch as [| | |n]; try done. destruct (Z.eqb_spec fd sock) as [->|_].
      { intros H. apply (inj Some), pair_eq in H as [<- <-]. split; [by eapply DmSend|done]. }
      destruct (Z.eqb_spec fd dev) as [->|_], (Nat.eqb_spec (length bs) 16); try done.
      intros H. apply (inj Some), pair_eq in H as [<- <-]. split; [by eapply DmGive|done].
  - destruct (wants k) as [[fd len]|] eqn:W; [|done]. destruct (Z.eqb_spec fd sock) as [->|_].
    + destruct (pmove tree k (Deliver _)) as [[lab k1]|] eqn:E; [|done].
      intros H. apply (inj Some), pair_eq in H as [<- <-]. pose proof (deliver_label _ _ _ _ _ _ _ W E) as ->.
      split; [by eapply DmRecv|]. exists (drop len dw). by rewrite take_drop.
    + destruct td as [|op td]; [done|]. destruct (Z.eqb_spec fd dev) as [->|_]; [|done].
      destruct (pmove tree k (Deliver _)) as [[lab k1]|] eqn:E; [|done].
      intros H. apply (inj Some), pair_eq in H as [<- <-]. pose proof (deliver_label _ _ _ _ _ _ _ W E) as ->.
      split; [by eapply DmTake|by eexists].
Qed.

#[export] Instance daemon_rests : ClientRests (daemon_client false) reading.
Proof.
  intros k a k' Hk M. destruct M as [ch lab k k' H Hl|op k k' H|n bs k k' H|n bs k k' H|bs k k' H];
    pose proof (reading_gets _ _ _ _ _ Hk H) as N; try done. by destruct lab.
Qed.
End daemon.
