(* ===== verification/PipeServer.v ===== *)
(** * thin-server.c and doe-emu.c as a server

    The two programs, each a process that runs its own code (RelayCode.v), joined by the
    two named pipes, keep the promises of a server of Link.v: together they answer every
    access as the sequential relay does. What happens on the pipes is inside the server:
    one transaction of 344 bytes is under way at a time, on the request pipe or on the
    reply pipe. *)
From S2P Require Import Prelude Bytes CMonad Log Wire ByteIO Mailbox DoeEmu DoeSpec EmuSpec ThinServer.
From S2P Require Import IoTree RelayCode RelaySpec Link.

Section pipes.
(** The descriptors: client and pipes of the server, pipes of the emulator. *)
Variables (client treq trep ereq erep : Z).

(** ** Moves *)

Record pipes : Type := Pipes {
  p_t   : proc thin;
  p_req : list byte;      (* request_server_pipe *)
  p_rep : list byte;      (* reply_server_pipe *)
  p_e   : proc emu;
}.

Inductive pipe_moves (faults : bool) : pipes -> sact -> pipes -> Prop :=
| PmServer ch lab t' t rq rp e :
    pmove (server_tree client) t ch = Some (lab, t') -> silent faults lab = true ->
    pipe_moves faults (Pipes t rq rp e) SQuiet (Pipes t' rq rp e)
| PmRecv last bs t' t rq rp e :
    pmove (server_tree client) t (Deliver bs) = Some (In client bs, t') ->
    pipe_moves faults (Pipes t rq rp e) (SRecv last bs) (Pipes t' rq rp e)
| PmSend n bs t' t rq rp e :
    pmove (server_tree client) t (Accept n) = Some (Out client bs, t') ->
    pipe_moves faults (Pipes t rq rp e) (SSend bs) (Pipes t' rq rp e)
| PmWrite n bs t' t rq rp e :
    pmove (server_tree client) t (Accept n) = Some (Out treq bs, t') ->
    pipe_moves faults (Pipes t rq rp e) SQuiet (Pipes t' (rq ++ bs) rp e)
| PmRead bs t' t rq rp e :
    pmove (server_tree client) t (Deliver bs) = Some (In trep bs, t') ->
    pipe_moves faults (Pipes t rq (bs ++ rp) e) SQuiet (Pipes t' rq rp e)
| PmEmu ch lab e' t rq rp e :
    pmove emu_tree e ch = Some (lab, e') -> silent faults lab = true ->
    pipe_moves faults (Pipes t rq rp e) SQuiet (Pipes t rq rp e')
| PmEmuRead bs e' t rq rp e :
    pmove emu_tree e (Deliver bs) = Some (In ereq bs, e') ->
    pipe_moves faults (Pipes t (bs ++ rq) rp e) SQuiet (Pipes t rq rp e')
| PmEmuWrite n bs e' t rq rp e :
    pmove emu_tree e (Accept n) = Some (Out erep bs, e') ->
    pipe_moves faults (Pipes t rq rp e) SQuiet (Pipes t rq (rp ++ bs) e').

Definition pipe_server (faults : bool) : server pipes (device * Z) :=
  MkServer (pipe_moves faults) (fun s => p_t s = Crashed \/ p_e s = Crashed) spec_step.

(** ** Where each process is

    thin-server.c: sending the last answer, then receiving an access ([TUp]); or writing
    the transaction for [op], then reading its reply ([TDown]). *)
Inductive thin_pos : Type :=
| TUp (out acc : list byte)
| TDown (op : avery_pci_config_op) (out acc : list byte).

Section positions.
Variable faults : bool.

Inductive tsim : proc thin -> thin_pos -> Z -> nat -> Prop :=
| TsStopped tp sq : faults = true -> tsim Stopped tp sq 0
| TsFail n s w t tp sq : faults = true -> failing n t -> tsim (Running s w t) tp sq (S n)
| TsBoot env n s w t sq : w_env w = env -> booting faults env (fun g => g = Thin treq trep sq) n t s ->
    tsim (Running s w t) (TUp [] []) sq (1 + n)
| TsTop w sq : tsim (Running (Thin treq trep sq) w (Ret true)) (TUp [] []) sq 1
| TsRecv w sq fuel acc : (0 < 16 - length acc <= fuel)%nat ->
    tsim (Running (Thin treq trep sq) w
           (tbind (read_tree "recv" fuel (16 - length acc) client acc) (server_asked client)))
         (TUp [] acc) sq 0
| TsAsked w sq acc : length acc = 16%nat ->
    tsim (Running (Thin treq trep sq) w (server_asked client acc)) (TUp [] acc) sq 0
| TsWrite w sq fuel op out : op_ok op -> out <> [] -> (length out <= fuel)%nat ->
    tsim (Running (Thin treq trep sq) w
           (tbind (write_tree "write pipe" fuel treq out) (fun _ => server_wait client op trep)))
         (TDown op out []) sq 0
| TsRead w sq fuel op acc : op_ok op -> (0 < 344 - length acc <= fuel)%nat ->
    tsim (Running (Thin treq trep sq) w
           (tbind (read_tree "read pipe" fuel (344 - length acc) trep acc) (server_replied client op)))
         (TDown op [] acc) sq 0
| TsReplied w sq op acc : op_ok op -> length acc = 344%nat ->
    tsim (Running (Thin treq trep sq) w (server_replied client op acc)) (TDown op [] acc) sq 0
| TsSend w sq fuel out : out <> [] -> (length out <= fuel)%nat ->
    tsim (Running (Thin treq trep sq) w (tbind (write_tree "send" fuel client out) (fun _ => Ret true)))
         (TUp out []) sq 0.

(** doe-emu.c, with globals [g]: writing the last reply, then reading a transaction. *)
Inductive esim : proc emu -> emu -> list byte -> list byte -> nat -> Prop :=
| EsStopped g eo ea : faults = true -> esim Stopped g eo ea 0
| EsFail n s w t g eo ea : faults = true -> failing n t -> esim (Running s w t) g eo ea (S n)
| EsBoot env n s w t g : req_fd g = ereq -> rep_fd g = erep -> w_env w = env ->
    booting faults env (fun g' => g' = g) n t s -> esim (Running s w t) g [] [] (2 + n)
| EsTop g w : req_fd g = ereq -> rep_fd g = erep -> esim (Running g w (Ret true)) g [] [] 2
| EsLoop g w : req_fd g = ereq -> rep_fd g = erep -> esim (Running g w emu_tree) g [] [] 1
| EsRead g w fuel acc : req_fd g = ereq -> rep_fd g = erep -> (0 < 344 - length acc <= fuel)%nat ->
    esim (Running g w (tbind (read_tree "read" fuel (344 - length acc) ereq acc) emu_asked)) g [] acc 0
| EsAsked g w acc : req_fd g = ereq -> rep_fd g = erep -> length acc = 344%nat ->
    esim (Running g w (emu_asked acc)) g [] acc 0
| EsWrite g w fuel out : req_fd g = ereq -> rep_fd g = erep -> out <> [] -> (length out <= fuel)%nat ->
    esim (Running g w (tbind (write_tree "write" fuel erep out) (fun _ => Ret true))) g out [] 0.

(** ** The moves of each process *)

Definition tmoved (tp : thin_pos) (sq : Z) (j : nat) (lab : label) (t' : proc thin) : Prop :=
  match lab with
  | Tau =>
      (exists j', tsim t' tp sq j' /\ (j' < j)%nat) \/
      (exists acc, tp = TUp [] acc /\ length acc = 16%nat /\
         tsim t' (TDown (of_bytes acc) (to_bytes (serve_request (wrap32 (sq + 1)) (of_bytes acc))) [])
              (wrap32 (sq + 1)) 0) \/
      (exists op acc, tp = TDown op [] acc /\ length acc = 344%nat /\
         tsim t' (TUp (to_bytes (serve_reply op (of_bytes acc))) []) sq 0)
  | Fail => faults = true -> exists j', tsim t' tp sq j'
  | In fd bs =>
      (fd = client /\ exists acc, tp = TUp [] acc /\ (0 < length bs <= 16 - length acc)%nat /\
         tsim t' (TUp [] (acc ++ bs)) sq 0) \/
      (fd = trep /\ exists op acc, tp = TDown op [] acc /\ (0 < length bs <= 344 - length acc)%nat /\
         tsim t' (TDown op [] (acc ++ bs)) sq 0)
  | Out fd bs =>
      (fd = treq /\ exists op out n, tp = TDown op out [] /\ (0 < n <= length out)%nat /\ bs = take n out /\
         tsim t' (TDown op (drop n out) []) sq 0) \/
      (fd = client /\ exists out n, tp = TUp out [] /\ (0 < n <= length out)%nat /\ bs = take n out /\
         exists j', tsim t' (TUp (drop n out) []) sq j' /\ (j' <= 1)%nat)
  | InMsg _ | OutMsg _ => False
  end.

Lemma tsim_received w sq fuel acc :
  (length acc <= 16)%nat -> (16 - length acc <= fuel)%nat ->
  tsim (Running (Thin treq trep sq) w
         (tbind (read_tree "recv" fuel (16 - length acc) client acc) (server_asked client))) (TUp [] acc) sq 0.
Proof.
  intros Ha Hf. destruct (decide (length acc = 16%nat)) as [E|E]; [|apply TsRecv; lia].
  rewrite E, Nat.sub_diag. replace (tbind _ _) with (server_asked client acc) by (by destruct fuel).
  by constructor.
Qed.

Lemma tsim_replied w sq fuel op acc :
  op_ok op -> (length acc <= 344)%nat -> (344 - length acc <= fuel)%nat ->
  tsim (Running (Thin treq trep sq) w
         (tbind (read_tree "read pipe" fuel (344 - length acc) trep acc) (server_replied client op)))
       (TDown op [] acc) sq 0.
Proof.
  intros Hop Ha Hf. destruct (decide (length acc = 344%nat)) as [E|E]; [|apply TsRead; [done|lia]].
  rewrite E, Nat.sub_diag. replace (tbind _ _) with (server_replied client op acc) by (by destruct fuel).
  by constructor.
Qed.

Lemma tsim_forwarded w sq fuel op out :
  op_ok op -> (length out <= fuel)%nat ->
  tsim (Running (Thin treq trep sq) w
         (tbind (write_tree "write pipe" fuel treq out) (fun _ => server_wait client op trep)))
       (TDown op out []) sq 0.
Proof.
  intros Hop Hf. destruct out as [|b out]; [|by constructor].
  replace (tbind _ _) with (server_wait client op trep) by (by destruct fuel).
  apply (tsim_replied _ _ 344 op []); [done|cbn; lia..].
Qed.

Lemma tsim_answered w sq fuel out :
  (length out <= fuel)%nat ->
  exists j, tsim (Running (Thin treq trep sq) w (tbind (write_tree "send" fuel client out) (fun _ => Ret true)))
                 (TUp out []) sq j /\ (j <= 1)%nat.
Proof.
  intros Hf. destruct out as [|b out]; [|exists 0%nat; split; [by constructor|lia]].
  replace (tbind _ _) with (Ret (S := thin) true) by (by destruct fuel).
  exists 1%nat. split; [by constructor|done].
Qed.

Lemma tsim_move t tp sq j ch lab t' :
  tsim t tp sq j -> pmove (server_tree client) t ch = Some (lab, t') -> tmoved tp sq j lab t'.
Proof.
  intros D H. destruct D as [tp sq F|n s w t tp sq F Hf|env n s w t sq Hw Hb|w sq|w sq fuel acc Hf|w sq acc Ha
    |w sq fuel op out Hop Ho Hf|w sq fuel op acc Hop Hf|w sq op acc Hop Ha|w sq fuel out Ho Hf].
  - done.
  - destruct (failing_sim _ _ _ _ _ _ _ _ (fun t j => tsim t tp sq j) Hf H) as [-> N]; [by constructor..|by left].
  - destruct (booting_sim _ _ _ _ _ _ _ _ _ _ _ (fun t j => tsim t (TUp [] []) sq j) 0 Hw Hb H) as [[-> N]|[-> N]];
      [intros ->; apply (tsim_received _ _ 16 []); cbn; lia|by constructor|by intros; eapply TsBoot|by left|exact N].
  - destruct ch; try done. injection H as <- <-. left. exists 0%nat. split; [|lia].
    apply (tsim_received _ _ 16 []); cbn; lia.
  - destruct (receiving_move _ _ _ _ _ _ _ _ _ _ _ _ Hf H) as [(-> & t & -> & Ht)|(bs & Hn & -> & -> & ->)].
    + intros F. exists 2%nat. by constructor.
    + left. split; [done|]. exists acc. do 2 (split; [done|]).
      replace (16 - length acc - length bs)%nat with (16 - length (acc ++ bs))%nat by (rewrite length_app; lia).
      apply tsim_received; rewrite length_app; lia.
  - destruct ch; try done. cbn -[of_bytes to_bytes serve_request server_forward] in H. injection H as <- <-.
    right; left. exists acc. do 2 (split; [done|]). unfold server_forward. cbn [t_seq t_req_fd t_rep_fd set_t_seq].
    apply tsim_forwarded; [by apply (of_bytes_ok (CStructLaws := op_laws))|done].
  - destruct (sending_move _ _ _ _ _ _ _ _ _ _ _ Ho Hf H) as [(-> & t & -> & Ht)|(n & Hn & -> & ->)].
    + intros F. exists 2%nat. by constructor.
    + left. split; [done|]. exists op, out, n. do 3 (split; [done|]).
      apply tsim_forwarded; [done|rewrite length_drop; lia].
  - destruct (receiving_move _ _ _ _ _ _ _ _ _ _ _ _ Hf H) as [(-> & t & -> & Ht)|(bs & Hn & -> & -> & ->)].
    + intros F. exists 2%nat. by constructor.
    + right. split; [done|]. exists op, acc. do 2 (split; [done|]).
      replace (344 - length acc - length bs)%nat with (344 - length (acc ++ bs))%nat by (rewrite length_app; lia).
      apply tsim_replied; rewrite ?length_app; [done|lia..].
  - destruct ch; try done. cbn -[of_bytes to_bytes serve_reply server_answer] in H. injection H as <- <-.
    right; right. exists op, acc. do 2 (split; [done|]).
    pose proof (of_bytes_ok (CStructLaws := simics_laws) acc Ha) as Hr.
    pose proof (length_to_bytes (CStructLaws := op_laws) _ (serve_reply_ok op _ Hop Hr)) as Hl.
    apply TsSend; [by intros E; rewrite E in Hl|done].
  - destruct (sending_move _ _ _ _ _ _ _ _ _ _ _ Ho Hf H) as [(-> & t & -> & Ht)|(n & Hn & -> & ->)].
    + intros F. exists 2%nat. by constructor.
    + right. split; [done|]. exists out, n. do 3 (split; [done|]).
      apply tsim_answered. rewrite length_drop. lia.
Qed.

Definition emoved (g : emu) (eo ea : list byte) (j : nat) (lab : label) (e' : proc emu) : Prop :=
  match lab with
  | Tau =>
      (exists j', esim e' g eo ea j' /\ (j' < j)%nat) \/
      (exists g' out, eo = [] /\ length ea = 344%nat /\ doe_ok (doe g') /\
         simics_ok (snd (dev_step (abse g) (of_bytes ea))) /\ abse g' = fst (dev_step (abse g) (of_bytes ea)) /\
         out = to_bytes (snd (dev_step (abse g) (of_bytes ea))) /\ esim e' g' out [] 0)
  | Fail => faults = true -> exists j', esim e' g eo ea j'
  | In fd bs => fd = ereq /\ eo = [] /\ (0 < length bs <= 344 - length ea)%nat /\ esim e' g [] (ea ++ bs) 0
  | Out fd bs => fd = erep /\ exists n, (0 < n <= length eo)%nat /\ bs = take n eo /\
      exists j', esim e' g (drop n eo) ea j' /\ (j' <= 2)%nat
  | InMsg _ | OutMsg _ => False
  end.

(** The computation of the emulator on a whole transaction, in any world. *)
Lemma handle_local_answer g t w :
  doe_ok (doe g) -> simics_ok t -> quit_bit t = false ->
  exists g' w' rsp, handle_local t g w = Ok (Some (rep_fd g, rsp)) g' w' /\ simics_ok rsp /\
    same_fds g g' /\ doe_ok (doe g') /\ (abse g', rsp) = dev_step (abse g) t.
Proof.
  intros Hok Ht Hq. pose proof (handle_local_spec g w t Hok Ht) as H. rewrite Hq in H. unfold wp in H.
  destruct (handle_local t g w) as [o g' w'| | |] eqn:E; try done.
  destruct H as (_ & rsp & -> & Hok' & Hfd & Hr & Ed). by exists g', w', rsp.
Qed.

Lemma esim_received g w fuel acc :
  req_fd g = ereq -> rep_fd g = erep -> (length acc <= 344)%nat -> (344 - length acc <= fuel)%nat ->
  esim (Running g w (tbind (read_tree "read" fuel (344 - length acc) ereq acc) emu_asked)) g [] acc 0.
Proof.
  intros H1 H2 Ha Hf. destruct (decide (length acc = 344%nat)) as [E|E]; [|apply EsRead; [done..|lia]].
  rewrite E, Nat.sub_diag. replace (tbind _ _) with (emu_asked acc) by (by destruct fuel). by constructor.
Qed.

Lemma esim_replied g w fuel out :
  req_fd g = ereq -> rep_fd g = erep -> (length out <= fuel)%nat ->
  exists j, esim (Running g w (tbind (write_tree "write" fuel erep out) (fun _ => Ret true))) g out [] j /\ (j <= 2)%nat.
Proof.
  intros H1 H2 Hf. destruct out as [|b out]; [|exists 0%nat; split; [by constructor|lia]].
  replace (tbind _ _) with (Ret (S := emu) true) by (by destruct fuel).
  exists 2%nat. split; [by constructor|done].
Qed.

Lemma esim_move e g eo ea j ch lab e' :
  doe_ok (doe g) -> (length ea = 344%nat -> quit_bit (of_bytes ea) = false) ->
  esim e g eo ea j -> pmove emu_tree e ch = Some (lab, e') -> emoved g eo ea j lab e'.
Proof.
  intros Hok Hq D H. destruct D as [g eo ea F|n s w t g eo ea F Hf|env n s w t g H1 H2 Hw Hb|g w H1 H2|g w H1 H2|g w fuel acc H1 H2 Hf
    |g w acc H1 H2 Ha|g w fuel out H1 H2 Ho Hf].
  - done.
  - destruct (failing_sim _ _ _ _ _ _ _ _ (fun e j => esim e g eo ea j) Hf H) as [-> N]; [by constructor..|by left].
  - destruct (booting_sim _ _ _ _ _ _ _ _ _ _ _ (fun e j => esim e g [] [] j) 1 Hw Hb H) as [[-> N]|[-> N]];
      [intros ->; by constructor|by constructor|by intros; eapply EsBoot|by left|exact N].
  - destruct ch; try done. injection H as <- <-. left. exists 1%nat. split; [by constructor|lia].
  - destruct ch; try done. cbn -[emu_wait] in H. injection H as <- <-. left. exists 0%nat. split; [|lia].
    unfold emu_wait. rewrite H1. apply (esim_received g w 344 []); [done..|cbn; lia|cbn; lia].
  - destruct (receiving_move _ _ _ _ _ _ _ _ _ _ _ _ Hf H) as [(-> & t & -> & Ht)|(bs & Hn & -> & -> & ->)].
    + intros F. exists 2%nat. by constructor.
    + do 3 (split; [done|]).
      replace (344 - length acc - length bs)%nat with (344 - length (acc ++ bs))%nat by (rewrite length_app; lia).
      apply esim_received; rewrite ?length_app; [done..|lia|lia].
  - destruct ch; try done. pose proof (of_bytes_ok (CStructLaws := simics_laws) acc Ha) as Ht.
    destruct (handle_local_answer g (of_bytes acc) w Hok Ht (Hq Ha)) as (g' & w' & rsp & E & Hr & [F1 F2] & Hok' & Ed).
    unfold emu_asked in H. cbn [pmove] in H. rewrite E in H.
    apply (inj Some), pair_eq in H as [<- <-].
    right. exists g', (to_bytes rsp). rewrite <- Ed. do 6 (split; [done|]). unfold emu_reply. rewrite H2.
    pose proof (length_to_bytes (CStructLaws := simics_laws) _ Hr) as Hl.
    apply EsWrite; [congruence|congruence|by intros E0; rewrite E0 in Hl|done].
  - destruct (sending_move _ _ _ _ _ _ _ _ _ _ _ Ho Hf H) as [(-> & t & -> & Ht)|(n & Hn & -> & ->)].
    + intros F. exists 2%nat. by constructor.
    + split; [done|]. exists n. do 2 (split; [done|]). apply esim_replied; [done..|rewrite length_drop; lia].
Qed.

End positions.

Lemma tsim_ready t tp sq j :
  tsim false t tp sq j ->
  (exists ch lab t', pmove (server_tree client) t ch = Some (lab, t') /\
     (lab = Tau \/ exists fd bs n, lab = Out fd bs /\ ch = Accept n /\ (fd = treq \/ fd = client))) \/
  (exists acc, tp = TUp [] acc /\ (length acc < 16)%nat /\
     forall bs, (0 < length bs <= 16 - length acc)%nat ->
       exists t', pmove (server_tree client) t (Deliver bs) = Some (In client bs, t')) \/
  (exists op acc, tp = TDown op [] acc /\ (length acc < 344)%nat /\
     forall bs, (0 < length bs <= 344 - length acc)%nat ->
       exists t', pmove (server_tree client) t (Deliver bs) = Some (In trep bs, t')).
Proof.
  intros D. destruct D as [tp sq F|n s w t tp sq F Hf|env n s w t sq Hw Hb|w sq|w sq fuel acc Hf|w sq acc Ha
    |w sq fuel op out Hop Ho Hf|w sq fuel op acc Hop Hf|w sq op acc Hop Ha|w sq fuel out Ho Hf]; try done.
  - left. destruct (booting_ready (server_tree client) _ _ _ _ _ _ Hw Hb) as (ch & t' & Hp). do 3 eexists. split; [exact Hp|]. by left.
  - left. exists Go. do 2 eexists. split; [reflexivity|]. by left.
  - right; left. exists acc. split; [done|]. split; [lia|]. intros bs Hb. apply receiving_can; lia.
  - left. exists Go. do 2 eexists. split; [reflexivity|]. by left.
  - left. destruct (sending_can (server_tree client) (Thin treq trep sq) w "write pipe" fuel treq out
      (server_wait client op trep) Ho Hf) as [p Hp].
    do 3 eexists. split; [exact Hp|]. right. eauto 10.
  - right; right. exists op, acc. split; [done|]. split; [lia|]. intros bs Hb. apply receiving_can; lia.
  - left. exists Go. do 2 eexists. split; [reflexivity|]. by left.
  - left. destruct (sending_can (server_tree client) (Thin treq trep sq) w "send" fuel client out (Ret true) Ho Hf) as [p Hp].
    do 3 eexists. split; [exact Hp|]. right. eauto 10.
Qed.

Lemma esim_ready e g eo ea j :
  esim false e g eo ea j -> doe_ok (doe g) ->
  (exists ch lab e', pmove emu_tree e ch = Some (lab, e') /\
     (lab = Tau \/ exists bs n, lab = Out erep bs /\ ch = Accept n)) \/
  (eo = [] /\ (length ea < 344)%nat /\
     forall bs, (0 < length bs <= 344 - length ea)%nat ->
       exists e', pmove emu_tree e (Deliver bs) = Some (In ereq bs, e')).
Proof.
  intros D Hok. destruct D as [g eo ea F|n s w t g eo ea F Hf|env n s w t g H1 H2 Hw Hb|g w H1 H2|g w H1 H2|g w fuel acc H1 H2 Hf
    |g w acc H1 H2 Ha|g w fuel out H1 H2 Ho Hf]; try done.
  - left. destruct (booting_ready emu_tree _ _ _ _ _ _ Hw Hb) as (ch & e' & Hp). do 3 eexists. split; [exact Hp|]. by left.
  - left. exists Go. do 2 eexists. split; [reflexivity|]. by left.
  - left. exists Go. do 2 eexists. split; [reflexivity|]. by left.
  - right. split; [done|]. split; [lia|]. intros bs Hb. apply receiving_can; lia.
  - left. exists Go. unfold emu_asked. cbn [pmove].
    destruct (handle_local _ g w); do 2 eexists; (split; [reflexivity|]); by left.
  - left. destruct (sending_can emu_tree g w "write" fuel erep out (Ret true) Ho Hf) as [p Hp].
    do 3 eexists. split; [exact Hp|]. right. eauto.
Qed.

(** ** The two together

    [PaUp]: between two transactions; [PaReq]: a transaction is on its way to the emulator;
    [PaRep]: its reply is on its way back. The 344 bytes of either take 688 transfers at
    most, and the processes five moves between two of these. *)

Section together.
Variable faults : bool.

Inductive pipe_at : pipes -> device * Z -> list byte -> list byte -> nat -> Prop :=
| PaUp t e out acc sq g jt je :
    tsim faults t (TUp out acc) sq jt -> esim faults e g [] [] je -> u32 sq -> doe_ok (doe g) ->
    pipe_at (Pipes t [] [] e) (abse g, sq) out acc
            ((if decide (length acc = 16%nat) then 6 * 1378 else 0) + jt + je)
| PaReq t e out rq ea acc sq g jt je :
    length acc = 16%nat -> doe_ok (doe g) ->
    tsim faults t (TDown (of_bytes acc) out []) (wrap32 (sq + 1)) jt -> esim faults e g [] ea je ->
    ea ++ rq ++ out = to_bytes (serve_request (wrap32 (sq + 1)) (of_bytes acc)) ->
    pipe_at (Pipes t rq [] e) (abse g, sq) [] acc (6 * (left out rq + 689) + jt + je)
| PaRep t e out rp ta acc sq g d r jt je :
    length acc = 16%nat -> doe_ok (doe g) -> simics_ok r ->
    tsim faults t (TDown (of_bytes acc) [] ta) (wrap32 (sq + 1)) jt -> esim faults e g out [] je ->
    ta ++ rp ++ out = to_bytes r -> dev_step d (serve_request (wrap32 (sq + 1)) (of_bytes acc)) = (abse g, r) ->
    pipe_at (Pipes t [] rp e) (d, sq) [] acc (6 * left out rp + jt + je).

Hypotheses (client_treq : client <> treq) (client_trep : client <> trep).

(** The move that was made as [M], and where it leads the process as [N]. *)
Ltac pcases St Hok Hq T E :=
  inversion St as [ch lab t' ? ? ? ? M Hl| | |n bs t' ? ? ? ? M|bs t' ? ? rp' ? M|ch lab e' ? ? ? ? M Hl
    |bs e' ? rq' ? ? M|n bs e' ? ? ? ? M]; subst; clear St;
  [pose proof (tsim_move _ _ _ _ _ _ _ _ T M) as N; destruct lab; try done; cbn in Hl
  |pose proof (tsim_move _ _ _ _ _ _ _ _ T M) as N
  |pose proof (tsim_move _ _ _ _ _ _ _ _ T M) as N
  |pose proof (esim_move _ _ _ _ _ _ _ _ _ Hok Hq E M) as N; destruct lab; try done; cbn in Hl
  |pose proof (esim_move _ _ _ _ _ _ _ _ _ Hok Hq E M) as N
  |pose proof (esim_move _ _ _ _ _ _ _ _ _ Hok Hq E M) as N];
  try match goal with H : _ ++ _ = [] |- _ => apply app_eq_nil in H as [-> ->] end.

Definition pipe_next (s' : pipes) (d : device * Z) (out acc : list byte) (j : nat) : Prop :=
  (exists j', pipe_at s' d out acc j' /\ (faults = false -> (j' < j)%nat)) \/
  (out = [] /\ length acc = 16%nat /\
   exists d' a, spec_step d (of_bytes acc) = (d', a) /\ op_ok a /\
     exists j', pipe_at s' d' (to_bytes a) [] j' /\ (j' <= j + 5)%nat).

Lemma access_ok_bytes acc : length acc = 16%nat -> op_ok (of_bytes acc).
Proof. apply (of_bytes_ok (CStructLaws := op_laws)). Qed.

Lemma transaction_length t : simics_ok t -> length (to_bytes t) = 344%nat.
Proof. apply (length_to_bytes (CStructLaws := simics_laws)). Qed.

Lemma pipe_up t e out acc sq g jt je s' :
  tsim faults t (TUp out acc) sq jt -> esim faults e g [] [] je -> u32 sq -> doe_ok (doe g) ->
  pipe_moves faults (Pipes t [] [] e) SQuiet s' ->
  pipe_next s' (abse g, sq) out acc ((if decide (length acc = 16%nat) then 6 * 1378 else 0) + jt + je).
Proof.
  intros T E Hsq Hok St. assert (length (@nil byte) = 344%nat -> quit_bit (of_bytes []) = false) as Hq by done.
  left. pcases St Hok Hq T E.
  - destruct N as [(j' & T' & Hj)|[(acc' & [= -> <-] & Ha & T')|(? & ? & ? & _)]]; [|clear T|done].
    + eexists. split; [by apply PaUp|lia].
    + eexists. split; [by eapply (PaReq t' e _ [] [])|]. intros _.
      rewrite decide_True by done. unfold left. rewrite transaction_length; [cbn [length]; lia|].
      apply serve_request_ok; [apply wrap32_u32|by apply access_ok_bytes].
  - destruct (N Hl) as (j' & T'). eexists. split; [by apply PaUp|congruence].
  - by destruct N as [(_ & ? & ? & ? & ? & _)|(? & _)].
  - by destruct N as [(? & _)|(_ & ? & ? & ? & _)].
  - destruct N as [(j' & E' & Hj)|(? & ? & _ & ? & _)]; [|done]. eexists. split; [by apply PaUp|lia].
  - destruct (N Hl) as (j' & E'). eexists. split; [by apply PaUp|congruence].
  - destruct N as (_ & _ & Hb & _). cbn in Hb. lia.
  - destruct N as (_ & n' & Hn & _). cbn in Hn. lia.
Qed.

Lemma pipe_req t e out rq ea acc sq g jt je s' :
  length acc = 16%nat -> doe_ok (doe g) ->
  tsim faults t (TDown (of_bytes acc) out []) (wrap32 (sq + 1)) jt -> esim faults e g [] ea je ->
  ea ++ rq ++ out = to_bytes (serve_request (wrap32 (sq + 1)) (of_bytes acc)) ->
  pipe_moves faults (Pipes t rq [] e) SQuiet s' ->
  pipe_next s' (abse g, sq) [] acc (6 * (left out rq + 689) + jt + je).
Proof.
  intros Ha Hok T E Hm St.
  assert (simics_ok (serve_request (wrap32 (sq + 1)) (of_bytes acc))) as Ht
    by (apply serve_request_ok; [apply wrap32_u32|by apply access_ok_bytes]).
  assert (length ea = 344%nat -> quit_bit (of_bytes ea) = false) as Hq.
  { intros Hl. destruct (hop_done (H := simics_struct) _ _ _ _ Ht Hm Hl) as (-> & _). by rewrite of_to_bytes by exact Ht. }
  left. pcases St Hok Hq T E.
  - destruct N as [(j' & T' & Hj)|[(? & ? & _)|(? & ? & [= ? -> <-] & ? & _)]]; [|done..].
    eexists. split; [by eapply PaReq|lia].
  - destruct (N Hl) as (j' & T'). eexists. split; [by eapply PaReq|congruence].
  - destruct N as [(_ & ? & ? & n' & [= <- <-] & Hn & -> & T')|(? & _)]; [|done].
    destruct (hop_send _ _ _ _ _ Hn Hm) as [Hm' Hlt]. eexists. split; [by eapply PaReq|lia].
  - destruct N as [(? & _)|(_ & ? & ? & [= _ _ <-] & Hb & _)]; [done|]. cbn in Hb. lia.
  - destruct N as [(j' & E' & Hj)|(g' & eo & _ & Hl' & Hok' & Hr & Hg & -> & E')].
    + eexists. split; [by eapply PaReq|lia].
    + destruct (hop_done (H := simics_struct) _ _ _ _ Ht Hm Hl') as (-> & -> & ->).
      rewrite of_to_bytes in * by exact Ht. eexists. split.
      * eapply (PaRep t e' _ [] []); [done|exact Hok'|exact Hr|done|exact E'|done|]. by rewrite Hg, <- surjective_pairing.
      * intros _. unfold left. rewrite transaction_length by done. cbn [length]. lia.
  - destruct (N Hl) as (j' & E'). eexists. split; [by eapply PaReq|congruence].
  - destruct N as (_ & _ & Hb & E').
    destruct (hop_recv _ _ _ _ _ (proj1 Hb) Hm) as [Hm' Hlt]. eexists. split; [by eapply PaReq|lia].
  - destruct N as (_ & n' & Hn & _). cbn in Hn. lia.
Qed.

Lemma pipe_rep t e out rp ta acc sq g d r jt je s' :
  length acc = 16%nat -> doe_ok (doe g) -> simics_ok r ->
  tsim faults t (TDown (of_bytes acc) [] ta) (wrap32 (sq + 1)) jt -> esim faults e g out [] je ->
  ta ++ rp ++ out = to_bytes r -> dev_step d (serve_request (wrap32 (sq + 1)) (of_bytes acc)) = (abse g, r) ->
  pipe_moves faults (Pipes t [] rp e) SQuiet s' ->
  pipe_next s' (d, sq) [] acc (6 * left out rp + jt + je).
Proof.
  intros Ha Hok Hr T E Hm Hd St. assert (length (@nil byte) = 344%nat -> quit_bit (of_bytes []) = false) as Hq by done.
  pcases St Hok Hq T E.
  - destruct N as [(j' & T' & Hj)|[(? & ? & _)|(? & ? & [= <- <-] & Hl' & T')]]; [|done|].
    + left. eexists. split; [by eapply PaRep|lia].
    + right. do 2 (split; [done|]). destruct (hop_done (H := simics_struct) _ _ _ _ Hr Hm Hl') as (-> & -> & ->).
      rewrite of_to_bytes in T' by exact Hr. exists (abse g, wrap32 (sq + 1)), (serve_reply (of_bytes acc) r).
      split; [unfold spec_step; cbn [fst snd]; by rewrite Hd|].
      split; [apply serve_reply_ok; [by apply access_ok_bytes|done]|].
      eexists. split; [apply PaUp; [exact T'|exact E|apply wrap32_u32|done]|].
      rewrite decide_False by done. lia.
  - left. destruct (N Hl) as (j' & T'). eexists. split; [by eapply PaRep|congruence].
  - destruct N as [(_ & ? & ? & n' & [= _ <-] & Hn & _)|(? & _)]; [|done]. cbn in Hn. lia.
  - destruct N as [(? & _)|(_ & ? & ? & [= <- <-] & Hb & T')]; [done|].
    destruct (hop_recv _ _ _ _ _ (proj1 Hb) Hm) as [Hm' Hlt]. left. eexists. split; [by eapply PaRep|lia].
  - destruct N as [(j' & E' & Hj)|(? & ? & _ & ? & _)]; [|done]. left. eexists. split; [by eapply PaRep|lia].
  - left. destruct (N Hl) as (j' & E'). eexists. split; [by eapply PaRep|congruence].
  - destruct N as (_ & _ & Hb & _). cbn in Hb. lia.
  - destruct N as (_ & n' & Hn & -> & j' & E' & Hj).
    destruct (hop_send _ _ _ _ _ Hn Hm) as [Hm' Hlt]. left. eexists. split; [by eapply PaRep|lia].
Qed.

Lemma pipe_quiet s d out acc j s' :
  pipe_at s d out acc j -> pipe_moves faults s SQuiet s' -> pipe_next s' d out acc j.
Proof. intros [] St; [by eapply pipe_up|by eapply pipe_req|by eapply pipe_rep]. Qed.

(** Accesses come in and answers go out only between two transactions. *)
Lemma pipe_recv s d out acc j last bs s' :
  pipe_at s d out acc j -> pipe_moves faults s (SRecv last bs) s' ->
  out = [] /\ (0 < length bs)%nat /\
  exists j', pipe_at s' d [] (acc ++ bs) j' /\
    (j' <= j + (if decide (length (acc ++ bs) = 16%nat) then 6 * 1378 else 5))%nat.
Proof.
  intros P St. inversion St as [|? ? t' ? ? ? ? M| | | | | |]; subst; clear St.
  inversion P as [? ? ? ? sq g jt je T E Hsq Hok|? ? ? ? ? ? ? ? ? ? Ha Hok T|? ? ? ? ? ? ? ? ? ? ? ? Ha Hok Hr T]; subst;
    destruct (tsim_move _ _ _ _ _ _ _ _ T M) as [(_ & acc' & Ep & Hb & T')|(? & _)]; try done.
  injection Ep as -> <-. split; [done|]. split; [lia|]. eexists. split; [by apply PaUp|].
  rewrite length_app. repeat destruct (decide _); lia.
Qed.

Lemma pipe_send s d out acc j bs s' :
  pipe_at s d out acc j -> pipe_moves faults s (SSend bs) s' ->
  acc = [] /\ exists n, (0 < n <= length out)%nat /\ bs = take n out /\
    exists j', pipe_at s' d (drop n out) [] j' /\ (j' <= j + 5)%nat.
Proof.
  intros P St. inversion St as [| |? ? t' ? ? ? ? M| | | | |]; subst; clear St.
  inversion P as [? ? ? ? sq g jt je T E Hsq Hok|? ? ? ? ? ? ? ? ? ? Ha Hok T|? ? ? ? ? ? ? ? ? ? ? ? Ha Hok Hr T]; subst;
    destruct (tsim_move _ _ _ _ _ _ _ _ T M) as [(? & _)|(_ & out' & n' & Ep & Hn & -> & j' & T' & Hj)]; try done.
  injection Ep as <- ->. split; [done|]. exists n'. do 2 (split; [done|]). eexists. split; [by apply PaUp|].
  rewrite !decide_False by done. lia.
Qed.

(** One transaction at most is on the pipes, in one direction, and none while the server
    sends an answer or receives an access. *)
Lemma pipe_at_bounds s d out acc j :
  pipe_at s d out acc j ->
  (length (p_req s) + length (p_rep s) <= 344)%nat /\ (p_req s = [] \/ p_rep s = []) /\
  ((length acc < 16)%nat -> p_req s = [] /\ p_rep s = []).
Proof.
  intros [t e ? ? sq g jt je _ _ _ _|t e ot rq ea ac sq g jt je Ha _ _ _ Hm|t e ot rp ta ac sq g d0 r jt je Ha _ Hr _ _ Hm _];
    cbn [p_req p_rep].
  - split; [cbn; lia|]. split; [by left|done].
  - assert (simics_ok (serve_request (wrap32 (sq + 1)) (of_bytes ac))) as Hok
      by (apply serve_request_ok; [apply wrap32_u32|by apply access_ok_bytes]).
    pose proof (hop_length (H := simics_struct) _ _ _ _ Hok Hm) as Hl. change (sizeof simics_transaction_t) with 344%nat in Hl.
    split; [cbn; lia|]. split; [by right|lia].
  - pose proof (hop_length (H := simics_struct) _ _ _ _ Hr Hm) as Hl. change (sizeof simics_transaction_t) with 344%nat in Hl.
    split; [cbn; lia|]. split; [by left|lia].
Qed.

Definition pipe_any (s : pipes) : Prop := exists d out acc j, pipe_at s d out acc j.

Lemma pipe_any_move s a s' : pipe_any s -> pipe_moves faults s a s' -> pipe_any s'.
Proof.
  intros (d & out & acc & j & P) M. destruct a as [|last bs|bs].
  - destruct (pipe_quiet _ _ _ _ _ _ P M) as [(j' & P' & _)|(_ & _ & d' & a & _ & _ & j' & P' & _)]; by do 4 eexists.
  - destruct (pipe_recv _ _ _ _ _ _ _ _ P M) as (_ & _ & j' & P' & _). by do 4 eexists.
  - destruct (pipe_send _ _ _ _ _ _ _ P M) as (_ & n & _ & _ & j' & P' & _). by do 4 eexists.
Qed.
End together.

(** A message that has not wholly arrived is in its channel. *)
Lemma hop_rest acc chan (t : simics_transaction_t) :
  simics_ok t -> acc ++ chan ++ [] = to_bytes t -> (length acc < 344)%nat ->
  (0 < length chan <= 344 - length acc)%nat.
Proof.
  intros Ht E Hl. pose proof (hop_length (H := simics_struct) acc chan [] t Ht E) as Hlen.
  change (sizeof simics_transaction_t) with 344%nat in Hlen. cbn in Hlen. lia.
Qed.

Lemma pipe_ready s d out acc j :
  pipe_at false s d out acc j ->
  (exists s', pipe_moves false s SQuiet s') \/ (exists bs s', pipe_moves false s (SSend bs) s') \/
  (out = [] /\ (length acc < 16)%nat /\
   forall last bs, length (acc ++ bs) = 16%nat -> exists s', pipe_moves false s (SRecv last bs) s').
Proof.
  assert (forall t rq rp e tp sq j, tsim false t tp sq j ->
    (exists s', pipe_moves false (Pipes t rq rp e) SQuiet s') \/
    (exists bs s', pipe_moves false (Pipes t rq rp e) (SSend bs) s') \/
    (exists acc, tp = TUp [] acc /\ (length acc < 16)%nat /\
       forall bs, (0 < length bs <= 16 - length acc)%nat ->
       exists t', pmove (server_tree client) t (Deliver bs) = Some (In client bs, t')) \/
    (exists op acc, tp = TDown op [] acc /\ (length acc < 344)%nat /\
       forall bs, (0 < length bs <= 344 - length acc)%nat ->
       exists t', pmove (server_tree client) t (Deliver bs) = Some (In trep bs, t'))) as Thin.
  { intros t rq rp e tp sq jt T.
    destruct (tsim_ready _ _ _ _ T) as [(ch & lab & t' & Hp & [->|(fd & bs & n & -> & -> & [->| ->])])|HT]; [..|auto].
    - left. eexists. by eapply PmServer.
    - left. eexists. by eapply PmWrite.
    - right; left. do 2 eexists. by eapply PmSend. }
  assert (forall t rq rp e g eo ea j, esim false e g eo ea j -> doe_ok (doe g) ->
    (exists s', pipe_moves false (Pipes t rq rp e) SQuiet s') \/
    (eo = [] /\ (length ea < 344)%nat /\
     forall bs, (0 < length bs <= 344 - length ea)%nat ->
       exists e', pmove emu_tree e (Deliver bs) = Some (In ereq bs, e'))) as Emu.
  { intros t rq rp e g eo ea je E Hok.
    destruct (esim_ready _ _ _ _ _ E Hok) as [(ch & lab & e' & Hp & [->|(bs & n & -> & ->)])|HE]; [..|auto];
      left; eexists; [by eapply PmEmu|by eapply PmEmuWrite]. }
  intros [t e out' acc' sq g jt je T E Hsq Hok|t e out' rq ea acc' sq g jt je Ha Hok T E Hm
    |t e out' rp ta acc' sq g d' r jt je Ha Hok Hr T E Hm Hd].
  - destruct (Thin t [] [] e _ _ _ T) as [?|[?|[(? & [= -> <-] & Hl & HT)|(? & ? & ? & _)]]]; [auto..| |done].
    right; right. split; [done|]. split; [done|]. intros last bs Hb. rewrite length_app in Hb.
    destruct (HT bs) as [t' Hp]; [lia|]. eexists. by eapply PmRecv.
  - destruct (Thin t rq [] e _ _ _ T) as [?|[?|[(? & ? & _)|(? & ? & [= _ -> _] & _)]]]; [auto..|done|].
    destruct (Emu t rq [] e _ _ _ _ E Hok) as [?|(_ & Hl & HE)]; [auto|].
    assert (simics_ok (serve_request (wrap32 (sq + 1)) (of_bytes acc'))) as Ht
      by (apply serve_request_ok; [apply wrap32_u32|by apply access_ok_bytes]).
    destruct (HE rq (hop_rest _ _ _ Ht Hm Hl)) as [e' Hp]. left. eexists.
    rewrite <- (app_nil_r rq). by eapply PmEmuRead.
  - destruct (Emu t [] rp e _ _ _ _ E Hok) as [?|(-> & _ & _)]; [auto|].
    destruct (Thin t [] rp e _ _ _ T) as [?|[?|[(? & ? & _)|(? & ? & [= _ <-] & Hl & HT)]]]; [auto..|done|].
    destruct (HT rp (hop_rest _ _ _ Hr Hm Hl)) as [t' Hp]. left. eexists.
    rewrite <- (app_nil_r rp). by eapply PmRead.
Qed.

#[export] Instance pipe_laws faults : client <> treq -> client <> trep ->
  ServerLaws (pipe_server faults) faults (6 * 1378) (pipe_at faults) (pipe_any faults).
Proof.
  intros H1 H2. split; cbn [sv_move sv_answer sv_crashed pipe_server].
  - intros s d out acc j s' P M. by eapply pipe_quiet.
  - intros s d out acc j bs s' P M. by eapply pipe_recv.
  - intros s d out acc j bs s' P M. by eapply pipe_send.
  - intros s d out acc j P. by do 4 eexists.
  - intros s a s' P M. by eapply pipe_any_move.
  - intros s (d & out & acc & j & P). destruct P as [? ? ? ? ? ? ? ? T E|? ? ? ? ? ? ? ? ? ? _ _ T E
      |? ? ? ? ? ? ? ? ? ? ? ? _ _ _ T E]; intros [Ec|Ec]; cbn in Ec; subst; first [by inversion T|by inversion E].
  - intros s d out acc j -> P. by eapply pipe_ready.
Qed.

(** Both at the top of their loops. *)
Definition pipe_start (sq : Z) (g : emu) (wt we : world) : pipes :=
  Pipes (Running (Thin treq trep sq) wt (server_tree client)) [] [] (Running g we emu_tree).

Lemma pipe_start_at faults sq g wt we :
  u32 sq -> doe_ok (doe g) -> req_fd g = ereq -> rep_fd g = erep ->
  pipe_at faults (pipe_start sq g wt we) (abse g, sq) [] [] 1.
Proof.
  intros Hsq Hok H1 H2. apply (PaUp faults _ _ [] [] sq g 0 1); [|by constructor|done|done].
  apply (tsim_received _ _ _ 16 []); cbn; lia.
Qed.

(** ** Scheduling: the emulator first *)

Definition emu_next (s : pipes) : option pipes :=
  let '(Pipes t rq rp e) := s in
  match answer [1; ereq; erep] e with
  | Some ch =>
      match pmove emu_tree e ch, ch with
      | Some (Tau, e'), _ => Some (Pipes t rq rp e')
      | Some (Out fd bs, e'), Accept _ => if fd =? erep then Some (Pipes t rq (rp ++ bs) e') else None
      | _, _ => None
      end
  | None =>
      match wants e with
      | Some (fd, len) =>
          if fd =? ereq then
            match pmove emu_tree e (Deliver (take len rq)) with
            | Some (_, e') => Some (Pipes t (drop len rq) rp e')
            | None => None
            end
          else None
      | None => None
      end
  end.

Definition thin_next (u : list byte) (s : pipes) : option (sact * pipes) :=
  let '(Pipes t rq rp e) := s in
  match answer [1; client; treq; trep] t with
  | Some ch =>
      match pmove (server_tree client) t ch, ch with
      | Some (Tau, t'), _ => Some (SQuiet, Pipes t' rq rp e)
      | Some (Out fd bs, t'), Accept _ =>
          if fd =? treq then Some (SQuiet, Pipes t' (rq ++ bs) rp e)
          else if fd =? client then Some (SSend bs, Pipes t' rq rp e)
          else None
      | _, _ => None
      end
  | None =>
      match wants t with
      | Some (fd, len) =>
          if fd =? client then
            match pmove (server_tree client) t (Deliver (take len u)) with
            | Some (_, t') => Some (SRecv false (take len u), Pipes t' rq rp e)
            | None => None
            end
          else if fd =? trep then
            match pmove (server_tree client) t (Deliver (take len rp)) with
            | Some (_, t') => Some (SQuiet, Pipes t' rq (drop len rp) e)
            | None => None
            end
          else None
      | None => None
      end
  end.

Definition pipe_step (u : list byte) (s : pipes) : option (sact * pipes) :=
  match emu_next s with Some s' => Some (SQuiet, s') | None => thin_next u s end.

Ltac chosen H := apply (inj Some), pair_eq in H as [<- <-].

Lemma emu_next_sound faults s s' : emu_next s = Some s' -> pipe_moves faults s SQuiet s'.
Proof.
  destruct s as [t rq rp e]. cbn [emu_next]. destruct (answer [1; ereq; erep] e) as [ch|].
  - destruct (pmove emu_tree e ch) as [[lab e']|] eqn:E; [|done]. destruct lab as [| |fd bs|fd bs|m|m]; try done.
    + intros H. apply (inj Some) in H as <-. by eapply PmEmu.
    + destruct ch as [| | |n]; try done. destruct (Z.eqb_spec fd erep) as [->|_]; [|done].
      intros H. apply (inj Some) in H as <-. by eapply PmEmuWrite.
  - destruct (wants e) as [[fd len]|] eqn:W; [|done]. destruct (Z.eqb_spec fd ereq) as [->|_]; [|done].
    destruct (pmove emu_tree e (Deliver _)) as [[lab e']|] eqn:E; [|done]. intros H. apply (inj Some) in H as <-.
    pose proof (deliver_label _ _ _ _ _ _ _ W E) as ->. rewrite <- (take_drop len rq) at 1. by eapply PmEmuRead.
Qed.

#[export] Instance pipe_runs faults : ServerRuns (pipe_server faults) pipe_step.
Proof.
  intros u s a s'. unfold pipe_step. cbn [sv_move pipe_server]. destruct (emu_next s) as [s1|] eqn:En.
  { intros H. chosen H. by apply emu_next_sound. }
  clear En. destruct s as [t rq rp e]. cbn [thin_next]. destruct (answer [1; client; treq; trep] t) as [ch|].
  - destruct (pmove (server_tree client) t ch) as [[lab t']|] eqn:E; [|done].
    destruct lab as [| |fd bs|fd bs|m|m]; try done.
    + intros H. chosen H. by eapply PmServer.
    + destruct ch as [| | |n]; try done. destruct (Z.eqb_spec fd treq) as [->|_].
      { intros H. chosen H. by eapply PmWrite. }
      destruct (Z.eqb_spec fd client) as [->|_]; [|done]. intros H. chosen H. by eapply PmSend.
  - destruct (wants t) as [[fd len]|] eqn:W; [|done].
    destruct (Z.eqb_spec fd client) as [->|_]; [|destruct (Z.eqb_spec fd trep) as [->|_]; [|done]];
      (destruct (pmove (server_tree client) t (Deliver _)) as [[lab t']|] eqn:E; [|done]); intros H; chosen H;
      pose proof (deliver_label _ _ _ _ _ _ _ W E) as ->.
    + split; [intros last; by eapply PmRecv|]. exists (drop len u). by rewrite take_drop.
    + rewrite <- (take_drop len rp) at 1. by eapply PmRead.
Qed.

(** Both wait for input that is not there. *)
Definition pipe_idle (s : pipes) : bool :=
  let '(Pipes t rq rp e) := s in is_nil rq && is_nil rp && reading t && reading e.

#[export] Instance pipe_rests : ServerRests (pipe_server false) pipe_idle.
Proof.
  intros s a s' Hs M. cbn [sv_move pipe_server] in M. destruct s as [t rq rp e]. cbn [pipe_idle] in Hs.
  apply andb_prop in Hs as [[[Hq Hp]%andb_prop Ht]%andb_prop He]. destruct rq; [|done]. destruct rp; [|done].
  inversion M as [? lab ? ? ? ? ? H Hl|? ? ? ? ? ? ? H|? ? ? ? ? ? ? H|? ? ? ? ? ? ? H|? ? ? ? ? ? H|? lab ? ? ? ? ? H Hl
    |? ? ? ? ? ? H|? ? ? ? ? ? ? H]; subst;
    try match goal with E : _ ++ _ = [] |- _ => apply app_eq_nil in E as [-> ->] end;
    first [pose proof (reading_gets _ _ _ _ _ Ht H) as N|pose proof (reading_gets _ _ _ _ _ He H) as N];
    try done; by destruct lab.
Qed.
End pipes.
