(* ===== verification/PciRegs.v ===== *)
(** * The DOE registers of include/linux/pci_regs.h

    The names by which the programs and the host driver know the mailbox: the
    register offsets, which the kernel's interception layer also uses as operation
    types, their bits, and the fields of data objects. *)
From S2P Require Import Prelude.

Definition PCI_DOE_CAP    : Z := 0x04.
Definition PCI_DOE_CTRL   : Z := 0x08.
Definition PCI_DOE_STATUS : Z := 0x0c.
Definition PCI_DOE_WRITE  : Z := 0x10.
Definition PCI_DOE_READ   : Z := 0x14.
Definition PCI_DOE_CAP_SIZEOF : Z := 0x18.

Definition PCI_DOE_CTRL_ABORT  : Z := 0x00000001.
Definition PCI_DOE_CTRL_INT_EN : Z := 0x00000002.
Definition PCI_DOE_CTRL_GO     : Z := 0x80000000.

Definition PCI_DOE_STATUS_BUSY              : Z := 0x00000001.
Definition PCI_DOE_STATUS_INT_STATUS        : Z := 0x00000002.
Definition PCI_DOE_STATUS_ERROR             : Z := 0x00000004.
Definition PCI_DOE_STATUS_DATA_OBJECT_READY : Z := 0x80000000.

Definition PCI_DOE_DATA_OBJECT_HEADER_1_VID    : Z := 0x0000ffff.
Definition PCI_DOE_DATA_OBJECT_HEADER_1_TYPE   : Z := 0x00ff0000.
Definition PCI_DOE_DATA_OBJECT_HEADER_2_LENGTH : Z := 0x0003ffff.

Definition PCI_DOE_DATA_OBJECT_DISC_REQ_3_INDEX      : Z := 0x000000ff.
Definition PCI_DOE_DATA_OBJECT_DISC_RSP_3_VID        : Z := 0x0000ffff.
Definition PCI_DOE_DATA_OBJECT_DISC_RSP_3_PROTOCOL   : Z := 0x00ff0000.
Definition PCI_DOE_DATA_OBJECT_DISC_RSP_3_NEXT_INDEX : Z := 0xff000000.

(** The value of a field selected by a mask: the masked bits moved down to bit 0. *)
Definition field_shift (mask : Z) : Z := Z.log2 (Z.land mask (- mask)).
Definition field_get (mask v : Z) : Z := Z.shiftr (Z.land v mask) (field_shift mask).
