(* ===== verification/PciSpace.v ===== *)
(** * include/linux/pci_regs.h: the configuration space

    The header file that remote-rc.c and the host driver take the DOE registers
    from, section by section as the file is laid out: each register or constant with
    the fields that the file indents under it, and the macros that extract a field
    from a register. The DOE constants by name are in PciRegs.v. *)
From S2P Require Import Prelude PciRegs.

Record pci_define : Type := Define {
  def_name   : string;
  def_value  : Z;
  def_fields : list (string * Z);
}.

#[local] Open Scope string_scope.
#[local] Open Scope Z_scope.

(** Configuration space and header type 0. *)
Definition pci_std_header : list pci_define :=
  [
   Define "PCI_CFG_SPACE_SIZE" 256 [];
   Define "PCI_CFG_SPACE_EXP_SIZE" 4096 [];
   Define "PCI_STD_HEADER_SIZEOF" 64 [];
   Define "PCI_STD_NUM_BARS" 6 [];
   Define "PCI_VENDOR_ID" 0x00 [];
   Define "PCI_DEVICE_ID" 0x02 [];
   Define "PCI_COMMAND" 0x04 [("PCI_COMMAND_IO", 0x1); ("PCI_COMMAND_MEMORY", 0x2);
     ("PCI_COMMAND_MASTER", 0x4); ("PCI_COMMAND_SPECIAL", 0x8); ("PCI_COMMAND_INVALIDATE", 0x10);
     ("PCI_COMMAND_VGA_PALETTE", 0x20); ("PCI_COMMAND_PARITY", 0x40); ("PCI_COMMAND_WAIT", 0x80);
     ("PCI_COMMAND_SERR", 0x100); ("PCI_COMMAND_FAST_BACK", 0x200); ("PCI_COMMAND_INTX_DISABLE", 0x400)];
   Define "PCI_STATUS" 0x06 [("PCI_STATUS_IMM_READY", 0x01); ("PCI_STATUS_INTERRUPT", 0x08);
     ("PCI_STATUS_CAP_LIST", 0x10); ("PCI_STATUS_66MHZ", 0x20); ("PCI_STATUS_UDF", 0x40);
     ("PCI_STATUS_FAST_BACK", 0x80); ("PCI_STATUS_PARITY", 0x100); ("PCI_STATUS_DEVSEL_MASK", 0x600);
     ("PCI_STATUS_DEVSEL_FAST", 0x000); ("PCI_STATUS_DEVSEL_MEDIUM", 0x200);
     ("PCI_STATUS_DEVSEL_SLOW", 0x400); ("PCI_STATUS_SIG_TARGET_ABORT", 0x800);
     ("PCI_STATUS_REC_TARGET_ABORT", 0x1000); ("PCI_STATUS_REC_MASTER_ABORT", 0x2000);
     ("PCI_STATUS_SIG_SYSTEM_ERROR", 0x4000); ("PCI_STATUS_DETECTED_PARITY", 0x8000)];
   Define "PCI_CLASS_REVISION" 0x08 [];
   Define "PCI_REVISION_ID" 0x08 [];
   Define "PCI_CLASS_PROG" 0x09 [];
   Define "PCI_CLASS_DEVICE" 0x0a [];
   Define "PCI_CACHE_LINE_SIZE" 0x0c [];
   Define "PCI_LATENCY_TIMER" 0x0d [];
   Define "PCI_HEADER_TYPE" 0x0e [("PCI_HEADER_TYPE_MASK", 0x7f); ("PCI_HEADER_TYPE_NORMAL", 0);
     ("PCI_HEADER_TYPE_BRIDGE", 1); ("PCI_HEADER_TYPE_CARDBUS", 2)];
   Define "PCI_BIST" 0x0f [("PCI_BIST_CODE_MASK", 0x0f); ("PCI_BIST_START", 0x40);
     ("PCI_BIST_CAPABLE", 0x80)];
   Define "PCI_BASE_ADDRESS_0" 0x10 [];
   Define "PCI_BASE_ADDRESS_1" 0x14 [];
   Define "PCI_BASE_ADDRESS_2" 0x18 [];
   Define "PCI_BASE_ADDRESS_3" 0x1c [];
   Define "PCI_BASE_ADDRESS_4" 0x20 [];
   Define "PCI_BASE_ADDRESS_5" 0x24 [("PCI_BASE_ADDRESS_SPACE", 0x01); ("PCI_BASE_ADDRESS_SPACE_IO", 0x01);
     ("PCI_BASE_ADDRESS_SPACE_MEMORY", 0x00); ("PCI_BASE_ADDRESS_MEM_TYPE_MASK", 0x06);
     ("PCI_BASE_ADDRESS_MEM_TYPE_32", 0x00); ("PCI_BASE_ADDRESS_MEM_TYPE_1M", 0x02);
     ("PCI_BASE_ADDRESS_MEM_TYPE_64", 0x04); ("PCI_BASE_ADDRESS_MEM_PREFETCH", 0x08);
     ("PCI_BASE_ADDRESS_MEM_MASK", Z.lxor (Z.ones 64) 0x0f);
     ("PCI_BASE_ADDRESS_IO_MASK", Z.lxor (Z.ones 64) 0x03)];
   Define "PCI_CARDBUS_CIS" 0x28 [];
   Define "PCI_SUBSYSTEM_VENDOR_ID" 0x2c [];
   Define "PCI_SUBSYSTEM_ID" 0x2e [];
   Define "PCI_ROM_ADDRESS" 0x30 [("PCI_ROM_ADDRESS_ENABLE", 0x01)];
   Define "PCI_ROM_ADDRESS_MASK" (Z.lxor (Z.ones 32) 0x7ff) [];
   Define "PCI_CAPABILITY_LIST" 0x34 [];
   Define "PCI_INTERRUPT_LINE" 0x3c [];
   Define "PCI_INTERRUPT_PIN" 0x3d [];
   Define "PCI_MIN_GNT" 0x3e [];
   Define "PCI_MAX_LAT" 0x3f []].

(** Header type 1 (PCI-to-PCI bridges). *)
Definition pci_bridge_header : list pci_define :=
  [
   Define "PCI_PRIMARY_BUS" 0x18 [];
   Define "PCI_SECONDARY_BUS" 0x19 [];
   Define "PCI_SUBORDINATE_BUS" 0x1a [];
   Define "PCI_SEC_LATENCY_TIMER" 0x1b [];
   Define "PCI_IO_BASE" 0x1c [];
   Define "PCI_IO_LIMIT" 0x1d [("PCI_IO_RANGE_TYPE_MASK", 0x0f); ("PCI_IO_RANGE_TYPE_16", 0x00);
     ("PCI_IO_RANGE_TYPE_32", 0x01); ("PCI_IO_RANGE_MASK", Z.lxor (Z.ones 64) 0x0f);
     ("PCI_IO_1K_RANGE_MASK", Z.lxor (Z.ones 64) 0x03)];
   Define "PCI_SEC_STATUS" 0x1e [];
   Define "PCI_MEMORY_BASE" 0x20 [];
   Define "PCI_MEMORY_LIMIT" 0x22 [("PCI_MEMORY_RANGE_TYPE_MASK", 0x0f);
     ("PCI_MEMORY_RANGE_MASK", Z.lxor (Z.ones 64) 0x0f)];
   Define "PCI_PREF_MEMORY_BASE" 0x24 [];
   Define "PCI_PREF_MEMORY_LIMIT" 0x26 [("PCI_PREF_RANGE_TYPE_MASK", 0x0f); ("PCI_PREF_RANGE_TYPE_32", 0x00);
     ("PCI_PREF_RANGE_TYPE_64", 0x01); ("PCI_PREF_RANGE_MASK", Z.lxor (Z.ones 64) 0x0f)];
   Define "PCI_PREF_BASE_UPPER32" 0x28 [];
   Define "PCI_PREF_LIMIT_UPPER32" 0x2c [];
   Define "PCI_IO_BASE_UPPER16" 0x30 [];
   Define "PCI_IO_LIMIT_UPPER16" 0x32 [];
   Define "PCI_ROM_ADDRESS1" 0x38 [];
   Define "PCI_BRIDGE_CONTROL" 0x3e [("PCI_BRIDGE_CTL_PARITY", 0x01); ("PCI_BRIDGE_CTL_SERR", 0x02);
     ("PCI_BRIDGE_CTL_ISA", 0x04); ("PCI_BRIDGE_CTL_VGA", 0x08); ("PCI_BRIDGE_CTL_MASTER_ABORT", 0x20);
     ("PCI_BRIDGE_CTL_BUS_RESET", 0x40); ("PCI_BRIDGE_CTL_FAST_BACK", 0x80)]].

(** Header type 2 (CardBus bridges). *)
Definition pci_cardbus_header : list pci_define :=
  [
   Define "PCI_CB_CAPABILITY_LIST" 0x14 [];
   Define "PCI_CB_SEC_STATUS" 0x16 [];
   Define "PCI_CB_PRIMARY_BUS" 0x18 [];
   Define "PCI_CB_CARD_BUS" 0x19 [];
   Define "PCI_CB_SUBORDINATE_BUS" 0x1a [];
   Define "PCI_CB_LATENCY_TIMER" 0x1b [];
   Define "PCI_CB_MEMORY_BASE_0" 0x1c [];
   Define "PCI_CB_MEMORY_LIMIT_0" 0x20 [];
   Define "PCI_CB_MEMORY_BASE_1" 0x24 [];
   Define "PCI_CB_MEMORY_LIMIT_1" 0x28 [];
   Define "PCI_CB_IO_BASE_0" 0x2c [];
   Define "PCI_CB_IO_BASE_0_HI" 0x2e [];
   Define "PCI_CB_IO_LIMIT_0" 0x30 [];
   Define "PCI_CB_IO_LIMIT_0_HI" 0x32 [];
   Define "PCI_CB_IO_BASE_1" 0x34 [];
   Define "PCI_CB_IO_BASE_1_HI" 0x36 [];
   Define "PCI_CB_IO_LIMIT_1" 0x38 [];
   Define "PCI_CB_IO_LIMIT_1_HI" 0x3a [("PCI_CB_IO_RANGE_MASK", Z.lxor (Z.ones 64) 0x03)];
   Define "PCI_CB_BRIDGE_CONTROL" 0x3e [("PCI_CB_BRIDGE_CTL_PARITY", 0x01); ("PCI_CB_BRIDGE_CTL_SERR", 0x02);
     ("PCI_CB_BRIDGE_CTL_ISA", 0x04); ("PCI_CB_BRIDGE_CTL_VGA", 0x08);
     ("PCI_CB_BRIDGE_CTL_MASTER_ABORT", 0x20); ("PCI_CB_BRIDGE_CTL_CB_RESET", 0x40);
     ("PCI_CB_BRIDGE_CTL_16BIT_INT", 0x80); ("PCI_CB_BRIDGE_CTL_PREFETCH_MEM0", 0x100);
     ("PCI_CB_BRIDGE_CTL_PREFETCH_MEM1", 0x200); ("PCI_CB_BRIDGE_CTL_POST_WRITES", 0x400)];
   Define "PCI_CB_SUBSYSTEM_VENDOR_ID" 0x40 [];
   Define "PCI_CB_SUBSYSTEM_ID" 0x42 [];
   Define "PCI_CB_LEGACY_MODE_BASE" 0x44 []].

(** Capability lists. *)
Definition pci_cap_list : list pci_define :=
  [
   Define "PCI_CAP_LIST_ID" 0 [("PCI_CAP_ID_PM", 0x01); ("PCI_CAP_ID_AGP", 0x02); ("PCI_CAP_ID_VPD", 0x03);
     ("PCI_CAP_ID_SLOTID", 0x04); ("PCI_CAP_ID_MSI", 0x05); ("PCI_CAP_ID_CHSWP", 0x06);
     ("PCI_CAP_ID_PCIX", 0x07); ("PCI_CAP_ID_HT", 0x08); ("PCI_CAP_ID_VNDR", 0x09); ("PCI_CAP_ID_DBG", 0x0A);
     ("PCI_CAP_ID_CCRC", 0x0B); ("PCI_CAP_ID_SHPC", 0x0C); ("PCI_CAP_ID_SSVID", 0x0D);
     ("PCI_CAP_ID_AGP3", 0x0E); ("PCI_CAP_ID_SECDEV", 0x0F); ("PCI_CAP_ID_EXP", 0x10);
     ("PCI_CAP_ID_MSIX", 0x11); ("PCI_CAP_ID_SATA", 0x12); ("PCI_CAP_ID_AF", 0x13); ("PCI_CAP_ID_EA", 0x14);
     ("PCI_CAP_ID_MAX", 0x14)];
   Define "PCI_CAP_LIST_NEXT" 1 [];
   Define "PCI_CAP_FLAGS" 2 [];
   Define "PCI_CAP_SIZEOF" 4 []].

(** Power management. *)
Definition pci_pm : list pci_define :=
  [
   Define "PCI_PM_PMC" 2 [("PCI_PM_CAP_VER_MASK", 0x0007); ("PCI_PM_CAP_PME_CLOCK", 0x0008);
     ("PCI_PM_CAP_RESERVED", 0x0010); ("PCI_PM_CAP_DSI", 0x0020); ("PCI_PM_CAP_AUX_POWER", 0x01C0);
     ("PCI_PM_CAP_D1", 0x0200); ("PCI_PM_CAP_D2", 0x0400); ("PCI_PM_CAP_PME", 0x0800);
     ("PCI_PM_CAP_PME_MASK", 0xF800); ("PCI_PM_CAP_PME_D0", 0x0800); ("PCI_PM_CAP_PME_D1", 0x1000);
     ("PCI_PM_CAP_PME_D2", 0x2000); ("PCI_PM_CAP_PME_D3hot", 0x4000); ("PCI_PM_CAP_PME_D3cold", 0x8000);
     ("PCI_PM_CAP_PME_SHIFT", 11)];
   Define "PCI_PM_CTRL" 4 [("PCI_PM_CTRL_STATE_MASK", 0x0003); ("PCI_PM_CTRL_NO_SOFT_RESET", 0x0008);
     ("PCI_PM_CTRL_PME_ENABLE", 0x0100); ("PCI_PM_CTRL_DATA_SEL_MASK", 0x1e00);
     ("PCI_PM_CTRL_DATA_SCALE_MASK", 0x6000); ("PCI_PM_CTRL_PME_STATUS", 0x8000)];
   Define "PCI_PM_PPB_EXTENSIONS" 6 [("PCI_PM_PPB_B2_B3", 0x40); ("PCI_PM_BPCC_ENABLE", 0x80)];
   Define "PCI_PM_DATA_REGISTER" 7 [];
   Define "PCI_PM_SIZEOF" 8 []].

(** AGP. *)
Definition pci_agp : list pci_define :=
  [
   Define "PCI_AGP_VERSION" 2 [];
   Define "PCI_AGP_RFU" 3 [];
   Define "PCI_AGP_STATUS" 4 [("PCI_AGP_STATUS_RQ_MASK", 0xff000000); ("PCI_AGP_STATUS_SBA", 0x0200);
     ("PCI_AGP_STATUS_64BIT", 0x0020); ("PCI_AGP_STATUS_FW", 0x0010); ("PCI_AGP_STATUS_RATE4", 0x0004);
     ("PCI_AGP_STATUS_RATE2", 0x0002); ("PCI_AGP_STATUS_RATE1", 0x0001)];
   Define "PCI_AGP_COMMAND" 8 [("PCI_AGP_COMMAND_RQ_MASK", 0xff000000); ("PCI_AGP_COMMAND_SBA", 0x0200);
     ("PCI_AGP_COMMAND_AGP", 0x0100); ("PCI_AGP_COMMAND_64BIT", 0x0020); ("PCI_AGP_COMMAND_FW", 0x0010);
     ("PCI_AGP_COMMAND_RATE4", 0x0004); ("PCI_AGP_COMMAND_RATE2", 0x0002); ("PCI_AGP_COMMAND_RATE1", 0x0001)];
   Define "PCI_AGP_SIZEOF" 12 []].

(** Vital product data and slot identification. *)
Definition pci_vpd_slotid : list pci_define :=
  [
   Define "PCI_VPD_ADDR" 2 [("PCI_VPD_ADDR_MASK", 0x7fff); ("PCI_VPD_ADDR_F", 0x8000)];
   Define "PCI_VPD_DATA" 4 [];
   Define "PCI_CAP_VPD_SIZEOF" 8 [];
   Define "PCI_SID_ESR" 2 [("PCI_SID_ESR_NSLOTS", 0x1f); ("PCI_SID_ESR_FIC", 0x20)];
   Define "PCI_SID_CHASSIS_NR" 3 []].

(** MSI and MSI-X. *)
Definition pci_msi : list pci_define :=
  [
   Define "PCI_MSI_FLAGS" 0x02 [("PCI_MSI_FLAGS_ENABLE", 0x0001); ("PCI_MSI_FLAGS_QMASK", 0x000e);
     ("PCI_MSI_FLAGS_QSIZE", 0x0070); ("PCI_MSI_FLAGS_64BIT", 0x0080); ("PCI_MSI_FLAGS_MASKBIT", 0x0100)];
   Define "PCI_MSI_RFU" 3 [];
   Define "PCI_MSI_ADDRESS_LO" 0x04 [];
   Define "PCI_MSI_ADDRESS_HI" 0x08 [];
   Define "PCI_MSI_DATA_32" 0x08 [];
   Define "PCI_MSI_MASK_32" 0x0c [];
   Define "PCI_MSI_PENDING_32" 0x10 [];
   Define "PCI_MSI_DATA_64" 0x0c [];
   Define "PCI_MSI_MASK_64" 0x10 [];
   Define "PCI_MSI_PENDING_64" 0x14 [];
   Define "PCI_MSIX_FLAGS" 2 [("PCI_MSIX_FLAGS_QSIZE", 0x07FF); ("PCI_MSIX_FLAGS_MASKALL", 0x4000);
     ("PCI_MSIX_FLAGS_ENABLE", 0x8000)];
   Define "PCI_MSIX_TABLE" 4 [("PCI_MSIX_TABLE_BIR", 0x00000007); ("PCI_MSIX_TABLE_OFFSET", 0xfffffff8)];
   Define "PCI_MSIX_PBA" 8 [("PCI_MSIX_PBA_BIR", 0x00000007); ("PCI_MSIX_PBA_OFFSET", 0xfffffff8)];
   Define "PCI_MSIX_FLAGS_BIRMASK" 0x7 [];
   Define "PCI_CAP_MSIX_SIZEOF" 12 [];
   Define "PCI_MSIX_ENTRY_SIZE" 16 [];
   Define "PCI_MSIX_ENTRY_LOWER_ADDR" 0x0 [];
   Define "PCI_MSIX_ENTRY_UPPER_ADDR" 0x4 [];
   Define "PCI_MSIX_ENTRY_DATA" 0x8 [];
   Define "PCI_MSIX_ENTRY_VECTOR_CTRL" 0xc [("PCI_MSIX_ENTRY_CTRL_MASKBIT", 0x00000001)]].

(** CompactPCI hotswap and advanced features. *)
Definition pci_chswp_af : list pci_define :=
  [
   Define "PCI_CHSWP_CSR" 2 [("PCI_CHSWP_DHA", 0x01); ("PCI_CHSWP_EIM", 0x02); ("PCI_CHSWP_PIE", 0x04);
     ("PCI_CHSWP_LOO", 0x08); ("PCI_CHSWP_PI", 0x30); ("PCI_CHSWP_EXT", 0x40); ("PCI_CHSWP_INS", 0x80)];
   Define "PCI_AF_LENGTH" 2 [];
   Define "PCI_AF_CAP" 3 [("PCI_AF_CAP_TP", 0x01); ("PCI_AF_CAP_FLR", 0x02)];
   Define "PCI_AF_CTRL" 4 [("PCI_AF_CTRL_FLR", 0x01)];
   Define "PCI_AF_STATUS" 5 [("PCI_AF_STATUS_TP", 0x01)];
   Define "PCI_CAP_AF_SIZEOF" 6 []].

(** Enhanced allocation. *)
Definition pci_ea : list pci_define :=
  [
   Define "PCI_EA_NUM_ENT" 2 [("PCI_EA_NUM_ENT_MASK", 0x3f)];
   Define "PCI_EA_FIRST_ENT" 4 [];
   Define "PCI_EA_FIRST_ENT_BRIDGE" 8 [("PCI_EA_ES", 0x00000007); ("PCI_EA_BEI", 0x000000f0)];
   Define "PCI_EA_SEC_BUS_MASK" 0xff [];
   Define "PCI_EA_SUB_BUS_MASK" 0xff00 [];
   Define "PCI_EA_SUB_BUS_SHIFT" 8 [("PCI_EA_BEI_BAR0", 0); ("PCI_EA_BEI_BAR5", 5); ("PCI_EA_BEI_BRIDGE", 6);
     ("PCI_EA_BEI_ENI", 7); ("PCI_EA_BEI_ROM", 8); ("PCI_EA_BEI_VF_BAR0", 9); ("PCI_EA_BEI_VF_BAR5", 14);
     ("PCI_EA_BEI_RESERVED", 15); ("PCI_EA_PP", 0x0000ff00); ("PCI_EA_SP", 0x00ff0000);
     ("PCI_EA_P_MEM", 0x00); ("PCI_EA_P_MEM_PREFETCH", 0x01); ("PCI_EA_P_IO", 0x02);
     ("PCI_EA_P_VF_MEM_PREFETCH", 0x03); ("PCI_EA_P_VF_MEM", 0x04); ("PCI_EA_P_BRIDGE_MEM", 0x05);
     ("PCI_EA_P_BRIDGE_MEM_PREFETCH", 0x06); ("PCI_EA_P_BRIDGE_IO", 0x07); ("PCI_EA_P_MEM_RESERVED", 0xfd);
     ("PCI_EA_P_IO_RESERVED", 0xfe); ("PCI_EA_P_UNAVAILABLE", 0xff); ("PCI_EA_WRITABLE", 0x40000000);
     ("PCI_EA_ENABLE", 0x80000000)];
   Define "PCI_EA_BASE" 4 [];
   Define "PCI_EA_MAX_OFFSET" 8 [("PCI_EA_IS_64", 0x00000002); ("PCI_EA_FIELD_MASK", 0xfffffffc)]].

(** PCI-X and bridge subsystem ID. *)
Definition pci_x : list pci_define :=
  [
   Define "PCI_X_CMD" 2 [("PCI_X_CMD_DPERR_E", 0x0001); ("PCI_X_CMD_ERO", 0x0002);
     ("PCI_X_CMD_READ_512", 0x0000); ("PCI_X_CMD_READ_1K", 0x0004); ("PCI_X_CMD_READ_2K", 0x0008);
     ("PCI_X_CMD_READ_4K", 0x000c); ("PCI_X_CMD_MAX_READ", 0x000c); ("PCI_X_CMD_SPLIT_1", 0x0000);
     ("PCI_X_CMD_SPLIT_2", 0x0010); ("PCI_X_CMD_SPLIT_3", 0x0020); ("PCI_X_CMD_SPLIT_4", 0x0030);
     ("PCI_X_CMD_SPLIT_8", 0x0040); ("PCI_X_CMD_SPLIT_12", 0x0050); ("PCI_X_CMD_SPLIT_16", 0x0060);
     ("PCI_X_CMD_SPLIT_32", 0x0070); ("PCI_X_CMD_MAX_SPLIT", 0x0070)];
   Define "PCI_X_STATUS" 4 [("PCI_X_STATUS_DEVFN", 0x000000ff); ("PCI_X_STATUS_BUS", 0x0000ff00);
     ("PCI_X_STATUS_64BIT", 0x00010000); ("PCI_X_STATUS_133MHZ", 0x00020000);
     ("PCI_X_STATUS_SPL_DISC", 0x00040000); ("PCI_X_STATUS_UNX_SPL", 0x00080000);
     ("PCI_X_STATUS_COMPLEX", 0x00100000); ("PCI_X_STATUS_MAX_READ", 0x00600000);
     ("PCI_X_STATUS_MAX_SPLIT", 0x03800000); ("PCI_X_STATUS_MAX_CUM", 0x1c000000);
     ("PCI_X_STATUS_SPL_ERR", 0x20000000); ("PCI_X_STATUS_266MHZ", 0x40000000);
     ("PCI_X_STATUS_533MHZ", 0x80000000)];
   Define "PCI_X_ECC_CSR" 8 [];
   Define "PCI_CAP_PCIX_SIZEOF_V0" 8 [];
   Define "PCI_CAP_PCIX_SIZEOF_V1" 24 [];
   Define "PCI_CAP_PCIX_SIZEOF_V2" 0x18 [];
   Define "PCI_X_BRIDGE_SSTATUS" 2 [("PCI_X_SSTATUS_64BIT", 0x0001); ("PCI_X_SSTATUS_133MHZ", 0x0002);
     ("PCI_X_SSTATUS_FREQ", 0x03c0); ("PCI_X_SSTATUS_VERS", 0x3000); ("PCI_X_SSTATUS_V1", 0x1000);
     ("PCI_X_SSTATUS_V2", 0x2000); ("PCI_X_SSTATUS_266MHZ", 0x4000); ("PCI_X_SSTATUS_533MHZ", 0x8000)];
   Define "PCI_X_BRIDGE_STATUS" 4 [];
   Define "PCI_SSVID_VENDOR_ID" 4 [];
   Define "PCI_SSVID_DEVICE_ID" 6 []].

(** PCI Express capability. *)
Definition pci_exp : list pci_define :=
  [
   Define "PCI_EXP_FLAGS" 0x02 [("PCI_EXP_FLAGS_VERS", 0x000f); ("PCI_EXP_FLAGS_TYPE", 0x00f0);
     ("PCI_EXP_TYPE_ENDPOINT", 0x0); ("PCI_EXP_TYPE_LEG_END", 0x1); ("PCI_EXP_TYPE_ROOT_PORT", 0x4);
     ("PCI_EXP_TYPE_UPSTREAM", 0x5); ("PCI_EXP_TYPE_DOWNSTREAM", 0x6); ("PCI_EXP_TYPE_PCI_BRIDGE", 0x7);
     ("PCI_EXP_TYPE_PCIE_BRIDGE", 0x8); ("PCI_EXP_TYPE_RC_END", 0x9); ("PCI_EXP_TYPE_RC_EC", 0xa);
     ("PCI_EXP_FLAGS_SLOT", 0x0100); ("PCI_EXP_FLAGS_IRQ", 0x3e00)];
   Define "PCI_EXP_DEVCAP" 0x04 [("PCI_EXP_DEVCAP_PAYLOAD", 0x00000007);
     ("PCI_EXP_DEVCAP_PHANTOM", 0x00000018); ("PCI_EXP_DEVCAP_EXT_TAG", 0x00000020);
     ("PCI_EXP_DEVCAP_L0S", 0x000001c0); ("PCI_EXP_DEVCAP_L1", 0x00000e00);
     ("PCI_EXP_DEVCAP_ATN_BUT", 0x00001000); ("PCI_EXP_DEVCAP_ATN_IND", 0x00002000);
     ("PCI_EXP_DEVCAP_PWR_IND", 0x00004000); ("PCI_EXP_DEVCAP_RBER", 0x00008000);
     ("PCI_EXP_DEVCAP_PWR_VAL", 0x03fc0000); ("PCI_EXP_DEVCAP_PWR_SCL", 0x0c000000);
     ("PCI_EXP_DEVCAP_FLR", 0x10000000); ("PCI_EXP_DEVCAP_TEE_IO", 0x40000000)];
   Define "PCI_EXP_DEVCTL" 0x08 [("PCI_EXP_DEVCTL_CERE", 0x0001); ("PCI_EXP_DEVCTL_NFERE", 0x0002);
     ("PCI_EXP_DEVCTL_FERE", 0x0004); ("PCI_EXP_DEVCTL_URRE", 0x0008); ("PCI_EXP_DEVCTL_RELAX_EN", 0x0010);
     ("PCI_EXP_DEVCTL_PAYLOAD", 0x00e0); ("PCI_EXP_DEVCTL_PAYLOAD_128B", 0x0000);
     ("PCI_EXP_DEVCTL_PAYLOAD_256B", 0x0020); ("PCI_EXP_DEVCTL_PAYLOAD_512B", 0x0040);
     ("PCI_EXP_DEVCTL_PAYLOAD_1024B", 0x0060); ("PCI_EXP_DEVCTL_PAYLOAD_2048B", 0x0080);
     ("PCI_EXP_DEVCTL_PAYLOAD_4096B", 0x00a0); ("PCI_EXP_DEVCTL_EXT_TAG", 0x0100);
     ("PCI_EXP_DEVCTL_PHANTOM", 0x0200); ("PCI_EXP_DEVCTL_AUX_PME", 0x0400);
     ("PCI_EXP_DEVCTL_NOSNOOP_EN", 0x0800); ("PCI_EXP_DEVCTL_READRQ", 0x7000);
     ("PCI_EXP_DEVCTL_READRQ_128B", 0x0000); ("PCI_EXP_DEVCTL_READRQ_256B", 0x1000);
     ("PCI_EXP_DEVCTL_READRQ_512B", 0x2000); ("PCI_EXP_DEVCTL_READRQ_1024B", 0x3000);
     ("PCI_EXP_DEVCTL_READRQ_2048B", 0x4000); ("PCI_EXP_DEVCTL_READRQ_4096B", 0x5000);
     ("PCI_EXP_DEVCTL_BCR_FLR", 0x8000)];
   Define "PCI_EXP_DEVSTA" 0x0a [("PCI_EXP_DEVSTA_CED", 0x0001); ("PCI_EXP_DEVSTA_NFED", 0x0002);
     ("PCI_EXP_DEVSTA_FED", 0x0004); ("PCI_EXP_DEVSTA_URD", 0x0008); ("PCI_EXP_DEVSTA_AUXPD", 0x0010);
     ("PCI_EXP_DEVSTA_TRPND", 0x0020)];
   Define "PCI_CAP_EXP_RC_ENDPOINT_SIZEOF_V1" 12 [];
   Define "PCI_EXP_LNKCAP" 0x0c [("PCI_EXP_LNKCAP_SLS", 0x0000000f);
     ("PCI_EXP_LNKCAP_SLS_2_5GB", 0x00000001); ("PCI_EXP_LNKCAP_SLS_5_0GB", 0x00000002);
     ("PCI_EXP_LNKCAP_SLS_8_0GB", 0x00000003); ("PCI_EXP_LNKCAP_SLS_16_0GB", 0x00000004);
     ("PCI_EXP_LNKCAP_SLS_32_0GB", 0x00000005); ("PCI_EXP_LNKCAP_SLS_64_0GB", 0x00000006);
     ("PCI_EXP_LNKCAP_MLW", 0x000003f0); ("PCI_EXP_LNKCAP_ASPMS", 0x00000c00);
     ("PCI_EXP_LNKCAP_ASPM_L0S", 0x00000400); ("PCI_EXP_LNKCAP_ASPM_L1", 0x00000800);
     ("PCI_EXP_LNKCAP_L0SEL", 0x00007000); ("PCI_EXP_LNKCAP_L1EL", 0x00038000);
     ("PCI_EXP_LNKCAP_CLKPM", 0x00040000); ("PCI_EXP_LNKCAP_SDERC", 0x00080000);
     ("PCI_EXP_LNKCAP_DLLLARC", 0x00100000); ("PCI_EXP_LNKCAP_LBNC", 0x00200000);
     ("PCI_EXP_LNKCAP_PN", 0xff000000)];
   Define "PCI_EXP_LNKCTL" 0x10 [("PCI_EXP_LNKCTL_ASPMC", 0x0003); ("PCI_EXP_LNKCTL_ASPM_L0S", 0x0001);
     ("PCI_EXP_LNKCTL_ASPM_L1", 0x0002); ("PCI_EXP_LNKCTL_RCB", 0x0008); ("PCI_EXP_LNKCTL_LD", 0x0010);
     ("PCI_EXP_LNKCTL_RL", 0x0020); ("PCI_EXP_LNKCTL_CCC", 0x0040); ("PCI_EXP_LNKCTL_ES", 0x0080);
     ("PCI_EXP_LNKCTL_CLKREQ_EN", 0x0100); ("PCI_EXP_LNKCTL_HAWD", 0x0200); ("PCI_EXP_LNKCTL_LBMIE", 0x0400);
     ("PCI_EXP_LNKCTL_LABIE", 0x0800)];
   Define "PCI_EXP_LNKSTA" 0x12 [("PCI_EXP_LNKSTA_CLS", 0x000f); ("PCI_EXP_LNKSTA_CLS_2_5GB", 0x0001);
     ("PCI_EXP_LNKSTA_CLS_5_0GB", 0x0002); ("PCI_EXP_LNKSTA_CLS_8_0GB", 0x0003);
     ("PCI_EXP_LNKSTA_CLS_16_0GB", 0x0004); ("PCI_EXP_LNKSTA_CLS_32_0GB", 0x0005);
     ("PCI_EXP_LNKSTA_CLS_64_0GB", 0x0006); ("PCI_EXP_LNKSTA_NLW", 0x03f0);
     ("PCI_EXP_LNKSTA_NLW_X1", 0x0010); ("PCI_EXP_LNKSTA_NLW_X2", 0x0020); ("PCI_EXP_LNKSTA_NLW_X4", 0x0040);
     ("PCI_EXP_LNKSTA_NLW_X8", 0x0080); ("PCI_EXP_LNKSTA_NLW_SHIFT", 4); ("PCI_EXP_LNKSTA_LT", 0x0800);
     ("PCI_EXP_LNKSTA_SLC", 0x1000); ("PCI_EXP_LNKSTA_DLLLA", 0x2000); ("PCI_EXP_LNKSTA_LBMS", 0x4000);
     ("PCI_EXP_LNKSTA_LABS", 0x8000)];
   Define "PCI_CAP_EXP_ENDPOINT_SIZEOF_V1" 20 [];
   Define "PCI_EXP_SLTCAP" 0x14 []].

(** PCI Express: slots and root. *)
Definition pci_exp_root : list pci_define :=
  [
   Define "PCI_EXP_SLTCAP_ABP" 0x00000001 [("PCI_EXP_SLTCAP_PCP", 0x00000002);
     ("PCI_EXP_SLTCAP_MRLSP", 0x00000004); ("PCI_EXP_SLTCAP_AIP", 0x00000008);
     ("PCI_EXP_SLTCAP_PIP", 0x00000010); ("PCI_EXP_SLTCAP_HPS", 0x00000020);
     ("PCI_EXP_SLTCAP_HPC", 0x00000040); ("PCI_EXP_SLTCAP_SPLV", 0x00007f80);
     ("PCI_EXP_SLTCAP_SPLS", 0x00018000); ("PCI_EXP_SLTCAP_EIP", 0x00020000);
     ("PCI_EXP_SLTCAP_NCCS", 0x00040000); ("PCI_EXP_SLTCAP_PSN", 0xfff80000)];
   Define "PCI_EXP_SLTCTL" 0x18 [("PCI_EXP_SLTCTL_ABPE", 0x0001); ("PCI_EXP_SLTCTL_PFDE", 0x0002);
     ("PCI_EXP_SLTCTL_MRLSCE", 0x0004); ("PCI_EXP_SLTCTL_PDCE", 0x0008); ("PCI_EXP_SLTCTL_CCIE", 0x0010);
     ("PCI_EXP_SLTCTL_HPIE", 0x0020); ("PCI_EXP_SLTCTL_AIC", 0x00c0); ("PCI_EXP_SLTCTL_ATTN_IND_SHIFT", 6);
     ("PCI_EXP_SLTCTL_ATTN_IND_ON", 0x0040); ("PCI_EXP_SLTCTL_ATTN_IND_BLINK", 0x0080);
     ("PCI_EXP_SLTCTL_ATTN_IND_OFF", 0x00c0); ("PCI_EXP_SLTCTL_PIC", 0x0300);
     ("PCI_EXP_SLTCTL_PWR_IND_ON", 0x0100); ("PCI_EXP_SLTCTL_PWR_IND_BLINK", 0x0200);
     ("PCI_EXP_SLTCTL_PWR_IND_OFF", 0x0300); ("PCI_EXP_SLTCTL_PCC", 0x0400);
     ("PCI_EXP_SLTCTL_PWR_ON", 0x0000); ("PCI_EXP_SLTCTL_PWR_OFF", 0x0400); ("PCI_EXP_SLTCTL_EIC", 0x0800);
     ("PCI_EXP_SLTCTL_DLLSCE", 0x1000); ("PCI_EXP_SLTCTL_ASPL_DISABLE", 0x2000);
     ("PCI_EXP_SLTCTL_IBPD_DISABLE", 0x4000)];
   Define "PCI_EXP_SLTSTA" 0x1a [("PCI_EXP_SLTSTA_ABP", 0x0001); ("PCI_EXP_SLTSTA_PFD", 0x0002);
     ("PCI_EXP_SLTSTA_MRLSC", 0x0004); ("PCI_EXP_SLTSTA_PDC", 0x0008); ("PCI_EXP_SLTSTA_CC", 0x0010);
     ("PCI_EXP_SLTSTA_MRLSS", 0x0020); ("PCI_EXP_SLTSTA_PDS", 0x0040); ("PCI_EXP_SLTSTA_EIS", 0x0080);
     ("PCI_EXP_SLTSTA_DLLSC", 0x0100)];
   Define "PCI_EXP_RTCTL" 0x1c [("PCI_EXP_RTCTL_SECEE", 0x0001); ("PCI_EXP_RTCTL_SENFEE", 0x0002);
     ("PCI_EXP_RTCTL_SEFEE", 0x0004); ("PCI_EXP_RTCTL_PMEIE", 0x0008); ("PCI_EXP_RTCTL_CRSSVE", 0x0010)];
   Define "PCI_EXP_RTCAP" 0x1e [("PCI_EXP_RTCAP_CRSVIS", 0x0001)];
   Define "PCI_EXP_RTSTA" 0x20 [("PCI_EXP_RTSTA_PME", 0x00010000); ("PCI_EXP_RTSTA_PENDING", 0x00020000)]].

(** PCI Express: second device, link and slot registers. *)
Definition pci_exp2 : list pci_define :=
  [
   Define "PCI_EXP_DEVCAP2" 0x24 [("PCI_EXP_DEVCAP2_COMP_TMOUT_DIS", 0x00000010);
     ("PCI_EXP_DEVCAP2_ARI", 0x00000020); ("PCI_EXP_DEVCAP2_ATOMIC_ROUTE", 0x00000040);
     ("PCI_EXP_DEVCAP2_ATOMIC_COMP32", 0x00000080); ("PCI_EXP_DEVCAP2_ATOMIC_COMP64", 0x00000100);
     ("PCI_EXP_DEVCAP2_ATOMIC_COMP128", 0x00000200); ("PCI_EXP_DEVCAP2_LTR", 0x00000800);
     ("PCI_EXP_DEVCAP2_OBFF_MASK", 0x000c0000); ("PCI_EXP_DEVCAP2_OBFF_MSG", 0x00040000);
     ("PCI_EXP_DEVCAP2_OBFF_WAKE", 0x00080000); ("PCI_EXP_DEVCAP2_EE_PREFIX", 0x00200000)];
   Define "PCI_EXP_DEVCTL2" 0x28 [("PCI_EXP_DEVCTL2_COMP_TIMEOUT", 0x000f);
     ("PCI_EXP_DEVCTL2_COMP_TMOUT_DIS", 0x0010); ("PCI_EXP_DEVCTL2_ARI", 0x0020);
     ("PCI_EXP_DEVCTL2_ATOMIC_REQ", 0x0040); ("PCI_EXP_DEVCTL2_ATOMIC_EGRESS_BLOCK", 0x0080);
     ("PCI_EXP_DEVCTL2_IDO_REQ_EN", 0x0100); ("PCI_EXP_DEVCTL2_IDO_CMP_EN", 0x0200);
     ("PCI_EXP_DEVCTL2_LTR_EN", 0x0400); ("PCI_EXP_DEVCTL2_OBFF_MSGA_EN", 0x2000);
     ("PCI_EXP_DEVCTL2_OBFF_MSGB_EN", 0x4000); ("PCI_EXP_DEVCTL2_OBFF_WAKE_EN", 0x6000)];
   Define "PCI_EXP_DEVSTA2" 0x2a [];
   Define "PCI_CAP_EXP_RC_ENDPOINT_SIZEOF_V2" 0x2c [];
   Define "PCI_EXP_LNKCAP2" 0x2c [("PCI_EXP_LNKCAP2_SLS_2_5GB", 0x00000002);
     ("PCI_EXP_LNKCAP2_SLS_5_0GB", 0x00000004); ("PCI_EXP_LNKCAP2_SLS_8_0GB", 0x00000008);
     ("PCI_EXP_LNKCAP2_SLS_16_0GB", 0x00000010); ("PCI_EXP_LNKCAP2_SLS_32_0GB", 0x00000020);
     ("PCI_EXP_LNKCAP2_SLS_64_0GB", 0x00000040); ("PCI_EXP_LNKCAP2_CROSSLINK", 0x00000100)];
   Define "PCI_EXP_LNKCTL2" 0x30 [("PCI_EXP_LNKCTL2_TLS", 0x000f); ("PCI_EXP_LNKCTL2_TLS_2_5GT", 0x0001);
     ("PCI_EXP_LNKCTL2_TLS_5_0GT", 0x0002); ("PCI_EXP_LNKCTL2_TLS_8_0GT", 0x0003);
     ("PCI_EXP_LNKCTL2_TLS_16_0GT", 0x0004); ("PCI_EXP_LNKCTL2_TLS_32_0GT", 0x0005);
     ("PCI_EXP_LNKCTL2_TLS_64_0GT", 0x0006); ("PCI_EXP_LNKCTL2_ENTER_COMP", 0x0010);
     ("PCI_EXP_LNKCTL2_TX_MARGIN", 0x0380); ("PCI_EXP_LNKCTL2_HASD", 0x0020)];
   Define "PCI_EXP_LNKSTA2" 0x32 [("PCI_EXP_LNKSTA2_FLIT", 0x0400)];
   Define "PCI_CAP_EXP_ENDPOINT_SIZEOF_V2" 0x32 [];
   Define "PCI_EXP_SLTCAP2" 0x34 [("PCI_EXP_SLTCAP2_IBPD", 0x00000001)];
   Define "PCI_EXP_SLTCTL2" 0x38 [];
   Define "PCI_EXP_SLTSTA2" 0x3a []].

(** Extended capabilities. *)
Definition pci_ext_cap : list pci_define :=
  [
   Define "PCI_EXT_CAP_ID_ERR" 0x01 [];
   Define "PCI_EXT_CAP_ID_VC" 0x02 [];
   Define "PCI_EXT_CAP_ID_DSN" 0x03 [];
   Define "PCI_EXT_CAP_ID_PWR" 0x04 [];
   Define "PCI_EXT_CAP_ID_RCLD" 0x05 [];
   Define "PCI_EXT_CAP_ID_RCILC" 0x06 [];
   Define "PCI_EXT_CAP_ID_RCEC" 0x07 [];
   Define "PCI_EXT_CAP_ID_MFVC" 0x08 [];
   Define "PCI_EXT_CAP_ID_VC9" 0x09 [];
   Define "PCI_EXT_CAP_ID_RCRB" 0x0A [];
   Define "PCI_EXT_CAP_ID_VNDR" 0x0B [];
   Define "PCI_EXT_CAP_ID_CAC" 0x0C [];
   Define "PCI_EXT_CAP_ID_ACS" 0x0D [];
   Define "PCI_EXT_CAP_ID_ARI" 0x0E [];
   Define "PCI_EXT_CAP_ID_ATS" 0x0F [];
   Define "PCI_EXT_CAP_ID_SRIOV" 0x10 [];
   Define "PCI_EXT_CAP_ID_MRIOV" 0x11 [];
   Define "PCI_EXT_CAP_ID_MCAST" 0x12 [];
   Define "PCI_EXT_CAP_ID_PRI" 0x13 [];
   Define "PCI_EXT_CAP_ID_AMD_XXX" 0x14 [];
   Define "PCI_EXT_CAP_ID_REBAR" 0x15 [];
   Define "PCI_EXT_CAP_ID_DPA" 0x16 [];
   Define "PCI_EXT_CAP_ID_TPH" 0x17 [];
   Define "PCI_EXT_CAP_ID_LTR" 0x18 [];
   Define "PCI_EXT_CAP_ID_SECPCI" 0x19 [];
   Define "PCI_EXT_CAP_ID_PMUX" 0x1A [];
   Define "PCI_EXT_CAP_ID_PASID" 0x1B [];
   Define "PCI_EXT_CAP_ID_DPC" 0x1D [];
   Define "PCI_EXT_CAP_ID_L1SS" 0x1E [];
   Define "PCI_EXT_CAP_ID_PTM" 0x1F [];
   Define "PCI_EXT_CAP_ID_DVSEC" 0x23 [];
   Define "PCI_EXT_CAP_ID_DLF" 0x25 [];
   Define "PCI_EXT_CAP_ID_PL_16GT" 0x26 [];
   Define "PCI_EXT_CAP_ID_PL_32GT" 0x2A [];
   Define "PCI_EXT_CAP_ID_DOE" 0x2E [];
   Define "PCI_EXT_CAP_ID_IDE" 0x30 [];
   Define "PCI_EXT_CAP_ID_MAX" 0x30 [];
   Define "PCI_EXT_CAP_DSN_SIZEOF" 12 [];
   Define "PCI_EXT_CAP_MCAST_ENDPOINT_SIZEOF" 40 []].

(** Advanced error reporting. *)
Definition pci_err : list pci_define :=
  [
   Define "PCI_ERR_UNCOR_STATUS" 0x04 [("PCI_ERR_UNC_UND", 0x00000001); ("PCI_ERR_UNC_DLP", 0x00000010);
     ("PCI_ERR_UNC_SURPDN", 0x00000020); ("PCI_ERR_UNC_POISON_TLP", 0x00001000);
     ("PCI_ERR_UNC_FCP", 0x00002000); ("PCI_ERR_UNC_COMP_TIME", 0x00004000);
     ("PCI_ERR_UNC_COMP_ABORT", 0x00008000); ("PCI_ERR_UNC_UNX_COMP", 0x00010000);
     ("PCI_ERR_UNC_RX_OVER", 0x00020000); ("PCI_ERR_UNC_MALF_TLP", 0x00040000);
     ("PCI_ERR_UNC_ECRC", 0x00080000); ("PCI_ERR_UNC_UNSUP", 0x00100000); ("PCI_ERR_UNC_ACSV", 0x00200000);
     ("PCI_ERR_UNC_INTN", 0x00400000); ("PCI_ERR_UNC_MCBTLP", 0x00800000);
     ("PCI_ERR_UNC_ATOMEG", 0x01000000); ("PCI_ERR_UNC_TLPPRE", 0x02000000)];
   Define "PCI_ERR_UNCOR_MASK" 0x08 [];
   Define "PCI_ERR_UNCOR_SEVER" 0x0c [];
   Define "PCI_ERR_COR_STATUS" 0x10 [("PCI_ERR_COR_RCVR", 0x00000001); ("PCI_ERR_COR_BAD_TLP", 0x00000040);
     ("PCI_ERR_COR_BAD_DLLP", 0x00000080); ("PCI_ERR_COR_REP_ROLL", 0x00000100);
     ("PCI_ERR_COR_REP_TIMER", 0x00001000); ("PCI_ERR_COR_ADV_NFAT", 0x00002000);
     ("PCI_ERR_COR_INTERNAL", 0x00004000); ("PCI_ERR_COR_LOG_OVER", 0x00008000)];
   Define "PCI_ERR_COR_MASK" 0x14 [];
   Define "PCI_ERR_CAP" 0x18 [("PCI_ERR_CAP_ECRC_GENC", 0x00000020); ("PCI_ERR_CAP_ECRC_GENE", 0x00000040);
     ("PCI_ERR_CAP_ECRC_CHKC", 0x00000080); ("PCI_ERR_CAP_ECRC_CHKE", 0x00000100)];
   Define "PCI_ERR_HEADER_LOG" 0x1c [];
   Define "PCI_ERR_ROOT_COMMAND" 0x2c [("PCI_ERR_ROOT_CMD_COR_EN", 0x00000001);
     ("PCI_ERR_ROOT_CMD_NONFATAL_EN", 0x00000002); ("PCI_ERR_ROOT_CMD_FATAL_EN", 0x00000004)];
   Define "PCI_ERR_ROOT_STATUS" 0x30 [("PCI_ERR_ROOT_COR_RCV", 0x00000001);
     ("PCI_ERR_ROOT_MULTI_COR_RCV", 0x00000002); ("PCI_ERR_ROOT_UNCOR_RCV", 0x00000004);
     ("PCI_ERR_ROOT_MULTI_UNCOR_RCV", 0x00000008); ("PCI_ERR_ROOT_FIRST_FATAL", 0x00000010);
     ("PCI_ERR_ROOT_NONFATAL_RCV", 0x00000020); ("PCI_ERR_ROOT_FATAL_RCV", 0x00000040);
     ("PCI_ERR_ROOT_AER_IRQ", 0xf8000000)];
   Define "PCI_ERR_ROOT_ERR_SRC" 0x34 []].

(** Virtual channel. *)
Definition pci_vc : list pci_define :=
  [
   Define "PCI_VC_PORT_CAP1" 0x04 [("PCI_VC_CAP1_EVCC", 0x00000007); ("PCI_VC_CAP1_LPEVCC", 0x00000070);
     ("PCI_VC_CAP1_ARB_SIZE", 0x00000c00)];
   Define "PCI_VC_PORT_CAP2" 0x08 [("PCI_VC_CAP2_32_PHASE", 0x00000002);
     ("PCI_VC_CAP2_64_PHASE", 0x00000004); ("PCI_VC_CAP2_128_PHASE", 0x00000008);
     ("PCI_VC_CAP2_ARB_OFF", 0xff000000)];
   Define "PCI_VC_PORT_CTRL" 0x0c [("PCI_VC_PORT_CTRL_LOAD_TABLE", 0x00000001)];
   Define "PCI_VC_PORT_STATUS" 0x0e [("PCI_VC_PORT_STATUS_TABLE", 0x00000001)];
   Define "PCI_VC_RES_CAP" 0x10 [("PCI_VC_RES_CAP_32_PHASE", 0x00000002);
     ("PCI_VC_RES_CAP_64_PHASE", 0x00000004); ("PCI_VC_RES_CAP_128_PHASE", 0x00000008);
     ("PCI_VC_RES_CAP_128_PHASE_TB", 0x00000010); ("PCI_VC_RES_CAP_256_PHASE", 0x00000020);
     ("PCI_VC_RES_CAP_ARB_OFF", 0xff000000)];
   Define "PCI_VC_RES_CTRL" 0x14 [("PCI_VC_RES_CTRL_LOAD_TABLE", 0x00010000);
     ("PCI_VC_RES_CTRL_ARB_SELECT", 0x000e0000); ("PCI_VC_RES_CTRL_ID", 0x07000000);
     ("PCI_VC_RES_CTRL_ENABLE", 0x80000000)];
   Define "PCI_VC_RES_STATUS" 0x1a [("PCI_VC_RES_STATUS_TABLE", 0x00000001);
     ("PCI_VC_RES_STATUS_NEGO", 0x00000002)];
   Define "PCI_CAP_VC_BASE_SIZEOF" 0x10 [];
   Define "PCI_CAP_VC_PER_VC_SIZEOF" 0x0c []].

(** Power budgeting, RCEC, vendor specific. *)
Definition pci_pwr_rcec_vndr : list pci_define :=
  [
   Define "PCI_PWR_DSR" 0x04 [];
   Define "PCI_PWR_DATA" 0x08 [];
   Define "PCI_PWR_CAP" 0x0c [];
   Define "PCI_EXT_CAP_PWR_SIZEOF" 0x10 [];
   Define "PCI_RCEC_RCIEP_BITMAP" 4 [];
   Define "PCI_RCEC_BUSN" 8 [("PCI_RCEC_BUSN_REG_VER", 0x02)];
   Define "PCI_VNDR_HEADER" 4 []].

(** HyperTransport. *)
Definition pci_ht : list pci_define :=
  [
   Define "HT_3BIT_CAP_MASK" 0xE0 [];
   Define "HT_CAPTYPE_SLAVE" 0x00 [];
   Define "HT_CAPTYPE_HOST" 0x20 [];
   Define "HT_5BIT_CAP_MASK" 0xF8 [];
   Define "HT_CAPTYPE_IRQ" 0x80 [];
   Define "HT_CAPTYPE_REMAPPING_40" 0xA0 [];
   Define "HT_CAPTYPE_REMAPPING_64" 0xA2 [];
   Define "HT_CAPTYPE_UNITID_CLUMP" 0x90 [];
   Define "HT_CAPTYPE_EXTCONF" 0x98 [];
   Define "HT_CAPTYPE_MSI_MAPPING" 0xA8 [("HT_MSI_FLAGS", 0x02); ("HT_MSI_FLAGS_ENABLE", 0x1);
     ("HT_MSI_FLAGS_FIXED", 0x2); ("HT_MSI_FIXED_ADDR", 0x00000000FEE00000); ("HT_MSI_ADDR_LO", 0x04);
     ("HT_MSI_ADDR_LO_MASK", 0xFFF00000); ("HT_MSI_ADDR_HI", 0x08)];
   Define "HT_CAPTYPE_DIRECT_ROUTE" 0xB0 [];
   Define "HT_CAPTYPE_VCSET" 0xB8 [];
   Define "HT_CAPTYPE_ERROR_RETRY" 0xC0 [];
   Define "HT_CAPTYPE_GEN3" 0xD0 [];
   Define "HT_CAPTYPE_PM" 0xE0 [];
   Define "HT_CAP_SIZEOF_LONG" 28 [];
   Define "HT_CAP_SIZEOF_SHORT" 24 []].

(** ARI, ATS, PRI, PASID. *)
Definition pci_ari_ats_pri_pasid : list pci_define :=
  [
   Define "PCI_ARI_CAP" 0x04 [("PCI_ARI_CAP_MFVC", 0x0001); ("PCI_ARI_CAP_ACS", 0x0002)];
   Define "PCI_ARI_CTRL" 0x06 [("PCI_ARI_CTRL_MFVC", 0x0001); ("PCI_ARI_CTRL_ACS", 0x0002)];
   Define "PCI_EXT_CAP_ARI_SIZEOF" 8 [];
   Define "PCI_ATS_CAP" 0x04 [("PCI_ATS_MAX_QDEP", 32); ("PCI_ATS_CAP_PAGE_ALIGNED", 0x0020)];
   Define "PCI_ATS_CTRL" 0x06 [("PCI_ATS_CTRL_ENABLE", 0x8000); ("PCI_ATS_MIN_STU", 12)];
   Define "PCI_EXT_CAP_ATS_SIZEOF" 8 [];
   Define "PCI_PRI_CTRL" 0x04 [("PCI_PRI_CTRL_ENABLE", 0x0001); ("PCI_PRI_CTRL_RESET", 0x0002)];
   Define "PCI_PRI_STATUS" 0x06 [("PCI_PRI_STATUS_RF", 0x0001); ("PCI_PRI_STATUS_UPRGI", 0x0002);
     ("PCI_PRI_STATUS_STOPPED", 0x0100); ("PCI_PRI_STATUS_PASID", 0x8000)];
   Define "PCI_PRI_MAX_REQ" 0x08 [];
   Define "PCI_PRI_ALLOC_REQ" 0x0c [];
   Define "PCI_EXT_CAP_PRI_SIZEOF" 16 [];
   Define "PCI_PASID_CAP" 0x04 [("PCI_PASID_CAP_EXEC", 0x02); ("PCI_PASID_CAP_PRIV", 0x04)];
   Define "PCI_PASID_CTRL" 0x06 [("PCI_PASID_CTRL_ENABLE", 0x01); ("PCI_PASID_CTRL_EXEC", 0x02);
     ("PCI_PASID_CTRL_PRIV", 0x04)];
   Define "PCI_EXT_CAP_PASID_SIZEOF" 8 []].

(** Single root I/O virtualization. *)
Definition pci_sriov : list pci_define :=
  [
   Define "PCI_SRIOV_CAP" 0x04 [("PCI_SRIOV_CAP_VFM", 0x00000001)];
   Define "PCI_SRIOV_CTRL" 0x08 [("PCI_SRIOV_CTRL_VFE", 0x0001); ("PCI_SRIOV_CTRL_VFM", 0x0002);
     ("PCI_SRIOV_CTRL_INTR", 0x0004); ("PCI_SRIOV_CTRL_MSE", 0x0008); ("PCI_SRIOV_CTRL_ARI", 0x0010)];
   Define "PCI_SRIOV_STATUS" 0x0a [("PCI_SRIOV_STATUS_VFM", 0x0001)];
   Define "PCI_SRIOV_INITIAL_VF" 0x0c [];
   Define "PCI_SRIOV_TOTAL_VF" 0x0e [];
   Define "PCI_SRIOV_NUM_VF" 0x10 [];
   Define "PCI_SRIOV_FUNC_LINK" 0x12 [];
   Define "PCI_SRIOV_VF_OFFSET" 0x14 [];
   Define "PCI_SRIOV_VF_STRIDE" 0x16 [];
   Define "PCI_SRIOV_VF_DID" 0x1a [];
   Define "PCI_SRIOV_SUP_PGSIZE" 0x1c [];
   Define "PCI_SRIOV_SYS_PGSIZE" 0x20 [];
   Define "PCI_SRIOV_BAR" 0x24 [("PCI_SRIOV_NUM_BARS", 6)];
   Define "PCI_SRIOV_VFM" 0x3c [("PCI_SRIOV_VFM_UA", 0x0); ("PCI_SRIOV_VFM_MI", 0x1);
     ("PCI_SRIOV_VFM_MO", 0x2); ("PCI_SRIOV_VFM_AV", 0x3)];
   Define "PCI_EXT_CAP_SRIOV_SIZEOF" 0x40 [];
   Define "PCI_LTR_MAX_SNOOP_LAT" 0x4 [];
   Define "PCI_LTR_MAX_NOSNOOP_LAT" 0x6 [("PCI_LTR_VALUE_MASK", 0x000003ff);
     ("PCI_LTR_SCALE_MASK", 0x00001c00); ("PCI_LTR_SCALE_SHIFT", 10)];
   Define "PCI_EXT_CAP_LTR_SIZEOF" 8 []].

(** ACS, SATA, resizable BARs. *)
Definition pci_acs_sata_rebar : list pci_define :=
  [
   Define "PCI_ACS_CAP" 0x04 [("PCI_ACS_SV", 0x0001); ("PCI_ACS_TB", 0x0002); ("PCI_ACS_RR", 0x0004);
     ("PCI_ACS_CR", 0x0008); ("PCI_ACS_UF", 0x0010); ("PCI_ACS_EC", 0x0020); ("PCI_ACS_DT", 0x0040)];
   Define "PCI_ACS_EGRESS_BITS" 0x05 [];
   Define "PCI_ACS_CTRL" 0x06 [];
   Define "PCI_ACS_EGRESS_CTL_V" 0x08 [];
   Define "PCI_VSEC_HDR" 4 [("PCI_VSEC_HDR_LEN_SHIFT", 20)];
   Define "PCI_SATA_REGS" 4 [("PCI_SATA_REGS_MASK", 0xF); ("PCI_SATA_REGS_INLINE", 0xF)];
   Define "PCI_SATA_SIZEOF_SHORT" 8 [];
   Define "PCI_SATA_SIZEOF_LONG" 16 [];
   Define "PCI_REBAR_CAP" 4 [("PCI_REBAR_CAP_SIZES", 0x00FFFFF0)];
   Define "PCI_REBAR_CTRL" 8 [("PCI_REBAR_CTRL_BAR_IDX", 0x00000007);
     ("PCI_REBAR_CTRL_NBAR_MASK", 0x000000E0); ("PCI_REBAR_CTRL_NBAR_SHIFT", 5);
     ("PCI_REBAR_CTRL_BAR_SIZE", 0x00001F00); ("PCI_REBAR_CTRL_BAR_SHIFT", 8)]].

(** DPA and TPH. *)
Definition pci_dpa_tph : list pci_define :=
  [
   Define "PCI_DPA_CAP" 4 [("PCI_DPA_CAP_SUBSTATE_MASK", 0x1F)];
   Define "PCI_DPA_BASE_SIZEOF" 16 [];
   Define "PCI_TPH_CAP" 4 [("PCI_TPH_CAP_LOC_MASK", 0x600); ("PCI_TPH_LOC_NONE", 0x000);
     ("PCI_TPH_LOC_CAP", 0x200); ("PCI_TPH_LOC_MSIX", 0x400)];
   Define "PCI_TPH_CAP_ST_MASK" 0x07FF0000 [];
   Define "PCI_TPH_CAP_ST_SHIFT" 16 [];
   Define "PCI_TPH_BASE_SIZEOF" 0xc []].

(** Downstream port containment. *)
Definition pci_dpc : list pci_define :=
  [
   Define "PCI_EXP_DPC_CAP" 0x04 [];
   Define "PCI_EXP_DPC_IRQ" 0x001F [("PCI_EXP_DPC_CAP_RP_EXT", 0x0020);
     ("PCI_EXP_DPC_CAP_POISONED_TLP", 0x0040); ("PCI_EXP_DPC_CAP_SW_TRIGGER", 0x0080);
     ("PCI_EXP_DPC_RP_PIO_LOG_SIZE", 0x0F00); ("PCI_EXP_DPC_CAP_DL_ACTIVE", 0x1000)];
   Define "PCI_EXP_DPC_CTL" 0x06 [("PCI_EXP_DPC_CTL_EN_FATAL", 0x0001);
     ("PCI_EXP_DPC_CTL_EN_NONFATAL", 0x0002); ("PCI_EXP_DPC_CTL_INT_EN", 0x0008)];
   Define "PCI_EXP_DPC_STATUS" 0x08 [("PCI_EXP_DPC_STATUS_TRIGGER", 0x0001);
     ("PCI_EXP_DPC_STATUS_TRIGGER_RSN", 0x0006); ("PCI_EXP_DPC_STATUS_INTERRUPT", 0x0008);
     ("PCI_EXP_DPC_RP_BUSY", 0x0010); ("PCI_EXP_DPC_STATUS_TRIGGER_RSN_EXT", 0x0060)];
   Define "PCI_EXP_DPC_SOURCE_ID" 0x0A [];
   Define "PCI_EXP_DPC_RP_PIO_STATUS" 0x0C [];
   Define "PCI_EXP_DPC_RP_PIO_MASK" 0x10 [];
   Define "PCI_EXP_DPC_RP_PIO_SEVERITY" 0x14 [];
   Define "PCI_EXP_DPC_RP_PIO_SYSERROR" 0x18 [];
   Define "PCI_EXP_DPC_RP_PIO_EXCEPTION" 0x1C [];
   Define "PCI_EXP_DPC_RP_PIO_HEADER_LOG" 0x20 [];
   Define "PCI_EXP_DPC_RP_PIO_IMPSPEC_LOG" 0x30 [];
   Define "PCI_EXP_DPC_RP_PIO_TLPPREFIX_LOG" 0x34 []].

(** PTM and ASPM L1 substates. *)
Definition pci_ptm_l1ss : list pci_define :=
  [
   Define "PCI_PTM_CAP" 0x04 [("PCI_PTM_CAP_REQ", 0x00000001); ("PCI_PTM_CAP_RES", 0x00000002);
     ("PCI_PTM_CAP_ROOT", 0x00000004); ("PCI_PTM_GRANULARITY_MASK", 0x0000FF00)];
   Define "PCI_PTM_CTRL" 0x08 [("PCI_PTM_CTRL_ENABLE", 0x00000001); ("PCI_PTM_CTRL_ROOT", 0x00000002)];
   Define "PCI_L1SS_CAP" 0x04 [("PCI_L1SS_CAP_PCIPM_L1_2", 0x00000001);
     ("PCI_L1SS_CAP_PCIPM_L1_1", 0x00000002); ("PCI_L1SS_CAP_ASPM_L1_2", 0x00000004);
     ("PCI_L1SS_CAP_ASPM_L1_1", 0x00000008); ("PCI_L1SS_CAP_L1_PM_SS", 0x00000010);
     ("PCI_L1SS_CAP_CM_RESTORE_TIME", 0x0000ff00); ("PCI_L1SS_CAP_P_PWR_ON_SCALE", 0x00030000);
     ("PCI_L1SS_CAP_P_PWR_ON_VALUE", 0x00f80000)];
   Define "PCI_L1SS_CTL1" 0x08 [("PCI_L1SS_CTL1_PCIPM_L1_2", 0x00000001);
     ("PCI_L1SS_CTL1_PCIPM_L1_1", 0x00000002); ("PCI_L1SS_CTL1_ASPM_L1_2", 0x00000004);
     ("PCI_L1SS_CTL1_ASPM_L1_1", 0x00000008); ("PCI_L1SS_CTL1_L1_2_MASK", 0x00000005);
     ("PCI_L1SS_CTL1_L1SS_MASK", 0x0000000f); ("PCI_L1SS_CTL1_CM_RESTORE_TIME", 0x0000ff00);
     ("PCI_L1SS_CTL1_LTR_L12_TH_VALUE", 0x03ff0000); ("PCI_L1SS_CTL1_LTR_L12_TH_SCALE", 0xe0000000)];
   Define "PCI_L1SS_CTL2" 0x0c []].

(** DVSEC, data link feature, physical layer. *)
Definition pci_dvsec_dlf_pl16 : list pci_define :=
  [
   Define "PCI_DVSEC_HEADER1" 0x4 [];
   Define "PCI_DVSEC_HEADER2" 0x8 [];
   Define "PCI_DLF_CAP" 0x04 [("PCI_DLF_EXCHANGE_ENABLE", 0x80000000)];
   Define "PCI_PL_16GT_LE_CTRL" 0x20 [("PCI_PL_16GT_LE_CTRL_DSP_TX_PRESET_MASK", 0x0000000F);
     ("PCI_PL_16GT_LE_CTRL_USP_TX_PRESET_MASK", 0x000000F0); ("PCI_PL_16GT_LE_CTRL_USP_TX_PRESET_SHIFT", 4)]].

(** Data object exchange. *)
Definition pci_doe : list pci_define :=
  [
   Define "PCI_DOE_CAP" 0x04 [("PCI_DOE_CAP_INT_SUP", 0x00000001); ("PCI_DOE_CAP_INT_MSG_NUM", 0x00000ffe)];
   Define "PCI_DOE_CTRL" 0x08 [("PCI_DOE_CTRL_ABORT", 0x00000001); ("PCI_DOE_CTRL_INT_EN", 0x00000002);
     ("PCI_DOE_CTRL_GO", 0x80000000)];
   Define "PCI_DOE_STATUS" 0x0c [("PCI_DOE_STATUS_BUSY", 0x00000001);
     ("PCI_DOE_STATUS_INT_STATUS", 0x00000002); ("PCI_DOE_STATUS_ERROR", 0x00000004);
     ("PCI_DOE_STATUS_DATA_OBJECT_READY", 0x80000000)];
   Define "PCI_DOE_WRITE" 0x10 [];
   Define "PCI_DOE_READ" 0x14 [];
   Define "PCI_DOE_CAP_SIZEOF" 0x18 []].

(** DOE data objects. *)
Definition pci_doe_object : list pci_define :=
  [
   Define "PCI_DOE_DATA_OBJECT_HEADER_1_VID" 0x0000ffff [];
   Define "PCI_DOE_DATA_OBJECT_HEADER_1_TYPE" 0x00ff0000 [];
   Define "PCI_DOE_DATA_OBJECT_HEADER_2_LENGTH" 0x0003ffff [];
   Define "PCI_DOE_DATA_OBJECT_DISC_REQ_3_INDEX" 0x000000ff [];
   Define "PCI_DOE_DATA_OBJECT_DISC_RSP_3_VID" 0x0000ffff [];
   Define "PCI_DOE_DATA_OBJECT_DISC_RSP_3_PROTOCOL" 0x00ff0000 [];
   Define "PCI_DOE_DATA_OBJECT_DISC_RSP_3_NEXT_INDEX" 0xff000000 []].

(** Integrity and data encryption. *)
Definition pci_ide : list pci_define :=
  [
   Define "PCI_IDE_CAP" 0x04 [("PCI_IDE_CAP_LNK", 0x00000001); ("PCI_IDE_CAP_SEL", 0x00000002);
     ("PCI_IDE_CAP_KM", 0x00000040); ("PCI_IDE_CAP_CONF_REQ", 0x00000080);
     ("PCI_IDE_CAP_LNK_NUM", 0x0000E000); ("PCI_IDE_CAP_SEL_NUM", 0x00FF0000)];
   Define "PCI_IDE_CTRL" 0x08 [];
   Define "PCI_IDE_LNK_CTRL" 0x00 [("PCI_IDE_LNK_CTRL_ENABLE", 0x00000001);
     ("PCI_IDE_LNK_CTRL_NPR_AGG", 0x0000000C); ("PCI_IDE_LNK_CTRL_PR_AGG", 0x00000030);
     ("PCI_IDE_LNK_CTRL_CPL_AGG", 0x000000C0); ("PCI_IDE_LNK_CTRL_PCRC", 0x00000100);
     ("PCI_IDE_LNK_CTRL_ALGO", 0x0007C000); ("PCI_IDE_LNK_CTRL_TC", 0x00380000);
     ("PCI_IDE_LNK_CTRL_STREAM_ID", 0xFF000000)];
   Define "PCI_IDE_LNK_STATUS" 0x04 [];
   Define "PCI_IDE_SEL_CAP" 0x00 [("PCI_IDE_SEL_CAP_NUM_ASSOC_BLK", 0x0000000F)];
   Define "PCI_IDE_SEL_CTRL" 0x04 [("PCI_IDE_SEL_CTRL_ENABLE", 0x00000001);
     ("PCI_IDE_SEL_CTRL_NPR_AGG", 0x0000000C); ("PCI_IDE_SEL_CTRL_PR_AGG", 0x00000030);
     ("PCI_IDE_SEL_CTRL_CPL_AGG", 0x000000C0); ("PCI_IDE_SEL_CTRL_PCRC", 0x00000100);
     ("PCI_IDE_SEL_CTRL_CONF_REQ", 0x00000200); ("PCI_IDE_SEL_CTRL_PHE", 0x00003C00);
     ("PCI_IDE_SEL_CTRL_ALGO", 0x0007C000); ("PCI_IDE_SEL_CTRL_TC", 0x00380000);
     ("PCI_IDE_SEL_CTRL_DEFAULT", 0x00400000); ("PCI_IDE_SEL_CTRL_STREAM_ID", 0xFF000000)];
   Define "PCI_IDE_SEL_STATUS" 0x08 [("PCI_IDE_SEL_CHECK_FAIL_MSG", 0x80000000);
     ("PCI_IDE_SEL_STREAM_STATE", 0x0000000F)];
   Define "PCI_IDE_RID_ASSOC1" 0x0c [("PCI_IDE_RID_ASSOC1_LIMIT", 0x00FFFF00)];
   Define "PCI_IDE_RID_ASSOC2" 0x10 [("PCI_IDE_RID_ASSOC2_VALID", 0x00000001);
     ("PCI_IDE_RID_ASSOC2_BASE", 0x00FFFF00)];
   Define "PCI_IDE_ADDR_ASSOC1" 0x00 [("PCI_IDE_ADDR_ASSOC1_VALID", 0x00000001);
     ("PCI_IDE_ADDR_ASSOC1_MEM_BASE_LOWER", 0x000FFF00); ("PCI_IDE_ADDR_ASSOC1_MEM_LIMIT_LOWER", 0xFFF00000)];
   Define "PCI_IDE_ADDR_ASSOC2" 0x04 [("PCI_IDE_ADDR_ASSOC2_MEM_LIMIT_UPPER", 0xFFFFFFFF)];
   Define "PCI_IDE_ADDR_ASSOC3" 0x08 [("PCI_IDE_ADDR_ASSOC3_MEM_BASE_UPPER", 0xFFFFFFFF)]].

Definition pci_regs : list pci_define :=
  pci_std_header ++
  pci_bridge_header ++
  pci_cardbus_header ++
  pci_cap_list ++
  pci_pm ++
  pci_agp ++
  pci_vpd_slotid ++
  pci_msi ++
  pci_chswp_af ++
  pci_ea ++
  pci_x ++
  pci_exp ++
  pci_exp_root ++
  pci_exp2 ++
  pci_ext_cap ++
  pci_err ++
  pci_vc ++
  pci_pwr_rcec_vndr ++
  pci_ht ++
  pci_ari_ats_pri_pasid ++
  pci_sriov ++
  pci_acs_sata_rebar ++
  pci_dpa_tph ++
  pci_dpc ++
  pci_ptm_l1ss ++
  pci_dvsec_dlf_pl16 ++
  pci_doe ++
  pci_doe_object ++
  pci_ide.

(** ** The macros that take a register apart *)

Definition PCI_X_CMD_VERSION (x : Z) : Z := Z.land (Z.shiftr x 12) 3.
Definition PCI_EXT_CAP_ID (header : Z) : Z := Z.land header 0x0000ffff.
Definition PCI_EXT_CAP_VER (header : Z) : Z := Z.land (Z.shiftr header 16) 0xf.
Definition PCI_EXT_CAP_NEXT (header : Z) : Z := Z.land (Z.shiftr header 20) 0xffc.
Definition PCI_ERR_CAP_FEP (x : Z) : Z := Z.land x 0x1f.
Definition PCI_PWR_DATA_BASE (x : Z) : Z := Z.land x 0xff.
Definition PCI_PWR_DATA_SCALE (x : Z) : Z := Z.land (Z.shiftr x 8) 3.
Definition PCI_PWR_DATA_PM_SUB (x : Z) : Z := Z.land (Z.shiftr x 10) 7.
Definition PCI_PWR_DATA_PM_STATE (x : Z) : Z := Z.land (Z.shiftr x 13) 3.
Definition PCI_PWR_DATA_TYPE (x : Z) : Z := Z.land (Z.shiftr x 15) 7.
Definition PCI_PWR_DATA_RAIL (x : Z) : Z := Z.land (Z.shiftr x 18) 7.
Definition PCI_PWR_CAP_BUDGET (x : Z) : Z := Z.land x 1.
Definition PCI_RCEC_BUSN_NEXT (x : Z) : Z := Z.land (Z.shiftr x 8) 0xff.
Definition PCI_RCEC_BUSN_LAST (x : Z) : Z := Z.land (Z.shiftr x 16) 0xff.
Definition PCI_VNDR_HEADER_ID (x : Z) : Z := Z.land x 0xffff.
Definition PCI_VNDR_HEADER_REV (x : Z) : Z := Z.land (Z.shiftr x 16) 0xf.
Definition PCI_VNDR_HEADER_LEN (x : Z) : Z := Z.land (Z.shiftr x 20) 0xfff.
Definition PCI_ARI_CAP_NFN (x : Z) : Z := Z.land (Z.shiftr x 8) 0xff.
Definition PCI_ARI_CTRL_FG (x : Z) : Z := Z.land (Z.shiftr x 4) 7.
Definition PCI_ATS_CAP_QDEP (x : Z) : Z := Z.land x 0x1f.
Definition PCI_ATS_CTRL_STU (x : Z) : Z := Z.land x 0x1f.
Definition PCI_SRIOV_CAP_INTR (x : Z) : Z := Z.shiftr x 21.
Definition PCI_SRIOV_VFM_BIR (x : Z) : Z := Z.land x 7.
Definition PCI_SRIOV_VFM_OFFSET (x : Z) : Z := Z.land x (Z.lnot 7).
Definition PCI_DVSEC_HEADER1_VID (x : Z) : Z := Z.land x 0xffff.
Definition PCI_DVSEC_HEADER1_REV (x : Z) : Z := Z.land (Z.shiftr x 16) 0xf.
Definition PCI_DVSEC_HEADER1_LEN (x : Z) : Z := Z.land (Z.shiftr x 20) 0xfff.
Definition PCI_DVSEC_HEADER2_ID (x : Z) : Z := Z.land x 0xffff.

(** ** Fields selected by a mask

    A mask is a field when its bits are consecutive. [field_put] is the store that
    the file's users write as [(w & ~mask) | (v << shift)]. *)

Definition field_width (mask : Z) : Z := Z.log2 (Z.shiftr mask (field_shift mask)) + 1.

Definition is_field (mask : Z) : bool :=
  (0 <? mask) && (mask =? Z.shiftl (Z.ones (field_width mask)) (field_shift mask)).

Definition field_put (mask v w : Z) : Z :=
  Z.lor (Z.ldiff w mask) (Z.shiftl v (field_shift mask)).

Lemma field_shift_nonneg mask : 0 <= field_shift mask.
Proof. apply Z.log2_nonneg. Qed.

Lemma field_width_pos mask : 0 < field_width mask.
Proof. unfold field_width. pose proof (Z.log2_nonneg (Z.shiftr mask (field_shift mask))). lia. Qed.

Lemma testbit_field mask i :
  is_field mask = true -> 0 <= i ->
  Z.testbit mask i = (field_shift mask <=? i) && (i <? field_shift mask + field_width mask).
Proof.
  intros [_ E%Z.eqb_eq]%andb_prop Hi. rewrite E at 1.
  pose proof (field_shift_nonneg mask). pose proof (field_width_pos mask).
  rewrite Z.shiftl_spec by done.
  destruct (Z.leb_spec (field_shift mask) i); cbn [andb].
  - destruct (Z.ltb_spec i (field_shift mask + field_width mask)).
    + apply Z.ones_spec_low. lia.
    + apply Z.ones_spec_high. lia.
  - apply Z.testbit_neg_r. lia.
Qed.

(** Reading back a field gives what was stored. *)
Lemma field_get_put mask v w :
  is_field mask = true -> 0 <= v < 2 ^ field_width mask ->
  field_get mask (field_put mask v w) = v.
Proof.
  intros Hf Hv. unfold field_get, field_put.
  pose proof (field_shift_nonneg mask). pose proof (field_width_pos mask).
  apply Z.bits_inj'. intros i Hi. rewrite Z.shiftr_spec, Z.land_spec, Z.lor_spec, Z.ldiff_spec by lia.
  rewrite Z.shiftl_spec by lia. replace (i + field_shift mask - field_shift mask) with i by lia.
  rewrite (testbit_field mask) by (try done; lia).
  destruct (Z.leb_spec (field_shift mask) (i + field_shift mask)); [|lia].
  destruct (Z.ltb_spec (i + field_shift mask) (field_shift mask + field_width mask)); cbn [andb negb].
  - by rewrite andb_false_r, andb_true_r.
  - rewrite andb_false_r. symmetry. apply (Z.testbit_false v i); [lia|].
    rewrite Z.div_small; [done|]. split; [lia|].
    eapply Z.lt_le_trans; [apply Hv|]. apply Z.pow_le_mono_r; lia.
Qed.

(** Storing a field leaves the rest of the register alone. *)
Lemma field_put_other mask v w :
  is_field mask = true -> 0 <= v < 2 ^ field_width mask ->
  Z.ldiff (field_put mask v w) mask = Z.ldiff w mask.
Proof.
  intros Hf Hv. unfold field_put.
  pose proof (field_shift_nonneg mask). pose proof (field_width_pos mask).
  apply Z.bits_inj'. intros i Hi. rewrite !Z.ldiff_spec, Z.lor_spec, Z.ldiff_spec, Z.shiftl_spec by lia.
  rewrite (testbit_field mask) by done.
  destruct (Z.leb_spec (field_shift mask) i), (Z.ltb_spec i (field_shift mask + field_width mask)); cbn [andb negb];
    rewrite ?andb_false_r, ?andb_true_r; try done.
  - replace (Z.testbit v (i - field_shift mask)) with false; [by rewrite orb_false_r|]. symmetry.
    apply Z.testbit_false; [lia|]. rewrite Z.div_small; [done|]. split; [lia|].
    eapply Z.lt_le_trans; [apply Hv|]. apply Z.pow_le_mono_r; lia.
  - rewrite (Z.testbit_neg_r v) by lia. by rewrite orb_false_r.
  - rewrite (Z.testbit_neg_r v) by lia. by rewrite orb_false_r.
Qed.

(** The extraction macros and the masks of the fields they extract. *)
Definition pci_extractors : list ((Z -> Z) * Z) :=
  [(PCI_X_CMD_VERSION, 0x3000); (PCI_EXT_CAP_ID, 0xffff); (PCI_EXT_CAP_VER, 0xf0000);
   (PCI_ERR_CAP_FEP, 0x1f); (PCI_PWR_DATA_BASE, 0xff); (PCI_PWR_DATA_SCALE, 0x300);
   (PCI_PWR_DATA_PM_SUB, 0x1c00); (PCI_PWR_DATA_PM_STATE, 0x6000); (PCI_PWR_DATA_TYPE, 0x38000);
   (PCI_PWR_DATA_RAIL, 0x1c0000); (PCI_PWR_CAP_BUDGET, 0x1); (PCI_RCEC_BUSN_NEXT, 0xff00);
   (PCI_RCEC_BUSN_LAST, 0xff0000); (PCI_VNDR_HEADER_ID, 0xffff); (PCI_VNDR_HEADER_REV, 0xf0000);
   (PCI_VNDR_HEADER_LEN, 0xfff00000); (PCI_ARI_CAP_NFN, 0xff00); (PCI_ARI_CTRL_FG, 0x70);
   (PCI_ATS_CAP_QDEP, 0x1f); (PCI_ATS_CTRL_STU, 0x1f); (PCI_SRIOV_VFM_BIR, 0x7);
   (PCI_DVSEC_HEADER1_VID, 0xffff); (PCI_DVSEC_HEADER1_REV, 0xf0000);
   (PCI_DVSEC_HEADER1_LEN, 0xfff00000); (PCI_DVSEC_HEADER2_ID, 0xffff)].

Lemma pci_extractors_get : Forall (fun e => forall w, fst e w = field_get (snd e) w) pci_extractors.
Proof.
  repeat (constructor;
    [intros w; cbn [fst snd]; unfold field_get;
     match goal with |- _ = Z.shiftr _ (field_shift ?m) =>
       let s := eval vm_compute in (field_shift m) in change (field_shift m) with s end;
     rewrite Z.shiftr_land, ?Z.shiftr_0_r; reflexivity|]).
  constructor.
Qed.

(** An extended capability header is its identifier, its version and the offset of
    the next capability, a multiple of four; bits 20 and 21 are reserved. *)
Lemma ext_cap_header_parts header :
  u32 header ->
  header = PCI_EXT_CAP_ID header + 65536 * PCI_EXT_CAP_VER header +
           1048576 * PCI_EXT_CAP_NEXT header + 1048576 * (Z.land (Z.shiftr header 20) 3).
Proof.
  intros H. unfold PCI_EXT_CAP_ID, PCI_EXT_CAP_VER, PCI_EXT_CAP_NEXT.
  assert (Z.land (Z.shiftr header 20) 0xffc + Z.land (Z.shiftr header 20) 3 = Z.shiftr header 20) as E.
  { rewrite <- Z.add_lor_land, <- Z.land_lor_distr_r.
    assert (Z.land (Z.land (Z.shiftr header 20) 4092) (Z.land (Z.shiftr header 20) 3) = 0) as ->.
    { rewrite (Z.land_comm _ 3), Z.land_assoc, <- (Z.land_assoc _ 4092 3). change (Z.land 4092 3) with 0.
      by rewrite Z.land_0_r. }
    change (Z.lor 4092 3) with (Z.ones 12). rewrite Z.land_ones, Z.add_0_r by lia.
    rewrite Z.shiftr_div_pow2 by lia. apply Z.mod_small. change (2 ^ 20) with 1048576. change (2 ^ 12) with 4096.
    cint. Z.div_mod_to_equations; lia. }
  change 65535 with (Z.ones 16). change 15 with (Z.ones 4). rewrite !Z.land_ones by lia.
  rewrite !Z.shiftr_div_pow2 in * by lia. change (2 ^ 16) with 65536 in *. change (2 ^ 4) with 16 in *.
  change (2 ^ 20) with 1048576 in *.
  assert (header = header mod 65536 + 65536 * (header / 65536 mod 16) + 1048576 * (header / 1048576)); [|lia].
  change 1048576 with (65536 * 16). rewrite <- Z.div_div by lia. Z.div_mod_to_equations; lia.
Qed.
