(* ===== verification/Byteorder.v ===== *)
(** * Byte order: include/linux/swab.h and byteorder/little_endian.h

    The byte-swapping macros and inline functions of the installed headers, for a
    64-bit little-endian x86, and include/asm/swab.h with its [bswap] instructions.
    Every route to a swapped value (the constant macros, the inline functions, the
    compiler's builtin) reverses the bytes, and swapping in place reverses them in
    memory. *)
From S2P Require Import Prelude Bytes.

(** ** The macros on constants *)

Definition constant_swab16 (x : Z) : Z :=
  wrap16 (Z.lor (Z.shiftl (Z.land (wrap16 x) 0x00ff) 8)
                (Z.shiftr (Z.land (wrap16 x) 0xff00) 8)).

Definition constant_swab32 (x : Z) : Z :=
  wrap32 (Z.lor (Z.lor (Z.lor
    (Z.shiftl (Z.land (wrap32 x) 0x000000ff) 24)
    (Z.shiftl (Z.land (wrap32 x) 0x0000ff00) 8))
    (Z.shiftr (Z.land (wrap32 x) 0x00ff0000) 8))
    (Z.shiftr (Z.land (wrap32 x) 0xff000000) 24)).

Definition constant_swab64 (x : Z) : Z :=
  wrap64 (Z.lor (Z.lor (Z.lor (Z.lor (Z.lor (Z.lor (Z.lor
    (Z.shiftl (Z.land (wrap64 x) 0x00000000000000ff) 56)
    (Z.shiftl (Z.land (wrap64 x) 0x000000000000ff00) 40))
    (Z.shiftl (Z.land (wrap64 x) 0x0000000000ff0000) 24))
    (Z.shiftl (Z.land (wrap64 x) 0x00000000ff000000) 8))
    (Z.shiftr (Z.land (wrap64 x) 0x000000ff00000000) 8))
    (Z.shiftr (Z.land (wrap64 x) 0x0000ff0000000000) 24))
    (Z.shiftr (Z.land (wrap64 x) 0x00ff000000000000) 40))
    (Z.shiftr (Z.land (wrap64 x) 0xff00000000000000) 56)).

Definition constant_swahw32 (x : Z) : Z :=
  wrap32 (Z.lor (Z.shiftl (Z.land (wrap32 x) 0x0000ffff) 16)
                (Z.shiftr (Z.land (wrap32 x) 0xffff0000) 16)).

Definition constant_swahb32 (x : Z) : Z :=
  wrap32 (Z.lor (Z.shiftl (Z.land (wrap32 x) 0x00ff00ff) 8)
                (Z.shiftr (Z.land (wrap32 x) 0xff00ff00) 8)).

(** ** The [bswap] instruction, [__arch_swab32] and [__arch_swab64] *)

(** The instruction on an [n]-byte register: byte [i] becomes byte [n - 1 - i]. *)
Definition reverse_bytes (n : nat) (x : Z) : Z := le_decode (rev (le_encode n x)).

Definition arch_swab32 (val : Z) : Z := reverse_bytes 4 val.
Definition arch_swab64 (val : Z) : Z := reverse_bytes 8 val.

(** ** The functions *)

(** [__fswab16], ...: the architecture's function where it has one. *)
Definition fswab16 (val : Z) : Z := constant_swab16 val.
Definition fswab32 (val : Z) : Z := arch_swab32 val.
Definition fswab64 (val : Z) : Z := arch_swab64 val.
Definition fswahw32 (val : Z) : Z := constant_swahw32 val.
Definition fswahb32 (val : Z) : Z := constant_swahb32 val.

(** The [__SWAB_64_THRU_32__] body of [__fswab64]. *)
Definition fswab64_thru_32 (val : Z) : Z :=
  let h := wrap32 (Z.shiftr val 32) in
  let l := wrap32 (Z.land val (Z.shiftl 1 32 - 1)) in
  Z.lor (wrap64 (Z.shiftl (fswab32 l) 32)) (fswab32 h).

(** How the preprocessor and the compiler expand a swap: [__HAVE_BUILTIN_BSWAPn__],
    or [__builtin_constant_p(x)], or the inline function. *)
Inductive expansion : Type := Builtin | Constant | Inline.
#[export] Instance expansion_eq_dec : EqDecision expansion.
Proof. solve_decision. Defined.

Definition swab16 (e : expansion) (x : Z) : Z :=
  match e with
  | Builtin => wrap16 (reverse_bytes 2 (wrap16 x))
  | Constant => wrap16 (constant_swab16 x)
  | Inline => wrap16 (fswab16 (wrap16 x))
  end.
Definition swab32 (e : expansion) (x : Z) : Z :=
  match e with
  | Builtin => wrap32 (reverse_bytes 4 (wrap32 x))
  | Constant => wrap32 (constant_swab32 x)
  | Inline => wrap32 (fswab32 (wrap32 x))
  end.
Definition swab64 (e : expansion) (x : Z) : Z :=
  match e with
  | Builtin => wrap64 (reverse_bytes 8 (wrap64 x))
  | Constant => wrap64 (constant_swab64 x)
  | Inline => wrap64 (fswab64 (wrap64 x))
  end.

(** [__BITS_PER_LONG] is 64. *)
Definition swab (e : expansion) (y : Z) : Z := swab64 e y.

(** These two have no builtin. *)
Definition swahw32 (const : bool) (x : Z) : Z :=
  if const then constant_swahw32 x else fswahw32 (wrap32 x).
Definition swahb32 (const : bool) (x : Z) : Z :=
  if const then constant_swahb32 x else fswahb32 (wrap32 x).

(** ** Through a pointer: memory is a list of bytes, [None] an access outside it *)

Definition load_le (n : nat) (mem : list byte) (p : nat) : option Z :=
  if (p + n <=? length mem)%nat then Some (le_decode (take n (drop p mem))) else None.
Definition store_le (n : nat) (mem : list byte) (p : nat) (v : Z) : option (list byte) :=
  if (p + n <=? length mem)%nat then Some (take p mem ++ le_encode n v ++ drop (p + n) mem) else None.

Definition swab16p (e : expansion) (mem : list byte) (p : nat) : option Z := swab16 e <$> load_le 2 mem p.
Definition swab32p (e : expansion) (mem : list byte) (p : nat) : option Z := swab32 e <$> load_le 4 mem p.
Definition swab64p (e : expansion) (mem : list byte) (p : nat) : option Z := swab64 e <$> load_le 8 mem p.
Definition swahw32p (const : bool) (mem : list byte) (p : nat) : option Z := swahw32 const <$> load_le 4 mem p.
Definition swahb32p (const : bool) (mem : list byte) (p : nat) : option Z := swahb32 const <$> load_le 4 mem p.

Definition swab16s (e : expansion) (mem : list byte) (p : nat) : option (list byte) :=
  swab16p e mem p ≫= store_le 2 mem p.
Definition swab32s (e : expansion) (mem : list byte) (p : nat) : option (list byte) :=
  swab32p e mem p ≫= store_le 4 mem p.
Definition swab64s (e : expansion) (mem : list byte) (p : nat) : option (list byte) :=
  swab64p e mem p ≫= store_le 8 mem p.
Definition swahw32s (const : bool) (mem : list byte) (p : nat) : option (list byte) :=
  swahw32p const mem p ≫= store_le 4 mem p.
Definition swahb32s (const : bool) (mem : list byte) (p : nat) : option (list byte) :=
  swahb32p const mem p ≫= store_le 4 mem p.

(** ** little_endian.h *)

Definition constant_htonl (x : Z) : Z := constant_swab32 x.
Definition constant_ntohl (x : Z) : Z := constant_swab32 (wrap32 x).
Definition constant_htons (x : Z) : Z := constant_swab16 x.
Definition constant_ntohs (x : Z) : Z := constant_swab16 (wrap16 x).
Definition constant_cpu_to_be64 (x : Z) : Z := constant_swab64 x.
Definition constant_be64_to_cpu (x : Z) : Z := constant_swab64 (wrap64 x).
Definition constant_cpu_to_be32 (x : Z) : Z := constant_swab32 x.
Definition constant_be32_to_cpu (x : Z) : Z := constant_swab32 (wrap32 x).
Definition constant_cpu_to_be16 (x : Z) : Z := constant_swab16 x.
Definition constant_be16_to_cpu (x : Z) : Z := constant_swab16 (wrap16 x).
Definition cpu_to_le64 (x : Z) : Z := wrap64 x.
Definition le64_to_cpu (x : Z) : Z := wrap64 x.
Definition cpu_to_le32 (x : Z) : Z := wrap32 x.
Definition le32_to_cpu (x : Z) : Z := wrap32 x.
Definition cpu_to_le16 (x : Z) : Z := wrap16 x.
Definition le16_to_cpu (x : Z) : Z := wrap16 x.
Definition cpu_to_be64 (e : expansion) (x : Z) : Z := swab64 e x.
Definition be64_to_cpu (e : expansion) (x : Z) : Z := swab64 e (wrap64 x).
Definition cpu_to_be32 (e : expansion) (x : Z) : Z := swab32 e x.
Definition be32_to_cpu (e : expansion) (x : Z) : Z := swab32 e (wrap32 x).
Definition cpu_to_be16 (e : expansion) (x : Z) : Z := swab16 e x.
Definition be16_to_cpu (e : expansion) (x : Z) : Z := swab16 e (wrap16 x).

(** Through a pointer, and in place: little endian is the machine's own order. *)
Definition cpu_to_le64p (mem : list byte) (p : nat) : option Z := load_le 8 mem p.
Definition cpu_to_le32p (mem : list byte) (p : nat) : option Z := load_le 4 mem p.
Definition cpu_to_le16p (mem : list byte) (p : nat) : option Z := load_le 2 mem p.
Definition cpu_to_be64p (e : expansion) (mem : list byte) (p : nat) : option Z := swab64p e mem p.
Definition cpu_to_be32p (e : expansion) (mem : list byte) (p : nat) : option Z := swab32p e mem p.
Definition cpu_to_be16p (e : expansion) (mem : list byte) (p : nat) : option Z := swab16p e mem p.
Definition cpu_to_les (mem : list byte) : option (list byte) := Some mem.
Definition cpu_to_be64s (e : expansion) (mem : list byte) (p : nat) : option (list byte) := swab64s e mem p.
Definition cpu_to_be32s (e : expansion) (mem : list byte) (p : nat) : option (list byte) := swab32s e mem p.
Definition cpu_to_be16s (e : expansion) (mem : list byte) (p : nat) : option (list byte) := swab16s e mem p.

(** ** Masks, shifts and bytes *)

Lemma land_byte x k :
  0 <= k -> Z.land x (Z.shiftl 255 (8 * k)) = (x / 2 ^ (8 * k)) mod 256 * 2 ^ (8 * k).
Proof.
  intros Hk. rewrite <- (Z.shiftl_mul_pow2 _ (8 * k)), <- Z.shiftr_div_pow2 by lia.
  change 256 with (2 ^ 8). rewrite <- Z.land_ones by lia. change 255 with (Z.ones 8).
  apply Z.bits_inj'. intros i Hi. rewrite Z.land_spec, !Z.shiftl_spec, Z.land_spec by lia.
  destruct (Z.le_gt_cases (8 * k) i).
  - rewrite Z.shiftr_spec by lia. f_equal. f_equal. lia.
  - rewrite !(Z.testbit_neg_r _ (i - 8 * k)) by lia. by rewrite andb_false_r.
Qed.

Lemma lor_above a c n : 0 <= n -> 0 <= a < 2 ^ n -> Z.lor (c * 2 ^ n) a = c * 2 ^ n + a.
Proof.
  intros Hn Ha. rewrite <- Z.add_lor_land.
  assert (Z.land (c * 2 ^ n) a = 0) as ->; [|lia].
  rewrite <- (Z.mod_small a (2 ^ n)) by done. rewrite <- Z.land_ones by lia.
  rewrite Z.land_comm, <- Z.land_assoc, (Z.land_comm (Z.ones n)), Z.land_ones by lia.
  rewrite Z_mod_mult. apply Z.land_0_r.
Qed.

(** Byte [k] of [x]. *)
Definition byte_at (x k : Z) : Z := (x / 2 ^ (8 * k)) mod 256.

Lemma byte_at_range x k : 0 <= byte_at x k < 256.
Proof. apply Z.mod_pos_bound. lia. Qed.

Lemma shl_byte x k s :
  0 <= k -> 0 <= s -> Z.shiftl (Z.land x (Z.shiftl 255 (8 * k))) s = byte_at x k * 2 ^ (8 * k + s).
Proof.
  intros Hk Hs. rewrite land_byte, Z.shiftl_mul_pow2, <- Z.mul_assoc, <- Z.pow_add_r by lia. done.
Qed.

Lemma shr_byte x k s :
  0 <= s <= 8 * k -> Z.shiftr (Z.land x (Z.shiftl 255 (8 * k))) s = byte_at x k * 2 ^ (8 * k - s).
Proof.
  intros Hs. rewrite land_byte, Z.shiftr_div_pow2 by lia.
  replace (2 ^ (8 * k)) with (2 ^ (8 * k - s) * 2 ^ s) by (rewrite <- Z.pow_add_r by lia; f_equal; lia).
  rewrite Z.mul_assoc, Z.div_mul by lia. f_equal. unfold byte_at. do 2 f_equal.
  rewrite <- Z.pow_add_r by lia. f_equal. lia.
Qed.

Lemma byte_at_wrap n x k : 0 <= k -> 8 * k + 8 <= n -> byte_at (x mod 2 ^ n) k = byte_at x k.
Proof.
  intros Hk Hn. unfold byte_at. rewrite <- !Z.shiftr_div_pow2 by lia.
  change 256 with (2 ^ 8). rewrite <- !Z.land_ones by lia.
  apply Z.bits_inj'. intros i Hi. rewrite !Z.land_spec, !Z.shiftr_spec by lia.
  destruct (Z.le_gt_cases 8 i); [rewrite Z.ones_spec_high by lia; by rewrite !andb_false_r|].
  f_equal. rewrite Z.land_spec, Z.ones_spec_low by lia. apply andb_true_r.
Qed.

(** The value whose bytes, most significant first, are [bs]. *)
Fixpoint be_value (bs : list Z) : Z :=
  match bs with
  | [] => 0
  | b :: bs => b * 2 ^ (8 * Z.of_nat (length bs)) + be_value bs
  end.

Lemma be_value_bound bs :
  Forall (fun b => 0 <= b < 256) bs -> 0 <= be_value bs < 2 ^ (8 * Z.of_nat (length bs)).
Proof.
  induction 1 as [|b bs Hb _ IH]; [done|]. cbn [be_value length].
  replace (8 * Z.of_nat (S (length bs))) with (8 + 8 * Z.of_nat (length bs)) by lia.
  rewrite Z.pow_add_r by lia. change (2 ^ 8) with 256. nia.
Qed.

(** The macros [or] the shifted bytes from the left. *)
Fixpoint be_lor (acc : Z) (bs : list Z) : Z :=
  match bs with
  | [] => acc
  | b :: bs => be_lor (Z.lor acc (b * 2 ^ (8 * Z.of_nat (length bs)))) bs
  end.

Lemma be_lor_value acc bs :
  Forall (fun b => 0 <= b < 256) bs -> be_lor acc bs = Z.lor acc (be_value bs).
Proof.
  intros H. revert acc. induction H as [|b bs _ H IH]; intros acc; cbn [be_lor be_value].
  - by rewrite Z.lor_0_r.
  - by rewrite IH, <- Z.lor_assoc, lor_above by (try apply be_value_bound; lia || done).
Qed.

(** A byte reversal, byte by byte. *)
Lemma le_decode_rev bs : le_decode (rev bs) = be_value (map byte_to_Z bs).
Proof.
  assert (forall cs ds, le_decode (cs ++ ds) = le_decode cs + 2 ^ (8 * Z.of_nat (length cs)) * le_decode ds) as Happ.
  { induction cs as [|c cs IH]; intros ds; [cbn; lia|]. cbn [app le_decode length]. rewrite IH.
    replace (8 * Z.of_nat (S (length cs))) with (8 + 8 * Z.of_nat (length cs)) by lia.
    rewrite Z.pow_add_r by lia. change (2 ^ 8) with 256. lia. }
  induction bs as [|b bs IH]; [done|]. cbn [rev map be_value]. rewrite Happ, IH, length_rev, length_map.
  cbn [le_decode]. lia.
Qed.

Lemma le_encode_bytes n x :
  map byte_to_Z (le_encode n x) = map (fun k => byte_at x (Z.of_nat k)) (seq 0 n).
Proof.
  revert x. induction n as [|n IH]; intros x; [done|]. cbn [le_encode map seq]. f_equal.
  - rewrite byte_to_of_Z. unfold byte_at. by rewrite Z.div_1_r.
  - rewrite IH, <- seq_shift, map_map. apply map_ext. intros k. unfold byte_at.
    rewrite Z.div_div by lia. do 2 f_equal. change 256 with (2 ^ 8).
    rewrite <- Z.pow_add_r by lia. f_equal. lia.
Qed.

Lemma reverse_bytes_value n x :
  reverse_bytes n x = be_value (map (fun k => byte_at x (Z.of_nat k)) (seq 0 n)).
Proof. unfold reverse_bytes. by rewrite le_decode_rev, le_encode_bytes. Qed.

Lemma reverse_bytes_bound n x : 0 <= reverse_bytes n x < 2 ^ (8 * Z.of_nat n).
Proof.
  rewrite reverse_bytes_value.
  pose proof (be_value_bound (map (fun k => byte_at x (Z.of_nat k)) (seq 0 n))) as H.
  rewrite length_map, length_seq in H. apply H, Forall_map, Forall_forall.
  intros k _. apply byte_at_range.
Qed.

Lemma reverse_bytes_involutive n x :
  0 <= x < 2 ^ (8 * Z.of_nat n) -> reverse_bytes n (reverse_bytes n x) = x.
Proof.
  intros Hx. unfold reverse_bytes.
  rewrite (le_encode_decode n) by (rewrite length_rev; apply length_le_encode).
  rewrite rev_involutive. apply le_decode_encode.
  replace (256 ^ Z.of_nat n) with (2 ^ (8 * Z.of_nat n)); [done|]. by rewrite Z.pow_mul_r by lia.
Qed.

Lemma reverse_bytes_wrap n m x :
  8 * Z.of_nat n <= m -> reverse_bytes n (x mod 2 ^ m) = reverse_bytes n x.
Proof.
  intros Hm. rewrite !reverse_bytes_value. f_equal. apply map_ext_in. intros k Hk%in_seq.
  apply byte_at_wrap; lia.
Qed.

(** ** Every expansion reverses the bytes *)

Ltac all_bytes := repeat apply Forall_cons_2; try apply byte_at_range; apply Forall_nil_2.

Ltac or_bytes n y :=
  transitivity (be_lor 0 (map (fun k => byte_at y (Z.of_nat k)) (seq 0 n)));
  [unfold be_lor; cbn [map seq length]; rewrite Z.lor_0_l; repeat apply (f_equal2 Z.lor)|
   rewrite be_lor_value, Z.lor_0_l by all_bytes; symmetry; apply reverse_bytes_value].


Lemma constant_swab16_reverse x : constant_swab16 x = reverse_bytes 2 x.
Proof.
  rewrite <- (reverse_bytes_wrap 2 16) by lia. unfold constant_swab16, wrap16.
  generalize (x mod 2 ^ 16) as y. intros y.
  rewrite <- (Z.mod_small (reverse_bytes 2 y) (2 ^ 16)) by apply (reverse_bytes_bound 2).
  f_equal. or_bytes 2%nat y.
  - apply (shl_byte y 0 8); lia.
  - apply (shr_byte y 1 8); lia.
Qed.

Lemma constant_swab32_reverse x : constant_swab32 x = reverse_bytes 4 x.
Proof.
  rewrite <- (reverse_bytes_wrap 4 32) by lia. unfold constant_swab32, wrap32.
  generalize (x mod 2 ^ 32) as y. intros y.
  rewrite <- (Z.mod_small (reverse_bytes 4 y) (2 ^ 32)) by apply (reverse_bytes_bound 4).
  f_equal. or_bytes 4%nat y.
  - apply (shl_byte y 0 24); lia.
  - apply (shl_byte y 1 8); lia.
  - apply (shr_byte y 2 8); lia.
  - apply (shr_byte y 3 24); lia.
Qed.

Lemma constant_swab64_reverse x : constant_swab64 x = reverse_bytes 8 x.
Proof.
  rewrite <- (reverse_bytes_wrap 8 64) by lia. unfold constant_swab64, wrap64.
  generalize (x mod 2 ^ 64) as y. intros y.
  rewrite <- (Z.mod_small (reverse_bytes 8 y) (2 ^ 64)) by apply (reverse_bytes_bound 8).
  f_equal. or_bytes 8%nat y.
  - apply (shl_byte y 0 56); lia.
  - apply (shl_byte y 1 40); lia.
  - apply (shl_byte y 2 24); lia.
  - apply (shl_byte y 3 8); lia.
  - apply (shr_byte y 4 8); lia.
  - apply (shr_byte y 5 24); lia.
  - apply (shr_byte y 6 40); lia.
  - apply (shr_byte y 7 56); lia.
Qed.

(** All three expansions of all three swaps. *)
Lemma swab16_reverse e x : swab16 e x = reverse_bytes 2 x.
Proof.
  destruct e; unfold swab16, fswab16; rewrite ?constant_swab16_reverse; unfold wrap16;
    rewrite ?reverse_bytes_wrap by lia; apply Z.mod_small, (reverse_bytes_bound 2).
Qed.
Lemma swab32_reverse e x : swab32 e x = reverse_bytes 4 x.
Proof.
  destruct e; unfold swab32, fswab32, arch_swab32; rewrite ?constant_swab32_reverse; unfold wrap32;
    rewrite ?reverse_bytes_wrap by lia; apply Z.mod_small, (reverse_bytes_bound 4).
Qed.
Lemma swab64_reverse e x : swab64 e x = reverse_bytes 8 x.
Proof.
  destruct e; unfold swab64, fswab64, arch_swab64; rewrite ?constant_swab64_reverse; unfold wrap64;
    rewrite ?reverse_bytes_wrap by lia; apply Z.mod_small, (reverse_bytes_bound 8).
Qed.

(** Swapping the halves through 32-bit swaps is the 64-bit swap. *)
Lemma fswab64_thru_32_reverse x : u64 x -> fswab64_thru_32 x = fswab64 x.
Proof.
  intros Hx. unfold fswab64_thru_32, fswab64, fswab32, arch_swab32, arch_swab64.
  change (Z.shiftl 1 32 - 1) with (Z.ones 32). rewrite Z.land_ones by lia.
  unfold wrap32. rewrite !reverse_bytes_wrap, Z.shiftr_div_pow2 by lia.
  pose proof (reverse_bytes_bound 4 x) as B. pose proof (reverse_bytes_bound 4 (x / 2 ^ 32)) as B'.
  rewrite Z.shiftl_mul_pow2 by lia. unfold wrap64. rewrite Z.mod_small by (cbn in *; lia).
  rewrite lor_above by (cbn in *; lia). rewrite !reverse_bytes_value.
  change (seq 0 8) with (seq 0 4 ++ seq 4 4). cbn [seq map app be_value length].
  assert (forall k, byte_at (x / 2 ^ 32) (Z.of_nat k) = byte_at x (Z.of_nat (4 + k))) as H.
  { intros k. unfold byte_at. rewrite Z.div_div, <- Z.pow_add_r by lia. do 3 f_equal. lia. }
  rewrite !H. cbn [Nat.add]. lia.
Qed.

(** ** In memory *)

Lemma le_encode_reverse n bs : length bs = n -> le_encode n (reverse_bytes n (le_decode bs)) = rev bs.
Proof.
  intros H. unfold reverse_bytes. rewrite (le_encode_decode n bs) by done.
  apply le_encode_decode. by rewrite length_rev.
Qed.

(** Memory with the [n] bytes at [p] in the opposite order. *)
Definition reverse_at (n p : nat) (mem : list byte) : list byte :=
  take p mem ++ rev (take n (drop p mem)) ++ drop (p + n) mem.

Lemma length_reverse_at n p mem : (p + n <= length mem)%nat -> length (reverse_at n p mem) = length mem.
Proof.
  intros H. unfold reverse_at. rewrite !length_app, length_rev, !length_take, !length_drop. lia.
Qed.

Lemma reverse_at_involutive n p mem :
  (p + n <= length mem)%nat -> reverse_at n p (reverse_at n p mem) = mem.
Proof.
  intros H. unfold reverse_at at 1.
  assert (length (take p mem) = p) as Hp by (rewrite length_take; lia).
  assert (length (rev (take n (drop p mem))) = n) as Hn by (rewrite length_rev, length_take, length_drop; lia).
  unfold reverse_at. rewrite take_app_length', drop_app_length' by done.
  rewrite take_app_length' by done. rewrite rev_involutive.
  rewrite (app_assoc (take p mem) (rev _)), drop_app_length' by (rewrite length_app; lia).
  rewrite <- drop_drop, take_drop. apply take_drop.
Qed.

(** An in-place swap leaves the bytes reversed and the rest of memory alone. *)
Lemma swap_in_place n mem p :
  (p + n <= length mem)%nat ->
  (reverse_bytes n <$> load_le n mem p) ≫= store_le n mem p = Some (reverse_at n p mem).
Proof.
  intros H. unfold load_le, store_le. rewrite (proj2 (Nat.leb_le _ _) H). cbn.
  rewrite le_encode_reverse; [done|]. rewrite length_take, length_drop. lia.
Qed.

Lemma swab16s_reverse e mem p :
  (p + 2 <= length mem)%nat -> swab16s e mem p = Some (reverse_at 2 p mem).
Proof.
  intros H. rewrite <- swap_in_place by done. unfold swab16s, swab16p. f_equal.
  apply option_fmap_ext, swab16_reverse.
Qed.
Lemma swab32s_reverse e mem p :
  (p + 4 <= length mem)%nat -> swab32s e mem p = Some (reverse_at 4 p mem).
Proof.
  intros H. rewrite <- swap_in_place by done. unfold swab32s, swab32p. f_equal.
  apply option_fmap_ext, swab32_reverse.
Qed.
Lemma swab64s_reverse e mem p :
  (p + 8 <= length mem)%nat -> swab64s e mem p = Some (reverse_at 8 p mem).
Proof.
  intros H. rewrite <- swap_in_place by done. unfold swab64s, swab64p. f_equal.
  apply option_fmap_ext, swab64_reverse.
Qed.

(** ** Network order *)

Lemma be_bytes n x : le_encode n (reverse_bytes n x) = rev (le_encode n x).
Proof. apply le_encode_decode. rewrite length_rev. apply length_le_encode. Qed.

Lemma be_round_trips e e' x :
  (u16 x -> be16_to_cpu e (cpu_to_be16 e' x) = x) /\
  (u32 x -> be32_to_cpu e (cpu_to_be32 e' x) = x) /\
  (u64 x -> be64_to_cpu e (cpu_to_be64 e' x) = x).
Proof.
  unfold be16_to_cpu, cpu_to_be16, be32_to_cpu, cpu_to_be32, be64_to_cpu, cpu_to_be64, wrap16, wrap32, wrap64.
  rewrite !swab16_reverse, !swab32_reverse, !swab64_reverse, !reverse_bytes_wrap by lia.
  repeat split; intros H; by apply reverse_bytes_involutive.
Qed.
