(* ===== verification/Inet.v ===== *)
(** * Internet addresses: include/linux/in.h

    Protocol numbers, socket options, the address structures, and the macros that
    classify an address, here on the 32-bit value in host order. *)
From S2P Require Import Prelude Bytes Wire.

#[local] Open Scope string_scope.
#[local] Open Scope Z_scope.

(** ** Constants *)

(** The IP protocols; [IPPROTO_MAX] follows the last. *)
Definition ip_protocols : list (string * Z) :=
  [("IPPROTO_IP", 0); ("IPPROTO_ICMP", 1); ("IPPROTO_IGMP", 2); ("IPPROTO_IPIP", 4);
   ("IPPROTO_TCP", 6); ("IPPROTO_EGP", 8); ("IPPROTO_PUP", 12); ("IPPROTO_UDP", 17);
   ("IPPROTO_IDP", 22); ("IPPROTO_TP", 29); ("IPPROTO_DCCP", 33); ("IPPROTO_IPV6", 41);
   ("IPPROTO_RSVP", 46); ("IPPROTO_GRE", 47); ("IPPROTO_ESP", 50); ("IPPROTO_AH", 51);
   ("IPPROTO_MTP", 92); ("IPPROTO_BEETPH", 94); ("IPPROTO_ENCAP", 98); ("IPPROTO_PIM", 103);
   ("IPPROTO_COMP", 108); ("IPPROTO_L2TP", 115); ("IPPROTO_SCTP", 132);
   ("IPPROTO_UDPLITE", 136); ("IPPROTO_MPLS", 137); ("IPPROTO_ETHERNET", 143);
   ("IPPROTO_RAW", 255); ("IPPROTO_MPTCP", 262); ("IPPROTO_MAX", 262 + 1)].

(** Socket options of the IP level. *)
Definition ip_options : list (string * Z) :=
  [("IP_TOS", 1); ("IP_TTL", 2); ("IP_HDRINCL", 3); ("IP_OPTIONS", 4); ("IP_ROUTER_ALERT", 5);
   ("IP_RECVOPTS", 6); ("IP_RETOPTS", 7); ("IP_PKTINFO", 8); ("IP_PKTOPTIONS", 9);
   ("IP_MTU_DISCOVER", 10); ("IP_RECVERR", 11); ("IP_RECVTTL", 12); ("IP_RECVTOS", 13);
   ("IP_MTU", 14); ("IP_FREEBIND", 15); ("IP_IPSEC_POLICY", 16); ("IP_XFRM_POLICY", 17);
   ("IP_PASSSEC", 18); ("IP_TRANSPARENT", 19); ("IP_RECVRETOPTS", 7); ("IP_ORIGDSTADDR", 20);
   ("IP_RECVORIGDSTADDR", 20); ("IP_MINTTL", 21); ("IP_NODEFRAG", 22); ("IP_CHECKSUM", 23);
   ("IP_BIND_ADDRESS_NO_PORT", 24); ("IP_RECVFRAGSIZE", 25); ("IP_RECVERR_RFC4884", 26)].

(** Values of [IP_MTU_DISCOVER]. *)
Definition ip_pmtudisc : list (string * Z) :=
  [("IP_PMTUDISC_DONT", 0); ("IP_PMTUDISC_WANT", 1); ("IP_PMTUDISC_DO", 2);
   ("IP_PMTUDISC_PROBE", 3); ("IP_PMTUDISC_INTERFACE", 4); ("IP_PMTUDISC_OMIT", 5)].

(** Multicast options and their values. *)
Definition ip_multicast : list (string * Z) :=
  [("IP_MULTICAST_IF", 32); ("IP_MULTICAST_TTL", 33); ("IP_MULTICAST_LOOP", 34);
   ("IP_ADD_MEMBERSHIP", 35); ("IP_DROP_MEMBERSHIP", 36); ("IP_UNBLOCK_SOURCE", 37);
   ("IP_BLOCK_SOURCE", 38); ("IP_ADD_SOURCE_MEMBERSHIP", 39);
   ("IP_DROP_SOURCE_MEMBERSHIP", 40); ("IP_MSFILTER", 41); ("MCAST_JOIN_GROUP", 42);
   ("MCAST_BLOCK_SOURCE", 43); ("MCAST_UNBLOCK_SOURCE", 44); ("MCAST_LEAVE_GROUP", 45);
   ("MCAST_JOIN_SOURCE_GROUP", 46); ("MCAST_LEAVE_SOURCE_GROUP", 47); ("MCAST_MSFILTER", 48);
   ("IP_MULTICAST_ALL", 49); ("IP_UNICAST_IF", 50); ("IP_LOCAL_PORT_RANGE", 51);
   ("IP_PROTOCOL", 52); ("MCAST_EXCLUDE", 0); ("MCAST_INCLUDE", 1);
   ("IP_DEFAULT_MULTICAST_TTL", 1); ("IP_DEFAULT_MULTICAST_LOOP", 1)].

(** ** Structures

    A [struct in_addr] is one 32-bit word; a [__kernel_sockaddr_storage] is 128 bytes
    aligned like a pointer. *)

Definition in_addr_fields : list field := [Field "s_addr" 4 1].
Definition ip_mreq_fields : list field := fields_of 4 ["imr_multiaddr"; "imr_interface"].
Definition ip_mreqn_fields : list field := fields_of 4 ["imr_multiaddr"; "imr_address"; "imr_ifindex"].
Definition ip_mreq_source_fields : list field :=
  fields_of 4 ["imr_multiaddr"; "imr_interface"; "imr_sourceaddr"].
Definition ip_msfilter_fields : list field :=
  fields_of 4 ["imsf_multiaddr"; "imsf_interface"; "imsf_fmode"; "imsf_numsrc"; "imsf_slist"].
Definition group_req_fields : list field := [Field "gr_interface" 4 1; Field "gr_group" 8 16].
Definition group_source_req_fields : list field :=
  [Field "gsr_interface" 4 1; Field "gsr_group" 8 16; Field "gsr_source" 8 16].
Definition group_filter_fields : list field :=
  [Field "gf_interface_aux" 4 1; Field "gf_group_aux" 8 16; Field "gf_fmode_aux" 4 1;
   Field "gf_numsrc_aux" 4 1; Field "gf_slist" 8 16].
Definition in_pktinfo_fields : list field := fields_of 4 ["ipi_ifindex"; "ipi_spec_dst"; "ipi_addr"].
Definition sockaddr_in_fields : list field :=
  [Field "sin_family" 2 1; Field "sin_port" 2 1; Field "sin_addr" 4 1; Field "__pad" 1 (16 - 2 - 2 - 4)].

Definition size_of (fs : list field) : Z := Z.of_nat (snd (layout false fs)).

Definition IP_MSFILTER_SIZE (numsrc : Z) : Z := size_of ip_msfilter_fields - 4 + numsrc * 4.
Definition GROUP_FILTER_SIZE (numsrc : Z) : Z := size_of group_filter_fields - 128 + numsrc * 128.

(** ** Classes of addresses *)

Definition IN_CLASSA (a : Z) : bool := Z.land a 0x80000000 =? 0.
Definition IN_CLASSA_NET : Z := 0xff000000.
Definition IN_CLASSA_NSHIFT : Z := 24.
Definition IN_CLASSA_HOST : Z := Z.land 0xffffffff (Z.lnot IN_CLASSA_NET).
Definition IN_CLASSA_MAX : Z := 128.

Definition IN_CLASSB (a : Z) : bool := Z.land a 0xc0000000 =? 0x80000000.
Definition IN_CLASSB_NET : Z := 0xffff0000.
Definition IN_CLASSB_NSHIFT : Z := 16.
Definition IN_CLASSB_HOST : Z := Z.land 0xffffffff (Z.lnot IN_CLASSB_NET).
Definition IN_CLASSB_MAX : Z := 65536.

Definition IN_CLASSC (a : Z) : bool := Z.land a 0xe0000000 =? 0xc0000000.
Definition IN_CLASSC_NET : Z := 0xffffff00.
Definition IN_CLASSC_NSHIFT : Z := 8.
Definition IN_CLASSC_HOST : Z := Z.land 0xffffffff (Z.lnot IN_CLASSC_NET).

Definition IN_CLASSD (a : Z) : bool := Z.land a 0xf0000000 =? 0xe0000000.
Definition IN_MULTICAST (a : Z) : bool := IN_CLASSD a.
Definition IN_MULTICAST_NET : Z := 0xe0000000.

Definition IN_BADCLASS (a : Z) : bool := a =? 0xffffffff.
Definition IN_EXPERIMENTAL (a : Z) : bool := IN_BADCLASS a.

Definition IN_CLASSE (a : Z) : bool := Z.land a 0xf0000000 =? 0xf0000000.
Definition IN_CLASSE_NET : Z := 0xffffffff.
Definition IN_CLASSE_NSHIFT : Z := 0.

(** ** Addresses *)

Definition INADDR_ANY : Z := 0x00000000.
Definition INADDR_BROADCAST : Z := 0xffffffff.
Definition INADDR_NONE : Z := 0xffffffff.
Definition INADDR_DUMMY : Z := 0xc0000008.
Definition IN_LOOPBACKNET : Z := 127.
Definition INADDR_LOOPBACK : Z := 0x7f000001.
Definition IN_LOOPBACK (a : Z) : bool := Z.land a 0xff000000 =? 0x7f000000.
Definition INADDR_UNSPEC_GROUP : Z := 0xe0000000.
Definition INADDR_ALLHOSTS_GROUP : Z := 0xe0000001.
Definition INADDR_ALLRTRS_GROUP : Z := 0xe0000002.
Definition INADDR_ALLSNOOPERS_GROUP : Z := 0xe000006a.
Definition INADDR_MAX_LOCAL_GROUP : Z := 0xe00000ff.

(** ** Every address has exactly one class *)

Lemma land_top a m : 0 <= m -> Z.land a (Z.shiftl m 28) = Z.shiftl (Z.land (Z.shiftr a 28) m) 28.
Proof.
  intros Hm. apply Z.bits_inj'. intros i Hi. rewrite Z.land_spec, !Z.shiftl_spec, Z.land_spec by lia.
  destruct (Z.le_gt_cases 28 i).
  - rewrite Z.shiftr_spec by lia. do 2 f_equal. lia.
  - rewrite !(Z.testbit_neg_r _ (i - 28)) by lia. by rewrite andb_false_r.
Qed.

(** The classes of an address, from its top four bits. *)
Definition classes (a : Z) : list bool := [IN_CLASSA a; IN_CLASSB a; IN_CLASSC a; IN_CLASSD a; IN_CLASSE a].

Definition top_class (t : Z) : nat :=
  if t <? 8 then 0%nat else if t <? 12 then 1%nat else if t <? 14 then 2%nat else if t <? 15 then 3%nat else 4%nat.

Lemma classes_top a :
  u32 a -> classes a = map (Nat.eqb (top_class (a / 2 ^ 28))) (seq 0 5).
Proof.
  intros H. unfold classes, IN_CLASSA, IN_CLASSB, IN_CLASSC, IN_CLASSD, IN_CLASSE.
  change 0x80000000 with (Z.shiftl 8 28). change 0xc0000000 with (Z.shiftl 12 28).
  change 0xe0000000 with (Z.shiftl 14 28). change 0xf0000000 with (Z.shiftl 15 28).
  rewrite !land_top, Z.shiftr_div_pow2 by lia.
  assert (0 <= a / 2 ^ 28 < 16) as Ht by (cint; Z.div_mod_to_equations; lia).
  assert (a / 2 ^ 28 ∈ seqZ 0 16) as Hin by (apply elem_of_seqZ; lia).
  revert Hin. generalize (a / 2 ^ 28) as t. intros t Hin. clear -Hin.
  repeat (apply elem_of_cons in Hin as [->|Hin]; [reflexivity|]). by apply not_elem_of_nil in Hin.
Qed.

Lemma one_class a : u32 a -> length (filter (eq true) (classes a)) = 1%nat.
Proof.
  intros H. rewrite classes_top by done. unfold top_class. by repeat case_match.
Qed.

(** The network and the host part make up the address. *)
Lemma net_and_host a :
  u32 a ->
  Z.land a IN_CLASSA_NET + Z.land a IN_CLASSA_HOST = a /\
  Z.land a IN_CLASSB_NET + Z.land a IN_CLASSB_HOST = a /\
  Z.land a IN_CLASSC_NET + Z.land a IN_CLASSC_HOST = a.
Proof.
  intros H.
  assert (forall m n, Z.land m n = 0 -> Z.lor m n = Z.ones 32 -> Z.land a m + Z.land a n = a) as HA.
  { intros m n H1 H2. rewrite <- Z.add_lor_land, <- Z.land_lor_distr_r, H2, Z.land_ones by lia.
    rewrite <- Z.land_assoc, (Z.land_comm m), <- Z.land_assoc, (Z.land_comm n), H1, !Z.land_0_r, Z.add_0_r.
    apply Z.mod_small. cint. }
  repeat split; apply HA; reflexivity.
Qed.

(** A [struct sockaddr_in] is as long as a [struct sockaddr]; the size macros count
    the sources. *)
Lemma address_sizes n :
  size_of sockaddr_in_fields = 16 /\ IP_MSFILTER_SIZE n = 16 + 4 * n /\ GROUP_FILTER_SIZE n = 144 + 128 * n.
Proof.
  unfold IP_MSFILTER_SIZE, GROUP_FILTER_SIZE. change (size_of ip_msfilter_fields) with 20.
  change (size_of group_filter_fields) with 272. repeat split; lia.
Qed.
