(* ===== verification/RemoteRc.v ===== *)
(** * remote-rc.c: the stand-alone remote root complex

    A server that answers every access itself: reads return a constant, writes
    are acknowledged. The local variable [op] is its 16 bytes of memory, because a
    short [recv] overwrites only part of it. *)
From S2P Require Import Prelude Bytes CMonad Wire ByteIO PciRegs.

Definition PORT : Z := 5555.

(** [if (op.type == PCI_DOE_READ) op.value = 0xdeadbeef; op.status = 0;] *)
Definition emulate (op : avery_pci_config_op) : avery_pci_config_op :=
  let op := if op_type op =? PCI_DOE_READ then set_op_value 0xdeadbeef op else op in
  set_op_status 0 op.

(** One round of [while (1)]; [false] is a [break]. The state is the memory of [op]. *)
Definition rc_iter (c : Z) : C (list byte) bool :=
  '(n, bs) ← sys_read c (sizeof avery_pci_config_op);
  if n <=? 0 then perror "recv";; mret false
  else
    modify (splice 0 bs);;
    m ← get;
    let op : avery_pci_config_op := of_bytes m in
    printf "Remote got req: type=%u offset=0x%x value=0x%x" [op_type op; op_offset op; op_value op];;
    let op := emulate op in
    modify (fun _ => to_bytes op);;
    k ← sys_write c (to_bytes op);
    if negb (k =? Z.of_nat (sizeof avery_pci_config_op)) then perror "send";; mret false
    else
      printf "Remote sent resp: status=%d value=0x%x" [op_status op; op_value op];;
      mret true.

Definition main (fuel : nat) : C (list byte) Z :=
  s ← sys "socket" [2; 1; 0];
  if s <? 0 then perror "socket";; mret 1
  else
    o ← sys "setsockopt" [s; 1; 2; 1];
    if o <? 0 then perror "setsockopt";; mret 1
    else
      b ← sys "bind" [s; PORT];
      if b <? 0 then perror "bind";; mret 1
      else
        l ← sys "listen" [s; 1];
        if l <? 0 then perror "listen";; mret 1
        else
          printf "Remote RC waiting on port %d..." [PORT];;
          c ← sys "accept" [s];
          if c <? 0 then perror "accept";; mret 1
          else
            printf "Daemon connected" [];;
            forever fuel (rc_iter c);;
            sys "close" [c];;
            sys "close" [s];;
            mret 0.

Lemma emulate_ok op : op_ok op -> op_ok (emulate op).
Proof.
  intros (Ht & Ho & Hv & Hs). unfold emulate.
  destruct (_ =? _); (split; [done|split; [done|split; [done|done]]]).
Qed.

(** A round whose [recv] and [send] move the whole access. *)
Lemma rc_iter_live {m} c op ops (mem : list byte) w j :
  op_ok op -> length mem = 16%nat -> pending c w = to_bytes op ++ ops ->
  16 <= m -> live m (2 + j) w ->
  wp (rc_iter c)
     (fun go mem' w' => go = true /\ mem' = to_bytes (emulate op) /\ pending c w' = ops /\
        written c w' = written c w ++ to_bytes (emulate op) /\ live m j w')
     never mem w.
Proof.
  intros Hop Hmem Hp Hm HL.
  pose proof (length_to_bytes (CStructLaws := op_laws) op Hop) as Hl.
  unfold rc_iter. apply wp_bind.
  apply (wp_read_once (H := op_struct) (m := m) _ op ops (1 + j)); [done|cbn; lia|done|done|done|].
  intros w1 I1 L1. cbn -[of_bytes to_bytes emulate wp].
  apply wp_bind, wp_modify, wp_bind, wp_get.
  rewrite splice_all by (rewrite Hl; done). rewrite of_to_bytes by exact Hop.
  apply wp_bind, wp_emit, wp_bind, wp_modify, wp_bind.
  apply (wp_write_once (H := op_struct) (m := m) _ (emulate op) j);
    [by apply emulate_ok|cbn; lia|done|done|].
  intros w2 I2 L2. cbn -[of_bytes to_bytes emulate wp].
  apply wp_bind, wp_emit, wp_ret. repeat (split; [by io|]). exact L2.
Qed.

(** ** Any kernel *)

Lemma rc_iter_any c (mem : list byte) w :
  wp (rc_iter c) (fun go mem' w' => (length (w_sched w') < length (w_sched w))%nat) orderly mem w.
Proof.
  unfold rc_iter. any_step. apply wp_sys_read; [cbn; lia|..|by right].
  { intros c0 w0 Hc _ _ Hs. destruct (Z.leb_spec c0 0); [|lia]. repeat any_step. cbn in *; lia. }
  intros n w1 Hn _ _ Hs1. destruct (Z.leb_spec (Z.of_nat n) 0); [lia|]. repeat any_step.
  apply wp_sys_write; [done|..|by right].
  - intros k w4 _ _ _ Hs4. cbn in Hs4. repeat any_step; cbn in *; lia.
  - intros k w4 _ _ Hs4. cbn in Hs4. repeat any_step; cbn in *; lia.
Qed.

Lemma rc_main_any fuel (mem : list byte) w :
  (length (w_sched w) < fuel)%nat ->
  wp (main fuel) (fun r _ _ => r = 0 \/ r = 1) orderly mem w.
Proof.
  intros Hf. unfold main. repeat any_step; try by right.
  apply (wp_forever (fun _ _ => True) (fun w => length (w_sched w))); [|done|cbn in *; lia].
  intros mem' ? _; eapply wp_mono; [apply rc_iter_any| |done].
  intros [] ? ? ?; [done|]; repeat any_step; by left.
Qed.
