(* ===== verification/RcServer.v ===== *)
(** * remote-rc.c as a server

    The stand-alone server, as a tree of its system calls and as a process that keeps the
    promises of a server of Link.v. [recv] with [MSG_WAITALL] delivers a whole access, or
    what is left when the peer is gone: then the server may take a part of an access for a
    whole one, and only promises to stay defined. A [send] that is cut short is a
    failure, and ends the program. *)
From S2P Require Import Prelude Bytes CMonad Log Wire ByteIO PciRegs IoTree RelayCode RemoteRc Link.

(** ** remote-rc.c as a tree *)

Section server.
Variable c : Z.

Definition rc_sent (op : avery_pci_config_op) : io (list byte) bool :=
  Local (printf "Remote sent resp: status=%d value=0x%x" [op_status op; op_value op]) (fun _ => Ret true).

Definition rc_write (op : avery_pci_config_op) : io (list byte) bool :=
  Write c (to_bytes op) (fun k =>
    if negb (k =? Z.of_nat (sizeof avery_pci_config_op)) then Local (perror "send") (fun _ => Ret false)
    else rc_sent op).

Definition rc_got : Z * list byte -> io (list byte) bool := fun '(n, bs) =>
  if n <=? 0 then Local (perror "recv") (fun _ => Ret false)
  else Local (modify (splice 0 bs);;
              m ← get;
              let op : avery_pci_config_op := of_bytes m in
              printf "Remote got req: type=%u offset=0x%x value=0x%x" [op_type op; op_offset op; op_value op];;
              let op := emulate op in
              modify (fun _ => to_bytes op);;
              mret op) rc_write.

Definition rc_tree : io (list byte) bool := Read c (sizeof avery_pci_config_op) rc_got.

Lemma rc_tree_code : interp rc_tree ≐ rc_iter c.
Proof.
  unfold rc_tree, rc_iter. cbn [interp]. same_step. destruct a as [n bs]. unfold rc_got.
  destruct (n <=? 0); [reflexivity|]. cbn [interp]. rewrite !bind_assoc. same_step. rewrite bind_assoc. same_step.
  rewrite bind_assoc. same_step. rewrite bind_assoc. same_step.
  change (mret (M := C (list byte)) ?a ≫= ?f) with (f a). unfold rc_write. cbn [interp]. same_step.
  by destruct (negb _).
Qed.
End server.

(** ** Moves *)

Section moves.
Variable c : Z.

Inductive rc_moves (faults : bool) : proc (list byte) -> sact -> proc (list byte) -> Prop :=
| RmQuiet ch lab s s' :
    pmove (rc_tree c) s ch = Some (lab, s') -> silent faults lab = true -> rc_moves faults s SQuiet s'
| RmRecv last bs s s' :
    pmove (rc_tree c) s (Deliver bs) = Some (In c bs, s') -> length bs = 16%nat \/ last = true ->
    rc_moves faults s (SRecv last bs) s'
| RmSend n bs s s' :
    pmove (rc_tree c) s (Accept n) = Some (Out c bs, s') -> faults = true \/ length bs = 16%nat ->
    rc_moves faults s (SSend bs) s'.

Definition rc_server (faults : bool) : server (proc (list byte)) unit :=
  MkServer (rc_moves faults) (fun s => s = Crashed) (fun _ op => (tt, emulate op)).

(** ** Positions *)

(** A server that has failed. *)
Inductive rdead : proc (list byte) -> nat -> Prop :=
| RdStopped : rdead Stopped 0
| RdFail n s w t : failing n t -> rdead (Running s w t) (S n).

(** A server that may have taken a part of an access for a whole one. *)
Inductive rany (faults : bool) : proc (list byte) -> Prop :=
| RaDead p j : rdead p j -> rany faults p
| RaBoot env n s w t : w_env w = env -> booting faults env (fun s => length s = 16%nat) n t s -> rany faults (Running s w t)
| RaTop s w : rany faults (Running s w (Ret true))
| RaWait s w : rany faults (Running s w (rc_tree c))
| RaGot s w r : rany faults (Running s w (rc_got c r))
| RaWrite s w op : rany faults (Running s w (rc_write c op))
| RaSent s w op : rany faults (Running s w (rc_sent op)).

(** The move that was made, without unfolding the tree it leads to. *)
Ltac moved H := apply (inj Some), pair_eq in H as [<- <-].

Lemma rdead_move p j ch lab p' : rdead p j -> pmove (rc_tree c) p ch = Some (lab, p') ->
  lab = Tau /\ exists j', rdead p' j' /\ (j' < j)%nat.
Proof.
  intros D H. destruct D as [|n s w t Hf]; [done|]. eapply failing_sim; [done|done|constructor|by constructor].
Qed.

Lemma rdead_perror s w msg : rdead (Running s w (Local (perror msg) (fun _ => Ret false))) 2.
Proof. apply RdFail, failing_perror. Qed.

Lemma rany_move faults p ch lab p' :
  rany faults p -> pmove (rc_tree c) p ch = Some (lab, p') -> (lab = Fail -> faults = true) -> rany faults p'.
Proof.
  intros D H Hl. destruct D as [p j D|env n s w t Hw Hb|s w|s w|s w [n bs]|s w op|s w op].
  - destruct (rdead_move _ _ _ _ _ D H) as (_ & j' & D' & _). by eapply RaDead.
  - destruct (booting_move _ _ _ _ _ _ _ _ _ _ _ Hw Hb H) as [Hlab N].
    destruct N as [[-> _]|[[-> _]|(m & s' & w' & t' & -> & -> & Hw' & Hb')]];
      [destruct Hlab as [->| ->]; [done|by apply Hl]|by apply RaWait|by repeat econstructor|by eapply RaBoot].
  - destruct ch; try done. moved H. constructor.
  - unfold rc_tree in H. destruct ch as [|k|bs|]; try done; cbn [pmove] in H.
    + destruct (k <=? 0); [|done]. moved H. apply RaGot.
    + destruct (_ && _); [|done]. moved H. apply RaGot.
  - unfold rc_got in H. destruct (n <=? 0); destruct ch; try done; cbn -[of_bytes to_bytes emulate rc_write] in H;
      moved H; [|constructor]. eapply RaDead. by apply (RdFail 0).
  - destruct ch as [|k| |k]; try done; cbn -[to_bytes rc_sent] in H.
    + destruct (k <? 0); [|done]. moved H. destruct (negb _); [eapply RaDead, rdead_perror|constructor].
    + destruct (_ && _); [|done]. moved H. destruct (negb _); [eapply RaDead, rdead_perror|constructor].
  - destruct ch; try done. cbn in H. moved H. constructor.
Qed.

Section positions.
Variable faults : bool.

Inductive rc_at : proc (list byte) -> unit -> list byte -> list byte -> nat -> Prop :=
| RtDead p out acc j : faults = true -> rdead p j -> rc_at p tt out acc j
| RtBoot env n s w t : w_env w = env -> booting faults env (fun s => length s = 16%nat) n t s ->
    rc_at (Running s w t) tt [] [] (1 + n)
| RtTop s w : length s = 16%nat -> rc_at (Running s w (Ret true)) tt [] [] 1
| RtWait s w : length s = 16%nat -> rc_at (Running s w (rc_tree c)) tt [] [] 0
| RtGot s w bs : length s = 16%nat -> length bs = 16%nat -> rc_at (Running s w (rc_got c (16, bs))) tt [] bs 1
| RtWrite s w op : length s = 16%nat -> op_ok op -> rc_at (Running s w (rc_write c op)) tt (to_bytes op) [] 0
| RtSent s w op : length s = 16%nat -> rc_at (Running s w (rc_sent op)) tt [] [] 2.

Definition rc_moved (out acc : list byte) (j : nat) (lab : label) (p' : proc (list byte)) : Prop :=
  match lab with
  | Tau =>
      (exists j', rc_at p' tt out acc j' /\ (j' < j)%nat) \/
      (out = [] /\ length acc = 16%nat /\ op_ok (emulate (of_bytes acc)) /\
       rc_at p' tt (to_bytes (emulate (of_bytes acc))) [] 0)
  | Fail => faults = true -> exists j', rc_at p' tt out acc j'
  | In fd bs => out = [] /\ acc = [] /\ (length bs = 16%nat -> rc_at p' tt [] bs 1)
  | Out fd bs => acc = [] /\ exists n, (0 < n <= length out)%nat /\ bs = take n out /\ length out = 16%nat /\
      (faults = true \/ n = 16%nat -> rc_at p' tt (drop n out) [] 2)
  | InMsg _ | OutMsg _ => False
  end.

Lemma rc_at_move p out acc j ch lab p' :
  rc_at p tt out acc j -> pmove (rc_tree c) p ch = Some (lab, p') -> rc_moved out acc j lab p'.
Proof.
  intros D H. destruct D as [p out acc j F D|env n s w t Hw Hb|s w Hs|s w Hs|s w bs Hs Hb|s w op Hs Hop|s w op Hs].
  - destruct (rdead_move _ _ _ _ _ D H) as (-> & j' & D' & Hj). left. exists j'. split; [by constructor|done].
  - destruct (booting_sim _ _ _ _ _ _ _ _ _ _ _ (fun p j => rc_at p tt [] [] j) 0 Hw Hb H) as [[-> N]|[-> N]];
      [by constructor|by repeat constructor|by intros; eapply RtBoot|by left|exact N].
  - destruct ch; try done. moved H. left. exists 0%nat. split; [by constructor|lia].
  - unfold rc_tree in H. destruct ch as [|k|bs|]; try done; cbn [pmove] in H.
    + destruct (Z.leb_spec k 0); [|done]. moved H. intros F. exists 2%nat.
      constructor; [done|]. unfold rc_got. destruct (Z.leb_spec k 0); [|lia]. apply rdead_perror.
    + destruct (_ && _); [|done]. moved H. do 2 (split; [done|]). intros Hb. rewrite Hb. by constructor.
  - destruct ch; try done. cbn -[of_bytes to_bytes emulate rc_write] in H. moved H.
    rewrite splice_all by lia. right.
    assert (op_ok (emulate (of_bytes bs))) as Ho by by apply emulate_ok, (of_bytes_ok (CStructLaws := op_laws)).
    do 3 (split; [done|]). constructor; [|done]. by apply op_bytes_length.
  - pose proof (op_bytes_length _ Hop) as Hl.
    unfold rc_write in H. destruct ch as [|k| |k]; try done; cbn [pmove] in H.
    + destruct (Z.ltb_spec k 0); [|done]. moved H. intros F. exists 2%nat.
      constructor; [done|]. change (Z.of_nat (sizeof _)) with 16. destruct (Z.eqb_spec k 16); [lia|]. apply rdead_perror.
    + destruct (_ && _)%nat eqn:E; [|done]. apply andb_prop in E as [E0%Nat.ltb_lt E%Nat.leb_le]. moved H.
      split; [done|]. exists k. do 3 (split; [done|]). change (Z.of_nat (sizeof _)) with 16.
      destruct (Z.eqb_spec (Z.of_nat k) 16) as [Ek|Ek].
      * intros _. rewrite drop_ge by lia. by constructor.
      * intros [F|?]; [|lia]. constructor; [done|apply rdead_perror].
  - destruct ch; try done. cbn in H. moved H. left. exists 1%nat. split; [by constructor|lia].
Qed.
End positions.

Lemma rc_at_ready s out acc j :
  rc_at false s tt out acc j ->
  (exists s', rc_moves false s SQuiet s') \/ (exists bs s', rc_moves false s (SSend bs) s') \/
  (out = [] /\ (length acc < 16)%nat /\
   forall last bs, length (acc ++ bs) = 16%nat -> exists s', rc_moves false s (SRecv last bs) s').
Proof.
  intros D. destruct D as [p out acc j F D|env n s w t Hw Hb|s w Hs|s w Hs|s w bs Hs Hb|s w op Hs Hop|s w op Hs]; [done|..].
  - left. destruct (booting_ready (rc_tree c) _ _ _ _ _ _ Hw Hb) as (ch & s' & Hp). eexists. by eapply RmQuiet.
  - left. eexists. by eapply (RmQuiet _ Go).
  - right; right. split; [done|]. split; [cbn; lia|]. intros last bs Hl. cbn [app] in Hl.
    eexists. apply RmRecv; [|by left]. unfold rc_tree. cbn [pmove]. by rewrite Hl.
  - left. eexists. by eapply (RmQuiet _ Go).
  - right; left. pose proof (op_bytes_length _ Hop) as Hl. do 2 eexists. apply (RmSend _ 16).
    + unfold rc_write. cbn [pmove]. rewrite Hl. reflexivity.
    + right. by rewrite length_take, Hl.
  - left. eexists. by eapply (RmQuiet _ Go).
Qed.

#[export] Instance rc_laws faults : ServerLaws (rc_server faults) faults 1 (rc_at faults) (rany faults).
Proof.
  split; cbn [sv_move sv_answer sv_crashed rc_server].
  - intros s [] out acc j s' D M. inversion M as [ch lab ? ? H Hl| |]; subst.
    pose proof (rc_at_move _ _ _ _ _ _ _ _ D H) as N. destruct lab; try done; cbn in Hl.
    + destruct N as [(j' & D' & Hj)|(-> & Ha & Ho & D')]; [left; eauto|right].
      do 2 (split; [done|]). do 2 eexists. split; [done|]. split; [done|]. exists 0%nat. split; [done|lia].
    + destruct (N Hl) as (j' & D'). left. exists j'. split; [done|congruence].
  - intros s [] out acc j bs s' D M. inversion M as [|? ? ? ? H [Hb|?]|]; subst; [|done].
    destruct (rc_at_move _ _ _ _ _ _ _ _ D H) as (-> & -> & N). split; [done|]. split; [lia|].
    exists 1%nat. split; [by apply N|]. destruct (decide _); lia.
  - intros s [] out acc j bs s' D M. inversion M as [| |? ? ? ? H Hb]; subst.
    destruct (rc_at_move _ _ _ _ _ _ _ _ D H) as (-> & n' & Hn & -> & Ho & N). split; [done|].
    exists n'. do 2 (split; [done|]). exists 2%nat. split; [|lia]. apply N.
    destruct Hb as [?|Hb]; [by left|right]. rewrite length_take in Hb. lia.
  - intros s [] out acc j D. destruct D; [by eapply RaDead|by eapply RaBoot|by constructor..].
  - intros s a s' D M. destruct M as [ch lab s s' H Hl|last bs s s' H _|n bs s s' H _]; (eapply rany_move; [done|exact H|]); [|done..]. by intros ->.
  - intros s D ->. inversion D as [? ? Hd| | | | | |]; subst. by inversion Hd.
  - intros s [] out acc j -> D. by eapply rc_at_ready.
Qed.

(** ** Scheduling *)

Definition rc_next (u : list byte) (s : proc (list byte)) : option (sact * proc (list byte)) :=
  match answer [1; c] s with
  | Some ch =>
      match pmove (rc_tree c) s ch, ch with
      | Some (Tau, s'), _ => Some (SQuiet, s')
      | Some (Out fd bs, s'), Accept _ =>
          if (fd =? c) && (length bs =? 16)%nat then Some (SSend bs, s') else None
      | _, _ => None
      end
  | None =>
      match wants s with
      | Some (fd, len) =>
          if (fd =? c) && (length (take len u) =? 16)%nat then
            match pmove (rc_tree c) s (Deliver (take len u)) with
            | Some (_, s') => Some (SRecv false (take len u), s')
            | None => None
            end
          else None
      | None => None
      end
  end.

#[export] Instance rc_runs faults : ServerRuns (rc_server faults) rc_next.
Proof.
  intros u s a s'. unfold rc_next. cbn [sv_move rc_server]. destruct (answer [1; c] s) as [ch|].
  - destruct (pmove (rc_tree c) s ch) as [[lab s1]|] eqn:E; [|done]. destruct lab as [| |fd bs|fd bs|m|m]; try done.
    + intros H. moved H. by eapply RmQuiet.
    + destruct ch as [| | |n]; try done. destruct (Z.eqb_spec fd c) as [->|_]; [|done].
      destruct (Nat.eqb_spec (length bs) 16); [|done]. intros H. moved H. eapply RmSend; [done|by right].
  - destruct (wants s) as [[fd len]|] eqn:W; [|done]. destruct (Z.eqb_spec fd c) as [->|_]; [|done].
    destruct (Nat.eqb_spec (length (take len u)) 16); [|done].
    destruct (pmove (rc_tree c) s (Deliver _)) as [[lab s1]|] eqn:E; [|done]. intros H. moved H.
    pose proof (deliver_label _ _ _ _ _ _ _ W E) as ->. split.
    + intros last. apply RmRecv; [done|by left].
    + exists (drop len u). by rewrite take_drop.
Qed.

#[export] Instance rc_rests : ServerRests (rc_server false) reading.
Proof.
  intros s a s' Hs M. destruct M as [ch lab s s' H Hl|last bs s s' H|n bs s s' H];
    pose proof (reading_gets _ _ _ _ _ Hs H) as N; try done. by destruct lab.
Qed.
End moves.
