(* ===== verification/Boot.v ===== *)
(** * The programs from the first line of [main]

    What each program does before its loop, as a tree of its system calls: the log, the
    pipes, the sockets. The kernel hands out the descriptors [dev], [sock], [client], ...
    that the loops of RelayCode.v and RcServer.v work on, or fails. A program and its
    [main] are the same: the tree, then the loop, then what follows the loop. *)
From S2P Require Import Prelude Bytes CMonad Log Wire ByteIO Mailbox DoeEmu DoeSpec EmuSpec ThinServer DaemonDoe.
From S2P Require Import IoTree RelayCode PciRegs RemoteRc RcServer.

(** ** The common pieces *)

Section pieces.
Context {S : Type}.

Definition log_tree (path : option string) : io S unit :=
  match path with
  | Some p => fp ← call always (EvPath "fopen" p []); lift (modify_world (set_logfp fp))
  | None => mret tt
  end.

Lemma interp_log_tree path : interp (log_tree path) ≐ log_init path.
Proof. destruct path; [|reflexivity]. unfold log_tree, log_init. rewrite interp_bind. same_step. apply interp_lift. Qed.

(** Into the loop, if its descriptors are those it is about. *)
Definition enter {B} (ours : B -> bool) (r : option B) : io S bool :=
  match r with
  | Some b => if ours b then Ret true else lift undefined
  | None => Ret false
  end.
End pieces.

(** One step of a tree against one of the program. *)
Ltac tree_step :=
  rewrite interp_bind, ?bind_assoc; apply ceq_bind;
  [first [reflexivity|apply interp_lift|apply interp_log_tree]|intros ?]; cbn beta.

(** ** daemon-doe.c *)

Section daemon.
Variables (dev sock : Z).

Definition daemon_connect : io (list byte) Z :=
  s ← call (gives sock) (EvCall "socket" [2; 1; 0]);
  if s <? 0 then die "socket"
  else
    p ← call positive (EvCall "inet_pton" [2; SERVER_IP]);
    if p <=? 0 then die "inet_pton"
    else
      r ← call nonneg (EvCall "connect" [s; SERVER_IP; DaemonDoe.SERVER_PORT]);
      if r <? 0 then die "connect"
      else
        lift (LOG "Connected to remote RC %s:%d" [DaemonDoe.SERVER_PORT]);;
        mret s.

Definition daemon_boot : io (list byte) (option (Z * Z)) :=
  lf ← lift (getenv "CXL_LOG_FILE");
  log_tree lf;;
  devfd ← call (gives dev) (EvPath "open" DEV_PATH [O_RDWR]);
  if devfd <? 0 then lift (perror "open char dev");; lift log_close;; mret None
  else
    sockfd ← daemon_connect;
    lift (LOG "Daemon started" []);;
    mret (Some (devfd, sockfd)).

Definition daemon_main : io (list byte) bool :=
  r ← daemon_boot; enter (fun '(d, s) => (d =? dev) && (s =? sock)) r.

Lemma daemon_connect_code : interp daemon_connect ≐ DaemonDoe.connect_remote.
Proof.
  unfold daemon_connect, DaemonDoe.connect_remote. tree_step. destruct (a <? 0); [reflexivity|]. tree_step.
  destruct (a0 <=? 0); [reflexivity|]. tree_step. destruct (a1 <? 0); [reflexivity|]. tree_step. reflexivity.
Qed.

Lemma daemon_main_code fuel :
  DaemonDoe.main fuel ≐
  (r ← interp daemon_boot;
   match r with
   | Some (devfd, sockfd) =>
       forever fuel (daemon_iter devfd sockfd);;
       sys "close" [sockfd];;
       sys "close" [devfd];;
       log_close;;
       mret 0
   | None => mret 1
   end).
Proof.
  symmetry. unfold DaemonDoe.main, daemon_boot. do 3 tree_step. destruct (a1 <? 0).
  - do 2 tree_step. reflexivity.
  - rewrite interp_bind, bind_assoc. apply ceq_bind; [apply daemon_connect_code|]. intros sockfd. tree_step. reflexivity.
Qed.
End daemon.

(** ** thin-server.c *)

Section server.
Variables (client treq trep : Z).

Definition thin_pipes (path : string) : io thin Z :=
  let req := snprintf 1024 (String.append path "/request_server_pipe") in
  let rep := snprintf 1024 (String.append path "/reply_server_pipe") in
  call always (EvPath "mkfifo" req [0x1ff]);;
  call always (EvPath "mkfifo" rep [0x1ff]);;
  fd ← call (gives treq) (EvPath "open" req [O_RDWR]);
  lift (modify (set_t_req_fd fd));;
  if fd <? 0 then lift (perror "open request_server_pipe");; mret (-1)
  else
    fd' ← call (gives trep) (EvPath "open" rep [O_RDWR]);
    lift (modify (set_t_rep_fd fd'));;
    if fd' <? 0 then lift (perror "open reply_server_pipe");; mret (-1)
    else lift (LOG "thin-server: pipes opened: %s" []);; mret 0.

Definition thin_boot : io thin (option (Z * Z)) :=
  lf ← lift (getenv "CXL_LOG_FILE");
  log_tree lf;;
  path ← lift (getenv "CXL_RELAY_SERVER_PATH");
  match path with
  | None => lift (emit (EvPrint "thin-server: %s not set" []));; lift log_close;; mret None
  | Some pipe_path =>
      r ← thin_pipes pipe_path;
      if r <? 0 then lift log_close;; mret None
      else
        srv ← call nonneg (EvCall "socket" [2; 1; 0]);
        call nonneg (EvCall "setsockopt" [srv; 1; 2; 1]);;
        b ← call nonneg (EvCall "bind" [srv; ThinServer.SERVER_PORT]);
        if b <? 0 then lift (perror "bind");; mret None
        else
          call nonneg (EvCall "listen" [srv; 1]);;
          lift (LOG "thin-server: listening on :%d" [ThinServer.SERVER_PORT]);;
          c ← call (gives client) (EvCall "accept" [srv]);
          if c <? 0 then lift (perror "accept");; mret None
          else
            lift (LOG "thin-server: daemon-doe connected" []);;
            mret (Some (c, srv))
  end.

Definition thin_main : io thin bool := r ← thin_boot; enter (fun '(c, _) => c =? client) r.

Lemma thin_pipes_code path : interp (thin_pipes path) ≐ ThinServer.open_pipes path.
Proof.
  unfold thin_pipes, ThinServer.open_pipes. cbv zeta. do 4 tree_step. destruct (a1 <? 0); [tree_step; reflexivity|].
  do 2 tree_step. destruct (a3 <? 0); tree_step; reflexivity.
Qed.

Lemma thin_main_code fuel :
  ThinServer.main fuel ≐
  (r ← interp thin_boot;
   match r with
   | Some (c, srv) =>
       serve fuel c;;
       g ← get;
       sys "close" [c];;
       sys "close" [srv];;
       sys "close" [t_req_fd g];;
       sys "close" [t_rep_fd g];;
       log_close;;
       mret 0
   | None => mret 1
   end).
Proof.
  symmetry. unfold ThinServer.main, thin_boot. do 3 tree_step. destruct a1 as [path|]; [|do 2 tree_step; reflexivity].
  rewrite interp_bind, bind_assoc. apply ceq_bind; [apply thin_pipes_code|]. intros r. cbn beta.
  destruct (r <? 0); [tree_step; reflexivity|]. do 3 tree_step. destruct (a3 <? 0); [tree_step; reflexivity|].
  do 3 tree_step. destruct (a6 <? 0); [tree_step; reflexivity|]. tree_step. reflexivity.
Qed.
End server.

(** ** doe-emu.c *)

Section emulator.
Variables (ereq erep : Z).

Definition emu_pipes (path : string) : io emu Z :=
  let req := snprintf 1024 (String.append path "/request_server_pipe") in
  let rep := snprintf 1024 (String.append path "/reply_server_pipe") in
  fd ← call (gives ereq) (EvPath "open" req [O_RDWR]);
  lift (modify (set_req_fd fd));;
  if fd <? 0 then lift (perror "open request_server_pipe");; mret (-1)
  else
    fd' ← call (gives erep) (EvPath "open" rep [O_RDWR]);
    lift (modify (set_rep_fd fd'));;
    if fd' <? 0 then lift (perror "open reply_server_pipe");; mret (-1)
    else lift (LOG "doe-emu: pipes opened (%s)" []);; mret 0.

(** [true]: into the loop. *)
Definition emu_boot : io emu bool :=
  lf ← lift (getenv "CXL_LOG_FILE");
  log_tree lf;;
  path ← lift (getenv "CXL_RELAY_SERVER_PATH");
  match path with
  | None => lift (emit (EvPrint "doe-emu: %s not set" []));; lift log_close;; mret false
  | Some path =>
      lift (in_doe (modify (fun _ => doe_zero)));;
      r ← emu_pipes path;
      if r <? 0 then lift log_close;; mret false
      else
        lift (LOG "doe-emu: ready" []);;
        mret true
  end.

Lemma emu_pipes_code path : interp (emu_pipes path) ≐ DoeEmu.open_pipes path.
Proof.
  unfold emu_pipes, DoeEmu.open_pipes. cbv zeta. do 2 tree_step. destruct (a <? 0); [tree_step; reflexivity|].
  do 2 tree_step. destruct (a1 <? 0); tree_step; reflexivity.
Qed.

Lemma emu_main_code fuel :
  DoeEmu.main fuel ≐
  (go ← interp emu_boot;
   if go : bool then
     run fuel;;
     g ← get;
     sys "close" [req_fd g];;
     sys "close" [rep_fd g];;
     log_close;;
     mret 0
   else mret 1).
Proof.
  symmetry. unfold DoeEmu.main, emu_boot. do 3 tree_step. destruct a1 as [path|]; [|do 2 tree_step; reflexivity].
  tree_step. rewrite interp_bind, bind_assoc. apply ceq_bind; [apply emu_pipes_code|]. intros r. cbn beta.
  destruct (r <? 0); [tree_step; reflexivity|]. tree_step. reflexivity.
Qed.
End emulator.

(** ** remote-rc.c *)

Section remote.
Variable c : Z.

Definition rc_boot : io (list byte) (option (Z * Z)) :=
  s ← call nonneg (EvCall "socket" [2; 1; 0]);
  if s <? 0 then lift (perror "socket");; mret None
  else
    o ← call nonneg (EvCall "setsockopt" [s; 1; 2; 1]);
    if o <? 0 then lift (perror "setsockopt");; mret None
    else
      b ← call nonneg (EvCall "bind" [s; PORT]);
      if b <? 0 then lift (perror "bind");; mret None
      else
        l ← call nonneg (EvCall "listen" [s; 1]);
        if l <? 0 then lift (perror "listen");; mret None
        else
          lift (printf "Remote RC waiting on port %d..." [PORT]);;
          c' ← call (gives c) (EvCall "accept" [s]);
          if c' <? 0 then lift (perror "accept");; mret None
          else
            lift (printf "Daemon connected" []);;
            mret (Some (c', s)).

Definition rc_main : io (list byte) bool := r ← rc_boot; enter (fun '(c', _) => c' =? c) r.

Lemma rc_main_code fuel :
  RemoteRc.main fuel ≐
  (r ← interp rc_boot;
   match r with
   | Some (c', s) =>
       forever fuel (rc_iter c');;
       sys "close" [c'];;
       sys "close" [s];;
       mret 0
   | None => mret 1
   end).
Proof.
  symmetry. unfold RemoteRc.main, rc_boot. tree_step. destruct (a <? 0); [tree_step; reflexivity|].
  tree_step. destruct (a0 <? 0); [tree_step; reflexivity|]. tree_step. destruct (a1 <? 0); [tree_step; reflexivity|].
  tree_step. destruct (a2 <? 0); [tree_step; reflexivity|]. do 2 tree_step.
  destruct (a4 <? 0); [tree_step; reflexivity|]. tree_step. reflexivity.
Qed.
End remote.

(** ** Every start-up leads to the loop, or ends the process *)

Section boots.
Variable faults : bool.
Variable env : string -> option string.

(** What an answer tells, when only some calls may fail. *)
Lemma gives_answer fd c good : gives fd c = Some good -> good = true \/ faults = true -> c = fd \/ (c < 0 /\ faults = true).
Proof.
  unfold gives. destruct (Z.ltb_spec c 0); [intros [= <-] [?|?]; [done|by right]|].
  destruct (Z.eqb_spec c fd); [by left|done].
Qed.

Lemma nonneg_answer c good : nonneg c = Some good -> good = true \/ faults = true -> 0 <= c \/ faults = true.
Proof. intros [= <-] [H|?]; [left; by apply Z.leb_le|by right]. Qed.

Lemma positive_answer c good : positive c = Some good -> good = true \/ faults = true -> 0 < c \/ faults = true.
Proof. intros [= <-] [H|?]; [left; by apply Z.ltb_lt|by right]. Qed.

Lemma gives_can fd : 0 <= fd -> exists c, gives fd c = Some true.
Proof. intros H. exists fd. unfold gives. destruct (Z.ltb_spec fd 0); [lia|]. by rewrite Z.eqb_refl. Qed.

Lemma nonneg_can : exists c, nonneg c = Some true.
Proof. by exists 0. Qed.

Lemma positive_can : exists c, positive c = Some true.
Proof. by exists 1. Qed.

Lemma always_can : exists c, always c = Some true.
Proof. by exists 0. Qed.

Lemma exactly_can v : exists c, exactly v c = Some true.
Proof. exists v. unfold exactly. by rewrite Z.eqb_refl. Qed.

Lemma exactly_answer v c good : exactly v c = Some good -> c = v.
Proof. unfold exactly. by destruct (Z.eqb_spec c v). Qed.

(** The computations of a start-up: the environment, the log and the messages, the globals. *)
Section steps.
Context {S : Type}.

Lemma boots_getenv name n (s : S) K : K n (env name) s -> boots faults env (lift (getenv name)) (Datatypes.S n) s K.
Proof. intros H. apply boots_lift. intros w Hw. cbn. split; [done|]. by rewrite Hw. Qed.

Lemma boots_world f n (s : S) K :
  (forall w, w_env (f w) = w_env w) -> K n tt s -> boots faults env (lift (modify_world f)) (Datatypes.S n) s K.
Proof. intros Hf H. apply boots_lift. intros w Hw. cbn. split; [|done]. by rewrite Hf. Qed.

Lemma boots_modify f n (s : S) K : K n tt (f s) -> boots faults env (lift (modify f)) (Datatypes.S n) s K.
Proof. intros H. by apply boots_lift. Qed.

Lemma boots_get n (s : S) K : K n s s -> boots faults env (lift get) (Datatypes.S n) s K.
Proof. intros H. by apply boots_lift. Qed.

Lemma boots_checked {A} (o : option A) a n (s : S) K :
  o = Some a -> K n a s -> boots faults env (lift (checked o)) (Datatypes.S n) s K.
Proof. intros -> H. by apply boots_lift. Qed.
End steps.

Lemma boots_in_doe f n (g : emu) K :
  K n tt (set_doe (f (doe g)) g) -> boots faults env (lift (in_doe (modify f))) (S n) g K.
Proof. intros H. by apply boots_lift. Qed.

End boots.

(** One call, computation or test of a start-up. *)
Ltac boot_step :=
  lazymatch goal with
  | |- boots _ _ (mbind _ _) _ _ _ => apply boots_bind
  | |- boots _ _ (mret _) _ _ _ => cbn [boots mret io_ret]
  | |- boots _ _ (Ret _) _ _ _ => cbn [boots]
  | |- boots _ _ (lift (getenv _)) _ _ _ => apply boots_getenv
  | |- boots _ _ (lift (modify _)) _ _ _ => apply boots_modify
  | |- boots _ _ (lift (in_doe _)) _ _ _ => apply boots_in_doe
  | |- boots _ _ (lift get) _ _ _ => apply boots_get
  | |- boots _ _ (lift (checked _)) _ _ _ => fail
  | |- boots _ _ (lift _) _ _ _ => apply boots_world; [intros ?; by try case_match|]
  | |- boots _ _ (call _ _) _ _ _ =>
      apply boots_call;
      [first [by apply gives_can|apply nonneg_can|apply positive_can|apply always_can|apply exactly_can]
      |let c := fresh "c" in let good := fresh "good" in let Hr := fresh "Hr" in let Hg := fresh "Hg" in
       intros c good Hr Hg;
       first [destruct (gives_answer _ _ _ _ Hr Hg) as [->|[? ?]]
             |pose proof (nonneg_answer _ _ _ Hr Hg)|pose proof (positive_answer _ _ _ Hr Hg)
             |pose proof (exactly_answer _ _ _ Hr); subst|idtac];
       clear Hr Hg good]
  | |- boots _ _ (die _) _ _ _ => apply boots_die
  | |- boots _ _ (log_tree ?p) _ _ _ => destruct p; cbn [log_tree]
  | |- boots _ _ (if ?c <? 0 then _ else _) _ _ _ => destruct (Z.ltb_spec c 0); [try lia|try lia]
  | |- boots _ _ (if ?c <=? 0 then _ else _) _ _ _ => destruct (Z.leb_spec c 0); [try lia|try lia]
  | |- boots _ _ (match ?o with Some _ => _ | None => _ end) _ _ _ => destruct o
  | |- boots _ _ (enter _ _) _ _ _ => unfold enter; rewrite ?Z.eqb_refl; cbn [andb]
  | |- ?faults = true =>
      first [assumption
            |match goal with H : _ \/ faults = true |- _ => by destruct H; [lia|] end
            |match goal with H : faults = true \/ is_Some None |- _ => by destruct H as [?|[? ?]] end]
  | |- _ => done
  end; cbn beta iota.

Section programs.
Variable faults : bool.
Variable env : string -> option string.

Lemma daemon_main_boots dev sock mem :
  0 <= dev -> 0 <= sock -> length mem = 16%nat ->
  booting faults env (fun s => length s = 16%nat) 14 (daemon_main dev sock) mem.
Proof. intros Hd Hs Hm. unfold booting, daemon_main, daemon_boot, daemon_connect. repeat boot_step. Qed.

Lemma rc_main_boots c mem :
  0 <= c -> length mem = 16%nat -> booting faults env (fun s => length s = 16%nat) 12 (rc_main c) mem.
Proof. intros Hc Hm. unfold booting, rc_main, rc_boot. repeat boot_step. Qed.

(** The pipes are found through the environment. *)
Hypothesis Hpath : faults = true \/ is_Some (env "CXL_RELAY_SERVER_PATH").

Lemma thin_main_boots client treq trep g :
  0 <= client -> 0 <= treq -> 0 <= trep ->
  booting faults env (fun g' => g' = Thin treq trep (t_seq g)) 28 (thin_main client treq trep) g.
Proof.
  intros Hc Hq Hp. unfold booting, thin_main, thin_boot, thin_pipes. repeat boot_step.
Qed.

Lemma emu_main_boots ereq erep g :
  0 <= ereq -> 0 <= erep -> booting faults env (fun g' => g' = Emu doe_zero ereq erep) 14 (emu_boot ereq erep) g.
Proof. intros Hq Hp. unfold booting, emu_boot, emu_pipes. repeat boot_step. Qed.
End programs.
