(* ===== verification/DeadEmu.v ===== *)
(** * A relay whose emulator is gone

    thin-server.c and doe-emu.c both open the two pipes for reading and writing. This file
    has the kernel's rules for a pipe whose other process has ended, by the flags that the
    descriptors were opened with: a read of an empty pipe that nobody has open for writing
    is an end of file, and a write to a pipe that nobody has open for reading kills the
    writer. thin-server.c is itself the reader and the writer that keep both from
    happening: whichever client is connected, the server takes the first access, writes the
    transaction and waits for a reply for ever, and so does the client. *)
From S2P Require Import Prelude Bytes CMonad Log Wire ByteIO Mailbox DoeEmu DoeSpec EmuSpec ThinServer.
From S2P Require Import IoTree RelayCode RelaySpec Link PipeServer Boot.

Section dead.
Variables (client treq trep ereq erep : Z).
Hypotheses (client_treq : client <> treq) (client_trep : client <> trep).
Context {K Q R : Type} (c : Link.client K Q R) (cat : K -> cpos Q -> nat -> Prop) {HC : ClientLaws c false cat}.

#[local] Abbreviation v := (pipe_server client treq trep ereq erep false).
#[local] Abbreviation tsim := (PipeServer.tsim client treq trep false).

(** The server at the top of its loop, and no emulator. *)
Definition deserted (sq : Z) (wt : world) : pipes :=
  Pipes (Running (Thin treq trep sq) wt (server_tree client)) [] [] Stopped.

Variables (qs : list Q) (sq : Z).

Inductive hang : link K pipes Q R -> nat -> Prop :=
| HgIdle k t jc jt :
    Forall (cl_ok c) qs -> cat k CWait jc -> tsim t (TUp [] []) sq jt ->
    hang (Link qs [] k [] [] (Pipes t [] [] Stopped)) (6 * 725 + jc + jt)
| HgAsk q td k t out u acc jc jt :
    qs = q :: td -> Forall (cl_ok c) qs -> cat k (CBusy q out []) jc -> tsim t (TUp [] acc) sq jt ->
    acc ++ u ++ out = to_bytes (cl_op c q) ->
    hang (Link td [] k u [] (Pipes t [] [] Stopped)) (6 * (left out u + 690) + jc + jt)
| HgWait q td k t out rq jc jt :
    qs = q :: td -> Forall (cl_ok c) qs -> cat k (CBusy q [] []) jc ->
    tsim t (TDown (cl_op c q) out []) (wrap32 (sq + 1)) jt ->
    rq ++ out = to_bytes (serve_request (wrap32 (sq + 1)) (cl_op c q)) ->
    hang (Link td [] k [] [] (Pipes t rq [] Stopped)) (6 * left out rq + jc + jt).

(** What a move of the client leads to; the server has nothing for it. *)
Lemma hang_client k p jc k' a :
  cat k p jc -> cl_move c k a k' ->
  match a with
  | CQuiet => exists j, cat k' p j /\ (j < jc)%nat
  | CTake q => cl_ok c q -> p = CWait /\ exists j, cat k' (CBusy q (to_bytes (cl_op c q)) []) j /\ (j <= jc + 5)%nat
  | CSend bs => exists q out n, p = CBusy q out [] /\ (0 < n <= length out)%nat /\ bs = take n out /\
      exists j, cat k' (CBusy q (drop n out) []) j /\ (j <= jc + 5)%nat
  | CRecv bs => (0 < length bs)%nat
  | CGive r => exists q acc, p = CBusy q [] acc /\ length acc = 16%nat
  end.
Proof.
  intros C M. destruct a as [|q|r|bs|bs].
  - destruct (cl_quiet _ _ _ _ C M) as (j & C' & Hj). exists j. split; [done|by apply Hj].
  - intros Hq. by apply (cl_take _ _ _ _ _ C M).
  - destruct (cl_give _ _ _ _ _ C M) as (q & acc & -> & Ha & _). eauto.
  - exact (cl_send _ _ _ _ _ C M).
  - by destruct (cl_recv _ _ _ _ _ C M) as (q & acc & _ & Hb & _).
Qed.

Definition hnext (x : link K pipes Q R) (m : nat) : Prop := exists m', hang x m' /\ (m' < m)%nat.

(** A move of the server alone: the emulator does nothing, and nothing is in its pipe. *)
Lemma hang_server t rq s' tp sq' jt :
  tsim t tp sq' jt -> pipe_moves client treq trep ereq erep false (Pipes t rq [] Stopped) SQuiet s' ->
  (exists t' j, s' = Pipes t' rq [] Stopped /\ tsim t' tp sq' j /\ (j < jt)%nat) \/
  (exists t' acc, s' = Pipes t' rq [] Stopped /\ tp = TUp [] acc /\ length acc = 16%nat /\
     tsim t' (TDown (of_bytes acc) (to_bytes (serve_request (wrap32 (sq' + 1)) (of_bytes acc))) [])
          (wrap32 (sq' + 1)) 0) \/
  (exists op acc, tp = TDown op [] acc /\ length acc = 344%nat) \/
  (exists t' op out n, s' = Pipes t' (rq ++ take n out) [] Stopped /\ tp = TDown op out [] /\
     (0 < n <= length out)%nat /\ tsim t' (TDown op (drop n out) []) sq' 0).
Proof.
  intros T M. inversion M as [ch lab t' ? ? ? ? H Hl| | |n bs t' ? ? ? ? H|bs t' ? ? rp' ? H|? ? ? ? ? ? ? H
    |? ? ? ? ? ? H|? ? ? ? ? ? ? H]; subst; try done;
    pose proof (tsim_move _ _ _ _ _ _ _ _ _ _ _ T H) as N.
  - destruct lab; try done. destruct N as [(j & T' & Hj)|[(acc & -> & Ha & T')|(op & acc & -> & Ha & _)]].
    + left. eauto.
    + right; left. eauto 10.
    + right; right; left. eauto.
  - right; right; right. destruct N as [(_ & op & out & n' & -> & Hn & -> & T')|(? & _)]; [|done]. eauto 10.
  - match goal with E : _ ++ _ = [] |- _ => apply app_eq_nil in E as [-> ->] end.
    destruct N as [(? & _)|(_ & ? & ? & _ & Hb & _)]; [done|]. cbn in Hb. lia.
Qed.

Lemma hang_idle k t jc jt x' :
  Forall (cl_ok c) qs -> cat k CWait jc -> tsim t (TUp [] []) sq jt ->
  lstep c v (Link qs [] k [] [] (Pipes t [] [] Stopped)) x' -> hnext x' (6 * 725 + jc + jt).
Proof.
  intros Hq C T St. lcases St; try (pose proof (hang_client _ _ _ _ _ C M) as N).
  - destruct N as (j & C' & Hj). eexists. split; [by eapply HgIdle|lia].
  - match goal with E : _ :: _ = qs |- _ => rename E into Eq end.
    assert (cl_ok c q') as Hq1 by (rewrite <- Eq in Hq; exact (Forall_inv Hq)).
    destruct (N Hq1) as (_ & j & C' & Hj). pose proof (op_bytes_length _ (cl_request _ Hq1)) as Hl.
    eexists. split; [by eapply (HgAsk q' td _ _ _ [] [])|]. unfold left. rewrite Hl. cbn [length]. lia.
  - by destruct N as (? & ? & ? & _).
  - by destruct N as (? & ? & ? & ? & _).
  - cbn in N. lia.
  - destruct (hang_server _ _ _ _ _ _ T M) as [(t' & j & -> & T' & Hj)|[(? & ? & _ & [= <-] & ? & _)|[(? & ? & ? & _)|(? & ? & ? & ? & _ & ? & _)]]];
      [|done..]. eexists. split; [by eapply HgIdle|lia].
  - inversion M as [|? ? ? ? ? ? ? H| | | | | |]; subst.
    destruct (tsim_move _ _ _ _ _ _ _ _ _ _ _ T H) as [(_ & ? & _ & Hb & _)|(? & _)]; [cbn in Hb; lia|done].
  - inversion M as [| |? ? ? ? ? ? ? H| | | | |]; subst.
    destruct (tsim_move _ _ _ _ _ _ _ _ _ _ _ T H) as [(? & _)|(_ & ? & ? & [= <-] & Hn & _)]; [done|]. cbn in Hn; lia.
Qed.

Lemma hang_ask q td k t out u acc jc jt x' :
  qs = q :: td -> Forall (cl_ok c) qs -> cat k (CBusy q out []) jc -> tsim t (TUp [] acc) sq jt ->
  acc ++ u ++ out = to_bytes (cl_op c q) ->
  lstep c v (Link td [] k u [] (Pipes t [] [] Stopped)) x' -> hnext x' (6 * (left out u + 690) + jc + jt).
Proof.
  intros Eq Hq C T Hm St. pose proof Hq as Hq'. rewrite Eq in Hq'. apply Forall_cons_1 in Hq' as [Hq1 Hqs].
  pose proof (cl_request _ Hq1) as Hop. lcases St; try (pose proof (hang_client _ _ _ _ _ C M) as N).
  - destruct N as (j & C' & Hj). eexists. split; [by eapply HgAsk|lia].
  - by destruct (N (Forall_inv Hqs)) as (? & _).
  - by destruct N as (? & ? & [= _ _ <-] & ?).
  - destruct N as (? & ? & n & [= <- <-] & Hn & -> & j & C' & Hj).
    destruct (hop_send _ _ _ _ _ Hn Hm) as [Hm' Hlt]. eexists. split; [by eapply HgAsk|lia].
  - cbn in N. lia.
  - destruct (hang_server _ _ _ _ _ _ T M) as [(t' & j & -> & T' & Hj)|[(t' & ? & -> & [= <-] & Ha & T')|[(? & ? & ? & _)|(? & ? & ? & ? & _ & ? & _)]]];
      [| |done..].
    + eexists. split; [by eapply HgAsk|lia].
    + destruct (hop_done (H := op_struct) _ _ _ _ Hop Hm Ha) as (-> & -> & ->). rewrite of_to_bytes in T' by exact Hop.
      eexists. split; [by eapply (HgWait q td _ _ _ [])|]. unfold left.
      rewrite transaction_length by (apply serve_request_ok; [apply wrap32_u32|done]). cbn [length]. lia.
  - inversion M as [|? ? ? ? ? ? ? H| | | | | |]; subst.
    destruct (tsim_move _ _ _ _ _ _ _ _ _ _ _ T H) as [(_ & ? & [= <-] & Hb & T')|(? & _)]; [|done].
    destruct (hop_recv _ _ _ _ _ (proj1 Hb) Hm) as [Hm' Hlt]. eexists. split; [by eapply HgAsk|lia].
  - inversion M as [| |? ? ? ? ? ? ? H| | | | |]; subst.
    destruct (tsim_move _ _ _ _ _ _ _ _ _ _ _ T H) as [(? & _)|(_ & ? & ? & [= <- _] & Hn & _)]; [done|]. cbn in Hn; lia.
Qed.

Lemma hang_wait q td k t out rq jc jt x' :
  qs = q :: td -> Forall (cl_ok c) qs -> cat k (CBusy q [] []) jc ->
  tsim t (TDown (cl_op c q) out []) (wrap32 (sq + 1)) jt ->
  rq ++ out = to_bytes (serve_request (wrap32 (sq + 1)) (cl_op c q)) ->
  lstep c v (Link td [] k [] [] (Pipes t rq [] Stopped)) x' -> hnext x' (6 * left out rq + jc + jt).
Proof.
  intros Eq Hq C T Hm St. pose proof Hq as Hq'. rewrite Eq in Hq'. apply Forall_cons_1 in Hq' as [Hq1 Hqs].
  lcases St; try (pose proof (hang_client _ _ _ _ _ C M) as N).
  - destruct N as (j & C' & Hj). eexists. split; [by eapply HgWait|lia].
  - by destruct (N (Forall_inv Hqs)) as (? & _).
  - by destruct N as (? & ? & [= _ <-] & ?).
  - destruct N as (? & ? & n & [= _ <-] & Hn & _). cbn in Hn. lia.
  - cbn in N. lia.
  - destruct (hang_server _ _ _ _ _ _ T M) as [(t' & j & -> & T' & Hj)|[(? & ? & _ & ? & _)|[(? & ? & [= _ _ <-] & ?)|(t' & ? & ? & n & -> & [= <- <-] & Hn & T')]]];
      [|done..|].
    + eexists. split; [by eapply HgWait|lia].
    + destruct (hop_send [] rq out n _ Hn Hm) as [Hm' Hlt]. eexists. split; [by eapply HgWait|lia].
  - inversion M as [|? ? ? ? ? ? ? H| | | | | |]; subst.
    by destruct (tsim_move _ _ _ _ _ _ _ _ _ _ _ T H) as [(_ & ? & ? & _)|(? & _)].
  - inversion M as [| |? ? ? ? ? ? ? H| | | | |]; subst.
    by destruct (tsim_move _ _ _ _ _ _ _ _ _ _ _ T H) as [(? & _)|(_ & ? & ? & ? & _)].
Qed.

Lemma hang_step x x' m : hang x m -> lstep c v x x' -> hnext x' m.
Proof. intros [] St; [by eapply hang_idle|by eapply hang_ask|by eapply hang_wait]. Qed.

Lemma hang_runs n x x' m : hang x m -> nsteps (lstep c v) n x x' -> exists m', hang x' m' /\ (n + m' <= m)%nat.
Proof.
  intros I Hn. revert m I. induction Hn as [x|n x y z St _ IH]; intros m I; [exists m; split; [done|lia]|].
  destruct (hang_step _ _ _ I St) as (m1 & I1 & H1). destruct (IH _ I1) as (m2 & I2 & H2).
  exists m2. split; [done|lia].
Qed.

Lemma tsim_alive t tp sq' j : tsim t tp sq' j -> exists s w tr, t = Running s w tr.
Proof. intros T. inversion T; subst; try done; eauto. Qed.

(** The client and the server are alive, and have answered nothing. *)
Lemma hang_silent x m :
  hang x m -> l_done x = [] /\ ~ cl_crashed c (l_client x) /\ cl_gone c (l_client x) = false /\
  exists s w tr, p_t (l_server x) = Running s w tr.
Proof.
  assert (forall k p j, cat k p j -> cl_gone c k = false) as Hg.
  { intros k p j C. destruct (cl_gone c k) eqn:E; [by pose proof (cl_left _ _ _ C E)|done]. }
  intros [k t jc jt _ C T|q td k t out u acc jc jt _ _ C T _|q td k t out rq jc jt _ _ C T _];
    cbn [l_done l_client l_server p_t]; (split; [done|]); (split; [by eapply cl_sound|]); (split; [by eapply Hg|]);
    by eapply tsim_alive.
Qed.

(** A state in which nobody can move has the first transaction in the request pipe. *)
Lemma hang_end x m q td :
  qs = q :: td -> hang x m -> ~ (exists x', lstep c v x x') ->
  p_req (l_server x) = to_bytes (serve_request (wrap32 (sq + 1)) (cl_op c q)).
Proof.
  intros Eq I Stuck.
  assert (forall td dn k u dw s a k', cown a -> cl_move c k a k' -> exists x', lstep c v (Link td dn k u dw s) x') as Own.
  { intros td' dn k u dw s [] k' Ho M; try done; eexists; [by eapply LQuiet|by eapply LGive|by eapply LSend]. }
  assert (forall td dn k u dw t rq e tp sq' j, tsim t tp sq' j ->
    (exists x', lstep c v (Link td dn k u dw (Pipes t rq [] e)) x') \/
    (exists acc, tp = TUp [] acc /\ (length acc < 16)%nat /\
       forall bs, (0 < length bs <= 16 - length acc)%nat ->
       exists t', pmove (server_tree client) t (Deliver bs) = Some (In client bs, t')) \/
    (exists op acc, tp = TDown op [] acc)) as Thin.
  { intros td' dn k u dw t rq e tp sq' j T.
    destruct (tsim_ready _ _ _ _ _ _ _ T) as [(ch & lab & t' & Hp & [->|(fd & bs & n & -> & -> & [->| ->])])|[HT|(op & acc & -> & _)]].
    - left. eexists. eapply LServe. by eapply PmServer.
    - left. eexists. eapply LServe. by eapply PmWrite.
    - left. eexists. eapply LAnswer. by eapply PmSend.
    - right; left. exact HT.
    - right; right. eauto. }
  destruct I as [k t jc jt Hq C T|q' td' k t out u acc jc jt Eq' Hq C T Hm|q' td' k t out rq jc jt Eq' Hq C T Hm];
    rewrite Eq in *; apply Forall_cons_1 in Hq as [Hq Hqs];
    (destruct (cl_ready _ _ _ eq_refl C) as [(act & k' & Ho & M)|HK]; [exfalso; by eapply Stuck, Own|]).
  - exfalso. destruct HK as [(_ & HK)|(? & ? & ? & _)]; [|done].
    destruct (HK q Hq) as [k' M]. apply Stuck. eexists. by eapply LTake.
  - exfalso. injection Eq' as <- <-. destruct HK as [(? & _)|(? & ? & [= <- -> <-] & _)]; [done|].
    destruct (Thin td [] k u [] t [] Stopped _ _ _ T) as [?|[(? & [= <-] & Hl & HT)|(? & ? & ?)]]; [done| |done].
    pose proof (hop_length (H := op_struct) _ _ _ _ (cl_request _ Hq) Hm) as Hlen.
    change (sizeof avery_pci_config_op) with 16%nat in Hlen. cbn in Hlen.
    destruct (HT u) as [t' Hp]; [lia|]. apply Stuck. eexists. rewrite <- (app_nil_r u). eapply LArrive. by eapply PmRecv.
  - injection Eq' as <- <-. cbn [l_server p_req].
    destruct (Thin td [] k [] [] t rq Stopped _ _ _ T) as [?|[(? & ? & _)|(? & ? & [= _ -> _])]]; [done..|].
    by rewrite app_nil_r in Hm.
Qed.

Lemma deserted_hangs k jc wt :
  Forall (cl_ok c) qs -> cat k CWait jc -> hang (link_init qs k (deserted sq wt)) (6 * 725 + jc + 0).
Proof.
  intros Hq C. apply HgIdle; [done..|]. apply (tsim_received client treq trep false wt sq 16 []); cbn; lia.
Qed.
End dead.

(** The server waits for a reply, and nobody is there to give one. *)
Definition deserted_idle (s : pipes) : bool :=
  match s with Pipes t _ [] Stopped => reading t | _ => false end.

#[export] Instance deserted_rests client treq trep ereq erep :
  ServerRests (pipe_server client treq trep ereq erep false) deserted_idle.
Proof.
  intros s a s' Hs M. cbn [sv_move pipe_server] in M.
  destruct s as [t rq [|? ?] [| |]]; try done. cbn [deserted_idle] in Hs.
  inversion M as [? lab ? ? ? ? ? H Hl|? ? ? ? ? ? ? H|? ? ? ? ? ? ? H|? ? ? ? ? ? ? H|? ? ? ? ? ? H|? ? ? ? ? ? ? H
    |? ? ? ? ? ? H|? ? ? ? ? ? ? H]; subst; try done;
    try match goal with E : _ ++ _ = [] |- _ => apply app_eq_nil in E as [-> ->] end;
    pose proof (reading_gets _ _ _ _ _ Hs H) as N; try done. by destruct lab.
Qed.

(** ** The kernel's rules for the pipes of a server without an emulator *)

Section orphan.
Variables (client treq trep ereq erep : Z).

(** The process is at a read of the reply pipe, or at a write to the request pipe, while
    no descriptor is open for the other direction. *)
Definition without_writer (t : proc thin) : bool :=
  match t with Running _ w (Read fd _ _) => (fd =? trep) && negb (open_for for_writing trep w) | _ => false end.
Definition without_reader (t : proc thin) : bool :=
  match t with Running _ w (Write fd _ _) => (fd =? treq) && negb (open_for for_reading treq w) | _ => false end.

Inductive orphan_moves : pipes -> sact -> pipes -> Prop :=
| OmCall s a s' :
    pipe_moves client treq trep ereq erep false s a s' -> without_reader (p_t s) = false -> orphan_moves s a s'
| OmEof t t' lab rq :
    without_writer t = true -> pmove (server_tree client) t (Result 0) = Some (lab, t') ->
    orphan_moves (Pipes t rq [] Stopped) SQuiet (Pipes t' rq [] Stopped)
| OmSigpipe t rq rp :
    without_reader t = true -> orphan_moves (Pipes t rq rp Stopped) SQuiet (Pipes Stopped rq rp Stopped).

Definition orphan_server : server pipes (device * Z) :=
  MkServer orphan_moves (fun s => p_t s = Crashed \/ p_e s = Crashed) spec_step.

(** Both descriptors are open for reading and writing. *)
Definition both_ways (w : world) : Prop := opened treq w = Some O_RDWR /\ opened trep w = Some O_RDWR.

Lemma both_ways_event e w :
  (forall fd o, opening fd e o = o) -> both_ways w -> both_ways (add_event e w).
Proof. intros He [H1 H2]. split; by rewrite opened_event, He. Qed.

Lemma keeps_die {A} msg : keeps both_ways (die (S := thin) (A := A) msg).
Proof. intros s w Hw. split; [by apply both_ways_event|]. by intros s' w' _. Qed.

Lemma keeps_read_tree msg fuel : forall len fd acc, keeps both_ways (read_tree (S := thin) msg fuel len fd acc).
Proof.
  induction fuel as [|fuel IH]; intros [|len] fd acc; cbn [read_tree keeps]; try done.
  intros [n bs]. destruct (n <=? 0); [apply keeps_die|apply IH].
Qed.

Lemma keeps_write_tree msg fuel : forall fd bs, keeps both_ways (write_tree (S := thin) msg fuel fd bs).
Proof.
  induction fuel as [|fuel IH]; intros fd [|b bs]; cbn [write_tree keeps]; try done.
  intros n. destruct (n <=? 0); [apply keeps_die|apply IH].
Qed.

(** The loop of thin-server.c opens and closes nothing. *)
Lemma keeps_server_tree : keeps both_ways (server_tree client).
Proof.
  apply keeps_tbind; [apply keeps_read_tree|]. intros bs s w Hw. cbn -[of_bytes server_forward]. split.
  { by apply both_ways_event. }
  apply keeps_tbind; [apply keeps_write_tree|]. intros _.
  apply keeps_tbind; [apply keeps_read_tree|]. intros rs s' w' Hw'. cbn -[of_bytes serve_reply server_answer].
  split; [by apply both_ways_event|]. apply keeps_tbind; [apply keeps_write_tree|done].
Qed.

(** [open_pipes] opens both for reading and writing, or reports an error. *)
Lemma thin_pipes_both_ways path s w :
  boot_ends (thin_pipes treq trep path) s w (fun r _ w' => 0 <= r -> both_ways w').
Proof.
  unfold thin_pipes. cbv zeta.
  do 2 (apply boot_ends_bind, boot_ends_call; intros ? _ _).
  apply boot_ends_bind, boot_ends_call. intros fd good Hfd. apply boot_ends_bind. cbn [boot_ends lift modify mret C_ret].
  unfold gives in Hfd. destruct (Z.ltb_spec fd 0); [cbn; lia|]. destruct (Z.eqb_spec fd treq) as [->|]; [|done].
  apply boot_ends_bind, boot_ends_call. intros fd' good' Hfd'. apply boot_ends_bind. cbn [boot_ends lift modify mret C_ret].
  unfold gives in Hfd'. destruct (Z.ltb_spec fd' 0); [cbn; lia|]. destruct (Z.eqb_spec fd' trep) as [->|]; [|done].
  apply boot_ends_bind. cbn -[opened]. intros _. split; rewrite !opened_event; cbn -[opened];
    rewrite Z.eqb_refl; by destruct (trep =? treq).
Qed.

Lemma thin_main_learns wt : learns both_ways (Running thin_init wt (thin_main client treq trep)).
Proof.
  cbn [learns]. unfold thin_main, thin_boot. apply boot_ends_bind, boot_ends_bind. cbn [boot_ends lift getenv].
  apply boot_ends_bind.
  assert (forall w s K, (forall w', K tt s w') -> boot_ends (log_tree (S := thin) (w_env wt "CXL_LOG_FILE")) s w K) as Hlog.
  { intros w s K HK. unfold log_tree. destruct (w_env wt _); [|apply HK]. apply boot_ends_bind, boot_ends_call. intros c _ _. apply HK. }
  apply Hlog. intros w1. apply boot_ends_bind. cbn [boot_ends lift getenv].
  destruct (w_env w1 "CXL_RELAY_SERVER_PATH") as [path|]; [|done].
  apply boot_ends_bind. eapply boot_ends_mono; [apply thin_pipes_both_ways|]. cbn beta. intros r s w2 Hr.
  destruct (Z.ltb_spec r 0); [done|]. specialize (Hr ltac:(lia)).
  do 2 (apply boot_ends_bind, boot_ends_call; intros ? _ _). apply boot_ends_bind, boot_ends_call. intros b _ _.
  destruct (b <? 0); [done|]. apply boot_ends_bind, boot_ends_call. intros ? _ _. apply boot_ends_bind. cbn [boot_ends lift].
  apply boot_ends_bind, boot_ends_call. intros cl _ _. destruct (cl <? 0); [done|]. apply boot_ends_bind. cbn [boot_ends lift].
  cbn -[both_ways]. unfold enter. destruct (cl =? client); [|done]. cbn -[both_ways]. intros _. by repeat apply both_ways_event.
Qed.

(** Whenever thin-server.c is at the top of its loop, whatever has happened before. *)
Lemma thin_reached_both_ways wt s w :
  rtc (pstep (server_tree client)) (Running thin_init wt (thin_main client treq trep)) (Running s w (server_tree client)) ->
  both_ways w.
Proof.
  intros R. by destruct (pstep_knows _ both_ways _ _ keeps_server_tree (thin_main_learns wt) R) as [?|[? _]].
Qed.

(** With such descriptors the kernel neither ends a read nor kills a writer. *)
Lemma both_ways_orphan t rq rp a s' :
  knows both_ways t ->
  orphan_moves (Pipes t rq rp Stopped) a s' <-> pipe_moves client treq trep ereq erep false (Pipes t rq rp Stopped) a s'.
Proof.
  intros Hk.
  assert (without_writer t = false /\ without_reader t = false) as [Hw Hr].
  { unfold without_writer, without_reader, open_for. destruct t as [s w t| |]; [|done..]. destruct Hk as [[E1 E2] _].
    rewrite E1, E2. destruct t; rewrite ?andb_false_r; done. }
  split; [|intros M; by constructor]. intros M. inversion M; subst; congruence.
Qed.

Lemma orphan_knows t rq rp a t' rq' rp' e' :
  knows both_ways t -> pipe_moves client treq trep ereq erep false (Pipes t rq rp Stopped) a (Pipes t' rq' rp' e') ->
  knows both_ways t' /\ e' = Stopped.
Proof.
  intros Hk M. inversion M as [? ? ? ? ? ? ? H|? ? ? ? ? ? ? H|? ? ? ? ? ? ? H|? ? ? ? ? ? ? H|? ? ? ? ? ? H|? ? ? ? ? ? ? H
    |? ? ? ? ? ? H|? ? ? ? ? ? ? H]; subst; try done; (split; [|done]);
    by eapply knows_move; [apply keeps_server_tree| |exact H].
Qed.

(** With another flag the end of the emulator would be noticed: a server that waits for a
    reply on a descriptor that is not open for writing gets an end of file and exits. *)
Lemma orphan_eof op g w rq :
  open_for for_writing trep w = false ->
  rtc (fun s s' => orphan_moves s SQuiet s') (Pipes (Running g w (server_wait client op trep)) rq [] Stopped)
      (Pipes Stopped rq [] Stopped).
Proof.
  intros Ho.
  assert (without_writer (Running g w (server_wait client op trep)) = true) as He.
  { change ((trep =? trep) && negb (open_for for_writing trep w) = true). by rewrite Z.eqb_refl, Ho. }
  set (dying := fun w t => Running (S := thin) g w (tbind t (server_replied client op))).
  assert (pmove (server_tree client) (Running g w (server_wait client op trep)) (Result 0) =
    Some (Fail, dying w (die "read pipe"))) as E1 by reflexivity.
  assert (pmove (server_tree client) (dying w (die "read pipe")) Go =
    Some (Tau, dying (add_event (EvPerror "read pipe") w) (exit_tree 1))) as E2 by reflexivity.
  assert (pmove (server_tree client) (dying (add_event (EvPerror "read pipe") w) (exit_tree 1)) Go = Some (Tau, Stopped))
    as E3 by reflexivity.
  assert (forall w, without_reader (dying w (die "read pipe")) = false /\ without_reader (dying w (exit_tree 1)) = false)
    as Hr by done.
  clearbody dying. eapply rtc_l; [by eapply OmEof|].
  do 2 (eapply rtc_l; [apply OmCall; [by eapply PmServer|apply Hr]|]). done.
Qed.

(** Scheduling, and the state in which nothing moves. *)
Definition orphan_next (u : list byte) (s : pipes) : option (sact * pipes) :=
  if without_reader (p_t s) then None else pipe_step client treq trep ereq erep u s.

#[export] Instance orphan_runs : ServerRuns orphan_server orphan_next.
Proof.
  intros u s a s'. unfold orphan_next. destruct (without_reader (p_t s)) eqn:E; [done|]. intros H.
  pose proof (pipe_runs client treq trep ereq erep false u s a s' H) as M. cbn [sv_move orphan_server pipe_server] in *.
  destruct a; [by constructor| |by constructor]. destruct M as [M Hu]. split; [|done]. intros l. by constructor.
Qed.

Definition orphan_idle (s : pipes) : bool := deserted_idle s && negb (without_writer (p_t s)).

#[export] Instance orphan_rests : ServerRests orphan_server orphan_idle.
Proof.
  intros s a s' Hs M. apply andb_prop in Hs as [Hs Hw]. cbn [sv_move orphan_server] in M.
  destruct M as [s a s' M _|t t' lab rq Hn _|t rq rp Hn].
  - by apply (deserted_rests client treq trep ereq erep _ _ _ Hs M).
  - cbn [p_t] in Hw. by rewrite Hn in Hw.
  - cbn [deserted_idle] in Hs. destruct t as [s w []| |]; try done. by destruct rp.
Qed.

Context {K Q R : Type} (c : Link.client K Q R).

#[local] Abbreviation v := (pipe_server client treq trep ereq erep false).

Definition held (x : link K pipes Q R) : Prop := knows both_ways (p_t (l_server x)) /\ p_e (l_server x) = Stopped.

Lemma orphan_step x x' :
  held x -> lstep c orphan_server x x' <-> lstep c v x x'.
Proof.
  intros [Hk He]. destruct x as [td dn k u dw [t rq rp e]]. cbn [l_server p_t p_e] in *. subst e.
  split; intros St; lcases St; cbn [sv_move orphan_server pipe_server] in M;
    try (by econstructor); apply (both_ways_orphan _ _ _ _ _ Hk) in M; by econstructor.
Qed.

Lemma held_step x x' : held x -> lstep c v x x' -> held x'.
Proof.
  intros [Hk He] St. destruct x as [td dn k u dw [t rq rp e]]. cbn [l_server p_t p_e] in *. subst e.
  lcases St; try done; destruct s' as [t' rq' rp' e']; cbn [sv_move pipe_server] in M;
    destruct (orphan_knows _ _ _ _ _ _ _ _ Hk M); by split.
Qed.

Lemma orphan_steps n x x' : held x -> nsteps (lstep c orphan_server) n x x' -> nsteps (lstep c v) n x x' /\ held x'.
Proof.
  intros Hx R'. induction R' as [x|n x y z St _ IH]; [by split; [constructor|]|].
  apply (orphan_step x y Hx) in St. destruct (IH (held_step _ _ Hx St)). split; [by econstructor|done].
Qed.
End orphan.
