(* ===== verification/Netlink.v ===== *)
(** * daemon-doe-netlink.c and the netlink headers it includes

    The message formats of include/linux/netlink.h and genetlink.h, the messages the
    daemon builds, the walk over received attributes, and the daemon's main loop.
    A receive buffer is its full array: the datagram, then whatever the stack held
    before ([junk]), because the code trusts the lengths inside the message. *)
From S2P Require Import Prelude Bytes CMonad Wire ByteIO.

(** ** netlink.h, genetlink.h *)

Definition NLMSG_ALIGNTO : Z := 4.
Definition NLMSG_ALIGN (len : Z) : Z := Z.land (len + NLMSG_ALIGNTO - 1) (Z.lnot (NLMSG_ALIGNTO - 1)).

(** [struct nlmsghdr], [struct genlmsghdr], [struct nlattr]: their fields and sizes. *)
Definition nlmsghdr_fields : list field :=
  [Field "nlmsg_len" 4 1; Field "nlmsg_type" 2 1; Field "nlmsg_flags" 2 1;
   Field "nlmsg_seq" 4 1; Field "nlmsg_pid" 4 1].
Definition genlmsghdr_fields : list field :=
  [Field "cmd" 1 1; Field "version" 1 1; Field "reserved" 2 1].
Definition nlattr_fields : list field := [Field "nla_len" 2 1; Field "nla_type" 2 1].

Definition NLMSG_HDRLEN : Z := NLMSG_ALIGN (Z.of_nat (snd (layout false nlmsghdr_fields))).
Definition NLMSG_LENGTH (len : Z) : Z := len + NLMSG_HDRLEN.
Definition GENL_HDRLEN : Z := NLMSG_ALIGN (Z.of_nat (snd (layout false genlmsghdr_fields))).
Definition NLA_ALIGNTO : Z := 4.
Definition NLA_ALIGN (len : Z) : Z := Z.land (len + NLA_ALIGNTO - 1) (Z.lnot (NLA_ALIGNTO - 1)).
Definition NLA_HDRLEN : Z := NLA_ALIGN (Z.of_nat (snd (layout false nlattr_fields))).

Definition NLM_F_REQUEST : Z := 1.
Definition GENL_ID_CTRL : Z := 0x10.
Definition CTRL_CMD_GETFAMILY : Z := 3.
Definition CTRL_ATTR_FAMILY_ID : Z := 1.
Definition CTRL_ATTR_FAMILY_NAME : Z := 2.

(** ** The AVERY_DOE family *)

Definition AVERY_FAMILY_NAME : string := "AVERY_DOE".
Definition AVERY_CMD_UNSPEC   : Z := 0.
Definition AVERY_CMD_REQUEST  : Z := 1.
Definition AVERY_CMD_RESPONSE : Z := 2.
Definition AVERY_CMD_REGISTER : Z := 3.
Definition AVERY_ATTR_UNSPEC  : Z := 0.
Definition AVERY_ATTR_OP      : Z := 1.

(** The globals and the locals of [main] that live across rounds: [family_id], the
    [pending_req] and the 16 bytes of [op]. *)
Record nl_state : Type := NlState {
  family_id : Z;
  portid    : Z;
  seq       : Z;
  op_mem    : list byte;
}.

Definition set_family_id (v : Z) (s : nl_state) : nl_state := NlState v (portid s) (seq s) (op_mem s).
Definition set_pending (p q : Z) (s : nl_state) : nl_state := NlState (family_id s) p q (op_mem s).
Definition set_op_mem (m : list byte) (s : nl_state) : nl_state := NlState (family_id s) (portid s) (seq s) m.

(** ** Buffers: a load or a store outside the array is undefined *)

Definition store (off : Z) (bs : list byte) (buf : list byte) : option (list byte) :=
  if (0 <=? off) && (off + Z.of_nat (length bs) <=? Z.of_nat (length buf))
  then Some (splice (Z.to_nat off) bs buf) else None.

Definition load (off : Z) (n : nat) (buf : list byte) : option (list byte) :=
  if (0 <=? off) && (off + Z.of_nat n <=? Z.of_nat (length buf))
  then Some (slice (Z.to_nat off) n buf) else None.

(** The header fields the three senders fill in, in a zeroed buffer [buf]. *)
Definition put_headers (len type pid seq cmd : Z) (buf : list byte) : option (list byte) :=
  buf ← store 0 (le_encode 4 len) buf;
  buf ← store 4 (le_encode 2 type) buf;
  buf ← store 6 (le_encode 2 NLM_F_REQUEST) buf;
  buf ← store 12 (le_encode 4 pid) buf;
  buf ← store 8 (le_encode 4 seq) buf;
  buf ← store NLMSG_HDRLEN (le_encode 1 cmd) buf;
  store (NLMSG_HDRLEN + 1) (le_encode 1 1) buf.

Definition zeros (n : nat) : list byte := replicate n Byte.x00.

(** [nl_register_daemon]: the datagram. *)
Definition register_msg (family pid : Z) : option (list byte) :=
  let len := NLMSG_LENGTH GENL_HDRLEN in
  buf ← put_headers len family pid 1 AVERY_CMD_REGISTER (zeros 256);
  load 0 (Z.to_nat len) buf.

(** [nl_get_family_id]: the query datagram, in a buffer of 16 + 4 + 256 bytes. *)
Definition family_query (pid : Z) : option (list byte) :=
  let len := NLMSG_LENGTH GENL_HDRLEN in
  buf ← put_headers len GENL_ID_CTRL pid 1 CTRL_CMD_GETFAMILY (zeros 276);
  let name := map (fun c => byte_of_Z (Z.of_nat (Ascii.nat_of_ascii c))) (String.list_ascii_of_string AVERY_FAMILY_NAME) ++ [Byte.x00] in
  let nla_len := NLA_HDRLEN + Z.of_nat (length name) in
  buf ← store (len + 2) (le_encode 2 CTRL_ATTR_FAMILY_NAME) buf;
  buf ← store len (le_encode 2 nla_len) buf;
  buf ← store (len + NLA_HDRLEN) name buf;
  let len := len + NLA_ALIGN nla_len in
  buf ← store 0 (le_encode 4 len) buf;
  load 0 (Z.to_nat len) buf.

(** [nl_send_response]: the datagram carrying the 16 bytes [op]. *)
Definition response_msg (family pid seq : Z) (op : list byte) : option (list byte) :=
  let len := NLMSG_LENGTH GENL_HDRLEN in
  buf ← put_headers len family pid seq AVERY_CMD_RESPONSE (zeros 256);
  let nla_len := NLA_HDRLEN + Z.of_nat (length op) in
  buf ← store (len + 2) (le_encode 2 AVERY_ATTR_OP) buf;
  buf ← store len (le_encode 2 nla_len) buf;
  buf ← store (len + NLA_HDRLEN) op buf;
  let len := len + NLA_ALIGN nla_len in
  buf ← store 0 (le_encode 4 len) buf;
  load 0 (Z.to_nat len) buf.

(** ** The walk over attributes

    [while (attrlen > 0) { if (attr->nla_type == type) ...; attrlen -= NLA_ALIGN(attr->nla_len);
     attr += NLA_ALIGN(attr->nla_len); }] from offset [off] of the buffer. *)

Inductive walk : Type := Found (off : Z) | NotFound | OutOfBounds | StillWalking.

Fixpoint attr_walk (fuel : nat) (buf : list byte) (off attrlen type : Z) : walk :=
  if attrlen <=? 0 then NotFound
  else match fuel with
  | O => StillWalking
  | S fuel =>
      match load off 4 buf with
      | None => OutOfBounds
      | Some hdr =>
          let nla_len := le_decode (take 2 hdr) in
          let nla_type := le_decode (drop 2 hdr) in
          if nla_type =? type then Found off
          else attr_walk fuel buf (off + NLA_ALIGN nla_len) (attrlen - NLA_ALIGN nla_len) type
      end
  end.

(** [int attrlen = nlh->nlmsg_len - NLMSG_LENGTH(GENL_HDRLEN)] *)
Definition attr_bytes (nlmsg_len : Z) : Z :=
  swrap32 (wrap64 (nlmsg_len - NLMSG_LENGTH GENL_HDRLEN)).

(** A receive buffer after [recv] stored [bs] at its start. *)
Definition received (bs junk : list byte) : list byte := bs ++ drop (length bs) junk.

Section daemon.
(** The indeterminate contents of the receive buffers. *)
Variables (junk4096 junk8192 : list byte).

Definition walked (w : walk) : C nl_state (option Z) :=
  match w with
  | Found off => mret (Some off)
  | NotFound => mret None
  | OutOfBounds => undefined
  | StillWalking => out_of_fuel
  end.

Definition u32_at (buf : list byte) (off : Z) : C nl_state Z :=
  bs ← checked (load off 4 buf); mret (le_decode bs).

Definition nl_register_daemon : C nl_state unit :=
  g ← get;
  pid ← sys "getpid" [];
  m ← checked (register_msg (family_id g) pid);
  sys_sendto_msg m;;
  printf "REGISTER sent to kernel" [].

(** [char buffer[8192]] *)
Definition reply_size : nat := Z.to_nat 8192.

(** The parsing half of [nl_get_family_id], on a filled buffer. *)
Definition nl_parse_family (fuel : nat) (buf : list byte) : C nl_state Z :=
  len ← u32_at buf 0;
  found ← walked (attr_walk fuel buf (NLMSG_HDRLEN + GENL_HDRLEN) (attr_bytes len) CTRL_ATTR_FAMILY_ID);
  match found with
  | Some off => v ← checked (load (off + NLA_HDRLEN) 2 buf); mret (le_decode v)
  | None => emit (EvPrint "family id not found" []);; exit_ 1
  end.

Definition nl_get_family_id (fuel : nat) : C nl_state Z :=
  pid ← sys "getpid" [];
  m ← checked (family_query pid);
  s ← sys_sendto_msg m;
  if s <? 0 then perror "sendto";; exit_ 1
  else
    '(r, bs) ← sys_recv_msg reply_size;
    if r <? 0 then perror "recv";; exit_ 1
    else nl_parse_family fuel (received bs junk8192).

Definition nl_send_response : C nl_state unit :=
  g ← get;
  pid ← sys "getpid" [];
  m ← checked (response_msg (family_id g) pid (seq g) (op_mem g));
  sys_sendto_msg m;;
  mret tt.

(** The parsing half of [nl_recv_request], on a filled buffer: [-1] or [0]. *)
Definition nl_parse_request (fuel : nat) (buf : list byte) : C nl_state Z :=
  cmd ← checked (load NLMSG_HDRLEN 1 buf);
  if negb (le_decode cmd =? AVERY_CMD_REQUEST) then mret (-1)
  else
    pid ← u32_at buf 12;
    sq ← u32_at buf 8;
    modify (set_pending pid sq);;
    len ← u32_at buf 0;
    found ← walked (attr_walk fuel buf (NLMSG_HDRLEN + GENL_HDRLEN) (attr_bytes len) AVERY_ATTR_OP);
    match found with
    | Some off =>
        op ← checked (load (off + NLA_HDRLEN) (sizeof avery_pci_config_op) buf);
        modify (set_op_mem op);;
        mret 0
    | None => mret (-1)
    end.

Definition nl_recv_request (fuel : nat) : C nl_state Z :=
  '(len, bs) ← sys_recv_msg 4096;
  if len <=? 0 then mret (-1)
  else nl_parse_request fuel (received bs junk4096).

(** One round of [while (1)]; the results of [send] and [recv] are not looked at. *)
Definition nl_iter (fuel : nat) (sockfd : Z) : C nl_state bool :=
  r ← nl_recv_request fuel;
  if truth r then mret true
  else
    g ← get;
    let op : avery_pci_config_op := of_bytes (op_mem g) in
    printf "REQ: type=%d offset=0x%x value=0x%x" [op_type op; op_offset op; op_value op];;
    sys_write sockfd (op_mem g);;
    '(_, bs) ← sys_read sockfd (sizeof avery_pci_config_op);
    modify (fun g => set_op_mem (splice 0 bs (op_mem g)) g);;
    g ← get;
    let op : avery_pci_config_op := of_bytes (op_mem g) in
    printf "RESP: status=%d value=0x%x" [op_status op; op_value op];;
    nl_send_response;;
    mret true.

Definition connect_remote : C nl_state Z :=
  sock ← sys "socket" [2; 1; 0];
  if sock <? 0 then perror "socket";; exit_ 1
  else
    p ← sys "inet_pton" [2; 0x0100007F];
    if p <=? 0 then perror "inet_pton";; exit_ 1
    else
      r ← sys "connect" [sock; 0x0100007F; 5555];
      if r <? 0 then perror "connect";; exit_ 1
      else
        printf "Connected to remote RC %s:%d" [5555];;
        mret sock.

Definition main (fuel : nat) : C nl_state Z :=
  sockfd ← connect_remote;
  nl_sock ← sys "socket" [16; 3; 16];
  pid ← sys "getpid" [];
  sys "bind" [nl_sock; pid];;
  fam ← nl_get_family_id fuel;
  modify (set_family_id fam);;
  printf "Netlink family id = %d" [fam];;
  nl_register_daemon;;
  printf "Daemon started" [];;
  forever fuel (nl_iter fuel sockfd);;
  mret 0.
End daemon.
