(* ===== verification/NetlinkSpec.v ===== *)
(** * The netlink side: formats, parsing and the daemon's rounds

    The datagrams the daemon builds are the generic-netlink encodings of their
    contents; any well-formed request is parsed back to what was sent; and what
    happens with malformed attributes and with a dead server. A receiver's lemmas hold for
    any version byte of the generic header: the daemon sends 1, the controller 2. *)
From S2P Require Import Prelude Bytes CMonad Wire ByteIO Netlink.

(** ** The reference encoding *)

Definition attr_pad (payload : list byte) : list byte :=
  zeros (Z.to_nat (NLA_ALIGN (4 + Z.of_nat (length payload)) - (4 + Z.of_nat (length payload)))).

Definition encode_attr (a : Z * list byte) : list byte :=
  let '(type, payload) := a in
  le_encode 2 (4 + Z.of_nat (length payload)) ++ le_encode 2 type ++ payload ++ attr_pad payload.

Definition encode_attrs (l : list (Z * list byte)) : list byte := concat (map encode_attr l).

(** Header, generic header with the sender's version byte, attributes. *)
Definition genl_msg (ver type flags seq pid cmd : Z) (attrs : list (Z * list byte)) : list byte :=
  let body := encode_attrs attrs in
  le_encode 4 (20 + Z.of_nat (length body)) ++ le_encode 2 type ++ le_encode 2 flags ++
  le_encode 4 seq ++ le_encode 4 pid ++ le_encode 1 cmd ++ le_encode 1 ver ++ le_encode 2 0 ++ body.

(** The daemon's own messages carry version 1; the controller's carry 2. *)
Definition encode_msg : Z -> Z -> Z -> Z -> Z -> list (Z * list byte) -> list byte := genl_msg 1.

Definition attr_ok (a : Z * list byte) : Prop := u16 (fst a) /\ Z.of_nat (length (snd a)) < 65532.

(** ** What the daemon sends *)

Lemma response_msg_encode family pid seq op :
  length op = 16%nat ->
  response_msg family pid seq op =
  Some (encode_msg family NLM_F_REQUEST seq pid AVERY_CMD_RESPONSE [(AVERY_ATTR_OP, op)]).
Proof.
  intros Hl. do 17 (destruct op as [|? op]; try (simpl in Hl; lia)).
  unfold response_msg, encode_msg, genl_msg, put_headers.
  change (le_encode 4 seq) with [byte_of_Z seq; byte_of_Z (seq / 256); byte_of_Z (seq / 256 / 256); byte_of_Z (seq / 256 / 256 / 256)].
  change (le_encode 4 pid) with [byte_of_Z pid; byte_of_Z (pid / 256); byte_of_Z (pid / 256 / 256); byte_of_Z (pid / 256 / 256 / 256)].
  change (le_encode 2 family) with [byte_of_Z family; byte_of_Z (family / 256)].
  generalize (byte_of_Z seq) (byte_of_Z (seq / 256)) (byte_of_Z (seq / 256 / 256)) (byte_of_Z (seq / 256 / 256 / 256)).
  generalize (byte_of_Z pid) (byte_of_Z (pid / 256)) (byte_of_Z (pid / 256 / 256)) (byte_of_Z (pid / 256 / 256 / 256)).
  generalize (byte_of_Z family) (byte_of_Z (family / 256)).
  intros. vm_compute. reflexivity.
Qed.

Lemma register_msg_encode family pid :
  register_msg family pid = Some (encode_msg family NLM_F_REQUEST 1 pid AVERY_CMD_REGISTER []).
Proof.
  unfold register_msg, encode_msg, genl_msg, put_headers.
  change (le_encode 4 pid) with [byte_of_Z pid; byte_of_Z (pid / 256); byte_of_Z (pid / 256 / 256); byte_of_Z (pid / 256 / 256 / 256)].
  change (le_encode 2 family) with [byte_of_Z family; byte_of_Z (family / 256)].
  generalize (byte_of_Z pid) (byte_of_Z (pid / 256)) (byte_of_Z (pid / 256 / 256)) (byte_of_Z (pid / 256 / 256 / 256)).
  generalize (byte_of_Z family) (byte_of_Z (family / 256)).
  intros. vm_compute. reflexivity.
Qed.

Definition family_name_bytes : list byte :=
  [Byte.x41; Byte.x56; Byte.x45; Byte.x52; Byte.x59; Byte.x5f; Byte.x44; Byte.x4f; Byte.x45; Byte.x00].

Lemma family_query_encode pid :
  family_query pid =
  Some (encode_msg GENL_ID_CTRL NLM_F_REQUEST 1 pid CTRL_CMD_GETFAMILY
          [(CTRL_ATTR_FAMILY_NAME, family_name_bytes)]).
Proof.
  unfold family_query, encode_msg, genl_msg, put_headers.
  change (le_encode 4 pid) with [byte_of_Z pid; byte_of_Z (pid / 256); byte_of_Z (pid / 256 / 256); byte_of_Z (pid / 256 / 256 / 256)].
  generalize (byte_of_Z pid) (byte_of_Z (pid / 256)) (byte_of_Z (pid / 256 / 256)) (byte_of_Z (pid / 256 / 256 / 256)).
  intros. vm_compute. reflexivity.
Qed.

(** ** The walk over well-formed attributes *)

Lemma NLA_ALIGN_eq n : NLA_ALIGN n = (n + 3) / 4 * 4.
Proof.
  unfold NLA_ALIGN. change (NLA_ALIGNTO - 1) with (Z.ones 2). change NLA_ALIGNTO with 4.
  rewrite <- Z.ldiff_land, Z.ldiff_ones_r by lia.
  rewrite Z.shiftl_mul_pow2, Z.shiftr_div_pow2 by lia. do 2 f_equal. lia.
Qed.

Lemma length_encode_attr type payload :
  Z.of_nat (length (encode_attr (type, payload))) = NLA_ALIGN (4 + Z.of_nat (length payload)).
Proof.
  unfold encode_attr, attr_pad, zeros. rewrite NLA_ALIGN_eq, !length_app, !length_le_encode, length_replicate.
  Z.div_mod_to_equations. lia.
Qed.

Lemma load_mid pre mid post n :
  length mid = n -> load (Z.of_nat (length pre)) n (pre ++ mid ++ post) = Some mid.
Proof.
  intros <-. unfold load. rewrite !length_app, !Nat2Z.inj_add.
  destruct (Z.leb_spec 0 (Z.of_nat (length pre))); [|lia].
  destruct (Z.leb_spec (Z.of_nat (length pre) + Z.of_nat (length mid))
    (Z.of_nat (length pre) + (Z.of_nat (length mid) + Z.of_nat (length post)))); [|lia].
  cbn [andb]. rewrite Nat2Z.id. unfold slice. by rewrite drop_app_length, take_app_length.
Qed.

Lemma load_byte buf n b : buf !! n = Some b -> load (Z.of_nat n) 1 buf = Some [b].
Proof.
  intros Hb. pose proof (lookup_lt_Some _ _ _ Hb) as Hl.
  rewrite <- (take_drop_middle buf n b Hb). change (b :: drop (S n) buf) with ([b] ++ drop (S n) buf).
  rewrite <- (load_mid (take n buf) [b] (drop (S n) buf) 1) by done. f_equal. rewrite length_take. lia.
Qed.

Lemma le_decode_byte b : le_decode [b] = byte_to_Z b.
Proof. cbn [le_decode]. lia. Qed.

Lemma attr_walk_step fuel pre type payload post attrlen want :
  attr_ok (type, payload) -> 0 < attrlen ->
  attr_walk (S fuel) (pre ++ encode_attr (type, payload) ++ post) (Z.of_nat (length pre)) attrlen want =
  if type =? want then Found (Z.of_nat (length pre))
  else attr_walk fuel (pre ++ encode_attr (type, payload) ++ post)
         (Z.of_nat (length (pre ++ encode_attr (type, payload))))
         (attrlen - Z.of_nat (length (encode_attr (type, payload)))) want.
Proof.
  intros [Ht Hp] Hl. cbn [fst snd] in *. cbn [attr_walk].
  destruct (Z.leb_spec attrlen 0); [lia|].
  assert (encode_attr (type, payload) ++ post =
    (le_encode 2 (4 + Z.of_nat (length payload)) ++ le_encode 2 type) ++ (payload ++ attr_pad payload) ++ post) as E
    by (unfold encode_attr; by rewrite <- !app_assoc).
  rewrite E at 1. rewrite load_mid by (by rewrite length_app, !length_le_encode).
  rewrite take_app_exact, drop_app_exact by apply length_le_encode.
  rewrite !le_decode_encode_u16 by (try done; cint).
  destruct (type =? want); [done|].
  rewrite length_app, Nat2Z.inj_add, length_encode_attr. done.
Qed.

Lemma attr_walk_found fuel skipped payload post want : forall pre attrlen,
  Forall attr_ok skipped -> Forall (fun a => fst a <> want) skipped -> attr_ok (want, payload) ->
  Z.of_nat (length (encode_attrs skipped)) < attrlen -> (length skipped < fuel)%nat ->
  attr_walk fuel (pre ++ encode_attrs skipped ++ encode_attr (want, payload) ++ post)
    (Z.of_nat (length pre)) attrlen want =
  Found (Z.of_nat (length (pre ++ encode_attrs skipped))).
Proof.
  revert fuel; induction skipped as [|[t p] l IH]; intros fuel pre attrlen Hok Hne Hw Hlen Hf;
    (destruct fuel as [|fuel]; [simpl in Hf; lia|]).
  - cbn [encode_attrs map concat app]. rewrite attr_walk_step by (try done; simpl in Hlen; lia).
    by rewrite Z.eqb_refl, app_nil_r.
  - apply Forall_cons_1 in Hok as [Ha Hok]. apply Forall_cons_1 in Hne as [Hn Hne]. cbn [fst] in Hn.
    change (encode_attrs ((t, p) :: l)) with (encode_attr (t, p) ++ encode_attrs l) in *.
    rewrite length_app, Nat2Z.inj_add in Hlen. rewrite <- app_assoc.
    rewrite attr_walk_step by (try done; lia). destruct (Z.eqb_spec t want); [done|].
    replace (pre ++ encode_attr (t, p) ++ encode_attrs l ++ encode_attr (want, payload) ++ post)
      with ((pre ++ encode_attr (t, p)) ++ encode_attrs l ++ encode_attr (want, payload) ++ post)
      by (by rewrite <- !app_assoc).
    rewrite IH by (try done; simpl in Hf; lia). by rewrite <- !app_assoc.
Qed.

Lemma attr_bytes_eq len : 20 <= len < 2 ^ 31 -> attr_bytes len = len - 20.
Proof.
  intros H. unfold attr_bytes. change (NLMSG_LENGTH GENL_HDRLEN) with 20.
  rewrite wrap64_id by cint. apply swrap32_id. cint.
Qed.

(** ** Parsing a well-formed request *)

(** The daemon reads the header fields at their offsets in any encoded message. *)
Section fields.
Variables (ver type flags sq pid cmd : Z) (body junk : list byte) (n : Z).

Definition msg_buf : list byte :=
  (le_encode 4 n ++ le_encode 2 type ++ le_encode 2 flags ++ le_encode 4 sq ++ le_encode 4 pid ++
   le_encode 1 cmd ++ le_encode 1 ver ++ le_encode 2 0) ++ body ++ junk.

Lemma msg_buf_split pre mid post off k :
  le_encode 4 n ++ le_encode 2 type ++ le_encode 2 flags ++ le_encode 4 sq ++ le_encode 4 pid ++
    le_encode 1 cmd ++ le_encode 1 ver ++ le_encode 2 0 = pre ++ mid ++ post ->
  length pre = off -> length mid = k -> load (Z.of_nat off) k msg_buf = Some mid.
Proof.
  intros E <- Hk. unfold msg_buf. rewrite E, <- !app_assoc. by apply load_mid.
Qed.

Lemma load_len : load 0 4 msg_buf = Some (le_encode 4 n).
Proof. by eapply (msg_buf_split [] (le_encode 4 n) _ 0). Qed.

Lemma load_seq : load 8 4 msg_buf = Some (le_encode 4 sq).
Proof.
  by apply (msg_buf_split (le_encode 4 n ++ le_encode 2 type ++ le_encode 2 flags)
    (le_encode 4 sq) (le_encode 4 pid ++ le_encode 1 cmd ++ le_encode 1 ver ++ le_encode 2 0) 8);
    rewrite <- ?app_assoc.
Qed.

Lemma load_pid : load 12 4 msg_buf = Some (le_encode 4 pid).
Proof.
  by apply (msg_buf_split (le_encode 4 n ++ le_encode 2 type ++ le_encode 2 flags ++ le_encode 4 sq)
    (le_encode 4 pid) (le_encode 1 cmd ++ le_encode 1 ver ++ le_encode 2 0) 12);
    rewrite <- ?app_assoc.
Qed.

Lemma load_cmd : load 16 1 msg_buf = Some (le_encode 1 cmd).
Proof.
  by apply (msg_buf_split (le_encode 4 n ++ le_encode 2 type ++ le_encode 2 flags ++ le_encode 4 sq ++
    le_encode 4 pid) (le_encode 1 cmd) (le_encode 1 ver ++ le_encode 2 0) 16);
    rewrite <- ?app_assoc.
Qed.
End fields.

Lemma genl_msg_buf ver type flags sq pid cmd attrs junk :
  genl_msg ver type flags sq pid cmd attrs ++ junk =
  msg_buf ver type flags sq pid cmd (encode_attrs attrs) junk (20 + Z.of_nat (length (encode_attrs attrs))).
Proof. unfold genl_msg, msg_buf. by rewrite <- !app_assoc. Qed.

Lemma length_genl_msg ver type flags sq pid cmd attrs :
  length (genl_msg ver type flags sq pid cmd attrs) = (20 + length (encode_attrs attrs))%nat.
Proof. unfold genl_msg. rewrite !length_app, !length_le_encode. lia. Qed.

Lemma encode_attrs_app l k : encode_attrs (l ++ k) = encode_attrs l ++ encode_attrs k.
Proof. unfold encode_attrs. by rewrite map_app, concat_app. Qed.

(** The walk of a receiver over an encoded message finds the first attribute of the
    wanted type, wherever it stands, and its payload is what the sender put there. *)
Lemma walk_encoded ver type flags sq pid cmd skipped want payload rest junk fuel :
  Forall attr_ok skipped -> Forall (fun a => fst a <> want) skipped -> attr_ok (want, payload) ->
  (length skipped < fuel)%nat ->
  let m := genl_msg ver type flags sq pid cmd (skipped ++ (want, payload) :: rest) in
  Z.of_nat (length m) < 2 ^ 31 ->
  exists off,
    attr_walk fuel (m ++ junk) 20 (attr_bytes (Z.of_nat (length m))) want = Found off /\
    forall k, (k <= length payload)%nat -> load (off + 4) k (m ++ junk) = Some (take k payload).
Proof.
  intros Hok Hne Hw Hf m Hm. unfold m in *. rewrite length_genl_msg in *.
  rewrite encode_attrs_app in *.
  change (encode_attrs ((want, payload) :: rest)) with (encode_attr (want, payload) ++ encode_attrs rest) in *.
  set (hdr := le_encode 4 (20 + Z.of_nat (length (encode_attrs (skipped ++ (want, payload) :: rest)))) ++
    le_encode 2 type ++ le_encode 2 flags ++ le_encode 4 sq ++ le_encode 4 pid ++ le_encode 1 cmd ++
    le_encode 1 ver ++ le_encode 2 0).
  assert (genl_msg ver type flags sq pid cmd (skipped ++ (want, payload) :: rest) ++ junk =
    hdr ++ encode_attrs skipped ++ encode_attr (want, payload) ++ encode_attrs rest ++ junk) as ->.
  { rewrite genl_msg_buf. unfold msg_buf, hdr. rewrite encode_attrs_app.
    change (encode_attrs ((want, payload) :: rest)) with (encode_attr (want, payload) ++ encode_attrs rest).
    by rewrite <- !app_assoc. }
  assert (length hdr = 20%nat) as Hh by (unfold hdr; by rewrite !length_app, !length_le_encode).
  exists (Z.of_nat (length (hdr ++ encode_attrs skipped))). split.
  - change 20 with (Z.of_nat 20) at 1. rewrite <- Hh at 1. apply attr_walk_found; try done.
    pose proof (length_encode_attr want payload). rewrite NLA_ALIGN_eq in H.
    rewrite attr_bytes_eq by lia. rewrite !length_app. Z.div_mod_to_equations; lia.
  - intros k Hk. unfold encode_attr.
    set (ah := le_encode 2 (4 + Z.of_nat (length payload)) ++ le_encode 2 want).
    replace (hdr ++ encode_attrs skipped ++ (le_encode 2 (4 + Z.of_nat (length payload)) ++
        le_encode 2 want ++ payload ++ attr_pad payload) ++ encode_attrs rest ++ junk)
      with ((hdr ++ encode_attrs skipped ++ ah) ++ take k payload ++
            (drop k payload ++ attr_pad payload ++ encode_attrs rest ++ junk))
      by (unfold ah; rewrite <- !app_assoc, (app_assoc (take k payload)), take_drop; done).
    rewrite <- (load_mid (hdr ++ encode_attrs skipped ++ ah) (take k payload)
      (drop k payload ++ attr_pad payload ++ encode_attrs rest ++ junk) k) by (rewrite length_take; lia).
    f_equal. unfold ah. rewrite !length_app, !length_le_encode. lia.
Qed.

Lemma parse_request_ok ver type flags sq pid skipped payload rest junk fuel g w :
  Forall attr_ok skipped -> Forall (fun a => fst a <> AVERY_ATTR_OP) skipped ->
  attr_ok (AVERY_ATTR_OP, payload) -> (16 <= length payload)%nat ->
  (length skipped < fuel)%nat -> u32 sq -> u32 pid ->
  let m := genl_msg ver type flags sq pid AVERY_CMD_REQUEST (skipped ++ (AVERY_ATTR_OP, payload) :: rest) in
  Z.of_nat (length m) < 2 ^ 31 ->
  nl_parse_request fuel (m ++ junk) g w = Ok 0 (NlState (family_id g) pid sq (take 16 payload)) w.
Proof.
  intros Hok Hne Hw Hp Hf Hsq Hpid m Hm.
  destruct (walk_encoded ver type flags sq pid AVERY_CMD_REQUEST skipped AVERY_ATTR_OP payload rest junk fuel
    Hok Hne Hw Hf Hm) as (off & Ew & El).
  fold m in Ew, El. specialize (El 16%nat Hp).
  pose proof (length_genl_msg ver type flags sq pid AVERY_CMD_REQUEST (skipped ++ (AVERY_ATTR_OP, payload) :: rest)) as Hlm.
  fold m in Hlm. unfold nl_parse_request, u32_at, checked, mbind, C_bind.
  change NLMSG_HDRLEN with 16. change NLA_HDRLEN with 4. change (16 + GENL_HDRLEN) with 20.
  assert (20 + Z.of_nat (length (encode_attrs (skipped ++ (AVERY_ATTR_OP, payload) :: rest))) = Z.of_nat (length m)) as El2 by lia.
  assert (u32 (Z.of_nat (length m))) as Hmu by (cint; lia).
  rewrite <- El2 in Hmu.
  assert (load 16 1 (m ++ junk) = Some (le_encode 1 AVERY_CMD_REQUEST)) as -> by (unfold m; rewrite genl_msg_buf; apply load_cmd).
  assert (load 12 4 (m ++ junk) = Some (le_encode 4 pid)) as -> by (unfold m; rewrite genl_msg_buf; apply load_pid).
  assert (load 8 4 (m ++ junk) = Some (le_encode 4 sq)) as -> by (unfold m; rewrite genl_msg_buf; apply load_seq).
  assert (load 0 4 (m ++ junk) = Some (le_encode 4 (Z.of_nat (length m)))) as ->
    by (rewrite <- El2; unfold m; rewrite genl_msg_buf; apply load_len).
  cbn -[le_encode le_decode attr_walk load attr_bytes]. rewrite El2 in Hmu.
  change (le_decode (le_encode 1 AVERY_CMD_REQUEST) =? AVERY_CMD_REQUEST) with true.
  cbn -[le_encode le_decode attr_walk load attr_bytes].
  rewrite !le_decode_encode_u32, Ew by done. cbn -[load le_encode]. by rewrite El.
Qed.

(** ** One round of the daemon *)

(** A request datagram that any sender of the AVERY_DOE family may produce: the
    access in an attribute of type 1, after attributes of other types. *)
Inductive request_datagram (sq pid : Z) (op : avery_pci_config_op) : list byte -> Prop :=
| RequestDatagram ver type flags skipped rest :
    Forall attr_ok skipped -> Forall (fun a => fst a <> AVERY_ATTR_OP) skipped ->
    op_ok op -> u32 sq -> u32 pid ->
    (length (genl_msg ver type flags sq pid AVERY_CMD_REQUEST
               (skipped ++ (AVERY_ATTR_OP, to_bytes op) :: rest)) <= 4096)%nat ->
    request_datagram sq pid op
      (genl_msg ver type flags sq pid AVERY_CMD_REQUEST (skipped ++ (AVERY_ATTR_OP, to_bytes op) :: rest)).

Lemma request_datagram_op sq pid op m : request_datagram sq pid op m -> op_ok op.
Proof. by destruct 1. Qed.

Lemma length_encode_attr_min a : (4 <= length (encode_attr a))%nat.
Proof. destruct a. unfold encode_attr. rewrite !length_app, !length_le_encode. lia. Qed.

Lemma length_encode_attrs_min l : (4 * length l <= length (encode_attrs l))%nat.
Proof.
  induction l as [|a l IH]; [simpl; lia|].
  change (encode_attrs (a :: l)) with (encode_attr a ++ encode_attrs l).
  pose proof (length_encode_attr_min a). rewrite length_app. simpl. lia.
Qed.

Lemma request_datagram_length sq pid op m : request_datagram sq pid op m -> (0 < length m <= 4096)%nat.
Proof. intros []. split; [rewrite length_genl_msg; lia|done]. Qed.

Section rounds.
Variables (junk4096 : list byte) (fuel : nat).
Hypothesis Hfuel : (1024 <= fuel)%nat.

(** Such a request is parsed to what was sent, whatever follows it in the buffer. *)
Lemma request_datagram_parsed g w junk sq pid op m :
  request_datagram sq pid op m ->
  nl_parse_request fuel (m ++ junk) g w = Ok 0 (NlState (family_id g) pid sq (to_bytes op)) w.
Proof.
  intros [ver ty fl sk rs Hok Hne Hop Hsq Hpid Hl].
  assert (length (to_bytes op) = 16%nat) as Hlo by by apply (length_to_bytes (CStructLaws := op_laws)).
  pose proof (length_encode_attrs_min (sk ++ (AVERY_ATTR_OP, to_bytes op) :: rs)) as Hlen.
  rewrite length_app in Hlen. cbn [length] in Hlen.
  pose proof (length_genl_msg ver ty fl sq pid AVERY_CMD_REQUEST (sk ++ (AVERY_ATTR_OP, to_bytes op) :: rs)) as El.
  rewrite parse_request_ok; try done; lia.
Qed.

Lemma nl_recv_request_ok g w c sched m ms sq pid op :
  w_sched w = c :: sched -> 0 < c -> w_nlin w = m :: ms -> request_datagram sq pid op m ->
  nl_recv_request junk4096 fuel g w =
  Ok 0 (NlState (family_id g) pid sq (to_bytes op)) (set_nlin ms (set_sched sched w)).
Proof.
  intros Hs Hc Hn Hr. pose proof (request_datagram_length _ _ _ _ Hr) as [H0 Hl].
  unfold nl_recv_request, mbind, C_bind, sys_recv_msg. rewrite Hs, Hn.
  destruct (Z.leb_spec c 0); [lia|]. cbn zeta. rewrite (take_ge m) by exact Hl.
  destruct (Z.leb_spec (Z.of_nat (length m)) 0); [lia|]. by apply request_datagram_parsed.
Qed.

(** The datagram the kernel gets back. *)
Definition response_datagram (family pid sq : Z) (op : list byte) : list byte :=
  encode_msg family NLM_F_REQUEST sq pid AVERY_CMD_RESPONSE [(AVERY_ATTR_OP, op)].

Lemma nl_send_response_ok g w mypid c sched :
  w_sched w = mypid :: c :: sched -> 0 <= c -> length (op_mem g) = 16%nat ->
  wp nl_send_response
     (fun _ g' w' => g' = g /\ w_sched w' = sched /\ w_nlin w' = w_nlin w /\
        w_nlout w' = w_nlout w ++ [response_datagram (family_id g) mypid (seq g) (op_mem g)] /\
        w_in w' = w_in w /\ w_out w' = w_out w) never g w.
Proof.
  intros Hs Hc Hl. unfold nl_send_response, sys. apply wp_bind, wp_get, wp_bind, wp_bind.
  unfold wp at 1, next. rewrite Hs. apply wp_bind, wp_emit, wp_ret, wp_bind.
  eapply wp_checked; [by apply response_msg_encode|]. apply wp_bind.
  unfold wp at 1, sys_sendto_msg. cbn [w_sched add_event set_sched].
  destruct (Z.ltb_spec c 0); [lia|]. by apply wp_ret.
Qed.

(** A round with a server that answers: the access goes out once, whole, and the
    response carries the answer under the request's sequence number. *)
Lemma nl_iter_served g w sockfd c1 c2 c3 mypid c5 sched m ms sq pid op ans rest :
  w_sched w = c1 :: c2 :: c3 :: mypid :: c5 :: sched -> 0 < c1 -> 16 <= c2 -> 16 <= c3 -> 0 <= c5 ->
  w_nlin w = m :: ms -> request_datagram sq pid op m ->
  op_ok ans -> pending sockfd w = to_bytes ans ++ rest ->
  wp (nl_iter junk4096 fuel sockfd)
     (fun go g' w' => go = true /\ g' = NlState (family_id g) pid sq (to_bytes ans) /\
        w_sched w' = sched /\ w_nlin w' = ms /\
        w_nlout w' = w_nlout w ++ [response_datagram (family_id g) mypid sq (to_bytes ans)] /\
        pending sockfd w' = rest /\ written sockfd w' = written sockfd w ++ to_bytes op) never g w.
Proof.
  intros Hs Hc1 Hc2 Hc3 Hc5 Hn Hr Hans Hp. pose proof (request_datagram_op _ _ _ _ Hr) as Hop.
  assert (length (to_bytes op) = 16%nat) as Hlo by by apply (length_to_bytes (CStructLaws := op_laws)).
  assert (length (to_bytes ans) = 16%nat) as Hla by by apply (length_to_bytes (CStructLaws := op_laws)).
  unfold nl_iter. apply wp_bind. unfold wp at 1.
  rewrite (nl_recv_request_ok _ _ _ _ _ _ _ _ _ Hs Hc1 Hn Hr). change (truth 0) with false. cbv iota.
  apply wp_bind, wp_get, wp_bind, wp_emit, wp_bind. unfold wp at 1, sys_write.
  cbn [w_sched add_event set_nlin set_sched op_mem]. destruct (Z.leb_spec c2 0); [lia|].
  rewrite Hlo. replace (Nat.min (Z.to_nat c2) 16) with 16%nat by lia.
  apply wp_bind. unfold wp at 1, sys_read. cbn [w_sched add_event set_nlin set_sched set_out].
  destruct (Z.leb_spec c3 0); [lia|].
  assert (forall w1, w_in w1 = w_in w -> pending sockfd w1 = to_bytes ans ++ rest) as Hp'
    by (intros w1 E; unfold pending; by rewrite E).
  rewrite Hp' by done. destruct (to_bytes ans ++ rest) as [|b l] eqn:E.
  { apply (f_equal length) in E. rewrite length_app in E. simpl in E. lia. }
  rewrite <- E. replace (Nat.min _ _) with 16%nat by (rewrite length_app; change (sizeof avery_pci_config_op) with 16%nat; lia).
  rewrite take_app_exact, drop_app_exact by done.
  apply wp_bind, wp_modify. cbn [op_mem set_op_mem]. rewrite splice_all by congruence.
  apply wp_bind, wp_get, wp_bind, wp_emit, wp_bind.
  eapply wp_mono; [by apply (nl_send_response_ok _ _ mypid c5 sched)|..]; [|done].
  cbn beta. intros _ g' w' (-> & H1 & H2 & H3 & H4 & H5). apply wp_ret.
  do 5 (split; [done|]). unfold pending, written. rewrite H4, H5. cbn [w_in w_out set_in set_out add_event set_nlin set_sched].
  rewrite !lookup_insert_eq. by rewrite take_ge by lia.
Qed.

(** A round with a dead server ([recv] fails or the connection is closed): the
    request's own bytes go back as the response. *)
Lemma nl_iter_dead g w sockfd c1 c2 c3 mypid c5 sched m ms sq pid op :
  w_sched w = c1 :: c2 :: c3 :: mypid :: c5 :: sched -> 0 < c1 -> c3 <= 0 -> 0 <= c5 ->
  w_nlin w = m :: ms -> request_datagram sq pid op m ->
  wp (nl_iter junk4096 fuel sockfd)
     (fun go g' w' => go = true /\ g' = NlState (family_id g) pid sq (to_bytes op) /\
        w_sched w' = sched /\ w_nlin w' = ms /\
        w_nlout w' = w_nlout w ++ [response_datagram (family_id g) mypid sq (to_bytes op)]) never g w.
Proof.
  intros Hs Hc1 Hc3 Hc5 Hn Hr. pose proof (request_datagram_op _ _ _ _ Hr) as Hop.
  assert (length (to_bytes op) = 16%nat) as Hlo by by apply (length_to_bytes (CStructLaws := op_laws)).
  unfold nl_iter. apply wp_bind. unfold wp at 1.
  rewrite (nl_recv_request_ok _ _ _ _ _ _ _ _ _ Hs Hc1 Hn Hr). change (truth 0) with false. cbv iota.
  apply wp_bind, wp_get, wp_bind, wp_emit, wp_bind. unfold wp at 1, sys_write.
  cbn [w_sched add_event set_nlin set_sched op_mem].
  assert (forall w1, w_sched w1 = c3 :: mypid :: c5 :: sched -> w_nlin w1 = ms -> w_nlout w1 = w_nlout w ->
    wp ('(_, bs) ← sys_read sockfd (sizeof avery_pci_config_op);
        modify (fun g => set_op_mem (splice 0 bs (op_mem g)) g);;
        g ← get;
        printf "RESP: status=%d value=0x%x" [op_status (of_bytes (op_mem g)); op_value (of_bytes (op_mem g))];;
        nl_send_response;;
        mret true)
     (fun go g' w' => go = true /\ g' = NlState (family_id g) pid sq (to_bytes op) /\
        w_sched w' = sched /\ w_nlin w' = ms /\
        w_nlout w' = w_nlout w ++ [response_datagram (family_id g) mypid sq (to_bytes op)])
     never (NlState (family_id g) pid sq (to_bytes op)) w1) as Htail.
  { intros w1 E1 E2 E3. apply wp_bind. unfold wp at 1, sys_read. rewrite E1.
    destruct (Z.leb_spec c3 0); [|lia]. apply wp_bind, wp_modify. cbn [op_mem set_op_mem].
    rewrite splice_nil. apply wp_bind, wp_get, wp_bind, wp_emit, wp_bind.
    eapply wp_mono; [by apply (nl_send_response_ok _ _ mypid c5 sched)|..]; [|done].
    cbn beta. intros _ g' w' (-> & H1 & H2 & H3 & H4 & H5). apply wp_ret.
    cbn [w_nlin w_nlout add_event set_sched] in H2, H3. by rewrite H2, H3, E2, E3. }
  destruct (c2 <=? 0); by apply Htail.
Qed.
End rounds.

(** ** The start of the daemon *)

(** What the netlink calls leave alone: the streams. *)
Definition same_streams (w w' : world) : Prop := w_in w' = w_in w /\ w_out w' = w_out w.

(** A reply of the controller: the identifier in an attribute of its own, after others. *)
Inductive family_reply (id : Z) : list byte -> Prop :=
| FamilyReply ver type flags sq pid cmd skipped rest :
    Forall attr_ok skipped -> Forall (fun a => fst a <> CTRL_ATTR_FAMILY_ID) skipped -> u16 id ->
    (length (genl_msg ver type flags sq pid cmd (skipped ++ (CTRL_ATTR_FAMILY_ID, le_encode 2 id) :: rest)) <= reply_size)%nat ->
    family_reply id (genl_msg ver type flags sq pid cmd (skipped ++ (CTRL_ATTR_FAMILY_ID, le_encode 2 id) :: rest)).

Definition query_datagram (pid : Z) : list byte :=
  encode_msg GENL_ID_CTRL NLM_F_REQUEST 1 pid CTRL_CMD_GETFAMILY [(CTRL_ATTR_FAMILY_NAME, family_name_bytes)].

Definition register_datagram (family pid : Z) : list byte :=
  encode_msg family NLM_F_REQUEST 1 pid AVERY_CMD_REGISTER [].

Lemma parse_family_ok fuel ver type flags sq pid cmd skipped id rest junk g w :
  let m := genl_msg ver type flags sq pid cmd (skipped ++ (CTRL_ATTR_FAMILY_ID, le_encode 2 id) :: rest) in
  Forall attr_ok skipped -> Forall (fun a => fst a <> CTRL_ATTR_FAMILY_ID) skipped ->
  (length skipped < fuel)%nat -> (length m <= reply_size)%nat -> u16 id ->
  nl_parse_family fuel (m ++ junk) g w = Ok id g w.
Proof.
  intros m Hok Hne Hf Hm Hid.
  assert (Z.of_nat (length m) < 2 ^ 31) as Hm31.
  { unfold reply_size in Hm. pow2. lia. }
  destruct (walk_encoded ver type flags sq pid cmd skipped CTRL_ATTR_FAMILY_ID (le_encode 2 id) rest junk fuel Hok Hne)
    as (off & Ew & El); [by split|done|done|].
  fold m in Ew, El. specialize (El 2%nat (le_n 2)).
  assert (load 0 4 (m ++ junk) = Some (le_encode 4 (Z.of_nat (length m)))) as E0.
  { unfold m at 1. rewrite genl_msg_buf, load_len. do 2 f_equal. unfold m. rewrite length_genl_msg. lia. }
  unfold nl_parse_family, u32_at, checked, mbind, C_bind. rewrite E0. cbn -[le_encode le_decode attr_walk load attr_bytes].
  rewrite le_decode_encode_u32 by (cint; lia). change (NLMSG_HDRLEN + GENL_HDRLEN) with 20. rewrite Ew.
  cbn -[load le_encode le_decode]. change NLA_HDRLEN with 4. rewrite El. cbn -[le_encode le_decode].
  by rewrite (take_ge (le_encode 2 id)), le_decode_encode_u16 by done.
Qed.

(** Whatever the order of its attributes, a reply names the family. *)
Lemma family_reply_parsed fuel id m junk g w :
  (2048 <= fuel)%nat -> family_reply id m -> nl_parse_family fuel (m ++ junk) g w = Ok id g w.
Proof.
  intros Hf [ver ty fl sq pid cmd sk rs Hok Hne Hid Hm]. apply parse_family_ok; try done.
  pose proof (length_encode_attrs_min (sk ++ (CTRL_ATTR_FAMILY_ID, le_encode 2 id) :: rs)) as Hlen.
  rewrite length_app in Hlen. cbn [length] in Hlen. rewrite length_genl_msg in Hm.
  unfold reply_size in Hm. lia.
Qed.

Lemma family_reply_length id m : family_reply id m -> (0 < length m <= reply_size)%nat.
Proof. intros []. split; [rewrite length_genl_msg; lia|done]. Qed.

Lemma family_reply_exists id : u16 id -> exists m, family_reply id m.
Proof.
  intros Hid. eexists. apply (FamilyReply id 2 16 0 1 0 1 [] []); [done..|]. rewrite length_genl_msg.
  apply Nat.leb_le. by vm_compute.
Qed.

Lemma nl_get_family_id_ok junk8192 fuel g w mypid c2 c3 sched ver type flags sq pid cmd skipped id rest ms :
  let m := genl_msg ver type flags sq pid cmd (skipped ++ (CTRL_ATTR_FAMILY_ID, le_encode 2 id) :: rest) in
  w_sched w = mypid :: c2 :: c3 :: sched -> 0 <= c2 -> 0 < c3 -> w_nlin w = m :: ms ->
  Forall attr_ok skipped -> Forall (fun a => fst a <> CTRL_ATTR_FAMILY_ID) skipped ->
  (length skipped < fuel)%nat -> (length m <= reply_size)%nat -> u16 id ->
  wp (nl_get_family_id junk8192 fuel)
     (fun r g' w' => r = id /\ g' = g /\ w_nlin w' = ms /\ w_nlout w' = w_nlout w ++ [query_datagram mypid] /\
        w_sched w' = sched /\ same_streams w w') never g w.
Proof.
  intros m Hs Hc2 Hc3 Hn Hok Hne Hf Hm Hid.
  unfold nl_get_family_id, sys. do 2 apply wp_bind. unfold wp at 1, next. rewrite Hs.
  apply wp_bind, wp_emit, wp_ret, wp_bind. eapply wp_checked; [apply family_query_encode|].
  apply wp_bind. unfold wp at 1, sys_sendto_msg. cbn [w_sched add_event set_sched].
  destruct (Z.ltb_spec c2 0); [lia|].
  match goal with |- context [Z.of_nat ?k <? 0] => destruct (Z.ltb_spec (Z.of_nat k) 0); [lia|] end.
  apply wp_bind. unfold wp at 1, sys_recv_msg. cbn [w_sched add_event set_sched set_nlout w_nlin].
  destruct (Z.leb_spec c3 0); [lia|]. rewrite Hn. cbn zeta. rewrite (take_ge m) by exact Hm.
  destruct (Z.ltb_spec (Z.of_nat (length m)) 0); [lia|]. unfold received, wp.
  rewrite (parse_family_ok fuel ver type flags sq pid cmd skipped id rest) by done. done.
Qed.

Lemma nl_register_ok g w mypid c sched :
  w_sched w = mypid :: c :: sched ->
  wp nl_register_daemon
     (fun _ g' w' => g' = g /\
        w_nlout w' = w_nlout w ++
          (if c <? 0 then [] else [register_datagram (family_id g) mypid]) /\
        (exists tr, w_trace w' = w_trace w ++ tr ++ [EvPrint "REGISTER sent to kernel" []]) /\
        w_sched w' = sched /\ w_nlin w' = w_nlin w /\ same_streams w w')
     never g w.
Proof.
  intros Hs. unfold nl_register_daemon, sys. apply wp_bind, wp_get, wp_bind, wp_bind.
  unfold wp at 1, next. rewrite Hs. apply wp_bind, wp_emit, wp_ret, wp_bind.
  eapply wp_checked; [apply register_msg_encode|]. apply wp_bind.
  unfold wp at 1, sys_sendto_msg. cbn [w_sched add_event set_sched].
  destruct (c <? 0); (split; [done|]; split; [cbn; by rewrite ?app_nil_r|]);
    (split; [cbn; rewrite <- app_assoc; by eexists [_]|done]).
Qed.

(** ** Malformed attributes *)

(** An attribute of length zero that is not the wanted one: the walk never advances,
    so no number of rounds ends it. *)
Lemma attr_walk_stuck fuel buf off attrlen want hdr :
  0 < attrlen -> load off 4 buf = Some hdr -> le_decode (take 2 hdr) = 0 ->
  le_decode (drop 2 hdr) <> want ->
  attr_walk fuel buf off attrlen want = StillWalking.
Proof.
  intros Ha Hl Hz Ht. revert attrlen Ha. induction fuel as [|fuel IH]; intros attrlen Ha; cbn [attr_walk].
  - by destruct (Z.leb_spec attrlen 0); [lia|].
  - destruct (Z.leb_spec attrlen 0); [lia|]. rewrite Hl, Hz.
    destruct (Z.eqb_spec (le_decode (drop 2 hdr)) want); [done|].
    change (NLA_ALIGN 0) with 0. rewrite Z.add_0_r, Z.sub_0_r. by apply IH.
Qed.

(** The headers the walk comes to, with the bytes still announced there. *)
Inductive visits (buf : list byte) (want : Z) : Z -> Z -> Z -> Z -> Prop :=
| VisitHere off attrlen : visits buf want off attrlen off attrlen
| VisitNext off attrlen hdr o a :
    0 < attrlen -> load off 4 buf = Some hdr -> le_decode (drop 2 hdr) <> want ->
    visits buf want (off + NLA_ALIGN (le_decode (take 2 hdr))) (attrlen - NLA_ALIGN (le_decode (take 2 hdr))) o a ->
    visits buf want off attrlen o a.

(** An attribute of length zero, of a type that is not wanted, among the announced bytes. *)
Definition zero_length_at (buf : list byte) (want o a : Z) : Prop :=
  0 < a /\ exists hdr, load o 4 buf = Some hdr /\ le_decode (take 2 hdr) = 0 /\ le_decode (drop 2 hdr) <> want.

Lemma visits_stuck buf want off attrlen o a :
  visits buf want off attrlen o a -> zero_length_at buf want o a ->
  forall fuel, attr_walk fuel buf off attrlen want = StillWalking.
Proof.
  intros Hv (Ha & hdr & Hl & Hz & Ht). induction Hv as [|off attrlen h o a H0 Hh Hw _ IH]; intros fuel;
    [by eapply attr_walk_stuck|].
  destruct fuel as [|fuel]; cbn [attr_walk]; destruct (Z.leb_spec attrlen 0); [lia|done|lia|].
  rewrite Hh. destruct (Z.eqb_spec (le_decode (drop 2 h)) want); [done|]. by apply IH.
Qed.

(** A walk that is not over after a round for every four bytes announced has come to
    such an attribute: every other round goes four bytes on. *)
Lemma still_walking_visits fuel buf want : forall off attrlen,
  attrlen <= 4 * Z.of_nat fuel -> attr_walk fuel buf off attrlen want = StillWalking ->
  exists o a, visits buf want off attrlen o a /\ zero_length_at buf want o a.
Proof.
  induction fuel as [|fuel IH]; intros off attrlen Hf H; cbn [attr_walk] in H;
    destruct (Z.leb_spec attrlen 0) as [|H0]; [done|lia|done|].
  destruct (load off 4 buf) as [hdr|] eqn:El; [|done].
  destruct (Z.eqb_spec (le_decode (drop 2 hdr)) want) as [|Hw]; [done|].
  pose proof (le_decode_bound (take 2 hdr)) as [Hn _].
  destruct (Z.eq_dec (le_decode (take 2 hdr)) 0) as [Hz|Hz].
  - exists off, attrlen. split; [constructor|]. split; [done|]. by exists hdr.
  - apply IH in H as (o & a & Hv & Hs); [by exists o, a; split; [eapply VisitNext|]|].
    rewrite NLA_ALIGN_eq. Z.div_mod_to_equations; lia.
Qed.

(** After well-formed attributes of other types the walk comes to what stands there. *)
Lemma visits_skipped skipped post want : forall pre attrlen,
  Forall attr_ok skipped -> Forall (fun a => fst a <> want) skipped ->
  Z.of_nat (length (encode_attrs skipped)) < attrlen ->
  visits (pre ++ encode_attrs skipped ++ post) want (Z.of_nat (length pre)) attrlen
    (Z.of_nat (length (pre ++ encode_attrs skipped))) (attrlen - Z.of_nat (length (encode_attrs skipped))).
Proof.
  induction skipped as [|[t p] l IH]; intros pre attrlen Hok Hne Hlen.
  - cbn [encode_attrs map concat length]. rewrite app_nil_r, Z.sub_0_r. constructor.
  - apply Forall_cons_1 in Hok as [[Ht Hp] Hok]. apply Forall_cons_1 in Hne as [Hn Hne]. cbn [fst snd] in *.
    change (encode_attrs ((t, p) :: l)) with (encode_attr (t, p) ++ encode_attrs l) in *.
    rewrite length_app, Nat2Z.inj_add in Hlen.
    apply (VisitNext _ _ _ _ (le_encode 2 (4 + Z.of_nat (length p)) ++ le_encode 2 t)); [lia|..].
    + unfold encode_attr. rewrite <- !app_assoc, (app_assoc (le_encode 2 _)). apply load_mid.
      by rewrite length_app, !length_le_encode.
    + rewrite drop_app_exact by apply length_le_encode. by rewrite le_decode_encode_u16.
    + rewrite take_app_exact, le_decode_encode_u16, <- length_encode_attr with (type := t)
        by (apply length_le_encode || cint).
      rewrite <- (app_assoc (encode_attr (t, p))), !(app_assoc pre), <- Nat2Z.inj_add, <- length_app.
      rewrite (length_app (encode_attr (t, p)) (encode_attrs l)), Nat2Z.inj_add, Z.sub_add_distr.
      apply IH; [done|done|lia].
Qed.
