(* ===== verification/NlClient.v ===== *)
(** * daemon-doe-netlink.c as a client

    One round of the netlink daemon as a tree of its system calls, and the daemon as a
    process that keeps the promises of a client of Link.v: for every well-formed request
    it sends the access, receives the answer and hands the kernel the response datagram
    under the request's sequence number. The promises are those of a run in which no call
    fails: the program does not look at the results of [send] and [recv], and answers for
    a server that is gone (NetlinkProps.v). Then [send] takes the whole access and [recv]
    with [MSG_WAITALL] delivers a whole one; otherwise either may be cut short (NlFaults.v).
    [getpid] always gives [mypid]. *)
From S2P Require Import Prelude Bytes CMonad Log Wire ByteIO IoTree RelayCode Link Netlink NetlinkSpec.

(** ** The tree *)

Section tree.
Variables (junk4096 : list byte) (fuel : nat) (sockfd mypid : Z).

(** The response has been built. *)
Definition nl_reply (m : list byte) : io nl_state bool := SendMsg m (fun _ => Ret true).

Definition nl_pid (g : nl_state) (pid : Z) : io nl_state bool :=
  Local (emit (EvCall "getpid" [] pid);; checked (response_msg (family_id g) pid (seq g) (op_mem g))) nl_reply.

Definition nl_respond (g : nl_state) : io nl_state bool := Ask (exactly mypid) (nl_pid g).

(** [recv] has returned, with [bs] in [op]. *)
Definition nl_answered : Z * list byte -> io nl_state bool := fun '(_, bs) =>
  Local (modify (fun g => set_op_mem (splice 0 bs (op_mem g)) g);;
         g ← get;
         let op : avery_pci_config_op := of_bytes (op_mem g) in
         printf "RESP: status=%d value=0x%x" [op_status op; op_value op];;
         get) nl_respond.

Definition nl_sent : io nl_state bool := Read sockfd (sizeof avery_pci_config_op) nl_answered.

Definition nl_send (m : list byte) : io nl_state bool := Write sockfd m (fun _ => nl_sent).

(** [nl_recv_request] has returned [r]. *)
Definition nl_parsed (r : Z) : io nl_state bool :=
  if truth r then Ret true
  else Local (g ← get;
              let op : avery_pci_config_op := of_bytes (op_mem g) in
              printf "REQ: type=%d offset=0x%x value=0x%x" [op_type op; op_offset op; op_value op];;
              mret (op_mem g)) nl_send.

Definition nl_got : Z * list byte -> io nl_state bool := fun '(len, bs) =>
  Local (if len <=? 0 then mret (-1) else nl_parse_request fuel (received bs junk4096)) nl_parsed.

Definition nl_tree : io nl_state bool := RecvMsg 4096 nl_got.

Lemma nl_answered_code r :
  interp (nl_answered r) ≐
  (let '(_, bs) := r in
   modify (fun g => set_op_mem (splice 0 bs (op_mem g)) g);;
   g ← get;
   let op : avery_pci_config_op := of_bytes (op_mem g) in
   printf "RESP: status=%d value=0x%x" [op_status op; op_value op];;
   nl_send_response;;
   mret true).
Proof.
  destruct r as [n bs]. unfold nl_answered. cbn [interp]. rewrite bind_assoc. same_step. rewrite bind_assoc. same_step.
  rewrite bind_assoc. same_step. unfold nl_send_response, sys. rewrite bind_assoc. same_step.
  unfold nl_respond. cbn [interp]. rewrite !bind_assoc. same_step. unfold nl_pid. cbn [interp].
  rewrite !bind_assoc. same_step. change (mret (M := C nl_state) ?a ≫= ?f) with (f a). rewrite bind_assoc. same_step.
  unfold nl_reply. cbn [interp]. rewrite bind_assoc. reflexivity.
Qed.

Lemma nl_tree_code : interp nl_tree ≐ nl_iter junk4096 fuel sockfd.
Proof.
  unfold nl_tree, nl_iter, nl_recv_request. cbn [interp]. rewrite bind_assoc. same_step.
  destruct a as [len bs]. unfold nl_got. cbn [interp]. same_step.
  unfold nl_parsed. destruct (truth a); [reflexivity|]. cbn [interp]. rewrite bind_assoc. same_step.
  rewrite bind_assoc. same_step. change (mret (M := C nl_state) ?a ≫= ?f) with (f a).
  unfold nl_send. cbn [interp]. same_step. unfold nl_sent. cbn [interp]. same_step. apply nl_answered_code.
Qed.
End tree.

(** ** Moves *)

(** A request of the kernel driver: its sequence number, port and access, and the
    datagram that carries them. *)
Record nl_request : Type := NlRequest {
  nq_seq  : Z;
  nq_port : Z;
  nq_op   : avery_pci_config_op;
  nq_msg  : list byte;
}.

Definition nl_request_ok (q : nl_request) : Prop :=
  request_datagram (nq_seq q) (nq_port q) (nq_op q) (nq_msg q).

Section moves.
Variables (junk4096 : list byte) (fuel : nat) (sockfd family mypid : Z).

#[local] Abbreviation tree := (nl_tree junk4096 fuel sockfd mypid).

Inductive nl_moves (faults : bool) : proc nl_state -> cact nl_request (list byte) -> proc nl_state -> Prop :=
| NmQuiet ch lab k k' :
    pmove tree k ch = Some (lab, k') -> silent faults lab = true -> nl_moves faults k CQuiet k'
| NmTake q k k' :
    pmove tree k (Deliver (nq_msg q)) = Some (InMsg (nq_msg q), k') -> nl_moves faults k (CTake q) k'
| NmGive n m k k' :
    pmove tree k (Accept n) = Some (OutMsg m, k') -> nl_moves faults k (CGive m) k'
| NmSend n bs k k' :
    pmove tree k (Accept n) = Some (Out sockfd bs, k') -> length bs = 16%nat \/ faults = true ->
    nl_moves faults k (CSend bs) k'
| NmRecv bs k k' :
    pmove tree k (Deliver bs) = Some (In sockfd bs, k') -> length bs = 16%nat \/ faults = true ->
    nl_moves faults k (CRecv bs) k'.

Definition nl_client (faults : bool) : client (proc nl_state) nl_request (list byte) :=
  MkClient (nl_moves faults) (fun _ => false) (fun k => k = Crashed) nl_request_ok nq_op
           (fun q a => response_datagram family mypid (nq_seq q) (to_bytes a)).

(** ** Positions *)

(** The state of a daemon that serves [q], with [m] in [op]. *)
Definition serving (q : nl_request) (m : list byte) : nl_state := NlState family (nq_port q) (nq_seq q) m.

Inductive nl_at : proc nl_state -> cpos nl_request -> nat -> Prop :=
| NaTop g w : family_id g = family -> nl_at (Running g w (Ret true)) CWait 1
| NaWait g w : family_id g = family -> nl_at (Running g w tree) CWait 0
| NaGot g w q : family_id g = family -> nl_request_ok q ->
    nl_at (Running g w (nl_got junk4096 fuel sockfd mypid (Z.of_nat (length (take 4096 (nq_msg q))), take 4096 (nq_msg q))))
          (CBusy q (to_bytes (nq_op q)) []) 2
| NaParsed w q : nl_request_ok q ->
    nl_at (Running (serving q (to_bytes (nq_op q))) w (nl_parsed sockfd mypid 0)) (CBusy q (to_bytes (nq_op q)) []) 1
| NaSend w q : nl_request_ok q ->
    nl_at (Running (serving q (to_bytes (nq_op q))) w (nl_send sockfd mypid (to_bytes (nq_op q))))
          (CBusy q (to_bytes (nq_op q)) []) 0
| NaSent w q m : length m = 16%nat -> nl_at (Running (serving q m) w (nl_sent sockfd mypid)) (CBusy q [] []) 0
| NaAnswered w q m bs : length m = 16%nat -> length bs = 16%nat ->
    nl_at (Running (serving q m) w (nl_answered mypid (16, bs))) (CBusy q [] bs) 3
| NaRespond w q m : length m = 16%nat ->
    nl_at (Running (serving q m) w (nl_respond mypid (serving q m))) (CBusy q [] m) 2
| NaPid w q m : length m = 16%nat ->
    nl_at (Running (serving q m) w (nl_pid (serving q m) mypid)) (CBusy q [] m) 1
| NaReply w q m : length m = 16%nat ->
    nl_at (Running (serving q m) w (nl_reply (response_datagram family mypid (nq_seq q) m))) (CBusy q [] m) 0.

Hypothesis Hfuel : (1024 <= fuel)%nat.

Definition nl_moved (p : cpos nl_request) (j : nat) (lab : label) (k' : proc nl_state) : Prop :=
  match lab with
  | Tau => exists j', nl_at k' p j' /\ (j' < j)%nat
  | Fail => True
  | InMsg m => p = CWait /\
      forall q, nl_request_ok q -> nq_msg q = m -> nl_at k' (CBusy q (to_bytes (nq_op q)) []) 2
  | OutMsg m => exists q acc, p = CBusy q [] acc /\ length acc = 16%nat /\
      m = response_datagram family mypid (nq_seq q) acc /\ nl_at k' CWait 1
  | Out fd bs => exists q out, p = CBusy q out [] /\ length out = 16%nat /\
      (length bs = 16%nat -> bs = out /\ nl_at k' (CBusy q [] []) 0)
  | In fd bs => exists q, p = CBusy q [] [] /\ (length bs = 16%nat -> nl_at k' (CBusy q [] bs) 3)
  end.

Ltac made H := apply (inj Some), pair_eq in H as [<- <-].

Lemma nl_at_move k p j ch lab k' :
  nl_at k p j -> pmove tree k ch = Some (lab, k') -> nl_moved p j lab k'.
Proof.
  intros D H. destruct D as [g w Hg|g w Hg|g w q Hg Hq|w q Hq|w q Hq|w q m Hm|w q m bs Hm Hb|w q m Hm|w q m Hm|w q m Hm].
  - destruct ch; try done. made H. exists 0%nat. split; [by constructor|lia].
  - unfold nl_tree in H. destruct ch as [|c|m|]; try done; cbn [pmove] in H.
    + destruct (c <=? 0); [|done]. by made H.
    + destruct (_ <? _)%nat; [|done]. made H. split; [done|]. intros q Hq <-. by constructor.
  - destruct ch; try done. unfold nl_got in H. cbn [pmove] in H.
    pose proof (request_datagram_length _ _ _ _ Hq) as [H0 Hl]. rewrite (take_ge (nq_msg q)) in H by exact Hl.
    destruct (Z.leb_spec (Z.of_nat (length (nq_msg q))) 0) as [|_]; [lia|]. unfold received in H.
    rewrite (request_datagram_parsed _ Hfuel _ _ _ _ _ _ _ Hq), Hg in H. made H.
    exists 1%nat. split; [by constructor|lia].
  - destruct ch; try done. cbn -[of_bytes to_bytes nl_send] in H. made H.
    exists 0%nat. split; [by constructor|lia].
  - pose proof (op_bytes_length _ (request_datagram_op _ _ _ _ Hq)) as Hl.
    unfold nl_send in H. destruct ch as [|c| |n]; try done; cbn [pmove] in H.
    + destruct (c <? 0); [|done]. by made H.
    + destruct (_ && _)%nat; [|done]. made H. do 2 eexists. do 2 (split; [done|]).
      rewrite length_take. intros Hn. split; [apply take_ge; lia|by constructor].
  - unfold nl_sent in H. destruct ch as [|c|bs|]; try done; cbn [pmove] in H.
    + destruct (c <=? 0); [|done]. by made H.
    + destruct (_ && _)%nat; [|done]. made H. exists q. split; [done|]. intros Hb. rewrite Hb. by constructor.
  - destruct ch; try done. cbn -[of_bytes splice nl_respond] in H. made H.
    rewrite splice_all by (cbn; congruence). exists 2%nat. split; [|lia]. by apply NaRespond.
  - destruct ch as [|c| |]; try done. cbn [pmove nl_respond] in H. unfold exactly in H.
    destruct (Z.eqb_spec c mypid) as [->|_]; [|done]. made H. exists 1%nat. split; [by constructor|lia].
  - destruct ch; try done. unfold nl_pid in H. cbn [pmove serving family_id seq op_mem] in H.
    rewrite response_msg_encode in H by done. cbn -[encode_msg nl_reply] in H. made H.
    exists 0%nat. split; [by apply NaReply|lia].
  - unfold nl_reply in H. destruct ch as [|c| |n]; try done; cbn [pmove] in H.
    + destruct (c <? 0); [|done]. by made H.
    + destruct (_ =? _)%nat; [|done]. made H. exists q, m. do 3 (split; [done|]). by constructor.
Qed.

Lemma nl_at_ready k p j :
  nl_at k p j ->
  (exists a k', cown a /\ nl_moves false k a k') \/
  (p = CWait /\ forall q, nl_request_ok q -> exists k', nl_moves false k (CTake q) k') \/
  (exists q acc, p = CBusy q [] acc /\ (length acc < 16)%nat /\
     forall bs, length (acc ++ bs) = 16%nat -> exists k', nl_moves false k (CRecv bs) k').
Proof.
  assert (forall k ch k', pmove tree k ch = Some (Tau, k') -> exists a k', cown a /\ nl_moves false k a k') as Quiet.
  { intros k1 ch k' H. exists CQuiet, k'. split; [done|by eapply NmQuiet]. }
  intros D. destruct D as [g w Hg|g w Hg|g w q Hg Hq|w q Hq|w q Hq|w q m Hm|w q m bs Hm Hb|w q m Hm|w q m Hm|w q m Hm].
  - left. by apply (Quiet _ Go (Running g w tree)).
  - right; left. split; [done|]. intros q Hq. eexists. apply NmTake. unfold nl_tree. cbn [pmove].
    pose proof (request_datagram_length _ _ _ _ Hq) as [H0 _]. by destruct (Nat.ltb_spec 0 (length (nq_msg q))); [|lia].
  - left. eapply (Quiet _ Go). unfold nl_got. cbn [pmove].
    pose proof (request_datagram_length _ _ _ _ Hq) as [H0 Hl]. rewrite (take_ge (nq_msg q)) by exact Hl.
    destruct (Z.leb_spec (Z.of_nat (length (nq_msg q))) 0) as [|_]; [lia|]. unfold received.
    by rewrite (request_datagram_parsed _ Hfuel _ _ _ _ _ _ _ Hq).
  - left. by eapply (Quiet _ Go).
  - left. pose proof (op_bytes_length _ (request_datagram_op _ _ _ _ Hq)) as Hl.
    do 2 eexists. split; [|apply (NmSend _ 16)]; [done| |].
    + unfold nl_send. cbn [pmove]. rewrite Hl. reflexivity.
    + left. by rewrite length_take, Hl.
  - right; right. exists q, []. split; [done|]. split; [cbn; lia|]. intros bs Hb. cbn [app] in Hb.
    eexists. apply NmRecv; [|by left]. unfold nl_sent. cbn [pmove]. by rewrite Hb.
  - left. by eapply (Quiet _ Go).
  - left. eapply (Quiet _ (Result mypid)). unfold nl_respond, exactly. cbn [pmove]. by rewrite Z.eqb_refl.
  - left. eapply (Quiet _ Go). unfold nl_pid. cbn [pmove serving family_id seq op_mem].
    by rewrite response_msg_encode by done.
  - left. do 2 eexists. split; [|eapply NmGive]; [done|]. unfold nl_reply. cbn [pmove].
    by rewrite Nat.eqb_refl.
Qed.

#[export] Instance nl_laws : ClientLaws (nl_client false) false nl_at.
Proof.
  split; cbn [cl_ok cl_op cl_reply cl_move cl_gone cl_crashed nl_client]; try done.
  - intros q. apply request_datagram_op.
  - intros k p j k' D M. inversion M as [ch lab ? ? H Hl| | | |]; subst. destruct lab; try done.
    destruct (nl_at_move _ _ _ _ _ _ D H) as (j' & D' & Hj). eauto.
  - intros k p j q k' D M Hq. inversion M as [|? ? ? H| | |]; subst.
    destruct (nl_at_move _ _ _ _ _ _ D H) as [-> N]. split; [done|]. exists 2%nat. split; [by apply N|lia].
  - intros k p j bs k' D M. inversion M as [| | |n ? ? ? H [Hb|?]|]; subst; [|done].
    destruct (nl_at_move _ _ _ _ _ _ D H) as (q & out & -> & Hl & N). destruct (N Hb) as [-> D'].
    exists q, out, 16%nat. split; [done|]. split; [lia|]. rewrite take_ge, drop_ge by lia. split; [done|].
    exists 0%nat. split; [done|lia].
  - intros k p j bs k' D M. inversion M as [| | | |? ? ? H [Hb|?]]; subst; [|done].
    destruct (nl_at_move _ _ _ _ _ _ D H) as (q & -> & N). exists q, []. split; [done|]. split; [lia|].
    exists 3%nat. split; [by apply N|lia].
  - intros k p j r k' D M. inversion M as [| |? ? ? ? H| |]; subst.
    destruct (nl_at_move _ _ _ _ _ _ D H) as (q & acc & -> & Ha & -> & D'). exists q, acc.
    do 2 (split; [done|]). split; [f_equal; symmetry; by apply op_to_of_bytes|]. exists 1%nat. split; [done|lia].
  - intros k p j D ->. by inversion D.
  - intros k p j _ D. by eapply nl_at_ready.
Qed.

(** ** Scheduling *)

Definition nl_next (td : list nl_request) (dw : list byte) (k : proc nl_state) :
    option (cact nl_request (list byte) * proc nl_state) :=
  match answer [mypid] k with
  | Some ch =>
      match pmove tree k ch, ch with
      | Some (Tau, k'), _ => Some (CQuiet, k')
      | Some (Out fd bs, k'), Accept _ =>
          if (fd =? sockfd) && (length bs =? 16)%nat then Some (CSend bs, k') else None
      | Some (OutMsg m, k'), Accept _ => Some (CGive m, k')
      | _, _ => None
      end
  | None =>
      match wants k, td with
      | Some (fd, len), _ =>
          if (fd =? sockfd) && (length (take len dw) =? 16)%nat then
            match pmove tree k (Deliver (take len dw)) with
            | Some (_, k') => Some (CRecv (take len dw), k')
            | None => None
            end
          else None
      | None, q :: _ =>
          match pmove tree k (Deliver (nq_msg q)) with
          | Some (InMsg _, k') => Some (CTake q, k')
          | _ => None
          end
      | None, [] => None
      end
  end.

Lemma datagram_label k m m' k' : pmove tree k (Deliver m) = Some (InMsg m', k') -> m' = m.
Proof.
  destruct k as [s w [[]|fd len kk| |len kk| | |]| |]; try done; cbn [pmove].
  - by destruct (_ && _)%nat.
  - destruct (_ <? _)%nat; [|done]. by intros [= -> _].
Qed.

#[export] Instance nl_runs faults : ClientRuns (nl_client faults) nl_next.
Proof.
  intros td dw k a k'. unfold nl_next. cbn [cl_move nl_client]. destruct (answer [mypid] k) as [ch|].
  - destruct (pmove tree k ch) as [[lab k1]|] eqn:E; [|done]. destruct lab as [| |fd bs|fd bs|m|m]; try done.
    + intros H. made H. split; [by eapply NmQuiet|done].
    + destruct ch as [| | |n]; try done. destruct (Z.eqb_spec fd sockfd) as [->|_], (Nat.eqb_spec (length bs) 16); try done.
      intros H. made H. split; [eapply NmSend; [done|by left]|done].
    + destruct ch as [| | |n]; try done. intros H. made H. split; [by eapply NmGive|done].
  - destruct (wants k) as [[fd len]|] eqn:W.
    + destruct (Z.eqb_spec fd sockfd) as [->|_], (Nat.eqb_spec (length (take len dw)) 16); try done.
      destruct (pmove tree k (Deliver _)) as [[lab k1]|] eqn:E; [|done]. intros H. made H.
      pose proof (deliver_label _ _ _ _ _ _ _ W E) as ->.
      split; [eapply NmRecv; [done|by left]|]. exists (drop len dw). by rewrite take_drop.
    + destruct td as [|q td]; [done|].
      destruct (pmove tree k (Deliver _)) as [[[] k1]|] eqn:E; try done. intros H. made H.
      pose proof (datagram_label _ _ _ _ E) as ->. split; [by eapply NmTake|by eexists].
Qed.

#[export] Instance nl_rests : ClientRests (nl_client false) reading.
Proof.
  intros k a k' Hk M. destruct M as [ch lab k k' H Hl|q k k' H|n m k k' H|n bs k k' H _|bs k k' H Hb];
    pose proof (reading_gets _ _ _ _ _ Hk H) as N; try done. by destruct lab.
Qed.
End moves.
