(* ===== verification/NlStart.v ===== *)
(** * daemon-doe-netlink.c from the first line of [main]

    The start of the netlink daemon as a tree: it connects to the server, opens and binds
    a netlink socket, asks the controller for the identifier of its family, takes it from
    the reply and registers. The kernel answers on the same socket: the controller once it
    has been asked, the driver once the daemon is registered; [standing] is what the kernel
    knows of the daemon. The daemon from [main] on is a client of Link.v. *)
From S2P Require Import Prelude Bytes CMonad Log Wire ByteIO Mailbox DoeEmu IoTree RelayCode Link Boot.
From S2P Require Import Netlink NetlinkSpec NlClient.

(** ** The tree *)

Section tree.
Variables (junk8192 : list byte) (fuel : nat) (sockfd mypid : Z).

Definition nl_connect : io nl_state Z :=
  s ← call (gives sockfd) (EvCall "socket" [2; 1; 0]);
  if s <? 0 then die "socket"
  else
    p ← call positive (EvCall "inet_pton" [2; 0x0100007F]);
    if p <=? 0 then die "inet_pton"
    else
      r ← call nonneg (EvCall "connect" [s; 0x0100007F; 5555]);
      if r <? 0 then die "connect"
      else
        lift (printf "Connected to remote RC %s:%d" [5555]);;
        mret s.

(** Up to the query for the family. *)
Definition nl_ask : io nl_state (Z * list byte) :=
  s ← nl_connect;
  nl_sock ← call nonneg (EvCall "socket" [16; 3; 16]);
  pid ← call (exactly mypid) (EvCall "getpid" []);
  call nonneg (EvCall "bind" [nl_sock; pid]);;
  pid ← call (exactly mypid) (EvCall "getpid" []);
  m ← lift (checked (family_query pid));
  mret (s, m).

(** From the reply to the registration. *)
Definition nl_learn (buf : list byte) : io nl_state (list byte) :=
  fam ← lift (nl_parse_family fuel buf);
  lift (modify (set_family_id fam));;
  lift (printf "Netlink family id = %d" [fam]);;
  g ← lift get;
  pid ← call (exactly mypid) (EvCall "getpid" []);
  lift (checked (register_msg (family_id g) pid)).

(** What is done with the connection. *)
Context {A : Type} (loop : Z -> io nl_state A).

Definition nl_ready (s : Z) : io nl_state A :=
  lift (printf "REGISTER sent to kernel" []);;
  lift (printf "Daemon started" []);;
  loop s.

Definition nl_join (s : Z) (m : list byte) : io nl_state A := SendMsg m (fun _ => nl_ready s).

Definition nl_told (s : Z) : Z * list byte -> io nl_state A := fun '(r, bs) =>
  if r <? 0 then die "recv" else m ← nl_learn (received bs junk8192); nl_join s m.

Definition nl_asked (s r : Z) : io nl_state A := if r <? 0 then die "sendto" else RecvMsg reply_size (nl_told s).

Definition nl_query : Z * list byte -> io nl_state A := fun '(s, m) => SendMsg m (nl_asked s).

Definition nl_main : io nl_state A := m ← nl_ask; nl_query m.
End tree.

(** ** The tree is the program *)

Lemma nl_connect_code sockfd : interp (nl_connect sockfd) ≐ Netlink.connect_remote.
Proof.
  unfold nl_connect, Netlink.connect_remote. tree_step. destruct (a <? 0); [reflexivity|]. tree_step.
  destruct (a0 <=? 0); [reflexivity|]. tree_step. destruct (a1 <? 0); [reflexivity|]. tree_step. reflexivity.
Qed.

Lemma nl_main_code junk4096 junk8192 fuel sockfd mypid :
  Netlink.main junk4096 junk8192 fuel ≐
  (s ← interp (nl_main junk8192 fuel sockfd mypid (fun s => Ret s));
   forever fuel (nl_iter junk4096 fuel s);;
   mret 0).
Proof.
  symmetry. unfold nl_main, nl_ask, Netlink.main. rewrite interp_bind, !bind_assoc, interp_bind, !bind_assoc.
  apply ceq_bind; [apply nl_connect_code|]. intros s. cbn beta. do 3 tree_step.
  unfold nl_get_family_id. rewrite !bind_assoc. do 2 tree_step. cbn [interp mret io_ret nl_query].
  change (mret (M := C nl_state) ?a ≫= ?f) with (f a). unfold nl_query. cbn [interp]. rewrite !bind_assoc. same_step.
  unfold nl_asked. destruct (_ <? 0); [reflexivity|]. cbn [interp]. rewrite !bind_assoc. same_step.
  destruct a5 as [r bs]. unfold nl_told. destruct (r <? 0); [reflexivity|].
  unfold nl_learn. rewrite interp_bind, !bind_assoc. do 3 tree_step.
  unfold nl_register_daemon. rewrite !bind_assoc. do 2 tree_step.
  rewrite interp_lift, !bind_assoc. same_step. unfold nl_join. cbn [interp]. rewrite !bind_assoc. same_step.
  unfold nl_ready. do 2 tree_step. reflexivity.
Qed.

(** ** Moves *)

(** What the kernel knows of the daemon: nothing, that it asked for the family, that it was
    told, that it is registered. *)
Inductive standing : Type := Unknown | Asked | Told | Member.

#[global] Instance standing_eq_dec : EqDecision standing.
Proof. solve_decision. Defined.

Section moves.
Variables (junk4096 junk8192 : list byte) (fuel : nat) (sockfd family mypid : Z).

#[local] Abbreviation tree := (nl_tree junk4096 fuel sockfd mypid).

(** Into the loop, with the connection it is about. *)
Definition nl_enter (s : Z) : io nl_state bool := if s =? sockfd then Ret true else lift undefined.

Inductive nl_starts : proc nl_state * standing -> cact nl_request (list byte) -> proc nl_state * standing -> Prop :=
| NsQuiet ch k k' st :
    st <> Member -> pmove tree k ch = Some (Tau, k') -> nl_starts (k, st) CQuiet (k', st)
| NsAsk n k k' :
    pmove tree k (Accept n) = Some (OutMsg (query_datagram mypid), k') -> nl_starts (k, Unknown) CQuiet (k', Asked)
| NsReply m k k' :
    family_reply family m -> pmove tree k (Deliver m) = Some (InMsg m, k') -> nl_starts (k, Asked) CQuiet (k', Told)
| NsJoin n k k' :
    pmove tree k (Accept n) = Some (OutMsg (register_datagram family mypid), k') ->
    nl_starts (k, Told) CQuiet (k', Member)
| NsServe a k k' :
    nl_moves junk4096 fuel sockfd mypid false k a k' -> nl_starts (k, Member) a (k', Member).

Definition nl_program : client (proc nl_state * standing) nl_request (list byte) :=
  MkClient nl_starts (fun _ => false) (fun k => k.1 = Crashed) nl_request_ok nq_op
           (fun q a => response_datagram family mypid (nq_seq q) (to_bytes a)).

(** ** Positions *)

(** Not yet in the loop. *)
Inductive starting : proc nl_state * standing -> nat -> Prop :=
| StAsk n g w t :
    boots false (w_env w) t n g (fun _ r _ => r = (sockfd, query_datagram mypid)) ->
    starting (Running g w (tbind t (nl_query junk8192 fuel mypid nl_enter)), Unknown) (13 + n)
| StAsked g w :
    starting (Running g w (RecvMsg reply_size (nl_told junk8192 fuel mypid nl_enter sockfd)), Asked) 12
| StLearn n g w t :
    boots false (w_env w) t n g (fun _ m g' => m = register_datagram family mypid /\ family_id g' = family) ->
    starting (Running g w (tbind t (nl_join nl_enter sockfd)), Told) (4 + n)
| StReady n g w t :
    booting false (w_env w) (fun g' => family_id g' = family) n t g ->
    starting (Running g w t, Member) (1 + n).

Inductive nl_program_at : proc nl_state * standing -> cpos nl_request -> nat -> Prop :=
| PaStart k j : starting k j -> nl_program_at k CWait j
| PaMember k p j : nl_at junk4096 fuel sockfd family mypid k p j -> nl_program_at (k, Member) p j.

Hypotheses (Hfuel : (2048 <= fuel)%nat) (Hfamily : u16 family).

Lemma nl_learn_boots env m g :
  family_reply family m ->
  boots false env (nl_learn fuel mypid (received (take reply_size m) junk8192)) 7 g
    (fun _ m g' => m = register_datagram family mypid /\ family_id g' = family).
Proof.
  intros Hm. pose proof (family_reply_length _ _ Hm) as [_ Hl]. rewrite (take_ge m) by exact Hl. unfold nl_learn, received.
  apply boots_bind, boots_lift. intros w Hw. rewrite (family_reply_parsed fuel family) by done.
  split; [done|]. repeat boot_step. by eapply boots_checked; [apply register_msg_encode|].
Qed.

Lemma nl_ask_boots env g :
  0 <= sockfd -> boots false env (nl_ask sockfd mypid) 16 g (fun _ r _ => r = (sockfd, query_datagram mypid)).
Proof.
  intros Hs. unfold nl_ask, nl_connect. repeat boot_step.
  by eapply boots_checked; [apply family_query_encode|].
Qed.

Ltac made H := apply (inj Some), pair_eq in H as [<- <-].

(** A datagram is sent whole, unless the call fails. *)
Lemma sendmsg_move g w m f ch lab k' :
  pmove tree (Running g w (SendMsg m f)) ch = Some (lab, k') ->
  lab = Fail \/ (lab = OutMsg m /\ k' = Running g w (f (Z.of_nat (length m)))).
Proof.
  destruct ch as [|c| |n]; try done; cbn [pmove].
  - destruct (c <? 0); [|done]. intros H. made H. by left.
  - destruct (Nat.eqb_spec n (length m)) as [->|_]; [|done]. intros H. made H. by right.
Qed.

(** The start ends, and leads into the loop. *)
Lemma starting_move k j a k' :
  starting k j -> nl_starts k a k' -> a = CQuiet /\ exists j', nl_program_at k' CWait j' /\ (j' < j)%nat.
Proof.
  intros St M. destruct St as [n g w t B|g w|n g w t B|n g w t B].
  - inversion M as [ch ? ? ? _ H|n' ? ? H| | |]; subst; (split; [done|]).
    + destruct (boots_move _ _ _ _ _ _ _ _ _ _ _ _ eq_refl B H) as [([s m] & -> & [= -> ->])|[_ N]].
      { by destruct (sendmsg_move _ _ _ _ _ _ _ H) as [?|[? _]]. }
      destruct (N eq_refl) as [[_ ?]|(m & s' & w' & t' & -> & -> & E & B')]; [done|].
      exists (13 + m)%nat. split; [|lia]. apply PaStart, StAsk. by rewrite E.
    + destruct (boots_move _ _ _ _ _ _ _ _ _ _ _ _ eq_refl B H) as [([s m] & -> & [= -> ->])|[[?|?] _]]; [|done..].
      destruct (sendmsg_move _ _ _ _ _ _ _ H) as [?|[_ ->]]; [done|]. unfold nl_asked.
      destruct (Z.ltb_spec (Z.of_nat (length (query_datagram mypid))) 0); [lia|].
      exists 12%nat. split; [apply PaStart, StAsked|lia].
  - inversion M as [ch ? ? ? _ H| |m ? ? Hm H| |]; subst; (split; [done|]).
    + apply reading_gets in H; [done|reflexivity].
    + cbn [pmove] in H. destruct (_ <? _)%nat; [|done]. unfold nl_told in H.
      destruct (Z.ltb_spec (Z.of_nat (length (take reply_size m))) 0); [lia|]. apply (inj Some), pair_eq in H as [_ <-].
      exists 11%nat. split; [|lia]. apply PaStart, (StLearn 7). by apply nl_learn_boots.
  - inversion M as [ch ? ? ? _ H| | |n' ? ? H|]; subst; (split; [done|]).
    + destruct (boots_move _ _ _ _ _ _ _ _ _ _ _ _ eq_refl B H) as [(m & -> & -> & E)|[_ N]].
      { by destruct (sendmsg_move _ _ _ _ _ _ _ H) as [?|[? _]]. }
      destruct (N eq_refl) as [[_ ?]|(m & s' & w' & t' & -> & -> & E & B')]; [done|].
      exists (4 + m)%nat. split; [|lia]. apply PaStart, StLearn. by rewrite E.
    + destruct (boots_move _ _ _ _ _ _ _ _ _ _ _ _ eq_refl B H) as [(m & -> & -> & E)|[[?|?] _]]; [|done..].
      destruct (sendmsg_move _ _ _ _ _ _ _ H) as [?|[_ ->]]; [done|].
      exists 3%nat. split; [|lia]. apply PaStart, (StReady 2). unfold booting, nl_ready, nl_enter. rewrite Z.eqb_refl.
      by repeat boot_step.
  - inversion M as [? ? ? ? Hst _| | | |a' ? ? M']; subst; [done|].
    inversion M' as [ch lab ? ? H Hl|? ? ? H|? ? ? ? H|? ? ? ? H|? ? ? H]; subst;
      (destruct (booting_sim _ _ _ _ _ _ _ _ _ _ _ (fun k j => nl_program_at (k, Member) CWait j) 0 eq_refl B H)
         as [[E1 N]|[E1 _]]; [by intros; apply PaMember, NaWait|done
         |intros m' s' w' t' E' B'; apply PaStart, StReady; by rewrite E'|..]); subst; by split.
Qed.

Lemma starting_ready k j : starting k j -> exists k', nl_starts k CQuiet k'.
Proof.
  intros St. destruct St as [n g w t B|g w|n g w t B|n g w t B].
  - destruct (boots_ready tree _ _ (nl_query junk8192 fuel mypid nl_enter) _ _ _ _ eq_refl B)
      as [([s m] & -> & [= -> ->])|(ch & p & H)].
    + eexists. apply (NsAsk (length (query_datagram mypid))). cbn [tbind nl_query pmove]. by rewrite Nat.eqb_refl.
    + eexists. by eapply NsQuiet.
  - destruct (family_reply_exists family Hfamily) as [m Hm]. eexists. eapply (NsReply m); [done|]. cbn [pmove].
    pose proof (family_reply_length _ _ Hm) as [H0 _]. by destruct (Nat.ltb_spec 0 (length m)); [|lia].
  - destruct (boots_ready tree _ _ (nl_join nl_enter sockfd) _ _ _ _ eq_refl B) as [(m & -> & -> & _)|(ch & p & H)].
    + eexists. apply (NsJoin (length (register_datagram family mypid))). cbn [tbind nl_join pmove]. by rewrite Nat.eqb_refl.
    + eexists. by eapply NsQuiet.
  - destruct (booting_ready tree _ _ _ _ _ _ eq_refl B) as (ch & p & H). eexists. eapply NsServe, NmQuiet; [exact H|done].
Qed.

#[export] Instance nl_program_laws : ClientLaws nl_program false nl_program_at.
Proof.
  assert (1024 <= fuel)%nat as Hf by lia.
  pose proof (nl_laws junk4096 fuel sockfd family mypid Hf) as L.
  assert (forall k p j a k', nl_program_at k p j -> nl_starts k a k' ->
    (p = CWait /\ a = CQuiet /\ exists j', nl_program_at k' CWait j' /\ (j' < j)%nat) \/
    (exists k0 k0', k = (k0, Member) /\ k' = (k0', Member) /\ nl_at junk4096 fuel sockfd family mypid k0 p j /\
       nl_moves junk4096 fuel sockfd mypid false k0 a k0')) as Cases.
  { intros k p j a k' [k0 j0 St|k0 p0 j0 D] M.
    - left. by destruct (starting_move _ _ _ _ St M).
    - right. inversion M as [? ? ? ? Hst _| | | |? ? ? M']; subst; [done|]. by do 2 eexists. }
  split; cbn [cl_ok cl_op cl_reply cl_move cl_gone cl_crashed nl_program]; try done.
  - exact (cl_request (ClientLaws := L)).
  - intros k p j k' D M. destruct (Cases _ _ _ _ _ D M) as [(-> & _ & j' & D' & Hj)|(k0 & k1 & -> & -> & D' & M')]; [eauto|].
    destruct (cl_quiet (ClientLaws := L) _ _ _ _ D' M') as (j' & ? & ?). exists j'. split; [by constructor|done].
  - intros k p j q k' D M Hq. destruct (Cases _ _ _ _ _ D M) as [(_ & ? & _)|(k0 & k1 & -> & -> & D' & M')]; [done|].
    destruct (cl_take (ClientLaws := L) _ _ _ _ _ D' M' Hq) as (-> & j' & ? & ?). split; [done|]. exists j'. split; [by constructor|done].
  - intros k p j bs k' D M. destruct (Cases _ _ _ _ _ D M) as [(_ & ? & _)|(k0 & k1 & -> & -> & D' & M')]; [done|].
    destruct (cl_send (ClientLaws := L) _ _ _ _ _ D' M') as (q & out & n & -> & ? & ? & j' & ? & ?).
    exists q, out, n. do 3 (split; [done|]). exists j'. split; [by constructor|done].
  - intros k p j bs k' D M. destruct (Cases _ _ _ _ _ D M) as [(_ & ? & _)|(k0 & k1 & -> & -> & D' & M')]; [done|].
    destruct (cl_recv (ClientLaws := L) _ _ _ _ _ D' M') as (q & acc & -> & ? & j' & ? & ?).
    exists q, acc. do 2 (split; [done|]). exists j'. split; [by constructor|done].
  - intros k p j r k' D M. destruct (Cases _ _ _ _ _ D M) as [(_ & ? & _)|(k0 & k1 & -> & -> & D' & M')]; [done|].
    destruct (cl_give (ClientLaws := L) _ _ _ _ _ D' M') as (q & acc & -> & ? & ? & j' & ? & ?).
    exists q, acc. do 3 (split; [done|]). exists j'. split; [by constructor|done].
  - intros k p j [k0 j0 St|k0 p0 j0 D]; [by destruct St|]. exact (cl_sound (ClientLaws := L) _ _ _ D).
  - intros k p j _ [k0 j0 St|k0 p0 j0 D].
    + left. destruct (starting_ready _ _ St) as [k' M]. by exists CQuiet, k'.
    + destruct (cl_ready (ClientLaws := L) _ _ _ eq_refl D) as [(a & k' & Ha & M)|[[-> M]|(q & acc & -> & Ha & M)]].
      * left. exists a, (k', Member). split; [done|by constructor].
      * right; left. split; [done|]. intros q Hq. destruct (M q Hq) as [k' M']. exists (k', Member). by constructor.
      * right; right. exists q, acc. do 2 (split; [done|]). intros bs Hb. destruct (M bs Hb) as [k' M'].
        exists (k', Member). by constructor.
Qed.

(** At the first line of [main]. *)
Definition nl_program_start (g : nl_state) (w : world) : proc nl_state * standing :=
  (Running g w (nl_main junk8192 fuel sockfd mypid nl_enter), Unknown).

Lemma nl_program_start_at g w : 0 <= sockfd -> nl_program_at (nl_program_start g w) CWait 29.
Proof. intros Hs. apply PaStart, (StAsk 16). by apply nl_ask_boots. Qed.

(** ** Scheduling, with [reply] from the controller *)

Definition nl_program_next (reply : list byte) (td : list nl_request) (dw : list byte) (k : proc nl_state * standing) :
    option (cact nl_request (list byte) * (proc nl_state * standing)) :=
  match k with
  | (k, Member) =>
      match nl_next junk4096 fuel sockfd mypid td dw k with
      | Some (a, k') => Some (a, (k', Member))
      | None => None
      end
  | (k, st) =>
      match answer [1; mypid; sockfd] k with
      | Some ch =>
          match pmove tree k ch, ch, st with
          | Some (Tau, k'), _, _ => Some (CQuiet, (k', st))
          | Some (OutMsg m, k'), Accept _, Unknown =>
              if decide (m = query_datagram mypid) then Some (CQuiet, (k', Asked)) else None
          | Some (OutMsg m, k'), Accept _, Told =>
              if decide (m = register_datagram family mypid) then Some (CQuiet, (k', Member)) else None
          | _, _, _ => None
          end
      | None =>
          match pmove tree k (Deliver reply), st with
          | Some (InMsg _, k'), Asked => Some (CQuiet, (k', Told))
          | _, _ => None
          end
      end
  end.

Definition nl_program_idle (k : proc nl_state * standing) : bool := bool_decide (k.2 = Member) && reading k.1.

Lemma nl_program_runs reply : family_reply family reply -> ClientRuns nl_program (nl_program_next reply).
Proof.
  intros Hr td dw [k st] a k'. unfold nl_program_next. cbn [cl_move nl_program].
  assert (forall ch lab k1, st <> Member -> pmove tree k ch = Some (lab, k1) ->
    (lab = Tau -> nl_starts (k, st) CQuiet (k1, st)) /\
    (forall n m, ch = Accept n -> lab = OutMsg m -> st = Unknown -> m = query_datagram mypid -> nl_starts (k, st) CQuiet (k1, Asked)) /\
    (forall n m, ch = Accept n -> lab = OutMsg m -> st = Told -> m = register_datagram family mypid -> nl_starts (k, st) CQuiet (k1, Member)) /\
    (forall m, ch = Deliver reply -> lab = InMsg m -> st = Asked -> nl_starts (k, st) CQuiet (k1, Told))) as Moves.
  { intros ch lab k1 Hst H. split; [intros ->; by eapply NsQuiet|]. split; [intros n m -> -> -> ->; by eapply NsAsk|].
    split; [intros n m -> -> -> ->; by eapply NsJoin|]. intros m -> -> ->.
    pose proof (datagram_label _ _ _ _ _ _ _ _ H) as ->. by eapply NsReply. }
  destruct (decide (st = Member)) as [->|Hst].
  - destruct (nl_next _ _ _ _ td dw k) as [[a1 k1]|] eqn:E; [|done]. intros H. made H.
    destruct (nl_runs junk4096 fuel sockfd family mypid false _ _ _ _ _ E) as [M N]. split; [by apply NsServe|exact N].
  - intros H.
    assert (a = CQuiet /\ nl_starts (k, st) CQuiet k') as [-> M]; [|by split].
    destruct (answer _ k) as [ch|].
    + destruct (pmove tree k ch) as [[lab k1]|] eqn:E; [|by destruct st].
      destruct (Moves _ _ _ Hst E) as (M1 & M2 & M3 & _).
      destruct st; try done; destruct lab; try done; first [made H; split; [done|by apply M1]|idtac];
        destruct ch; try done; case_decide; try done; made H; (split; [done|]); eauto.
    + destruct (pmove tree k (Deliver reply)) as [[lab k1]|] eqn:E; [|by destruct st].
      destruct (Moves _ _ _ Hst E) as (_ & _ & _ & M4).
      destruct st; try done; destruct lab; try done; made H; (split; [done|]); eauto.
Qed.

#[export] Instance nl_program_rests : ClientRests nl_program nl_program_idle.
Proof.
  intros [k st] a k' Hk M. apply andb_prop in Hk as [Hst%bool_decide_eq_true Hk]. cbn in Hst, Hk. subst.
  inversion M as [? ? ? ? Hst _| | | |? ? ? M']; subst; [done|].
  exact (nl_rests junk4096 fuel sockfd family mypid _ _ _ Hk M').
Qed.
End moves.
