(* ===== verification/NlFaults.v ===== *)
(** * daemon-doe-netlink.c when calls fail

    The netlink daemon does not look at most of its results: a failed or short [send] or
    [recv] on the connection goes unnoticed, and the kernel gets a response all the same.
    This file shows what is left: whatever fails, in the loop the daemon has no undefined
    behaviour, and with any server of Link.v it responds at most once to a request, in the
    order of the requests, under the sequence number of the request and with 16 bytes. *)
From S2P Require Import Prelude Bytes CMonad Log Wire ByteIO IoTree RelayCode Link Netlink NetlinkSpec NlClient.

Section daemon.
Variables (junk4096 : list byte) (fuel : nat) (sockfd family mypid : Z).

#[local] Abbreviation tree := (nl_tree junk4096 fuel sockfd mypid).
#[local] Abbreviation busy := (serving family).

(** The daemon in its loop, and the request it has taken and not responded to. *)
Inductive nl_any : proc nl_state -> option nl_request -> Prop :=
| NyTop g w : family_id g = family -> nl_any (Running g w (Ret true)) None
| NyWait g w : family_id g = family -> nl_any (Running g w tree) None
| NyNone g w c : family_id g = family -> c <= 0 -> nl_any (Running g w (nl_got junk4096 fuel sockfd mypid (c, []))) None
| NyGot g w q : family_id g = family -> nl_request_ok q ->
    nl_any (Running g w (nl_got junk4096 fuel sockfd mypid (Z.of_nat (length (take 4096 (nq_msg q))), take 4096 (nq_msg q)))) (Some q)
| NyParsed w q m : length m = 16%nat -> nl_any (Running (busy q m) w (nl_parsed sockfd mypid 0)) (Some q)
| NySend w q m m' : length m = 16%nat -> nl_any (Running (busy q m) w (nl_send sockfd mypid m')) (Some q)
| NySent w q m : length m = 16%nat -> nl_any (Running (busy q m) w (nl_sent sockfd mypid)) (Some q)
| NyAnswered w q m n bs : length m = 16%nat -> (length bs <= 16)%nat ->
    nl_any (Running (busy q m) w (nl_answered mypid (n, bs))) (Some q)
| NyRespond w q m : length m = 16%nat -> nl_any (Running (busy q m) w (nl_respond mypid (busy q m))) (Some q)
| NyPid w q m : length m = 16%nat -> nl_any (Running (busy q m) w (nl_pid (busy q m) mypid)) (Some q)
| NyReply w q m : length m = 16%nat ->
    nl_any (Running (busy q m) w (nl_reply (response_datagram family mypid (nq_seq q) m))) (Some q).

Hypothesis Hfuel : (1024 <= fuel)%nat.

(** What a move means for the request. *)
Definition nl_any_after (o : option nl_request) (lab : label) (k' : proc nl_state) : Prop :=
  match lab with
  | Tau | In _ _ | Out _ _ => nl_any k' o
  | Fail => nl_any k' o \/ nl_any k' None
  | InMsg m => o = None /\ forall q, nl_request_ok q -> nq_msg q = m -> nl_any k' (Some q)
  | OutMsg m => exists q bs, o = Some q /\ length bs = 16%nat /\ m = response_datagram family mypid (nq_seq q) bs /\
      nl_any k' None
  end.

Ltac made H := apply (inj Some), pair_eq in H as [<- <-].

Lemma nl_any_move k o ch lab k' : nl_any k o -> pmove tree k ch = Some (lab, k') -> nl_any_after o lab k'.
Proof.
  intros D H.
  destruct D as [g w Hg|g w Hg|g w c Hg Hc|g w q Hg Hq|w q m Hm|w q m m' Hm|w q m Hm|w q m n bs Hm Hb|w q m Hm|w q m Hm|w q m Hm].
  - destruct ch; try done. made H. by constructor.
  - unfold nl_tree in H. destruct ch as [|c|m|]; try done; cbn [pmove] in H.
    + destruct (Z.leb_spec c 0); [|done]. made H. left. by constructor.
    + destruct (_ <? _)%nat; [|done]. made H. split; [done|]. intros q Hq <-. by constructor.
  - destruct ch; try done. unfold nl_got in H. cbn [pmove] in H. destruct (Z.leb_spec c 0); [|lia].
    cbn -[nl_parsed] in H. made H. by constructor.
  - destruct ch; try done. unfold nl_got in H. cbn [pmove] in H.
    pose proof (request_datagram_length _ _ _ _ Hq) as [H0 Hl]. rewrite (take_ge (nq_msg q)) in H by exact Hl.
    destruct (Z.leb_spec (Z.of_nat (length (nq_msg q))) 0) as [|_]; [lia|]. unfold received in H.
    rewrite (request_datagram_parsed _ Hfuel _ _ _ _ _ _ _ Hq), Hg in H. made H.
    apply NyParsed. by apply op_bytes_length, (request_datagram_op _ _ _ _ Hq).
  - destruct ch; try done. cbn -[of_bytes to_bytes nl_send] in H. made H. by constructor.
  - unfold nl_send in H. destruct ch as [|c| |n]; try done; cbn [pmove] in H.
    + destruct (c <? 0); [|done]. made H. left. by constructor.
    + destruct (_ && _)%nat; [|done]. made H. by constructor.
  - unfold nl_sent in H. destruct ch as [|c|bs|]; try done; cbn [pmove] in H.
    + destruct (c <=? 0); [|done]. made H. left. constructor; [done|cbn; lia].
    + destruct (_ && _)%nat eqn:E; [|done]. apply andb_prop in E as [_ E%Nat.leb_le]. made H. by constructor.
  - destruct ch; try done. cbn -[of_bytes splice nl_respond] in H. made H.
    apply NyRespond. by rewrite length_splice by (cbn; lia).
  - destruct ch as [|c| |]; try done. cbn [pmove nl_respond] in H. unfold exactly in H.
    destruct (Z.eqb_spec c mypid) as [->|_]; [|done]. made H. by constructor.
  - destruct ch; try done. unfold nl_pid in H. cbn [pmove serving family_id seq op_mem] in H.
    rewrite response_msg_encode in H by done. cbn -[encode_msg nl_reply] in H. made H. by apply NyReply.
  - unfold nl_reply in H. destruct ch as [|c| |n]; try done; cbn [pmove] in H.
    + destruct (c <? 0); [|done]. made H. right. by constructor.
    + destruct (_ =? _)%nat; [|done]. made H. exists q, m. do 3 (split; [done|]). by constructor.
Qed.

(** ** With any server *)

Context {S D : Type} (v : server S D) {work : nat} {at_ : S -> D -> list byte -> list byte -> nat -> Prop} {any : S -> Prop}.
Context {HS : ServerLaws v true work at_ any}.
Variable qs : list nl_request.

#[local] Abbreviation cl := (nl_client junk4096 fuel sockfd family mypid true).

(** Responses to some of the requests, in their order. *)
Definition responses_to (l : list (nl_request * list byte)) : list (list byte) :=
  map (fun r => response_datagram family mypid (nq_seq r.1) r.2) l.

Definition responded (done : list (list byte)) : Prop :=
  exists l, done = responses_to l /\ Forall (fun r => length r.2 = 16%nat) l /\ map fst l `sublist_of` qs.

Definition ninv (x : link (proc nl_state) S nl_request (list byte)) : Prop :=
  exists o l, nl_any (l_client x) o /\ any (l_server x) /\ Forall nl_request_ok (l_todo x) /\
    l_done x = responses_to l /\ Forall (fun r => length r.2 = 16%nat) l /\
    (map fst l ++ option_list o ++ l_todo x) `sublist_of` qs.

Lemma ninv_step x x' : ninv x -> lstep cl v x x' -> ninv x'.
Proof.
  intros (o & l & A & Hs & Hq & Hd & Hl & Hsub) St.
  lcases St; cbn [l_client l_server l_todo l_done] in *; cbn [cl_move nl_client] in M.
  - inversion M as [ch lab ? ? H Hlab| | | |]; subst. pose proof (nl_any_move _ _ _ _ _ A H) as N.
    destruct lab; try done; [by exists o, l|]. destruct N as [N|N]; [by exists o, l|]. exists None, l.
    do 5 (split; [done|]). etrans; [|exact Hsub]. apply sublist_app; [done|]. by apply sublist_inserts_l.
  - inversion M as [|? ? ? H| | |]; subst. apply Forall_cons_1 in Hq as [Hq Hqs].
    destruct (nl_any_move _ _ _ _ _ A H) as [-> N]. exists (Some q'), l. split; [by apply N|]. done.
  - inversion M as [| |? ? ? ? H| |]; subst. destruct (nl_any_move _ _ _ _ _ A H) as (q & bs & -> & Hb & -> & N).
    exists None, (l ++ [(q, bs)]). do 3 (split; [done|]). split; [by unfold responses_to; rewrite map_app|].
    split; [by apply Forall_app_2; [|constructor]|]. rewrite map_app, <- app_assoc. exact Hsub.
  - inversion M as [| | |? ? ? ? H _|]; subst. exists o, l. split; [exact (nl_any_move _ _ _ _ _ A H)|done].
  - inversion M as [| | | |? ? ? H _]; subst. exists o, l. split; [exact (nl_any_move _ _ _ _ _ A H)|done].
  - exists o, l. split; [done|]. split; [by eapply sv_any|done].
  - exists o, l. split; [done|]. split; [by eapply sv_any|done].
  - exists o, l. split; [done|]. split; [by eapply sv_any|done].
Qed.

Lemma ninv_runs n x x' : ninv x -> nsteps (lstep cl v) n x x' -> ninv x'.
Proof. intros I Hn. revert I. induction Hn; eauto using ninv_step. Qed.

(** At the top of the loop, registered under [family]. *)
Definition nl_top (port sq : Z) (mem : list byte) (w : world) : proc nl_state := Running (NlState family port sq mem) w tree.

Lemma nl_faults_safe port sq mem w s n x :
  Forall nl_request_ok qs -> any s -> nsteps (lstep cl v) n (link_init qs (nl_top port sq mem w) s) x ->
  l_client x <> Crashed /\ ~ sv_crashed v (l_server x) /\ responded (l_done x).
Proof.
  intros Hq Hs Hn. assert (ninv (link_init qs (nl_top port sq mem w) s)) as I.
  { exists None, []. split; [by apply NyWait|]. do 2 (split; [done|]). by split. }
  destruct (ninv_runs n _ x I Hn) as (o & l & A & Hs' & _ & Hd & Hl & Hsub).
  split; [intros E; rewrite E in A; by inversion A|]. split; [by apply sv_sound|]. exists l. do 2 (split; [done|]).
  etrans; [|exact Hsub]. by apply sublist_inserts_r.
Qed.
End daemon.
