(* ===== verification/NlHeaders.v ===== *)
(** * The socket headers: include/linux/netlink.h, genetlink.h, asm-generic/socket.h

    The constants, enumerations, structures and message macros of the three headers
    that the daemons take their sockets and messages from. Netlink.v names the few
    that daemon-doe-netlink.c uses; here they are checked against the headers, and
    the macros that walk a run of messages are shown to stay inside it. *)
From S2P Require Import Prelude Bytes CMonad Wire ByteIO Netlink NetlinkSpec.

#[local] Open Scope string_scope.
#[local] Open Scope Z_scope.

(** ** C enumerations: each name is one more than the name before it *)

Fixpoint enum_from (k : Z) (names : list string) : list (string * Z) :=
  match names with
  | [] => []
  | n :: names => (n, k) :: enum_from (k + 1) names
  end.

Fixpoint value_of (n : string) (l : list (string * Z)) : option Z :=
  match l with
  | [] => None
  | (m, v) :: l => if decide (n = m) then Some v else value_of n l
  end.

(** [NAME_MAX = __NAME_MAX - 1]. *)
Definition with_max (n count : string) (l : list (string * Z)) : list (string * Z) :=
  l ++ [(n, default 0 (value_of count l) - 1)].

(** ** netlink.h and genetlink.h: constants *)

(** The netlink protocols. *)
Definition netlink_families : list (string * Z) :=
  [("NETLINK_ROUTE", 0); ("NETLINK_UNUSED", 1); ("NETLINK_USERSOCK", 2); ("NETLINK_FIREWALL", 3);
   ("NETLINK_SOCK_DIAG", 4); ("NETLINK_NFLOG", 5); ("NETLINK_XFRM", 6); ("NETLINK_SELINUX", 7);
   ("NETLINK_ISCSI", 8); ("NETLINK_AUDIT", 9); ("NETLINK_FIB_LOOKUP", 10); ("NETLINK_CONNECTOR", 11);
   ("NETLINK_NETFILTER", 12); ("NETLINK_IP6_FW", 13); ("NETLINK_DNRTMSG", 14);
   ("NETLINK_KOBJECT_UEVENT", 15); ("NETLINK_GENERIC", 16); ("NETLINK_SCSITRANSPORT", 18);
   ("NETLINK_ECRYPTFS", 19); ("NETLINK_RDMA", 20); ("NETLINK_CRYPTO", 21); ("NETLINK_SMC", 22);
   ("NETLINK_INET_DIAG", 4); ("MAX_LINKS", 32)].

(** Flags of a message header. *)
Definition netlink_flags : list (string * Z) :=
  [("NLM_F_REQUEST", 0x01); ("NLM_F_MULTI", 0x02); ("NLM_F_ACK", 0x04); ("NLM_F_ECHO", 0x08);
   ("NLM_F_DUMP_INTR", 0x10); ("NLM_F_DUMP_FILTERED", 0x20); ("NLM_F_ROOT", 0x100); ("NLM_F_MATCH", 0x200);
   ("NLM_F_ATOMIC", 0x400); ("NLM_F_DUMP", 0x300); ("NLM_F_REPLACE", 0x100); ("NLM_F_EXCL", 0x200);
   ("NLM_F_CREATE", 0x400); ("NLM_F_APPEND", 0x800); ("NLM_F_NONREC", 0x100); ("NLM_F_BULK", 0x200);
   ("NLM_F_CAPPED", 0x100); ("NLM_F_ACK_TLVS", 0x200)].

(** Control messages. *)
Definition netlink_control : list (string * Z) :=
  [("NLMSG_NOOP", 0x1); ("NLMSG_ERROR", 0x2); ("NLMSG_DONE", 0x3); ("NLMSG_OVERRUN", 0x4);
   ("NLMSG_MIN_TYPE", 0x10)].

(** Socket options. *)
Definition netlink_sockopts : list (string * Z) :=
  [("NETLINK_ADD_MEMBERSHIP", 1); ("NETLINK_DROP_MEMBERSHIP", 2); ("NETLINK_PKTINFO", 3);
   ("NETLINK_BROADCAST_ERROR", 4); ("NETLINK_NO_ENOBUFS", 5); ("NETLINK_RX_RING", 6);
   ("NETLINK_TX_RING", 7); ("NETLINK_LISTEN_ALL_NSID", 8); ("NETLINK_LIST_MEMBERSHIPS", 9);
   ("NETLINK_CAP_ACK", 10); ("NETLINK_EXT_ACK", 11); ("NETLINK_GET_STRICT_CHK", 12)].

(** [enum nlmsgerr_attrs]; the last name is given one less than the count. *)
Definition nlmsgerr_attrs : list (string * Z) :=
  with_max "NLMSGERR_ATTR_MAX" "__NLMSGERR_ATTR_MAX" (enum_from 0
    ["NLMSGERR_ATTR_UNUSED"; "NLMSGERR_ATTR_MSG"; "NLMSGERR_ATTR_OFFS";
     "NLMSGERR_ATTR_COOKIE"; "NLMSGERR_ATTR_POLICY"; "NLMSGERR_ATTR_MISS_TYPE";
     "NLMSGERR_ATTR_MISS_NEST"; "__NLMSGERR_ATTR_MAX"]).

(** [enum nl_mmap_status]. *)
Definition nl_mmap_status : list (string * Z) :=
  enum_from 0
    ["NL_MMAP_STATUS_UNUSED"; "NL_MMAP_STATUS_RESERVED"; "NL_MMAP_STATUS_VALID";
     "NL_MMAP_STATUS_COPY"; "NL_MMAP_STATUS_SKIP"].

(** Connection states. *)
Definition netlink_states : list (string * Z) :=
  enum_from 0
    ["NETLINK_UNCONNECTED"; "NETLINK_CONNECTED"].

(** [enum netlink_attribute_type]. *)
Definition netlink_attribute_type : list (string * Z) :=
  enum_from 0
    ["NL_ATTR_TYPE_INVALID"; "NL_ATTR_TYPE_FLAG"; "NL_ATTR_TYPE_U8"; "NL_ATTR_TYPE_U16";
     "NL_ATTR_TYPE_U32"; "NL_ATTR_TYPE_U64"; "NL_ATTR_TYPE_S8"; "NL_ATTR_TYPE_S16";
     "NL_ATTR_TYPE_S32"; "NL_ATTR_TYPE_S64"; "NL_ATTR_TYPE_BINARY"; "NL_ATTR_TYPE_STRING";
     "NL_ATTR_TYPE_NUL_STRING"; "NL_ATTR_TYPE_NESTED"; "NL_ATTR_TYPE_NESTED_ARRAY";
     "NL_ATTR_TYPE_BITFIELD32"].

(** [enum netlink_policy_type_attr]. *)
Definition netlink_policy_type_attr : list (string * Z) :=
  with_max "NL_POLICY_TYPE_ATTR_MAX" "__NL_POLICY_TYPE_ATTR_MAX" (enum_from 0
    ["NL_POLICY_TYPE_ATTR_UNSPEC"; "NL_POLICY_TYPE_ATTR_TYPE";
     "NL_POLICY_TYPE_ATTR_MIN_VALUE_S"; "NL_POLICY_TYPE_ATTR_MAX_VALUE_S";
     "NL_POLICY_TYPE_ATTR_MIN_VALUE_U"; "NL_POLICY_TYPE_ATTR_MAX_VALUE_U";
     "NL_POLICY_TYPE_ATTR_MIN_LENGTH"; "NL_POLICY_TYPE_ATTR_MAX_LENGTH";
     "NL_POLICY_TYPE_ATTR_POLICY_IDX"; "NL_POLICY_TYPE_ATTR_POLICY_MAXTYPE";
     "NL_POLICY_TYPE_ATTR_BITFIELD32_MASK"; "NL_POLICY_TYPE_ATTR_PAD";
     "NL_POLICY_TYPE_ATTR_MASK"; "__NL_POLICY_TYPE_ATTR_MAX"]).

(** Generic netlink: sizes, identifiers and permissions. *)
Definition genl_flags : list (string * Z) :=
  [("GENL_NAMSIZ", 16); ("GENL_MIN_ID", 0x10); ("GENL_MAX_ID", 1023); ("GENL_ADMIN_PERM", 0x01);
   ("GENL_CMD_CAP_DO", 0x02); ("GENL_CMD_CAP_DUMP", 0x04); ("GENL_CMD_CAP_HASPOL", 0x08);
   ("GENL_UNS_ADMIN_PERM", 0x10); ("GENL_ID_CTRL", 0x10); ("GENL_ID_VFS_DQUOT", 0x10 + 1);
   ("GENL_ID_PMCRAID", 0x10 + 2); ("GENL_START_ALLOC", 0x10 + 3)].

(** Commands of the controller. *)
Definition ctrl_cmds : list (string * Z) :=
  with_max "CTRL_CMD_MAX" "__CTRL_CMD_MAX" (enum_from 0
    ["CTRL_CMD_UNSPEC"; "CTRL_CMD_NEWFAMILY"; "CTRL_CMD_DELFAMILY"; "CTRL_CMD_GETFAMILY";
     "CTRL_CMD_NEWOPS"; "CTRL_CMD_DELOPS"; "CTRL_CMD_GETOPS"; "CTRL_CMD_NEWMCAST_GRP";
     "CTRL_CMD_DELMCAST_GRP"; "CTRL_CMD_GETMCAST_GRP"; "CTRL_CMD_GETPOLICY";
     "__CTRL_CMD_MAX"]).

(** Attributes of the controller. *)
Definition ctrl_attrs : list (string * Z) :=
  with_max "CTRL_ATTR_MAX" "__CTRL_ATTR_MAX" (enum_from 0
    ["CTRL_ATTR_UNSPEC"; "CTRL_ATTR_FAMILY_ID"; "CTRL_ATTR_FAMILY_NAME";
     "CTRL_ATTR_VERSION"; "CTRL_ATTR_HDRSIZE"; "CTRL_ATTR_MAXATTR"; "CTRL_ATTR_OPS";
     "CTRL_ATTR_MCAST_GROUPS"; "CTRL_ATTR_POLICY"; "CTRL_ATTR_OP_POLICY"; "CTRL_ATTR_OP";
     "__CTRL_ATTR_MAX"]).

(** Attributes of an operation. *)
Definition ctrl_attr_ops : list (string * Z) :=
  with_max "CTRL_ATTR_OP_MAX" "__CTRL_ATTR_OP_MAX" (enum_from 0
    ["CTRL_ATTR_OP_UNSPEC"; "CTRL_ATTR_OP_ID"; "CTRL_ATTR_OP_FLAGS"; "__CTRL_ATTR_OP_MAX"]).

(** Attributes of a multicast group. *)
Definition ctrl_attr_mcast : list (string * Z) :=
  with_max "CTRL_ATTR_MCAST_GRP_MAX" "__CTRL_ATTR_MCAST_GRP_MAX" (enum_from 0
    ["CTRL_ATTR_MCAST_GRP_UNSPEC"; "CTRL_ATTR_MCAST_GRP_NAME"; "CTRL_ATTR_MCAST_GRP_ID";
     "__CTRL_ATTR_MCAST_GRP_MAX"]).

(** Attributes of a policy. *)
Definition ctrl_attr_policy : list (string * Z) :=
  with_max "CTRL_ATTR_POLICY_MAX" "__CTRL_ATTR_POLICY_DUMP_MAX" (with_max "CTRL_ATTR_POLICY_DUMP_MAX" "__CTRL_ATTR_POLICY_DUMP_MAX" (enum_from 0
    ["CTRL_ATTR_POLICY_UNSPEC"; "CTRL_ATTR_POLICY_DO"; "CTRL_ATTR_POLICY_DUMP";
     "__CTRL_ATTR_POLICY_DUMP_MAX"])).

(** ** Structures *)

Definition sockaddr_nl_fields : list field :=
  [Field "nl_family" 2 1; Field "nl_pad" 2 1; Field "nl_pid" 4 1; Field "nl_groups" 4 1].
Definition nlmsgerr_fields : list field :=
  Field "error" 4 1 :: nlmsghdr_fields.
Definition nl_pktinfo_fields : list field := [Field "group" 4 1].
Definition nl_mmap_req_fields : list field :=
  fields_of 4 ["nm_block_size"; "nm_block_nr"; "nm_frame_size"; "nm_frame_nr"].
Definition nl_mmap_hdr_fields : list field :=
  fields_of 4 ["nm_status"; "nm_len"; "nm_group"; "nm_pid"; "nm_uid"; "nm_gid"].
Definition nla_bitfield32_fields : list field := fields_of 4 ["value"; "selector"].

(** ** Message macros

    [nlmsg_len] is a [__u32] and [len] an [int]. *)

Definition sizeof_nlmsghdr : Z := Z.of_nat (snd (layout false nlmsghdr_fields)).

Definition to_int (z : Z) : Z := (z + 2 ^ 31) mod 2 ^ 32 - 2 ^ 31.

Definition NLMSG_SPACE (len : Z) : Z := NLMSG_ALIGN (NLMSG_LENGTH len).

(** [NLMSG_DATA(nlh)]: the offset of the payload of the message at offset [nlh]. *)
Definition NLMSG_DATA (nlh : Z) : Z := nlh + NLMSG_HDRLEN.

Definition NLMSG_OK (nlmsg_len len : Z) : bool :=
  (sizeof_nlmsghdr <=? len) && (sizeof_nlmsghdr <=? nlmsg_len) && (nlmsg_len <=? wrap32 len).

(** [NLMSG_NEXT(nlh, len)]: the offset of the next message and the new [len]. *)
Definition NLMSG_NEXT (nlh nlmsg_len len : Z) : Z * Z :=
  (nlh + wrap32 (NLMSG_ALIGN nlmsg_len), to_int (len - wrap32 (NLMSG_ALIGN nlmsg_len))).

Definition NLMSG_PAYLOAD (nlmsg_len len : Z) : Z := wrap32 (nlmsg_len - NLMSG_SPACE len).

Definition NL_MMAP_MSG_ALIGNMENT : Z := NLMSG_ALIGNTO.
Definition NL_MMAP_MSG_ALIGN (sz : Z) : Z :=
  Z.land (sz + (NL_MMAP_MSG_ALIGNMENT - 1)) (Z.lnot (NL_MMAP_MSG_ALIGNMENT - 1)).
Definition NL_MMAP_HDRLEN : Z := NL_MMAP_MSG_ALIGN (Z.of_nat (snd (layout false nl_mmap_hdr_fields))).
Definition NET_MAJOR : Z := 36.

Definition NLA_F_NESTED : Z := Z.shiftl 1 15.
Definition NLA_F_NET_BYTEORDER : Z := Z.shiftl 1 14.
Definition NLA_TYPE_MASK : Z := Z.lnot (Z.lor NLA_F_NESTED NLA_F_NET_BYTEORDER).

(** ** asm-generic/socket.h *)

(** [setsockopt] levels and options, as a 64-bit build sees them. *)
Definition socket_options : list (string * Z) :=
  [("SOL_SOCKET", 1); ("SO_DEBUG", 1); ("SO_REUSEADDR", 2); ("SO_TYPE", 3); ("SO_ERROR", 4);
   ("SO_DONTROUTE", 5); ("SO_BROADCAST", 6); ("SO_SNDBUF", 7); ("SO_RCVBUF", 8); ("SO_SNDBUFFORCE", 32);
   ("SO_RCVBUFFORCE", 33); ("SO_KEEPALIVE", 9); ("SO_OOBINLINE", 10); ("SO_NO_CHECK", 11);
   ("SO_PRIORITY", 12); ("SO_LINGER", 13); ("SO_BSDCOMPAT", 14); ("SO_REUSEPORT", 15); ("SO_PASSCRED", 16);
   ("SO_PEERCRED", 17); ("SO_RCVLOWAT", 18); ("SO_SNDLOWAT", 19); ("SO_RCVTIMEO_OLD", 20);
   ("SO_SNDTIMEO_OLD", 21); ("SO_SECURITY_AUTHENTICATION", 22); ("SO_SECURITY_ENCRYPTION_TRANSPORT", 23);
   ("SO_SECURITY_ENCRYPTION_NETWORK", 24); ("SO_BINDTODEVICE", 25); ("SO_ATTACH_FILTER", 26);
   ("SO_DETACH_FILTER", 27); ("SO_GET_FILTER", 26); ("SO_PEERNAME", 28); ("SO_ACCEPTCONN", 30);
   ("SO_PEERSEC", 31); ("SO_PASSSEC", 34); ("SO_MARK", 36); ("SO_PROTOCOL", 38); ("SO_DOMAIN", 39);
   ("SO_RXQ_OVFL", 40); ("SO_WIFI_STATUS", 41); ("SCM_WIFI_STATUS", 41); ("SO_PEEK_OFF", 42);
   ("SO_NOFCS", 43); ("SO_LOCK_FILTER", 44); ("SO_SELECT_ERR_QUEUE", 45); ("SO_BUSY_POLL", 46);
   ("SO_MAX_PACING_RATE", 47); ("SO_BPF_EXTENSIONS", 48); ("SO_INCOMING_CPU", 49); ("SO_ATTACH_BPF", 50);
   ("SO_DETACH_BPF", 27); ("SO_ATTACH_REUSEPORT_CBPF", 51); ("SO_ATTACH_REUSEPORT_EBPF", 52);
   ("SO_CNX_ADVICE", 53); ("SCM_TIMESTAMPING_OPT_STATS", 54); ("SO_MEMINFO", 55);
   ("SO_INCOMING_NAPI_ID", 56); ("SO_COOKIE", 57); ("SCM_TIMESTAMPING_PKTINFO", 58); ("SO_PEERGROUPS", 59);
   ("SO_ZEROCOPY", 60); ("SO_TXTIME", 61); ("SCM_TXTIME", 61); ("SO_BINDTOIFINDEX", 62);
   ("SO_TIMESTAMP_OLD", 29); ("SO_TIMESTAMPNS_OLD", 35); ("SO_TIMESTAMPING_OLD", 37);
   ("SO_TIMESTAMP_NEW", 63); ("SO_TIMESTAMPNS_NEW", 64); ("SO_TIMESTAMPING_NEW", 65);
   ("SO_RCVTIMEO_NEW", 66); ("SO_SNDTIMEO_NEW", 67); ("SO_DETACH_REUSEPORT_BPF", 68);
   ("SO_PREFER_BUSY_POLL", 69); ("SO_BUSY_POLL_BUDGET", 70); ("SO_NETNS_COOKIE", 71); ("SO_BUF_LOCK", 72);
   ("SO_RESERVE_MEM", 73); ("SO_TXREHASH", 74); ("SO_RCVMARK", 75); ("SO_PASSPIDFD", 76);
   ("SO_PEERPIDFD", 77); ("SO_TIMESTAMP", 29); ("SO_TIMESTAMPNS", 35); ("SO_TIMESTAMPING", 37);
   ("SO_RCVTIMEO", 20); ("SO_SNDTIMEO", 21); ("SCM_TIMESTAMP", 29); ("SCM_TIMESTAMPNS", 35);
   ("SCM_TIMESTAMPING", 37)].

(** ** The headers and the daemon agree *)

Lemma netlink_names_agree :
  value_of "NLM_F_REQUEST" netlink_flags = Some NLM_F_REQUEST /\
  value_of "GENL_ID_CTRL" genl_flags = Some GENL_ID_CTRL /\
  value_of "CTRL_CMD_GETFAMILY" ctrl_cmds = Some CTRL_CMD_GETFAMILY /\
  value_of "CTRL_ATTR_FAMILY_ID" ctrl_attrs = Some CTRL_ATTR_FAMILY_ID /\
  value_of "CTRL_ATTR_FAMILY_NAME" ctrl_attrs = Some CTRL_ATTR_FAMILY_NAME.
Proof. repeat split. Qed.

(** ** Enumerations *)

Lemma value_of_enum k names i n :
  NoDup names -> names !! i = Some n -> value_of n (enum_from k names) = Some (k + Z.of_nat i).
Proof.
  intros Hd. revert k i. induction Hd as [|m names Hm _ IH]; intros k i H; [done|].
  cbn [enum_from value_of]. destruct i as [|i].
  - injection H as ->. rewrite decide_True by done. f_equal. lia.
  - cbn in H. rewrite decide_False by (intros ->; by apply Hm, (list_elem_of_lookup_2 _ i)).
    rewrite (IH _ i) by done. f_equal. lia.
Qed.

(** ** Walking a run of messages *)

(** After [NLMSG_OK], [NLMSG_NEXT] moves past the message and its padding: the offset
    and the count keep adding up to the end of the run, the count drops by at least a
    header, cannot fall below the padding of a last message, and the next header is
    aligned if this one was. *)
Lemma nlmsg_next_in_run nlh nlmsg_len len :
  u32 nlmsg_len -> s32 len -> NLMSG_OK nlmsg_len len = true ->
  fst (NLMSG_NEXT nlh nlmsg_len len) + snd (NLMSG_NEXT nlh nlmsg_len len) = nlh + len /\
  -3 <= snd (NLMSG_NEXT nlh nlmsg_len len) <= len - 16 /\
  (nlh mod 4 = 0 -> fst (NLMSG_NEXT nlh nlmsg_len len) mod 4 = 0).
Proof.
  unfold u32, s32, NLMSG_OK, NLMSG_NEXT, to_int, wrap32. change sizeof_nlmsghdr with 16. intros Hn Hl H.
  apply andb_prop in H as [[H1%Z.leb_le H2%Z.leb_le]%andb_prop H3%Z.leb_le].
  rewrite Z.mod_small in H3 by lia. change (NLMSG_ALIGN nlmsg_len) with (NLA_ALIGN nlmsg_len).
  rewrite NLA_ALIGN_eq. cbn [fst snd].
  assert (nlmsg_len <= (nlmsg_len + 3) / 4 * 4 <= nlmsg_len + 3) as B by (Z.div_mod_to_equations; lia).
  rewrite (Z.mod_small ((nlmsg_len + 3) / 4 * 4)) by lia. rewrite Z.mod_small by lia.
  repeat split; try lia. intros Ha. rewrite Z.add_mod, Ha, Z_mod_mult by lia. done.
Qed.

(** ** Attribute types and their flags *)

Lemma nla_type_split t :
  u16 t -> Z.land t NLA_F_NESTED + Z.land t NLA_F_NET_BYTEORDER + Z.land t NLA_TYPE_MASK = t /\
  0 <= Z.land t NLA_TYPE_MASK < 2 ^ 14.
Proof.
  intros H. unfold u16 in H.
  assert (Z.land t NLA_TYPE_MASK = t mod 2 ^ 14) as ->.
  { rewrite <- Z.land_ones by lia. apply Z.bits_inj'. intros i Hi.
    rewrite !Z.land_spec. destruct (Z.le_gt_cases 16 i).
    - replace (Z.testbit t i) with false; [done|]. symmetry. apply Z.testbit_false; [lia|].
      rewrite Z.div_small; [done|]. split; [lia|]. eapply Z.lt_le_trans; [apply H|].
      apply Z.pow_le_mono_r; lia.
    - apply (f_equal (andb _)). assert (i ∈ seqZ 0 16) as Hin by (apply elem_of_seqZ; lia).
      assert (Forall (fun i => Z.testbit NLA_TYPE_MASK i = Z.testbit (Z.ones 14) i) (seqZ 0 16)) as F
        by (vm_compute; repeat constructor).
      rewrite Forall_forall in F. by apply F, list_elem_of_In. }
  assert (forall k, 0 <= k -> Z.land t (Z.shiftl 1 k) = (t / 2 ^ k) mod 2 * 2 ^ k) as L.
  { intros k Hk. rewrite <- (Z.shiftl_mul_pow2 _ k), <- Z.shiftr_div_pow2 by lia.
    change 2 with (2 ^ 1) at 1. rewrite <- Z.land_ones by lia. change (Z.ones 1) with 1.
    apply Z.bits_inj'. intros i Hi. rewrite Z.land_spec, !Z.shiftl_spec, Z.land_spec by lia.
    destruct (Z.le_gt_cases k i).
    - rewrite Z.shiftr_spec by lia. do 2 f_equal. lia.
    - rewrite !(Z.testbit_neg_r _ (i - k)) by lia. by rewrite andb_false_r. }
  unfold NLA_F_NESTED, NLA_F_NET_BYTEORDER. rewrite !L by lia.
  change (2 ^ 15) with 32768. change (2 ^ 14) with 16384. change (2 ^ 16) with 65536 in H.
  split; [|apply Z.mod_pos_bound; lia]. Z.div_mod_to_equations; lia.
Qed.
