(* ===== verification/SysHeaders.v ===== *)
(** * The system headers: asm-generic/poll.h, fcntl.h, errno-base.h and errno.h

    The events, flags, commands and error numbers with which the programs open their
    devices and pipes, poll them and tell errors apart, as a 64-bit build sees them;
    octal constants are written in hexadecimal. *)
From S2P Require Import Prelude Bytes CMonad Wire ByteIO DaemonDoe Netlink NetlinkSpec NlHeaders.

#[local] Open Scope string_scope.
#[local] Open Scope Z_scope.

(** ** poll.h *)

(** What a descriptor is polled for, and what happened to it. *)
Definition poll_events : list (string * Z) :=
  [("POLLIN", 0x0001); ("POLLPRI", 0x0002); ("POLLOUT", 0x0004); ("POLLERR", 0x0008);
   ("POLLHUP", 0x0010); ("POLLNVAL", 0x0020); ("POLLRDNORM", 0x0040); ("POLLRDBAND", 0x0080);
   ("POLLWRNORM", 0x0100); ("POLLWRBAND", 0x0200); ("POLLMSG", 0x0400);
   ("POLLREMOVE", 0x1000); ("POLLRDHUP", 0x2000); ("POLLFREE", 0x4000);
   ("POLL_BUSY_LOOP", 0x8000)].

Definition pollfd_fields : list field :=
  [Field "fd" 4 1; Field "events" 2 1; Field "revents" 2 1].

(** ** fcntl.h *)

(** Access modes and flags of [open]. *)
Definition open_flags : list (string * Z) :=
  [("O_ACCMODE", 3); ("O_RDONLY", 0); ("O_WRONLY", 1); ("O_RDWR", 2); ("O_CREAT", 0x40);
   ("O_EXCL", 0x80); ("O_NOCTTY", 0x100); ("O_TRUNC", 0x200); ("O_APPEND", 0x400);
   ("O_NONBLOCK", 0x800); ("O_DSYNC", 0x1000); ("FASYNC", 0x2000); ("O_DIRECT", 0x4000);
   ("O_LARGEFILE", 0x8000); ("O_DIRECTORY", 0x10000); ("O_NOFOLLOW", 0x20000);
   ("O_NOATIME", 0x40000); ("O_CLOEXEC", 0x80000); ("__O_SYNC", 0x100000);
   ("O_SYNC", Z.lor 0x100000 0x1000); ("O_PATH", 0x200000); ("__O_TMPFILE", 0x400000);
   ("O_TMPFILE", Z.lor 0x400000 0x10000); ("O_NDELAY", 0x800)].

(** Commands of [fcntl]. *)
Definition fcntl_commands : list (string * Z) :=
  [("F_DUPFD", 0); ("F_GETFD", 1); ("F_SETFD", 2); ("F_GETFL", 3); ("F_SETFL", 4);
   ("F_GETLK", 5); ("F_SETLK", 6); ("F_SETLKW", 7); ("F_SETOWN", 8); ("F_GETOWN", 9);
   ("F_SETSIG", 10); ("F_GETSIG", 11); ("F_SETOWN_EX", 15); ("F_GETOWN_EX", 16);
   ("F_GETOWNER_UIDS", 17); ("F_OFD_GETLK", 36); ("F_OFD_SETLK", 37); ("F_OFD_SETLKW", 38);
   ("F_OWNER_TID", 0); ("F_OWNER_PID", 1); ("F_OWNER_PGRP", 2)].

Definition f_owner_ex_fields : list field := fields_of 4 ["type"; "pid"].

(** Descriptor flags, record locks and [flock]. *)
Definition lock_types : list (string * Z) :=
  [("FD_CLOEXEC", 1); ("F_RDLCK", 0); ("F_WRLCK", 1); ("F_UNLCK", 2); ("F_EXLCK", 4);
   ("F_SHLCK", 8); ("LOCK_SH", 1); ("LOCK_EX", 2); ("LOCK_NB", 4); ("LOCK_UN", 8);
   ("LOCK_MAND", 32); ("LOCK_READ", 64); ("LOCK_WRITE", 128); ("LOCK_RW", 192);
   ("F_LINUX_SPECIFIC_BASE", 1024)].

Definition flock_fields : list field :=
  [Field "l_type" 2 1; Field "l_whence" 2 1; Field "l_start" 8 1; Field "l_len" 8 1; Field "l_pid" 4 1].
Definition flock64_fields : list field :=
  [Field "l_type" 2 1; Field "l_whence" 2 1; Field "l_start" 8 1; Field "l_len" 8 1; Field "l_pid" 4 1].

(** ** errno-base.h and errno.h *)

(** The error numbers of every architecture. *)
Definition errno_base : list (string * Z) :=
  [("EPERM", 1); ("ENOENT", 2); ("ESRCH", 3); ("EINTR", 4); ("EIO", 5); ("ENXIO", 6);
   ("E2BIG", 7); ("ENOEXEC", 8); ("EBADF", 9); ("ECHILD", 10); ("EAGAIN", 11); ("ENOMEM", 12);
   ("EACCES", 13); ("EFAULT", 14); ("ENOTBLK", 15); ("EBUSY", 16); ("EEXIST", 17);
   ("EXDEV", 18); ("ENODEV", 19); ("ENOTDIR", 20); ("EISDIR", 21); ("EINVAL", 22);
   ("ENFILE", 23); ("EMFILE", 24); ("ENOTTY", 25); ("ETXTBSY", 26); ("EFBIG", 27);
   ("ENOSPC", 28); ("ESPIPE", 29); ("EROFS", 30); ("EMLINK", 31); ("EPIPE", 32); ("EDOM", 33);
   ("ERANGE", 34)].

(** The others. *)
Definition errno_more : list (string * Z) :=
  [("EDEADLK", 35); ("ENAMETOOLONG", 36); ("ENOLCK", 37); ("ENOSYS", 38); ("ENOTEMPTY", 39);
   ("ELOOP", 40); ("EWOULDBLOCK", 11); ("ENOMSG", 42); ("EIDRM", 43); ("ECHRNG", 44);
   ("EL2NSYNC", 45); ("EL3HLT", 46); ("EL3RST", 47); ("ELNRNG", 48); ("EUNATCH", 49);
   ("ENOCSI", 50); ("EL2HLT", 51); ("EBADE", 52); ("EBADR", 53); ("EXFULL", 54);
   ("ENOANO", 55); ("EBADRQC", 56); ("EBADSLT", 57); ("EDEADLOCK", 35); ("EBFONT", 59);
   ("ENOSTR", 60); ("ENODATA", 61); ("ETIME", 62); ("ENOSR", 63); ("ENONET", 64);
   ("ENOPKG", 65); ("EREMOTE", 66); ("ENOLINK", 67); ("EADV", 68); ("ESRMNT", 69);
   ("ECOMM", 70); ("EPROTO", 71); ("EMULTIHOP", 72); ("EDOTDOT", 73); ("EBADMSG", 74);
   ("EOVERFLOW", 75); ("ENOTUNIQ", 76); ("EBADFD", 77); ("EREMCHG", 78); ("ELIBACC", 79);
   ("ELIBBAD", 80); ("ELIBSCN", 81); ("ELIBMAX", 82); ("ELIBEXEC", 83); ("EILSEQ", 84);
   ("ERESTART", 85); ("ESTRPIPE", 86); ("EUSERS", 87); ("ENOTSOCK", 88); ("EDESTADDRREQ", 89);
   ("EMSGSIZE", 90); ("EPROTOTYPE", 91); ("ENOPROTOOPT", 92); ("EPROTONOSUPPORT", 93);
   ("ESOCKTNOSUPPORT", 94); ("EOPNOTSUPP", 95); ("EPFNOSUPPORT", 96); ("EAFNOSUPPORT", 97);
   ("EADDRINUSE", 98); ("EADDRNOTAVAIL", 99); ("ENETDOWN", 100); ("ENETUNREACH", 101);
   ("ENETRESET", 102); ("ECONNABORTED", 103); ("ECONNRESET", 104); ("ENOBUFS", 105);
   ("EISCONN", 106); ("ENOTCONN", 107); ("ESHUTDOWN", 108); ("ETOOMANYREFS", 109);
   ("ETIMEDOUT", 110); ("ECONNREFUSED", 111); ("EHOSTDOWN", 112); ("EHOSTUNREACH", 113);
   ("EALREADY", 114); ("EINPROGRESS", 115); ("ESTALE", 116); ("EUCLEAN", 117);
   ("ENOTNAM", 118); ("ENAVAIL", 119); ("EISNAM", 120); ("EREMOTEIO", 121); ("EDQUOT", 122);
   ("ENOMEDIUM", 123); ("EMEDIUMTYPE", 124); ("ECANCELED", 125); ("ENOKEY", 126);
   ("EKEYEXPIRED", 127); ("EKEYREVOKED", 128); ("EKEYREJECTED", 129); ("EOWNERDEAD", 130);
   ("ENOTRECOVERABLE", 131); ("ERFKILL", 132); ("EHWPOISON", 133)].

(** ** The numbers make sense *)

(** Two bit sets have no bit in common; all pairs of a list. *)
Definition disjoint_bits (a b : Z) : bool := Z.land a b =? 0.
Fixpoint all_disjoint (l : list Z) : bool :=
  match l with
  | [] => true
  | a :: l => forallb (disjoint_bits a) l && all_disjoint l
  end.

Definition without (names : list string) (l : list (string * Z)) : list (string * Z) :=
  filter (fun p => fst p ∉ names) l.

Lemma all_disjoint_pair l a b :
  all_disjoint l = true -> a ∈ l -> b ∈ l -> a <> b -> Z.land a b = 0.
Proof.
  induction l as [|c l IH]; [by intros _ H%not_elem_of_nil|]. cbn [all_disjoint].
  intros [Hc Hl]%andb_prop. rewrite forallb_forall in Hc.
  assert (forall x, x ∈ l -> Z.land c x = 0) as Hx.
  { intros x H%list_elem_of_In. by apply Z.eqb_eq, Hc. }
  intros [->|Ha]%elem_of_cons [->|Hb]%elem_of_cons Hne; auto; [done|]. rewrite Z.land_comm. auto.
Qed.

(** Testing one event in a union of disjoint events tells whether it is among them. *)
Lemma all_disjoint_test l a s :
  all_disjoint l = true -> a <> 0 -> a ∈ l -> s ⊆ l ->
  (Z.land (foldr Z.lor 0 s) a <> 0 <-> a ∈ s).
Proof.
  intros Hl Ha Hin. induction s as [|b s IH]; intros Hs; cbn [foldr].
  - rewrite Z.land_0_l. split; [done|by intros ?%not_elem_of_nil].
  - rewrite Z.land_lor_distr_l, Z.lor_eq_0_iff, elem_of_cons.
    assert (Z.land (foldr Z.lor 0 s) a <> 0 <-> a ∈ s) as IH' by (apply IH; set_solver).
    destruct (decide (a = b)) as [<-|Hne]; [rewrite Z.land_diag; intuition|].
    rewrite (all_disjoint_pair l b a) by set_solver. tauto.
Qed.

Lemma poll_events_disjoint : all_disjoint (map snd poll_events) = true.
Proof. reflexivity. Qed.

(** The [open] flags that are not made of others. *)
(** The access modes the programs pass to [open] are those of the header. *)
Lemma open_modes_agree :
  map (fun n => list_find (fun p => p.1 = n) open_flags ≫= fun p => Some p.2.2) ["O_ACCMODE"; "O_RDONLY"; "O_WRONLY"; "O_RDWR"] =
  map Some [O_ACCMODE; O_RDONLY; O_WRONLY; O_RDWR].
Proof. reflexivity. Qed.

Lemma open_flags_disjoint :
  all_disjoint (map snd (without ["O_ACCMODE"; "O_RDONLY"; "O_SYNC"; "O_TMPFILE"; "O_NDELAY"] open_flags)) = true.
Proof. reflexivity. Qed.

(** The event that daemon-doe.c waits for, read back from any union of events. *)
Lemma pollin_test s :
  s ⊆ map snd poll_events -> (Z.land (foldr Z.lor 0 s) POLLIN <> 0 <-> POLLIN ∈ s).
Proof. apply all_disjoint_test; [reflexivity|done|by left]. Qed.

(** But for the two aliases of errno.h, an error number names one error. *)
Lemma errno_distinct : NoDup (map snd (without ["EWOULDBLOCK"; "EDEADLOCK"] (errno_base ++ errno_more)%list)).
Proof. apply (bool_decide_unpack _). vm_compute. exact I. Qed.
