(* ===== verification/Host.v ===== *)
(** * What the host sees

    The host drives the mailbox by register accesses. This file runs such a sequence
    on the emulator's register file ([code_run]) and through the whole relay
    ([relay_run]), one exchange and whole sessions, and relates both to the abstract
    machine of Mailbox.v. *)
From S2P Require Import Prelude Bytes CMonad Log Wire ByteIO Mailbox DoeEmu DoeSpec EmuSpec ThinServer RelaySpec.

(** ** On the register file *)

Definition code_access (a : mb_access) : C doe_t Z :=
  match a with
  | MbRead reg => reg_read reg
  | MbWrite reg v => reg_write reg v;; mret 0
  end.

Fixpoint code_run (l : list mb_access) : C doe_t (list Z) :=
  match l with
  | [] => mret []
  | a :: l => v ← code_access a; vs ← code_run l; mret (v :: vs)
  end.

Definition access_ok (a : mb_access) : Prop :=
  match a with MbRead reg => u32 reg | MbWrite reg v => u32 reg /\ u32 v end.

Lemma code_access_spec a d w :
  doe_ok d -> access_ok a ->
  wp (code_access a)
     (fun v d' w' => doe_ok d' /\ (absr d', v) = mb_step (absr d) a /\ same_cap d d' /\ quiet w w')
     never d w.
Proof.
  intros Hok Ha. destruct a as [reg|reg v]; cbn [code_access mb_step].
  - eapply wp_mono; [by apply reg_read_spec|..]; [|done].
    by intros r d' w' (-> & -> & _ & Hq).
  - apply wp_bind. eapply wp_mono; [apply reg_write_spec; [done|apply Ha]|..]; [|done].
    intros _ d' w' (Hok' & Ha' & Hc & Hq). apply wp_ret. by rewrite Ha'.
Qed.

Lemma code_run_spec l : forall d w,
  doe_ok d -> Forall access_ok l ->
  wp (code_run l)
     (fun vs d' w' => doe_ok d' /\ (absr d', vs) = mb_run (absr d) l /\ same_cap d d' /\ quiet w w')
     never d w.
Proof.
  induction l as [|a l IH]; intros d w Hok Hl; cbn [code_run mb_run].
  - by apply wp_ret.
  - apply Forall_cons_1 in Hl as [Ha Hl]. apply wp_bind.
    eapply wp_mono; [by apply code_access_spec|..]; [|done].
    intros v d1 w1 (Hok1 & E1 & C1 & Q1). apply wp_bind.
    eapply wp_mono; [by apply IH|..]; [|done].
    intros vs d2 w2 (Hok2 & E2 & C2 & Q2). apply wp_ret.
    rewrite <- E1, <- E2. split; [done|]. split; [done|].
    unfold same_cap in *. split; [intuition congruence|by eapply quiet_trans].
Qed.

(** ** A whole exchange *)

Lemma mb_exchange m req rsp :
  mb_req m = [] -> (length req <= mb_capacity)%nat -> respond req = Some rsp ->
  mb_run m (send_request req ++ read_response (length rsp)) =
  (mb_empty, replicate (length req) 0 ++ 0 :: 0x80000000 :: seen rsp).
Proof.
  intros Hm Hl Hr. unfold send_request. rewrite <- app_assoc.
  rewrite mb_run_request by (rewrite Hm; simpl; lia). rewrite Hm. cbn [app mb_run mb_step].
  assert (mb_write (mb_decode 8) 2147483648 (Mailbox (mb_status m) req (mb_rsp m)) = Mailbox Ready [] rsp) as ->.
  { cbn -[respond]. unfold mb_go. cbn [mb_req]. by rewrite Hr. }
  rewrite mb_run_response by by eapply respond_nonempty. done.
Qed.

Lemma mb_exchange_failed m req :
  mb_req m = [] -> (length req <= mb_capacity)%nat -> respond req = None ->
  mb_run m (send_request req) =
  (Mailbox Failed [] (mb_rsp m), replicate (length req) 0 ++ [0; 4]).
Proof.
  intros Hm Hl Hr. unfold send_request.
  rewrite mb_run_request by (rewrite Hm; simpl; lia). rewrite Hm. cbn [app mb_run mb_step].
  assert (mb_write (mb_decode 8) 2147483648 (Mailbox (mb_status m) req (mb_rsp m)) = Mailbox Failed [] (mb_rsp m)) as ->.
  { cbn -[respond]. unfold mb_go. cbn [mb_req]. by rewrite Hr. }
  done.
Qed.

Lemma send_request_ok req : Forall u32 req -> Forall access_ok (send_request req).
Proof.
  intros H. apply Forall_app. split; [|by repeat constructor].
  apply Forall_map. by eapply Forall_impl.
Qed.

Lemma read_response_ok n : Forall access_ok (read_response n).
Proof. induction n as [|n IH]; cbn [read_response]; [done|]. by do 2 (constructor; [done|]). Qed.

(** ** The words of a response are 32-bit *)

Lemma le_decode_short bs : (length bs <= 4)%nat -> u32 (le_decode bs).
Proof.
  intros H. pose proof (le_decode_bound bs) as B.
  assert (256 ^ Z.of_nat (length bs) <= 256 ^ 4) as P by (apply Z.pow_le_mono_r; lia).
  change (256 ^ 4) with (2 ^ 32) in P. cint.
Qed.

Lemma pack_dwords_u32 bs : Forall u32 (pack_dwords bs).
Proof.
  assert (forall n bs, (length bs <= n)%nat -> Forall u32 (pack_dwords bs)) as H; [|by eapply H].
  induction n as [|n IH]; intros l Hl; destruct l as [|b0 [|b1 [|b2 [|b3 l]]]]; simpl in Hl; try lia;
    cbn [pack_dwords]; repeat (constructor; [apply le_decode_short; simpl; lia|]); try done.
  apply IH. lia.
Qed.

Lemma object_header_u32 vid ty : u16 vid -> u8 ty -> u32 (object_header vid ty).
Proof. unfold object_header. intros. cint. Qed.

Lemma respond_u32 req rsp : respond req = Some rsp -> Forall u32 rsp.
Proof.
  intros Hr. pose proof (respond_length _ _ Hr) as Hl. revert Hr.
  unfold respond. destruct req as [|h [|l [|p r]]]; try done.
  assert (forall ty pl, data_object VID_PCISIG ty pl = rsp -> u8 ty -> Forall u32 pl -> Forall u32 rsp) as H.
  { intros ty pl <- Hty Hpl. unfold data_object in *. cbn [length] in Hl.
    constructor; [by apply object_header_u32|]. constructor; [cint|done]. }
  destruct (_ =? _); [|done]. destruct (_ =? 0).
  { intros [= E]. apply (H _ _ E); [done|]. unfold discovery_payload.
    pose proof (Z.mod_pos_bound p 256 eq_refl) as B.
    destruct (supported !! _) as [[vid ty]|] eqn:Es; [|by repeat constructor].
    assert (u32 (object_header vid ty)).
    { apply list_elem_of_lookup_2 in Es. unfold supported in Es.
      repeat (apply elem_of_cons in Es as [Es|Es]; [simplify_eq; by vm_compute|]).
      by apply elem_of_nil in Es. }
    constructor; [done|]. constructor; [|done]. destruct (_ <? 3); cint. }
  destruct (_ || _); [|done]. intros [= E]. apply (H _ _ E); [|apply pack_dwords_u32].
  unfold object_type. cint. apply Z.mod_pos_bound. lia.
Qed.

Definition mb_ok (m : mailbox) : Prop := Forall u32 (mb_rsp m).

Lemma mb_step_ok m a : mb_ok m -> access_ok a -> mb_ok (fst (mb_step m a)) /\ u32 (snd (mb_step m a)).
Proof.
  unfold mb_ok. intros Hm Ha.
  assert (forall m', Forall u32 (mb_rsp m') -> Forall u32 (mb_rsp (mb_go m'))) as Hgo.
  { intros m' Hm'. unfold mb_go. destruct (respond _) eqn:E; [by eapply respond_u32|done]. }
  destruct a as [reg|reg v]; cbn [mb_step fst snd].
  - split; [done|]. destruct (mb_decode reg); cbn [mb_read]; try done.
    + by destruct (mb_status m).
    + destruct (mb_rsp m); [done|]. by apply (Forall_inv Hm).
  - split; [|done]. destruct (mb_decode reg); cbn [mb_write]; try done.
    + destruct (Z.testbit v 0), (Z.testbit v 31); try apply Hgo; try done; by constructor.
    + unfold mb_push. by destruct (_ <? _)%nat.
    + destruct (v =? 0); [|done]. unfold mb_ack.
      destruct (mb_rsp m) as [|x [|y l]]; [by constructor..|]. by apply Forall_inv_tail in Hm.
Qed.

(** ** Through the relay *)

(** The configuration access the kernel driver asks for: its type tells a write from
    a read; the offset is that of the register above the capability at [base]. *)
Definition access_op (base : Z) (a : mb_access) : avery_pci_config_op :=
  match a with
  | MbRead reg => Op AVERY_OP_READ (wrap32 (base + reg)) 0 0
  | MbWrite reg v => Op AVERY_OP_WRITE (wrap32 (base + reg)) v 0
  end.

(** The answer that carries the value [v]: everything else as in the access. *)
Definition answer_op (op : avery_pci_config_op) (v : Z) : avery_pci_config_op :=
  set_op_value v (set_op_status 0 op).

Lemma access_op_ok base a : access_ok a -> op_ok (access_op base a).
Proof.
  intros H. destruct a as [reg|reg v]; (split; [done|split; [apply wrap32_u32|split; [|done]]]); [done|apply H].
Qed.

Lemma decode_offset base reg :
  u32 reg -> mb_decode ((wrap32 (base + reg) - base) mod 2 ^ 32) = mb_decode reg.
Proof.
  intros H. f_equal. unfold wrap32. rewrite Zminus_mod_idemp_l.
  replace (base + reg - base) with reg by lia. by apply Z.mod_small.
Qed.

Lemma address_serve_request sq op : u32 (op_offset op) -> address (serve_request sq op) = op_offset op.
Proof. intros H. by apply Z.mod_small. Qed.

Lemma dev_step_serve base m a sq :
  access_ok a -> mb_ok m ->
  dev_step (Device (Some base) m) (serve_request sq (access_op base a)) =
  (Device (Some base) (fst (mb_step m a)), reply (serve_request sq (access_op base a)) (snd (mb_step m a))).
Proof.
  intros Ha Hm. unfold dev_step. cbn [dev_base dev_mb]. unfold dev_access.
  rewrite address_serve_request by apply (access_op_ok base a Ha).
  destruct a as [reg|reg v]; cbn [access_op op_offset]; rewrite decode_offset by (try apply Ha; done).
  - done.
  - unfold word. rewrite serve_request_word by apply Ha. done.
Qed.

Lemma serve_reply_reply op sq v :
  u32 v -> serve_reply op (reply (serve_request sq op) v) = answer_op op v.
Proof.
  intros Hv. unfold serve_reply, answer_op, reply. cbn [data cmp_status].
  rewrite take_app_exact by apply length_le_encode. by rewrite le_decode_encode_u32.
Qed.

(** ** The sequential device, by the accesses of the kernel driver

    What the driver is to see, without the transactions in between: an access of type
    AVERY_OP_WRITE writes the register at its offset above the base, every other one reads
    it; the first access that is not a write fixes the base, as if it were a read of
    STATUS; the answer is the access with status 0 and the value. *)
Definition op_access (base : Z) (op : avery_pci_config_op) : mb_access :=
  let reg := (op_offset op - base) mod 2 ^ 32 in
  if op_type op =? AVERY_OP_WRITE then MbWrite reg (op_value op) else MbRead reg.

Definition device_op (d : device) (op : avery_pci_config_op) : device * avery_pci_config_op :=
  let at_base base :=
    let '(m, v) := mb_step (dev_mb d) (op_access base op) in (Device (Some base) m, answer_op op v) in
  match dev_base d with
  | Some base => at_base base
  | None =>
      if op_type op =? AVERY_OP_WRITE then (d, answer_op op 0)
      else at_base ((op_offset op - 12) mod 2 ^ 32)
  end.

Fixpoint device_answers (d : device) (ops : list avery_pci_config_op) : list avery_pci_config_op :=
  match ops with
  | [] => []
  | op :: ops => let '(d, a) := device_op d op in a :: device_answers d ops
  end.

Lemma op_access_ok base op : op_ok op -> access_ok (op_access base op).
Proof.
  intros (_ & _ & Hv & _). unfold op_access. destruct (_ =? _); [split; [|done]|]; apply Z.mod_pos_bound; lia.
Qed.

Lemma dev_access_op base m op sq :
  op_ok op -> dev_access base m (serve_request sq op) =
  (let '(m', v) := mb_step m (op_access base op) in (Device (Some base) m', reply (serve_request sq op) v)).
Proof.
  intros Hop. unfold dev_access, word. rewrite address_serve_request, serve_request_word by apply Hop.
  unfold op_access. cbn [serve_request r0w1]. by destruct (op_type op =? AVERY_OP_WRITE).
Qed.

Lemma spec_step_device d sq op :
  op_ok op -> mb_ok (dev_mb d) ->
  spec_step (d, sq) op = ((fst (device_op d op), wrap32 (sq + 1)), snd (device_op d op)) /\
  mb_ok (dev_mb (fst (device_op d op))).
Proof.
  intros Hop Hm. unfold spec_step, device_op, dev_step. cbn [fst snd].
  assert (forall base,
    (let '(d', r) := dev_access base (dev_mb d) (serve_request (wrap32 (sq + 1)) op) in
     (d', wrap32 (sq + 1), serve_reply op r)) =
    (let p := let '(m, v) := mb_step (dev_mb d) (op_access base op) in (Device (Some base) m, answer_op op v) in
     (fst p, wrap32 (sq + 1), snd p)) /\
    mb_ok (dev_mb (fst (let '(m, v) := mb_step (dev_mb d) (op_access base op) in (Device (Some base) m, answer_op op v)))))
    as Hat.
  { intros base. rewrite dev_access_op by done.
    destruct (mb_step_ok (dev_mb d) (op_access base op) Hm (op_access_ok base op Hop)) as [Hm1 Hv].
    destruct (mb_step _ _) as [m1 v]. cbn [fst snd] in *. by rewrite serve_reply_reply. }
  destruct (dev_base d) as [base|]; [apply Hat|]. cbn [serve_request r0w1].
  rewrite address_serve_request by apply Hop.
  destruct (op_type op =? AVERY_OP_WRITE); cbn [Z.eqb Pos.eqb]; [|apply Hat].
  cbn [fst snd]. by rewrite serve_reply_reply.
Qed.

Lemma spec_run_device ops : forall d sq,
  Forall op_ok ops -> mb_ok (dev_mb d) -> spec_run (d, sq) ops = device_answers d ops.
Proof.
  induction ops as [|op ops IH]; intros d sq Hops Hm; [done|]. apply Forall_cons_1 in Hops as [Hop Hops].
  destruct (spec_step_device d sq op Hop Hm) as [E Hm']. cbn [spec_run device_answers]. rewrite E.
  destruct (device_op d op) as [d' a]. cbn [fst snd] in *. by rewrite IH.
Qed.

Lemma relay_run base l : forall m sq,
  Forall access_ok l -> mb_ok m ->
  spec_run (Device (Some base) m, sq) (map (access_op base) l) =
  zip_with (fun a v => answer_op (access_op base a) v) l (snd (mb_run m l)).
Proof.
  induction l as [|a l IH]; intros m sq Hl Hm; [done|].
  apply Forall_cons_1 in Hl as [Ha Hl]. cbn [map spec_run mb_run]. unfold spec_step. cbn [fst snd].
  rewrite dev_step_serve by done. destruct (mb_step_ok m a Hm Ha) as [Hm1 Hv].
  rewrite serve_reply_reply by done. destruct (mb_step m a) as [m1 v]. cbn [fst snd] in *.
  rewrite IH by done. by destruct (mb_run m1 l).
Qed.

(** Words for the request pile up to the capacity; the rest is dropped. *)
Lemma mb_run_pushes l : forall m,
  (length (mb_req m) <= mb_capacity)%nat ->
  mb_run m (map (MbWrite 0x10) l) =
  (Mailbox (mb_status m) (take mb_capacity (mb_req m ++ l)) (mb_rsp m), replicate (length l) 0).
Proof.
  induction l as [|v l IH]; intros m Hm; cbn [map mb_run mb_step].
  - rewrite app_nil_r, take_ge by done. by destruct m.
  - change (mb_write (mb_decode 16) v m) with (mb_push v m). unfold mb_push.
    destruct (Nat.ltb_spec (length (mb_req m)) mb_capacity) as [H|H].
    + rewrite IH by (cbn [mb_req]; rewrite length_app; simpl; lia). cbn [mb_req mb_status mb_rsp].
      by rewrite <- app_assoc.
    + rewrite IH by done. rewrite !take_app_le by lia. done.
Qed.

(** ** A session: exchanges, one after the other *)

(** What the host does with a request: it sends it and reads the whole response, or, when
    there is none, finds ERROR and sets ABORT. *)
Definition exchange (req : list Z) : list mb_access :=
  send_request req ++
  match respond req with
  | Some rsp => read_response (length rsp)
  | None => [MbWrite 0x08 1]
  end.

(** What it reads: zeros for its writes, READY and the response, or ERROR. *)
Definition exchange_values (req : list Z) : list Z :=
  replicate (length req) 0 ++ 0 ::
  match respond req with
  | Some rsp => 0x80000000 :: seen rsp
  | None => [4; 0]
  end.

Definition request_ok (req : list Z) : Prop := (length req <= mb_capacity)%nat /\ Forall u32 req.

(** Every exchange leaves the mailbox as it found it. *)
Lemma mb_exchange_run req :
  (length req <= mb_capacity)%nat -> mb_run mb_empty (exchange req) = (mb_empty, exchange_values req).
Proof.
  intros Hl. unfold exchange, exchange_values. destruct (respond req) as [rsp|] eqn:E.
  - by apply mb_exchange.
  - rewrite mb_run_app, mb_exchange_failed by done. cbn [mb_run mb_step].
    change (mb_write (mb_decode 8) 1 (Mailbox Failed [] (mb_rsp mb_empty))) with mb_empty. by rewrite <- app_assoc.
Qed.

Lemma mb_exchanges reqs :
  Forall request_ok reqs -> mb_run mb_empty (reqs ≫= exchange) = (mb_empty, reqs ≫= exchange_values).
Proof.
  induction 1 as [|req reqs [Hl _] _ IH]; [done|].
  cbn [mbind list_bind] in *. by rewrite mb_run_app, mb_exchange_run, IH.
Qed.

Lemma exchange_ok req : Forall u32 req -> Forall access_ok (exchange req).
Proof.
  intros H. apply Forall_app_2; [by apply send_request_ok|].
  destruct (respond req); [apply read_response_ok|by repeat constructor].
Qed.

(** The session of a host whose capability is at [base]: it looks at STATUS first. *)
Definition session (reqs : list (list Z)) : list mb_access := MbRead 0x0c :: (reqs ≫= exchange).

Definition session_values (reqs : list (list Z)) : list Z := 0 :: (reqs ≫= exchange_values).

Definition session_ops (base : Z) (reqs : list (list Z)) : list avery_pci_config_op := map (access_op base) (session reqs).

Definition session_answers (base : Z) (reqs : list (list Z)) : list avery_pci_config_op :=
  zip_with (fun a v => answer_op (access_op base a) v) (session reqs) (session_values reqs).

Lemma session_ok reqs : Forall request_ok reqs -> Forall access_ok (session reqs).
Proof.
  intros H. constructor; [done|]. induction H as [|req reqs [_ Hr] _ IH]; [done|].
  cbn [mbind list_bind] in *. apply Forall_app_2; [by apply exchange_ok|done].
Qed.

Lemma session_ops_ok base reqs : Forall request_ok reqs -> Forall op_ok (session_ops base reqs).
Proof.
  intros H. apply Forall_map. generalize (session_ok reqs H). apply Forall_impl. intros a. apply access_op_ok.
Qed.

(** The look at STATUS tells a fresh device where its registers are. *)
Lemma first_status base m sq :
  u32 base ->
  dev_step (Device None m) (serve_request sq (access_op base (MbRead 0x0c))) =
  dev_step (Device (Some base) m) (serve_request sq (access_op base (MbRead 0x0c))).
Proof.
  intros Hb. unfold dev_step. cbn [dev_base dev_mb].
  change (r0w1 (serve_request sq (access_op base (MbRead 12))) =? 1) with false. cbn beta iota.
  rewrite address_serve_request by apply wrap32_u32. cbn [access_op op_offset].
  f_equal. unfold wrap32. rewrite Zminus_mod_idemp_l. replace (base + 12 - 12) with base by lia. by apply Z.mod_small.
Qed.

(** A session through the sequential relay, from its start. *)
Lemma session_run base reqs sq :
  u32 base -> Forall request_ok reqs -> spec_run (dev_init, sq) (session_ops base reqs) = session_answers base reqs.
Proof.
  intros Hb Hr.
  assert (spec_run (dev_init, sq) (session_ops base reqs) = spec_run (Device (Some base) mb_empty, sq) (session_ops base reqs)) as ->.
  { unfold session_ops, session. cbn [map spec_run]. unfold spec_step, dev_init. cbn [fst snd]. by rewrite first_status. }
  unfold session_ops. rewrite relay_run; [|by apply session_ok|by apply Forall_nil_2]. unfold session_answers, session_values, session.
  cbn [mb_run mb_step]. by rewrite mb_exchanges.
Qed.
