(* ===== verification/Relays.v ===== *)
(** * The four relays

    Each of the two daemons with each of the two servers, as concurrent systems of
    processes that run their own code, and what the connection of Link.v gives for each
    pair from the promises of its two sides. *)
From S2P Require Import Prelude Bytes CMonad Log Wire ByteIO Mailbox DoeEmu DoeSpec EmuSpec ThinServer DaemonDoe.
From S2P Require Import IoTree RelayCode RelaySpec Link DaemonClient PipeServer RemoteRc RcServer Boot Netlink NetlinkSpec NlClient NlStart.

(** ** What the servers answer *)

Lemma nl_requests_ops_ok qs : Forall nl_request_ok qs -> Forall op_ok (map nq_op qs).
Proof. intros H. apply Forall_map. revert H. apply Forall_impl. intros q. apply request_datagram_op. Qed.

Lemma served_pipes client treq trep ereq erep faults d ops :
  served (pipe_server client treq trep ereq erep faults) d ops = spec_run d ops.
Proof.
  revert d. induction ops as [|op ops IH]; intros d; [done|]. cbn [served spec_run sv_answer pipe_server].
  destruct (spec_step d op) as [d' a]. by rewrite IH.
Qed.

Lemma served_rc c faults ops : served (rc_server c faults) tt ops = map emulate ops.
Proof. induction ops as [|op ops IH]; [done|]. cbn [served map sv_answer rc_server]. by rewrite IH. Qed.

(** daemon-doe.c hands the answers on as they are. *)
Lemma replies_daemon {S D} dev sock faults (v : server S D) d ops :
  replies (daemon_client dev sock faults) v d ops = served v d ops.
Proof.
  revert d. induction ops as [|op ops IH]; intros d; [done|]. cbn [replies served cl_op cl_reply daemon_client].
  destruct (sv_answer v d op) as [d' a]. by rewrite IH.
Qed.

(** ** daemon-doe.c, thin-server.c and doe-emu.c *)

Section relay.
Variables (dev sock client treq trep ereq erep : Z).

Definition relay_step (faults : bool) :=
  lstep (daemon_client dev sock faults) (pipe_server client treq trep ereq erep faults).

(** With the three programs at the top of their loops, and the emulator in any state. *)
Definition relay_init (ops : list avery_pci_config_op) (mem : list byte) (sq : Z) (g : emu) (wd wt we : world) :
    link (proc (list byte)) pipes avery_pci_config_op avery_pci_config_op :=
  link_init ops (daemon_start dev sock mem wd) (pipe_start client treq trep sq g wt we).

(** With the three programs at the first line of [main]. *)
Definition relay_main (ops : list avery_pci_config_op) (mem : list byte) (gt : thin) (ge : emu) (wd wt we : world) :
    link (proc (list byte)) pipes avery_pci_config_op avery_pci_config_op :=
  link_init ops (Running mem wd (daemon_main dev sock))
    (Pipes (Running gt wt (thin_main client treq trep)) [] [] (Running ge we (emu_boot ereq erep))).

Hypotheses (dev_sock : dev <> sock) (client_treq : client <> treq) (client_trep : client <> trep).
Variable ops : list avery_pci_config_op.
Hypothesis Hops : Forall op_ok ops.

(** From wherever the programs are between two accesses. *)
Section from.
Variables (k : proc (list byte)) (s : pipes) (d : device * Z) (jc js n : nat).
Variable x : link (proc (list byte)) pipes avery_pci_config_op avery_pci_config_op.

Lemma relay_runs_safe :
  daemon_at dev sock true k CWait jc -> pipe_at client treq trep ereq erep true s d [] [] js ->
  nsteps (relay_step true) n (link_init ops k s) x ->
  l_client x <> Crashed /\ p_t (l_server x) <> Crashed /\ p_e (l_server x) <> Crashed /\
  l_done x `prefix_of` spec_run d ops.
Proof.
  intros Hk Hs Hn. pose proof (daemon_laws dev sock true dev_sock) as HC.
  pose proof (pipe_laws client treq trep ereq erep true client_treq client_trep) as HS.
  destruct (link_safe (HC := HC) (HS := HS) ops _ _ _ _ _ Hops Hk Hs n x Hn) as (H1 & H2 & H3).
  cbn [cl_crashed sv_crashed daemon_client pipe_server] in H1, H2. rewrite replies_daemon, served_pipes in H3.
  split; [done|]. split; [intros E; apply H2; by left|]. split; [intros E; apply H2; by right|done].
Qed.

Lemma relay_runs_live :
  daemon_at dev sock false k CWait jc -> pipe_at client treq trep ereq erep false s d [] [] js ->
  nsteps (relay_step false) n (link_init ops k s) x ->
  (n <= 6 * (1445 * length ops) + jc + js)%nat /\
  (~ (exists x', relay_step false x x') -> l_done x = spec_run d ops).
Proof.
  intros Hk Hs Hn. pose proof (daemon_laws dev sock false dev_sock) as HC.
  pose proof (pipe_laws client treq trep ereq erep false client_treq client_trep) as HS.
  destruct (link_live (HC := HC) (HS := HS) ops _ _ _ _ _ Hops Hk Hs n x eq_refl Hn) as [H1 H2].
  rewrite replies_daemon, served_pipes in H2. split; [unfold per_request in H1; lia|exact H2].
Qed.

Lemma relay_runs_pipes faults :
  daemon_at dev sock faults k CWait jc -> pipe_at client treq trep ereq erep faults s d [] [] js ->
  nsteps (relay_step faults) n (link_init ops k s) x ->
  (length (p_req (l_server x)) + length (p_rep (l_server x)) <= 344)%nat /\
  (p_req (l_server x) = [] \/ p_rep (l_server x) = []).
Proof.
  intros Hk Hs Hn. pose proof (daemon_laws dev sock faults dev_sock) as HC.
  pose proof (pipe_laws client treq trep ereq erep faults client_treq client_trep) as HS.
  destruct (link_server (HC := HC) (HS := HS) ops _ _ _ _ _ Hops Hk Hs n x Hn) as (d' & out & acc & j & P).
  by destruct (pipe_at_bounds _ _ _ _ _ _ _ _ _ _ _ P) as (? & ? & _).
Qed.

Lemma relay_runs_channels :
  daemon_at dev sock false k CWait jc -> pipe_at client treq trep ereq erep false s d [] [] js ->
  nsteps (relay_step false) n (link_init ops k s) x ->
  (length (l_up x) + length (l_down x) <= 16)%nat /\ (l_up x = [] \/ l_down x = []) /\
  (l_up x <> [] \/ l_down x <> [] -> p_req (l_server x) = [] /\ p_rep (l_server x) = []).
Proof.
  intros Hk Hs Hn. pose proof (daemon_laws dev sock false dev_sock) as HC.
  pose proof (pipe_laws client treq trep ereq erep false client_treq client_trep) as HS.
  destruct (link_channels (HC := HC) (HS := HS) ops _ _ _ _ _ Hops Hk Hs n x eq_refl Hn) as (Hl & Ho & d' & out & acc & j & P & Ha).
  destruct (pipe_at_bounds _ _ _ _ _ _ _ _ _ _ _ P) as (_ & _ & Hp). do 2 (split; [done|]). auto.
Qed.
End from.
End relay.

(** Starting up is a position between two accesses. *)
Section starting.
Variable faults : bool.

Lemma daemon_main_at dev sock mem w :
  0 <= dev -> 0 <= sock -> length mem = 16%nat ->
  daemon_at dev sock faults (Running mem w (daemon_main dev sock)) CWait 19.
Proof. intros. by apply (DaBoot _ _ _ (w_env w) 14), daemon_main_boots. Qed.

Lemma rc_main_at c mem w :
  0 <= c -> length mem = 16%nat -> rc_at c faults (Running mem w (rc_main c)) tt [] [] 13.
Proof. intros. by apply (RtBoot _ _ (w_env w) 12), rc_main_boots. Qed.

Lemma pipe_main_at client treq trep ereq erep gt ge wt we :
  0 <= client -> 0 <= treq -> 0 <= trep -> 0 <= ereq -> 0 <= erep -> u32 (t_seq gt) ->
  faults = true \/ is_Some (w_env wt "CXL_RELAY_SERVER_PATH") ->
  faults = true \/ is_Some (w_env we "CXL_RELAY_SERVER_PATH") ->
  pipe_at client treq trep ereq erep faults
    (Pipes (Running gt wt (thin_main client treq trep)) [] [] (Running ge we (emu_boot ereq erep)))
    (abse (Emu doe_zero ereq erep), t_seq gt) [] [] 45.
Proof.
  intros H1 H2 H3 H4 H5 Hsq Ht He. apply (PaUp _ _ _ _ _ _ _ _ [] [] (t_seq gt) (Emu doe_zero ereq erep) 29 16).
  - apply (TsBoot _ _ _ _ (w_env wt) 28); [done|]. by apply thin_main_boots.
  - apply (EsBoot _ _ _ (w_env we) 14); [done..|]. by apply emu_main_boots.
  - done.
  - apply doe_zero_ok.
Qed.
End starting.

(** ** daemon-doe.c and remote-rc.c *)

Section rc_relay.
Variables (dev sock c : Z).

Definition rc_relay_step (faults : bool) := lstep (daemon_client dev sock faults) (rc_server c faults).

(** With both programs at the first line of [main]. *)
Definition rc_relay_main (ops : list avery_pci_config_op) (mem mem' : list byte) (wd ws : world) :
    link (proc (list byte)) (proc (list byte)) avery_pci_config_op avery_pci_config_op :=
  link_init ops (Running mem wd (daemon_main dev sock)) (Running mem' ws (rc_main c)).

Hypotheses (Hdev : 0 <= dev) (Hsock : 0 <= sock) (Hc : 0 <= c) (dev_sock : dev <> sock).
Variables (ops : list avery_pci_config_op) (mem mem' : list byte) (wd ws : world).
Hypotheses (Hops : Forall op_ok ops) (Hmem : length mem = 16%nat) (Hmem' : length mem' = 16%nat).

Lemma rc_runs_safe n x :
  nsteps (rc_relay_step true) n (rc_relay_main ops mem mem' wd ws) x ->
  l_client x <> Crashed /\ l_server x <> Crashed /\ l_done x `prefix_of` map emulate ops.
Proof.
  intros Hn. pose proof (daemon_laws dev sock true dev_sock) as HC. pose proof (rc_laws c true) as HS.
  destruct (link_safe (HC := HC) (HS := HS) ops _ _ _ _ _ Hops (daemon_main_at true dev sock mem wd Hdev Hsock Hmem)
    (rc_main_at true c mem' ws Hc Hmem') n x Hn) as (H1 & H2 & H3).
  by rewrite replies_daemon, served_rc in H3.
Qed.

Lemma rc_runs_live n x :
  nsteps (rc_relay_step false) n (rc_relay_main ops mem mem' wd ws) x ->
  (n <= 403 * length ops + 32)%nat /\
  (~ (exists x', rc_relay_step false x x') -> l_done x = map emulate ops).
Proof.
  intros Hn. pose proof (daemon_laws dev sock false dev_sock) as HC. pose proof (rc_laws c false) as HS.
  destruct (link_live (HC := HC) (HS := HS) ops _ _ _ _ _ Hops (daemon_main_at false dev sock mem wd Hdev Hsock Hmem)
    (rc_main_at false c mem' ws Hc Hmem') n x eq_refl Hn) as [H1 H2].
  rewrite replies_daemon, served_rc in H2. split; [unfold per_request in H1; lia|exact H2].
Qed.
End rc_relay.

(** ** daemon-doe-netlink.c with either server *)

Section netlink.
Variables (junk4096 junk8192 : list byte) (fuel : nat) (sockfd family mypid : Z).
Hypotheses (Hfuel : (2048 <= fuel)%nat) (Hsock : 0 <= sockfd) (Hfamily : u16 family).

#[local] Abbreviation cl := (nl_program junk4096 fuel sockfd family mypid).
#[local] Abbreviation start := (nl_program_start junk8192 fuel sockfd mypid).

(** The response to a request whose access was answered by [a]. *)
Definition nl_answer (q : nl_request) (a : avery_pci_config_op) : list byte :=
  response_datagram family mypid (nq_seq q) (to_bytes a).

Variables (qs : list nl_request) (g : nl_state) (w : world).
Hypothesis Hqs : Forall nl_request_ok qs.

(** Both are safe and complete when no call fails. *)
Lemma nl_runs_with {S D} (v : server S D) work at_ any s d js n x :
  ServerLaws v false work at_ any -> at_ s d [] [] js ->
  nsteps (lstep cl v) n (link_init qs (start g w) s) x ->
  (l_client x).1 <> Crashed /\ ~ sv_crashed v (l_server x) /\
  l_done x `prefix_of` zip_with nl_answer qs (served v d (map nq_op qs)) /\
  (n <= (402 + work) * length qs + 29 + js)%nat /\
  (~ (exists x', lstep cl v x x') -> l_done x = zip_with nl_answer qs (served v d (map nq_op qs))).
Proof.
  intros HS Hs Hn. pose proof (nl_program_laws junk4096 junk8192 fuel sockfd family mypid Hfuel Hfamily) as HC.
  pose proof (nl_program_start_at junk4096 junk8192 fuel sockfd family mypid Hfuel g w Hsock) as Hk.
  destruct (link_safe (HC := HC) (HS := HS) qs _ _ _ _ _ Hqs Hk Hs n x Hn) as (H1 & H2 & H3).
  destruct (link_live (HC := HC) (HS := HS) qs _ _ _ _ _ Hqs Hk Hs n x eq_refl Hn) as [H4 H5].
  rewrite replies_served in H3, H5. do 3 (split; [done|]). split; [unfold per_request in H4; lia|exact H5].
Qed.
End netlink.
