(* ===== verification/Sessions.v ===== *)
(** * Whole programs, from [main]

    Sessions of doe-emu.c, thin-server.c, daemon-doe.c and remote-rc.c from the first
    line of [main]: the results of the calls that start the program are given one by
    one, and those of the session as in the theorems on the loops. *)
From S2P Require Import Prelude Bytes CMonad Log Wire ByteIO Mailbox DoeEmu DoeSpec EmuSpec ThinServer DaemonDoe RemoteRc.

(** ** Calls whose result is known *)

Section known.
Context {S : Type}.
Implicit Types (Q : Z -> S -> world -> Prop) (R : halt -> S -> world -> Prop).

Lemma wp_next_is c rest Q R s w :
  w_sched w = c :: rest -> Q c s (set_sched rest w) -> wp next Q R s w.
Proof. intros Hs HQ. unfold wp, next. by rewrite Hs. Qed.

Lemma wp_sys_is name args c rest Q R s w :
  w_sched w = c :: rest -> (forall e, Q c s (add_event e (set_sched rest w))) -> wp (sys name args) Q R s w.
Proof. intros Hs HQ. apply wp_bind. eapply wp_next_is; [done|]. apply HQ. Qed.

Lemma wp_sys_path_is name path args c rest Q R s w :
  w_sched w = c :: rest -> (forall e, Q c s (add_event e (set_sched rest w))) -> wp (sys_path name path args) Q R s w.
Proof. intros Hs HQ. apply wp_bind. eapply wp_next_is; [done|]. apply HQ. Qed.

(** Opening the log takes one result when a log file is named. *)
Definition logger (path : option string) (fp : Z) : list Z :=
  match path with Some _ => [fp] | None => [] end.

Lemma wp_log_init_is path fp rest (Q : unit -> S -> world -> Prop) R s w :
  w_sched w = logger path fp ++ rest ->
  (forall w', w_sched w' = rest -> w_env w' = w_env w -> io_none w w' -> Q tt s w') ->
  wp (log_init path) Q R s w.
Proof.
  intros Hs HQ. destruct path as [p|]; [|by apply HQ].
  apply wp_bind. eapply wp_sys_path_is; [exact Hs|]. intros e. by apply HQ.
Qed.

Lemma wp_log_close_io (Q : unit -> S -> world -> Prop) R s w :
  (forall w', io_none w w' -> w_sched w' = w_sched w -> Q tt s w') -> wp log_close Q R s w.
Proof. intros H. apply H; by destruct (truth _). Qed.
End known.

(** One step of the start of a program: the next result is at the head. *)
Ltac boot :=
  lazymatch goal with
  | |- wp (sys _ _) _ _ _ _ => eapply wp_sys_is; [first [eassumption|reflexivity]|intros ?]
  | |- wp (sys_path _ _ _) _ _ _ _ => eapply wp_sys_path_is; [first [eassumption|reflexivity]|intros ?]
  | |- wp log_close _ _ _ _ => apply wp_log_close_io; intros ? ? ?
  | |- wp (if ?c <? 0 then _ else _) _ _ _ _ => destruct (Z.ltb_spec c 0); [lia|]
  | |- wp (if ?c <=? 0 then _ else _) _ _ _ _ => destruct (Z.leb_spec c 0); [lia|]
  | |- _ => log_step
  end; cbn beta iota zeta.

(** ** Messages that move in one call *)

Section one_call.
Context {S A B : Type} `{CStructLaws A}.

Lemma sys_read_is fd len c sched (s : S) w :
  w_sched w = c :: sched -> 0 < c -> pending fd w <> [] ->
  let n := Nat.min (Nat.min (Z.to_nat c) len) (length (pending fd w)) in
  exists w', sys_read fd len s w = Ok (Z.of_nat n, take n (pending fd w)) s w' /\
    io_read fd (drop n (pending fd w)) w w' /\ w_sched w' = sched.
Proof.
  intros Hs Hc Hp n. unfold sys_read. rewrite Hs. destruct (Z.leb_spec c 0); [lia|].
  destruct (pending fd w) as [|b bs] eqn:E; [done|]. eexists. split; [reflexivity|]. split; [|done].
  split; unfold pending, written; cbn -[take drop]; [by rewrite lookup_insert_eq| |done].
  intros fd' Hne. by rewrite lookup_insert_ne.
Qed.

Lemma sys_write_is fd bs c sched (s : S) w :
  w_sched w = c :: sched -> 0 <= c ->
  let n := Nat.min (Z.to_nat c) (length bs) in
  exists w', sys_write fd bs s w = Ok (Z.of_nat n) s w' /\
    io_write fd (take n bs) w w' /\ w_sched w' = sched.
Proof.
  intros Hs Hc n. unfold sys_write. rewrite Hs. destruct (Z.leb_spec c 0) as [Hc0|Hc0].
  - assert (c = 0) as -> by lia. subst n. eexists. split; [done|]. split; [|done].
    split; [cbn; by rewrite app_nil_r|done|done].
  - eexists. split; [reflexivity|]. split; [|done].
    split; unfold pending, written; cbn -[take]; [by rewrite lookup_insert_eq| |done].
    intros fd' Hne. by rewrite lookup_insert_ne.
Qed.

(** A [read] of a whole message, and a [write] of which [c] bytes are taken. *)
Lemma wp_read_is fd (a : A) rest c sched (Q : Z * list byte -> S -> world -> Prop) R s w :
  struct_ok a -> (0 < sizeof A)%nat -> pending fd w = to_bytes a ++ rest ->
  w_sched w = c :: sched -> Z.of_nat (sizeof A) <= c ->
  (forall w', io_read fd rest w w' -> w_sched w' = sched -> Q (Z.of_nat (sizeof A), to_bytes a) s w') ->
  wp (sys_read fd (sizeof A)) Q R s w.
Proof.
  intros Ha Hs0 Hp Hs Hc HQ. pose proof (length_to_bytes a Ha) as Hl.
  destruct (sys_read_is fd (sizeof A) c sched s w Hs) as (w' & E & I & Hs'); [lia| |].
  { rewrite Hp. intros E%(f_equal length). rewrite length_app in E. simpl in E. lia. }
  unfold wp. rewrite E. rewrite Hp in *. replace (Nat.min _ _) with (sizeof A) in * by (rewrite length_app; lia).
  rewrite drop_app_exact in I by done. rewrite take_app_exact by done. by apply HQ.
Qed.

Lemma wp_write_is fd bs c sched (Q : Z -> S -> world -> Prop) R s w :
  w_sched w = c :: sched -> 0 <= c ->
  (forall w', io_write fd (take (Z.to_nat c) bs) w w' -> w_sched w' = sched ->
     Q (Z.of_nat (Nat.min (Z.to_nat c) (length bs))) s w') ->
  wp (sys_write fd bs) Q R s w.
Proof.
  intros Hs Hc HQ. destruct (sys_write_is fd bs c sched s w Hs Hc) as (w' & E & I & Hs').
  unfold wp. rewrite E. apply HQ; [|done]. by rewrite <- take_take, firstn_all in I.
Qed.

(** The loops end after one call that moves everything. *)
Lemma wp_recv_is msg fd (a : A) rest c sched (k : list byte -> C S B) Q R s w :
  struct_ok a -> (0 < sizeof A)%nat -> pending fd w = to_bytes a ++ rest ->
  w_sched w = c :: sched -> Z.of_nat (sizeof A) <= c ->
  (forall w', io_read fd rest w w' -> w_sched w' = sched -> wp (k (to_bytes a)) Q R s w') ->
  wp (read_all msg fd (sizeof A) ≫= k) Q R s w.
Proof.
  intros Ha Hs0 Hp Hs Hc HQ. apply wp_bind. unfold read_all. destruct (sizeof A) as [|n] eqn:E; [lia|].
  cbn [read_loop]. apply wp_bind. rewrite <- E. eapply wp_read_is; try done; [by rewrite E..|].
  intros w' I Hs'. cbn beta iota. destruct (Z.leb_spec (Z.of_nat (sizeof A)) 0); [lia|].
  rewrite Nat2Z.id, Nat.sub_diag. destruct n; by apply HQ.
Qed.

Lemma wp_send_is msg fd (a : A) c sched (k : unit -> C S B) Q R s w :
  struct_ok a -> (0 < sizeof A)%nat -> w_sched w = c :: sched -> Z.of_nat (sizeof A) <= c ->
  (forall w', io_write fd (to_bytes a) w w' -> w_sched w' = sched -> wp (k tt) Q R s w') ->
  wp (write_all msg fd (to_bytes a) ≫= k) Q R s w.
Proof.
  intros Ha Hs0 Hs Hc HQ. apply wp_bind. pose proof (length_to_bytes a Ha) as Hl. unfold write_all.
  destruct (to_bytes a) as [|b bs] eqn:E; [simpl in Hl; lia|]. rewrite <- E in *.
  assert (exists n, length (to_bytes a) = Datatypes.S n) as [n Hn] by (rewrite E; eauto). rewrite Hn.
  cbn [write_loop]. rewrite E. rewrite <- E. apply wp_bind. eapply wp_write_is; [done|lia|].
  intros w' I Hs'. rewrite take_ge in I by lia. rewrite Nat.min_r by lia.
  destruct (Z.leb_spec (Z.of_nat (length (to_bytes a))) 0); [lia|].
  rewrite Nat2Z.id, drop_all. destruct n; by apply HQ.
Qed.
End one_call.

(** ** doe-emu.c *)

Section emulator.
Context (path : string).

Lemma emu_main_live {m} l fuel g w fp fd1 fd2 sched q rest :
  w_env w "CXL_RELAY_SERVER_PATH" = Some path ->
  w_sched w = logger (w_env w "CXL_LOG_FILE") fp ++ fd1 :: fd2 :: sched -> 0 <= fd1 -> 0 <= fd2 ->
  Forall simics_ok l -> Forall (fun t => quit_bit t = false) l -> simics_ok q -> quit_bit q = true ->
  pending fd1 w = concat (map to_bytes l) ++ to_bytes q ++ rest ->
  live m (688 * length l + 344 + 2) (set_sched sched w) -> (length l < fuel)%nat ->
  wp (DoeEmu.main fuel)
     (fun r g' w' => r = 0 /\ abse g' = fst (dev_run (Device None mb_empty) l) /\
        written fd2 w' = written fd2 w ++ concat (map to_bytes (snd (dev_run (Device None mb_empty) l))) /\
        pending fd1 w' = rest)
     never g w.
Proof.
  intros Henv Hs H1 H2 Hl Hnq Hq Hqq Hp HL Hf. unfold DoeEmu.main. do 2 boot. apply wp_bind.
  eapply wp_log_init_is; [exact Hs|]. intros w1 Hs1 He1 I1. boot. boot. rewrite He1, Henv.
  apply wp_bind, wp_zoom, wp_modify. unfold DoeEmu.open_pipes.
  repeat (lazymatch goal with |- wp (run _) _ _ _ _ => fail | _ => boot end).
  eapply wp_mono; [apply (run_live (m := m) l fuel _ _ q rest 2)|..]; try done.
  - apply doe_zero_ok.
  - cbn [req_fd set_rep_fd set_req_fd]. io. exact Hp.
  - cbn beta. intros _ g' w' (Hok & [F1 F2] & Ha & Hw & Hr & L). cbn [req_fd rep_fd set_rep_fd set_req_fd] in *.
    boot. boot. boot. eapply (wp_sys_live (m := m) _ _ 1); [exact L|]. intros c1 w2 _ I2 L2. boot.
    eapply (wp_sys_live (m := m) _ _ 0); [exact L2|]. intros c2 w3 _ I3 _. boot. boot. boot.
    split; [done|]. split; [done|]. revert Hw Hr. io. done.
Qed.
End emulator.

(** ** thin-server.c *)

Lemma thin_main_live {m} path ops rsps fuel g w fp k1 k2 fd1 fd2 srv so b li client sched :
  w_env w "CXL_RELAY_SERVER_PATH" = Some path ->
  w_sched w = logger (w_env w "CXL_LOG_FILE") fp ++ k1 :: k2 :: fd1 :: fd2 :: srv :: so :: b :: li :: client :: sched ->
  0 <= fd1 -> 0 <= fd2 -> 0 <= b -> 0 <= client -> client <> fd1 -> client <> fd2 ->
  Forall op_ok ops -> Forall simics_ok rsps -> length rsps = length ops ->
  pending client w = concat (map to_bytes ops) -> pending fd2 w = concat (map to_bytes rsps) ->
  live m (720 * length ops + 1) (set_sched sched w) -> (length ops < fuel)%nat ->
  wp (ThinServer.main fuel) (fun _ _ _ => False)
     (fun h g' w' => h = Blocked /\
        written fd1 w' = written fd1 w ++ concat (map to_bytes (numbered (t_seq g) ops)) /\
        written client w' = written client w ++ concat (map to_bytes (zip_with serve_reply ops rsps)))
     g w.
Proof.
  intros Henv Hs H1 H2 Hb Hcl Hn1 Hn2 Hops Hrsps Hlen Hp1 Hp2 HL Hf. unfold ThinServer.main. do 2 boot. apply wp_bind.
  eapply wp_log_init_is; [exact Hs|]. intros w1 Hs1 He1 I1. boot. boot. rewrite He1, Henv.
  unfold ThinServer.open_pipes.
  repeat (lazymatch goal with |- wp (serve _ _) _ _ _ _ => fail | _ => boot end).
  eapply wp_mono; [apply (serve_session (m := m) client ops rsps fuel)|..]; try done.
  - io. exact Hp1.
  - cbn [t_rep_fd set_t_rep_fd set_t_req_fd]. io. exact Hp2.
  - cbn beta. intros h g' w' (-> & Hw1 & Hw2). revert Hw1 Hw2.
    cbn [t_req_fd t_seq set_t_rep_fd set_t_req_fd]. io. done.
Qed.

(** ** daemon-doe.c *)

Section daemon.
Variables (devfd sockfd : Z) (dev_sock : devfd <> sockfd).

(** What [poll], the two transfers with the server and the two with the device return. *)
Lemma daemon_iter_is op req ans rest (mem : list byte) w p r c1 c2 c3 c4 sched :
  op_ok op -> op_ok ans -> length mem = 16%nat ->
  pending devfd w = to_bytes op ++ req -> pending sockfd w = to_bytes ans ++ rest ->
  w_sched w = p :: r :: c1 :: c2 :: c3 :: c4 :: sched ->
  0 <= p -> Z.land r POLLIN <> 0 -> 16 <= c1 -> 16 <= c2 -> 16 <= c3 -> 0 <= c4 ->
  wp (daemon_iter devfd sockfd)
     (fun go mem' w' => go = true /\ mem' = to_bytes ans /\ w_sched w' = sched /\
        pending devfd w' = req /\ pending sockfd w' = rest /\
        written sockfd w' = written sockfd w ++ to_bytes op /\
        written devfd w' = written devfd w ++ take (Z.to_nat c4) (to_bytes ans))
     never mem w.
Proof.
  intros Hop Hans Hmem Hpd Hps Hs Hp Hr H1 H2 H3 H4.
  pose proof (length_to_bytes (CStructLaws := op_laws) op Hop) as Hl.
  unfold daemon_iter, sys_poll. boot. boot. boot. boot. boot. eapply wp_next_is; [reflexivity|]. boot.
  boot. rewrite (proj2 (truth_true _) Hr). apply wp_bind.
  eapply (wp_read_is (H := op_struct) _ op req c1); [done|cbn; lia|by io|done|done|].
  intros w1 I1 S1. change (Z.of_nat (sizeof avery_pci_config_op)) with 16. boot. boot. boot. boot. boot.
  rewrite splice_all by (rewrite Hl; done). rewrite of_to_bytes by exact Hop. boot. boot.
  eapply (wp_send_is (H := op_struct) _ _ op c2); [done|cbn; lia|done|done|]. intros w2 I2 S2.
  eapply (wp_recv_is (H := op_struct) _ _ ans rest c3); [done|cbn; lia|by io|done|done|]. intros w3 I3 S3.
  rewrite of_to_bytes by exact Hans. boot. boot. boot. boot. boot.
  eapply (wp_write_is _ (to_bytes ans) c4); [done|done|]. intros w4 I4 S4.
  boot. boot. do 3 (split; [done|]). repeat (split; [by io|]). by io.
Qed.

(** A round: the access, its answer, and the results of its calls. *)
Record round : Type := Round {
  r_op : avery_pci_config_op;
  r_ans : avery_pci_config_op;
  r_results : list Z;
}.

Definition round_ok (x : round) : Prop :=
  op_ok (r_op x) /\ op_ok (r_ans x) /\
  exists p r c1 c2 c3 c4, r_results x = [p; r; c1; c2; c3; c4] /\
    0 <= p /\ Z.land r POLLIN <> 0 /\ 16 <= c1 /\ 16 <= c2 /\ 16 <= c3 /\ 16 <= c4.

(** Rounds until [poll] fails. *)
Lemma daemon_rounds l : forall fuel (mem : list byte) w req rest p sched,
  Forall round_ok l -> length mem = 16%nat ->
  pending devfd w = concat (map (fun x => to_bytes (r_op x)) l) ++ req ->
  pending sockfd w = concat (map (fun x => to_bytes (r_ans x)) l) ++ rest ->
  w_sched w = concat (map r_results l) ++ p :: sched -> p < 0 -> (length l < fuel)%nat ->
  wp (forever fuel (daemon_iter devfd sockfd))
     (fun _ mem' w' => w_sched w' = sched /\ pending devfd w' = req /\ pending sockfd w' = rest /\
        written sockfd w' = written sockfd w ++ concat (map (fun x => to_bytes (r_op x)) l) /\
        written devfd w' = written devfd w ++ concat (map (fun x => to_bytes (r_ans x)) l))
     never mem w.
Proof.
  induction l as [|x l IH]; intros fuel mem w req rest p sched Hl Hm Hpd Hps Hs Hp Hf;
    (destruct fuel as [|fuel]; [simpl in Hf; lia|]); cbn [forever]; apply wp_bind.
  - cbn [map concat app] in Hs. unfold daemon_iter, sys_poll. boot. boot. boot.
    destruct (Z.ltb_spec p 0) as [H|H]; [|lia]. boot. destruct (Z.ltb_spec p 0); [|lia]. boot. boot. boot. boot.
    do 3 (split; [done|]). cbn [map concat]. by rewrite !app_nil_r.
  - apply Forall_cons_1 in Hl as [(Hop & Hans & p' & r & c1 & c2 & c3 & c4 & E & H0 & Hr & H1 & H2 & H3 & H4) Hl].
    cbn [map concat] in *. rewrite E in Hs. cbn [app] in Hs. rewrite <- app_assoc in Hpd, Hps.
    eapply wp_mono; [eapply (daemon_iter_is (r_op x) _ (r_ans x) _ mem w p' r c1 c2 c3 c4)|..]; try done; try lia.
    cbn beta. intros go mem' w' (-> & -> & S1 & D1 & D2 & W1 & W2).
    pose proof (length_to_bytes (CStructLaws := op_laws) _ Hans) as Hla.
    rewrite take_ge in W2 by (rewrite Hla; cbn; lia).
    eapply wp_mono; [apply (IH fuel _ w' req rest p sched); try done|..]; [cbn [length] in Hf; lia| |done].
    cbn beta. intros _ mem2 w2 (S2 & D3 & D4 & W3 & W4). do 3 (split; [done|]).
    by rewrite W3, W4, W1, W2, <- !app_assoc.
Qed.

(** [poll] reports something else than [POLLIN], again and again. *)
Lemma daemon_spins n : forall fuel r (mem : list byte) w,
  Z.land r POLLIN = 0 -> w_sched w = concat (replicate n [1; r]) -> (n < fuel)%nat ->
  wp (forever fuel (daemon_iter devfd sockfd)) (fun _ _ _ => False)
     (fun h mem' w' => h = Blocked /\ mem' = mem /\ w_sched w' = [] /\
        (forall fd, pending fd w' = pending fd w) /\ (forall fd, written fd w' = written fd w))
     mem w.
Proof.
  induction n as [|n IH]; intros fuel r mem w Hr Hs Hf;
    (destruct fuel as [|fuel]; [lia|]); cbn [forever]; apply wp_bind; unfold daemon_iter, sys_poll.
  - do 3 apply wp_bind. unfold wp, next. by rewrite Hs.
  - cbn [replicate concat app] in Hs. boot. boot. boot. boot. boot. eapply wp_next_is; [reflexivity|]. boot.
    boot. rewrite (proj2 (truth_false _) Hr). boot.
    eapply wp_mono; [apply (IH fuel r); [done|done|lia]|done|done].
Qed.
End daemon.

Lemma daemon_main_live l fuel (mem : list byte) w fp devfd sockfd pton conn req rest p e1 e2 sched :
  w_sched w = logger (w_env w "CXL_LOG_FILE") fp ++
    devfd :: sockfd :: pton :: conn :: concat (map r_results l) ++ p :: e1 :: e2 :: sched ->
  0 <= devfd -> 0 <= sockfd -> 0 < pton -> 0 <= conn -> devfd <> sockfd -> p < 0 ->
  Forall round_ok l -> length mem = 16%nat ->
  pending devfd w = concat (map (fun x => to_bytes (r_op x)) l) ++ req ->
  pending sockfd w = concat (map (fun x => to_bytes (r_ans x)) l) ++ rest -> (length l < fuel)%nat ->
  wp (DaemonDoe.main fuel)
     (fun r mem' w' => r = 0 /\ w_sched w' = sched /\ pending devfd w' = req /\ pending sockfd w' = rest /\
        written sockfd w' = written sockfd w ++ concat (map (fun x => to_bytes (r_op x)) l) /\
        written devfd w' = written devfd w ++ concat (map (fun x => to_bytes (r_ans x)) l))
     never mem w.
Proof.
  intros Hs H1 H2 H3 H4 Hne Hp Hl Hm Hpd Hps Hf. unfold DaemonDoe.main. do 2 boot. apply wp_bind.
  eapply wp_log_init_is; [exact Hs|]. intros w1 Hs1 He1 I1. unfold DaemonDoe.connect_remote.
  repeat (lazymatch goal with |- wp (forever _ _) _ _ _ _ => fail | _ => boot end).
  eapply wp_mono; [eapply (daemon_rounds devfd sockfd Hne l fuel)|..]; try done.
  - io. exact Hpd.
  - io. exact Hps.
  - cbn beta. intros _ mem' w' (S & P1 & P2 & W1 & W2). boot. boot. boot. boot. boot.
    boot. boot. split; [done|]. split; [done|]. revert W1 W2. io. done.
Qed.

(** ** remote-rc.c *)

Lemma rc_iter_is c op rest (mem : list byte) w c1 c2 sched :
  op_ok op -> length mem = 16%nat -> pending c w = to_bytes op ++ rest ->
  w_sched w = c1 :: c2 :: sched -> 16 <= c1 -> 16 <= c2 ->
  wp (rc_iter c)
     (fun go mem' w' => go = true /\ length mem' = 16%nat /\ w_sched w' = sched /\ pending c w' = rest /\
        written c w' = written c w ++ to_bytes (emulate op))
     never mem w.
Proof.
  intros Hop Hmem Hp Hs H1 H2. pose proof (length_to_bytes (CStructLaws := op_laws) op Hop) as Hl.
  pose proof (length_to_bytes (CStructLaws := op_laws) _ (emulate_ok op Hop)) as Hle.
  unfold rc_iter. apply wp_bind.
  eapply (wp_read_is (H := op_struct) _ op rest c1); [done|cbn; lia|done|done|done|].
  intros w1 I1 S1. change (Z.of_nat (sizeof avery_pci_config_op)) with 16. boot. boot. boot. boot. boot.
  rewrite splice_all by (rewrite Hl; done). rewrite of_to_bytes by exact Hop. boot. boot. boot. boot. boot.
  eapply (wp_write_is _ _ c2); [done|lia|]. intros w2 I2 S2.
  rewrite take_ge in I2 by (rewrite Hle; cbn; lia). rewrite Hle.
  replace (Z.of_nat (Nat.min _ _) =? 16) with true by (symmetry; apply Z.eqb_eq; cbn; lia).
  cbn [negb]. boot. boot. boot. do 3 (split; [done|]). split; by io.
Qed.

(** Whole accesses until the connection ends. *)
Lemma rc_rounds c ops : forall fuel (mem : list byte) w results n sched,
  Forall op_ok ops -> length mem = 16%nat -> pending c w = concat (map to_bytes ops) ->
  length results = (2 * length ops)%nat -> Forall (fun r => 16 <= r) results ->
  w_sched w = results ++ n :: sched -> n <= 0 -> (length ops < fuel)%nat ->
  wp (forever fuel (rc_iter c))
     (fun _ mem' w' => w_sched w' = sched /\ pending c w' = [] /\
        written c w' = written c w ++ concat (map (fun op => to_bytes (emulate op)) ops))
     never mem w.
Proof.
  induction ops as [|op ops IH]; intros fuel mem w results n sched Hops Hm Hp Hlr Hr Hs Hn Hf;
    (destruct fuel as [|fuel]; [simpl in Hf; lia|]); cbn [forever]; apply wp_bind.
  - destruct results; [|done]. unfold rc_iter. apply wp_bind. unfold wp at 1, sys_read.
    cbn [app] in Hs. rewrite Hs. destruct (Z.leb_spec n 0); [|lia]. cbn beta iota.
    destruct (Z.leb_spec n 0); [|lia]. boot. boot. boot. boot. cbn [map concat]. rewrite app_nil_r. done.
  - apply Forall_cons_1 in Hops as [Hop Hops]. cbn [map concat length] in *.
    destruct results as [|c1 [|c2 results]]; cbn [length] in Hlr; [lia..|].
    apply Forall_cons_1 in Hr as [H1 Hr]. apply Forall_cons_1 in Hr as [H2 Hr]. cbn [app] in Hs.
    eapply wp_mono; [eapply (rc_iter_is c op _ mem w c1 c2)|..]; try done.
    cbn beta. intros go mem' w' (-> & Hm' & S1 & D1 & W1).
    eapply wp_mono; [apply (IH fuel mem' w' results n sched); try done; lia|..]; [|done].
    cbn beta. intros _ mem2 w2 (S2 & D2 & W2). do 2 (split; [done|]). by rewrite W2, W1, <- app_assoc.
Qed.

Lemma rc_main_live ops fuel (mem : list byte) w s o b l c results n e1 e2 sched :
  w_sched w = s :: o :: b :: l :: c :: results ++ n :: e1 :: e2 :: sched ->
  0 <= s -> 0 <= o -> 0 <= b -> 0 <= l -> 0 <= c -> n <= 0 ->
  length results = (2 * length ops)%nat -> Forall (fun r => 16 <= r) results ->
  Forall op_ok ops -> length mem = 16%nat -> pending c w = concat (map to_bytes ops) -> (length ops < fuel)%nat ->
  wp (RemoteRc.main fuel)
     (fun r mem' w' => r = 0 /\ w_sched w' = sched /\ pending c w' = [] /\
        written c w' = written c w ++ concat (map (fun op => to_bytes (emulate op)) ops))
     never mem w.
Proof.
  intros Hs H1 H2 H3 H4 H5 Hn Hlr Hr Hops Hm Hp Hf. unfold RemoteRc.main.
  repeat (lazymatch goal with |- wp (forever _ _) _ _ _ _ => fail | _ => boot end).
  eapply wp_mono; [eapply (rc_rounds c ops fuel)|..]; try done.
  cbn beta. intros _ mem' w' (S & P & W). boot. boot. boot. boot. boot. split; [done|]. split; [done|].
  revert W. io. done.
Qed.
