(* ===== verification/NlSession.v ===== *)
(** * The netlink daemon from [main], and the requests it rejects

    A session of daemon-doe-netlink.c from its first line: it connects, learns its
    family, registers and serves requests; and what [nl_recv_request] does with
    datagrams that are not requests for an access. *)
From S2P Require Import Prelude Bytes CMonad Log Wire ByteIO Sessions Netlink NetlinkSpec.

(** ** A session *)

(** A request, the server's answer to it, and the results of the calls of its round. *)
Record nl_round : Type := NlRound {
  n_sq      : Z;
  n_port    : Z;
  n_op      : avery_pci_config_op;
  n_msg     : list byte;
  n_ans     : avery_pci_config_op;
  n_pid     : Z;
  n_results : list Z;
}.

Definition nl_round_ok (x : nl_round) : Prop :=
  request_datagram (n_sq x) (n_port x) (n_op x) (n_msg x) /\ op_ok (n_ans x) /\
  exists c1 c2 c3 c5, n_results x = [c1; c2; c3; n_pid x; c5] /\ 0 < c1 /\ 16 <= c2 /\ 16 <= c3 /\ 0 <= c5.

(** The datagram that answers it. *)
Definition nl_response (family : Z) (x : nl_round) : list byte :=
  response_datagram family (n_pid x) (n_sq x) (to_bytes (n_ans x)).

Section session.
Variables (junk4096 junk8192 : list byte) (fuel : nat).
Hypothesis Hfuel : (1024 <= fuel)%nat.

(** With no datagram queued, the daemon waits. *)
Lemma nl_iter_waits sockfd g w c sched :
  w_sched w = c :: sched -> 0 < c -> w_nlin w = [] -> nl_iter junk4096 fuel sockfd g w = Halt Blocked g w.
Proof.
  intros Hs Hc Hn. unfold nl_iter, nl_recv_request, mbind, C_bind, sys_recv_msg. rewrite Hs, Hn.
  by destruct (Z.leb_spec c 0); [lia|].
Qed.

Lemma nl_rounds sockfd l : forall n g w rest c sched,
  Forall nl_round_ok l -> w_nlin w = map n_msg l ->
  pending sockfd w = concat (map (fun x => to_bytes (n_ans x)) l) ++ rest ->
  w_sched w = concat (map n_results l) ++ c :: sched -> 0 < c -> (length l < n)%nat ->
  wp (forever n (nl_iter junk4096 fuel sockfd)) (fun _ _ _ => False)
     (fun h g' w' => h = Blocked /\ w_nlout w' = w_nlout w ++ map (nl_response (family_id g)) l /\
        pending sockfd w' = rest /\
        written sockfd w' = written sockfd w ++ concat (map (fun x => to_bytes (n_op x)) l))
     g w.
Proof.
  induction l as [|x l IH]; intros n g w rest c sched Hl Hn Hp Hs Hc Hf;
    (destruct n as [|n]; [simpl in Hf; lia|]); cbn [forever]; apply wp_bind; cbn [map concat] in *.
  - unfold wp. rewrite (nl_iter_waits sockfd g w c sched) by done. by rewrite !app_nil_r.
  - apply Forall_cons_1 in Hl as [(Hr & Ha & c1 & c2 & c3 & c5 & E & H1 & H2 & H3 & H5) Hl].
    rewrite E in Hs. cbn [app] in Hs. rewrite <- app_assoc in Hp.
    eapply wp_mono; [eapply (nl_iter_served _ _ Hfuel g w sockfd); [exact Hs|done..|exact Hn|exact Hr|done|exact Hp]|..];
      [|done].
    cbn beta. intros go g' w' (-> & -> & S1 & N1 & O1 & P1 & W1).
    eapply wp_mono; [apply (IH n _ w' rest c sched); try done; cbn [length] in Hf; lia|done|].
    cbn beta. intros h g2 w2 (-> & O2 & P2 & W2). split; [done|]. cbn [family_id] in O2.
    rewrite O2, W2, O1, W1, <- !app_assoc. done.
Qed.

(** A round whose [recv] fails: the access has gone out, the request goes back as its own
    response, and the answer that comes later stays in the connection. *)
Lemma nl_iter_unanswered g w sockfd c1 c2 c3 mypid c5 sched m ms sq pid op :
  w_sched w = c1 :: c2 :: c3 :: mypid :: c5 :: sched -> 0 < c1 -> 16 <= c2 -> c3 <= 0 -> 0 <= c5 ->
  w_nlin w = m :: ms -> request_datagram sq pid op m ->
  wp (nl_iter junk4096 fuel sockfd)
     (fun go g' w' => go = true /\ g' = NlState (family_id g) pid sq (to_bytes op) /\
        w_sched w' = sched /\ w_nlin w' = ms /\
        w_nlout w' = w_nlout w ++ [response_datagram (family_id g) mypid sq (to_bytes op)] /\
        pending sockfd w' = pending sockfd w /\ written sockfd w' = written sockfd w ++ to_bytes op) never g w.
Proof.
  intros Hs Hc1 Hc2 Hc3 Hc5 Hn Hr. pose proof (request_datagram_op _ _ _ _ Hr) as Hop.
  assert (length (to_bytes op) = 16%nat) as Hlo by by apply (length_to_bytes (CStructLaws := op_laws)).
  unfold nl_iter. apply wp_bind. unfold wp at 1.
  rewrite (nl_recv_request_ok _ _ Hfuel _ _ _ _ _ _ _ _ _ Hs Hc1 Hn Hr). change (truth 0) with false. cbv iota.
  apply wp_bind, wp_get, wp_bind, wp_emit, wp_bind. unfold wp at 1, sys_write.
  cbn [w_sched add_event set_nlin set_sched op_mem]. destruct (Z.leb_spec c2 0); [lia|].
  rewrite Hlo. replace (Nat.min (Z.to_nat c2) 16) with 16%nat by lia.
  apply wp_bind. unfold wp at 1, sys_read. cbn [w_sched add_event set_nlin set_sched set_out].
  destruct (Z.leb_spec c3 0); [|lia]. apply wp_bind, wp_modify. cbn [op_mem set_op_mem].
  rewrite splice_nil. apply wp_bind, wp_get, wp_bind, wp_emit, wp_bind.
  eapply wp_mono; [by apply (nl_send_response_ok _ Hfuel _ _ mypid c5 sched)|..]; [|done].
  cbn beta. intros _ g' w' (-> & H1 & H2 & H3 & H4 & H5). apply wp_ret.
  do 5 (split; [done|]). unfold pending, written. rewrite H4, H5.
  cbn [w_in w_out set_in set_out add_event set_nlin set_sched].
  rewrite lookup_insert_eq. split; [done|]. cbn [default]. by rewrite take_ge by lia.
Qed.

(** The rounds [l], each with the answer to the request before it, [a] for the first. *)
Fixpoint shifted (a : avery_pci_config_op) (l : list nl_round) : list nl_round :=
  match l with
  | [] => []
  | x :: l => NlRound (n_sq x) (n_port x) (n_op x) (n_msg x) a (n_pid x) (n_results x) :: shifted (n_ans x) l
  end.

Lemma shifted_same {A} (f : nl_round -> A) l a :
  (forall x b, f (NlRound (n_sq x) (n_port x) (n_op x) (n_msg x) b (n_pid x) (n_results x)) = f x) ->
  map f (shifted a l) = map f l.
Proof. intros Hf. revert a. induction l as [|x l IH]; intros a; [done|]. cbn. by rewrite Hf, IH. Qed.

Lemma shifted_ok l a : op_ok a -> Forall nl_round_ok l -> Forall nl_round_ok (shifted a l).
Proof.
  intros Ha Hl. revert a Ha. induction Hl as [|x l (H1 & H2 & H3) _ IH]; intros a Ha; constructor; [|by apply IH].
  by split.
Qed.

Lemma last_cons_default {A} (l : list A) : forall a b, last (b :: l) a = last l b.
Proof. induction l as [|c l IH]; intros a b; [done|]. change (last (b :: c :: l) a) with (last (c :: l) a). by rewrite !IH. Qed.

Lemma shifted_answers l a : map n_ans (shifted a l) ++ [last (map n_ans l) a] = a :: map n_ans l.
Proof.
  revert a. induction l as [|x l IH]; intros a; [done|]. cbn [shifted map n_ans app].
  by rewrite last_cons_default, IH.
Qed.

(** One [recv] that fails puts every later response one request behind. *)
Lemma nl_rounds_late sockfd l a g w c1 c2 c3 mypid c5 c sched m sq pid op n :
  w_sched w = c1 :: c2 :: c3 :: mypid :: c5 :: concat (map n_results l) ++ c :: sched ->
  0 < c1 -> 16 <= c2 -> c3 <= 0 -> 0 <= c5 -> 0 < c ->
  request_datagram sq pid op m -> op_ok a -> Forall nl_round_ok l -> w_nlin w = m :: map n_msg l ->
  pending sockfd w = concat (map to_bytes (a :: map n_ans l)) -> (S (length l) < n)%nat ->
  wp (forever n (nl_iter junk4096 fuel sockfd)) (fun _ _ _ => False)
     (fun h g' w' => h = Blocked /\
        w_nlout w' = w_nlout w ++ response_datagram (family_id g) mypid sq (to_bytes op) ::
                     map (nl_response (family_id g)) (shifted a l) /\
        pending sockfd w' = to_bytes (last (map n_ans l) a))
     g w.
Proof.
  intros Hs H1 H2 H3 H5 Hc Hr Ha Hl Hn Hp Hf. destruct n as [|n]; [lia|]. cbn [forever]. apply wp_bind.
  eapply wp_mono; [eapply (nl_iter_unanswered g w sockfd); [exact Hs|done..|exact Hn|exact Hr]|..]; [|done].
  cbn beta. intros go g' w' (-> & -> & S1 & N1 & O1 & P1 & W1).
  eapply wp_mono; [eapply (nl_rounds sockfd (shifted a l) n _ w' (to_bytes (last (map n_ans l) a)) c sched)|..].
  - by apply shifted_ok.
  - by rewrite N1, shifted_same.
  - rewrite P1, Hp, <- shifted_answers, map_app, concat_app, map_map. cbn [map concat].
    by rewrite app_nil_r.
  - by rewrite S1, shifted_same.
  - done.
  - rewrite <- (length_map n_sq), shifted_same, length_map by done. lia.
  - done.
  - cbn beta. intros h g2 w2 (-> & O2 & P2 & W2). split; [done|]. cbn [family_id] in O2.
    by rewrite O2, O1, <- app_assoc.
Qed.

Lemma nl_main_live l g w sockfd pton conn nls pid0 bnd pid1 s1 r1 pid2 s2 c sched
    ver type flags sq pid cmd skipped id others rest :
  let m := genl_msg ver type flags sq pid cmd (skipped ++ (CTRL_ATTR_FAMILY_ID, le_encode 2 id) :: others) in
  w_sched w = sockfd :: pton :: conn :: nls :: pid0 :: bnd :: pid1 :: s1 :: r1 :: pid2 :: s2 ::
              concat (map n_results l) ++ c :: sched ->
  0 <= sockfd -> 0 < pton -> 0 <= conn -> 0 <= s1 -> 0 < r1 -> 0 <= s2 -> 0 < c ->
  Forall attr_ok skipped -> Forall (fun a => fst a <> CTRL_ATTR_FAMILY_ID) skipped ->
  (length skipped < fuel)%nat -> (length m <= reply_size)%nat -> u16 id ->
  w_nlin w = m :: map n_msg l -> Forall nl_round_ok l ->
  pending sockfd w = concat (map (fun x => to_bytes (n_ans x)) l) ++ rest -> (length l < fuel)%nat ->
  wp (Netlink.main junk4096 junk8192 fuel) (fun _ _ _ => False)
     (fun h g' w' => h = Blocked /\
        w_nlout w' = w_nlout w ++
          [query_datagram pid1; register_datagram id pid2] ++ map (nl_response id) l /\
        pending sockfd w' = rest /\
        written sockfd w' = written sockfd w ++ concat (map (fun x => to_bytes (n_op x)) l))
     g w.
Proof.
  intros m Hs H1 H2 H3 H4 H5 H6 Hc Hok Hne Hlf Hm Hid Hn Hl Hp Hf. unfold Netlink.main, connect_remote.
  repeat (lazymatch goal with |- wp (nl_get_family_id _ _) _ _ _ _ => fail | _ => boot end).
  eapply (wp_mono _ _ _ never);
    [eapply (nl_get_family_id_ok junk8192 fuel _ _ pid1 s1 r1 _ ver type flags sq pid cmd skipped id others);
     [reflexivity|done|done|exact Hn|done|done|done|exact Hm|done]|..]; [|done].
  cbn beta. intros r g1 w1 (-> & -> & N1 & O1 & S1 & I1 & I2). boot. boot. boot. boot. boot.
  eapply (wp_mono _ _ _ never); [eapply (nl_register_ok _ _ pid2 s2); exact S1|..]; [|done].
  cbn beta. intros _ g2 w2 (-> & O2 & _ & S2 & N2 & J1 & J2). boot. boot. boot.
  rewrite (proj2 (Z.ltb_ge _ _) H6) in O2. unfold printf.
  eapply wp_mono; [eapply (nl_rounds sockfd l fuel _ _ rest c sched)|..]; try done.
  - cbn [w_nlin add_event]. rewrite N2. exact N1.
  - unfold pending. cbn [w_in add_event]. rewrite J1. cbn [w_in add_event]. rewrite I1. exact Hp.
  - cbn beta. intros h g' w' (-> & O3 & P3 & W3). split; [done|]. split; [|split; [done|]].
    + rewrite O3. cbn [w_nlout add_event family_id set_family_id]. rewrite O2. cbn [w_nlout add_event]. rewrite O1.
      cbn [family_id set_family_id w_nlout add_event set_sched]. by rewrite <- !app_assoc.
    + rewrite W3. unfold written. cbn [w_out add_event]. rewrite J2. cbn [w_out add_event]. by rewrite I2.
Qed.
End session.

(** ** Datagrams that are not requests for an access *)

Lemma attr_walk_none fuel l want post : forall pre,
  Forall attr_ok l -> Forall (fun a => fst a <> want) l -> (length l <= fuel)%nat ->
  attr_walk fuel (pre ++ encode_attrs l ++ post) (Z.of_nat (length pre))
    (Z.of_nat (length (encode_attrs l))) want = NotFound.
Proof.
  revert fuel. induction l as [|[t p] l IH]; intros fuel pre Hok Hne Hf; [by destruct fuel|].
  destruct fuel as [|fuel]; [simpl in Hf; lia|].
  apply Forall_cons_1 in Hok as [Ha Hok]. apply Forall_cons_1 in Hne as [Hn Hne]. cbn [fst] in Hn.
  change (encode_attrs ((t, p) :: l)) with (encode_attr (t, p) ++ encode_attrs l) in *.
  pose proof (length_encode_attr_min (t, p)) as Hmin.
  rewrite length_app, Nat2Z.inj_add, <- app_assoc. rewrite attr_walk_step by (try done; lia).
  destruct (Z.eqb_spec t want); [done|]. rewrite app_assoc.
  replace (Z.of_nat (length (encode_attr (t, p))) + Z.of_nat (length (encode_attrs l)) -
    Z.of_nat (length (encode_attr (t, p)))) with (Z.of_nat (length (encode_attrs l))) by lia.
  apply IH; [done|done|simpl in Hf; lia].
Qed.

(** Everything up to the attributes of a request. *)
Lemma parse_request_walk ver type flags sq pid body junk n fuel g w :
  u32 sq -> u32 pid -> u32 n ->
  nl_parse_request fuel (msg_buf ver type flags sq pid AVERY_CMD_REQUEST body junk n) g w =
  (found ← walked (attr_walk fuel (msg_buf ver type flags sq pid AVERY_CMD_REQUEST body junk n) 20 (attr_bytes n) AVERY_ATTR_OP);
   match found with
   | Some off =>
       op ← checked (load (off + 4) 16 (msg_buf ver type flags sq pid AVERY_CMD_REQUEST body junk n));
       modify (set_op_mem op);;
       mret 0
   | None => mret (-1)
   end) (set_pending pid sq g) w.
Proof.
  intros Hsq Hpid Hn. unfold nl_parse_request, u32_at, checked, mbind, C_bind.
  change NLMSG_HDRLEN with 16. change NLA_HDRLEN with 4. change (16 + GENL_HDRLEN) with 20.
  rewrite load_cmd, load_pid, load_seq, load_len. cbn -[le_encode le_decode attr_walk load attr_bytes msg_buf].
  change (le_decode (le_encode 1 AVERY_CMD_REQUEST) =? AVERY_CMD_REQUEST) with true.
  cbn -[le_encode le_decode attr_walk load attr_bytes msg_buf]. rewrite !le_decode_encode_u32 by done. reflexivity.
Qed.

(** Whatever the buffer holds: another command ends the parsing at once. *)
Lemma parse_other_command buf b fuel g w :
  buf !! 16%nat = Some b -> byte_to_Z b <> AVERY_CMD_REQUEST ->
  nl_parse_request fuel buf g w = Ok (-1) g w.
Proof.
  intros Hb Hne. unfold nl_parse_request. change NLMSG_HDRLEN with (Z.of_nat 16).
  rewrite (load_byte _ _ _ Hb). unfold mbind at 1, C_bind at 1. cbn [checked mret C_ret].
  by rewrite le_decode_byte, (proj2 (Z.eqb_neq _ _) Hne).
Qed.

(** Whatever the buffer holds: with the command of a request the walk decides. *)
Lemma parse_request_walks buf b :
  buf !! 16%nat = Some b -> byte_to_Z b = AVERY_CMD_REQUEST ->
  exists len pid sq, load 0 4 buf = Some len /\ load 12 4 buf = Some pid /\ load 8 4 buf = Some sq /\
  forall fuel g w, nl_parse_request fuel buf g w =
    (found ← walked (attr_walk fuel buf 20 (attr_bytes (le_decode len)) AVERY_ATTR_OP);
     match found with
     | Some off => op ← checked (load (off + 4) 16 buf); modify (set_op_mem op);; mret 0
     | None => mret (-1)
     end) (set_pending (le_decode pid) (le_decode sq) g) w.
Proof.
  intros Hb Hc. pose proof (lookup_lt_Some _ _ _ Hb) as Hl.
  assert (forall off, 0 <= off <= 12 -> exists v, load off 4 buf = Some v) as Hload.
  { intros off Ho. unfold load. destruct (Z.leb_spec 0 off); [|lia].
    destruct (Z.leb_spec (off + Z.of_nat 4) (Z.of_nat (length buf))); [by eexists|lia]. }
  destruct (Hload 0) as [len E0]; [lia|]. destruct (Hload 8) as [sq E8]; [lia|]. destruct (Hload 12) as [pid E12]; [lia|].
  exists len, pid, sq. do 3 (split; [done|]). intros fuel g w.
  unfold nl_parse_request, u32_at. 
  assert (load NLMSG_HDRLEN 1 buf = Some [b]) as -> by exact (load_byte _ _ _ Hb). rewrite E0, E8, E12.
  unfold checked, mbind, C_bind. cbn -[le_decode attr_walk load attr_bytes].
  by rewrite le_decode_byte, Hc.
Qed.

Lemma parse_without_access ver type flags sq pid attrs junk fuel g w :
  u32 sq -> u32 pid -> Forall attr_ok attrs -> Forall (fun a => fst a <> AVERY_ATTR_OP) attrs ->
  (length attrs <= fuel)%nat -> Z.of_nat (length (encode_attrs attrs)) < 2 ^ 31 - 20 ->
  nl_parse_request fuel (genl_msg ver type flags sq pid AVERY_CMD_REQUEST attrs ++ junk) g w =
  Ok (-1) (set_pending pid sq g) w.
Proof.
  intros Hsq Hpid Hok Hne Hf Hl. rewrite genl_msg_buf, parse_request_walk by (try done; cint; lia).
  rewrite attr_bytes_eq by lia. replace (20 + _ - 20) with (Z.of_nat (length (encode_attrs attrs))) by lia.
  assert (attr_walk fuel (msg_buf ver type flags sq pid AVERY_CMD_REQUEST (encode_attrs attrs) junk
    (20 + Z.of_nat (length (encode_attrs attrs)))) 20 (Z.of_nat (length (encode_attrs attrs))) AVERY_ATTR_OP = NotFound) as ->;
    [|done].
  unfold msg_buf. match goal with |- context [attr_walk _ (?h ++ _) _ _ _] => set (hdr := h) end.
  change 20 with (Z.of_nat 20) at 1.
  replace 20%nat with (length hdr) by (unfold hdr; by rewrite !length_app, !length_le_encode).
  by apply attr_walk_none.
Qed.

(** What [nl_recv_request] does with a datagram; it keeps what fits its buffer. *)
Lemma nl_recv_request_takes junk fuel g w c sched m ms :
  w_sched w = c :: sched -> 0 < c -> w_nlin w = m :: ms -> (0 < length m)%nat ->
  nl_recv_request junk fuel g w =
  nl_parse_request fuel (received (take 4096 m) junk) g (set_nlin ms (set_sched sched w)).
Proof.
  intros Hs Hc Hn H0. unfold nl_recv_request, mbind, C_bind, sys_recv_msg. rewrite Hs, Hn.
  destruct (Z.leb_spec c 0); [lia|]. cbn zeta.
  destruct (Z.leb_spec (Z.of_nat (length (take 4096 m))) 0) as [E|]; [|done].
  destruct m; [simpl in H0; lia|]. simpl in E. lia.
Qed.

Lemma nl_recv_request_eq junk fuel g w c sched m ms :
  w_sched w = c :: sched -> 0 < c -> w_nlin w = m :: ms -> (0 < length m)%nat -> (length m <= 4096)%nat ->
  nl_recv_request junk fuel g w =
  nl_parse_request fuel (m ++ drop (length m) junk) g (set_nlin ms (set_sched sched w)).
Proof.
  intros Hs Hc Hn H0 Hl. rewrite (nl_recv_request_takes _ _ _ _ _ _ _ _ Hs Hc Hn H0). by rewrite take_ge by exact Hl.
Qed.

(** Only the walk can fail to end. *)
Lemma walk_out_of_fuel r buf g w :
  (found ← walked r;
   match found with
   | Some off => op ← checked (load (off + 4) 16 buf); modify (set_op_mem op);; mret 0
   | None => mret (-1)
   end) g w = NoFuel -> r = StillWalking.
Proof.
  destruct r as [off| | |]; try done. unfold mbind, C_bind. cbn -[load]. by destruct (load (off + 4) 16 buf).
Qed.

(** A zero-length attribute behind others. *)
Lemma zero_length_stuck junk fuel g w c sched ms ver type flags sq pid skipped ty tail n :
  let m := msg_buf ver type flags sq pid AVERY_CMD_REQUEST
             (encode_attrs skipped ++ le_encode 2 0 ++ le_encode 2 ty ++ tail) [] n in
  w_sched w = c :: sched -> 0 < c -> w_nlin w = m :: ms -> (length m <= 4096)%nat ->
  Forall attr_ok skipped -> Forall (fun a => fst a <> AVERY_ATTR_OP) skipped ->
  u16 ty -> ty <> AVERY_ATTR_OP -> 20 + Z.of_nat (length (encode_attrs skipped)) < n < 2 ^ 31 ->
  nl_recv_request junk fuel g w = NoFuel.
Proof.
  intros m Hs Hc Hn Hm Hok Hne Hty Htn Hlen.
  assert (length m = 20 + (length (encode_attrs skipped) + (4 + length tail)))%nat as El
    by (unfold m, msg_buf; rewrite !length_app, !length_le_encode; simpl; lia).
  rewrite (nl_recv_request_eq _ _ _ _ _ _ _ _ Hs Hc Hn) by (lia || exact Hm).
  set (buf := m ++ drop (length m) junk).
  set (hdr := le_encode 4 n ++ le_encode 2 type ++ le_encode 2 flags ++ le_encode 4 sq ++ le_encode 4 pid ++
     le_encode 1 AVERY_CMD_REQUEST ++ le_encode 1 ver ++ le_encode 2 0).
  assert (length hdr = 20%nat) as Hh by (unfold hdr; by rewrite !length_app, !length_le_encode).
  set (rest := tail ++ drop (length m) junk).
  assert (buf = hdr ++ encode_attrs skipped ++ (le_encode 2 0 ++ le_encode 2 ty) ++ rest) as Eb.
  { unfold buf, rest, m, msg_buf, hdr. rewrite app_nil_r. by rewrite <- !app_assoc. }
  destruct (parse_request_walks buf (byte_of_Z AVERY_CMD_REQUEST)) as (len & p & s & E0 & _ & _ & Hw).
  { rewrite Eb. unfold hdr. rewrite <- !app_assoc. do 4 (rewrite lookup_app_r by (rewrite ?length_le_encode; simpl; lia)).
    reflexivity. }
  { reflexivity. }
  assert (len = le_encode 4 n) as ->.
  { assert (load 0 4 buf = Some (le_encode 4 n)) as E; [|congruence].
    rewrite Eb. unfold hdr. rewrite <- !app_assoc. by apply (load_mid []). }
  rewrite Hw, le_decode_encode_u32, attr_bytes_eq by (cint; lia).
  assert (visits buf AVERY_ATTR_OP 20 (n - 20) (Z.of_nat (length (hdr ++ encode_attrs skipped)))
    (n - 20 - Z.of_nat (length (encode_attrs skipped)))) as Hv.
  { rewrite Eb. change 20 with (Z.of_nat 20) at 1. rewrite <- Hh at 1. apply visits_skipped; [done|done|lia]. }
  rewrite (visits_stuck _ _ _ _ _ _ Hv); [done|]. split; [lia|].
  exists (le_encode 2 0 ++ le_encode 2 ty). split; [|split].
  - rewrite Eb, app_assoc. by apply load_mid.
  - by rewrite take_app_exact by apply length_le_encode.
  - rewrite drop_app_exact by apply length_le_encode. by rewrite le_decode_encode_u16.
Qed.

(** An access attribute that is too short and stands last. *)
Lemma parse_short_access ver type flags sq pid skipped payload junk fuel g w :
  u32 sq -> u32 pid -> Forall attr_ok skipped -> Forall (fun a => fst a <> AVERY_ATTR_OP) skipped ->
  (length skipped < fuel)%nat -> (length payload < 16)%nat -> (16 <= length junk)%nat ->
  let m := genl_msg ver type flags sq pid AVERY_CMD_REQUEST (skipped ++ [(AVERY_ATTR_OP, payload)]) in
  Z.of_nat (length m) < 2 ^ 31 ->
  nl_parse_request fuel (m ++ junk) g w =
  Ok 0 (NlState (family_id g) pid sq (take 16 (payload ++ attr_pad payload ++ junk))) w.
Proof.
  intros Hsq Hpid Hok Hne Hf Hp Hj m Hm. unfold m in *. rewrite length_genl_msg in Hm.
  rewrite genl_msg_buf, parse_request_walk by (try done; cint; lia).
  rewrite attr_bytes_eq by lia. replace (20 + _ - 20) with
    (Z.of_nat (length (encode_attrs (skipped ++ [(AVERY_ATTR_OP, payload)])))) by lia.
  rewrite encode_attrs_app. change (encode_attrs [(AVERY_ATTR_OP, payload)]) with (encode_attr (AVERY_ATTR_OP, payload) ++ []).
  rewrite app_nil_r. unfold msg_buf. rewrite <- (app_assoc (encode_attrs skipped)).
  match goal with |- context [attr_walk _ (?h ++ _) _ _ _] => set (hdr := h) end.
  assert (length hdr = 20%nat) as Hh by (unfold hdr; by rewrite !length_app, !length_le_encode).
  pose proof (length_encode_attr_min (AVERY_ATTR_OP, payload)) as Hmin.
  change 20 with (Z.of_nat 20) at 1. rewrite <- Hh at 1.
  rewrite attr_walk_found; [|done|done|split; [done|cbn; lia]|rewrite length_app; lia|done].
  set (X := payload ++ attr_pad payload ++ junk).
  set (ah := le_encode 2 (4 + Z.of_nat (length payload)) ++ le_encode 2 AVERY_ATTR_OP).
  assert (hdr ++ encode_attrs skipped ++ encode_attr (AVERY_ATTR_OP, payload) ++ junk =
    (hdr ++ encode_attrs skipped ++ ah) ++ take 16 X ++ drop 16 X) as ->.
  { rewrite take_drop. unfold X, ah, encode_attr. by rewrite <- !app_assoc. }
  cbn [walked]. unfold mbind, C_bind, mret, C_ret. cbn beta iota.
  replace (Z.of_nat (length (hdr ++ encode_attrs skipped)) + 4)
    with (Z.of_nat (length (hdr ++ encode_attrs skipped ++ ah)))
    by (unfold ah; rewrite !length_app, !length_le_encode; lia).
  rewrite load_mid by (unfold X; rewrite length_take, !length_app; lia).
  done.
Qed.

(** An attribute that is skipped and ends beyond the buffer, in a message that
    announces more than that. *)
Lemma parse_overrun ver type flags sq pid len ty tail n junk fuel g w :
  u32 sq -> u32 pid -> u16 len -> u16 ty -> ty <> AVERY_ATTR_OP -> (2 <= fuel)%nat ->
  let buf := msg_buf ver type flags sq pid AVERY_CMD_REQUEST (le_encode 2 len ++ le_encode 2 ty ++ tail) junk n in
  Z.of_nat (length buf) < 20 + NLA_ALIGN len + 4 -> 20 + NLA_ALIGN len < n < 2 ^ 31 ->
  nl_parse_request fuel buf g w = UB.
Proof.
  intros Hsq Hpid Hlen Hty Hne Hf buf Hb Hn. unfold buf in *.
  assert (0 <= NLA_ALIGN len) as Hpos by (rewrite NLA_ALIGN_eq; cint; Z.div_mod_to_equations; lia).
  rewrite parse_request_walk by (try done; cint; lia). rewrite attr_bytes_eq by lia.
  assert (attr_walk fuel (msg_buf ver type flags sq pid AVERY_CMD_REQUEST (le_encode 2 len ++ le_encode 2 ty ++ tail) junk n)
    20 (n - 20) AVERY_ATTR_OP = OutOfBounds) as ->; [|done].
  destruct fuel as [|[|fuel]]; [lia..|]. cbn [attr_walk]. destruct (Z.leb_spec (n - 20) 0); [lia|].
  assert (load 20 4 (msg_buf ver type flags sq pid AVERY_CMD_REQUEST (le_encode 2 len ++ le_encode 2 ty ++ tail) junk n) =
    Some (le_encode 2 len ++ le_encode 2 ty)) as ->.
  { unfold msg_buf. replace ((le_encode 2 len ++ le_encode 2 ty ++ tail) ++ junk)
      with ((le_encode 2 len ++ le_encode 2 ty) ++ tail ++ junk) by (by rewrite <- !app_assoc).
    by apply (load_mid (le_encode 4 n ++ le_encode 2 type ++ le_encode 2 flags ++ le_encode 4 sq ++ le_encode 4 pid ++
     le_encode 1 AVERY_CMD_REQUEST ++ le_encode 1 ver ++ le_encode 2 0)). }
  rewrite take_app_exact, drop_app_exact by apply length_le_encode.
  rewrite !le_decode_encode_u16 by done. destruct (Z.eqb_spec ty AVERY_ATTR_OP); [done|].
  destruct (Z.leb_spec (n - 20 - NLA_ALIGN len) 0); [lia|]. unfold load.
  destruct (Z.leb_spec (20 + NLA_ALIGN len + Z.of_nat 4)
    (Z.of_nat (length (msg_buf ver type flags sq pid AVERY_CMD_REQUEST (le_encode 2 len ++ le_encode 2 ty ++ tail) junk n))));
    [lia|]. by rewrite andb_false_r.
Qed.
