(* ===== verification/RelayProps.v ===== *)
(** * Properties of the relays run by the programs

    In each of the four systems of a daemon and a server, run by their own code in any
    interleaving, the kernel driver gets the answers of the sequential device; and what
    becomes of a relay whose emulator has ended. *)
From S2P Require Import Prelude Bytes CMonad Log Wire ByteIO Mailbox DoeEmu DoeSpec EmuSpec ThinServer DaemonDoe.
From S2P Require Import IoTree RelayCode RelaySpec Link DaemonClient PipeServer DeadEmu Host PciRegs RemoteRc RcServer Boot.
From S2P Require Import Netlink NetlinkSpec NlClient NlStart NlFaults Relays.

(** ** A concrete system for the witnesses: a status read and a write *)

Definition quiet_world : world := World (fun _ => None) [] ∅ ∅ [] [] 0 [].
Definition zeroed : list byte := replicate 16 Byte.x00.
Definition two_accesses : list mb_access := [MbRead 0x0c; MbWrite 0x10 7].
Definition asked_ops : list avery_pci_config_op := map (access_op 0x190) two_accesses.
Definition based_emu : emu := Emu (set_cap_detected 1 (set_cap_base 0x190 doe_zero)) 5 6.

Definition relay_start : link (proc (list byte)) pipes avery_pci_config_op avery_pci_config_op :=
  relay_init 3 4 7 5 6 asked_ops zeroed 0 based_emu quiet_world quiet_world quiet_world.

(** Where the executable scheduler leaves it. *)
Definition relay_rest : link (proc (list byte)) pipes avery_pci_config_op avery_pci_config_op :=
  lexec (daemon_next 3 4) (pipe_step 7 5 6 5 6) 200 relay_start.

Lemma asked_ops_ok : Forall op_ok asked_ops.
Proof. apply Forall_map. by do 2 (constructor; [by apply access_op_ok|]). Qed.

Lemma based_emu_ok : doe_ok (doe based_emu).
Proof. split; cbn; try done; try lia; auto; try (by repeat constructor). Qed.

Lemma relay_rest_reached faults : exists k, nsteps (relay_step 3 4 7 5 6 5 6 faults) k relay_start relay_rest.
Proof. apply lexec_sound; apply _. Qed.

Lemma relay_rest_stuck : ~ (exists x', relay_step 3 4 7 5 6 5 6 false relay_rest x').
Proof. apply (lidle_stuck reading pipe_idle). by vm_compute. Qed.

(** The same from [main]; the environment names the directory of the pipes. *)
Definition pipe_world : world :=
  World (fun name => if String.eqb name "CXL_RELAY_SERVER_PATH" then Some "/tmp/relay" else None) [] ∅ ∅ [] [] 0 [].

Definition main_start : link (proc (list byte)) pipes avery_pci_config_op avery_pci_config_op :=
  relay_main 3 4 7 5 6 5 6 asked_ops zeroed thin_init emu_init quiet_world pipe_world pipe_world.

Definition main_rest : link (proc (list byte)) pipes avery_pci_config_op avery_pci_config_op :=
  lexec (daemon_next 3 4) (pipe_step 7 5 6 5 6) 250 main_start.

Lemma main_rest_reached faults : exists k, nsteps (relay_step 3 4 7 5 6 5 6 faults) k main_start main_rest.
Proof. apply lexec_sound; apply _. Qed.

(** C1: The programs are safe together, from their first line. daemon-doe.c,
    thin-server.c and doe-emu.c start at [main], in any order, and run their own code: in
    every interleaving, for every chunking of the streams and with system calls that fail
    at any moment, start-up included, no process ever leaves an array or has undefined
    behaviour, and the answers given to the kernel driver so far are a prefix of those of
    the sequential device ([device_answers]). *)
Theorem relay_safe dev sock client treq trep ereq erep ops mem wd wt we n x :
  0 <= dev -> 0 <= sock -> 0 <= client -> 0 <= treq -> 0 <= trep -> 0 <= ereq -> 0 <= erep ->
  dev <> sock -> client <> treq -> client <> trep -> Forall op_ok ops -> length mem = 16%nat ->
  nsteps (relay_step dev sock client treq trep ereq erep true) n
         (relay_main dev sock client treq trep ereq erep ops mem thin_init emu_init wd wt we) x ->
  l_client x <> Crashed /\ p_t (l_server x) <> Crashed /\ p_e (l_server x) <> Crashed /\
  l_done x `prefix_of` device_answers dev_init ops.
Proof.
  intros Hdev Hsock Hc Ht1 Ht2 He1 He2 Hd H1 H2 Hops Hm Hn.
  rewrite <- (spec_run_device ops dev_init 0 Hops (Forall_nil_2 _)).
  apply (relay_runs_safe dev sock client treq trep ereq erep Hd H1 H2 ops Hops _ _ _ _ _ n x
    (daemon_main_at true dev sock mem wd Hdev Hsock Hm)
    (pipe_main_at true client treq trep ereq erep thin_init emu_init wt we Hc Ht1 Ht2 He1 He2 ltac:(done)
       (or_introl eq_refl) (or_introl eq_refl)) Hn).
Qed.

Lemma relay_safe_witness : l_done main_rest `prefix_of` device_answers dev_init asked_ops.
Proof.
  destruct (main_rest_reached true) as [k Hk].
  apply (relay_safe 3 4 7 5 6 5 6 asked_ops zeroed quiet_world pipe_world pipe_world k main_rest); try done.
  apply asked_ops_ok.
Defined.

(** C2: The programs always start up and finish together. When the environment names the
    directory of the pipes and no system call fails, a run of the three programs from
    [main], for [length ops] accesses, has a bounded number of steps, and a state from
    which no process can move has every answer, those of the sequential device, in order. *)
Theorem relay_live dev sock client treq trep ereq erep ops mem wd wt we n x :
  0 <= dev -> 0 <= sock -> 0 <= client -> 0 <= treq -> 0 <= trep -> 0 <= ereq -> 0 <= erep ->
  dev <> sock -> client <> treq -> client <> trep -> Forall op_ok ops -> length mem = 16%nat ->
  is_Some (w_env wt "CXL_RELAY_SERVER_PATH") -> is_Some (w_env we "CXL_RELAY_SERVER_PATH") ->
  nsteps (relay_step dev sock client treq trep ereq erep false) n
         (relay_main dev sock client treq trep ereq erep ops mem thin_init emu_init wd wt we) x ->
  (n <= 6 * (1445 * length ops) + 64)%nat /\
  (~ (exists x', relay_step dev sock client treq trep ereq erep false x x') ->
   l_done x = device_answers dev_init ops).
Proof.
  intros Hdev Hsock Hc Ht1 Ht2 He1 He2 Hd H1 H2 Hops Hm Hwt Hwe Hn.
  rewrite <- (spec_run_device ops dev_init 0 Hops (Forall_nil_2 _)).
  destruct (relay_runs_live dev sock client treq trep ereq erep Hd H1 H2 ops Hops _ _ _ _ _ n x
    (daemon_main_at false dev sock mem wd Hdev Hsock Hm)
    (pipe_main_at false client treq trep ereq erep thin_init emu_init wt we Hc Ht1 Ht2 He1 He2 ltac:(done)
       (or_intror Hwt) (or_intror Hwe)) Hn) as [Hb He].
  split; [lia|exact He].
Qed.

Lemma relay_live_witness : l_done main_rest = device_answers dev_init asked_ops.
Proof.
  destruct (main_rest_reached false) as [k Hk].
  refine (proj2 (relay_live 3 4 7 5 6 5 6 asked_ops zeroed quiet_world pipe_world pipe_world k
                   main_rest _ _ _ _ _ _ _ _ _ _ asked_ops_ok _ _ _ Hk) _); try done; try by eexists.
  apply (lidle_stuck reading pipe_idle). by vm_compute.
Defined.

(** C3: A DOE session works end to end. A host whose capability is at any [base] reads STATUS
    and then makes any number of exchanges, each a request of at most 68 words, GO and a
    look at STATUS, and then the whole response or, after ERROR, ABORT. From [main], in
    every interleaving of the programs, when no call fails and nothing is left to do, it has
    got exactly the data objects of the protocol, whether its accesses go through
    daemon-doe.c or, as well-formed datagrams, through daemon-doe-netlink.c. *)
Theorem session_end_to_end base reqs client treq trep ereq erep wt we :
  u32 base -> Forall request_ok reqs ->
  0 <= client -> 0 <= treq -> 0 <= trep -> 0 <= ereq -> 0 <= erep -> client <> treq -> client <> trep ->
  is_Some (w_env wt "CXL_RELAY_SERVER_PATH") -> is_Some (w_env we "CXL_RELAY_SERVER_PATH") ->
  let v := pipe_server client treq trep ereq erep false in
  let s := Pipes (Running thin_init wt (thin_main client treq trep)) [] [] (Running emu_init we (emu_boot ereq erep)) in
  (forall dev sock mem wd n x,
     0 <= dev -> 0 <= sock -> dev <> sock -> length mem = 16%nat ->
     let cl := daemon_client dev sock false in
     nsteps (lstep cl v) n (link_init (session_ops base reqs) (Running mem wd (daemon_main dev sock)) s) x ->
     ~ (exists x', lstep cl v x x') -> l_done x = session_answers base reqs) /\
  (forall junk4096 junk8192 fuel sockfd family mypid qs g w n x,
     (2048 <= fuel)%nat -> 0 <= sockfd -> u16 family -> Forall nl_request_ok qs -> map nq_op qs = session_ops base reqs ->
     let cl := nl_program junk4096 fuel sockfd family mypid in
     nsteps (lstep cl v) n (link_init qs (nl_program_start junk8192 fuel sockfd mypid g w) s) x ->
     ~ (exists x', lstep cl v x x') ->
     l_done x = zip_with (nl_answer family mypid) qs (session_answers base reqs)).
Proof.
  intros Hb Hr Hc Ht1 Ht2 He1 He2 H1 H2 Hwt Hwe v s.
  pose proof (pipe_main_at false client treq trep ereq erep thin_init emu_init wt we Hc Ht1 Ht2 He1 He2 ltac:(done)
    (or_intror Hwt) (or_intror Hwe)) as Hs.
  split.
  - intros dev sock mem wd n x Hdev Hsock Hd Hm cl Hn Hstuck.
    rewrite (proj2 (relay_runs_live dev sock client treq trep ereq erep Hd H1 H2 _ (session_ops_ok base reqs Hr) _ _ _ _ _ n x
      (daemon_main_at false dev sock mem wd Hdev Hsock Hm) Hs Hn) Hstuck).
    by apply session_run.
  - intros junk4096 junk8192 fuel sockfd family mypid qs g w n x Hf Hsock Hfam Hqs Hops cl Hn Hstuck.
    destruct (nl_runs_with _ _ _ _ _ _ Hf Hsock Hfam _ _ _ Hqs _ _ _ _ _ _ _ _ _
      (pipe_laws client treq trep ereq erep false H1 H2) Hs Hn) as (_ & _ & _ & _ & C5).
    rewrite (C5 Hstuck), served_pipes, Hops. f_equal. by apply session_run.
Qed.

(** Discovery of the first protocol, then a request of a vendor that is not known. *)
Definition two_requests : list (list Z) := [[1; 3; 0]; [0x1234; 3; 0]].

Definition session_rest : link (proc (list byte)) pipes avery_pci_config_op avery_pci_config_op :=
  lexec (daemon_next 3 4) (pipe_step 7 5 6 5 6) 1000
    (relay_main 3 4 7 5 6 5 6 (session_ops 0x190 two_requests) zeroed thin_init emu_init quiet_world pipe_world pipe_world).

(** The reply of the controller: version 2, the name, the identifier and three more attributes. *)
Definition nl_controller : list byte :=
  genl_msg 2 16 0 1 42 1 ([(CTRL_ATTR_FAMILY_NAME, family_name_bytes)] ++
    (CTRL_ATTR_FAMILY_ID, le_encode 2 0x1d) :: [(3, le_encode 4 1); (4, le_encode 4 0); (5, le_encode 4 1)]).

Lemma nl_controller_ok : family_reply 0x1d nl_controller.
Proof. apply FamilyReply; [by constructor|by constructor|done|]. apply Nat.leb_le. by vm_compute. Qed.

Definition nl_request_of (op : avery_pci_config_op) : nl_request :=
  NlRequest 9 0 op (encode_msg 0x1d 1 9 0 AVERY_CMD_REQUEST [(AVERY_ATTR_OP, to_bytes op)]).

Lemma nl_request_of_ok op : op_ok op -> nl_request_ok (nl_request_of op).
Proof.
  intros H. apply (RequestDatagram 9 0 op 1 0x1d 1 [] []); try done. rewrite length_genl_msg.
  change ([] ++ [(AVERY_ATTR_OP, to_bytes op)]) with [(AVERY_ATTR_OP, to_bytes op)].
  unfold encode_attrs, encode_attr, attr_pad. cbn [map concat]. rewrite (op_bytes_length op H).
  rewrite !length_app, !length_le_encode, (op_bytes_length op H). apply Nat.leb_le. by vm_compute.
Qed.

(** The same session over netlink; the controller answers with version 2. *)
Definition nl_session : link (proc nl_state * standing) pipes nl_request (list byte) :=
  link_init (map nl_request_of (session_ops 0x190 two_requests))
    (nl_program_start [] 2048 4 42 (NlState 0 0 0 zeroed) quiet_world)
    (Pipes (Running thin_init pipe_world (thin_main 7 5 6)) [] [] (Running emu_init pipe_world (emu_boot 5 6))).
Definition nl_session_rest : link (proc nl_state * standing) pipes nl_request (list byte) :=
  lexec (nl_program_next [] 2048 4 0x1d 42 nl_controller) (pipe_step 7 5 6 5 6) 1500 nl_session.

Lemma session_end_to_end_witness :
  (l_done session_rest = session_answers 0x190 two_requests /\
   map op_value (l_done session_rest) =
     [0; 0; 0; 0; 0; 0x80000000; 1; 0; 4; 0; 1; 0; 1; 0; 0; 0; 0; 0; 4; 0]) /\
  l_done nl_session_rest = map (fun a => response_datagram 0x1d 42 9 (to_bytes a)) (session_answers 0x190 two_requests).
Proof.
  assert (Forall request_ok two_requests) as Hr by (repeat constructor; try (cbn; lia); try done).
  pose proof (session_end_to_end 0x190 two_requests 7 5 6 5 6 pipe_world pipe_world ltac:(done) Hr ltac:(done) ltac:(done)
    ltac:(done) ltac:(done) ltac:(done) ltac:(done) ltac:(done) ltac:(by eexists) ltac:(by eexists)) as [Hd Hnl].
  split.
  - assert (l_done session_rest = session_answers 0x190 two_requests) as E; [|split; [exact E|rewrite E; reflexivity]].
    destruct (lexec_sound (c := daemon_client 3 4 false) (v := pipe_server 7 5 6 5 6 false) (daemon_next 3 4)
      (pipe_step 7 5 6 5 6) 1000 (relay_main 3 4 7 5 6 5 6 (session_ops 0x190 two_requests) zeroed thin_init emu_init
         quiet_world pipe_world pipe_world)) as [k Hk].
    refine (Hd 3 4 zeroed quiet_world k session_rest _ _ _ _ Hk _); try done.
    apply (lidle_stuck reading pipe_idle). by vm_compute.
  - pose proof (nl_program_runs [] 2048 4 0x1d 42 nl_controller nl_controller_ok) as HR.
    destruct (lexec_sound (HCR := HR) (v := pipe_server 7 5 6 5 6 false)
      (nl_program_next [] 2048 4 0x1d 42 nl_controller) (pipe_step 7 5 6 5 6) 1500 nl_session) as [k Hk].
    rewrite (Hnl [] [] 2048%nat 4 0x1d 42 (map nl_request_of (session_ops 0x190 two_requests)) (NlState 0 0 0 zeroed)
      quiet_world k nl_session_rest); [by vm_compute|done|done|done| |by vm_compute|exact Hk|].
    + apply Forall_map. generalize (session_ops_ok 0x190 two_requests Hr). apply Forall_impl. exact nl_request_of_ok.
    + apply (lidle_stuck nl_program_idle pipe_idle). by vm_compute.
Defined.

(** C15: The relay is transparent: when the emulator has its capability at [base], the
    answers that come back for a sequence of register accesses, sent through the three
    programs in any interleaving, are the accesses with status 0 and with the values
    that the abstract mailbox gives, access by access. *)
Theorem relay_transparent dev sock client treq trep ereq erep base l mem sq g wd wt we n x :
  dev <> sock -> client <> treq -> client <> trep ->
  Forall access_ok l -> u32 sq -> doe_ok (doe g) -> length mem = 16%nat -> req_fd g = ereq -> rep_fd g = erep ->
  cap_detected (doe g) <> 0 -> cap_base (doe g) = base ->
  nsteps (relay_step dev sock client treq trep ereq erep false) n
         (relay_init dev sock client treq trep (map (access_op base) l) mem sq g wd wt we) x ->
  ~ (exists x', relay_step dev sock client treq trep ereq erep false x x') ->
  l_done x = zip_with (fun a v => answer_op (access_op base a) v) l (snd (mb_run (absr (doe g)) l)).
Proof.
  intros Hd H1 H2 Hl Hsq Hok Hm Hr1 Hr2 Hcap Hbase Hn Hstuck.
  assert (Forall op_ok (map (access_op base) l)) as Hops.
  { apply Forall_map. revert Hl. apply Forall_impl. intros a. apply access_op_ok. }
  rewrite (proj2 (relay_runs_live _ _ _ _ _ _ _ Hd H1 H2 _ Hops _ _ _ _ _ _ _ (daemon_start_at _ _ _ _ _ Hm)
    (pipe_start_at _ _ _ _ _ _ _ _ _ _ Hsq Hok Hr1 Hr2) Hn) Hstuck).
  unfold abse, absd. rewrite (proj2 (truth_true _) Hcap), Hbase. apply relay_run; [done|].
  unfold mb_ok, absr, response. cbn [mb_rsp]. apply Forall_drop, Forall_take, Hok.
Qed.

Lemma relay_transparent_witness :
  l_done relay_rest = [Op AVERY_OP_READ 0x19c 0 0; Op AVERY_OP_WRITE 0x1a0 0 0].
Proof.
  destruct (relay_rest_reached false) as [k Hk].
  rewrite (relay_transparent 3 4 7 5 6 5 6 0x190 two_accesses zeroed 0 based_emu quiet_world quiet_world quiet_world
             k relay_rest); try done.
  - by do 2 (constructor; [done|]).
  - apply based_emu_ok.
  - exact relay_rest_stuck.
Defined.

(** C14: One message at a time. The channels of the model are unbounded, and need not be:
    in every reachable state of the three programs from [main], whatever has failed, the
    two pipes hold one transaction of 344 bytes at most, in one direction, so that a pipe
    is never full; and without failures the TCP connection holds one access of 16 bytes at
    most, in one direction, and only while the pipes are empty. *)
Theorem relay_in_flight dev sock client treq trep ereq erep ops mem wd wt we faults n x :
  0 <= dev -> 0 <= sock -> 0 <= client -> 0 <= treq -> 0 <= trep -> 0 <= ereq -> 0 <= erep ->
  dev <> sock -> client <> treq -> client <> trep -> Forall op_ok ops -> length mem = 16%nat ->
  (faults = true \/ is_Some (w_env wt "CXL_RELAY_SERVER_PATH")) ->
  (faults = true \/ is_Some (w_env we "CXL_RELAY_SERVER_PATH")) ->
  nsteps (relay_step dev sock client treq trep ereq erep faults) n
         (relay_main dev sock client treq trep ereq erep ops mem thin_init emu_init wd wt we) x ->
  (length (p_req (l_server x)) + length (p_rep (l_server x)) <= 344)%nat /\
  (p_req (l_server x) = [] \/ p_rep (l_server x) = []) /\
  (faults = false ->
   (length (l_up x) + length (l_down x) <= 16)%nat /\ (l_up x = [] \/ l_down x = []) /\
   (l_up x <> [] \/ l_down x <> [] -> p_req (l_server x) = [] /\ p_rep (l_server x) = [])).
Proof.
  intros Hdev Hsock Hc Ht1 Ht2 He1 He2 Hd H1 H2 Hops Hm Hwt Hwe Hn.
  pose proof (daemon_main_at faults dev sock mem wd Hdev Hsock Hm) as Hk.
  pose proof (pipe_main_at faults client treq trep ereq erep thin_init emu_init wt we Hc Ht1 Ht2 He1 He2 ltac:(done) Hwt Hwe) as Hs.
  destruct (relay_runs_pipes dev sock client treq trep ereq erep Hd H1 H2 ops Hops _ _ _ _ _ n x faults Hk Hs Hn) as [Hl Ho].
  do 2 (split; [done|]). intros ->.
  exact (relay_runs_channels dev sock client treq trep ereq erep Hd H1 H2 ops Hops _ _ _ _ _ n x Hk Hs Hn).
Qed.

(** Half way through a run, a whole transaction is in the request pipe. *)
Definition main_middle : link (proc (list byte)) pipes avery_pci_config_op avery_pci_config_op :=
  lexec (daemon_next 3 4) (pipe_step 7 5 6 5 6) 60 main_start.

Lemma relay_in_flight_witness :
  length (p_req (l_server main_middle)) = 344%nat /\ p_rep (l_server main_middle) = [] /\
  (length (l_up main_middle) + length (l_down main_middle) <= 16)%nat.
Proof.
  do 2 (split; [by vm_compute|]).
  destruct (lexec_sound (c := daemon_client 3 4 false) (v := pipe_server 7 5 6 5 6 false) (daemon_next 3 4)
    (pipe_step 7 5 6 5 6) 60 main_start) as [k Hk].
  refine (proj1 (proj2 (proj2 (relay_in_flight 3 4 7 5 6 5 6 asked_ops zeroed quiet_world pipe_world pipe_world false k
    main_middle _ _ _ _ _ _ _ _ _ _ asked_ops_ok _ _ _ Hk)) eq_refl)); try done; right; by eexists.
Defined.

(** C11: The daemon works with the stand-alone server too. daemon-doe.c and remote-rc.c
    start at [main] and run their own code: in every interleaving, with calls that fail at
    any moment, neither has undefined behaviour and the kernel driver gets a prefix of the
    answers of remote-rc.c to the accesses, in order; when no call fails, a run has a
    bounded number of steps, and a state from which neither can move has all the answers. *)
Theorem rc_relay_answers dev sock c ops mem mem' wd ws n x :
  0 <= dev -> 0 <= sock -> 0 <= c -> dev <> sock ->
  Forall op_ok ops -> length mem = 16%nat -> length mem' = 16%nat ->
  (nsteps (rc_relay_step dev sock c true) n (rc_relay_main dev sock c ops mem mem' wd ws) x ->
   l_client x <> Crashed /\ l_server x <> Crashed /\ l_done x `prefix_of` map emulate ops) /\
  (nsteps (rc_relay_step dev sock c false) n (rc_relay_main dev sock c ops mem mem' wd ws) x ->
   (n <= 403 * length ops + 32)%nat /\
   (~ (exists x', rc_relay_step dev sock c false x x') -> l_done x = map emulate ops)).
Proof. intros Hdev Hsock Hc Hd Hops H1 H2. split; [by apply rc_runs_safe|by apply rc_runs_live]. Qed.

Definition rc_ops : list avery_pci_config_op := [Op 0x14 0x1a4 0 0; Op 0x10 0x1a0 7 1].

Definition rc_rest : link (proc (list byte)) (proc (list byte)) avery_pci_config_op avery_pci_config_op :=
  lexec (daemon_next 3 4) (rc_next 5) 90 (rc_relay_main 3 4 5 rc_ops zeroed zeroed quiet_world quiet_world).

Lemma rc_relay_answers_witness : l_done rc_rest = [Op 0x14 0x1a4 0xdeadbeef 0; Op 0x10 0x1a0 7 0].
Proof.
  destruct (lexec_sound (c := daemon_client 3 4 false) (v := rc_server 5 false) (daemon_next 3 4) (rc_next 5) 90
    (rc_relay_main 3 4 5 rc_ops zeroed zeroed quiet_world quiet_world)) as [k Hk].
  refine (proj2 (proj2 (rc_relay_answers 3 4 5 rc_ops zeroed zeroed quiet_world quiet_world
    k rc_rest _ _ _ _ _ _ _) Hk) _); [done|done|done|done|by repeat (constructor; [by repeat split|])|done|done|].
  apply (lidle_stuck reading reading). by vm_compute.
Defined.

(** C12: The netlink daemon works with either server, from [main]. daemon-doe-netlink.c
    connects, learns its family from any well-formed reply of the controller, registers
    and serves, with thin-server.c and doe-emu.c or with remote-rc.c, each program running
    its own code from [main]. In every interleaving, when no call fails: no program has
    undefined behaviour; for any sequence of well-formed request datagrams the kernel gets,
    in order, one response datagram each, under the request's sequence number, with the
    answer of the sequential device or of remote-rc.c; runs are bounded, and one that
    cannot go on has given every response. *)
Theorem netlink_relay_answers junk4096 junk8192 fuel sockfd family mypid qs g w :
  (2048 <= fuel)%nat -> 0 <= sockfd -> u16 family -> Forall nl_request_ok qs ->
  let cl := nl_program junk4096 fuel sockfd family mypid in
  let start := nl_program_start junk8192 fuel sockfd mypid g w in
  (forall client treq trep ereq erep wt we n x,
     0 <= client -> 0 <= treq -> 0 <= trep -> 0 <= ereq -> 0 <= erep -> client <> treq -> client <> trep ->
     is_Some (w_env wt "CXL_RELAY_SERVER_PATH") -> is_Some (w_env we "CXL_RELAY_SERVER_PATH") ->
     let v := pipe_server client treq trep ereq erep false in
     let s := Pipes (Running thin_init wt (thin_main client treq trep)) [] [] (Running emu_init we (emu_boot ereq erep)) in
     let responses := zip_with (nl_answer family mypid) qs (device_answers dev_init (map nq_op qs)) in
     nsteps (lstep cl v) n (link_init qs start s) x ->
     (l_client x).1 <> Crashed /\ p_t (l_server x) <> Crashed /\ p_e (l_server x) <> Crashed /\
     l_done x `prefix_of` responses /\ (n <= 6 * (1445 * length qs) + 74)%nat /\
     (~ (exists x', lstep cl v x x') -> l_done x = responses)) /\
  (forall c mem ws n x,
     0 <= c -> length mem = 16%nat ->
     let v := rc_server c false in
     let responses := map (fun q => nl_answer family mypid q (emulate (nq_op q))) qs in
     nsteps (lstep cl v) n (link_init qs start (Running mem ws (rc_main c))) x ->
     (l_client x).1 <> Crashed /\ l_server x <> Crashed /\
     l_done x `prefix_of` responses /\ (n <= 403 * length qs + 42)%nat /\
     (~ (exists x', lstep cl v x x') -> l_done x = responses)).
Proof.
  intros Hf Hs Hfam Hqs cl start. split.
  - intros client treq trep ereq erep wt we n x Hc Ht1 Ht2 He1 He2 H1 H2 Hwt Hwe v s responses Hn.
    destruct (nl_runs_with _ _ _ _ _ _ Hf Hs Hfam _ _ _ Hqs _ _ _ _ _ _ _ _ _
      (pipe_laws client treq trep ereq erep false H1 H2)
      (pipe_main_at false client treq trep ereq erep thin_init emu_init wt we Hc Ht1 Ht2 He1 He2 ltac:(done)
         (or_intror Hwt) (or_intror Hwe)) Hn) as (C1 & C2 & C3 & C4 & C5).
    change (abse (Emu doe_zero ereq erep), t_seq thin_init) with (dev_init, 0) in C3, C5.
    rewrite served_pipes, (spec_run_device _ dev_init 0 (nl_requests_ops_ok _ Hqs) (Forall_nil_2 _)) in C3, C5.
    split; [exact C1|]. split; [intros E; apply C2; by left|].
    split; [intros E; apply C2; by right|]. split; [exact C3|]. split; [lia|exact C5].
  - intros c mem ws n x Hc Hm v responses Hn.
    destruct (nl_runs_with _ _ _ _ _ _ Hf Hs Hfam _ _ _ Hqs _ _ _ _ _ _ _ _ _ (rc_laws c false)
      (rc_main_at false c mem ws Hc Hm) Hn) as (C1 & C2 & C3 & C4 & C5).
    assert (zip_with (nl_answer family mypid) qs (served (rc_server c false) tt (map nq_op qs)) = responses) as E.
    { rewrite served_rc, map_map. unfold responses. clear. induction qs as [|q l IH]; [done|]. cbn. by rewrite IH. }
    rewrite E in C3, C5. do 3 (split; [done|]). split; [lia|exact C5].
Qed.

Definition nl_asked_ops : list nl_request :=
  [NlRequest 9 0 (Op 0x14 0x1a4 0 0)
     (encode_msg 0x1d 1 9 0 AVERY_CMD_REQUEST ([(7, [Byte.x01])] ++ [(AVERY_ATTR_OP, to_bytes (Op 0x14 0x1a4 0 0))]))].

Lemma nl_asked_ok : Forall nl_request_ok nl_asked_ops.
Proof.
  constructor; [|done]. unfold nl_request_ok. cbn [nq_seq nq_port nq_op nq_msg].
  apply (RequestDatagram _ _ _ 1); [by constructor|by constructor|done|done|done|].
  apply Nat.leb_le. by vm_compute.
Qed.

Definition nl_daemon : proc nl_state * standing :=
  nl_program_start [] 2048 4 42 (NlState 0 0 0 zeroed) quiet_world.
Definition nl_start_rc : link (proc nl_state * standing) (proc (list byte)) nl_request (list byte) :=
  link_init nl_asked_ops nl_daemon (Running zeroed quiet_world (rc_main 5)).
Definition nl_start_pipes : link (proc nl_state * standing) pipes nl_request (list byte) :=
  link_init nl_asked_ops nl_daemon
    (Pipes (Running thin_init pipe_world (thin_main 7 5 6)) [] [] (Running emu_init pipe_world (emu_boot 5 6))).

Definition nl_rest_rc : link (proc nl_state * standing) (proc (list byte)) nl_request (list byte) :=
  lexec (nl_program_next [] 2048 4 0x1d 42 nl_controller) (rc_next 5) 90 nl_start_rc.
Definition nl_rest_pipes : link (proc nl_state * standing) pipes nl_request (list byte) :=
  lexec (nl_program_next [] 2048 4 0x1d 42 nl_controller) (pipe_step 7 5 6 5 6) 180 nl_start_pipes.

Lemma netlink_relay_answers_witness :
  l_done nl_rest_pipes = [response_datagram 0x1d 42 9 (to_bytes (Op 0x14 0x1a4 0 0))] /\
  l_done nl_rest_rc = [response_datagram 0x1d 42 9 (to_bytes (Op 0x14 0x1a4 0xdeadbeef 0))].
Proof.
  destruct (netlink_relay_answers [] [] 2048 4 0x1d 42 nl_asked_ops (NlState 0 0 0 zeroed) quiet_world
    (le_n 2048) ltac:(done) ltac:(done) nl_asked_ok) as [Hp Hr].
  pose proof (nl_program_runs [] 2048 4 0x1d 42 nl_controller nl_controller_ok) as HR.
  destruct (lexec_sound (HCR := HR) (v := pipe_server 7 5 6 5 6 false)
    (nl_program_next [] 2048 4 0x1d 42 nl_controller) (pipe_step 7 5 6 5 6) 180 nl_start_pipes) as [k1 H1].
  destruct (lexec_sound (HCR := HR) (v := rc_server 5 false)
    (nl_program_next [] 2048 4 0x1d 42 nl_controller) (rc_next 5) 90 nl_start_rc) as [k2 H2].
  split.
  - refine (proj2 (proj2 (proj2 (proj2 (proj2
      (Hp 7 5 6 5 6 pipe_world pipe_world k1 nl_rest_pipes _ _ _ _ _ _ _ _ _ H1))))) _); try done; try by eexists.
    apply (lidle_stuck nl_program_idle pipe_idle). by vm_compute.
  - refine (proj2 (proj2 (proj2 (proj2 (Hr 5 zeroed quiet_world k2 nl_rest_rc _ eq_refl H2)))) _); [done|].
    apply (lidle_stuck nl_program_idle reading). by vm_compute.
Defined.

(** C13: Whatever fails, the netlink daemon stays safe. In its loop, with either server
    started at [main], in every interleaving and with system calls that fail or are cut
    short at any moment, no program has undefined behaviour, and the kernel gets, for some
    of the requests and in their order, one response datagram each, under the sequence
    number of the request. *)
Theorem netlink_relay_safe junk4096 fuel sockfd family mypid qs port sq mem w :
  (1024 <= fuel)%nat -> Forall nl_request_ok qs ->
  let cl := nl_client junk4096 fuel sockfd family mypid true in
  let start := nl_top junk4096 fuel sockfd family mypid port sq mem w in
  (forall client treq trep ereq erep wt we n x,
     0 <= client -> 0 <= treq -> 0 <= trep -> 0 <= ereq -> 0 <= erep -> client <> treq -> client <> trep ->
     let s := Pipes (Running thin_init wt (thin_main client treq trep)) [] [] (Running emu_init we (emu_boot ereq erep)) in
     nsteps (lstep cl (pipe_server client treq trep ereq erep true)) n (link_init qs start s) x ->
     l_client x <> Crashed /\ p_t (l_server x) <> Crashed /\ p_e (l_server x) <> Crashed /\
     responded family mypid qs (l_done x)) /\
  (forall c mem' ws n x,
     0 <= c -> length mem' = 16%nat ->
     nsteps (lstep cl (rc_server c true)) n (link_init qs start (Running mem' ws (rc_main c))) x ->
     l_client x <> Crashed /\ l_server x <> Crashed /\ responded family mypid qs (l_done x)).
Proof.
  intros Hf Hqs cl start. split.
  - intros client treq trep ereq erep wt we n x Hc Ht1 Ht2 He1 He2 H1 H2 s Hn.
    pose proof (pipe_laws client treq trep ereq erep true H1 H2) as HS.
    pose proof (sv_weaken _ _ _ _ _ (pipe_main_at true client treq trep ereq erep thin_init emu_init wt we Hc Ht1 Ht2
      He1 He2 ltac:(done) (or_introl eq_refl) (or_introl eq_refl))) as Ha.
    destruct (nl_faults_safe _ _ _ _ _ Hf _ _ _ _ _ _ _ _ _ Hqs Ha Hn) as (C1 & C2 & C3).
    split; [done|]. split; [intros E; apply C2; by left|]. split; [intros E; apply C2; by right|done].
  - intros c mem' ws n x Hc Hm Hn. pose proof (rc_laws c true) as HS.
    pose proof (sv_weaken _ _ _ _ _ (rc_main_at true c mem' ws Hc Hm)) as Ha.
    by apply (nl_faults_safe _ _ _ _ _ Hf _ _ _ _ _ _ _ _ _ Hqs Ha Hn).
Qed.

(** A schedule in which every [recv] of an answer fails. *)
Definition nl_deaf (td : list nl_request) (dw : list byte) (k : proc nl_state) :
    option (cact nl_request (list byte) * proc nl_state) :=
  match wants k with
  | Some _ =>
      match pmove (nl_tree [] 1024 4 42) k (Result (-1)) with
      | Some (Fail, k') => Some (CQuiet, k')
      | _ => None
      end
  | None => nl_next [] 1024 4 42 td dw k
  end.

Lemma nl_deaf_runs : ClientRuns (nl_client [] 1024 4 0x1d 42 true) nl_deaf.
Proof.
  intros td dw k a k'. unfold nl_deaf. destruct (wants k); [|apply (nl_runs [] 1024 4 0x1d 42 true)].
  destruct (pmove _ k (Result (-1))) as [[[] k1]|] eqn:E; try done. intros H.
  apply (inj Some), pair_eq in H as [<- <-]. split; [by eapply NmQuiet|done].
Qed.

Definition deaf_rest : link (proc nl_state) (proc (list byte)) nl_request (list byte) :=
  lexec nl_deaf (rc_next 5) 90
    (link_init nl_asked_ops (nl_top [] 1024 4 0x1d 42 0 0 zeroed quiet_world) (Running zeroed quiet_world (rc_main 5))).

Lemma netlink_relay_safe_witness :
  l_done deaf_rest = [response_datagram 0x1d 42 9 (to_bytes (Op 0x14 0x1a4 0 0))] /\ responded 0x1d 42 nl_asked_ops (l_done deaf_rest).
Proof.
  split; [by vm_compute|].
  destruct (lexec_sound (HCR := nl_deaf_runs) (v := rc_server 5 true) nl_deaf (rc_next 5) 90
    (link_init nl_asked_ops (nl_top [] 1024 4 0x1d 42 0 0 zeroed quiet_world) (Running zeroed quiet_world (rc_main 5)))) as [k Hk].
  refine (proj2 (proj2 (proj2 (netlink_relay_safe [] 1024 4 0x1d 42 nl_asked_ops 0 0 zeroed quiet_world
    (le_n 1024) nl_asked_ok) 5 zeroed quiet_world k deaf_rest _ eq_refl Hk))). done.
Defined.

(** C16: An emulator that has ended is not noticed. When a process of a pipe has ended, the
    kernel ends a read of the empty pipe if nobody has it open for writing, and kills a writer
    if nobody has it open for reading; but thin-server.c, wherever it has got to from [main],
    has opened both pipes for both with O_RDWR. So with whichever client, from the top of its
    loop, the server takes the first access, writes the transaction and waits for ever: the
    kernel driver gets no answer and no error, neither program ends, and every run comes to
    such a state. With the reply pipe open for reading only, the waiting server would get an
    end of file and exit. *)
Theorem dead_emulator_hangs {K Q R} (c : Link.client K Q R) cat client treq trep ereq erep q qs k jc wt sq w n x :
  ClientLaws c false cat -> client <> treq -> client <> trep ->
  Forall (cl_ok c) (q :: qs) -> cat k CWait jc ->
  rtc (pstep (server_tree client)) (Running thin_init wt (thin_main client treq trep))
      (Running (Thin treq trep sq) w (server_tree client)) ->
  let v := orphan_server client treq trep ereq erep in
  nsteps (lstep c v) n (link_init (q :: qs) k (deserted client treq trep sq w)) x ->
  (l_done x = [] /\ cl_gone c (l_client x) = false /\ p_t (l_server x) <> Stopped /\ p_t (l_server x) <> Crashed /\
   (n <= 6 * 725 + jc)%nat /\
   (~ (exists x', lstep c v x x') ->
    p_req (l_server x) = to_bytes (serve_request (wrap32 (sq + 1)) (cl_op c q)))) /\
  (forall op g w' rq, open_for for_writing trep w' = false ->
     rtc (fun s s' => sv_move v s SQuiet s') (Pipes (Running g w' (server_wait client op trep)) rq [] Stopped)
         (Pipes Stopped rq [] Stopped)).
Proof.
  intros HC H1 H2 Hq Hk Hreach v Hn. split; [|apply orphan_eof].
  assert (held (Q := Q) (R := R) treq trep (link_init (q :: qs) k (deserted client treq trep sq w))) as Hh.
  { split; [|done]. split; [by eapply thin_reached_both_ways|apply keeps_server_tree]. }
  destruct (orphan_steps _ _ _ _ _ _ _ _ _ Hh Hn) as [Hn' Hx].
  destruct (hang_runs client treq trep ereq erep H1 H2 c cat (q :: qs) sq n _ x _
    (deserted_hangs client treq trep c cat (q :: qs) sq k jc w Hq Hk) Hn') as (m & I & Hb).
  destruct (hang_silent _ _ _ _ _ _ _ _ _ I) as (Hd & _ & Hg & s & w' & tr & Ht).
  split; [done|]. split; [done|]. rewrite Ht. do 2 (split; [done|]). split; [lia|].
  intros Stuck.
  assert (~ (exists x', lstep c (pipe_server client treq trep ereq erep false) x x')) as Stuck'; [|by eapply hang_end].
  intros (x' & St). apply Stuck. exists x'. by apply (orphan_step client treq trep ereq erep c x x' Hx).
Qed.

(** thin-server.c at the top of its loop, from [main]. *)
Definition thin_started : proc thin :=
  prun (server_tree 7) [1; 7; 5; 6] 40 (Running thin_init pipe_world (thin_main 7 5 6)).
Definition thin_world : world := match thin_started with Running _ w _ => w | _ => pipe_world end.
Definition dead_start : link (proc (list byte)) pipes avery_pci_config_op avery_pci_config_op :=
  link_init [access_op 0x190 (MbRead 0x0c)] (daemon_start 3 4 zeroed quiet_world) (deserted 7 5 6 0 thin_world).
Definition dead_rest : link (proc (list byte)) pipes avery_pci_config_op avery_pci_config_op :=
  lexec (daemon_next 3 4) (orphan_next 7 5 6 5 6) 100 dead_start.

Lemma dead_emulator_hangs_witness :
  l_done dead_rest = [] /\ p_t (l_server dead_rest) <> Stopped /\
  p_req (l_server dead_rest) = to_bytes (serve_request 1 (access_op 0x190 (MbRead 0x0c))).
Proof.
  assert (thin_started = Running (Thin 5 6 0) thin_world (server_tree 7)) as E by reflexivity.
  destruct (lexec_sound (c := daemon_client 3 4 false) (v := orphan_server 7 5 6 5 6) (daemon_next 3 4)
    (orphan_next 7 5 6 5 6) 100 dead_start) as [k Hk].
  destruct (dead_emulator_hangs (daemon_client 3 4 false) (daemon_at 3 4 false) 7 5 6 5 6
    (access_op 0x190 (MbRead 0x0c)) [] (daemon_start 3 4 zeroed quiet_world) 4 pipe_world 0 thin_world
    k dead_rest (daemon_laws 3 4 false ltac:(done)) ltac:(done) ltac:(done) ltac:(by constructor; [apply access_op_ok|])
    (daemon_start_at 3 4 false zeroed quiet_world eq_refl)) as ((H1 & _ & H2 & _ & _ & H3) & _).
  - rewrite <- E. apply prun_sound.
  - exact Hk.
  - split; [exact H1|]. split; [exact H2|]. apply H3, (lidle_stuck reading (orphan_idle 6)). by vm_compute.
Defined.
