(* ===== verification/EmuProps.v ===== *)
(** * Properties of doe-emu.c

    What the emulator promises: its main loop is the abstract device; the register
    file is the abstract mailbox; a host that follows the protocol gets the data
    object that answers its request; whatever the kernel and the peer do, no access
    leaves an array and every failure ends in [exit(1)] or an error code. *)
From S2P Require Import Prelude Bytes CMonad Log Wire ByteIO Mailbox DoeEmu DoeSpec EmuSpec PciRegs ThinServer RelaySpec Host Sessions.

(** A world whose calls all move as much as they are asked to. *)
Definition open_world : world := World (fun _ => None) (replicate 344 344) ∅ ∅ [] [] 0 [].

(** ** Concrete inputs for the witnesses *)

Definition tx (addr rw v : Z) : simics_transaction_t :=
  Simics 1 1 1 0 0 0 0 0 addr rw 4 (le_encode 4 v ++ replicate 252 Byte.x00) 0 0 0 0 0 0 0 0 0.
Definition tx_quit : simics_transaction_t :=
  Simics 1 1 1 0 0 0 0 1 0 0 4 (replicate 256 Byte.x00) 0 0 0 0 0 0 0 0 0.
Definition emu0 : emu := Emu doe_zero 3 4.

(** A kernel that moves up to 344 bytes in each of [n] calls, with [bs] on pipe 3. *)
Definition busy_world (n : nat) (bs : list byte) : world :=
  World (fun _ => None) (replicate n 344) {[3 := bs]} ∅ [] [] 0 [].

Lemma busy_world_live n bs : live 344 n (busy_world n bs).
Proof. split; [lia|]. split; [by apply Forall_replicate|]. cbn. by rewrite length_replicate. Qed.

Lemma tx_ok addr rw v : u64 addr -> u32 rw -> simics_ok (tx addr rw v).
Proof.
  intros Ha Hr. split; [|split]; cbn -[MAX_PAYLOAD le_encode replicate]; [|done|].
  - repeat (constructor; [try done; cint|]). constructor.
  - by rewrite length_app, length_le_encode.
Qed.

Lemma tx_quit_ok : simics_ok tx_quit.
Proof. split; [|split]; cbn -[MAX_PAYLOAD]; [|done|done]. by repeat (constructor; [done|]). Qed.

(** ** The main loop *)

(** The main loop of the emulator is the abstract device: fed any transactions
    and then a quit, by a kernel that makes progress in chunks of any size, it returns,
    and the bytes on the reply pipe are exactly the device's replies in order. *)
Theorem run_refines_device {m} l fuel g w q rest j :
  doe_ok (doe g) -> Forall simics_ok l -> Forall (fun t => quit_bit t = false) l ->
  simics_ok q -> quit_bit q = true ->
  pending (req_fd g) w = concat (map to_bytes l) ++ to_bytes q ++ rest ->
  live m (688 * length l + 344 + j) w -> (length l < fuel)%nat ->
  wp (run fuel)
     (fun _ g' w' => doe_ok (doe g') /\ abse g' = fst (dev_run (abse g) l) /\
        written (rep_fd g) w' = written (rep_fd g) w ++ concat (map to_bytes (snd (dev_run (abse g) l))) /\
        pending (req_fd g) w' = rest)
     never g w.
Proof.
  intros. eapply wp_mono; [by eapply (run_live (m := m))|..]; [|done].
  cbn beta. intros _ g' w' (?&_&?&?&?&_). done.
Qed.

Lemma run_refines_device_witness :
  wp (run 2)
     (fun _ g' w' => doe_ok (doe g') /\ abse g' = Device (Some 0x190) mb_empty /\
        written 4 w' = to_bytes (reply (tx 0x19c 0 0) 0) /\ pending 3 w' = [])
     never emu0 (busy_world 1032 (to_bytes (tx 0x19c 0 0) ++ to_bytes tx_quit)).
Proof.
  eapply wp_mono; [apply (run_refines_device (m := 344) [tx 0x19c 0 0] 2 emu0 _ tx_quit [] 0)|..].
  - apply doe_zero_ok.
  - constructor; [by apply tx_ok|constructor].
  - by constructor.
  - apply tx_quit_ok.
  - done.
  - cbn [map concat]. by rewrite !app_nil_r.
  - apply busy_world_live.
  - simpl. lia.
  - cbn beta. intros _ g' w' (H1 & H2 & H3 & H4). split; [done|]. split; [exact H2|].
    split; [|exact H4]. change (written 4 w') with (written (rep_fd emu0) w'). rewrite H3. vm_compute. reflexivity.
  - done.
Defined.

(** Whatever results the kernel returns and whatever bytes arrive, the main loop
    accesses no array out of bounds, overflows no [int], keeps the mailbox well formed,
    and ends by a quit, by [exit(1)] or by waiting. *)
Theorem run_safe fuel g w :
  doe_ok (doe g) -> (length (w_sched w) < fuel)%nat ->
  wp (run fuel) (fun _ g' w' => doe_ok (doe g')) (fun h g' w' => doe_ok (doe g') /\ orderly h g' w') g w.
Proof. apply run_any. Qed.

Lemma run_safe_witness :
  wp (run 3) (fun _ g' w' => doe_ok (doe g')) (fun h g' w' => doe_ok (doe g') /\ orderly h g' w')
     emu0 (busy_world 2 (replicate 400 Byte.xff)).
Proof. apply run_safe; [apply doe_zero_ok|cbn; lia]. Defined.

(** C4: The whole emulator, from the first line of [main], is the abstract device: with
    the pipe directory in the environment, a log file or none, and pipes that open, it
    starts with no capability and an empty mailbox, writes exactly the device's replies to
    the transactions it reads, in order and in chunks of any size, and returns 0 on the
    quit transaction. *)
Theorem emu_main_session {m} path l fuel g w fp fd1 fd2 sched q rest :
  w_env w "CXL_RELAY_SERVER_PATH" = Some path ->
  w_sched w = logger (w_env w "CXL_LOG_FILE") fp ++ fd1 :: fd2 :: sched -> 0 <= fd1 -> 0 <= fd2 ->
  Forall simics_ok l -> Forall (fun t => quit_bit t = false) l -> simics_ok q -> quit_bit q = true ->
  pending fd1 w = concat (map to_bytes l) ++ to_bytes q ++ rest ->
  live m (688 * length l + 344 + 2) (set_sched sched w) -> (length l < fuel)%nat ->
  wp (DoeEmu.main fuel)
     (fun r g' w' => r = 0 /\ abse g' = fst (dev_run (Device None mb_empty) l) /\
        written fd2 w' = written fd2 w ++ concat (map to_bytes (snd (dev_run (Device None mb_empty) l))) /\
        pending fd1 w' = rest)
     never g w.
Proof. intros. by eapply (emu_main_live path (m := m)). Qed.

(** The environment and the kernel of the witness: a log file, and pipes 3 and 4. *)
Definition boot_env (name : string) : option string :=
  if String.eqb name "CXL_LOG_FILE" then Some "/tmp/log"%string
  else if String.eqb name "CXL_RELAY_SERVER_PATH" then Some "/tmp/relay"%string else None.
Definition boot_world (bs : list byte) : world :=
  World boot_env (9 :: 3 :: 4 :: replicate 1034 344) {[3 := bs]} ∅ [] [] 0 [].

Lemma emu_main_session_witness :
  wp (DoeEmu.main 2)
     (fun r g' w' => r = 0 /\ abse g' = Device (Some 0x190) mb_empty /\
        written 4 w' = to_bytes (reply (tx 0x19c 0 0) 0) /\ pending 3 w' = [])
     never emu_init (boot_world (to_bytes (tx 0x19c 0 0) ++ to_bytes tx_quit)).
Proof.
  eapply wp_mono; [apply (emu_main_session (m := 344) "/tmp/relay" [tx 0x19c 0 0] 2 emu_init _ 9 3 4
                            (replicate 1034 344) tx_quit [])|..].
  - reflexivity.
  - reflexivity.
  - lia.
  - lia.
  - constructor; [by apply tx_ok|constructor].
  - by constructor.
  - apply tx_quit_ok.
  - done.
  - cbn [map concat]. by rewrite !app_nil_r.
  - split; [lia|]. split; [by apply Forall_replicate|]. cbn. lia.
  - simpl. lia.
  - cbn beta. intros r g' w' (H1 & H2 & H3 & H4). split; [done|]. split; [exact H2|].
    split; [|exact H4]. rewrite H3. vm_compute. reflexivity.
  - done.
Defined.

(** C8: The whole program, from [main], is safe for any environment and any kernel:
    it returns 0 or 1, exits with 1, or waits. *)
Theorem emu_main_safe fuel g w :
  (length (w_sched w) < fuel)%nat -> wp (DoeEmu.main fuel) (fun r _ _ => r = 0 \/ r = 1) orderly g w.
Proof. apply emu_main_any. Qed.

Lemma emu_main_safe_witness :
  wp (DoeEmu.main 1) (fun r _ _ => r = 0 \/ r = 1) orderly emu_init (World (fun _ => None) [] ∅ ∅ [] [] 0 []).
Proof. apply emu_main_safe. cbn. lia. Defined.

(** C9: The emulator keeps its types: whatever 344 bytes arrive, handling them leaves
    every field of the mailbox within its C type and its bounds, the descriptors as they
    were, and a reply whose every field fits its C type, 344 bytes long again; only a
    quit has no reply and then nothing has changed. *)
Theorem emulator_typed g w bs :
  doe_ok (doe g) -> length bs = 344%nat ->
  wp (handle_local (of_bytes bs))
     (fun o g' _ => doe_ok (doe g') /\ same_fds g g' /\
        match o with
        | Some (fd, rsp) => fd = rep_fd g /\ simics_ok rsp /\ length (to_bytes rsp) = 344%nat
        | None => g' = g /\ Z.odd (control_status (of_bytes bs)) = true
        end)
     never g w.
Proof.
  intros Hok Hl. eapply wp_mono; [apply handle_local_spec; [done|by apply simics_of_bytes_ok]|..]; [|done].
  cbn beta. intros o g' w' [_ H]. destruct (quit_bit (of_bytes bs)) eqn:E.
  - destruct H as [-> ->]. by split.
  - destruct H as (rsp & -> & Hok' & Hfd & Hr & _). split; [done|]. split; [done|]. split; [done|].
    split; [done|]. by apply (length_to_bytes (CStructLaws := simics_laws)).
Qed.

Lemma emulator_typed_witness :
  wp (handle_local (of_bytes (replicate 344 Byte.x02)))
     (fun o g' _ => doe_ok (doe g') /\ same_fds emu0 g' /\
        match o with
        | Some (fd, rsp) => fd = rep_fd emu0 /\ simics_ok rsp /\ length (to_bytes rsp) = 344%nat
        | None => g' = emu0 /\ Z.odd (control_status (of_bytes (replicate 344 Byte.x02))) = true
        end)
     never emu0 (busy_world 0 []).
Proof. apply emulator_typed; [apply doe_zero_ok|reflexivity]. Defined.

(** ** The register file *)

(** C5: The register file is the abstract mailbox: any sequence of reads and writes of
    registers returns the values of the abstract machine and leaves the state that it
    leaves; the mailbox stays well formed and the capability base is not touched. *)
Theorem registers_refine_mailbox l d w :
  doe_ok d -> Forall access_ok l ->
  wp (code_run l)
     (fun vs d' w' => doe_ok d' /\ absr d' = fst (mb_run (absr d) l) /\ vs = snd (mb_run (absr d) l) /\
        same_cap d d')
     never d w.
Proof.
  intros Hok Hl. eapply wp_mono; [by apply code_run_spec|..]; [|done].
  cbn beta. intros vs d' w' (H1 & H2 & H3 & _). by rewrite <- H2.
Qed.

Lemma registers_refine_mailbox_witness :
  wp (code_run [MbWrite 0x10 1; MbWrite 0x08 0x80000000; MbRead 0x0c])
     (fun vs d' w' => vs = [0; 0; 4]) never doe_zero open_world.
Proof.
  eapply wp_mono; [apply registers_refine_mailbox; [apply doe_zero_ok|by do 3 (constructor; [done|])]|..]; [|done].
  cbn beta. intros vs d' w' (_ & _ & -> & _). reflexivity.
Defined.

(** C6: A host that follows the protocol is served: with no request pending, it writes
    a request of at most 68 words, sets GO, sees DATA_OBJECT_READY in STATUS, and reads
    exactly the words of the data object that answers it; after the last
    acknowledgement the mailbox is idle and empty. *)
Theorem exchange_served req rsp d w :
  doe_ok d -> req_len d = 0 -> (length req <= 68)%nat -> Forall u32 req -> respond req = Some rsp ->
  wp (code_run (send_request req ++ read_response (length rsp)))
     (fun vs d' w' => vs = replicate (length req) 0 ++ 0 :: DOE_STATUS_DATA_OBJECT_READY :: seen rsp /\
        absr d' = mb_empty /\ status d' = 0 /\ doe_ok d')
     never d w.
Proof.
  intros Hok Hr Hl Hu Hrsp. eapply wp_mono; [apply code_run_spec; [done|]|..]; [|..|done].
  { apply Forall_app. split; [by apply send_request_ok|apply read_response_ok]. }
  cbn beta. intros vs d' w' (Hok' & E & _).
  rewrite (mb_exchange _ _ rsp) in E; [|unfold absr, request; cbn; by rewrite Hr|exact Hl|exact Hrsp].
  assert (absr d' = mb_empty) as Ha by congruence. split; [exact (f_equal snd E)|]. split; [done|]. split; [|done].
  rewrite <- (abs_status_bits d' Hok'). change (abs_status (status d')) with (mb_status (absr d')). by rewrite Ha.
Qed.

Lemma exchange_served_witness :
  wp (code_run (send_request [1; 3; 2] ++ read_response 4))
     (fun vs d' w' => vs = [0; 0; 0; 0; DOE_STATUS_DATA_OBJECT_READY; 1; 0; 4; 0; 0x20001; 0; 3; 0])
     never doe_zero open_world.
Proof.
  eapply wp_mono; [apply (exchange_served [1; 3; 2] [1; 4; 0x20001; 3])|..]; [apply doe_zero_ok|done|simpl; lia| |reflexivity| |done].
  - by do 3 (constructor; [done|]).
  - cbn beta. intros vs d' w' [-> _]. reflexivity.
Defined.

(** C7: A request the device cannot answer (too short, or another protocol) sets the
    ERROR bit and nothing else the host can see, and an ABORT then returns the mailbox
    to its initial state, whatever was left in it. *)
Theorem exchange_failed_recovers req d w :
  doe_ok d -> req_len d = 0 -> (length req <= 68)%nat -> Forall u32 req -> respond req = None ->
  wp (code_run (send_request req ++ [MbWrite 0x08 DOE_CTRL_ABORT; MbRead 0x0c]))
     (fun vs d' w' => vs = replicate (length req) 0 ++ [0; DOE_STATUS_ERROR; 0; 0] /\
        absr d' = mb_empty /\ doe_ok d')
     never d w.
Proof.
  intros Hok Hr Hl Hu Hrsp. eapply wp_mono; [apply code_run_spec; [done|]|..]; [|..|done].
  { apply Forall_app. split; [by apply send_request_ok|by do 2 (constructor; [done|])]. }
  cbn beta. intros vs d' w' (Hok' & E & _).
  rewrite mb_run_app, mb_exchange_failed in E; [|unfold absr, request; cbn; by rewrite Hr|exact Hl|exact Hrsp].
  cbn in E. rewrite <- app_assoc in E. cbn [app] in E.
  split; [exact (f_equal snd E)|]. split; [exact (f_equal fst E)|done].
Qed.

Lemma exchange_failed_recovers_witness :
  wp (code_run (send_request [0x21E98; 3; 0] ++ [MbWrite 0x08 DOE_CTRL_ABORT; MbRead 0x0c]))
     (fun vs d' w' => vs = [0; 0; 0; 0; DOE_STATUS_ERROR; 0; 0]) never doe_zero open_world.
Proof.
  eapply wp_mono; [apply exchange_failed_recovers|..]; [apply doe_zero_ok|done|simpl; lia| |reflexivity| |done].
  - by do 3 (constructor; [done|]).
  - cbn beta. intros vs d' w' [-> _]. reflexivity.
Defined.

(** ** The protocol handlers *)

(** C21: Processing a request: when the request is one the device answers, the response
    buffer holds exactly the answering data object, unread, and READY is set; otherwise
    nothing changes but the status, which becomes ERROR. *)
Theorem process_answers d w :
  doe_ok d ->
  wp doe_process
     (fun _ d' w' =>
        match respond (request d) with
        | Some rsp => doe_ok d' /\ absr d' = Mailbox Ready (request d) rsp
        | None => d' = set_status DOE_STATUS_ERROR d
        end) never d w.
Proof.
  intros Hok. eapply wp_mono; [by apply process_spec|..]; [|done].
  cbn beta. intros _ d' w' [_ H]. destruct (respond (request d)) as [rsp|] eqn:E; [|done].
  pose proof (respond_length _ _ E). apply (answered_ok d d' rsp Hok H). lia.
Qed.

(** An emulator whose request buffer holds an SPDM GET_VERSION. *)
Definition asked_version : doe_t :=
  Doe 0 ([0x10001; 3; 0x8410] ++ replicate 65 0) 3 (replicate 68 0) 0 0 0 0.

Lemma asked_version_ok : doe_ok asked_version.
Proof. split; cbn; try done; try lia; auto; try (by repeat constructor). Qed.

Lemma process_answers_witness :
  wp doe_process
     (fun _ d' w' => absr d' = Mailbox Ready [0x10001; 3; 0x8410] [0x10001; 5; 0x0410; 0x20000; 0x12001000])
     never asked_version open_world.
Proof.
  eapply wp_mono; [apply process_answers, asked_version_ok|..]; [|done].
  cbn beta. intros _ d' w' H. change (respond (request asked_version)) with
    (Some [0x10001; 5; 0x0410; 0x20000; 0x12001000]) in H. apply H.
Defined.

(** C10: [spdm_finish] turns the [n] message bytes behind the header, for every [n] up
    to the 264 that fit, into a data object: padded with zeros to whole words, the
    length word counting them, all stores inside the buffer. *)
Theorem spdm_finish_pads d w M ty :
  doe_ok d -> u8 ty -> (length M <= 264)%nat ->
  slice 8 (length M) (encode_ints 4 (rsp_buf d)) = M ->
  wp (spdm_finish ty (Z.of_nat (length M)))
     (fun _ d' w' => doe_ok d' /\ w' = w /\
        absr d' = Mailbox Ready (request d) (data_object VID_PCISIG ty (pack_dwords M))) never d w.
Proof.
  intros Hok Hty HM Hs. eapply wp_mono; [by apply spdm_finish_spec|..]; [|done].
  cbn beta. intros _ d' w' [Ha ->].
  assert (length (pack_dwords M) <= 66)%nat as Hp.
  { rewrite <- pack_dwords_pad.
    rewrite (length_pack_dwords (Z.to_nat ((Z.of_nat (length M) + 3) / 4))).
    - Z.div_mod_to_equations; lia.
    - rewrite length_app, length_replicate. Z.div_mod_to_equations; lia. }
  destruct (answered_ok d d' _ Hok Ha) as [H1 H2]; [unfold data_object; simpl; lia|done].
Qed.

Lemma spdm_finish_pads_witness :
  wp (spdm_finish 1 5)
     (fun _ d' w' => absr d' = Mailbox Ready [] (data_object 1 1 [0; 0])) never doe_zero open_world.
Proof.
  eapply wp_mono; [apply (spdm_finish_pads doe_zero open_world (replicate 5 Byte.x00) 1)|..]; [| | | | |done].
  - apply doe_zero_ok.
  - done.
  - simpl. lia.
  - reflexivity.
  - cbn beta. intros _ d' w' (_ & _ & H). exact H.
Defined.

(** ** Discovery *)

(** What a host sees when it asks for entry [i] of the protocol list. *)
Definition ask (i : Z) : list mb_access := send_request [1; 3; i] ++ read_response 4.

Lemma ask_spec d w i :
  doe_ok d -> req_len d = 0 -> 0 <= i < 256 ->
  wp (code_run (ask i))
     (fun vs d' w' => absr d' = mb_empty /\
        vs = [0; 0; 0; 0; DOE_STATUS_DATA_OBJECT_READY] ++ seen ([1; 4] ++ discovery_payload i)) never d w.
Proof.
  intros Hok Hr Hi.
  assert (respond [1; 3; i] = Some (1 :: 4 :: discovery_payload i)) as E.
  { cbn -[discovery_payload]. rewrite Z.mod_small by lia. unfold data_object, discovery_payload.
    by destruct (supported !! _) as [[? ?]|]. }
  assert (length (1 :: 4 :: discovery_payload i) = 4%nat) as Hl
    by (unfold discovery_payload; by destruct (supported !! _) as [[? ?]|]).
  eapply wp_mono; [apply code_run_spec; [done|]|..]; [|..|done].
  { apply Forall_app. split; [|apply read_response_ok]. apply send_request_ok.
    do 2 (constructor; [done|]). constructor; [cint|done]. }
  cbn beta. intros vs d' w' (Hok' & Er & _). unfold ask in Er. rewrite <- Hl in Er.
  rewrite (mb_exchange _ _ (1 :: 4 :: discovery_payload i)) in Er;
    [|unfold absr, request; cbn; by rewrite Hr|simpl; unfold mb_capacity; lia|done].
  split; [exact (f_equal fst Er)|exact (f_equal snd Er)].
Qed.

(** C17: Discovery enumerates the protocol table: from any well-formed state with no
    request pending, asking for index [i] returns the vendor and type of entry [i] and
    the next index, [0] after the last entry, alone in a fourth word; the mailbox is idle
    again. The next index is not where include/linux/pci_regs.h puts it: for every index
    the NEXT_INDEX field of the third word is 0, which a host reads as the end of the
    list. *)
Theorem discovery_enumerates d w i :
  doe_ok d -> req_len d = 0 -> 0 <= i < 256 ->
  wp (code_run (ask i))
     (fun vs d' w' => absr d' = mb_empty /\
        exists entry next,
          vs = [0; 0; 0; 0; DOE_STATUS_DATA_OBJECT_READY] ++ seen [1; 4; entry; next] /\
          field_get PCI_DOE_DATA_OBJECT_DISC_RSP_3_NEXT_INDEX entry = 0 /\
          forall vid ty, protocols !! Z.to_nat i = Some (vid, ty) ->
            entry = object_header vid ty /\ next = (if i + 1 <? NUM_PROTOCOLS then i + 1 else 0))
     never d w.
Proof.
  intros Hok Hr Hi. eapply wp_mono; [by apply (ask_spec d w i)|..]; [|done].
  cbn beta. intros vs d' w' [H1 ->]. split; [done|]. unfold discovery_payload.
  destruct (supported !! Z.to_nat i) as [[vid ty]|] eqn:E.
  - exists (object_header vid ty), (if i <? 3 then i + 1 else 0). split; [done|]. split.
    + apply list_elem_of_lookup_2 in E. unfold supported in E.
      repeat (apply elem_of_cons in E as [E|E]; [simplify_eq; by vm_compute|]).
      by apply elem_of_nil in E.
    + change protocols with supported. rewrite E. intros ? ? [= <- <-]. split; [done|].
      change NUM_PROTOCOLS with 4. by destruct (Z.ltb_spec i 3), (Z.ltb_spec (i + 1) 4); try lia.
  - exists 0, 0. split; [done|]. split; [done|]. change protocols with supported. by rewrite E.
Qed.

Lemma discovery_enumerates_witness :
  wp (code_run (ask 0))
     (fun vs d' w' => vs = [0; 0; 0; 0; DOE_STATUS_DATA_OBJECT_READY] ++ seen [1; 4; object_header DOE_VID_PCISIG 0; 1])
     never doe_zero open_world /\
  wp (code_run (ask 3))
     (fun vs d' w' => vs = [0; 0; 0; 0; DOE_STATUS_DATA_OBJECT_READY] ++ seen [1; 4; 0x21E98; 0])
     never doe_zero open_world.
Proof.
  split.
  - eapply wp_mono; [apply (discovery_enumerates doe_zero open_world 0)|..]; [apply doe_zero_ok|done|lia| |done].
    cbn beta. intros vs d' w' (_ & e & n & -> & _ & H). by destruct (H _ _ eq_refl) as [-> ->].
  - eapply wp_mono; [apply (discovery_enumerates doe_zero open_world 3)|..]; [apply doe_zero_ok|done|lia| |done].
    cbn beta. intros vs d' w' (_ & e & n & -> & _ & H). by destruct (H _ _ eq_refl) as [-> ->].
Defined.

(** ** Limits and error states *)

(** C18: The request buffer never overflows: of any words written to the WRITE mailbox,
    those that fit in its 68 words are kept in order and the others are dropped. *)
Theorem request_capacity d w l :
  doe_ok d -> Forall u32 l ->
  wp (code_run (map (MbWrite DOE_REG_WRITE) l))
     (fun vs d' w' => request d' = take (Z.to_nat DOE_BUF_DWORDS) (request d ++ l) /\
        req_len d' <= DOE_BUF_DWORDS /\ response d' = response d /\ doe_ok d')
     never d w.
Proof.
  intros Hok Hl. eapply wp_mono; [apply code_run_spec; [done|]|..]; [|..|done].
  { apply Forall_map. by eapply Forall_impl. }
  cbn beta. intros vs d' w' (Hok' & E & _). change DOE_REG_WRITE with 0x10 in E.
  rewrite mb_run_pushes in E.
  2: { cbn [absr mb_req]. unfold request, mb_capacity. rewrite length_take, (ok_req_buf d Hok). lia. }
  split; [exact (f_equal (fun p => mb_req (fst p)) E)|]. split; [apply Hok'|].
  split; [exact (f_equal (fun p => mb_rsp (fst p)) E)|done].
Qed.

Lemma request_capacity_witness :
  wp (code_run (map (MbWrite DOE_REG_WRITE) (replicate 70 9)))
     (fun vs d' w' => request d' = replicate 68 9) never doe_zero open_world.
Proof.
  eapply wp_mono; [apply request_capacity; [apply doe_zero_ok|by apply Forall_replicate]|..]; [|done].
  cbn beta. intros vs d' w' [-> _]. reflexivity.
Defined.

(** C22: A failed GO does not invalidate an unread response: the host sees ERROR in
    STATUS, and READ still returns the next word of the response to an earlier request. *)
Theorem failed_go_keeps_response req v rest d w :
  doe_ok d -> req_len d = 0 -> (length req <= 68)%nat -> Forall u32 req -> respond req = None ->
  response d = v :: rest ->
  wp (code_run (send_request req ++ [MbRead DOE_REG_READ]))
     (fun vs d' w' => vs = replicate (length req) 0 ++ [0; DOE_STATUS_ERROR; v] /\ response d' = v :: rest)
     never d w.
Proof.
  intros Hok Hr Hl Hu Hn Hresp. eapply wp_mono; [apply code_run_spec; [done|]|..]; [|..|done].
  { apply Forall_app. split; [by apply send_request_ok|by constructor]. }
  cbn beta. intros vs d' w' (Hok' & E & _).
  rewrite mb_run_app, mb_exchange_failed in E; [|unfold absr, request; cbn; by rewrite Hr|exact Hl|exact Hn].
  cbn in E. rewrite Hresp, <- app_assoc in E. cbn [app] in E.
  split; [exact (f_equal snd E)|exact (f_equal (fun p => mb_rsp (fst p)) E)].
Qed.

(** An emulator with an unread response of two words. *)
Definition unread : doe_t :=
  Doe 0x80000000 (replicate 68 0) 0 ([0x11; 0x22] ++ replicate 66 0) 2 0 0 0.

Lemma unread_ok : doe_ok unread.
Proof. split; cbn; try done; try lia; auto; try (by repeat constructor). Qed.

Lemma failed_go_keeps_response_witness :
  wp (code_run (send_request [5] ++ [MbRead DOE_REG_READ]))
     (fun vs d' w' => vs = [0; 0; DOE_STATUS_ERROR; 0x11]) never unread open_world.
Proof.
  eapply wp_mono; [apply (failed_go_keeps_response [5] 0x11 [0x22])|..];
    [apply unread_ok|done|simpl; lia|by constructor|reflexivity|reflexivity| |done].
  cbn beta. intros vs d' w' [-> _]. reflexivity.
Defined.

(** C23: An acknowledgement with no response to acknowledge clears the status, the
    ERROR bit included, without an ABORT. *)
Theorem ack_clears_error d w :
  doe_ok d -> response d = [] ->
  wp (code_run [MbWrite DOE_REG_READ 0; MbRead DOE_REG_STATUS])
     (fun vs d' w' => vs = [0; 0] /\ absr d' = Mailbox Idle (request d) []) never d w.
Proof.
  intros Hok Hr. eapply wp_mono; [apply code_run_spec; [done|by do 2 (constructor; [done|])]|..]; [|done].
  cbn beta. intros vs d' w' (Hok' & E & _). cbn in E. unfold mb_ack in E. cbn [absr mb_rsp mb_req] in E.
  rewrite Hr in E. split; [exact (f_equal snd E)|exact (f_equal fst E)].
Qed.

Lemma ack_clears_error_witness :
  wp (code_run [MbWrite DOE_REG_READ 0; MbRead DOE_REG_STATUS])
     (fun vs d' w' => vs = [0; 0]) never (set_status DOE_STATUS_ERROR doe_zero) open_world.
Proof.
  eapply wp_mono; [apply ack_clears_error|..]; [|reflexivity| |done].
  - split; cbn; try done; try lia; auto; try (by repeat constructor).
  - cbn beta. intros vs d' w' [-> _]. reflexivity.
Defined.

(** ** Capability detection *)

(** C19: The capability base is detected once: the first transaction that is not a
    plain write fixes it 12 below its address, modulo 2^32; until then plain writes
    leave the mailbox alone, and once detected it never changes. *)
Theorem base_detected_once g w t j :
  doe_ok (doe g) -> simics_ok t -> quit_bit t = false -> live 344 (344 + j) w ->
  wp (handle t)
     (fun go g' w' => go = true /\
        dev_base (abse g') =
          (if truth (cap_detected (doe g)) then Some (cap_base (doe g))
           else if r0w1 t =? 1 then None else Some (wrap32 (physical_address t - DOE_REG_STATUS))) /\
        (cap_detected (doe g) = 0 -> r0w1 t = 1 -> absr (doe g') = absr (doe g)))
     never g w.
Proof.
  intros Hok Ht Hq HL. apply wp_handle; [done|done|by rewrite Hq|].
  intros _ g' w' rsp Hok' Hfd Hqu Hr E.
  apply (wp_send_struct (H := simics_struct) (m := 344) _ _ rsp j); [done|by apply (quiet_live (m := 344) _ w)|].
  intros w2 I2 _. apply wp_ret. split; [done|].
  assert (abse g' = fst (dev_step (abse g) t)) as Ha by (by rewrite <- E).
  assert ((address t - 12) mod 2 ^ 32 = wrap32 (physical_address t - DOE_REG_STATUS)) as Haddr
    by (unfold address, wrap32; by rewrite Zminus_mod_idemp_l).
  split.
  - rewrite Ha. unfold abse, absd, dev_step. cbn [dev_base dev_mb].
    destruct (truth (cap_detected (doe g))); [unfold dev_access; by destruct (_ =? 0)|].
    destruct (r0w1 t =? 1); [done|]. rewrite <- Haddr. unfold dev_access. by destruct (_ =? 0).
  - intros H1 H2. change (dev_mb (abse g') = dev_mb (abse g)). rewrite Ha. unfold dev_step, abse, absd.
    cbn [dev_base]. rewrite H1, H2. done.
Qed.

Lemma base_detected_once_witness :
  wp (handle (tx 0x19c 0 0)) (fun go g' w' => dev_base (abse g') = Some 0x190) never emu0 (busy_world 344 []).
Proof.
  eapply wp_mono; [apply (base_detected_once emu0 _ (tx 0x19c 0 0) 0)|..];
    [apply doe_zero_ok|by apply tx_ok|done|apply busy_world_live| |done].
  cbn beta. intros go g' w' (_ & -> & _). reflexivity.
Defined.

(** ** Logging *)

(** The prefix of a log line fits its 64-byte buffer with its terminator, for any
    time, file name and line. *)
Theorem log_prefix_fits tv_sec tv_nsec file line :
  (String.length (log_prefix tv_sec tv_nsec file line) < 64)%nat.
Proof. unfold log_prefix. pose proof (snprintf_length 64) as H. eapply Nat.le_lt_trans; [apply H|lia]. Qed.

(** ** The fields of include/linux/pci_regs.h *)

Definition VID : Z -> Z := field_get PCI_DOE_DATA_OBJECT_HEADER_1_VID.
Definition TYPE : Z -> Z := field_get PCI_DOE_DATA_OBJECT_HEADER_1_TYPE.
Definition LENGTH : Z -> Z := field_get PCI_DOE_DATA_OBJECT_HEADER_2_LENGTH.
Definition INDEX : Z -> Z := field_get PCI_DOE_DATA_OBJECT_DISC_REQ_3_INDEX.

Lemma vid_field r : VID r = vendor_id r.
Proof.
  unfold VID, field_get. rewrite Z.shiftr_0_r. change PCI_DOE_DATA_OBJECT_HEADER_1_VID with (Z.ones 16).
  by rewrite Z.land_ones.
Qed.

Lemma index_field r : INDEX r = r mod 256.
Proof.
  unfold INDEX, field_get. rewrite Z.shiftr_0_r. change PCI_DOE_DATA_OBJECT_DISC_REQ_3_INDEX with (Z.ones 8).
  by rewrite Z.land_ones.
Qed.

Lemma type_field r : TYPE r = object_type r.
Proof.
  unfold TYPE, field_get, object_type. change (field_shift PCI_DOE_DATA_OBJECT_HEADER_1_TYPE) with 16.
  rewrite Z.shiftr_land, Z.shiftr_div_pow2 by lia.
  change (Z.shiftr PCI_DOE_DATA_OBJECT_HEADER_1_TYPE 16) with (Z.ones 8). by rewrite Z.land_ones.
Qed.

Lemma length_field n : 0 <= n < 2 ^ 18 -> LENGTH n = n.
Proof.
  intros H. unfold LENGTH, field_get. rewrite Z.shiftr_0_r.
  change PCI_DOE_DATA_OBJECT_HEADER_2_LENGTH with (Z.ones 18). rewrite Z.land_ones by lia.
  by apply Z.mod_small.
Qed.

(** An answer repeats the vendor and the type of the request. *)
Lemma respond_header hdr len p rest rsp :
  respond (hdr :: len :: p :: rest) = Some rsp ->
  vendor_id hdr = VID_PCISIG /\ 0 <= object_type hdr <= 2 /\
  exists payload, rsp = data_object VID_PCISIG (object_type hdr) payload /\
    (object_type hdr = 0 -> payload = discovery_payload (p mod 256)).
Proof.
  unfold respond. case_match eqn:E1; [|done]. apply Z.eqb_eq in E1.
  case_match eqn:E2; [apply Z.eqb_eq in E2; intros [= <-]; rewrite E2; eauto 10 with lia|].
  apply Z.eqb_neq in E2. case_match eqn:E3; [|done]. intros [= <-].
  apply orb_prop in E3. rewrite !Z.eqb_eq in E3.
  split; [done|]. split; [lia|]. eexists. split; [reflexivity|lia].
Qed.

(** C20: The emulator dispatches and answers by the fields that include/linux/pci_regs.h
    defines: an answer carries the vendor and the type of the request in those fields,
    its own length in words in the length field, and for discovery the entry that the
    index field selects; a request is answered exactly when its vendor is PCI-SIG and
    its type is one of the three, and otherwise the ERROR bit of the file is set. *)
Theorem doe_fields_agree d w hdr len p rest :
  doe_ok d -> request d = hdr :: len :: p :: rest ->
  wp doe_process
     (fun _ d' w' =>
        if (VID hdr =? DOE_VID_PCISIG) && (TYPE hdr <=? DOE_TYPE_SECURED_CMA_SPDM) then
          status d' = PCI_DOE_STATUS_DATA_OBJECT_READY /\
          exists r0 r1 payload, response d' = r0 :: r1 :: payload /\
            VID r0 = VID hdr /\ TYPE r0 = TYPE hdr /\ LENGTH r1 = Z.of_nat (length (response d')) /\
            (TYPE hdr = DOE_TYPE_DISC -> payload = discovery_payload (INDEX p))
        else status d' = PCI_DOE_STATUS_ERROR)
     never d w.
Proof.
  intros Hok Hreq. eapply wp_mono; [by apply process_spec| |done].
  cbn beta. intros _ d' w' [_ H]. rewrite Hreq in H. rewrite vid_field, type_field, index_field.
  destruct (respond _) as [rsp|] eqn:E.
  - pose proof (respond_length _ _ E) as Hl. pose proof (answered_ok d d' rsp Hok H ltac:(lia)) as [_ Ha].
    apply respond_header in E as (Hv & Ht & payload & -> & Hp).
    rewrite Hv, (proj2 (Z.leb_le _ _)) by (unfold DOE_TYPE_SECURED_CMA_SPDM; lia).
    assert (response d' = data_object VID_PCISIG (object_type hdr) payload) as ->
      by exact (f_equal mb_rsp Ha).
    split; [by destruct H as (bs & _ & -> & _)|]. unfold data_object in *. cbn [length] in *.
    do 3 eexists. split; [reflexivity|]. rewrite vid_field, type_field, length_field by lia.
    assert (vendor_id (object_header VID_PCISIG (object_type hdr)) = VID_PCISIG /\
            object_type (object_header VID_PCISIG (object_type hdr)) = object_type hdr) as [-> ->].
    { revert Ht. generalize (object_type hdr) as t. intros t Ht.
      unfold vendor_id, object_type, object_header, VID_PCISIG. Z.div_mod_to_equations; lia. }
    repeat split; try lia. exact Hp.
  - subst d'. case_match eqn:E'; [|done]. exfalso.
    apply andb_prop in E' as [Ev%Z.eqb_eq Et%Z.leb_le]. revert E. unfold respond.
    change DOE_VID_PCISIG with VID_PCISIG in Ev. rewrite Ev. cbn [Z.eqb VID_PCISIG Pos.eqb].
    unfold DOE_TYPE_SECURED_CMA_SPDM in Et.
    assert (0 <= object_type hdr) by (apply Z.mod_pos_bound; lia).
    destruct (Z.eqb_spec (object_type hdr) 0), (Z.eqb_spec (object_type hdr) 1),
      (Z.eqb_spec (object_type hdr) 2); try done; lia.
Qed.

Lemma doe_fields_agree_witness :
  wp doe_process
     (fun _ d' w' => status d' = PCI_DOE_STATUS_DATA_OBJECT_READY /\
        exists r0 r1 payload, response d' = r0 :: r1 :: payload /\ VID r0 = 1 /\ TYPE r0 = 1)
     never asked_version open_world.
Proof.
  eapply wp_mono; [apply (doe_fields_agree asked_version _ 0x10001 3 0x8410 [])| |done];
    [apply asked_version_ok|reflexivity|].
  cbn beta. intros _ d' w' [H (r0 & r1 & payload & Hr & H0 & H1 & _)]. eauto 10.
Defined.
