(* ===== verification/WireProps.v ===== *)
(** * Properties of the messages and of their transfer *)
From S2P Require Import Prelude Bytes CMonad Wire ByteIO.

(** ** Transfers *)

(** C24: The transfer loops move exactly what they are asked to. The read loops ([xrecv],
    [xread], [pipe_read], [recv_all]) deliver the next [len] bytes of the stream, in order,
    and the write loops ([xsend], [xwrite], [pipe_write], [send_all]) append all of [bs],
    however the kernel cuts them, and touch no other descriptor; if they do not return,
    the program exits with 1 or waits. With a kernel that moves at least one byte at a time,
    one result per byte is enough for both to complete. *)
Theorem transfers_complete {S} msg fd fd' bs len (s : S) w :
  wp (read_all msg fd len)
     (fun got s' w' => s' = s /\ got = take len (pending fd w) /\ length got = len /\
        pending fd w' = drop len (pending fd w) /\
        (forall fd', fd' <> fd -> pending fd' w' = pending fd' w) /\ w_out w' = w_out w)
     (fun h s' w' => s' = s /\ orderly h s' w') s w /\
  wp (write_all msg fd' bs)
     (fun _ s' w' => s' = s /\ written fd' w' = written fd' w ++ bs /\
        (forall fd, fd <> fd' -> written fd w' = written fd w) /\ w_in w' = w_in w)
     (fun h s' w' => s' = s /\ orderly h s' w') s w /\
  (live 1 (len + length bs) w -> (len <= length (pending fd w))%nat ->
   exists w', (got ← read_all msg fd len; write_all msg fd' bs;; mret got) s w =
                Ok (take len (pending fd w)) s w' /\
              written fd' w' = written fd' w ++ bs /\ pending fd w' = drop len (pending fd w)).
Proof.
  split; [|split].
  - eapply wp_mono; [apply read_all_any|..]; [|done].
    cbn beta. intros got s' w' (? & ? & ? & (?&?&?&_) & _). done.
  - eapply wp_mono; [apply write_all_any|..]; [|done].
    cbn beta. intros _ s' w' (-> & (H1&H2&H3&_) & _). done.
  - intros HL Hp. destruct (read_all_live (m := 1) msg fd len s w) as (w1 & E1 & P1 & _ & O1 & _ & _ & _ & U1).
    { eapply live_mono; [|exact HL]. lia. } { done. }
    destruct (write_all_live (m := 1) msg fd' bs s w1) as (w2 & E2 & O2 & _ & I2 & _).
    { by eapply live_used. }
    exists w2. unfold mbind, C_bind. rewrite E1, E2. split; [done|].
    unfold written, pending in *. by rewrite O2, O1, I2.
Qed.

(** Twelve calls that move one byte each, six bytes waiting on descriptor 3. *)
Definition slow_world : world :=
  World (fun _ => None) (replicate 12 1) {[3 := le_encode 6 0xa1b2c3d4e5f6]} ∅ [] [] 0 [].

Lemma transfers_complete_witness :
  exists w', (got ← read_all "read" 3 4; write_all "read" 4 (le_encode 8 1);; mret got) tt slow_world =
               Ok (le_encode 4 0xc3d4e5f6) tt w' /\
             written 4 w' = le_encode 8 1 /\ pending 3 w' = le_encode 2 0xa1b2.
Proof.
  apply (proj2 (proj2 (transfers_complete "read" 3 4 (le_encode 8 1) 4 tt slow_world))).
  - split; [lia|]. split; [by apply Forall_replicate|]. by vm_compute; lia.
  - vm_compute. lia.
Defined.

(** ** Messages *)

Lemma simics_zero_ok : simics_ok simics_zero.
Proof. split; [|split]; cbn -[MAX_PAYLOAD]; [|done|done]. by repeat (constructor; [done|]). Qed.

(** C25: The two declarations of the transaction, in doe-emu.c and in thin-server.c, have
    the same layout, of 344 bytes, the access has 16; and the byte image used on the pipe
    has every field at the offset that this layout gives it. *)
Theorem declarations_agree t :
  simics_ok t ->
  layout false simics_fields_emu = layout false simics_fields_thin /\
  snd (layout false simics_fields_emu) = sizeof simics_transaction_t /\
  snd (layout true op_fields) = sizeof avery_pci_config_op /\
  Forall (fun p => exists off, offset_of (fst p) (fst (layout false simics_fields_thin)) = Some off /\
                     slice off 4 (to_bytes t) = le_encode 4 (snd p)) (simics_words t) /\
  (exists off, offset_of "physical_address" (fst (layout false simics_fields_thin)) = Some off /\
     slice off 8 (to_bytes t) = le_encode 8 (physical_address t)) /\
  (exists off, offset_of "data" (fst (layout false simics_fields_thin)) = Some off /\
     slice off MAX_PAYLOAD (to_bytes t) = data t).
Proof.
  intros Ht. split; [reflexivity|]. split; [reflexivity|]. split; [reflexivity|].
  split; [exact (simics_word_at t Ht)|]. destruct (simics_blocks_at t Ht) as [H1 H2].
  split; [exists 32%nat; split; [reflexivity|exact H1]|exists 48%nat; split; [reflexivity|exact H2]].
Qed.

Lemma declarations_agree_witness :
  exists off, offset_of "data" (fst (layout false simics_fields_thin)) = Some off /\
    slice off MAX_PAYLOAD (to_bytes simics_zero) = replicate MAX_PAYLOAD Byte.x00.
Proof. apply (declarations_agree simics_zero simics_zero_ok). Defined.
