(* ===== verification/ServerProps.v ===== *)
(** * Properties of thin-server.c, daemon-doe.c and remote-rc.c

    One round or session of each program, its translation of messages, and its
    safety whatever the kernel and the peer do. *)
From S2P Require Import Prelude Bytes CMonad Log Wire ByteIO PciRegs ThinServer RemoteRc DaemonDoe Sessions.

Definition op_read : avery_pci_config_op := Op AVERY_OP_READ 0x19c 0 0.
Definition op_answer : avery_pci_config_op := Op AVERY_OP_READ 0x19c 0x80000000 0.

Lemma op_read_ok : op_ok op_read.
Proof. by repeat split. Qed.
Lemma op_answer_ok : op_ok op_answer.
Proof. by repeat split. Qed.

(** A kernel that moves up to 344 bytes in each of [n] calls. *)
Definition quick_world (n : nat) (ins : gmap Z (list byte)) : world :=
  World (fun _ => None) (replicate n 344) ins ∅ [] [] 0 [].

Lemma quick_world_live n ins : live 344 n (quick_world n ins).
Proof. split; [lia|]. split; [by apply Forall_replicate|]. cbn. by rewrite length_replicate. Qed.

(** ** thin-server.c *)

(** A session of the server: for each access that arrives, in order, it writes one
    transaction, numbered consecutively modulo 2^32, reads one reply and sends back the
    access with the reply's status and data; with nothing left it waits. *)
Theorem server_session {m} client ops rsps fuel g w :
  Forall op_ok ops -> Forall simics_ok rsps -> length rsps = length ops ->
  pending client w = concat (map to_bytes ops) ->
  pending (t_rep_fd g) w = concat (map to_bytes rsps) ->
  client <> t_rep_fd g -> client <> t_req_fd g ->
  live m (720 * length ops + 1) w -> (length ops < fuel)%nat ->
  wp (serve fuel client) (fun _ _ _ => False)
     (fun h g' w' => h = Blocked /\
        written (t_req_fd g) w' = written (t_req_fd g) w ++ concat (map to_bytes (numbered (t_seq g) ops)) /\
        written client w' = written client w ++ concat (map to_bytes (zip_with serve_reply ops rsps)) /\
        (forall i t, numbered (t_seq g) ops !! i = Some t ->
           packet_number t = wrap32 (t_seq g + 1 + Z.of_nat i)))
     g w.
Proof.
  intros. eapply wp_mono; [by eapply (serve_session (m := m))|done|].
  cbn beta. intros h g' w' (?&?&?). split; [done|]. split; [done|]. split; [done|].
  intros i t. apply numbered_packet.
Qed.

Definition rsp0 : simics_transaction_t :=
  Simics 1 1 1 0 0 0 0 0 0 0 4 (le_encode 4 0x80000000 ++ replicate 252 Byte.x00) 0 0 0 0 0 0 0 0 0.

Lemma rsp0_ok : simics_ok rsp0.
Proof. split; [|split]; cbn -[MAX_PAYLOAD le_encode]; [|done|done]. by repeat (constructor; [done|]). Qed.

Lemma server_session_witness :
  wp (serve 2 5) (fun _ _ _ => False)
     (fun h g' w' => h = Blocked /\
        written 3 w' = to_bytes (serve_request 0 op_read) /\ written 5 w' = to_bytes op_answer)
     (Thin 3 4 0xffffffff) (quick_world 721 {[5 := to_bytes op_read; 4 := to_bytes rsp0]}).
Proof.
  eapply wp_mono; [apply (server_session (m := 344) 5 [op_read] [rsp0] 2)|..].
  - constructor; [apply op_read_ok|constructor].
  - constructor; [apply rsp0_ok|constructor].
  - reflexivity.
  - reflexivity.
  - reflexivity.
  - done.
  - done.
  - apply quick_world_live.
  - simpl. lia.
  - done.
  - cbn beta. intros h g' w' (H1 & H2 & H3 & _). split; [exact H1|]. split; [exact H2|exact H3].
Defined.

(** What the protocol asks of the server, field by field. The transaction for the access
    [op], the [n]th: a configuration packet for its offset, a write exactly when the type of
    the access is 0x10, with the value as the first of the 256 data bytes; the rest zero. *)
Definition access_transaction (n : Z) (op : avery_pci_config_op) (t : simics_transaction_t) : Prop :=
  packet_number t = n mod 2 ^ 32 /\ packet_type t = 1 /\ sim_type t = 1 /\ data_size t = 4 /\
  physical_address t = op_offset op /\
  (op_type op = 0x10 -> r0w1 t = 1) /\ (op_type op <> 0x10 -> r0w1 t = 0) /\
  data t = le_encode 4 (op_value op) ++ replicate 252 Byte.x00 /\
  Forall (eq 0) [bus_no t; dev_no t; fun_no t; cfg_type t; control_status t; reg_value t; fixed_first_size t;
                 unaligned_value t; fbe t; fixed_last_size t; lbe t; cmp_status t; response1 t; response2 t].

(** The answer [a] to [op] once [rsp] has come back: the type and offset of the access, the
    first data word of the reply, and its completion status as a signed number. *)
Definition access_answer (op : avery_pci_config_op) (rsp : simics_transaction_t) (a : avery_pci_config_op) : Prop :=
  op_type a = op_type op /\ op_offset a = op_offset op /\ op_value a = le_decode (take 4 (data rsp)) /\
  - 2 ^ 31 <= op_status a < 2 ^ 31 /\ op_status a mod 2 ^ 32 = cmp_status rsp.

Lemma serve_request_access n op : access_transaction n op (serve_request (wrap32 n) op).
Proof.
  unfold access_transaction, serve_request.
  cbn [packet_number packet_type sim_type data_size physical_address r0w1 data bus_no dev_no fun_no cfg_type
    control_status reg_value fixed_first_size unaligned_value fbe fixed_last_size lbe cmp_status response1 response2].
  do 5 (split; [done|]). change 0x10 with AVERY_OP_WRITE.
  do 2 (split; [by destruct (Z.eqb_spec (op_type op) AVERY_OP_WRITE)|]). split; [done|]. by repeat constructor.
Qed.

Lemma serve_reply_answer op rsp : simics_ok rsp -> access_answer op rsp (serve_reply op rsp).
Proof.
  intros Hr. do 3 (split; [done|]). cbn [op_status serve_reply set_op_value set_op_status].
  assert (u32 (cmp_status rsp)) as Hc.
  { destruct Hr as [Hr _]. rewrite Forall_forall in Hr. apply Hr. do 16 right. by left. }
  split; [apply swrap32_s32|]. unfold swrap32. rewrite wrap32_id by exact Hc.
  destruct (_ <? 2 ^ 31); [by apply Z.mod_small|].
  rewrite Zminus_mod, Z_mod_same_full, Z.sub_0_r, Zmod_mod. by apply Z.mod_small.
Qed.

Lemma numbered_access ops : forall sq i op,
  ops !! i = Some op ->
  exists t, numbered sq ops !! i = Some t /\ access_transaction (sq + 1 + Z.of_nat i) op t.
Proof.
  induction ops as [|o ops IH]; intros sq i op Hi; [done|]. destruct i as [|i]; cbn [numbered].
  - injection Hi as ->. eexists. split; [done|]. rewrite Z.add_0_r. apply serve_request_access.
  - destruct (IH (wrap32 (sq + 1)) i op Hi) as (t & E & Hn & H). exists t. split; [done|]. split; [|done].
    rewrite Hn. unfold wrap32. rewrite <- Z.add_assoc, Zplus_mod_idemp_l. f_equal. lia.
Qed.

(** C26: The whole server, from [main]: with the pipe directory in the environment, a log
    file or none, and calls that succeed, it opens the pipes, listens, accepts the daemon,
    and for each access that arrives, in order, writes the one transaction that the protocol
    asks for, numbered consecutively modulo 2^32, and sends back the access with the first
    data word of the reply as its value and the completion status of the reply as its
    signed status, an error included; then it waits for the next access. *)
Theorem server_main_session {m} path ops rsps fuel g w fp k1 k2 fd1 fd2 srv so b li client sched :
  w_env w "CXL_RELAY_SERVER_PATH" = Some path ->
  w_sched w = logger (w_env w "CXL_LOG_FILE") fp ++ k1 :: k2 :: fd1 :: fd2 :: srv :: so :: b :: li :: client :: sched ->
  0 <= fd1 -> 0 <= fd2 -> 0 <= b -> 0 <= client -> client <> fd1 -> client <> fd2 ->
  Forall op_ok ops -> Forall simics_ok rsps -> length rsps = length ops ->
  pending client w = concat (map to_bytes ops) -> pending fd2 w = concat (map to_bytes rsps) ->
  live m (720 * length ops + 1) (set_sched sched w) -> (length ops < fuel)%nat ->
  wp (ThinServer.main fuel) (fun _ _ _ => False)
     (fun h g' w' => h = Blocked /\
        exists transactions answers,
          written fd1 w' = written fd1 w ++ concat (map to_bytes transactions) /\
          written client w' = written client w ++ concat (map to_bytes answers) /\
          length transactions = length ops /\ length answers = length ops /\
          forall i op rsp, ops !! i = Some op -> rsps !! i = Some rsp ->
            exists t a, transactions !! i = Some t /\ access_transaction (t_seq g + 1 + Z.of_nat i) op t /\
                        answers !! i = Some a /\ access_answer op rsp a)
     g w.
Proof.
  intros Henv Hs H1 H2 H3 H4 H5 H6 Hops Hrsps Hlen. intros.
  eapply wp_mono; [by eapply (thin_main_live (m := m) path ops rsps)|done|].
  cbn beta. intros h g' w' (? & ? & ?). split; [done|].
  exists (numbered (t_seq g) ops), (zip_with serve_reply ops rsps). do 2 (split; [done|]).
  split; [apply length_numbered|]. split; [rewrite length_zip_with; lia|].
  intros i op rsp Ho Hr. destruct (numbered_access ops (t_seq g) i op Ho) as (t & Et & Ht).
  exists t, (serve_reply op rsp). do 2 (split; [done|]). split; [by rewrite lookup_zip_with, Ho, Hr|].
  apply serve_reply_answer, (Forall_lookup_1 _ _ _ _ Hrsps Hr).
Qed.

Definition relay_env (name : string) : option string :=
  if String.eqb name "CXL_RELAY_SERVER_PATH" then Some "/tmp/relay"%string else None.
Definition started_world (boot : list Z) (n : nat) (ins : gmap Z (list byte)) : world :=
  World relay_env (boot ++ replicate n 344) ins ∅ [] [] 0 [].

(** A write, and its reply with an error status and some data. *)
Definition op_write : avery_pci_config_op := Op AVERY_OP_WRITE 0x1a0 7 0.
Definition rsp_error : simics_transaction_t :=
  Simics 2 1 1 0 0 0 0 0 0 1 4 (le_encode 4 0x55 ++ replicate 252 Byte.x00) 0 0 0 0 0 0 0xffffffff 3 4.

Lemma rsp_error_ok : simics_ok rsp_error.
Proof. split; [|split]; cbn -[MAX_PAYLOAD le_encode]; [|done|done]. by repeat (constructor; [done|]). Qed.

Lemma server_main_session_witness :
  wp (ThinServer.main 3) (fun _ _ _ => False)
     (fun h g' w' => h = Blocked /\
        exists t0 t1 a0 a1,
          written 3 w' = to_bytes t0 ++ to_bytes t1 /\ written 6 w' = to_bytes a0 ++ to_bytes a1 /\
          (packet_number t1 = 2 /\ r0w1 t0 = 0 /\ r0w1 t1 = 1) /\
          (op_value a0 = 0x80000000 /\ op_value a1 = 0x55 /\ op_status a1 = -1))
     thin_init (started_world [0; 0; 3; 4; 5; 0; 0; 0; 6] 1441
                  {[6 := to_bytes op_read ++ to_bytes op_write; 4 := to_bytes rsp0 ++ to_bytes rsp_error]}).
Proof.
  eapply wp_mono; [apply (server_main_session (m := 344) "/tmp/relay" [op_read; op_write] [rsp0; rsp_error] 3 thin_init _ 0
                            0 0 3 4 5 0 0 0 6 (replicate 1441 344))|..].
  - reflexivity.
  - reflexivity.
  - lia.
  - lia.
  - lia.
  - lia.
  - done.
  - done.
  - by do 2 (constructor; [by repeat split|]).
  - constructor; [apply rsp0_ok|]. constructor; [apply rsp_error_ok|constructor].
  - reflexivity.
  - reflexivity.
  - reflexivity.
  - split; [lia|]. split; [by apply Forall_replicate|]. cbn [w_sched set_sched started_world]. rewrite length_replicate. cbn. lia.
  - simpl. lia.
  - done.
  - cbn beta. intros h g' w' (H1 & ts & ans & W1 & W2 & L1 & L2 & H). split; [exact H1|].
    destruct (H 0%nat op_read rsp0 eq_refl eq_refl) as (t0 & a0 & E1 & T0 & E2 & A0).
    destruct (H 1%nat op_write rsp_error eq_refl eq_refl) as (t1 & a1 & E3 & T1 & E4 & A1).
    destruct ts as [|? [|? [|? ?]]]; try done. destruct ans as [|? [|? [|? ?]]]; try done.
    apply (inj Some) in E1 as ->, E2 as ->, E3 as ->, E4 as ->.
    exists t0, t1, a0, a1. cbn [map concat] in W1, W2. rewrite app_nil_r in W1, W2. split; [exact W1|]. split; [exact W2|].
    split; [split; [apply T1|split; [by apply T0|by apply T1]]|].
    split; [apply A0|]. split; [apply A1|]. destruct A1 as (_ & _ & _ & Hr & Hm). cbn in Hm.
    change (op_status a1 mod 2 ^ 32 = 4294967295) in Hm. clear -Hr Hm. Z.div_mod_to_equations; lia.
Defined.

(** ** daemon-doe.c *)

(** A round of the character-device daemon: the access that the kernel driver put
    on the device goes to the server whole, and the server's answer, whole, goes back to
    the device; nothing else moves. *)
Theorem daemon_round {m} devfd sockfd op req ans rest (mem : list byte) w p r j :
  op_ok op -> op_ok ans -> length mem = 16%nat -> devfd <> sockfd ->
  pending devfd w = to_bytes op ++ req -> pending sockfd w = to_bytes ans ++ rest ->
  16 <= m -> 0 <= p -> Z.land r POLLIN <> 0 -> live m (34 + j) w ->
  wp (daemon_iter devfd sockfd)
     (fun go mem' w' => go = true /\ mem' = to_bytes ans /\
        pending devfd w' = req /\ pending sockfd w' = rest /\
        written sockfd w' = written sockfd w ++ to_bytes op /\
        written devfd w' = written devfd w ++ to_bytes ans)
     never mem (set_sched (p :: r :: w_sched w) w).
Proof.
  intros. eapply wp_mono; [by apply (daemon_iter_live (m := m) devfd sockfd op req ans rest mem w p r j)|..]; [|done].
  cbn beta. intros go mem' w' (?&?&?&?&?&?&_). done.
Qed.

Lemma daemon_round_witness :
  wp (daemon_iter 7 5)
     (fun go mem' w' => go = true /\ mem' = to_bytes op_answer /\ pending 7 w' = [] /\ pending 5 w' = [] /\
        written 5 w' = to_bytes op_read /\ written 7 w' = to_bytes op_answer)
     never (replicate 16 Byte.x00)
     (set_sched (1 :: 1 :: replicate 34 344) (quick_world 34 {[7 := to_bytes op_read; 5 := to_bytes op_answer]})).
Proof.
  apply (daemon_round (m := 344) 7 5 op_read [] op_answer [] (replicate 16 Byte.x00)
    (quick_world 34 {[7 := to_bytes op_read; 5 := to_bytes op_answer]}) 1 1 0);
    [apply op_read_ok|apply op_answer_ok|reflexivity|done|reflexivity|reflexivity|lia|lia|done|].
  apply quick_world_live.
Defined.

(** C28: The whole character-device daemon, from [main]: with calls that succeed, it
    connects to the server and relays one access after the other, each whole to the server
    and its answer whole back to the device, in order and nothing else, until [poll]
    fails; then it closes both and returns 0. *)
Theorem daemon_main_session l fuel (mem : list byte) w fp devfd sockfd pton conn req rest p e1 e2 sched :
  w_sched w = logger (w_env w "CXL_LOG_FILE") fp ++
    devfd :: sockfd :: pton :: conn :: concat (map r_results l) ++ p :: e1 :: e2 :: sched ->
  0 <= devfd -> 0 <= sockfd -> 0 < pton -> 0 <= conn -> devfd <> sockfd -> p < 0 ->
  Forall round_ok l -> length mem = 16%nat ->
  pending devfd w = concat (map (fun x => to_bytes (r_op x)) l) ++ req ->
  pending sockfd w = concat (map (fun x => to_bytes (r_ans x)) l) ++ rest -> (length l < fuel)%nat ->
  wp (DaemonDoe.main fuel)
     (fun r mem' w' => r = 0 /\ w_sched w' = sched /\ pending devfd w' = req /\ pending sockfd w' = rest /\
        written sockfd w' = written sockfd w ++ concat (map (fun x => to_bytes (r_op x)) l) /\
        written devfd w' = written devfd w ++ concat (map (fun x => to_bytes (r_ans x)) l))
     never mem w.
Proof. intros. by eapply daemon_main_live. Qed.

Lemma daemon_main_session_witness :
  wp (DaemonDoe.main 2)
     (fun r mem' w' => r = 0 /\ written 5 w' = to_bytes op_read /\ written 7 w' = to_bytes op_answer)
     never (replicate 16 Byte.x00)
     (started_world [7; 5; 1; 0; 1; 1; 16; 16; 16; 16; -1; 0; 0] 0
        {[7 := to_bytes op_read; 5 := to_bytes op_answer]}).
Proof.
  eapply wp_mono; [apply (daemon_main_session [Round op_read op_answer [1; 1; 16; 16; 16; 16]] 2 _ _ 0
                            7 5 1 0 [] [] (-1) 0 0 [])|..].
  - reflexivity.
  - lia.
  - lia.
  - lia.
  - lia.
  - done.
  - lia.
  - constructor; [|constructor]. split; [apply op_read_ok|]. split; [apply op_answer_ok|].
    exists 1, 1, 16, 16, 16, 16. repeat (split; [done|]). lia.
  - reflexivity.
  - reflexivity.
  - reflexivity.
  - simpl. lia.
  - cbn beta. intros r mem' w' (H1 & _ & _ & _ & H2 & H3). split; [exact H1|]. split; [exact H2|exact H3].
  - done.
Defined.

(** C29: The daemon does not see that its device is gone: as often as [poll] returns and
    reports only an error or a hang-up, without [POLLIN], it polls again at once, without a
    transfer, a message or an exit. *)
Theorem daemon_ignores_hangup devfd sockfd n fuel r (mem : list byte) w :
  Z.land r POLLIN = 0 -> w_sched w = concat (replicate n [1; r]) -> (n < fuel)%nat ->
  wp (forever fuel (daemon_iter devfd sockfd)) (fun _ _ _ => False)
     (fun h mem' w' => h = Blocked /\ mem' = mem /\ w_sched w' = [] /\
        (forall fd, pending fd w' = pending fd w) /\ (forall fd, written fd w' = written fd w))
     mem w.
Proof. apply daemon_spins. Qed.

Lemma daemon_ignores_hangup_witness :
  wp (forever 4 (daemon_iter 7 5)) (fun _ _ _ => False)
     (fun h mem' w' => h = Blocked /\ mem' = replicate 16 Byte.x00 /\ w_sched w' = [] /\
        (forall fd, pending fd w' = pending fd (quick_world 0 ∅)) /\
        (forall fd, written fd w' = written fd (quick_world 0 ∅)))
     (replicate 16 Byte.x00) (set_sched (concat (replicate 3 [1; 0x18])) (quick_world 0 ∅)).
Proof.
  apply (daemon_ignores_hangup 7 5 3 4 0x18 _ (set_sched (concat (replicate 3 [1; 0x18])) (quick_world 0 ∅)));
    [reflexivity|reflexivity|lia].
Defined.

(** ** remote-rc.c *)

(** A round of the stand-alone server on a whole access: the access comes back with
    status 0, its value replaced by 0xdeadbeef exactly when it is a read of the READ
    mailbox, its type and offset untouched. *)
Theorem rc_round {m} c op ops (mem : list byte) w j :
  op_ok op -> length mem = 16%nat -> pending c w = to_bytes op ++ ops -> 16 <= m -> live m (2 + j) w ->
  wp (rc_iter c)
     (fun go mem' w' => go = true /\ pending c w' = ops /\
        written c w' = written c w ++
          to_bytes (Op (op_type op) (op_offset op)
                       (if op_type op =? PCI_DOE_READ then 0xdeadbeef else op_value op) 0))
     never mem w.
Proof.
  intros. eapply wp_mono; [by apply (rc_iter_live (m := m) c op ops mem w j)|..]; [|done].
  cbn beta. intros go mem' w' (?&_&?&Hw&_). split; [done|]. split; [done|].
  rewrite Hw. unfold emulate. by destruct (_ =? _).
Qed.

Lemma rc_round_witness :
  wp (rc_iter 5) (fun go mem' w' => written 5 w' = to_bytes (Op AVERY_OP_READ 0x19c 0xdeadbeef 0))
     never (replicate 16 Byte.x00) (quick_world 2 {[5 := to_bytes op_read]}).
Proof.
  eapply wp_mono; [apply (rc_round (m := 344) 5 op_read [] (replicate 16 Byte.x00) _ 0)|..];
    [apply op_read_ok|reflexivity|reflexivity|lia|apply quick_world_live| |done].
  cbn beta. intros go mem' w' (_ & _ & H). exact H.
Defined.

(** C30: The whole stand-alone server, from [main]: it listens, accepts, and answers every
    access, in order, with status 0 and with 0xdeadbeef for a read of the READ mailbox,
    its type, offset and other values untouched; when the connection ends between two
    accesses it returns 0. *)
Theorem rc_main_session ops fuel (mem : list byte) w s o b l c results n e1 e2 sched :
  w_sched w = s :: o :: b :: l :: c :: results ++ n :: e1 :: e2 :: sched ->
  0 <= s -> 0 <= o -> 0 <= b -> 0 <= l -> 0 <= c -> n <= 0 ->
  length results = (2 * length ops)%nat -> Forall (fun r => 16 <= r) results ->
  Forall op_ok ops -> length mem = 16%nat -> pending c w = concat (map to_bytes ops) -> (length ops < fuel)%nat ->
  wp (RemoteRc.main fuel)
     (fun r mem' w' => r = 0 /\ w_sched w' = sched /\ pending c w' = [] /\
        written c w' = written c w ++
          concat (map (fun op => to_bytes (Op (op_type op) (op_offset op)
                    (if op_type op =? PCI_DOE_READ then 0xdeadbeef else op_value op) 0)) ops))
     never mem w.
Proof.
  intros. eapply wp_mono; [by eapply rc_main_live|..]; [|done].
  cbn beta. intros r mem' w' (-> & -> & -> & ->). do 3 (split; [done|]). do 2 f_equal.
  apply map_ext. intros op. unfold emulate. by destruct (_ =? _).
Qed.

Lemma rc_main_session_witness :
  wp (RemoteRc.main 2) (fun r mem' w' => r = 0 /\ written 5 w' = to_bytes (Op AVERY_OP_READ 0x19c 0xdeadbeef 0))
     never (replicate 16 Byte.x00) (started_world [4; 0; 0; 0; 5; 16; 16; 0; 0; 0] 0 {[5 := to_bytes op_read]}).
Proof.
  eapply wp_mono; [apply (rc_main_session [op_read] 2 _ _ 4 0 0 0 5 [16; 16] 0 0 0 [])|..];
    [reflexivity|lia|lia|lia|lia|lia|lia|reflexivity|by do 2 (constructor; [lia|])
    |constructor; [apply op_read_ok|constructor]|reflexivity|reflexivity|simpl; lia| |done].
  cbn beta. intros r mem' w' (H1 & _ & _ & H2). split; [exact H1|exact H2].
Defined.

(** C31: remote-rc.c does not check that it received a whole access: when the connection
    ends inside one, after [n] of 16 bytes, it answers the access made of those bytes
    and of what the previous access left in the rest of [op]. *)
Theorem rc_answers_partial_access c bs (mem : list byte) w c1 c2 sched :
  (0 < length bs < 16)%nat -> length mem = 16%nat -> pending c w = bs ->
  w_sched w = c1 :: c2 :: sched -> 16 <= c1 -> 16 <= c2 ->
  wp (rc_iter c)
     (fun go mem' w' => go = true /\
        written c w' = written c w ++ to_bytes (emulate (of_bytes (bs ++ drop (length bs) mem))))
     never mem w.
Proof.
  intros Hb Hm Hp Hs H1 H2. unfold rc_iter. apply wp_bind. unfold wp at 1, sys_read. rewrite Hs, Hp.
  destruct (Z.leb_spec c1 0); [lia|]. destruct bs as [|b bs']; [simpl in Hb; lia|].
  set (bs := b :: bs') in *. change (sizeof avery_pci_config_op) with 16%nat.
  replace (Nat.min _ _) with (length bs) by lia.
  destruct (Z.leb_spec (Z.of_nat (length bs)) 0); [lia|]. apply wp_bind, wp_modify, wp_bind, wp_get.
  rewrite take_ge by lia. unfold splice. cbn [take app Nat.add]. rewrite app_nil_l.
  set (op := of_bytes (bs ++ drop (length bs) mem)).
  assert (op_ok op) as Hop.
  { apply (of_bytes_ok (CStructLaws := op_laws)). rewrite length_app, length_drop, Hm.
    change (sizeof avery_pci_config_op) with 16%nat. lia. }
  pose proof (length_to_bytes (CStructLaws := op_laws) _ (emulate_ok op Hop)) as Hl.
  change (sizeof avery_pci_config_op) with 16%nat in Hl.
  apply wp_bind, wp_emit, wp_bind, wp_modify, wp_bind. unfold wp at 1, sys_write.
  cbn [w_sched add_event set_in set_sched]. destruct (Z.leb_spec c2 0); [lia|].
  rewrite Hl. replace (Nat.min (Z.to_nat c2) 16) with 16%nat by lia.
  cbn [negb Z.eqb Z.of_nat Pos.of_succ_nat Pos.succ Pos.eqb]. apply wp_bind, wp_emit, wp_ret. split; [done|].
  unfold written at 1. cbn [w_out set_out add_event]. rewrite lookup_insert_eq. cbn [default].
  by rewrite take_ge by lia.
Qed.

Lemma rc_answers_partial_access_witness :
  wp (rc_iter 5)
     (fun go mem' w' => go = true /\ written 5 w' = to_bytes (Op AVERY_OP_READ 0x77 0xdeadbeef 0))
     never (to_bytes (Op 0x10 0x77 1 0)) (quick_world 2 {[5 := le_encode 4 AVERY_OP_READ]}).
Proof.
  eapply wp_mono; [apply (rc_answers_partial_access 5 (le_encode 4 AVERY_OP_READ) _ _ 344 344 [])|..];
    [simpl; lia|reflexivity|reflexivity|reflexivity|lia|lia| |done].
  cbn beta. intros go mem' w' [H1 H2]. split; [exact H1|exact H2].
Defined.

(** ** Safety *)


