(* ===== verification/NetlinkProps.v ===== *)
(** * Properties of daemon-doe-netlink.c *)
From S2P Require Import Prelude Bytes CMonad Wire ByteIO Netlink NetlinkSpec NlSession.

(** ** Concrete inputs for the witnesses *)

Definition nl_op : avery_pci_config_op := Op 0x14 0x19c 0 0.
Definition nl_ans : avery_pci_config_op := Op 0x14 0x19c 0x80000000 0.
Definition nl_op_datagram : list byte :=
  encode_msg 0x1d 0 9 0 AVERY_CMD_REQUEST ([(7, [Byte.x01])] ++ [(AVERY_ATTR_OP, to_bytes nl_op)]).

Lemma nl_op_ok : op_ok nl_op.
Proof. by repeat split. Qed.
Lemma nl_ans_ok : op_ok nl_ans.
Proof. by repeat split. Qed.

Lemma nl_op_datagram_ok : request_datagram 9 0 nl_op nl_op_datagram.
Proof.
  apply (RequestDatagram 9 0 nl_op 1 0x1d 0 [(7, [Byte.x01])] []); [|by constructor|apply nl_op_ok|done|done|].
  - constructor; [|constructor]. by split.
  - apply Nat.leb_le. vm_compute. reflexivity.
Qed.

Definition nl_world (sched : list Z) (msgs : list (list byte)) (bs : list byte) : world :=
  World (fun _ => None) sched {[3 := bs]} ∅ msgs [] 0 [].

Definition nl_idle : nl_state := NlState 0x1d 0 0 (zeros 16).

(** ** Requests *)

(** Every well-formed request is parsed: whatever attributes of other types stand
    before the access, whatever follows it and whatever the receive buffer held before,
    [nl_recv_request] returns 0 with the sender's port, its sequence number and the 16
    bytes of the access; 1024 rounds of the walk are enough for a 4096-byte buffer. *)
Theorem request_parsed junk4096 fuel g w c sched m ms sq pid op :
  (1024 <= fuel)%nat -> w_sched w = c :: sched -> 0 < c -> w_nlin w = m :: ms ->
  request_datagram sq pid op m ->
  nl_recv_request junk4096 fuel g w =
  Ok 0 (NlState (family_id g) pid sq (to_bytes op)) (set_nlin ms (set_sched sched w)).
Proof. intros Hf. by apply nl_recv_request_ok. Qed.

Lemma request_parsed_witness :
  nl_recv_request [] 1024 nl_idle (nl_world [1] [nl_op_datagram] []) =
  Ok 0 (NlState 0x1d 0 9 (to_bytes nl_op)) (nl_world [] [] []).
Proof.
  exact (request_parsed [] 1024 nl_idle (nl_world [1] [nl_op_datagram] []) 1 [] nl_op_datagram [] 9 0 nl_op
    (le_n 1024) eq_refl eq_refl eq_refl nl_op_datagram_ok).
Defined.

(** A round with a server that answers: the access goes to the server once and
    whole, and the kernel gets one datagram, the server's answer under the request's
    sequence number. *)
Theorem netlink_round junk4096 fuel g w sockfd c1 c2 c3 mypid c5 sched m ms sq pid op ans rest :
  (1024 <= fuel)%nat ->
  w_sched w = c1 :: c2 :: c3 :: mypid :: c5 :: sched -> 0 < c1 -> 16 <= c2 -> 16 <= c3 -> 0 <= c5 ->
  w_nlin w = m :: ms -> request_datagram sq pid op m ->
  op_ok ans -> pending sockfd w = to_bytes ans ++ rest ->
  wp (nl_iter junk4096 fuel sockfd)
     (fun go g' w' => go = true /\ w_nlin w' = ms /\
        w_nlout w' = w_nlout w ++ [response_datagram (family_id g) mypid sq (to_bytes ans)] /\
        pending sockfd w' = rest /\ written sockfd w' = written sockfd w ++ to_bytes op) never g w.
Proof.
  intros Hf Hs H1 H2 H3 H5 Hn Hr Ha Hp. eapply wp_mono; [by eapply nl_iter_served|..]; [|done].
  cbn beta. intros go g' w' (?&?&?&?&?&?&?). done.
Qed.

Lemma netlink_round_witness :
  wp (nl_iter [] 1024 3)
     (fun go g' w' => w_nlout w' = [response_datagram 0x1d 42 9 (to_bytes nl_ans)] /\
        written 3 w' = to_bytes nl_op)
     never nl_idle (nl_world [1; 16; 16; 42; 40] [nl_op_datagram] (to_bytes nl_ans)).
Proof.
  eapply wp_mono; [apply (netlink_round [] 1024 nl_idle _ 3 1 16 16 42 40 [] nl_op_datagram [] 9 0 nl_op nl_ans [])|..];
    [lia|reflexivity|lia|lia|lia|lia|reflexivity|apply nl_op_datagram_ok|apply nl_ans_ok|reflexivity| |done].
  cbn beta. intros go g' w' (_ & _ & H1 & _ & H2). split; [exact H1|exact H2].
Defined.

(** C32: The whole netlink daemon, from [main]: it connects to the server, asks the
    controller for the family AVERY_DOE, takes the identifier from any well-formed reply
    (any version byte, any attributes around the identifier), registers under it, and then for every well-formed request, in order, sends the access
    once and whole to the server and its answer to the kernel, under the request's
    sequence number; with no request queued it waits. *)
Theorem netlink_main_session junk4096 junk8192 fuel l g w sockfd pton conn nls pid0 bnd pid1 s1 r1 pid2 s2 c sched
    ver type flags sq pid cmd skipped id others rest :
  let m := genl_msg ver type flags sq pid cmd (skipped ++ (CTRL_ATTR_FAMILY_ID, le_encode 2 id) :: others) in
  (1024 <= fuel)%nat ->
  w_sched w = sockfd :: pton :: conn :: nls :: pid0 :: bnd :: pid1 :: s1 :: r1 :: pid2 :: s2 ::
              concat (map n_results l) ++ c :: sched ->
  0 <= sockfd -> 0 < pton -> 0 <= conn -> 0 <= s1 -> 0 < r1 -> 0 <= s2 -> 0 < c ->
  Forall attr_ok skipped -> Forall (fun a => fst a <> CTRL_ATTR_FAMILY_ID) skipped ->
  (length skipped < fuel)%nat -> (length m <= reply_size)%nat -> u16 id ->
  w_nlin w = m :: map n_msg l -> Forall nl_round_ok l ->
  pending sockfd w = concat (map (fun x => to_bytes (n_ans x)) l) ++ rest -> (length l < fuel)%nat ->
  wp (Netlink.main junk4096 junk8192 fuel) (fun _ _ _ => False)
     (fun h g' w' => h = Blocked /\
        w_nlout w' = w_nlout w ++
          [query_datagram pid1; register_datagram id pid2] ++ map (nl_response id) l /\
        pending sockfd w' = rest /\
        written sockfd w' = written sockfd w ++ concat (map (fun x => to_bytes (n_op x)) l))
     g w.
Proof. intros m Hf. by apply nl_main_live. Qed.

(** The reply of the controller: version 2, the name, the identifier and three more attributes. *)
Definition nl_family_reply : list byte :=
  genl_msg 2 0x10 0 1 42 1 ([(CTRL_ATTR_FAMILY_NAME, family_name_bytes)] ++
    (CTRL_ATTR_FAMILY_ID, le_encode 2 0x1d) :: [(3, le_encode 4 1); (4, le_encode 4 0); (5, le_encode 4 1)]).

Lemma netlink_main_session_witness :
  wp (Netlink.main [] [] 1024) (fun _ _ _ => False)
     (fun h g' w' => h = Blocked /\
        drop 2 (w_nlout w') = [response_datagram 0x1d 42 9 (to_bytes nl_ans)] /\ written 3 w' = to_bytes nl_op)
     nl_idle (nl_world [3; 1; 0; 4; 42; 0; 42; 40; 100; 42; 20; 1; 16; 16; 42; 40; 1]
                [nl_family_reply; nl_op_datagram] (to_bytes nl_ans)).
Proof.
  eapply wp_mono; [apply (netlink_main_session [] [] 1024 [NlRound 9 0 nl_op nl_op_datagram nl_ans 42 [1; 16; 16; 42; 40]]
    nl_idle _ 3 1 0 4 42 0 42 40 100 42 20 1 [] 2 0x10 0 1 42 1 [(CTRL_ATTR_FAMILY_NAME, family_name_bytes)] 0x1d
    [(3, le_encode 4 1); (4, le_encode 4 0); (5, le_encode 4 1)] [])|..].
  - lia.
  - reflexivity.
  - lia.
  - lia.
  - lia.
  - lia.
  - lia.
  - lia.
  - lia.
  - by constructor.
  - by constructor.
  - simpl. lia.
  - apply Nat.leb_le. vm_compute. reflexivity.
  - done.
  - reflexivity.
  - constructor; [|constructor]. split; [apply nl_op_datagram_ok|]. split; [apply nl_ans_ok|].
    exists 1, 16, 16, 40. repeat (split; [done|]). done.
  - reflexivity.
  - simpl. lia.
  - done.
  - cbn beta. intros h g' w' (H1 & H2 & _ & H3). split; [exact H1|]. split; [|exact H3]. rewrite H2. reflexivity.
Defined.

(** C33: Datagrams that are not requests for an access are rejected. With any other
    command in the generic header [nl_recv_request] returns -1 and changes nothing, whatever
    else the datagram holds, an access among its attributes included, and also when it is too
    short to have a header and the byte is what the buffer held before. A request with
    well-formed attributes and no access among them also gives -1, but its port and sequence
    number have replaced the remembered ones. *)
Theorem request_rejected junk4096 fuel g w c sched m ms :
  w_sched w = c :: sched -> 0 < c -> w_nlin w = m :: ms -> (0 < length m)%nat ->
  (forall b, received (take 4096 m) junk4096 !! 16%nat = Some b -> byte_to_Z b <> AVERY_CMD_REQUEST ->
     nl_recv_request junk4096 fuel g w = Ok (-1) g (set_nlin ms (set_sched sched w))) /\
  (forall ver type flags sq pid attrs,
     m = genl_msg ver type flags sq pid AVERY_CMD_REQUEST attrs -> (length m <= 4096)%nat -> u32 sq -> u32 pid ->
     Forall attr_ok attrs -> Forall (fun a => fst a <> AVERY_ATTR_OP) attrs -> (length attrs <= fuel)%nat ->
     nl_recv_request junk4096 fuel g w = Ok (-1) (set_pending pid sq g) (set_nlin ms (set_sched sched w))).
Proof.
  intros Hs Hc Hn H0. split.
  - intros b Hb Hne. rewrite (nl_recv_request_takes _ _ _ _ _ _ _ _ Hs Hc Hn H0). by eapply parse_other_command.
  - intros ver type flags sq pid attrs -> Hm Hsq Hpid Hok Hne Hf.
    pose proof (length_genl_msg ver type flags sq pid AVERY_CMD_REQUEST attrs) as El.
    rewrite (nl_recv_request_eq _ _ _ _ _ _ _ _ Hs Hc Hn H0 Hm).
    apply parse_without_access; try done. apply inj_le in Hm. rewrite El in Hm. cbn in Hm. lia.
Qed.

(** A datagram with the command of a response that carries an access. *)
Definition nl_other_datagram : list byte := encode_msg 0x1d 0 9 5 AVERY_CMD_RESPONSE [(AVERY_ATTR_OP, to_bytes nl_op)].
Definition nl_bare_datagram : list byte := encode_msg 0x1d 0 9 5 AVERY_CMD_REQUEST [(7, [Byte.x01])].

Lemma request_rejected_witness :
  nl_recv_request [] 1024 nl_idle (nl_world [1] [nl_other_datagram] []) = Ok (-1) nl_idle (nl_world [] [] []) /\
  nl_recv_request (replicate 20 Byte.xaa) 1024 nl_idle (nl_world [1] [[Byte.x01]] []) = Ok (-1) nl_idle (nl_world [] [] []) /\
  nl_recv_request [] 1024 nl_idle (nl_world [1] [nl_bare_datagram] []) =
  Ok (-1) (NlState 0x1d 5 9 (zeros 16)) (nl_world [] [] []).
Proof.
  split; [|split].
  - destruct (request_rejected [] 1024 nl_idle (nl_world [1] [nl_other_datagram] []) 1 [] nl_other_datagram [])
      as [H _]; [reflexivity|lia|reflexivity|apply Nat.ltb_lt; vm_compute; reflexivity|].
    apply (H (byte_of_Z AVERY_CMD_RESPONSE)); [vm_compute; reflexivity|done].
  - destruct (request_rejected (replicate 20 Byte.xaa) 1024 nl_idle (nl_world [1] [[Byte.x01]] []) 1 [] [Byte.x01] [])
      as [H _]; [reflexivity|lia|reflexivity|apply Nat.ltb_lt; vm_compute; reflexivity|].
    apply (H Byte.xaa); [vm_compute; reflexivity|done].
  - destruct (request_rejected [] 1024 nl_idle (nl_world [1] [nl_bare_datagram] []) 1 [] nl_bare_datagram [])
      as [_ H]; [reflexivity|lia|reflexivity|apply Nat.ltb_lt; vm_compute; reflexivity|].
    apply (H 1 0x1d 0 9 5 [(7, [Byte.x01])]); [reflexivity|apply Nat.leb_le; vm_compute; reflexivity|done|done|
      by constructor|by constructor|simpl; lia].
Defined.

(** C34: The results of [send] and [recv] are not checked: when the server is gone, the
    kernel still gets a response, and it is the request itself, status included, so the
    access appears to have succeeded with the value it was sent with. (The round in which
    the server is found dead: on a later [send] the kernel may raise SIGPIPE.) *)
Theorem dead_server_echo junk4096 fuel g w sockfd c1 c2 c3 mypid c5 sched m ms sq pid op :
  (1024 <= fuel)%nat ->
  w_sched w = c1 :: c2 :: c3 :: mypid :: c5 :: sched -> 0 < c1 -> c3 <= 0 -> 0 <= c5 ->
  w_nlin w = m :: ms -> request_datagram sq pid op m ->
  wp (nl_iter junk4096 fuel sockfd)
     (fun go g' w' => go = true /\
        w_nlout w' = w_nlout w ++ [response_datagram (family_id g) mypid sq (to_bytes op)]) never g w.
Proof.
  intros Hf Hs H1 H3 H5 Hn Hr. eapply wp_mono; [by eapply nl_iter_dead|..]; [|done].
  cbn beta. intros go g' w' (?&?&?&?&?). done.
Qed.

Lemma dead_server_echo_witness :
  wp (nl_iter [] 1024 3)
     (fun go g' w' => w_nlout w' = [response_datagram 0x1d 42 9 (to_bytes nl_op)])
     never nl_idle (nl_world [1; -1; 0; 42; 40] [nl_op_datagram] []).
Proof.
  eapply wp_mono; [apply (dead_server_echo [] 1024 nl_idle _ 3 1 (-1) 0 42 40 [] nl_op_datagram [] 9 0 nl_op)|..];
    [lia|reflexivity|lia|lia|lia|reflexivity|apply nl_op_datagram_ok| |done].
  cbn beta. intros go g' w' (_ & H1). exact H1.
Defined.

(** C35: One failed [recv] is never made good. When the call fails once and the server's
    answer arrives afterwards, the answer stays in the connection, and from then on every
    response carries the answer to the request before, under its own sequence number; the
    last answer is never delivered. *)
Theorem failed_recv_shifts_answers junk4096 fuel sockfd l a g w c1 c2 c3 mypid c5 c sched m sq pid op n :
  (1024 <= fuel)%nat ->
  w_sched w = c1 :: c2 :: c3 :: mypid :: c5 :: concat (map n_results l) ++ c :: sched ->
  0 < c1 -> 16 <= c2 -> c3 <= 0 -> 0 <= c5 -> 0 < c ->
  request_datagram sq pid op m -> op_ok a -> Forall nl_round_ok l -> w_nlin w = m :: map n_msg l ->
  pending sockfd w = concat (map to_bytes (a :: map n_ans l)) -> (S (length l) < n)%nat ->
  wp (forever n (nl_iter junk4096 fuel sockfd)) (fun _ _ _ => False)
     (fun h g' w' => h = Blocked /\
        w_nlout w' = w_nlout w ++ response_datagram (family_id g) mypid sq (to_bytes op) ::
                     map (nl_response (family_id g)) (shifted a l) /\
        pending sockfd w' = to_bytes (last (map n_ans l) a))
     g w.
Proof. intros Hf. by apply nl_rounds_late. Qed.

Lemma failed_recv_shifts_answers_witness :
  wp (forever 3 (nl_iter [] 1024 3)) (fun _ _ _ => False)
     (fun h g' w' => h = Blocked /\
        w_nlout w' = [response_datagram 0x1d 42 9 (to_bytes nl_op);
                      response_datagram 0x1d 42 9 (to_bytes (Op 1 2 3 0))] /\
        pending 3 w' = to_bytes nl_ans)
     nl_idle (nl_world [1; 16; -1; 42; 40; 1; 16; 16; 42; 40; 1] [nl_op_datagram; nl_op_datagram]
                       (to_bytes (Op 1 2 3 0) ++ to_bytes nl_ans)).
Proof.
  eapply wp_mono; [apply (failed_recv_shifts_answers [] 1024 3
    [NlRound 9 0 nl_op nl_op_datagram nl_ans 42 [1; 16; 16; 42; 40]] (Op 1 2 3 0) nl_idle _
    1 16 (-1) 42 40 1 [] nl_op_datagram 9 0 nl_op 3)|..].
  - lia.
  - reflexivity.
  - lia.
  - lia.
  - lia.
  - lia.
  - lia.
  - apply nl_op_datagram_ok.
  - done.
  - constructor; [|constructor]. split; [apply nl_op_datagram_ok|]. split; [apply nl_ans_ok|].
    exists 1, 16, 16, 40. repeat (split; [done|]). done.
  - reflexivity.
  - reflexivity.
  - simpl. lia.
  - done.
  - cbn beta. intros h g' w' H. exact H.
Defined.

(** ** Attributes *)

(** C36: A request with an attribute of length 0 that is not the access hangs the daemon,
    wherever that attribute stands among well-formed attributes before the access: no number
    of rounds ends the walk. And that is the only way: whatever bytes a request is made of,
    the parsing goes on for ever exactly when the walk comes to such an attribute within the
    announced length, and otherwise it is over within a round for every four bytes
    announced. *)
Theorem zero_length_attribute_hangs :
  (forall junk4096 fuel g w c sched ms ver type flags sq pid skipped ty tail n,
     let m := msg_buf ver type flags sq pid AVERY_CMD_REQUEST
                (encode_attrs skipped ++ le_encode 2 0 ++ le_encode 2 ty ++ tail) [] n in
     w_sched w = c :: sched -> 0 < c -> w_nlin w = m :: ms -> (length m <= 4096)%nat ->
     Forall attr_ok skipped -> Forall (fun a => fst a <> AVERY_ATTR_OP) skipped ->
     u16 ty -> ty <> AVERY_ATTR_OP -> 20 + Z.of_nat (length (encode_attrs skipped)) < n < 2 ^ 31 ->
     nl_recv_request junk4096 fuel g w = NoFuel) /\
  (forall buf b g w, buf !! 16%nat = Some b -> byte_to_Z b = AVERY_CMD_REQUEST ->
     exists len, load 0 4 buf = Some len /\
     let attrlen := attr_bytes (le_decode len) in
     let stuck := exists o a, visits buf AVERY_ATTR_OP 20 attrlen o a /\ zero_length_at buf AVERY_ATTR_OP o a in
     ((forall fuel, nl_parse_request fuel buf g w = NoFuel) <-> stuck) /\
     (forall fuel, attrlen <= 4 * Z.of_nat fuel -> ~ stuck -> nl_parse_request fuel buf g w <> NoFuel)).
Proof.
  split; [exact zero_length_stuck|]. intros buf b g w Hb Hc.
  destruct (parse_request_walks buf b Hb Hc) as (len & pid & sq & El & _ & _ & Hw). exists len. split; [done|].
  cbn zeta. split.
  - split.
    + intros H. specialize (H (Z.to_nat (attr_bytes (le_decode len)))). rewrite Hw in H.
      apply still_walking_visits with (fuel := Z.to_nat (attr_bytes (le_decode len))); [lia|by eapply walk_out_of_fuel].
    + intros (o & a & Hv & Hs) fuel. rewrite Hw. by rewrite (visits_stuck _ _ _ _ _ _ Hv Hs).
  - intros fuel Hf Hn H. apply Hn. rewrite Hw in H. eapply still_walking_visits; [exact Hf|by eapply walk_out_of_fuel].
Qed.

(** An attribute of type 7, one of length 0, and then the access. *)
Definition nl_zero_datagram : list byte :=
  msg_buf 1 0x1d 0 9 0 AVERY_CMD_REQUEST
    (encode_attrs [(7, [Byte.x01])] ++ le_encode 2 0 ++ le_encode 2 9 ++ encode_attr (AVERY_ATTR_OP, to_bytes nl_op)) [] 52.

Lemma zero_length_attribute_hangs_witness :
  nl_recv_request [] 1024 nl_idle (nl_world [1] [nl_zero_datagram] []) = NoFuel /\
  nl_parse_request 4000 nl_zero_datagram nl_idle (nl_world [] [] []) = NoFuel /\
  nl_parse_request 7 nl_op_datagram nl_idle (nl_world [] [] []) <> NoFuel.
Proof.
  split; [|split].
  - apply (proj1 zero_length_attribute_hangs [] 1024%nat nl_idle (nl_world [1] [nl_zero_datagram] []) 1 [] [] 1 0x1d 0 9 0
      [(7, [Byte.x01])] 9 (encode_attr (AVERY_ATTR_OP, to_bytes nl_op)) 52);
      [reflexivity|lia|reflexivity|apply Nat.leb_le; vm_compute; reflexivity|by constructor|by constructor|done|done|].
    split; vm_compute; reflexivity.
  - destruct (proj2 zero_length_attribute_hangs nl_zero_datagram (byte_of_Z AVERY_CMD_REQUEST) nl_idle (nl_world [] [] []))
      as (len & E & [_ H] & _); [vm_compute; reflexivity|reflexivity|].
    vm_compute in E. injection E as <-. apply H. exists 28, 24. split.
    + eapply VisitNext; [done|vm_compute; reflexivity|done|constructor].
    + split; [done|]. eexists. split; [vm_compute; reflexivity|done].
  - destruct (proj2 zero_length_attribute_hangs nl_op_datagram (byte_of_Z AVERY_CMD_REQUEST) nl_idle (nl_world [] [] []))
      as (len & E & [_ H1] & H2); [vm_compute; reflexivity|reflexivity|].
    vm_compute in E. injection E as <-. apply H2; [done|]. intros Hs. specialize (H1 Hs 7%nat). vm_compute in H1. done.
Defined.

(** C37: The length of the access attribute is not checked: when it holds fewer than 16
    bytes and stands last, the access that goes to the server is completed with what the
    receive buffer, an uninitialised array on the stack, held behind the datagram. *)
Theorem short_access_leaks junk4096 fuel g w c sched ms ver type flags sq pid skipped payload :
  let m := genl_msg ver type flags sq pid AVERY_CMD_REQUEST (skipped ++ [(AVERY_ATTR_OP, payload)]) in
  w_sched w = c :: sched -> 0 < c -> w_nlin w = m :: ms -> (length m <= 4096)%nat ->
  (length m + 16 <= length junk4096)%nat ->
  u32 sq -> u32 pid -> Forall attr_ok skipped -> Forall (fun a => fst a <> AVERY_ATTR_OP) skipped ->
  (length skipped < fuel)%nat -> (length payload < 16)%nat ->
  nl_recv_request junk4096 fuel g w =
  Ok 0 (NlState (family_id g) pid sq (take 16 (payload ++ attr_pad payload ++ drop (length m) junk4096)))
     (set_nlin ms (set_sched sched w)).
Proof.
  intros m Hs Hc Hn Hm Hj Hsq Hpid Hok Hne Hf Hp.
  pose proof (length_genl_msg ver type flags sq pid AVERY_CMD_REQUEST (skipped ++ [(AVERY_ATTR_OP, payload)])) as El.
  fold m in El. assert (Z.of_nat (length m) <= 4096) as Hm'. { apply inj_le in Hm. exact Hm. }
  rewrite (nl_recv_request_eq _ _ _ _ _ _ _ _ Hs Hc Hn) by (try exact Hm; lia).
  apply parse_short_access; try done; [rewrite length_drop; lia|]. fold m. cint.
Qed.

Lemma short_access_leaks_witness :
  nl_recv_request (replicate 100 Byte.xaa) 1024 nl_idle
    (nl_world [1] [encode_msg 0x1d 0 9 5 AVERY_CMD_REQUEST [(AVERY_ATTR_OP, zeros 4)]] []) =
  Ok 0 (NlState 0x1d 5 9 (zeros 4 ++ replicate 12 Byte.xaa)) (nl_world [] [] []).
Proof.
  apply (short_access_leaks (replicate 100 Byte.xaa) 1024 nl_idle
    (nl_world [1] [encode_msg 0x1d 0 9 5 AVERY_CMD_REQUEST [(AVERY_ATTR_OP, zeros 4)]] []) 1 [] [] 1 0x1d 0 9 5 [] (zeros 4));
    [reflexivity|lia|reflexivity| |apply Nat.leb_le; vm_compute; reflexivity|done|done|constructor|constructor|simpl; lia
    |simpl; lia].
  apply Nat.leb_le. vm_compute. reflexivity.
Defined.

(** C38: The lengths inside a request are not checked against what was received: when the
    first attribute is not the access and ends beyond the 4096 bytes of the buffer, and
    the header announces even more, the next attribute is read outside the buffer, which
    is undefined behaviour. *)
Theorem oversized_attribute_overruns junk4096 fuel g w c sched ms ver type flags sq pid len ty tail n :
  let m := msg_buf ver type flags sq pid AVERY_CMD_REQUEST (le_encode 2 len ++ le_encode 2 ty ++ tail) [] n in
  w_sched w = c :: sched -> 0 < c -> w_nlin w = m :: ms -> (length m <= 4096)%nat -> length junk4096 = 4096%nat ->
  u32 sq -> u32 pid -> u16 ty -> ty <> AVERY_ATTR_OP -> 4076 < len < 2 ^ 16 -> len + 24 <= n < 2 ^ 31 ->
  (2 <= fuel)%nat ->
  nl_recv_request junk4096 fuel g w = UB.
Proof.
  intros m Hs Hc Hn Hm Hj Hsq Hpid Hty Hne Hlen Hnn Hf.
  assert (0 < length m)%nat as H0 by (unfold m, msg_buf; rewrite !length_app, !length_le_encode; lia).
  rewrite (nl_recv_request_eq _ _ _ _ _ _ _ _ Hs Hc Hn H0 Hm).
  assert (length (m ++ drop (length m) junk4096) = 4096%nat) as Hb.
  { rewrite length_app, length_drop. lia. }
  assert (m ++ drop (length m) junk4096 =
    msg_buf ver type flags sq pid AVERY_CMD_REQUEST (le_encode 2 len ++ le_encode 2 ty ++ tail) (drop (length m) junk4096) n) as E.
  { unfold m at 1, msg_buf. by rewrite app_nil_r, <- !app_assoc. }
  rewrite E. apply parse_overrun; try done; [by cint| |]; rewrite NLA_ALIGN_eq.
  - rewrite <- E, Hb. change (Z.of_nat 4096) with 4096. Z.div_mod_to_equations; lia.
  - Z.div_mod_to_equations; lia.
Qed.

Lemma oversized_attribute_overruns_witness :
  nl_recv_request (replicate 4096 Byte.x00) 1024 nl_idle
    (nl_world [1] [msg_buf 1 0x1d 0 9 5 AVERY_CMD_REQUEST (le_encode 2 5000 ++ le_encode 2 7 ++ []) [] 6000] []) = UB.
Proof.
  apply (oversized_attribute_overruns (replicate 4096 Byte.x00) 1024 nl_idle
    (nl_world [1] [msg_buf 1 0x1d 0 9 5 AVERY_CMD_REQUEST (le_encode 2 5000 ++ le_encode 2 7 ++ []) [] 6000] []) 1 [] []
    1 0x1d 0 9 5 5000 7 [] 6000);
    [reflexivity|lia|reflexivity| |reflexivity|done|done|done|done|lia|lia|lia].
  apply Nat.leb_le. vm_compute. reflexivity.
Defined.

(** ** What the daemon sends *)

(** C39: The response is a well-formed datagram of 40 bytes: a receiver that walks its
    attributes finds the access as the first one, with exactly the 16 bytes sent, and
    the header carries the length, the family and the sequence number of the request. *)
Theorem response_readback family pid sq op :
  length op = 16%nat ->
  exists m, response_msg family pid sq op = Some m /\ length m = 40%nat /\
    load 0 4 m = Some (le_encode 4 40) /\ load 4 2 m = Some (le_encode 2 family) /\
    load 8 4 m = Some (le_encode 4 sq) /\ load 16 1 m = Some (le_encode 1 AVERY_CMD_RESPONSE) /\
    attr_walk 1 m 20 (attr_bytes 40) AVERY_ATTR_OP = Found 20 /\
    load (20 + NLA_HDRLEN) 16 m = Some op.
Proof.
  intros Hl. eexists. split; [by apply response_msg_encode|].
  do 17 (destruct op as [|? op]; try (simpl in Hl; lia)). unfold encode_msg, genl_msg.
  change (le_encode 4 sq) with [byte_of_Z sq; byte_of_Z (sq / 256); byte_of_Z (sq / 256 / 256); byte_of_Z (sq / 256 / 256 / 256)].
  change (le_encode 4 pid) with [byte_of_Z pid; byte_of_Z (pid / 256); byte_of_Z (pid / 256 / 256); byte_of_Z (pid / 256 / 256 / 256)].
  change (le_encode 2 family) with [byte_of_Z family; byte_of_Z (family / 256)].
  generalize (byte_of_Z sq) (byte_of_Z (sq / 256)) (byte_of_Z (sq / 256 / 256)) (byte_of_Z (sq / 256 / 256 / 256)).
  generalize (byte_of_Z pid) (byte_of_Z (pid / 256)) (byte_of_Z (pid / 256 / 256)) (byte_of_Z (pid / 256 / 256 / 256)).
  generalize (byte_of_Z family) (byte_of_Z (family / 256)).
  intros. repeat (split; [vm_compute; reflexivity|]). vm_compute. reflexivity.
Qed.

Lemma response_readback_witness :
  exists m, response_msg 0x1d 42 9 (to_bytes nl_ans) = Some m /\ length m = 40%nat /\
    load 24 16 m = Some (to_bytes nl_ans).
Proof.
  assert (length (to_bytes nl_ans) = 16%nat) as Hl by reflexivity.
  destruct (response_readback 0x1d 42 9 (to_bytes nl_ans) Hl) as (m & H1 & H2 & _ & _ & _ & _ & _ & H8).
  exists m. split; [exact H1|]. split; [exact H2|exact H8].
Defined.

(** The daemon learns its family from the controller: it sends the query for the
    name AVERY_DOE, and from any well-formed reply, wherever the family identifier stands
    among the attributes, it returns that identifier. *)
Theorem family_learned junk8192 fuel g w mypid c2 c3 sched ver type flags sq pid cmd skipped id rest ms :
  let m := genl_msg ver type flags sq pid cmd (skipped ++ (CTRL_ATTR_FAMILY_ID, le_encode 2 id) :: rest) in
  w_sched w = mypid :: c2 :: c3 :: sched -> 0 <= c2 -> 0 < c3 -> w_nlin w = m :: ms ->
  Forall attr_ok skipped -> Forall (fun a => fst a <> CTRL_ATTR_FAMILY_ID) skipped ->
  (length skipped < fuel)%nat -> (length m <= reply_size)%nat -> u16 id ->
  wp (nl_get_family_id junk8192 fuel)
     (fun r g' w' => r = id /\ g' = g /\ w_nlin w' = ms /\ w_nlout w' = w_nlout w ++ [query_datagram mypid]) never g w.
Proof.
  intros m Hs Hc2 Hc3 Hn Hok Hne Hf Hm Hid.
  eapply wp_mono; [by eapply nl_get_family_id_ok|..]; [|done]. cbn beta. intros r g' w' (?&?&?&?&?). done.
Qed.

Lemma family_learned_witness :
  wp (nl_get_family_id [] 8) (fun r g' w' => r = 0x1d) never nl_idle
     (nl_world [42; 40; 100]
        [genl_msg 2 0x10 0 1 42 1 ([(CTRL_ATTR_FAMILY_NAME, family_name_bytes)] ++ [(CTRL_ATTR_FAMILY_ID, le_encode 2 0x1d)])] []).
Proof.
  eapply wp_mono; [apply (family_learned [] 8 nl_idle _ 42 40 100 [] 2 0x10 0 1 42 1
      [(CTRL_ATTR_FAMILY_NAME, family_name_bytes)] 0x1d [] [])|..];
    [reflexivity|lia|lia|reflexivity|by constructor|by constructor|simpl; lia| |done| |done].
  - apply Nat.leb_le. vm_compute. reflexivity.
  - cbn beta. intros r g' w' [H _]. exact H.
Defined.

(** C40: An empty reply is not noticed: only a negative result of [recv] is an error, so after a
    result of 0 the identifier is looked for in the uninitialised buffer, and one that
    stands there by chance is taken for the family. *)
Theorem family_from_stale_buffer fuel g w mypid c2 sched ver type flags sq pid cmd skipped id rest junk :
  let m := genl_msg ver type flags sq pid cmd (skipped ++ (CTRL_ATTR_FAMILY_ID, le_encode 2 id) :: rest) in
  w_sched w = mypid :: c2 :: 0 :: sched -> 0 <= c2 ->
  Forall attr_ok skipped -> Forall (fun a => fst a <> CTRL_ATTR_FAMILY_ID) skipped ->
  (length skipped < fuel)%nat -> (length m <= reply_size)%nat -> u16 id ->
  wp (nl_get_family_id (m ++ junk) fuel) (fun r g' w' => r = id /\ w_nlin w' = w_nlin w) never g w.
Proof.
  intros m Hs Hc2 Hok Hne Hf Hm Hid.
  unfold nl_get_family_id, sys. do 2 apply wp_bind. unfold wp at 1, next. rewrite Hs.
  apply wp_bind, wp_emit, wp_ret, wp_bind. eapply wp_checked; [apply family_query_encode|].
  apply wp_bind. unfold wp at 1, sys_sendto_msg. cbn [w_sched add_event set_sched].
  destruct (Z.ltb_spec c2 0); [lia|].
  match goal with |- context [Z.of_nat ?k <? 0] => destruct (Z.ltb_spec (Z.of_nat k) 0); [lia|] end.
  apply wp_bind. unfold wp at 1, sys_recv_msg. cbn [w_sched add_event set_sched set_nlout].
  change (0 <=? 0) with true. unfold received, wp.
  change (@nil byte ++ drop (length (@nil byte)) (m ++ junk)) with (m ++ junk).
  change (0 <? 0) with false. cbn beta iota. by rewrite (parse_family_ok fuel ver type flags sq pid cmd skipped id rest).
Qed.

Lemma family_from_stale_buffer_witness :
  wp (nl_get_family_id (genl_msg 2 0x10 0 1 42 1 ([] ++ [(CTRL_ATTR_FAMILY_ID, le_encode 2 0x2a)]) ++ []) 8)
     (fun r g' w' => r = 0x2a /\ w_nlin w' = []) never nl_idle (nl_world [42; 40; 0] [] []).
Proof.
  apply (family_from_stale_buffer 8 nl_idle (nl_world [42; 40; 0] [] []) 42 40 [] 2 0x10 0 1 42 1 [] 0x2a [] []);
    [reflexivity|lia|by constructor|by constructor|simpl; lia| |done].
  apply Nat.leb_le. vm_compute. reflexivity.
Defined.

(** Registration sends one datagram to the kernel, the bare REGISTER command of the
    daemon's family, 20 bytes long, and reports it whatever [sendto] returns. *)
Theorem registration_sent g w mypid c sched :
  w_sched w = mypid :: c :: sched ->
  wp nl_register_daemon
     (fun _ g' w' => g' = g /\
        w_nlout w' = w_nlout w ++
          (if c <? 0 then [] else [encode_msg (family_id g) NLM_F_REQUEST 1 mypid AVERY_CMD_REGISTER []]) /\
        exists tr, w_trace w' = w_trace w ++ tr ++ [EvPrint "REGISTER sent to kernel" []])
     never g w.
Proof.
  intros Hs. eapply wp_mono; [by eapply nl_register_ok|..]; [|done]. cbn beta. intros _ g' w' (?&?&?&?&?). done.
Qed.

Lemma registration_sent_witness :
  wp nl_register_daemon
     (fun _ g' w' => w_nlout w' = [encode_msg 0x1d NLM_F_REQUEST 1 42 AVERY_CMD_REGISTER []])
     never nl_idle (nl_world [42; 20] [] []).
Proof.
  eapply wp_mono; [apply (registration_sent nl_idle _ 42 20 []); reflexivity|..]; [|done].
  cbn beta. intros _ g' w' (_ & H & _). exact H.
Defined.
