(* ===== verification/HeaderProps.v ===== *)
(** * Properties of the installed headers

    The field macros of include/linux/pci_regs.h and the byte swaps of
    include/linux/swab.h. *)
From S2P Require Import Prelude Bytes PciRegs PciSpace Byteorder.

Lemma pci_extractors_fields : Forall (fun e => is_field (snd e) = true) pci_extractors.
Proof. repeat constructor. Qed.

(** Every macro of pci_regs.h that takes a field out of a register reads back
    exactly the value stored under the field's mask, whatever the register held, and
    the store leaves all other bits of the register as they were. *)
Theorem pci_field_macros extract mask v w :
  In (extract, mask) pci_extractors -> 0 <= v < 2 ^ field_width mask ->
  extract (field_put mask v w) = v /\ Z.ldiff (field_put mask v w) mask = Z.ldiff w mask.
Proof.
  intros Hin Hv.
  pose proof (proj1 (List.Forall_forall _ _) pci_extractors_get _ Hin) as Hg.
  pose proof (proj1 (List.Forall_forall _ _) pci_extractors_fields _ Hin) as Hf.
  cbn [fst snd] in Hg, Hf. rewrite Hg. auto using field_get_put, field_put_other.
Qed.

Lemma pci_field_macros_witness :
  PCI_EXT_CAP_VER (field_put 0xf0000 2 0x1501002e) = 2.
Proof. apply (pci_field_macros PCI_EXT_CAP_VER 0xf0000); [cbn; tauto|split; [lia|reflexivity]]. Defined.

(** Whichever way a byte swap is expanded (builtin, constant macro or inline
    function), swapping a 16-, 32- or 64-bit value in place reverses its bytes in
    memory and touches no other byte, and swapping it again, expanded in any way,
    restores memory. *)
Theorem swaps_reverse_memory e e' mem p :
  (p + 8 <= length mem)%nat ->
  (swab16s e mem p = Some (reverse_at 2 p mem) /\ (swab16s e mem p ≫= fun m => swab16s e' m p) = Some mem) /\
  (swab32s e mem p = Some (reverse_at 4 p mem) /\ (swab32s e mem p ≫= fun m => swab32s e' m p) = Some mem) /\
  (swab64s e mem p = Some (reverse_at 8 p mem) /\ (swab64s e mem p ≫= fun m => swab64s e' m p) = Some mem).
Proof.
  intros H. rewrite swab16s_reverse, swab32s_reverse, swab64s_reverse by lia. cbn [mbind option_bind].
  rewrite swab16s_reverse, swab32s_reverse, swab64s_reverse by (rewrite length_reverse_at; lia).
  by rewrite !reverse_at_involutive by lia.
Qed.

Lemma swaps_reverse_memory_witness :
  swab32s Inline (le_encode 4 0x12345678 ++ le_encode 4 0) 0 = Some (le_encode 4 0x78563412 ++ le_encode 4 0).
Proof.
  destruct (swaps_reverse_memory Inline Constant (le_encode 4 0x12345678 ++ le_encode 4 0) 0) as (_ & [H _] & _);
    [vm_compute; lia|rewrite H; reflexivity].
Defined.
